(* ===== verification/_CoqProject ===== *)
-Q . S2P
Prelude.v
Std.v
Extern.v
Crypto.v
Tls.v
Net.v
Udp.v
Listener.v
Proxy.v
Common.v
TargetAddr.v
Socks5.v
Inlet.v
Ends.v
Outlet.v
Tunnel.v
Link.v
Messages.v
Bridge.v
Framing.v
Client.v
Str.v
Connect.v
Service.v
Build.v
Generated.v
Server.v
Tunnels.v
Upkeep.v
Players.v
Web.v
Start.v
Boot.v
Peer.v
System.v
Stranger.v
Streams.v
Relay.v
Order.v
Follow.v
Announce.v
