(* ===== verification/Prelude.v ===== *)
(** * A verification library for npipe

    npipe carries TCP, UDP and SOCKS5 traffic between machines through a
    server. A _tunnel_ has a receiving end, the _inlet_, that listens
    ([np_base/src/proxy/inlet.rs]), and a sending end, the _outlet_, that
    connects to the target ([np_base/src/proxy/outlet.rs]). Both speak
    [ProxyMessage]s ([proxy/mod.rs]): the inlet's [I2o] messages request a
    connection, carry data and acknowledge what came back; the outlet's [O2i]
    messages are their counterparts. Clients ([np_client/src/client.rs]) run
    the ends assigned to them and hold one connection each to the server, over
    which tunnel messages travel as protobuf messages ([np_proto/src]) in
    frames; the server ([np_server/src]) logs clients in and passes each
    message to the player at the other end of its tunnel, or to an end it runs
    itself. Players and tunnels live in a database and in the tables of two
    managers, which an administrator changes through a web interface.

    ** Files

    - [Prelude]: outcomes of calls ([Ok], [Err], a [Panic] that unwinds the
      task, [Pending] for a wait whose condition does not hold), the monad
      [M S A] of calls on a state [S] (a failing call keeps the state it
      reached, as an early return by [?] does), [after], [preserves] and
      [safe] to reason about calls, integers at their width, bytes, strings as
      their UTF-8 bytes, tactics and the hint database [npipe].
    - [Std]: what the code uses of Rust's standard library, as functions:
      UTF-8 validation, numbers, socket addresses with [Display] and [FromStr].
    - [Extern]: the third-party crates as classes with their documented laws
      (lz4_flex, simplestcrypt, base64, rand), each with a concrete instance.
    - [Crypto]: [proxy/crypto.rs]. [Tls]: [net/tls.rs].
    - [Net]: [net/mod.rs], [net/session_delegate.rs] (the trait is the class
      [SessionDelegate], which the inlet's and the outlet's sessions and the
      server's peers implement) and [net/tcp_session.rs]: [poll_write] over an
      arbitrary writer, [poll_read] with its unpacking loop, and [run] as the
      sequence of the events that wake a session's task. tokio's [BufWriter] is
      the class [BufWriter]: what it delivered and what waits in it. A close of
      a session that waits is a phase of its own ([Closing]).
    - [Udp]: [net/udp_session.rs] and [net/udp_server.rs]: a session's loops
      with its idle timeout, and the server's table of addresses.
    - [Listener]: [net/tcp_server.rs]: the builder, the accept loop, the
      handshake of TLS and the end of the server with its wait.
    - [Proxy]: [ProxyMessage], [InletProxyType], and [env], the state that the
      tasks of one proxy end share: the counters behind [Arc<RwLock<usize>>],
      the channels of writers and of SOCKS5 sessions, the output channel.
      Components that contain an [env] are instances of [HasEnv], and the
      calls on channels and counters are written once against that interface.
    - [Common]: [proxy/common.rs]: encoding, decoding, flow control.
    - [TargetAddr], [Socks5]: [proxy/socks5/*.rs]; [Status] is the state
      machine of a session, one Definition per state handles a frame.
    - [Inlet], [Outlet]: the two ends: their session maps, every message they
      take ([input_internal]), their delegates, their start and stop. [Ends]:
      what the client and the server share in running a set of them.
    - [Tunnel]: the two ends composed through their messages: how a session is
      announced and set up, and each turn of a task as one equation.
    - [Link]: the tasks of one session at both ends as a step relation with
      labels ([link_step]): a reader reads a frame, a message task takes a
      message of the other end, a write loop takes a message and runs its
      callback, in any order; with the specification [spec_step], a first-in
      first-out queue of frames each way. The messages between the ends are
      taken to arrive in order, which is what [Relay] shows the server to give.
    - [Messages], [Bridge], [Framing]: [np_proto/src] and the frame format;
      prost is the class [Prost], with the round trip of its derived encoding.
    - [Build]: the code generator [np_proto/build.rs], over a file system;
      [Generated]: the .proto files of the repository and [message_map.rs].
    - [Client]: [np_client/src/client.rs]; [Connect]: its connection and the
      loop of [np_client/src/main.rs]; [Service]: the rest of [main.rs] and the
      Windows service of [winservice.rs].
    - [Str]: [np_server/src/utils/str.rs].
    - [Server]: players, the tables of the server and the routing of tunnel
      messages; the database is the class [UserDb].
    - [Tunnels], [Players]: [global/manager/tunnel.rs], [proxy.rs] and
      [player.rs]: what an administrator does to the tables, with the notices
      it causes; [TunnelDb] and [UserAdmin] are what they ask of the database.
      An addition and an update are given in one piece and in the pieces
      between which other tasks may run. [Upkeep]: the ends the server runs
      itself against its table, whatever their descriptions are made of.
    - [Web]: [np_server/src/web]: requests, the session check and the handlers.
      [Announce]: an addition over the web with what its players are queued.
    - [Start]: [global/mod.rs] and [main.rs]: how the managers and the servers
      come up; [Boot]: [main] from the command line ([global/opts.rs]) and the
      configuration file ([global/config.rs]) on.
    - [Peer]: [np_server/src/peer]: the delegate of a client's connection.
    - [System]: any number of peers, the web interface and the ends the server
      runs itself on one set of managers, one whole call after the other; the
      turns in which these ends take their input are events too, with the
      sessions they have then given. [Stranger]: what a connection without a
      login does to such an inlet. [Order]: what these calls do to the queues of
      the connections.
    - [Streams]: the read loop on a stream of frames in any pieces, and the
      write loop on a queue, as the two sides of a connection (the class [Wire]
      is the client's unbuffered writer; the server's is a [BufWriter]). [Relay]: client, connection, server,
      connection, client, for tunnel messages; [Follow]: the same way for the
      login and for the notices an administrator's changes cause.

    Definitions keep the names of the code; a prefix ([inlet_], [outlet_],
    [peer_], [player_], [web_], [udp_], [server_]) tells apart methods of the
    same name.

    ** What is proved

    - The way through the server: what one client's ends put out reaches the
      ends of another unchanged and in order, through two connections that
      deliver it in any pieces ([tunnel_crosses_server]); a client's table of
      tunnels follows the server's from its login on, whatever an administrator
      does ([client_follows_server]). Meanwhile other connections, logins and
      the interface neither lose, repeat nor reorder what the server queues
      ([messages_keep_order]).
    - The tunnel: in every interleaving of its tasks a session refines two
      queues, so that data crosses it unchanged, whole and in order
      ([tunnel_refines_queues]); it drains and never blocks, the counters of
      the flow control returning to zero ([tunnel_drains]); and a session the
      inlet announces is set up that way by the outlet
      ([tunnel_connects]); decoding inverts encoding ([decode_encode]); the
      counter of bytes in flight is exact and bounded in every interleaving
      ([flow_control]); messages about one session touch no other
      ([inlet_isolation], [inlet_close], [outlet_disconnect]).
    - SOCKS5: nothing leaves an inlet with credentials before they are given
      ([socks5_authenticates]); a well-behaved client is served whatever the
      segmentation, or kept waiting for a request that names an empty domain
      ([socks5_handshake]); addresses round-trip and their parser
      is total ([read_address_to_be_bytes], [read_address_correct]).
    - Sessions and listeners: the loops' functional behaviour, termination,
      independence of segmentation, and a close exactly once ([Net]); what
      reaches a stream, up to the last flush ([poll_write_correct]); datagrams
      reach the session of their sender and a session idle for more than ten
      seconds is ended ([udp_server_routes], [udp_idle_timeout]); a listener
      ends only with its sessions ([tcp_server_ends]), which nothing holds up
      but a session whose start or close waits ([tcp_server_drains]).
    - The protocol: frames and messages round-trip ([frame_roundtrip],
      [proxy_message_roundtrip]); what is received is well typed
      ([received_typed]). Its code generator keeps the lines of the files it
      changes, after an interrupted run too, though not every text that holds
      them ([generator_recovers]); the code in the repository is what it makes
      of the files there, given libraries that match these patterns on these
      lines as they say
      ([message_map_up_to_date]).
    - The client: it logs in to the server it was given, verified
      ([tls_before_login]); synchronisation leaves exactly the ends the server
      lists ([sync_tunnels_correct]), nothing happens before the login, and
      nothing runs after the connection ([login_required],
      [disconnect_stops_all]).
    - The server: it comes up as its file and its database say ([server_comes_up]);
      whatever bytes clients send and whatever the web interface is asked, in
      any order, nothing panics but an end's input task at a message that is
      fatal to it ([server_panics_exactly]), which anybody can send
      ([stranger_panics_inlet]); a login is answered on
      every branch and a second one takes the player over ([login_answered],
      [takeover]); tunnel messages are relayed byte for byte or their sender
      told ([server_relays], [offline_told]).
    - Administration: called one after the other, the managers keep the tables
      consistent with the database and with the ends that run
      ([tunnels_consistent], [manager_calls], [web_consistent]); queries page
      through them ([query_pages]); players are registered and removed ([add_player_correct],
      [delete_player_correct]); the web interface does nothing without a login
      ([web_requires_login]), shows what it was given and tells the players
      concerned ([web_tunnel_roundtrip], [web_tunnel_listed]).
    - Behaviour worth knowing, stated as it is: [inlet_panics],
      [stranger_panics_inlet], [add_race], [ambiguous_description],
      [failed_start_wedges], [verification_panics], [udp_relay],
      [unauthenticated_push], [deleted_tunnel_keeps_running],
      [stale_outlet_drops], [update_race], [ipv6_sources_conflict],
      [update_player_ignores_name], [ipv6_server_refused], [tls_files_missing].

    ** Conventions and bounds

    Handles name channels, counters and shared objects in an [env] or a world;
    a fresh handle is the next number. Unbounded channels are queues; waiting
    for room in the bounded output channel is left to the scheduler, and a
    write-completion callback, which only sends one message, is represented by
    that message. [unpack] takes one turn of fuel per buffered byte and one
    more, which [unpack_terminates] shows to be enough. Other loops are
    structural: over the messages received, over the reads completed, over the
    draws of an id that registration allows. A [Panic] ends the task that
    panics; the release profile of [Cargo.toml] aborts the process instead, so
    that a theorem that excludes a panic says more there. In [System] an event
    is one whole call; calls that wait for the database can be interleaved in
    the program, and [Tunnels] models that for an addition ([add_race]) and an
    update ([update_race]). The tasks of the sessions of the ends the server
    runs itself are no events of [System]: the ends' own files have them. Names
    of files and functions in brackets are under [src/].

    ** Not modelled

    What the code leaves to libraries is a parameter: sockets, TLS, the
    database, serde, actix's middleware and cookies, md5, the clock, clap, the
    loggers, the service manager, heck, regex and prost_build. Not modelled at
    all: the options of the connection pool, [np_test], an experiment outside
    the product, and the test in [np_base/src/proxy/mod.rs]. Sleeps, timeouts
    and keep-alives appear only where they change what is sent or what a call
    answers. In [Relay] and [Follow] the two clients and the server take turns
    by whole streams: what other connections do meanwhile is left to [Order]. *)

From Stdlib Require Export ZArith Lia.
From stdpp Require Export base numbers list gmap strings fin_maps.

#[global] Open Scope Z_scope.

(** ** Machine integers

    An unsigned w-bit integer is a [Z]; a cast writes its wrap-around. *)

Abbreviation u8 := Z (only parsing).
Abbreviation u16 := Z (only parsing).
Abbreviation u32 := Z (only parsing).
Abbreviation i32 := Z (only parsing).
Abbreviation usize := Z (only parsing).
Abbreviation bytes := (list Z) (only parsing).

Definition in_u8 (x : Z) : Prop := 0 <= x < 256.
Definition in_u16 (x : Z) : Prop := 0 <= x < 65536.
Definition in_u32 (x : Z) : Prop := 0 <= x < 4294967296.
Definition in_i32 (x : Z) : Prop := -2147483648 <= x < 2147483648.
Definition in_usize (x : Z) : Prop := 0 <= x < 18446744073709551616.

(** [x as u8], [x as u16], [x as u32], [x as i32]. *)
Definition as_u8 (x : Z) : u8 := x mod 256.
Definition as_u16 (x : Z) : u16 := x mod 65536.
Definition as_u32 (x : Z) : u32 := x mod 4294967296.
Definition as_i32 (x : Z) : i32 :=
  let y := x mod 4294967296 in if y <? 2147483648 then y else y - 4294967296.

Definition bytes_ok (bs : bytes) : Prop := Forall in_u8 bs.

(** ** Outcome of a call

    [Err] is an [anyhow::Error] (its message), [Panic] unwinds the task, and
    [Pending] is a future whose awaited condition does not hold yet. *)

Inductive outcome (A : Type) : Type :=
| Ok (a : A)
| Err (e : string)
| Panic (why : string)
| Pending.
Arguments Ok {A} a.
Arguments Err {A} e.
Arguments Panic {A} why.
Arguments Pending {A}.

#[export] Instance outcome_ret : MRet outcome := λ A a, Ok a.
#[export] Instance outcome_bind : MBind outcome := λ A B f m,
  match m with
  | Ok a => f a
  | Err e => Err e
  | Panic w => Panic w
  | Pending => Pending
  end.

#[export] Instance outcome_eq_dec `{EqDecision A} : EqDecision (outcome A).
Proof. solve_decision. Defined.

Definition is_ok {A} (o : outcome A) : bool :=
  match o with Ok _ => true | _ => false end.
Definition is_panic {A} (o : outcome A) : bool :=
  match o with Panic _ => true | _ => false end.

(** [slice[i]]: a panic out of range. *)
Definition index {A} (l : list A) (i : Z) : outcome A :=
  if i <? 0 then Panic "index out of bounds"
  else match l !! Z.to_nat i with
       | Some x => Ok x
       | None => Panic "index out of bounds"
       end.

Definition len {A} (l : list A) : usize := Z.of_nat (length l).

(** [slice[a..b]]: a panic when [a > b] or [b] is beyond the end. *)
Definition slice {A} (l : list A) (a b : Z) : outcome (list A) :=
  if b <? a then Panic "slice index starts after its end"
  else if len l <? b then Panic "range end index out of range"
  else Ok (take (Z.to_nat (b - a)) (drop (Z.to_nat a) l)).

(** [slice[a..]] *)
Definition slice_from {A} (l : list A) (a : Z) : outcome (list A) := slice l a (len l).

(** ** Stateful calls

    A call threads its state; the state reached is kept when the call fails,
    as it is when Rust returns early with [?]. *)

Definition M (S A : Type) : Type := S → outcome A * S.

#[export] Instance M_ret {S} : MRet (M S) := λ A a s, (Ok a, s).
#[export] Instance M_bind {S} : MBind (M S) := λ A B f m s,
  match m s with
  | (Ok a, s') => f a s'
  | (Err e, s') => (Err e, s')
  | (Panic w, s') => (Panic w, s')
  | (Pending, s') => (Pending, s')
  end.

Definition get {S} : M S S := λ s, (Ok s, s).
Definition put {S} (s' : S) : M S unit := λ _, (Ok tt, s').
Definition modify {S} (f : S → S) : M S unit := λ s, (Ok tt, f s).
Definition gets {S A} (f : S → A) : M S A := λ s, (Ok (f s), s).
Definition bail {S A} (e : string) : M S A := λ s, (Err e, s).
Definition lift {S A} (o : outcome A) : M S A := λ s, (o, s).

(** [let _ = call;]: the error is dropped, a panic is not. *)
Definition ignore {S A} (m : M S A) : M S unit := λ s,
  match m s with
  | (Ok _, s') | (Err _, s') => (Ok tt, s')
  | (Panic w, s') => (Panic w, s')
  | (Pending, s') => (Pending, s')
  end.

(** [if let Err(err) = call { handler }]. *)
Definition on_err {S A} (m : M S A) (h : string → M S unit) : M S unit := λ s,
  match m s with
  | (Ok _, s') => (Ok tt, s')
  | (Err e, s') => h e s'
  | (Panic w, s') => (Panic w, s')
  | (Pending, s') => (Pending, s')
  end.

Definition when {S} (b : bool) (m : M S unit) : M S unit :=
  if b then m else mret tt.

(** [after m s Q]: running [m] from [s] ends with an outcome and a state in [Q],
    whatever the outcome. *)
Definition after {S A} (m : M S A) (s : S) (Q : outcome A → S → Prop) : Prop :=
  let '(o, s') := m s in Q o s'.

(** [I] survives [m], on its error paths too. *)
Definition preserves {S A} (I : S → Prop) (m : M S A) : Prop :=
  ∀ s, I s → after m s (λ _, I).

(** [m] does not panic from [I], and keeps it. *)
Definition safe {S A} (I : S → Prop) (m : M S A) : Prop :=
  ∀ s, I s → after m s (λ o s', is_panic o = false ∧ I s').

Section After.
Context {S A B : Type}.
Implicit Types (s : S) (m : M S A).

Lemma after_run m s o s' (Q : outcome A → S → Prop) :
  m s = (o, s') → after m s Q → Q o s'.
Proof. unfold after. by intros ->. Qed.

Lemma after_mono m s (P Q : outcome A → S → Prop) :
  after m s P → (∀ o s', P o s' → Q o s') → after m s Q.
Proof. unfold after. destruct (m s). auto. Qed.

Lemma after_bind m (f : A → M S B) s (Q : outcome B → S → Prop) :
  after m s (λ o s', match o with
                     | Ok a => after (f a) s' Q
                     | Err e => Q (Err e) s'
                     | Panic w => Q (Panic w) s'
                     | Pending => Q Pending s'
                     end) →
  after (m ≫= f) s Q.
Proof. unfold after, mbind, M_bind. by destruct (m s) as [[| | |] ?]. Qed.

Lemma after_lift (o : outcome A) s (Q : outcome A → S → Prop) :
  Q o s → after (lift o) s Q.
Proof. done. Qed.

Lemma bind_ok m (f : A → M S B) s a s1 : m s = (Ok a, s1) → (m ≫= f) s = f a s1.
Proof. unfold mbind, M_bind. by intros ->. Qed.

Lemma lift_bind (a : A) (f : A → M S B) s : (lift (Ok a) ≫= f) s = f a s.
Proof. done. Qed.

Lemma gets_bind (g : S → A) (f : A → M S B) s : (gets g ≫= f) s = f (g s) s.
Proof. done. Qed.

Lemma after_gets (g : S → A) (f : A → M S B) s Q : after (f (g s)) s Q → after (gets g ≫= f) s Q.
Proof. done. Qed.

Lemma safe_bind I m (f : A → M S B) : safe I m → (∀ a, safe I (f a)) → safe I (m ≫= f).
Proof.
  intros Hm Hf s Hs. apply after_bind. apply (after_mono _ _ _ _ (Hm s Hs)).
  intros [a| | |] s' [Hp Hs']; [by apply Hf|done..].
Qed.

Lemma safe_const I m : (∀ s, snd (m s) = s ∧ is_panic (fst (m s)) = false) → safe I m.
Proof.
  intros Hm s Hs. unfold after. specialize (Hm s). destruct (m s), Hm as [Hs' ?]. cbn in *. by subst.
Qed.

Lemma safe_modify I (f : S → S) : (∀ s, I s → I (f s)) → safe I (modify f).
Proof. intros Hf s Hs. split; [done|by apply Hf]. Qed.

Lemma safe_ignore I m : safe I m → safe I (ignore m).
Proof.
  intros Hm s Hs. specialize (Hm s Hs). unfold after, ignore in *. by destruct (m s) as [[] ?].
Qed.

Lemma preserves_bind I m (f : A → M S B) :
  preserves I m → (∀ a, preserves I (f a)) → preserves I (m ≫= f).
Proof.
  intros Hm Hf s Hs. apply after_bind. apply (after_mono _ _ _ _ (Hm s Hs)).
  intros [a| | |] s' Hs'; [by apply Hf|done..].
Qed.

Lemma preserves_const I m : (∀ s, snd (m s) = s) → preserves I m.
Proof. intros Hm s Hs. unfold after. specialize (Hm s). destruct (m s). cbn in *. by subst. Qed.

Lemma preserves_modify I (f : S → S) : (∀ s, I s → I (f s)) → preserves I (modify f).
Proof. intros Hf s Hs. by apply Hf. Qed.

Lemma preserves_ignore I m : preserves I m → preserves I (ignore m).
Proof.
  intros Hm s Hs. specialize (Hm s Hs). unfold after, ignore in *. by destruct (m s) as [[] ?].
Qed.

Lemma preserves_on_err I m h :
  preserves I m → (∀ e, preserves I (h e)) → preserves I (on_err m h).
Proof.
  intros Hm Hh s Hs. specialize (Hm s Hs). unfold after, on_err in *.
  destruct (m s) as [[] ?]; try done. by apply Hh.
Qed.
End After.

(** ** Big-endian encoding ([byteorder::BigEndian], [to_be_bytes]) *)

Definition be16 (x : Z) : bytes := [as_u8 (Z.shiftr x 8); as_u8 x].
Definition be32 (x : Z) : bytes :=
  [as_u8 (Z.shiftr x 24); as_u8 (Z.shiftr x 16); as_u8 (Z.shiftr x 8); as_u8 x].

Definition read_be (bs : bytes) : Z := fold_left (λ acc b, acc * 256 + b) bs 0.

Lemma be16_length x : length (be16 x) = 2%nat.
Proof. reflexivity. Qed.
Lemma be32_length x : length (be32 x) = 4%nat.
Proof. reflexivity. Qed.

Lemma as_u8_range x : in_u8 (as_u8 x).
Proof. unfold in_u8, as_u8. apply Z.mod_pos_bound. lia. Qed.
Lemma as_u16_range x : in_u16 (as_u16 x).
Proof. unfold in_u16, as_u16. apply Z.mod_pos_bound. lia. Qed.
Lemma as_u32_range x : in_u32 (as_u32 x).
Proof. unfold in_u32, as_u32. apply Z.mod_pos_bound. lia. Qed.
Lemma as_i32_range x : in_i32 (as_i32 x).
Proof.
  unfold in_i32, as_i32. pose proof (Z.mod_pos_bound x 4294967296).
  case_match; lia.
Qed.

Lemma as_u8_id x : in_u8 x → as_u8 x = x.
Proof. intros H. apply Z.mod_small, H. Qed.
Lemma as_u32_id x : in_u32 x → as_u32 x = x.
Proof. intros H. apply Z.mod_small, H. Qed.
Lemma as_u32_succ n : as_u32 (as_u32 n + 1) = as_u32 (n + 1).
Proof. unfold as_u32. now rewrite Zplus_mod_idemp_l. Qed.
Lemma as_i32_of_u32 x : in_i32 x → as_i32 (as_u32 x) = x.
Proof.
  unfold in_i32, as_i32, as_u32. intros H. rewrite Z.mod_mod by lia.
  destruct (Z.ltb_spec (x mod 4294967296) 2147483648); Z.to_euclidean_division_equations; lia.
Qed.

Lemma be16_bytes x : bytes_ok (be16 x).
Proof. repeat constructor; apply as_u8_range. Qed.
Lemma be32_bytes x : bytes_ok (be32 x).
Proof. repeat constructor; apply as_u8_range. Qed.

Lemma read_be16 x : read_be (be16 x) = as_u16 x.
Proof.
  unfold read_be, be16, as_u8, as_u16. cbn [fold_left].
  rewrite Z.shiftr_div_pow2 by lia. change (2 ^ 8) with 256.
  Z.to_euclidean_division_equations; lia.
Qed.

Lemma read_be32 x : read_be (be32 x) = as_u32 x.
Proof.
  unfold read_be, be32, as_u8, as_u32. cbn [fold_left].
  rewrite !Z.shiftr_div_pow2 by lia.
  change (2 ^ 8) with 256; change (2 ^ 16) with 65536; change (2 ^ 24) with 16777216.
  Z.to_euclidean_division_equations; lia.
Qed.

(** ** Strings

    A Rust [String] is its UTF-8 bytes; a Rocq [string] is a sequence of
    8-bit characters, and stands for those bytes. *)

Definition byte_of_ascii (a : Ascii.ascii) : u8 := Z.of_N (Ascii.N_of_ascii a).
Definition ascii_of_byte (b : u8) : Ascii.ascii := Ascii.ascii_of_N (Z.to_N b).

Fixpoint as_bytes (s : string) : bytes :=
  match s with
  | EmptyString => []
  | String a s => byte_of_ascii a :: as_bytes s
  end.

Fixpoint of_bytes (bs : bytes) : string :=
  match bs with
  | [] => EmptyString
  | b :: bs => String (ascii_of_byte b) (of_bytes bs)
  end.

(** [s.len()] *)
Definition str_len (s : string) : usize := len (as_bytes s).
Definition str_is_empty (s : string) : bool := bool_decide (s = "").

Lemma byte_of_ascii_range a : in_u8 (byte_of_ascii a).
Proof.
  unfold in_u8, byte_of_ascii. pose proof (Ascii.N_ascii_bounded a). lia.
Qed.

Lemma ascii_of_byte_of_ascii a : ascii_of_byte (byte_of_ascii a) = a.
Proof.
  unfold ascii_of_byte, byte_of_ascii. rewrite N2Z.id. apply Ascii.ascii_N_embedding.
Qed.

Lemma byte_of_ascii_of_byte b : in_u8 b → byte_of_ascii (ascii_of_byte b) = b.
Proof.
  unfold in_u8, ascii_of_byte, byte_of_ascii. intros H.
  rewrite Ascii.N_ascii_embedding; lia.
Qed.

Lemma as_bytes_ok s : bytes_ok (as_bytes s).
Proof. induction s; constructor; auto using byte_of_ascii_range. Qed.

Lemma of_bytes_as_bytes s : of_bytes (as_bytes s) = s.
Proof. induction s; simpl; [done|]. by rewrite ascii_of_byte_of_ascii, IHs. Qed.

Lemma as_bytes_of_bytes bs : bytes_ok bs → as_bytes (of_bytes bs) = bs.
Proof.
  induction 1; simpl; [done|]. by rewrite byte_of_ascii_of_byte, IHForall.
Qed.

Lemma as_bytes_inj s t : as_bytes s = as_bytes t → s = t.
Proof. intros H. by rewrite <- (of_bytes_as_bytes s), H, of_bytes_as_bytes. Qed.

Lemma as_bytes_app s t : as_bytes (s +:+ t) = as_bytes s ++ as_bytes t.
Proof. induction s; simpl; [done|]. by rewrite IHs. Qed.

Lemma of_bytes_app xs ys : of_bytes (xs ++ ys) = of_bytes xs +:+ of_bytes ys.
Proof. induction xs; simpl; [done|]. by rewrite IHxs. Qed.

(** ** Lengths and slices *)

Lemma filter_ext_in {A} (P Q : A → Prop) `{∀ x, Decision (P x)} `{∀ x, Decision (Q x)} (l : list A) :
  (∀ x, x ∈ l → P x ↔ Q x) → base.filter P l = base.filter Q l.
Proof.
  induction l as [|x l IH]; intros HPQ; [done|].
  assert (base.filter P l = base.filter Q l) as E by (apply IH; intros y ?; apply HPQ; by right).
  destruct (decide (P x)) as [Hp|Hp].
  - rewrite !filter_cons_True; [by rewrite E|apply HPQ; [by left|done]|done].
  - rewrite !filter_cons_False; [done|intros Hq; apply Hp, HPQ; [by left|done]|done].
Qed.

Lemma len_nonneg {A} (l : list A) : 0 <= len l.
Proof. unfold len. lia. Qed.
Lemma len_nil {A} : len (@nil A) = 0.
Proof. reflexivity. Qed.
Lemma len_cons {A} (x : A) l : len (x :: l) = 1 + len l.
Proof. unfold len. cbn [length]. lia. Qed.
Lemma len_app {A} (l k : list A) : len (l ++ k) = len l + len k.
Proof. unfold len. rewrite length_app. lia. Qed.

Lemma index_lookup {A} (l : list A) i x :
  l !! i = Some x → index l (Z.of_nat i) = Ok x.
Proof.
  intros H. unfold index. destruct (Z.ltb_spec (Z.of_nat i) 0); [lia|].
  by rewrite Nat2Z.id, H.
Qed.

Lemma index_ok {A} (l : list A) i :
  0 <= i < len l → ∃ x, index l i = Ok x ∧ l !! Z.to_nat i = Some x.
Proof.
  intros H. unfold index, len in *. destruct (Z.ltb_spec i 0); [lia|].
  destruct (lookup_lt_is_Some_2 l (Z.to_nat i)) as [x ->]; [lia|]. eauto.
Qed.

Lemma index_oob {A} (l : list A) i : len l <= i → is_panic (index l i) = true.
Proof.
  unfold index, len. intros H. destruct (i <? 0); [done|].
  rewrite lookup_ge_None_2 by lia. done.
Qed.

Lemma slice_ok {A} (l : list A) a b :
  0 <= a <= b → b <= len l →
  slice l a b = Ok (take (Z.to_nat (b - a)) (drop (Z.to_nat a) l)).
Proof.
  intros ??. unfold slice. destruct (Z.ltb_spec b a); [lia|].
  destruct (Z.ltb_spec (len l) b); [lia|]. done.
Qed.

Lemma slice_app_mid {A} (l m r : list A) a b :
  a = len l → b = len l + len m → slice (l ++ m ++ r) a b = Ok m.
Proof.
  intros -> ->.
  pose proof (len_nonneg l); pose proof (len_nonneg m); pose proof (len_nonneg r).
  rewrite slice_ok by (rewrite ?len_app; lia).
  unfold len. rewrite Nat2Z.id, drop_app_length.
  replace (Z.to_nat _) with (length m) by lia. by rewrite take_app_length.
Qed.

Lemma slice_app_pre {A} (m r : list A) b :
  b = len m → slice (m ++ r) 0 b = Ok m.
Proof. intros ->. by apply (slice_app_mid []). Qed.

Lemma slice_from_app {A} (l r : list A) a : a = len l → slice_from (l ++ r) a = Ok r.
Proof.
  intros ->. unfold slice_from. rewrite <- (app_nil_r (l ++ r)) at 1. rewrite <- app_assoc.
  apply slice_app_mid; [done|]. by rewrite len_app.
Qed.

(** ** Automation *)

Create HintDb npipe.
Create Rewrite HintDb npipe.
#[export] Hint Resolve as_u8_range as_u16_range as_u32_range as_i32_range
  be16_bytes be32_bytes as_bytes_ok len_nonneg byte_of_ascii_range : npipe.
#[export] Hint Resolve preserves_bind preserves_ignore preserves_on_err : npipe.
#[export] Hint Resolve safe_bind safe_ignore : npipe.
#[export] Hint Extern 1 (safe _ (gets _)) => (apply safe_const; done) : npipe.
#[export] Hint Extern 1 (safe _ (mret _)) => (apply safe_const; done) : npipe.
#[export] Hint Extern 1 (safe _ (bail _)) => (apply safe_const; done) : npipe.
#[export] Hint Extern 2 (safe _ (match ?x with _ => _ end)) => destruct x : npipe.
#[export] Hint Extern 1 (preserves _ (gets _)) => (apply preserves_const; done) : npipe.
#[export] Hint Extern 1 (preserves _ (lift _)) => (apply preserves_const; done) : npipe.
#[export] Hint Extern 1 (preserves _ (mret _)) => (apply preserves_const; done) : npipe.
#[export] Hint Extern 1 (preserves _ (bail _)) => (apply preserves_const; done) : npipe.
#[export] Hint Extern 2 (preserves _ (match ?x with _ => _ end)) => destruct x : npipe.
#[export] Hint Rewrite @len_nil @len_cons @len_app read_be16 read_be32
  of_bytes_as_bytes as_bytes_app : npipe.

(** Unfolds the monad's plumbing in the goal. *)
Ltac mred :=
  unfold mbind, mret, M_bind, M_ret, outcome_bind, outcome_ret,
    get, put, modify, gets, bail, lift, ignore, on_err, when in *; simpl in *.

(** Steps through a call: reads of the state and pure calls are evaluated, a
    condition is split, and the proof stops at the calls that need a lemma. *)
Ltac mstep :=
  match goal with
  | |- after (_ ≫= _) _ _ => apply after_bind
  | |- after (gets _) _ _ => unfold after at 1, gets; cbv beta iota zeta
  | |- after (lift _) _ _ => apply after_lift; cbv beta iota zeta
  | |- after (mret _) _ _ => unfold after at 1, mret, M_ret; cbv beta iota zeta
  | |- after (if ?b then _ else _) _ _ => destruct b eqn:?
  | |- match ?o with Ok _ => _ | Err _ => _ | Panic _ => _ | Pending => _ end =>
      destruct o eqn:?
  end.

(** Splits on the innermost [match] of the goal, and solves trivial cases. *)
Ltac split_match :=
  repeat (case_match; simplify_eq/=; try done).
