(* ===== verification/Std.v ===== *)
(** The parts of Rust's standard library that npipe's logic depends on:
    UTF-8 validation ([String::from_utf8]), decimal and hexadecimal numbers,
    and [std::net]'s socket addresses with their [Display] and [FromStr]. *)

From stdpp Require Import pretty.
From S2P Require Import Prelude.

(** ** UTF-8 ([core::str::from_utf8]) *)

Definition in_range (lo hi b : u8) : bool := (lo <=? b) && (b <=? hi).
Definition is_cont (b : u8) : bool := in_range 128 191 b.

(** The second byte allowed after a three- or four-byte lead. *)
Definition second3 (b1 b2 : u8) : bool :=
  if b1 =? 224 then in_range 160 191 b2
  else if b1 =? 237 then in_range 128 159 b2
  else in_range 225 239 b1 && is_cont b2.
Definition second4 (b1 b2 : u8) : bool :=
  if b1 =? 240 then in_range 144 191 b2
  else if b1 =? 244 then in_range 128 143 b2
  else in_range 241 243 b1 && is_cont b2.

Fixpoint utf8_valid (bs : bytes) : bool :=
  match bs with
  | [] => true
  | b1 :: r1 =>
      if in_range 0 127 b1 then utf8_valid r1
      else match r1 with
      | [] => false
      | b2 :: r2 =>
          if in_range 194 223 b1 then is_cont b2 && utf8_valid r2
          else match r2 with
          | [] => false
          | b3 :: r3 =>
              if in_range 224 239 b1 then second3 b1 b2 && is_cont b3 && utf8_valid r3
              else match r3 with
              | [] => false
              | b4 :: r4 =>
                  in_range 240 244 b1 && second4 b1 b2 && is_cont b3 && is_cont b4
                  && utf8_valid r4
              end
          end
      end
  end.

(** [String::from_utf8] *)
Definition from_utf8 (bs : bytes) : outcome string :=
  if utf8_valid bs then Ok (of_bytes bs) else Err "invalid utf-8 sequence".

(** A Rust [String] holds valid UTF-8. *)
Definition str_ok (s : string) : Prop := utf8_valid (as_bytes s) = true.

(** ** Numbers in text *)

(** [Display] of an unsigned integer. *)
Definition show (n : Z) : string := pretty (Z.to_N n).

(** [{:x}] of a 16-bit segment. *)
Definition hex_digit (d : Z) : u8 := if d <? 10 then 48 + d else 87 + d.
Definition show_hex16 (n : u16) : string :=
  let ds := [n / 4096; n / 256 mod 16; n / 16 mod 16; n mod 16] in
  let fix strip (k : nat) (l : list Z) : list Z :=
    match k, l with
    | S k, d :: l' => if d =? 0 then strip k l' else l
    | _, _ => l
    end in
  of_bytes (hex_digit <$> strip 3%nat ds).

(** [char::to_digit] *)
Definition to_digit (radix : Z) (b : u8) : option Z :=
  let d := if in_range 48 57 b then b - 48
           else if in_range 97 122 b then b - 87
           else if in_range 65 90 b then b - 55
           else radix in
  if d <? radix then Some d else None.

(** ** [core::net]'s parser: a reader takes the bytes left and returns a value
    with the bytes left after it; [None] leaves the input where it was. *)

Definition reader (A : Type) : Type := bytes → option (A * bytes).

(** The digit loop of [read_number]; [bound] is one more than the largest value
    of the target type. *)
Fixpoint read_digits (radix bound : Z) (max_digits : option nat)
    (acc : Z) (count : nat) (bs : bytes) : option (Z * nat * bytes) :=
  match bs with
  | [] => Some (acc, count, [])
  | b :: bs' =>
      match to_digit radix b with
      | None => Some (acc, count, bs)
      | Some d =>
          let acc' := acc * radix + d in
          let count' := S count in
          match max_digits with
          | Some m => if (m <? count')%nat then None
                      else read_digits radix bound max_digits acc' count' bs'
          | None => if bound <=? acc' then None
                    else read_digits radix bound max_digits acc' count' bs'
          end
      end
  end.

Definition read_number (radix bound : Z) (max_digits : option nat)
    (allow_zero_prefix : bool) : reader Z := λ bs,
  let has_leading_zero := match bs with b :: _ => b =? 48 | [] => false end in
  match read_digits radix bound max_digits 0 0 bs with
  | None => None
  | Some (n, count, rest) =>
      if (count =? 0)%nat then None
      else if negb allow_zero_prefix && has_leading_zero && (1 <? count)%nat then None
      else if bound <=? n then None
      else Some (n, rest)
  end.

Definition read_given_char (c : u8) : reader unit := λ bs,
  match bs with
  | b :: bs' => if b =? c then Some (tt, bs') else None
  | [] => None
  end.

Definition read_separator {A} (sep : u8) (i : nat) (inner : reader A) : reader A := λ bs,
  match i with
  | O => inner bs
  | S _ => match read_given_char sep bs with
           | Some (_, bs') => inner bs'
           | None => None
           end
  end.

(** *** Addresses *)

Inductive Ipv4Addr := Ipv4 (a b c d : u8).
(** An IPv6 address is its 16 octets. *)
Definition Ipv6Addr : Type := bytes.

Inductive SocketAddr :=
| V4 (ip : Ipv4Addr) (port : u16)
| V6 (ip : Ipv6Addr) (port : u16) (flowinfo : u32) (scope_id : u32).

#[export] Instance Ipv4Addr_eq_dec : EqDecision Ipv4Addr.
Proof. solve_decision. Defined.
#[export] Instance SocketAddr_eq_dec : EqDecision SocketAddr.
Proof. unfold Ipv6Addr. solve_decision. Defined.

Definition octets4 (ip : Ipv4Addr) : bytes :=
  match ip with Ipv4 a b c d => [a; b; c; d] end.

Fixpoint segments (bs : bytes) : list u16 :=
  match bs with
  | hi :: lo :: bs' => hi * 256 + lo :: segments bs'
  | _ => []
  end.
Definition of_segments (gs : list u16) : Ipv6Addr := mjoin (be16 <$> gs).

(** [SocketAddr::port], [SocketAddr::set_port] *)
Definition sa_port (a : SocketAddr) : u16 :=
  match a with V4 _ p => p | V6 _ p _ _ => p end.
Definition set_port (a : SocketAddr) (p : u16) : SocketAddr :=
  match a with V4 ip _ => V4 ip p | V6 ip _ f s => V6 ip p f s end.

Definition ip4_ok (ip : Ipv4Addr) : Prop := bytes_ok (octets4 ip).
Definition sa_ok (a : SocketAddr) : Prop :=
  match a with
  | V4 ip p => ip4_ok ip ∧ in_u16 p
  | V6 ip p f s => bytes_ok ip ∧ length ip = 16%nat ∧ in_u16 p ∧ in_u32 f ∧ in_u32 s
  end.

(** *** [FromStr] *)

Definition read_octet (i : nat) : reader Z :=
  read_separator 46 i (read_number 10 256 (Some 3%nat) false).

Definition read_ipv4_addr : reader Ipv4Addr := λ bs,
  '(a, bs) ← read_octet 0 bs;
  '(b, bs) ← read_octet 1 bs;
  '(c, bs) ← read_octet 2 bs;
  '(d, bs) ← read_octet 3 bs;
  Some (Ipv4 a b c d, bs).

(** [read_groups]: up to [limit] 16-bit groups, the last two of which may be an
    embedded IPv4 address; returns the groups read, whether they ended with an
    IPv4 address, and the input left. *)
Fixpoint read_groups (todo limit i : nat) (bs : bytes) : list u16 * bool * bytes :=
  match todo with
  | O => ([], false, bs)
  | S todo' =>
      let ipv4 := if (i <? limit - 1)%nat then read_separator 58 i read_ipv4_addr bs
                  else None in
      match ipv4 with
      | Some (Ipv4 a b c d, bs') => ([a * 256 + b; c * 256 + d], true, bs')
      | None =>
          match read_separator 58 i (read_number 16 65536 (Some 4%nat) true) bs with
          | Some (g, bs') =>
              let '(gs, v4, rest) := read_groups todo' limit (S i) bs' in
              (g :: gs, v4, rest)
          | None => ([], false, bs)
          end
      end
  end.

Definition read_ipv6_addr : reader Ipv6Addr := λ bs,
  let '(head, head_ipv4, bs) := read_groups 8 8 0 bs in
  if (length head =? 8)%nat then Some (of_segments head, bs)
  else if head_ipv4 : bool then None
  else
    '(_, bs) ← read_given_char 58 bs;
    '(_, bs) ← read_given_char 58 bs;
    let limit := (8 - (length head + 1))%nat in
    let '(tail, _, bs) := read_groups limit limit 0 bs in
    Some (of_segments (head ++ replicate (8 - length head - length tail) 0 ++ tail), bs).

Definition read_port : reader u16 := λ bs,
  '(_, bs) ← read_given_char 58 bs; read_number 10 65536 None true bs.

Definition read_scope_id : reader u32 := λ bs,
  '(_, bs) ← read_given_char 37 bs; read_number 10 4294967296 None true bs.

Definition read_socket_addr_v4 : reader SocketAddr := λ bs,
  '(ip, bs) ← read_ipv4_addr bs;
  '(port, bs) ← read_port bs;
  Some (V4 ip port, bs).

Definition read_socket_addr_v6 : reader SocketAddr := λ bs,
  '(_, bs) ← read_given_char 91 bs;
  '(ip, bs) ← read_ipv6_addr bs;
  let '(scope_id, bs) := match read_scope_id bs with
                         | Some (s, bs') => (s, bs')
                         | None => (0, bs)
                         end in
  '(_, bs) ← read_given_char 93 bs;
  '(port, bs) ← read_port bs;
  Some (V6 ip port 0 scope_id, bs).

(** [s.parse::<Ipv4Addr>()], which refuses long texts first, and
    [s.parse::<Ipv6Addr>()] *)
Definition parse_ipv4_addr (s : string) : option Ipv4Addr :=
  let bs := as_bytes s in
  if 15 <? len bs then None
  else match read_ipv4_addr bs with Some (a, []) => Some a | _ => None end.
Definition parse_ipv6_addr (s : string) : option Ipv6Addr :=
  match read_ipv6_addr (as_bytes s) with Some (a, []) => Some a | _ => None end.

(** [s.parse::<SocketAddr>()] *)
Definition parse_socket_addr (s : string) : outcome SocketAddr :=
  let bs := as_bytes s in
  match match read_socket_addr_v4 bs with
        | Some r => Some r
        | None => read_socket_addr_v6 bs
        end with
  | Some (a, []) => Ok a
  | _ => Err "invalid socket address syntax"
  end.

(** *** [Display] *)

Definition show_ip4 (ip : Ipv4Addr) : string :=
  match ip with
  | Ipv4 a b c d => show a +:+ "." +:+ show b +:+ "." +:+ show c +:+ "." +:+ show d
  end.

(** The longest run of zero segments: [(start, len)], the first one on a tie. *)
Fixpoint longest_zeroes (i : nat) (cur best : nat * nat) (gs : list u16) : nat * nat :=
  match gs with
  | [] => best
  | g :: gs' =>
      if g =? 0 then
        let cur' := if (snd cur =? 0)%nat then (i, 1%nat) else (fst cur, S (snd cur)) in
        longest_zeroes (S i) cur' (if (snd best <? snd cur')%nat then cur' else best) gs'
      else longest_zeroes (S i) (0%nat, 0%nat) best gs'
  end.

Fixpoint fmt_subslice (gs : list u16) : string :=
  match gs with
  | [] => ""
  | [g] => show_hex16 g
  | g :: gs' => show_hex16 g +:+ ":" +:+ fmt_subslice gs'
  end.

Definition show_ip6 (ip : Ipv6Addr) : string :=
  match ip with
  | [0; 0; 0; 0; 0; 0; 0; 0; 0; 0; 255; 255; a; b; c; d] =>
      "::ffff:" +:+ show_ip4 (Ipv4 a b c d)
  | _ =>
      let gs := segments ip in
      let '(start, n) := longest_zeroes 0 (0, 0)%nat (0, 0)%nat gs in
      if (1 <? n)%nat
      then fmt_subslice (take start gs) +:+ "::" +:+ fmt_subslice (drop (start + n) gs)
      else fmt_subslice gs
  end.

Definition show_addr (a : SocketAddr) : string :=
  match a with
  | V4 ip p => show_ip4 ip +:+ ":" +:+ show p
  | V6 ip p _ s =>
      if s =? 0 then "[" +:+ show_ip6 ip +:+ "]:" +:+ show p
      else "[" +:+ show_ip6 ip +:+ "%" +:+ show s +:+ "]:" +:+ show p
  end.

(** ** Decimal digits round-trip *)

Definition dec_value (ds : list Z) : Z := fold_left (λ a d, a * 10 + d) ds 0.
Definition dec_bytes (ds : list Z) : bytes := (λ d, 48 + d) <$> ds.

(** A canonical decimal numeral: digits only, no superfluous leading zero. *)
Definition canonical (ds : list Z) : Prop :=
  Forall (λ d, 0 <= d < 10) ds ∧ ds ≠ [] ∧ (head ds = Some 0 → ds = [0]).

Lemma dec_value_snoc ds d : dec_value (ds ++ [d]) = dec_value ds * 10 + d.
Proof. unfold dec_value. by rewrite fold_left_app. Qed.

Lemma dec_bytes_app xs ys : dec_bytes (xs ++ ys) = dec_bytes xs ++ dec_bytes ys.
Proof. unfold dec_bytes. by rewrite fmap_app. Qed.

Lemma pretty_N_char_byte d :
  (d < 10)%N → byte_of_ascii (pretty_N_char d) = 48 + Z.of_N d.
Proof.
  intros H.
  assert (d = 0 ∨ d = 1 ∨ d = 2 ∨ d = 3 ∨ d = 4 ∨ d = 5 ∨ d = 6 ∨ d = 7 ∨ d = 8 ∨ d = 9)%N
    as Hd by lia.
  by destruct_or! Hd; subst d.
Qed.

Lemma pretty_N_go_canonical x s :
  (0 < x)%N → ∃ ds, as_bytes (pretty_N_go x s) = dec_bytes ds ++ as_bytes s ∧
    canonical ds ∧ dec_value ds = Z.of_N x ∧ head ds ≠ Some 0.
Proof.
  revert s. induction (N.lt_wf_0 x) as [x _ IH]; intros s Hx.
  rewrite pretty_N_go_step by done.
  assert (x mod 10 < 10)%N as Hm by (apply N.mod_lt; lia).
  assert (Hdm := N.Div0.div_mod x 10).
  destruct (decide (x / 10 = 0)%N) as [E|E].
  - rewrite E, pretty_N_go_0. exists [Z.of_N (x mod 10)].
    cbn. rewrite pretty_N_char_byte by done.
    split; [done|]. split; [|split; [unfold dec_value; cbn; lia|]].
    + split; [apply Forall_singleton; cbv beta; lia|]. split; [done|]. cbn. congruence.
    + cbn. intros [=]. lia.
  - destruct (IH (x / 10)%N ltac:(apply N.div_lt; lia)
      (String (pretty_N_char (x mod 10)) s) ltac:(lia)) as (ds & Hb & (Hds & Hne & _) & Hv & Hh).
    exists (ds ++ [Z.of_N (x mod 10)]).
    assert (head (ds ++ [Z.of_N (x mod 10)]) ≠ Some 0) as Hh' by by destruct ds.
    rewrite Hb. cbn. rewrite pretty_N_char_byte by done.
    rewrite dec_bytes_app, <- app_assoc. split; [done|].
    split; [|split; [rewrite dec_value_snoc; lia|done]].
    split; [|split; [by destruct ds|done]].
    apply Forall_app_2; [done|]. apply Forall_singleton. cbv beta.
    clear -Hm. generalize dependent (x mod 10)%N. lia.
Qed.

Lemma show_canonical n :
  0 <= n → ∃ ds, as_bytes (show n) = dec_bytes ds ∧ canonical ds ∧ dec_value ds = n.
Proof.
  intros Hn. unfold show, pretty, pretty_N. case_decide as H.
  - exists [0]. split; [done|]. split; [|cbn; lia].
    split; [apply Forall_singleton; lia|done].
  - destruct (pretty_N_go_canonical (Z.to_N n) "") as (ds & Hb & Hc & Hv & _); [lia|].
    exists ds. rewrite Hb. cbn. rewrite app_nil_r. split_and!; [done..|lia].
Qed.

Lemma dec_value_go_mono ds acc :
  Forall (λ d, 0 <= d < 10) ds → 0 <= acc → acc <= fold_left (λ a d, a * 10 + d) ds acc.
Proof.
  intros H. revert acc. induction H as [|d ds ?? IH]; cbn; intros acc ?; [lia|].
  etrans; [|apply IH; lia]. lia.
Qed.

Lemma dec_value_go_lower ds acc :
  Forall (λ d, 0 <= d < 10) ds → 0 <= acc →
  acc * 10 ^ len ds <= fold_left (λ a d, a * 10 + d) ds acc.
Proof.
  intros H. revert acc. induction H as [|d ds ?? IH]; intros acc ?; [rewrite len_nil; cbn [fold_left]; lia|].
  cbn [fold_left]. rewrite len_cons, Z.pow_add_r by (lia || apply len_nonneg).
  pose proof (Z.pow_pos_nonneg 10 (len ds) ltac:(lia) (len_nonneg _)).
  specialize (IH (acc * 10 + d) ltac:(lia)). nia.
Qed.

(** A canonical numeral below [10^k] has at most [k] digits (one for zero). *)
Lemma canonical_length ds (k : nat) :
  canonical ds → (1 <= k)%nat → dec_value ds < 10 ^ Z.of_nat k → (length ds <= k)%nat.
Proof.
  intros (Hds & Hne & Hz) Hk Hv. destruct ds as [|d ds]; [done|].
  destruct (decide (d = 0)) as [->|Hd].
  { rewrite (Hz eq_refl). cbn. lia. }
  apply Forall_cons in Hds as [Hd0 Hds]. cbv beta in Hd0. unfold dec_value in Hv. cbn [fold_left] in Hv. rewrite Z.add_0_l in Hv.
  pose proof (dec_value_go_lower ds d ltac:(done) ltac:(lia)) as Hl.
  assert (10 ^ len ds < 10 ^ Z.of_nat k) as Hp.
  { pose proof (Z.pow_pos_nonneg 10 (len ds) ltac:(lia) (len_nonneg _)).
    assert (1 * 10 ^ len ds <= d * 10 ^ len ds) by (apply Z.mul_le_mono_nonneg_r; lia). lia. }
  apply Z.pow_lt_mono_r_iff in Hp; [|lia..]. unfold len in Hp. cbn. lia.
Qed.

Lemma to_digit_dec d : 0 <= d < 10 → to_digit 10 (48 + d) = Some d.
Proof.
  intros H. unfold to_digit, in_range.
  destruct (Z.leb_spec 48 (48 + d)), (Z.leb_spec (48 + d) 57); try lia. cbn [andb].
  replace (48 + d - 48) with d by lia. destruct (Z.ltb_spec d 10); [done|lia].
Qed.

(** The input left does not start with a digit. *)
Definition stops (rest : bytes) : Prop :=
  match rest with b :: _ => to_digit 10 b = None | [] => True end.

Lemma read_digits_dec bound m ds acc c rest :
  Forall (λ d, 0 <= d < 10) ds → 0 <= acc → stops rest →
  fold_left (λ a d, a * 10 + d) ds acc < bound →
  (∀ k, m = Some k → (c + length ds <= k)%nat) →
  read_digits 10 bound m acc c (dec_bytes ds ++ rest) =
    Some (fold_left (λ a d, a * 10 + d) ds acc, (c + length ds)%nat, rest).
Proof.
  intros H. revert acc c. induction H as [|d ds Hd Hds IH]; intros acc c Hacc Hr Hb Hm.
  - cbn. rewrite Nat.add_0_r. destruct rest as [|b rest]; [done|].
    cbn in *. by rewrite Hr.
  - cbn [dec_bytes fmap list_fmap app read_digits fold_left length] in *.
    rewrite to_digit_dec by done.
    pose proof (dec_value_go_mono ds (acc * 10 + d) Hds ltac:(lia)).
    assert (read_digits 10 bound m (acc * 10 + d) (S c) (dec_bytes ds ++ rest) =
      Some (fold_left (λ a d, a * 10 + d) ds (acc * 10 + d), (c + S (length ds))%nat, rest))
      as Hgo.
    { rewrite IH; [do 2 f_equal; f_equal; lia|lia|done|done|].
      intros k Hk. specialize (Hm k Hk). lia. }
    destruct m as [k|].
    + specialize (Hm k eq_refl). destruct (Nat.ltb_spec k (S c)); [lia|]. exact Hgo.
    + destruct (Z.leb_spec bound (acc * 10 + d)); [lia|]. exact Hgo.
Qed.

(** Reading back a displayed number, whatever follows it. *)
Lemma read_number_show bound m zp n rest :
  0 <= n < bound → stops rest →
  (∀ k, m = Some k → (1 <= k)%nat ∧ n < 10 ^ Z.of_nat k) →
  read_number 10 bound m zp (as_bytes (show n) ++ rest) = Some (n, rest).
Proof.
  intros Hn Hr Hm. destruct (show_canonical n) as (ds & -> & Hc & Hv); [lia|].
  assert (Hc' := Hc). destruct Hc' as (Hds & Hne & Hz). unfold read_number.
  rewrite read_digits_dec; [|done|lia|done|fold (dec_value ds); lia|].
  2:{ intros k Hk. destruct (Hm k Hk). apply canonical_length; [done|done|lia]. }
  fold (dec_value ds). rewrite Hv.
  destruct ds as [|d ds]; [done|]. cbn [dec_bytes fmap list_fmap app length Nat.add Nat.eqb].
  replace (negb zp && _ && _) with false.
  - destruct (Z.leb_spec bound n); [lia|done].
  - destruct (Z.eqb_spec (48 + d) 48); [|by rewrite andb_false_r].
    assert (d = 0) as -> by lia. injection (Hz eq_refl) as ->. cbn. by rewrite andb_false_r.
Qed.

(** ** [parse] after [to_string] on IPv4 socket addresses *)

Lemma read_octet_show x rest :
  in_u8 x → stops rest → read_octet 0 (as_bytes (show x) ++ rest) = Some (x, rest).
Proof.
  intros Hx Hr. apply read_number_show; [exact Hx|done|].
  intros k [= <-]. unfold in_u8 in Hx. split; cbn; lia.
Qed.

Lemma read_dot_octet_show i x rest :
  in_u8 x → stops rest →
  read_octet (S i) (46 :: as_bytes (show x) ++ rest) = Some (x, rest).
Proof. intros. by apply read_octet_show. Qed.

Lemma read_show_ip4 ip rest :
  ip4_ok ip → stops rest → read_ipv4_addr (as_bytes (show_ip4 ip) ++ rest) = Some (ip, rest).
Proof.
  destruct ip as [a b c d]. unfold ip4_ok, bytes_ok. cbn [octets4].
  rewrite !Forall_cons. intros (Ha & Hb & Hc & Hd & _) Hr.
  unfold show_ip4, read_ipv4_addr. rewrite !as_bytes_app, <- !app_assoc.
  change (as_bytes ".") with [46]. cbn [app].
  rewrite read_octet_show by done. cbn [mbind option_bind].
  do 2 (rewrite read_dot_octet_show by done; cbn [mbind option_bind]).
  by rewrite read_dot_octet_show.
Qed.

Lemma read_port_show p : in_u16 p → read_port (58 :: as_bytes (show p)) = Some (p, []).
Proof.
  intros Hp. unfold read_port. cbn. rewrite <- (app_nil_r (as_bytes (show p))).
  by apply read_number_show.
Qed.

Lemma parse_show_v4 ip p :
  ip4_ok ip → in_u16 p → parse_socket_addr (show_addr (V4 ip p)) = Ok (V4 ip p).
Proof.
  intros Hip Hp. unfold parse_socket_addr, show_addr, read_socket_addr_v4.
  rewrite !as_bytes_app, read_show_ip4 by done. cbn -[read_port].
  rewrite <- (app_nil_l (58 :: _)). cbn -[read_port]. by rewrite read_port_show.
Qed.

Lemma show_octet_len x : in_u8 x → len (as_bytes (show x)) <= 3.
Proof.
  intros Hx. unfold in_u8 in Hx. destruct (show_canonical x) as (ds & -> & Hc & Hv); [lia|].
  pose proof (canonical_length ds 3 Hc ltac:(lia) ltac:(change (10 ^ Z.of_nat 3) with 1000; lia)).
  unfold dec_bytes, len. rewrite length_fmap. lia.
Qed.

Lemma parse_show_ip4 ip : ip4_ok ip → parse_ipv4_addr (show_ip4 ip) = Some ip.
Proof.
  intros Hip. unfold parse_ipv4_addr. cbv zeta.
  pose proof (read_show_ip4 ip [] Hip I) as Hr. rewrite app_nil_r in Hr. rewrite Hr.
  destruct (Z.ltb_spec 15 (len (as_bytes (show_ip4 ip)))) as [Hl|]; [|done]. exfalso.
  destruct ip as [a b c d]. unfold ip4_ok, bytes_ok in Hip. cbn [octets4] in Hip.
  rewrite !Forall_cons in Hip. destruct Hip as (Ha & Hb & Hc & Hd & _).
  apply show_octet_len in Ha, Hb, Hc, Hd. unfold show_ip4 in Hl. rewrite !as_bytes_app, !len_app in Hl.
  change (len (as_bytes ".")) with 1 in Hl. lia.
Qed.

(** ** UTF-8 facts *)

Lemma from_utf8_as_bytes s : str_ok s → from_utf8 (as_bytes s) = Ok s.
Proof. unfold from_utf8, str_ok. intros ->. by rewrite of_bytes_as_bytes. Qed.
