(* ===== verification/Extern.v ===== *)
(** Interfaces of the third-party crates npipe calls, each with the documented
    behaviour the code relies on, and a small concrete instance of each that
    shows the interface can be met (used by the witnesses). *)

From S2P Require Import Prelude.

(** flexi_logger: a logger with these levels, writing to the files and the
    standard output it is set to, is started. *)
Class Logging := { start_logger : string → outcome unit }.

(** ** lz4_flex::block *)

Class Lz4 := {
  compress_prepend_size : bytes → bytes;
  decompress_size_prepended : bytes → outcome bytes;
  lz4_roundtrip d : decompress_size_prepended (compress_prepend_size d) = Ok d
}.

(** ** simplestcrypt: authenticated encryption under a random nonce *)

Class SimplestCrypt := {
  encrypt_and_serialize (nonce : Z) (key data : bytes) : outcome bytes;
  deserialize_and_decrypt (key data : bytes) : outcome bytes;
  simplestcrypt_roundtrip nonce key data c :
    encrypt_and_serialize nonce key data = Ok c → deserialize_and_decrypt key c = Ok data
}.

(** ** base64::prelude::BASE64_STANDARD *)

Class Base64 := {
  base64_encode : bytes → string;
  base64_decode : bytes → outcome bytes;
  base64_roundtrip d : bytes_ok d → base64_decode (as_bytes (base64_encode d)) = Ok d
}.

(** ** rand: [rng.gen_range(lo..hi)] on an explicit generator state *)

Class Rng := {
  rng : Type;
  gen_range (lo hi : Z) (r : rng) : Z * rng;
  gen_range_bounds lo hi r : lo < hi → lo <= fst (gen_range lo hi r) < hi
}.

(** ** Concrete instances *)

Module Concrete.

(** A stored block: one marker byte, then the data. *)
Definition store (d : bytes) : bytes := 0 :: d.
Definition unstore (c : bytes) : outcome bytes :=
  match c with 0 :: d => Ok d | _ => Err "corrupt block" end.

#[export] Instance lz4 : Lz4.
Proof. refine {| compress_prepend_size := store; decompress_size_prepended := unstore |}. done. Defined.

(** A sealed message: the nonce's low byte, then the data. *)
Definition seal (nonce : Z) (key d : bytes) : outcome bytes := Ok (as_u8 nonce :: d).
Definition unseal (key c : bytes) : outcome bytes :=
  match c with _ :: d => Ok d | [] => Err "short message" end.

#[export] Instance simplestcrypt : SimplestCrypt.
Proof.
  refine {| encrypt_and_serialize := seal; deserialize_and_decrypt := unseal |}.
  by intros nonce key data c [= <-].
Defined.

(** An encoding of byte strings as strings. *)
#[export] Instance base64 : Base64.
Proof.
  refine {| base64_encode := of_bytes; base64_decode := λ d, Ok d |}.
  intros d Hd. by rewrite as_bytes_of_bytes.
Defined.

(** A counter, folded into the range. *)
#[export] Instance rand : Rng.
Proof.
  refine {| rng := Z; gen_range := λ lo hi r, (lo + r mod (hi - lo), r + 1) |}.
  intros lo hi r H. cbn. pose proof (Z.mod_pos_bound r (hi - lo)). lia.
Defined.

End Concrete.
