(* ===== verification/Crypto.v ===== *)
(** [np_base/src/proxy/crypto.rs]: encryption methods, key generation, the XOR
    cipher, and the LZ4 and AES calls. *)

From S2P Require Import Prelude Extern.

Inductive EncryptionMethod := MNone | MAes128 | MXor.

#[export] Instance EncryptionMethod_eq_dec : EqDecision EncryptionMethod.
Proof. solve_decision. Defined.

Definition is_none (m : EncryptionMethod) : bool :=
  match m with MNone => true | _ => false end.

Definition get_method (method : string) : EncryptionMethod :=
  if decide (method = "Aes128") then MAes128
  else if decide (method = "None") then MNone
  else if decide (method = "Xor") then MXor
  else MNone.

(** [Display], hence [to_string]. *)
Definition method_to_string (m : EncryptionMethod) : string :=
  match m with MNone => "None" | MAes128 => "Aes128" | MXor => "Xor" end.

(** [data.iter_mut().zip(key.iter().cycle())]: [rest] is what is left of the
    current turn of the cycle; the cycle of an empty key yields nothing. *)
Fixpoint xor_zip (key rest data : bytes) : bytes :=
  match data with
  | [] => []
  | d :: data' =>
      match rest with
      | k :: rest' => Z.lxor d k :: xor_zip key rest' data'
      | [] =>
          match key with
          | k :: rest' => Z.lxor d k :: xor_zip key rest' data'
          | [] => data
          end
      end
  end.

Definition xor_encrypt_decrypt (data key : bytes) : bytes := xor_zip key key data.

Section Compression.
Context `{Lz4}.

Definition compress_data (input : bytes) : outcome bytes :=
  Ok (compress_prepend_size input).

(** [decompress_size_prepended(&compressed).unwrap()] *)
Definition decompress_data (compressed : bytes) : outcome bytes :=
  match decompress_size_prepended compressed with
  | Ok d => Ok d
  | _ => Panic "called `Result::unwrap()` on an `Err` value"
  end.
End Compression.

Section Keys.
Context `{Rng}.

(** [(0..n).map(|_| rng.gen_range(lo..hi)).collect()] *)
Fixpoint draw (n : nat) (lo hi : Z) (r : rng) : bytes * rng :=
  match n with
  | O => ([], r)
  | S n' =>
      let '(x, r) := gen_range lo hi r in
      let '(xs, r) := draw n' lo hi r in
      (x :: xs, r)
  end.

Definition generate_key (m : EncryptionMethod) (r : rng) : bytes * rng :=
  match m with
  | MNone => (as_bytes "None", r)
  | MAes128 => draw 32 33 127 r
  | MXor =>
      let '(key_len, r) := gen_range 8 64 r in
      draw (Z.to_nat key_len) 1 255 r
  end.
End Keys.

Section Ciphers.
Context `{SimplestCrypt}.

(** [nonce] is the random nonce the AES call draws. *)
Definition encrypt (nonce : Z) (m : EncryptionMethod) (key data : bytes) : outcome bytes :=
  match m with
  | MNone => Ok data
  | MAes128 =>
      match encrypt_and_serialize nonce key data with
      | Ok data => Ok data
      | Err e => Err ("encrypt_and_serialize error: " +:+ e)
      | Panic w => Panic w
      | Pending => Pending
      end
  | MXor => if decide (key = []) then Ok data else Ok (xor_encrypt_decrypt data key)
  end.

Definition decrypt (m : EncryptionMethod) (key data : bytes) : outcome bytes :=
  match m with
  | MNone => Ok data
  | MAes128 =>
      match deserialize_and_decrypt key data with
      | Ok data => Ok data
      | Err e => Err ("deserialize_and_decrypt error: " +:+ e)
      | Panic w => Panic w
      | Pending => Pending
      end
  | MXor => if decide (key = []) then Ok data else Ok (xor_encrypt_decrypt data key)
  end.
End Ciphers.

(** ** Facts about the XOR cipher *)

Lemma lxor_cancel a k : Z.lxor (Z.lxor a k) k = a.
Proof. by rewrite Z.lxor_assoc, Z.lxor_nilpotent, Z.lxor_0_r. Qed.

Lemma xor_zip_involutive key rest data : xor_zip key rest (xor_zip key rest data) = data.
Proof.
  revert rest. induction data as [|d data IH]; intros [|k rest]; cbn; [done..| |].
  - destruct key as [|k key]; cbn; [done|]. by rewrite lxor_cancel, IH.
  - by rewrite lxor_cancel, IH.
Qed.

Lemma xor_zip_length key rest data : length (xor_zip key rest data) = length data.
Proof.
  revert rest. induction data as [|d data IH]; intros [|k rest]; cbn; [done..| |].
  - destruct key; cbn; [done|]. by rewrite IH.
  - by rewrite IH.
Qed.

#[local] Arguments Nat.modulo : simpl never.

(** The position in the key: [rest] is a suffix of [key]. *)
Lemma xor_zip_lookup key rest data pre i d :
  key ≠ [] → key = pre ++ rest → data !! i = Some d →
  ∃ k, key !! ((length pre + i) mod length key)%nat = Some k ∧
       xor_zip key rest data !! i = Some (Z.lxor d k).
Proof.
  intros Hne. revert rest pre i. induction data as [|x data IH]; intros rest pre i Hkey Hi; [done|].
  destruct rest as [|k rest].
  - rewrite app_nil_r in Hkey. subst pre. destruct key as [|k key]; [done|].
    destruct i as [|i]; simplify_eq/=.
    + exists k. split; [|done]. rewrite Nat.add_0_r.
      by rewrite (Nat.Div0.mod_same (S (length key))).
    + destruct (IH key [k] i eq_refl Hi) as (k' & Hk & Hx). exists k'. split; [|done].
      replace (S (length key + S i)) with (1 + i + 1 * S (length key))%nat by lia.
      by rewrite Nat.Div0.mod_add.
  - destruct i as [|i]; simplify_eq/=.
    + exists k. split; [|done]. rewrite Nat.add_0_r, Nat.mod_small.
      * by rewrite lookup_app_r, Nat.sub_diag by lia.
      * rewrite length_app. cbn. lia.
    + destruct (IH rest (pre ++ [k]) i) as (k' & Hk & Hx); [by rewrite <- app_assoc|done|].
      exists k'. split; [|done]. rewrite <- Hk. rewrite (length_app pre [k]). cbn [length].
      do 2 f_equal. lia.
Qed.

Lemma lxor_u8 a b : in_u8 a → in_u8 b → in_u8 (Z.lxor a b).
Proof.
  unfold in_u8. intros Ha Hb. split; [apply Z.lxor_nonneg; lia|].
  destruct (decide (Z.lxor a b = 0)) as [->|]; [lia|].
  assert (0 < Z.lxor a b) by (pose proof (Z.lxor_nonneg a b); lia).
  apply (Z.log2_lt_cancel _ 256). change (Z.log2 256) with 8.
  eapply Z.le_lt_trans; [apply Z.log2_lxor; lia|].
  apply Z.max_lub_lt.
  - destruct (decide (a = 0)) as [->|]; [done|]. apply Z.log2_lt_pow2; lia.
  - destruct (decide (b = 0)) as [->|]; [done|]. apply Z.log2_lt_pow2; lia.
Qed.

Lemma xor_zip_bytes key rest data :
  bytes_ok key → bytes_ok rest → bytes_ok data → bytes_ok (xor_zip key rest data).
Proof.
  intros Hk Hr Hd. revert rest Hr. induction Hd as [|d data Hd ? IH]; intros rest Hr; [constructor|].
  destruct Hr as [|k rest ??]; cbn.
  - destruct Hk as [|k key ??]; [by constructor|].
    constructor; [by apply lxor_u8|]. by apply IH.
  - constructor; [by apply lxor_u8|]. by apply IH.
Qed.

(** ** Facts about keys and methods *)

Lemma get_method_to_string m : get_method (method_to_string m) = m.
Proof. by destruct m. Qed.

Section KeyFacts.
Context `{Rng}.

Lemma draw_spec n lo hi r :
  lo < hi → length (fst (draw n lo hi r)) = n ∧ Forall (λ x, lo <= x < hi) (fst (draw n lo hi r)).
Proof.
  intros Hlt. revert r. induction n as [|n IH]; intros r; cbn; [by split|].
  pose proof (gen_range_bounds lo hi r Hlt) as Hb.
  destruct (gen_range lo hi r) as [x r']. cbn in Hb.
  specialize (IH r'). destruct (draw n lo hi r') as [xs r'']. cbn in *.
  destruct IH. split; [lia|]. by constructor.
Qed.

Lemma generate_key_bytes m r : bytes_ok (fst (generate_key m r)).
Proof.
  destruct m; cbn [generate_key fst].
  - apply as_bytes_ok.
  - eapply Forall_impl; [apply (draw_spec 32 33 127 r); lia|]. unfold in_u8. cbv beta. lia.
  - destruct (gen_range 8 64 r) as [l r'].
    eapply Forall_impl; [apply (draw_spec (Z.to_nat l) 1 255 r'); lia|].
    unfold in_u8. cbv beta. lia.
Qed.
End KeyFacts.

Section CipherFacts.
Context `{SimplestCrypt}.

Lemma decrypt_of_encrypt nonce m key data c :
  encrypt nonce m key data = Ok c → decrypt m key c = Ok data.
Proof.
  destruct m; cbn.
  - by intros [= <-].
  - destruct (encrypt_and_serialize nonce key data) eqn:E; [|done..].
    intros [= <-]. by erewrite simplestcrypt_roundtrip.
  - case_decide; intros [= <-]; [done|]. unfold xor_encrypt_decrypt.
    by rewrite xor_zip_involutive.
Qed.

Lemma encrypt_total nonce m key data :
  m ≠ MAes128 → ∃ c, encrypt nonce m key data = Ok c.
Proof. destruct m; cbn; [eauto|done|]. case_decide; eauto. Qed.
End CipherFacts.

Section CompressionFacts.
Context `{Lz4}.

Lemma decompress_of_compress d c : compress_data d = Ok c → decompress_data c = Ok d.
Proof. intros [= <-]. unfold decompress_data. by rewrite lz4_roundtrip. Qed.
End CompressionFacts.
