(* ===== verification/Tls.v ===== *)
(** [np_base/src/net/tls.rs]: the certificates and the key in a file. *)

From S2P Require Import Prelude Std.

(** Files and [rustls_pemfile]; a key is given by its DER. *)
Class PemFiles := {
  open_file : string → outcome bytes;
  pem_certs : bytes → list (outcome bytes);
  pem_private_key : bytes → outcome (option bytes)
}.

Section TlsFiles.
Context `{PemFiles}.

Definition load_certs (path : string) : outcome (list bytes) :=
  cert_file ← open_file path;
  mret (omap (λ x, match x with Ok cert => Some cert | _ => None end) (pem_certs cert_file)).

Definition load_private_key (path : string) : outcome bytes :=
  file ← open_file path;
  private_key_der ← pem_private_key file;
  match private_key_der with
  | Some der => Ok der
  | None => Err ("The private key file (" +:+ path +:+ ") format is incorrect")
  end.
End TlsFiles.


Section TlsFacts.
Context `{PemFiles}.

(** A key is what the file holds first, and a file without one is refused. *)
Lemma load_private_key_ok path der :
  load_private_key path = Ok der ↔
  ∃ file, open_file path = Ok file ∧ pem_private_key file = Ok (Some der).
Proof.
  unfold load_private_key, mbind, outcome_bind. split.
  - destruct (open_file path) as [file| | |]; try done.
    destruct (pem_private_key file) as [[d|]| | |] eqn:E; try done. intros [= <-]. by exists file.
  - by intros (file & -> & ->).
Qed.

(** Entries that are no certificates are passed over, so that a file without
    any gives an empty list and no error. *)
Lemma load_certs_ok path file :
  open_file path = Ok file →
  ∃ certs, load_certs path = Ok certs ∧
    ∀ cert, cert ∈ certs ↔ Ok cert ∈ pem_certs file.
Proof.
  intros E. unfold load_certs. rewrite E. eexists. split; [reflexivity|]. intros cert.
  rewrite list_elem_of_omap. split; [by intros ([] & Hx & [= ->])|]. intros Hc. by exists (Ok cert).
Qed.
End TlsFacts.
