(* ===== verification/Net.v ===== *)
(** [np_base/src/net]: the messages of a session's writer, the [SessionDelegate]
    trait, and the TCP session's write, read and life-cycle loops. *)

From S2P Require Import Prelude Std.

(** ** net/mod.rs

    [Cb] is the type of the boxed callbacks ([SendMessageFuncType]). *)

Inductive WriterMessage (Cb : Type) : Type :=
| Close
| Flush
| CloseDelayed (millis : Z)
| Send (data : bytes) (flush : bool)
| SendTo (data : bytes) (target : SocketAddr)
| SendAndThen (data : bytes) (callback : Cb).
Arguments Close {Cb}.
Arguments Flush {Cb}.
Arguments CloseDelayed {Cb} millis.
Arguments Send {Cb} data flush.
Arguments SendTo {Cb} data target.
Arguments SendAndThen {Cb} data callback.

#[export] Instance WriterMessage_eq_dec `{EqDecision Cb} : EqDecision (WriterMessage Cb).
Proof. solve_decision. Defined.

(** ** An mpsc channel: what its receiver has not taken yet, and whether the
    receiver still exists. [send] fails when it does not. *)

Record chan (A : Type) := Chan { chan_open : bool; chan_queue : list A }.
Arguments Chan {A} chan_open chan_queue.
Arguments chan_open {A} _.
Arguments chan_queue {A} _.

Definition chan_new {A} : chan A := Chan true [].
Definition chan_send {A} (x : A) : M (chan A) unit := λ c,
  if chan_open c then (Ok tt, Chan true (chan_queue c ++ [x])) else (Err "channel closed", c).

(** A shared object: the sending half of a channel, a counter, a socket. *)
Definition handle : Type := Z.

(** ** session_delegate.rs

    [D] is the delegate with everything it can reach. A frame extraction takes
    the buffer and returns the frame, if one is complete, and the bytes left. *)

Class SessionDelegate (D : Type) := {
  on_session_start : u32 → SocketAddr → handle → M D unit;   (** the handle is [write_msg_tx] *)
  on_session_close : M D unit;
  on_try_extract_frame : bytes → M D (option bytes * bytes);
  on_recv_frame : bytes → M D unit;
  on_recv_frame_from : bytes → SocketAddr → M D unit
}.

(** The trait's default methods. *)
Definition default_try_extract_frame {D} (buffer : bytes) : M D (option bytes * bytes) :=
  mret (Some buffer, []).
Definition default_recv_frame_from {D} (_ : bytes) (_ : SocketAddr) : M D unit :=
  lift (Panic "Not implemented").

(** ** The writer: [tokio]'s [BufWriter] over the stream's write half *)

Class AsyncWrite := {
  writer : Type;
  write_all : bytes → writer → outcome unit * writer;
  flush : writer → outcome unit * writer
}.

(** What tokio documents of it: data waits in a buffer, in order, until the
    buffer is full or flushed. [delivered] is what has reached the stream,
    [buffered] what waits, which a writer that is dropped discards. A call that
    fails has taken a beginning of its data. *)
Class BufWriter `{AsyncWrite} := {
  delivered : writer → bytes;
  buffered : writer → bytes;
  write_all_takes d w :
    delivered w `prefix_of` delivered (snd (write_all d w)) ∧
    ∃ d', d' `prefix_of` d ∧ (fst (write_all d w) = Ok tt → d' = d) ∧
      delivered (snd (write_all d w)) ++ buffered (snd (write_all d w))
      = delivered w ++ buffered w ++ d';
  flush_delivers w :
    delivered w `prefix_of` delivered (snd (flush w)) ∧
    delivered (snd (flush w)) ++ buffered (snd (flush w)) = delivered w ++ buffered w ∧
    (fst (flush w) = Ok tt → buffered (snd (flush w)) = [])
}.

(** A writer none of whose calls fails. *)
Definition writer_accepts `{AsyncWrite} : Prop :=
  (∀ d w, fst (write_all d w) = Ok tt) ∧ (∀ w, fst (flush w) = Ok tt).

(** ** tcp_session.rs *)

Inductive control := Continue | Break.

Section PollWrite.
Context `{AsyncWrite} {Cb : Type}.

(** What the write loop did, in order: [Wrote] is data its writer has taken,
    which reaches the stream when the writer delivers it. *)
Inductive write_event :=
| Wrote (data : bytes)
| Flushed
| Called (callback : Cb)
| Slept (millis : Z).

Record pw := Pw { pw_writer : writer; pw_log : list write_event }.

Definition log_event (e : write_event) : M pw unit :=
  modify (λ s, Pw (pw_writer s) (pw_log s ++ [e])).

Definition do_write (data : bytes) : M pw unit := λ s,
  match write_all data (pw_writer s) with
  | (Ok _, w) => (Ok tt, Pw w (pw_log s ++ [Wrote data]))
  | (Err e, w) => (Err e, Pw w (pw_log s))
  | (Panic p, w) => (Panic p, Pw w (pw_log s))
  | (Pending, w) => (Pending, Pw w (pw_log s))
  end.

Definition do_flush : M pw unit := λ s,
  match flush (pw_writer s) with
  | (Ok _, w) => (Ok tt, Pw w (pw_log s ++ [Flushed]))
  | (Err e, w) => (Err e, Pw w (pw_log s))
  | (Panic p, w) => (Panic p, Pw w (pw_log s))
  | (Pending, w) => (Pending, Pw w (pw_log s))
  end.

(** [if let Err(error) = writer.write_all(&data).await { error!(..); break; }] *)
Definition write_or_break (data : bytes) (k : M pw control) : M pw control := λ s,
  match do_write data s with
  | (Ok _, s') => k s'
  | (Err _, s') => (Ok Break, s')
  | (Panic p, s') => (Panic p, s')
  | (Pending, s') => (Pending, s')
  end.

(** One turn of [poll_write]'s loop. *)
Definition write_step (message : WriterMessage Cb) : M pw control :=
  match message with
  | Close => mret Break
  | CloseDelayed duration => log_event (Slept duration);; mret Break
  | Send data fl =>
      if decide (data = []) then mret Continue
      else write_or_break data (when fl (ignore do_flush);; mret Continue)
  | SendTo _ _ => lift (Panic "not support")
  | SendAndThen data callback =>
      if decide (data = []) then log_event (Called callback);; mret Continue
      else write_or_break data
             (ignore do_flush;; log_event (Called callback);; mret Continue)
  | Flush => ignore do_flush;; mret Continue
  end.

(** [poll_write] on the messages received so far: whether it broke out of its
    loop, and the messages it left. *)
Fixpoint poll_write (msgs : list (WriterMessage Cb)) : M pw (control * list (WriterMessage Cb)) :=
  match msgs with
  | [] => mret (Continue, [])
  | m :: ms =>
      c ← write_step m;
      match c with
      | Break => mret (Break, ms)
      | Continue => poll_write ms
      end
  end.
End PollWrite.
Arguments pw {_} Cb.
Arguments write_event Cb : clear implicits.

Section PollRead.
Context {D : Type}.
Variable extract : bytes → M D (option bytes * bytes).
Variable recv : bytes → M D unit.

(** The unpacking loop on a buffer; [None] when [fuel] turns were not enough. *)
Fixpoint unpack (fuel : nat) (buffer : bytes) : M D (option bytes) :=
  match fuel with
  | O => mret None
  | S fuel' =>
      if decide (buffer = []) then mret (Some buffer)
      else
        '(result, buffer) ← extract buffer;
        match result with
        | Some frame => recv frame;; unpack fuel' buffer
        | None => mret (Some buffer)
        end
  end.

(** A result of [reader.read_buf(&mut buffer).await]. *)
Inductive read_event := Bytes (data : bytes) | ReadErr (e : string).

(** [poll_read] on the reads completed so far; [closed] is the error of a read
    of zero bytes. The buffer grows by at most what was read, so one turn per
    buffered byte (and one for the empty buffer) is enough. *)
Fixpoint poll_read (closed : outcome bytes) (reads : list read_event) (buffer : bytes)
    : M D bytes :=
  match reads with
  | [] => mret buffer
  | ReadErr e :: _ => bail e
  | Bytes [] :: _ => lift closed
  | Bytes data :: reads' =>
      left ← unpack (S (length (buffer ++ data))) (buffer ++ data);
      match left with
      | Some buffer => poll_read closed reads' buffer
      | None => lift Pending
      end
  end.
End PollRead.

(** ** The session's life cycle ([tcp_session::run]) *)

Section Run.
Context {D : Type} `{SessionDelegate D}.

(** [Closing]: [on_session_close] waits. [Aborted]: a panic unwound the task. *)
Inductive phase := Starting | Running | Closing | Finished | Aborted.

Record session := Session {
  s_phase : phase;
  s_buffer : bytes;
  s_delegate : D;
  s_closes : nat           (** how often [on_session_close] ran to its end *)
}.

(** What wakes the task: its start, a read, the end of the write loop (it was
    told to close, its channel closed, or a write failed) or its panic, the
    server's shutdown; what a close waits for. *)
Inductive wakeup :=
| WStart | WRead (r : read_event) | WWriterDone | WWriterPanic | WShutdown | WCloses.

(** [delegate.on_session_close().await], whose error is only logged: there is
    no limit to the time it may take. *)
Definition close_session (s : session) : session :=
  match on_session_close (s_delegate s) with
  | (Panic _, d) => Session Aborted (s_buffer s) d (S (s_closes s))
  | (Pending, _) => Session Closing (s_buffer s) (s_delegate s) (s_closes s)
  | (_, d) => Session Finished (s_buffer s) d (S (s_closes s))
  end.

Definition socket_closed (addr : SocketAddr) : outcome bytes :=
  Err ("[" +:+ show_addr addr +:+ "] socket closed.").

(** A wake-up whose handling still awaits ([Pending]) has changed nothing and
    is delivered again later. *)
Definition session_step (session_id : u32) (addr : SocketAddr) (tx : handle) (w : wakeup) (s : session)
    : session :=
  match s_phase s, w with
  | Starting, WStart =>
      match on_session_start session_id addr tx (s_delegate s) with
      | (Ok _, d) => Session Running [] d (s_closes s)
      | (Panic _, d) => Session Aborted [] d (s_closes s)
      | (Err _, d) => Session Finished [] d (s_closes s)
      | (Pending, _) => s
      end
  | Running, WRead r =>
      match poll_read on_try_extract_frame on_recv_frame (socket_closed addr) [r]
              (s_buffer s) (s_delegate s) with
      | (Ok buffer, d) => Session Running buffer d (s_closes s)
      | (Err _, d) => close_session (Session Running (s_buffer s) d (s_closes s))
      | (Panic _, d) => Session Aborted (s_buffer s) d (s_closes s)
      | (Pending, _) => s
      end
  | Running, WWriterDone | Running, WShutdown | Closing, WCloses => close_session s
  | Running, WWriterPanic => Session Aborted (s_buffer s) (s_delegate s) (s_closes s)
  | _, _ => s
  end.

Definition run_session (session_id : u32) (addr : SocketAddr) (tx : handle) (ws : list wakeup) (d : D)
    : session :=
  fold_left (λ s w, session_step session_id addr tx w s) ws (Session Starting [] d 0).
End Run.
Arguments session D : clear implicits.

(** ** Facts about the write loop *)

Section WriteFacts.
Context `{AsyncWrite} {Cb : Type}.
Implicit Types (m : WriterMessage Cb) (s : pw Cb).

(** What a message makes the loop do when the writer accepts everything. *)
Definition effects_of (m : WriterMessage Cb) : list (write_event Cb) :=
  match m with
  | Close | SendTo _ _ => []
  | CloseDelayed d => [Slept d]
  | Send [] _ => []
  | Send d fl => Wrote d :: (if fl then [Flushed] else [])
  | SendAndThen [] cb => [Called cb]
  | SendAndThen d cb => [Wrote d; Flushed; Called cb]
  | Flush => [Flushed]
  end.

Definition stops_loop (m : WriterMessage Cb) : bool :=
  match m with Close | CloseDelayed _ => true | _ => false end.
Definition is_send_to (m : WriterMessage Cb) : bool :=
  match m with SendTo _ _ => true | _ => false end.

(** The messages up to and including the first that stops the loop. *)
Fixpoint until_stop (ms : list (WriterMessage Cb)) : list (WriterMessage Cb) :=
  match ms with
  | [] => []
  | m :: ms => if stops_loop m then [m] else m :: until_stop ms
  end.

(** The payload bytes a list of messages asks to write. *)
Definition payload (m : WriterMessage Cb) : bytes :=
  match m with Send d _ | SendAndThen d _ => d | _ => [] end.
Definition written (log : list (write_event Cb)) : bytes :=
  mjoin ((λ e, match e with Wrote d => d | _ => [] end) <$> log).
Definition called (log : list (write_event Cb)) : list Cb :=
  omap (λ e, match e with Called cb => Some cb | _ => None end) log.

Lemma written_app l1 l2 : written (l1 ++ l2) = written l1 ++ written l2.
Proof. unfold written. by rewrite fmap_app, join_app. Qed.
Lemma called_app l1 l2 : called (l1 ++ l2) = called l1 ++ called l2.
Proof. apply omap_app. Qed.

Lemma accepts_runs : writer_accepts →
  (∀ d w, ∃ w', write_all d w = (Ok tt, w')) ∧ (∀ w, ∃ w', flush w = (Ok tt, w')).
Proof.
  intros [Hw Hf]. split; [intros d w; specialize (Hw d w)|intros w; specialize (Hf w)].
  - destruct (write_all d w) as [o w']. exists w'. cbn in Hw. by subst.
  - destruct (flush w) as [o w']. exists w'. cbn in Hf. by subst.
Qed.

Lemma write_step_log m s :
  writer_accepts → is_send_to m = false →
  ∃ w', write_step m s =
    (Ok (if stops_loop m then Break else Continue), Pw w' (pw_log s ++ effects_of m)).
Proof.
  intros Ha Hm. destruct (accepts_runs Ha) as [Hw Hf]. destruct s as [w log].
  destruct m as [| |ms|d fl|d a|d cb]; try done;
    unfold write_step, write_or_break, do_write, do_flush, log_event; mred.
  - rewrite app_nil_r. eauto.
  - destruct (Hf w) as [w' ->]. eauto.
  - eauto.
  - destruct d as [|b d]; simpl; [rewrite app_nil_r; eauto|].
    destruct (Hw (b :: d) w) as [w' ->]. destruct fl; mred; [|eauto].
    destruct (Hf w') as [w'' ->]. rewrite <- app_assoc. eauto.
  - destruct d as [|b d]; simpl; [eauto|].
    destruct (Hw (b :: d) w) as [w' ->]. mred.
    destruct (Hf w') as [w'' ->]. mred. rewrite <- !app_assoc. eauto.
Qed.

Lemma poll_write_log ms s :
  writer_accepts → forallb (λ m, negb (is_send_to m)) (until_stop ms) = true →
  ∃ c rest w', poll_write ms s =
    (Ok (c, rest), Pw w' (pw_log s ++ (until_stop ms ≫= effects_of))).
Proof.
  intros Hw. revert s. induction ms as [|m ms IH]; intros s Hs.
  - exists Continue, [], (pw_writer s). cbn. rewrite app_nil_r. by destruct s.
  - cbn [until_stop] in *. cbn [poll_write]. mred.
    assert (is_send_to m = false) as Hm.
    { destruct (stops_loop m); cbn in Hs; apply andb_prop in Hs as [Hs _];
        by apply negb_true_iff. }
    destruct (write_step_log m s Hw Hm) as [w' ->].
    destruct (stops_loop m); cbn.
    + eexists _, _, _. by rewrite app_nil_r.
    + destruct (IH (Pw w' (pw_log s ++ effects_of m))) as (c & rest & w'' & ->).
      { cbn in Hs. by apply andb_prop in Hs as [_ ?]. }
      eexists _, _, _. cbn. by rewrite <- app_assoc.
Qed.

Lemma written_effects m : is_send_to m = false → written (effects_of m) = payload m.
Proof.
  destruct m as [| |ms|d fl|d a|d cb]; try done; destruct d; try destruct fl;
    unfold written; cbn; by rewrite ?app_nil_r.
Qed.

Lemma effects_of_all ms :
  forallb (λ m, negb (is_send_to m)) ms = true →
  written (ms ≫= effects_of) = mjoin (payload <$> ms) ∧
  called (ms ≫= effects_of) =
    omap (λ m, match m with SendAndThen _ cb => Some cb | _ => None end) ms.
Proof.
  induction ms as [|m l IH]; [done|]. cbn [forallb]. intros Hs.
  apply andb_prop in Hs as [Hm Hs]. apply negb_true_iff in Hm.
  destruct (IH Hs) as [IHw IHc]. rewrite bind_cons, written_app, called_app, IHw, IHc.
  rewrite written_effects by done.
  split; [done|]. by destruct m as [| |ms|[] []|d a|[] cb].
Qed.

(** Whatever the writer answers, what a message adds to the log: a callback
    comes last, after its message's data was written. *)
Lemma write_step_called m s o s' :
  write_step m s = (o, s') →
  ∃ es, pw_log s' = pw_log s ++ es ∧
    (called es = [] ∨ ∃ d cb pre, m = SendAndThen d cb ∧ es = pre ++ [Called cb] ∧
                        called pre = [] ∧ written pre = d).
Proof.
  destruct s as [w log].
  destruct m as [| |ms|d fl|d a|d cb];
    unfold write_step, write_or_break, do_write, do_flush, log_event; mred.
  - intros [= <- <-]. exists []. rewrite app_nil_r. auto.
  - destruct (flush w) as [[] ?]; intros [= <- <-]; cbn;
      [exists [Flushed]|exists []..]; rewrite ?app_nil_r; auto.
  - intros [= <- <-]. exists [Slept ms]. auto.
  - case_decide; mred; [intros [= <- <-]; exists []; rewrite app_nil_r; auto|].
    destruct (write_all d w) as [[] w']; mred.
    2-4: intros [= <- <-]; exists []; rewrite app_nil_r; auto.
    destruct fl; mred; [|intros [= <- <-]; exists [Wrote d]; auto].
    destruct (flush w') as [[] w'']; mred; intros [= <- <-]; cbn; rewrite <- ?app_assoc;
      [exists [Wrote d; Flushed]|exists [Wrote d]..]; auto.
  - intros [= <- <-]. exists []. rewrite app_nil_r. auto.
  - case_decide as Hd; mred.
    { subst d. intros [= <- <-]. exists [Called cb]. split; [done|]. right. by exists [], cb, []. }
    destruct (write_all d w) as [[] w']; mred.
    2-4: intros [= <- <-]; exists []; rewrite app_nil_r; auto.
    destruct (flush w') as [[] w'']; mred; intros [= <- <-]; cbn; rewrite <- ?app_assoc.
    + exists [Wrote d; Flushed; Called cb]. split; [done|]. right.
      exists d, cb, [Wrote d; Flushed]. unfold written. cbn. by rewrite app_nil_r.
    + exists [Wrote d; Called cb]. split; [done|]. right.
      exists d, cb, [Wrote d]. unfold written. cbn. by rewrite app_nil_r.
    + exists [Wrote d]. auto.
    + exists [Wrote d]. auto.
Qed.

(** Every callback a run of the loop adds to the log comes right after the
    write of the data of its message. *)
Lemma poll_write_called ms s o s' :
  poll_write ms s = (o, s') →
  ∃ l, pw_log s' = pw_log s ++ l ∧
    ∀ cb, cb ∈ called l → ∃ d l1 l2 l3, SendAndThen d cb ∈ ms ∧
      l = l1 ++ l2 ++ Called cb :: l3 ∧ written l2 = d.
Proof.
  revert s. induction ms as [|m ms IH]; intros s; cbn [poll_write]; mred.
  { intros [= <- <-]. exists []. rewrite app_nil_r. split; [done|]. intros cb Hcb. inversion Hcb. }
  destruct (write_step m s) as [c s1] eqn:E. intros Hrun.
  destruct (write_step_called m s c s1 E) as (es & Hlog & Hes).
  assert (∃ l, pw_log s' = pw_log s1 ++ l ∧ ∀ cb, cb ∈ called l →
    ∃ d l1 l2 l3, SendAndThen d cb ∈ ms ∧ l = l1 ++ l2 ++ Called cb :: l3 ∧ written l2 = d)
    as (l & Hl & Hcb).
  { destruct c as [[]| | |]; [by apply IH|..]; injection Hrun as <- <-;
      exists []; rewrite app_nil_r; (split; [done|]); intros cb Hcb; inversion Hcb. }
  exists (es ++ l). rewrite Hl, Hlog, <- app_assoc. split; [done|].
  intros cb Hin. rewrite called_app in Hin. apply elem_of_app in Hin as [Hin|Hin].
  - destruct Hes as [He|(d & cb' & pre & -> & -> & Hpre & Hwr)].
    { rewrite He in Hin. inversion Hin. }
    rewrite called_app, Hpre in Hin. apply list_elem_of_singleton in Hin as ->.
    exists d, [], pre, l. rewrite <- app_assoc. split; [left|done].
  - destruct (Hcb cb Hin) as (d & l1 & l2 & l3 & Hm & -> & Hw).
    exists d, (es ++ l1), l2, l3. rewrite <- app_assoc. split; [by right|done].
Qed.
End WriteFacts.

(** *** What reaches the stream *)

Section Delivery.
Context `{BufWriter} {Cb : Type}.
Implicit Types (m : WriterMessage Cb) (ms : list (WriterMessage Cb)) (s : pw Cb) (w : writer).

Definition delivered_by s : bytes := delivered (pw_writer s).
Definition taken s : bytes := delivered (pw_writer s) ++ buffered (pw_writer s).

(** A message after which nothing waits in the writer. *)
Definition flushes m : bool :=
  match m with Flush | Send (_ :: _) true | SendAndThen (_ :: _) _ => true | _ => false end.

(** The payloads up to the last message that flushes. *)
Fixpoint settled ms : bytes :=
  match ms with
  | [] => []
  | m :: ms => if existsb flushes (m :: ms) then payload m ++ settled ms else []
  end.

(** [s'] is [s] after the writer took [d]. *)
Definition took d s s' : Prop :=
  delivered_by s `prefix_of` delivered_by s' ∧ taken s' = taken s ++ d.

Lemma took_nil w log log' : took [] (Pw w log) (Pw w log').
Proof. split; [reflexivity|]. by rewrite app_nil_r. Qed.
Lemma took_trans d1 d2 s1 s2 s3 : took d1 s1 s2 → took d2 s2 s3 → took (d1 ++ d2) s1 s3.
Proof. intros [P1 T1] [P2 T2]. split; [by etrans|]. by rewrite T2, T1, <- app_assoc. Qed.
Lemma took_log d s s' e log : took d s s' → log = pw_log s' ++ e → took d s (Pw (pw_writer s') log).
Proof. by intros []. Qed.

Lemma do_write_took d s :
  ∃ d', d' `prefix_of` d ∧ took d' s (snd (do_write d s)) ∧ (fst (do_write d s) = Ok tt → d' = d).
Proof.
  destruct s as [w log]. destruct (write_all_takes d w) as (P & d' & Hd & Ho & T).
  unfold do_write. cbn [pw_writer]. exists d'. rewrite app_assoc in T.
  destruct (write_all d w) as [[[]| | |] w']; cbn in *; by repeat split.
Qed.
Lemma do_flush_took s :
  took [] s (snd (do_flush s)) ∧
  (fst (do_flush s) = Ok tt → buffered (pw_writer (snd (do_flush s))) = []).
Proof.
  destruct s as [w log]. destruct (flush_delivers w) as (P & T & E). unfold do_flush. cbn [pw_writer].
  rewrite <- (app_nil_r (delivered w ++ buffered w)) in T.
  destruct (flush w) as [[[]| | |] w']; cbn in *; by repeat split.
Qed.
Lemma flush_took s : took [] s (snd (ignore do_flush s)).
Proof.
  destruct (do_flush_took s) as [T _]. unfold ignore. by destruct (do_flush s) as [[] ?].
Qed.

Lemma write_or_break_took d (k : M (pw Cb) control) s :
  (∀ s, took [] s (snd (k s))) →
  ∃ d', d' `prefix_of` d ∧ took d' s (snd (write_or_break d k s)) ∧
    (fst (write_or_break d k s) = Ok Continue → d' = d).
Proof.
  intros Hk. destruct (do_write_took d s) as (d' & Hd & T & Ho). unfold write_or_break.
  exists d'. split; [done|]. destruct (do_write d s) as [[[]| | |] s1]; cbn [fst snd] in *;
    [|by split..]. split; [|by intros _; apply Ho]. rewrite <- (app_nil_r d'). by eapply took_trans.
Qed.

(** Whatever the writer answers, it takes a beginning of a message's data, all
    of it where the loop goes on. *)
Lemma write_step_took m s :
  ∃ d, d `prefix_of` payload m ∧ took d s (snd (write_step m s)) ∧
    (fst (write_step m s) = Ok Continue → d = payload m).
Proof.
  assert (∀ log', took [] s (Pw (pw_writer s) log')) as Hlog by (intros log'; destruct s; apply took_nil).
  assert (took [] s s) as Hs by (destruct s; apply took_nil).
  assert (∀ (cb : Cb) s', took [] s' (snd ((ignore do_flush;; log_event (Called cb);; mret Continue) s'))) as Hthen.
  { intros cb s'. pose proof (flush_took s') as T. unfold mbind, M_bind.
    destruct (ignore do_flush s') as [[[]| | |] s1]; done || exact T. }
  destruct m as [| |ms|d fl|d a|d cb]; cbn [write_step payload].
  - by exists [].
  - exists []. split; [done|]. pose proof (flush_took s) as T. split; [|done]. unfold mbind, M_bind.
    by destruct (ignore do_flush s) as [[] s1].
  - exists []. split; [done|]. split; [apply Hlog|done].
  - case_decide as Hd; [subst d; by exists []|]. apply write_or_break_took. intros s'.
    unfold when, mbind, M_bind. destruct fl; [|by destruct s'; apply took_nil].
    pose proof (flush_took s') as T. by destruct (ignore do_flush s') as [[] s1].
  - by exists [].
  - case_decide as Hd; [subst d; exists []; split; [done|]; split; [apply Hlog|done]|].
    by apply write_or_break_took.
Qed.

Lemma poll_write_took ms s :
  ∃ d, d `prefix_of` mjoin (payload <$> until_stop ms) ∧ took d s (snd (poll_write ms s)).
Proof.
  revert s. induction ms as [|m ms IH]; intros s; cbn [poll_write].
  { exists []. split; [done|]. destruct s. apply took_nil. }
  destruct (write_step_took m s) as (d & Hd & T & Ho). unfold mbind, M_bind.
  assert (payload m `prefix_of` mjoin (payload <$> until_stop (m :: ms))) as Hm.
  { cbn [until_stop]. destruct (stops_loop m); cbn; by apply prefix_app_r. }
  assert (stops_loop m = true → fst (write_step m s) ≠ Ok Continue) as Hstop by (by destruct m).
  destruct (write_step m s) as [[[]| | |] s1]; cbn [fst snd] in *;
    [|exists d; split; [by etrans|done]..].
  rewrite (Ho eq_refl) in T. cbn [until_stop]. destruct (stops_loop m); [by destruct Hstop|].
  destruct (IH s1) as (d2 & Hd2 & T2). exists (payload m ++ d2). cbn.
  split; [by apply prefix_app|by eapply took_trans].
Qed.

(** *** On a writer that accepts everything *)

Context (Hacc : writer_accepts).

Lemma ignore_flush_empties s : ∃ s', ignore do_flush s = (Ok tt, s') ∧ took [] s s' ∧ buffered (pw_writer s') = [].
Proof using All.
  destruct (do_flush_took s) as [T E]. destruct s as [w log]. unfold ignore.
  destruct (accepts_runs Hacc) as [_ Hf]. destruct (Hf w) as [w' Hw'].
  unfold do_flush in *. cbn [pw_writer] in *. rewrite Hw' in *. eauto.
Qed.

Lemma write_step_settles m s :
  is_send_to m = false →
  ∃ s', write_step m s = (Ok (if stops_loop m then Break else Continue), s') ∧
    took (payload m) s s' ∧ (flushes m = true → buffered (pw_writer s') = []).
Proof using All.
  intros Hm. destruct (write_step_log m s Hacc Hm) as [w' E].
  destruct (write_step_took m s) as (d & Hd & T & Ho). eexists. split; [exact E|].
  rewrite E in T, Ho. cbn [fst snd] in T, Ho. split.
  { destruct (stops_loop m) eqn:Es; [|by rewrite <- (Ho eq_refl)].
    replace (payload m) with d; [done|]. destruct m; try done; by apply prefix_nil_inv in Hd as ->. }
  intros Hf. cbn [pw_writer].
  destruct m as [| |ms|d0 fl|d0 a|d0 cb]; try done; cbn [write_step] in E.
  - destruct (ignore_flush_empties s) as (s1 & E1 & _ & Hb). unfold mbind, M_bind in E. rewrite E1 in E.
    by injection E as ->.
  - destruct d0 as [|b d0]; [done|]. destruct fl; [|done]. rewrite decide_False in E by done.
    unfold write_or_break in E. destruct (do_write (b :: d0) s) as [[[]| | |] s1]; try done.
    destruct (ignore_flush_empties s1) as (s2 & E2 & _ & Hb). unfold when, mbind, M_bind in E.
    rewrite E2 in E. by injection E as ->.
  - destruct d0 as [|b d0]; [done|]. rewrite decide_False in E by done.
    unfold write_or_break in E. destruct (do_write (b :: d0) s) as [[[]| | |] s1]; try done.
    destruct (ignore_flush_empties s1) as (s2 & E2 & _ & Hb). unfold mbind, M_bind in E.
    rewrite E2 in E. by injection E as <-.
Qed.

Lemma settled_none ms : existsb flushes ms = false → settled ms = [].
Proof using. destruct ms; [done|]. intros E. cbn [settled]. by rewrite E. Qed.

Lemma settled_all ms :
  Forall (λ m, payload m = [] ∨ flushes m = true) ms → settled ms = mjoin (payload <$> ms).
Proof using.
  induction 1 as [|m ms Hm Hms IH]; [done|]. cbn [settled]. destruct (existsb flushes (m :: ms)) eqn:E.
  - by rewrite IH.
  - cbn [existsb] in E. apply orb_false_iff in E as [Em E]. rewrite Em in Hm.
    destruct Hm as [Hm|]; [|done]. change (mjoin (payload <$> m :: ms))
      with (payload m ++ mjoin (M := list) (payload <$> ms)). by rewrite Hm, <- IH, settled_none.
Qed.

Lemma poll_write_settles ms s :
  forallb (λ m, negb (is_send_to m)) (until_stop ms) = true →
  ∃ c rest s', poll_write ms s = (Ok (c, rest), s') ∧
    took (mjoin (payload <$> until_stop ms)) s s' ∧
    (existsb flushes (until_stop ms) = true → taken s ++ settled (until_stop ms) `prefix_of` delivered_by s').
Proof using All.
  revert s. induction ms as [|m ms IH]; intros s Hs.
  { eexists _, _, s. split; [done|]. split; [destruct s; apply took_nil|done]. }
  assert (is_send_to m = false ∧ (stops_loop m = false → forallb (λ m, negb (is_send_to m)) (until_stop ms) = true))
    as [Hm Hms].
  { cbn [until_stop] in Hs. destruct (stops_loop m); cbn in Hs; apply andb_prop in Hs as [H1 H2];
      by apply negb_true_iff in H1. }
  destruct (write_step_settles m s Hm) as (s1 & E & T & Hb). cbn [poll_write until_stop].
  rewrite (bind_ok _ _ _ _ _ E). destruct (stops_loop m) eqn:Es.
  - eexists _, _, s1. split; [done|]. cbn. rewrite app_nil_r. split; [done|]. by destruct m.
  - destruct (IH s1 (Hms eq_refl)) as (c & rest & s2 & E2 & T2 & P2). exists c, rest, s2.
    split; [done|]. split; [by eapply took_trans|]. intros Hf. cbn [settled]. rewrite Hf.
    destruct (existsb flushes (until_stop ms)) eqn:Ef.
    + specialize (P2 eq_refl). destruct T as [_ T]. by rewrite app_assoc, <- T.
    + rewrite (settled_none _ Ef), app_nil_r. cbn [existsb] in Hf. rewrite Ef, orb_false_r in Hf.
      destruct T as [_ T]. rewrite <- T. unfold taken. rewrite (Hb Hf), app_nil_r. apply T2.
Qed.
End Delivery.

(** ** Facts about the read loop *)

(** An extraction that returns a frame takes bytes out of the buffer: the
    condition the trait's documentation puts on [on_try_extract_frame]. *)
Class Consuming {D} (extract : bytes → M D (option bytes * bytes)) : Prop :=
  consuming buffer d f r d' :
    extract buffer d = (Ok (Some f, r), d') → (length r < length buffer)%nat.

(** An extraction that decides on a prefix of the stream decides the same
    whatever follows it, and one that needs more bytes changes nothing. *)
Class Incremental {D} (extract : bytes → M D (option bytes * bytes)) : Prop :=
  incremental buffer more d :
    buffer ≠ [] →
    match extract buffer d with
    | (Ok (Some f, r), d') => extract (buffer ++ more) d = (Ok (Some f, r ++ more), d')
    | (Ok (None, r), d') => r = buffer ∧ d' = d
    | (Err e, d') => extract (buffer ++ more) d = (Err e, d')
    | (Panic w, d') => extract (buffer ++ more) d = (Panic w, d')
    | (Pending, d') => extract (buffer ++ more) d = (Pending, d')
    end.

Section ReadFacts.
Context {D : Type} (extract : bytes → M D (option bytes * bytes)) (recv : bytes → M D unit).
Context `{!Consuming extract}.

Abbreviation unpack := (unpack extract recv).
Abbreviation poll_read := (poll_read extract recv).

Definition unpack_all (buffer : bytes) : M D (option bytes) :=
  unpack (S (length buffer)) buffer.
#[local] Arguments unpack_all : simpl never.

Lemma unpack_enough fuel buffer d :
  (length buffer < fuel)%nat → fst (unpack fuel buffer d) ≠ Ok None.
Proof using All.
  revert buffer d. induction fuel as [|fuel IH]; intros buffer d Hlt; [lia|].
  cbn [Net.unpack]. case_decide; [done|]. mred.
  destruct (extract buffer d) as [[[[f|] r]| | |] d'] eqn:E; try done.
  apply consuming in E. destruct (recv f d') as [[] d'']; try done. apply IH. lia.
Qed.

Lemma unpack_fuel f1 f2 buffer d :
  (length buffer < f1)%nat → (length buffer < f2)%nat →
  unpack f1 buffer d = unpack f2 buffer d.
Proof using All.
  revert f2 buffer d. induction f1 as [|f1 IH]; intros [|f2] buffer d H1 H2; [lia..|].
  cbn [Net.unpack]. case_decide; [done|]. mred.
  destruct (extract buffer d) as [[[[f|] r]| | |] d'] eqn:E; try done.
  apply consuming in E. destruct (recv f d') as [[] d'']; try done. apply IH; lia.
Qed.

Lemma unpack_all_step buffer d :
  unpack_all buffer d =
    if decide (buffer = []) then (Ok (Some buffer), d)
    else match extract buffer d with
         | (Ok (Some f, r), d') =>
             match recv f d' with
             | (Ok _, d'') => unpack_all r d''
             | (Err e, d'') => (Err e, d'')
             | (Panic w, d'') => (Panic w, d'')
             | (Pending, d'') => (Pending, d'')
             end
         | (Ok (None, r), d') => (Ok (Some r), d')
         | (Err e, d') => (Err e, d')
         | (Panic w, d') => (Panic w, d')
         | (Pending, d') => (Pending, d')
         end.
Proof using All.
  unfold unpack_all at 1. cbn [Net.unpack]. case_decide; [done|]. mred.
  destruct (extract buffer d) as [[[[f|] r]| | |] d'] eqn:E; try done.
  apply consuming in E. destruct (recv f d') as [[] d'']; try done.
  apply unpack_fuel; lia.
Qed.

Context `{!Incremental extract}.

(** Unpacking a longer buffer continues from where the shorter one stopped. *)
Lemma unpack_all_app buffer more d :
  unpack_all (buffer ++ more) d =
    match unpack_all buffer d with
    | (Ok (Some r), d') => unpack_all (r ++ more) d'
    | o => o
    end.
Proof using All.
  remember (length buffer) as n eqn:Hn. revert buffer d Hn.
  induction (lt_wf n) as [n _ IH]; intros buffer d ->.
  rewrite (unpack_all_step buffer). case_decide as Hb; [by subst|].
  pose proof (incremental buffer more d Hb) as Hinc.
  destruct (extract buffer d) as [[[[f|] r]| | |] d'] eqn:E.
  - rewrite unpack_all_step, decide_False by (by destruct buffer). rewrite Hinc.
    apply consuming in E. destruct (recv f d') as [[] d'']; try done.
    by apply (IH (length r)).
  - by destruct Hinc as [-> ->].
  - by rewrite unpack_all_step, decide_False, Hinc by (by destruct buffer).
  - by rewrite unpack_all_step, decide_False, Hinc by (by destruct buffer).
  - by rewrite unpack_all_step, decide_False, Hinc by (by destruct buffer).
Qed.

(** What is left after unpacking holds no complete frame. *)
Lemma unpack_all_quiescent buffer d r d' :
  unpack_all buffer d = (Ok (Some r), d') → unpack_all r d' = (Ok (Some r), d').
Proof using All.
  remember (length buffer) as n eqn:Hn. revert buffer d Hn.
  induction (lt_wf n) as [n _ IH]; intros buffer d ->.
  rewrite unpack_all_step. case_decide as Hb.
  { intros [= <- <-]. by rewrite unpack_all_step, decide_True. }
  pose proof (incremental buffer [] d Hb) as Hinc.
  destruct (extract buffer d) as [[[[f|] r0]| | |] d0] eqn:E; try done.
  - apply consuming in E. destruct (recv f d0) as [[] d'']; try done.
    by apply (IH (length r0)).
  - destruct Hinc as [-> ->]. intros [= <- <-].
    by rewrite unpack_all_step, decide_False, E.
Qed.

(** The outcome of [poll_read] on a stream, read all at once. *)
Definition read_whole (buffer : bytes) : M D bytes :=
  o ← unpack_all buffer;
  match o with Some b => mret b | None => lift Pending end.

Lemma poll_read_chunks closed cs buffer d :
  Forall (λ c, c ≠ []) cs → unpack_all buffer d = (Ok (Some buffer), d) →
  poll_read closed (Bytes <$> cs) buffer d = read_whole (buffer ++ mjoin cs) d.
Proof using All.
  intros Hcs. revert buffer d. induction Hcs as [|c cs Hc Hcs IH]; intros buffer d Hq.
  - cbn. rewrite app_nil_r. unfold read_whole. mred. by rewrite Hq.
  - destruct c as [|b c]; [done|]. cbn [fmap list_fmap Net.poll_read].
    change (Net.unpack extract recv (S (length (buffer ++ b :: c))) (buffer ++ b :: c))
      with (unpack_all (buffer ++ b :: c)).
    unfold read_whole, mjoin. cbn [list_join]. fold (mjoin (M := list) cs). rewrite app_assoc. mred.
    rewrite (unpack_all_app (buffer ++ b :: c)).
    destruct (unpack_all (buffer ++ b :: c) d) as [[[r|]| | |] d'] eqn:E; try done.
    apply unpack_all_quiescent in E. rewrite (IH r d' E). done.
Qed.
End ReadFacts.

(** ** Facts about the life cycle *)

Section RunFacts.
Context {D : Type} `{SessionDelegate D}.
Implicit Types s : session D.

Definition closes_ok s : Prop :=
  match s_phase s with
  | Starting | Running | Closing => s_closes s = 0%nat
  | Finished | Aborted => (s_closes s <= 1)%nat
  end.

Lemma session_step_closes id addr tx w s : closes_ok s → closes_ok (session_step id addr tx w s).
Proof.
  destruct s as [p b d n]. unfold closes_ok. cbn [s_phase s_closes]. intros Hs.
  destruct p, w; cbn -[poll_read]; try done; unfold close_session; cbn -[poll_read].
  - destruct (on_session_start id addr tx d) as [[] ?]; cbn; lia.
  - destruct (poll_read on_try_extract_frame on_recv_frame (socket_closed addr) [r] b d)
      as [[] d']; cbn; try lia;
      destruct (on_session_close d') as [[] ?]; cbn; lia.
  - destruct (on_session_close d) as [[] ?]; cbn; lia.
  - lia.
  - destruct (on_session_close d) as [[] ?]; cbn; lia.
  - destruct (on_session_close d) as [[] ?]; cbn; lia.
Qed.

Lemma run_session_app id addr tx ws1 ws2 d :
  run_session id addr tx (ws1 ++ ws2) d =
    fold_left (λ s w, session_step id addr tx w s) ws2 (run_session id addr tx ws1 d).
Proof. apply fold_left_app. Qed.

Lemma session_done id addr tx ws s :
  s_phase s = Finished ∨ s_phase s = Aborted →
  fold_left (λ s w, session_step id addr tx w s) ws s = s.
Proof.
  intros Hs. induction ws as [|w ws IH]; cbn; [done|].
  replace (session_step id addr tx w s) with s; [done|].
  unfold session_step. destruct Hs as [->| ->]; by destruct w.
Qed.

(** How a session finishes: closed once, or never started. *)
Definition finish_ok (id : u32) (addr : SocketAddr) (tx : handle) s : Prop :=
  match s_phase s with
  | Finished => s_closes s = 1%nat ∨ ∃ d0 e, on_session_start id addr tx d0 = (Err e, s_delegate s)
  | _ => True
  end.

Lemma session_step_finish id addr tx w s :
  closes_ok s → finish_ok id addr tx s → finish_ok id addr tx (session_step id addr tx w s).
Proof.
  destruct s as [p b d n]. unfold closes_ok, finish_ok. cbn [s_phase s_closes s_delegate].
  intros Hc Hs.
  destruct p, w; cbn -[poll_read]; try done; unfold close_session; cbn -[poll_read].
  - destruct (on_session_start id addr tx d) as [[] ?] eqn:E; cbn; eauto.
  - destruct (poll_read on_try_extract_frame on_recv_frame (socket_closed addr) [r] b d)
      as [[] d']; cbn; try done.
    destruct (on_session_close d') as [[] ?]; cbn; subst; auto.
  - destruct (on_session_close d) as [[] ?]; cbn; subst; auto.
  - destruct (on_session_close d) as [[] ?]; cbn; subst; auto.
  - destruct (on_session_close d) as [[] ?]; cbn; subst; auto.
Qed.

Lemma run_session_closes id addr tx ws d : closes_ok (run_session id addr tx ws d).
Proof.
  induction ws as [|w ws IH] using rev_ind; [done|].
  rewrite run_session_app. cbn. by apply session_step_closes.
Qed.

Lemma run_session_finish_ok id addr tx ws d : finish_ok id addr tx (run_session id addr tx ws d).
Proof.
  induction ws as [|w ws IH] using rev_ind; [done|].
  rewrite run_session_app. cbn. apply session_step_finish; [apply run_session_closes|done].
Qed.

Lemma run_session_finished id addr tx ws d :
  s_phase (run_session id addr tx ws d) = Finished →
  s_closes (run_session id addr tx ws d) = 1%nat ∨
  ∃ d0 e, on_session_start id addr tx d0 = (Err e, s_delegate (run_session id addr tx ws d)).
Proof.
  intros Hf. pose proof (run_session_finish_ok id addr tx ws d) as H'.
  unfold finish_ok in H'. by rewrite Hf in H'.
Qed.
End RunFacts.

(** ** Concrete instances, for the witnesses *)

Module NetConcrete.

(** A writer that keeps what it is given, and rejects writes past [cap] bytes. *)
Definition mem_writer (cap : Z) : AsyncWrite := {|
  writer := bytes;
  write_all d w := if len w + len d <=? cap then (Ok tt, w ++ d) else (Err "broken pipe", w);
  flush w := (Ok tt, w)
|}.

(** A writer that accepts everything. *)
#[export] Instance sink_writer : AsyncWrite := {|
  writer := bytes;
  write_all d w := (Ok tt, w ++ d);
  flush w := (Ok tt, w)
|}.

#[export] Instance sink_buffer : BufWriter (H := sink_writer).
Proof.
  refine (@Build_BufWriter sink_writer (λ w, w) (λ _, []) _ _).
  - intros d w. cbn. split; [by apply prefix_app_r|]. exists d. by rewrite !app_nil_r.
  - intros w. cbn. by rewrite app_nil_r.
Defined.

(** tokio's [BufWriter] over a stream that accepts everything, with room for
    [cap] bytes: what was delivered and what waits. *)
Definition buf_writer (cap : Z) : AsyncWrite := {|
  writer := bytes * bytes;
  write_all d '(s, b) :=
    (Ok tt, if len b + len d <=? cap then (s, b ++ d)
            else if cap <=? len d then (s ++ b ++ d, []) else (s ++ b, d));
  flush '(s, b) := (Ok tt, (s ++ b, []))
|}.
#[export] Instance buf_buffer cap : BufWriter (H := buf_writer cap).
Proof.
  refine (@Build_BufWriter (buf_writer cap) fst snd _ _).
  - intros d [s b]. cbn. split; [repeat case_match; cbn; by rewrite ?app_assoc; repeat apply prefix_app_r|].
    exists d. split; [done|]. split; [done|]. repeat case_match; cbn; by rewrite ?app_nil_r, <- ?app_assoc.
  - intros [s b]. cbn. split; [by apply prefix_app_r|]. by rewrite app_nil_r.
Defined.
Lemma buf_accepts cap : writer_accepts (H := buf_writer cap).
Proof. split; [by intros d []|by intros []]. Qed.
Definition small_writer : AsyncWrite := buf_writer 4.
Definition small_buffer : BufWriter (H := small_writer) := buf_buffer 4.

(** A delegate that collects the frames of a protocol of length-prefixed frames. *)
Definition lp_extract (buffer : bytes) : M (list bytes) (option bytes * bytes) :=
  match buffer with
  | [] => mret (None, [])
  | n :: rest =>
      if len rest <? n then mret (None, buffer)
      else mret (Some (take (Z.to_nat n) rest), drop (Z.to_nat n) rest)
  end.

#[export] Instance collector : SessionDelegate (list bytes) := {|
  on_session_start _ _ _ := mret tt;
  on_session_close := modify (λ fs, fs ++ [[]]);
  on_try_extract_frame := lp_extract;
  on_recv_frame f := modify (λ fs, fs ++ [f]);
  on_recv_frame_from := default_recv_frame_from
|}.

Lemma lp_consuming : Consuming lp_extract.
Proof.
  intros [|n rest] d f r d' E; unfold lp_extract in E; [done|].
  destruct (len rest <? n); [done|]. injection E as <- <- <-.
  cbn. rewrite length_drop. lia.
Qed.

Lemma lp_incremental : Incremental lp_extract.
Proof.
  intros [|n rest] more d Hb; [done|]. cbn.
  destruct (Z.ltb_spec (len rest) n) as [|Hn]; cbn; [done|].
  destruct (Z.ltb_spec (len (rest ++ more)) n) as [Hlt|];
    rewrite len_app in *; pose proof (len_nonneg more); [lia|].
  unfold len in Hn. rewrite take_app_le, drop_app_le by lia. done.
Qed.

End NetConcrete.

(** ** Properties *)

(** C15: What the write loop puts on the stream. Whatever its writer answers,
    what reaches the stream is a beginning of the payloads of the messages up to
    the first [Close] or [CloseDelayed], in order. Where the writer accepts
    everything and no message is an unsupported [SendTo], that beginning holds
    every payload up to the last message that flushes, so all of them if each
    message with data does; what comes after the last flush may still wait in
    the writer's buffer, and goes with it. The callbacks of those messages are
    called, in order. *)
Theorem poll_write_correct `{BufWriter} {Cb : Type} (ms : list (WriterMessage Cb)) (w : writer) :
  buffered w = [] →
  (delivered w `prefix_of` delivered (pw_writer (snd (poll_write ms (Pw w []))))) ∧
  (delivered (pw_writer (snd (poll_write ms (Pw w []))))
     `prefix_of` delivered w ++ mjoin (payload <$> until_stop ms)) ∧
  (writer_accepts → forallb (λ m, negb (is_send_to m)) (until_stop ms) = true →
   ∃ c rest s', poll_write ms (Pw w []) = (Ok (c, rest), s') ∧
     delivered w ++ settled (until_stop ms) `prefix_of` delivered (pw_writer s') ∧
     (Forall (λ m, payload m = [] ∨ flushes m = true) (until_stop ms) →
        delivered (pw_writer s') = delivered w ++ mjoin (payload <$> until_stop ms)) ∧
     called (pw_log s') =
       omap (λ m, match m with SendAndThen _ cb => Some cb | _ => None end) (until_stop ms)).
Proof.
  intros Hw. assert (taken (Pw (Cb := Cb) w []) = delivered w) as Et by (unfold taken; cbn; by rewrite Hw, app_nil_r).
  destruct (poll_write_took ms (Pw w [])) as (d & Hd & P & T). split; [exact P|]. split.
  { rewrite Et in T. etrans; [|by apply prefix_app]. rewrite <- T. by apply prefix_app_r. }
  clear d Hd P T. intros Ha Hs.
  destruct (poll_write_settles Ha ms (Pw w []) Hs) as (c & rest & s' & E & [P T] & Hset).
  destruct (poll_write_log ms (Pw w []) Ha Hs) as (c' & rest' & w' & E'). rewrite E in E'.
  injection E' as -> -> ->. rewrite Et in T, Hset. eexists _, _, _. split; [done|].
  assert (delivered w ++ settled (until_stop ms) `prefix_of` delivered w') as Hp.
  { destruct (existsb flushes (until_stop ms)) eqn:Ef; [by apply Hset|].
    rewrite (settled_none _ Ef), app_nil_r. exact P. }
  split; [exact Hp|]. split; [|cbn; by apply effects_of_all]. intros Hf.
  unfold taken in T. cbn [pw_writer] in T. rewrite (settled_all _ Hf), <- T in Hp.
  rewrite <- T. destruct Hp as [k Hk]. rewrite <- app_assoc in Hk. cbn [pw_writer].
  rewrite <- (app_nil_r (delivered w')) in Hk at 1. apply app_inv_head in Hk. symmetry in Hk.
  apply app_eq_nil in Hk as [-> _]. by rewrite app_nil_r.
Qed.

Section NetProperties.
Context `{AsyncWrite} {Cb : Type}.

(** Whatever the writer answers (errors included), an acknowledgement
    callback runs only after the data it acknowledges was written: in the log
    of a run, every callback belongs to a [SendAndThen] the loop received, and
    the events just before it wrote that message's data. *)
Theorem poll_write_ack_after_write (ms : list (WriterMessage Cb)) (w : writer) o s' cb :
  poll_write ms (Pw w []) = (o, s') → cb ∈ called (pw_log s') →
  ∃ d l1 l2 l3, SendAndThen d cb ∈ ms ∧
    pw_log s' = l1 ++ l2 ++ Called cb :: l3 ∧ written l2 = d.
Proof.
  intros Hrun Hcb. destruct (poll_write_called _ _ _ _ Hrun) as (l & Hl & Hl').
  cbn in Hl. subst l. by apply Hl'.
Qed.
End NetProperties.

Section DeliveryWitness.
#[local] Existing Instances NetConcrete.small_writer NetConcrete.small_buffer.

Let empty : writer := (([], []) : bytes * bytes).

(** A writer with a buffer of four bytes: the data without a flush is lost when
    the loop ends. *)
Lemma poll_write_correct_witness :
  let ms := [Send [1; 2] true; SendAndThen [3] 7; Send [4; 5] false; Close; Send [9] true] in
  let s := snd (poll_write ms (Pw empty [])) in
  (delivered (pw_writer s) = [1; 2; 3] ∧ buffered (pw_writer s) = [4; 5]) ∧
  [] `prefix_of` delivered (pw_writer s) ∧
  (delivered (pw_writer s) `prefix_of` [] ++ mjoin (payload <$> until_stop ms)) ∧
  ∃ c rest s', poll_write ms (Pw empty []) = (Ok (c, rest), s') ∧
    [] ++ settled (until_stop ms) `prefix_of` delivered (pw_writer s') ∧ called (pw_log s') = [7].
Proof.
  intros ms s. split; [by split|].
  destruct (poll_write_correct ms empty) as (H1 & H2 & H3); [reflexivity|].
  split; [exact H1|]. split; [exact H2|].
  destruct (H3 (NetConcrete.buf_accepts 4) eq_refl) as (c & rest & s' & E & Hp & _ & Hc).
  exists c, rest, s'. split; [exact E|]. split; [exact Hp|exact Hc].
Defined.
End DeliveryWitness.

Lemma poll_write_ack_after_write_witness :
  ∃ d l1 l2 l3, SendAndThen d 7 ∈ [SendAndThen [3; 4] 7; SendAndThen [5] 8] ∧
    [Wrote [3; 4]; Flushed; Called 7] = l1 ++ l2 ++ Called 7 :: l3 ∧ written l2 = d.
Proof.
  apply (poll_write_ack_after_write (H := NetConcrete.mem_writer 2)
    [SendAndThen [3; 4] 7; SendAndThen [5] 8] [] (Ok (Break, []))
    (Pw (H := NetConcrete.mem_writer 2) [3; 4] [Wrote [3; 4]; Flushed; Called 7]) 7).
  - reflexivity.
  - left.
Defined.

Section LoopProperties.
Context {D : Type}.

(** C16: The unpacking loop terminates for every delegate whose extraction
    consumes what it returns: one turn per buffered byte, and one more, is
    always enough, and more turns give the same result. *)
Theorem unpack_terminates (extract : bytes → M D (option bytes * bytes))
    (recv : bytes → M D unit) (buffer : bytes) (d : D) (fuel : nat) :
  Consuming extract → (length buffer < fuel)%nat →
  fst (unpack extract recv fuel buffer d) ≠ Ok None ∧
  unpack extract recv fuel buffer d = unpack extract recv (S (length buffer)) buffer d.
Proof.
  intros Hc Hf. split; [by apply unpack_enough|]. by apply unpack_fuel; [|lia..].
Qed.

(** C14: TCP segmentation is invisible: for a delegate whose extraction is
    incremental, reading a stream in any non-empty pieces has the same outcome
    and leaves the delegate in the same state as reading it in one piece. *)
Theorem segmentation_invisible (extract : bytes → M D (option bytes * bytes))
    (recv : bytes → M D unit) (closed : outcome bytes) (cs cs' : list bytes) (d : D) :
  Consuming extract → Incremental extract →
  Forall (λ c, c ≠ []) cs → Forall (λ c, c ≠ []) cs' → mjoin cs = mjoin cs' →
  poll_read extract recv closed (Bytes <$> cs) [] d =
  poll_read extract recv closed (Bytes <$> cs') [] d.
Proof.
  intros Hc Hi H1 H2 Heq.
  by rewrite !(poll_read_chunks extract recv), Heq.
Qed.

(** A session that started runs [on_session_close] exactly once if it
    finishes, and whatever wakes its task afterwards changes nothing; a
    session whose start failed never runs it. *)
Theorem session_closed_once `{SessionDelegate D} id addr tx (ws ws' : list wakeup) (d : D) :
  let s := run_session id addr tx ws d in
  (s_closes s <= 1)%nat ∧
  (s_phase s = Finished →
     run_session id addr tx (ws ++ ws') d = s ∧
     (s_closes s = 1%nat ∨ ∃ d0 e, on_session_start id addr tx d0 = (Err e, s_delegate s))).
Proof.
  split.
  { pose proof (run_session_closes id addr tx ws d) as Hs. unfold closes_ok in Hs.
    destruct (s_phase (run_session id addr tx ws d)); lia. }
  intros Hf. split; [rewrite run_session_app; apply session_done; auto|].
  by apply run_session_finished.
Qed.
End LoopProperties.

Import NetConcrete.

Lemma unpack_terminates_witness :
  fst (unpack NetConcrete.lp_extract (on_recv_frame (D := list bytes)) 9 [1; 7; 2; 5] []) ≠ Ok None ∧
  unpack NetConcrete.lp_extract (on_recv_frame (D := list bytes)) 9 [1; 7; 2; 5] []
    = (Ok (Some [2; 5]), [[7]]).
Proof.
  exact (unpack_terminates lp_extract on_recv_frame [1; 7; 2; 5] [] 9 lp_consuming
    ltac:(cbn; lia)).
Defined.

Lemma segmentation_invisible_witness :
  poll_read NetConcrete.lp_extract (on_recv_frame (D := list bytes)) (Err "closed")
    (Bytes <$> [[2; 7]; [8; 1]; [9]]) [] [] =
  poll_read NetConcrete.lp_extract (on_recv_frame (D := list bytes)) (Err "closed")
    (Bytes <$> [[2; 7; 8; 1; 9]]) [] [].
Proof.
  apply (segmentation_invisible NetConcrete.lp_extract on_recv_frame (Err "closed")
    [[2; 7]; [8; 1]; [9]] [[2; 7; 8; 1; 9]] []).
  - apply NetConcrete.lp_consuming.
  - apply NetConcrete.lp_incremental.
  - repeat constructor; done.
  - repeat constructor; done.
  - reflexivity.
Defined.

Lemma session_closed_once_witness :
  let s := run_session (D := list bytes) 1 (V4 (Ipv4 127 0 0 1) 80) 5
             [WStart; WRead (Bytes [1; 7]); WShutdown] [] in
  (s_closes s <= 1)%nat ∧
  (s_phase s = Finished →
     run_session 1 (V4 (Ipv4 127 0 0 1) 80) 5
       ([WStart; WRead (Bytes [1; 7]); WShutdown] ++ [WRead (Bytes [1; 9]); WShutdown]) [] = s ∧
     (s_closes s = 1%nat ∨
      ∃ d0 e, on_session_start 1 (V4 (Ipv4 127 0 0 1) 80) 5 d0 = (Err e, s_delegate s))).
Proof.
  apply (session_closed_once 1 (V4 (Ipv4 127 0 0 1) 80) 5
    [WStart; WRead (Bytes [1; 7]); WShutdown] [WRead (Bytes [1; 9]); WShutdown] []).
Defined.
