(* ===== verification/Udp.v ===== *)
(** [np_base/src/net]: UDP sessions ([udp_session.rs]) and the server that
    makes one for each address it hears from ([udp_server.rs]). *)

From stdpp Require Import sorting.
From S2P Require Import Prelude Std Net.

#[export] Instance Ipv4Addr_countable : Countable Ipv4Addr :=
  inj_countable' (λ ip, match ip with Ipv4 a b c d => (a, b, c, d) end)
    (λ '(a, b, c, d), Ipv4 a b c d) ltac:(by intros []).
#[export] Instance SocketAddr_countable : Countable SocketAddr :=
  inj_countable'
    (λ a, match a with V4 ip p => inl (ip, p) | V6 ip p f s => inr (ip : bytes, p, f, s) end)
    (λ x, match x with inl (ip, p) => V4 ip p | inr (ip, p, f, s) => V6 ip p f s end)
    ltac:(by intros []).

(** ** udp_session.rs: the write loop

    A message comes with whether the socket accepts the datagram it asks for. *)

Section UdpWrite.
Context {Cb : Type}.

Inductive udp_write_event :=
| SentTo (data : bytes) (target : SocketAddr)
| UdpCalled (callback : Cb)
| UdpSlept (millis : Z).

Definition udp_log (e : udp_write_event) : M (list udp_write_event) unit :=
  modify (λ log, log ++ [e]).

(** [if let Err(error) = socket.send_to(&data, &target).await { error!(..); break; }] *)
Definition send_or_break (sent : bool) (data : bytes) (target : SocketAddr)
    (k : M (list udp_write_event) control) : M (list udp_write_event) control :=
  if sent then udp_log (SentTo data target);; k else mret Break.

(** One turn of [poll_write]'s loop. *)
Definition udp_write_step (addr : SocketAddr) (message : WriterMessage Cb) (sent : bool)
    : M (list udp_write_event) control :=
  match message with
  | Close => mret Break
  | CloseDelayed duration => udp_log (UdpSlept duration);; mret Break
  | Send data _flush =>
      if decide (data = []) then mret Continue
      else send_or_break sent data addr (mret Continue)
  | SendTo data target_addr =>
      if decide (data = []) then mret Continue
      else send_or_break sent data target_addr (mret Continue)
  | SendAndThen data callback =>
      if decide (data = []) then udp_log (UdpCalled callback);; mret Continue
      else send_or_break sent data addr (udp_log (UdpCalled callback);; mret Continue)
  | Flush => mret Continue
  end.

Fixpoint udp_poll_write (addr : SocketAddr) (msgs : list (WriterMessage Cb * bool))
    : M (list udp_write_event) (control * list (WriterMessage Cb * bool)) :=
  match msgs with
  | [] => mret (Continue, [])
  | (m, sent) :: ms =>
      c ← udp_write_step addr m sent;
      match c with
      | Break => mret (Break, ms)
      | Continue => udp_poll_write addr ms
      end
  end.
End UdpWrite.
Arguments udp_write_event Cb : clear implicits.

(** ** udp_session.rs: a session *)

(** [if last_active_time.elapsed() >= write_timeout { last_active_time = now }]:
    times are in milliseconds. *)
Definition touch (now last : Z) : Z := if 1000 <=? now - last then now else last.

(** What [poll_timeout] asks every second. *)
Definition timed_out (now last : Z) : bool := 10000 <? now - last.

Section UdpSession.
Context {D : Type} `{SessionDelegate D} {Cb : Type}.

(** [us_inbox] is the receiving half of [udp_recv_receiver], for a session of a
    server; a session without one reads its own socket. [us_hand] is the
    datagram the read loop has taken and the delegate has not finished with. *)
Record udp_session := UdpSession {
  us_phase : phase;
  us_delegate : D;
  us_inbox : option (chan bytes);
  us_hand : option (bytes * option SocketAddr);
  us_last_active : Z;
  us_closes : nat            (** how often [on_session_close] ran to its end *)
}.

(** What wakes the task: its start; a datagram from the channel or the socket
    ([None] is an error of [recv_from]); the delegate having dealt with it; the
    end of the channel; a message for the write loop, and its end; the
    check [poll_timeout] makes every second; the server's shutdown; what a close
    waits for. *)
Inductive udp_wakeup :=
| UStart
| UTakes
| UReceives (result : option (bytes * SocketAddr))
| UHandles
| UInboxEnds
| UWrites (message : WriterMessage Cb) (sent : bool)
| UWriterEnds
| UTick
| UShutdown
| UCloses.

Inductive udp_output :=
| Handled (data : bytes)
| Did (e : udp_write_event Cb).

(** The end of the task's loops, by a return or a panic: its receivers are
    dropped. *)
Definition udp_over (p : phase) (d : D) (closes : nat) (s : udp_session) : udp_session :=
  UdpSession p d ((λ _, Chan false []) <$> us_inbox s) None (us_last_active s) closes.

Definition udp_close (s : udp_session) : udp_session :=
  match on_session_close (us_delegate s) with
  | (Panic _, d) => udp_over Aborted d (S (us_closes s)) s
  | (Pending, _) => udp_over Closing (us_delegate s) (us_closes s) s
  | (_, d) => udp_over Finished d (S (us_closes s)) s
  end.

Definition udp_set_delegate (d : D) (s : udp_session) : udp_session :=
  UdpSession (us_phase s) d (us_inbox s) (us_hand s) (us_last_active s) (us_closes s).

(** A datagram was taken at [now]. *)
Definition udp_take (now : Z) (inbox : option (chan bytes)) (hand : bytes * option SocketAddr)
    (s : udp_session) : udp_session :=
  UdpSession (us_phase s) (us_delegate s) inbox (Some hand) (touch now (us_last_active s))
    (us_closes s).

Definition udp_active (now : Z) (s : udp_session) : udp_session :=
  UdpSession (us_phase s) (us_delegate s) (us_inbox s) (us_hand s)
    (touch now (us_last_active s)) (us_closes s).

(** [delegate.on_recv_frame(data)] or [delegate.on_recv_frame_from(data, peer)];
    an error ends the session. *)
Definition udp_handle (s : udp_session) : udp_session * list udp_output :=
  match us_hand s with
  | Some (data, from) =>
      let recv := match from with
                  | Some peer_addr => on_recv_frame_from data peer_addr
                  | None => on_recv_frame data
                  end in
      match recv (us_delegate s) with
      | (Ok _, d) =>
          (UdpSession (us_phase s) d (us_inbox s) None (us_last_active s) (us_closes s),
           [Handled data])
      | (Err _, d) => (udp_close (udp_set_delegate d s), [Handled data])
      | (Panic _, d) => (udp_over Aborted d (us_closes s) s, [Handled data])
      | (Pending, _) => (s, [])
      end
  | None => (s, [])
  end.

(** One wake-up of the task of [run], at the time [now]. *)
Definition udp_session_step (session_id : u32) (addr : SocketAddr) (tx : handle) (now : Z)
    (w : udp_wakeup) (s : udp_session) : udp_session * list udp_output :=
  match us_phase s, w with
  | Starting, UStart =>
      match on_session_start session_id addr tx (us_delegate s) with
      | (Ok _, d) => (UdpSession Running d (us_inbox s) (us_hand s) now (us_closes s), [])
      | (Panic _, d) => (udp_over Aborted d (us_closes s) s, [])
      | (Err _, d) => (udp_over Finished d (us_closes s) s, [])
      | (Pending, _) => (s, [])
      end
  | Running, UTakes =>
      match us_hand s, us_inbox s with
      | None, Some (Chan o (data :: q)) =>
          (udp_take now (Some (Chan o q)) (data, None) s, [])
      | _, _ => (s, [])
      end
  | Running, UReceives (Some (data, peer_addr)) =>
      match us_hand s, us_inbox s with
      | None, None => (udp_take now None (data, Some peer_addr) s, [])
      | _, _ => (s, [])
      end
  | Running, UHandles => udp_handle s
  | Running, UInboxEnds =>
      match us_hand s, us_inbox s with
      | None, Some (Chan _ []) => (udp_close s, [])
      | _, _ => (s, [])
      end
  | Running, UWrites message sent =>
      match udp_write_step addr message sent [] with
      | (Ok Continue, log) => (udp_active now s, Did <$> log)
      | (Ok Break, log) => (udp_close (udp_active now s), Did <$> log)
      | (_, _) => (s, [])
      end
  | Running, UWriterEnds | Running, UShutdown | Closing, UCloses => (udp_close s, [])
  | Running, UTick =>
      if timed_out now (us_last_active s) then (udp_close s, []) else (s, [])
  | _, _ => (s, [])
  end.

(** [run] as it is woken at the given times. *)
Definition udp_run (session_id : u32) (addr : SocketAddr) (tx : handle) (s : udp_session)
    (ws : list (Z * udp_wakeup)) : udp_session * list udp_output :=
  fold_left (λ '(s, out) '(now, w),
      let '(s', out') := udp_session_step session_id addr tx now w s in (s', out ++ out'))
    ws (s, []).

Definition udp_new (d : D) (inbox : option (chan bytes)) : udp_session :=
  UdpSession Starting d inbox None 0 0.
End UdpSession.
Arguments udp_session D : clear implicits.
Arguments udp_wakeup Cb : clear implicits.
Arguments udp_output Cb : clear implicits.

(** ** udp_server.rs

    [create] is [on_create_session_delegate_callback]. A session's task is known
    by its number; the sending half of its channel, which the table holds, by
    the number of the task. *)

Section UdpServer.
Context {D : Type} `{SessionDelegate D} {Cb : Type} (create : nat → D).

Record udp_task := UdpTask {
  ut_id : u32;
  ut_addr : SocketAddr;
  ut_session : udp_session D;
  ut_ended : bool             (** it has removed its address and returned *)
}.

Record udp_server := UdpServer {
  sv_running : bool;
  sv_session_id_seed : u32;
  sv_hashmap : gmap SocketAddr nat;
  sv_tasks : list udp_task
}.

(** What happens to the server: [recv_from] returns; a session's task is woken;
    one that is over removes its address; the shutdown future is ready. *)
Inductive udp_event :=
| Datagram (result : option (bytes * SocketAddr))
| Wakes (task : nat) (now : Z) (w : udp_wakeup Cb)
| Removes (task : nat)
| Stops.

Inductive server_output :=
| Accepted (task : nat) (from : SocketAddr) (data : bytes)
| Dropped (task : nat) (from : SocketAddr) (data : bytes)
| Out (task : nat) (o : udp_output Cb).

(** A new session for an address that is not in the table. *)
Definition udp_admit (addr : SocketAddr) (s : udp_server) : udp_server :=
  match sv_hashmap s !! addr with
  | Some _ => s
  | None =>
      let session_id := as_u32 (sv_session_id_seed s + 1) in
      let k := length (sv_tasks s) in
      UdpServer (sv_running s) session_id (<[addr := k]> (sv_hashmap s))
        (sv_tasks s ++ [UdpTask session_id addr (udp_new (create k) (Some chan_new)) false])
  end.

(** The task with its session after a step or a send. *)
Definition udp_set_session (x : udp_session D) (t : udp_task) : udp_task :=
  UdpTask (ut_id t) (ut_addr t) x (ut_ended t).
Definition udp_set_tasks (ts : list udp_task) (s : udp_server) : udp_server :=
  UdpServer (sv_running s) (sv_session_id_seed s) (sv_hashmap s) ts.

Definition udp_set_inbox (c : chan bytes) (x : udp_session D) : udp_session D :=
  UdpSession (us_phase x) (us_delegate x) (Some c) (us_hand x) (us_last_active x) (us_closes x).

(** [if let Some(sender) = hashmap.get(&addr) { sender.send(received_data) }],
    whose error is only logged. *)
Definition udp_forward (addr : SocketAddr) (data : bytes) (s : udp_server)
    : udp_server * list server_output :=
  match sv_hashmap s !! addr with
  | Some k =>
      match sv_tasks s !! k with
      | Some t =>
          match chan_send data <$> us_inbox (ut_session t) with
          | Some (Ok _, c) =>
              (udp_set_tasks
                 (<[k := udp_set_session (udp_set_inbox c (ut_session t)) t]> (sv_tasks s)) s,
               [Accepted k addr data])
          | _ => (s, [Dropped k addr data])
          end
      | None => (s, [])
      end
  | None => (s, [])
  end.

(** A session learns of the shutdown once the server has stopped; its channel
    does not end, as the table keeps the sending half until [run] has returned. *)
Definition too_early (s : udp_server) (w : udp_wakeup Cb) : bool :=
  match w with UShutdown => sv_running s | UInboxEnds => true | _ => false end.

Definition is_finished (p : phase) : bool :=
  match p with Finished => true | _ => false end.

Definition udp_server_step (s : udp_server) (e : udp_event) : udp_server * list server_output :=
  match e with
  | Datagram (Some (data, addr)) =>
      if sv_running s then udp_forward addr data (udp_admit addr s) else (s, [])
  | Datagram None => (s, [])
  | Wakes k now w =>
      match sv_tasks s !! k with
      | Some t =>
          if too_early s w then (s, [])
          else
            let '(x, out) :=
              udp_session_step (ut_id t) (ut_addr t) (Z.of_nat k) now w (ut_session t) in
            (udp_set_tasks (<[k := udp_set_session x t]> (sv_tasks s)) s, Out k <$> out)
      | None => (s, [])
      end
  | Removes k =>
      match sv_tasks s !! k with
      | Some t =>
          if is_finished (us_phase (ut_session t)) && negb (ut_ended t) then
            (UdpServer (sv_running s) (sv_session_id_seed s) (delete (ut_addr t) (sv_hashmap s))
               (<[k := UdpTask (ut_id t) (ut_addr t) (ut_session t) true]> (sv_tasks s)), [])
          else (s, [])
      | None => (s, [])
      end
  | Stops => (UdpServer false (sv_session_id_seed s) (sv_hashmap s) (sv_tasks s), [])
  end.

Definition udp_server_new : udp_server := UdpServer true 0 ∅ [].

(** [run_server] on what happens, with the trace of what it did. *)
Definition run_server (es : list udp_event) : udp_server * list server_output :=
  fold_left (λ '(s, tr) e, let '(s', out) := udp_server_step s e in (s', tr ++ out))
    es (udp_server_new, []).
End UdpServer.
Arguments udp_task D : clear implicits.
Arguments udp_server D : clear implicits.
Arguments udp_event Cb : clear implicits.
Arguments server_output Cb : clear implicits.

(** ** Facts about sessions *)

Definition live (p : phase) : bool :=
  match p with Starting | Running => true | _ => false end.

(** The data of the datagrams a session's delegate was given. *)
Definition handled {Cb} (out : list (udp_output Cb)) : list bytes :=
  omap (λ o, match o with Handled d => Some d | _ => None end) out.

Section SessionFacts.
Context {D : Type} `{SessionDelegate D} {Cb : Type}.
Implicit Types (x : udp_session D) (w : udp_wakeup Cb).

(** The datagrams a session of a server holds and has not dealt with. *)
Definition held x : list bytes :=
  match us_hand x with Some (d, _) => [d] | None => [] end ++
  match us_inbox x with Some c => chan_queue c | None => [] end.

(** A session of a server: the channel is open while the task lives, and the
    datagrams [acc] it accepted are those it handled and those it holds. *)
Definition inbox_ok x : Prop := ∃ q, us_inbox x = Some (Chan (live (us_phase x)) q).
Definition sess_ok x (acc hd : list bytes) : Prop :=
  inbox_ok x ∧ hd `prefix_of` acc ∧ (live (us_phase x) = true → hd ++ held x = acc).

Lemma sess_ok_over x acc hd p d n :
  inbox_ok x → live p = false → hd `prefix_of` acc → sess_ok (udp_over p d n x) acc hd.
Proof.
  intros [q Hq] Hp Hpre. split; [|split; [done|cbn; by rewrite Hp]].
  exists []. cbn. by rewrite Hq, Hp.
Qed.

Lemma sess_ok_close x acc hd :
  inbox_ok x → hd `prefix_of` acc → sess_ok (udp_close x) acc hd.
Proof.
  intros Hi Hp. unfold udp_close. destruct (on_session_close (us_delegate x)) as [[] ?];
    by apply sess_ok_over.
Qed.

Lemma sess_ok_handle x acc hd x' (out : list (udp_output Cb)) :
  live (us_phase x) = true → sess_ok x acc hd → udp_handle x = (x', out) →
  sess_ok x' acc (hd ++ handled out).
Proof.
  intros Hl Hx. assert (Hx' := Hx). destruct Hx' as ([q Hq] & Hpre & Hacc). specialize (Hacc Hl).
  unfold udp_handle, held in *. rewrite Hq in Hacc.
  destruct (us_hand x) as [[data from]|]; [|intros [= <- <-]; by rewrite app_nil_r].
  assert (hd ++ [data] `prefix_of` acc) as Hpre'.
  { exists q. rewrite <- Hacc. cbn. by rewrite <- app_assoc. }
  destruct (_ (us_delegate x)) as [[] d]; intros [= <- <-]; cbn [handled omap list_omap].
  - split; [by exists q|]. split; [done|]. intros _. unfold held. cbn. rewrite Hq.
    rewrite <- Hacc. cbn. by rewrite <- app_assoc.
  - apply sess_ok_close; [by exists q|done].
  - apply sess_ok_over; [by exists q|done..].
  - by rewrite app_nil_r.
Qed.

Lemma sess_ok_active x acc hd now : sess_ok x acc hd → sess_ok (udp_active now x) acc hd.
Proof. done. Qed.

Lemma handled_did (log : list (udp_write_event Cb)) : handled (Did <$> log) = [].
Proof. by induction log. Qed.

Lemma udp_close_over x : live (us_phase (udp_close x)) = false.
Proof. unfold udp_close. by destruct (on_session_close (us_delegate x)) as [[] ?]. Qed.
Lemma session_step_over id addr tx now w x :
  live (us_phase x) = false → live (us_phase (fst (udp_session_step id addr tx now w x))) = false.
Proof.
  intros Hl. unfold udp_session_step.
  destruct (us_phase x) eqn:Ep, w; cbn [fst]; rewrite ?Ep; try done. apply udp_close_over.
Qed.

Lemma session_step_ok id addr tx now w x acc hd x' out :
  sess_ok x acc hd → udp_session_step id addr tx now w x = (x', out) →
  sess_ok x' acc (hd ++ handled out).
Proof.
  intros Hx. assert (Hx' := Hx). destruct Hx' as ([q Hq] & Hpre & Hacc).
  assert (inbox_ok x) as Hi by by exists q.
  assert (sess_ok x acc (hd ++ [])) as Hsame by by rewrite app_nil_r.
  assert (sess_ok (udp_close x) acc (hd ++ [])) as Hclose
    by (rewrite app_nil_r; by apply sess_ok_close).
  unfold udp_session_step. destruct (us_phase x) eqn:Ep, w; try (intros [= <- <-]; exact Hsame).
  - destruct (on_session_start id addr tx (us_delegate x)) as [[] d]; intros [= <- <-];
      try exact Hsame; cbn [handled omap list_omap]; rewrite app_nil_r;
      try (by apply sess_ok_over).
    split; [by exists q|]. split; [done|]. intros _. by apply Hacc.
  - destruct (us_hand x) as [hand|] eqn:Eh; [by intros [= <- <-]|]. rewrite Hq.
    destruct q as [|data q]; [by intros [= <- <-]|].
    intros [= <- <-]. cbn [handled omap list_omap]. rewrite app_nil_r.
    split; [by exists q; cbn; rewrite Ep|]. split; [done|]. intros _.
    rewrite <- Hacc by done. unfold held. by rewrite Eh, Hq.
  - destruct result as [[data from]|]; [|by intros [= <- <-]]. rewrite Hq.
    destruct (us_hand x); by intros [= <- <-].
  - intros Hh. apply (sess_ok_handle x acc hd x' out); [by rewrite Ep|done|done].
  - destruct (us_hand x), (us_inbox x) as [[o [|]]|]; intros [= <- <-]; done.
  - destruct (udp_write_step addr message sent []) as [[[]| | |] log]; intros [= <- <-];
      try exact Hsame; rewrite handled_did, app_nil_r; [done|].
    apply sess_ok_close; [exact Hi|done].
  - by intros [= <- <-].
  - destruct (timed_out now (us_last_active x)); by intros [= <- <-].
  - by intros [= <- <-].
  - by intros [= <- <-].
Qed.
End SessionFacts.

(** *** The idle timeout *)

Section Timeout.
Context {D : Type} `{SessionDelegate D} {Cb : Type} (id : u32) (addr : SocketAddr) (tx : handle).
Implicit Types (x : udp_session D) (w : udp_wakeup Cb) (ws : list (Z * udp_wakeup Cb)).

(** The wake-ups at which something happens on the session: its start, and a
    datagram or a message being taken. *)
Definition takes x w : bool :=
  match us_phase x, w with
  | Starting, UStart | Running, UWrites _ _ => true
  | Running, UTakes =>
      match us_hand x, us_inbox x with None, Some (Chan _ (_ :: _)) => true | _, _ => false end
  | Running, UReceives (Some _) =>
      match us_hand x, us_inbox x with None, None => true | _, _ => false end
  | _, _ => false
  end.

(** The session after [ws], and when something last happened on it. *)
Definition timed_step (xt : udp_session D * Z) (nw : Z * udp_wakeup Cb) : udp_session D * Z :=
  (fst (udp_session_step id addr tx (fst nw) (snd nw) (fst xt)),
   if takes (fst xt) (snd nw) then fst nw else snd xt).
Definition last_activity x ws : Z := snd (fold_left timed_step ws (x, 0)).

Lemma timed_run x ws : fst (fold_left timed_step ws (x, 0)) = fst (udp_run id addr tx x ws).
Proof.
  induction ws as [|[now w] ws IH] using rev_ind; [done|].
  unfold udp_run in *. rewrite !fold_left_app. cbn [fold_left].
  destruct (fold_left _ ws (x, [])) as [y out]. cbn [fst] in IH.
  unfold timed_step at 1. cbn [fst snd]. rewrite IH.
  by destruct (udp_session_step id addr tx now w y).
Qed.

(** What a running session knows of its last activity [t]. *)
Definition last_ok (bound : Z) (xt : udp_session D * Z) : Prop :=
  us_phase (fst xt) = Running →
  snd xt - 1000 < us_last_active (fst xt) <= snd xt ∧ snd xt <= bound.

Lemma udp_close_phase x : us_phase (udp_close x) ≠ Running.
Proof. unfold udp_close. by destruct (on_session_close (us_delegate x)) as [[] ?]. Qed.

Lemma touch_ok now t last :
  t - 1000 < last <= t → t <= now → now - 1000 < touch now last <= now.
Proof. unfold touch. intros. destruct (Z.leb_spec 1000 (now - last)); lia. Qed.

Lemma last_ok_mono bound bound' xt : bound <= bound' → last_ok bound xt → last_ok bound' xt.
Proof. unfold last_ok. intros ? Hx ?. destruct (Hx ltac:(done)). lia. Qed.

Lemma last_ok_close bound x t : last_ok bound (udp_close x, t).
Proof. intros Hr. by destruct (udp_close_phase x). Qed.
Lemma last_ok_touch bound now x y t :
  last_ok bound (x, t) → bound <= now → us_phase x = Running →
  us_last_active y = touch now (us_last_active x) → last_ok now (y, now).
Proof.
  intros Hx ? Hr Hy _. destruct (Hx Hr). cbn in *. rewrite Hy.
  split; [apply (touch_ok now t); lia|lia].
Qed.

Lemma last_ok_step bound now w xt :
  last_ok bound xt → bound <= now → last_ok now (timed_step xt (now, w)).
Proof.
  destruct xt as [x t]. intros Hx Hb. unfold timed_step, udp_session_step, takes. cbn [fst snd].
  assert (last_ok now (x, t)) as Hsame by by apply (last_ok_mono bound).
  destruct (us_phase x) eqn:Ep, w; try exact Hsame; cbn [fst].
  - destruct (on_session_start id addr tx (us_delegate x)) as [[] d]; cbn [fst]; try done;
      intros Hr; cbn in *; [lia|congruence].
  - destruct (us_hand x); [done|]. destruct (us_inbox x) as [[o [|b q]]|]; try done.
    by apply (last_ok_touch bound now x _ t).
  - destruct result as [[b from]|]; [|done].
    destruct (us_hand x); [done|]. destruct (us_inbox x); [done|].
    by apply (last_ok_touch bound now x _ t).
  - unfold udp_handle. destruct (us_hand x) as [[b from]|]; [|done].
    destruct (_ (us_delegate x)) as [[] d]; cbn [fst]; try done.
    apply last_ok_close.
  - destruct (us_hand x), (us_inbox x) as [[o [|]]|]; try done. apply last_ok_close.
  - destruct (udp_write_step addr message sent []) as [[[]| | |] log] eqn:Ew; cbn [fst];
      try (by apply (last_ok_touch bound now x _ t)); try apply last_ok_close.
    all: exfalso; revert Ew; destruct message, sent; cbn; try done; by case_decide.
  - apply last_ok_close.
  - destruct (timed_out now (us_last_active x)); [apply last_ok_close|done].
  - apply last_ok_close.
  - apply last_ok_close.
Qed.

Lemma last_ok_run x ws now :
  us_phase x = Starting → StronglySorted Z.le (ws.*1 ++ [now]) →
  last_ok now (fold_left timed_step ws (x, 0)).
Proof.
  intros Hp. revert now. induction ws as [|[t w] ws IH] using rev_ind; intros now Hs.
  { intros Hr. cbn in *. congruence. }
  rewrite fmap_app in Hs. cbn [fmap list_fmap fst] in Hs.
  apply StronglySorted_app in Hs as (Hle & Hs & _).
  rewrite fold_left_app. cbn [fold_left]. apply (last_ok_mono t).
  { apply Hle; [apply elem_of_app; right; left|left]. }
  by apply (last_ok_step t); [apply IH|].
Qed.
End Timeout.

(** *** The server *)

Section ServerFacts.
Context {D : Type} `{SessionDelegate D} {Cb : Type} (create : nat → D).
Implicit Types (s : udp_server D) (t : udp_task D) (tr : list (server_output Cb)).

(** The part of a trace about a task, and the datagrams it accepted, lost, and
    gave to its delegate. *)
Definition output_task (o : server_output Cb) : nat :=
  match o with Accepted k _ _ | Dropped k _ _ | Out k _ => k end.
Definition of_task (k : nat) tr : list (server_output Cb) :=
  filter (λ o, output_task o = k) tr.
Definition accepted tr : list bytes :=
  omap (λ o, match o with Accepted _ _ d => Some d | _ => None end) tr.
Definition handled_of tr : list bytes :=
  omap (λ o, match o with Out _ (Handled d) => Some d | _ => None end) tr.

(** The datagrams of an address the trace accounts for, and those that arrive
    while the server runs. *)
Definition received (a : SocketAddr) tr : list bytes :=
  omap (λ o, match o with
             | Accepted _ from d | Dropped _ from d => if decide (from = a) then Some d else None
             | Out _ _ => None
             end) tr.
Fixpoint arrivals (a : SocketAddr) (es : list (udp_event Cb)) : list bytes :=
  match es with
  | [] | Stops :: _ => []
  | Datagram (Some (d, from)) :: es =>
      if decide (from = a) then d :: arrivals a es else arrivals a es
  | _ :: es => arrivals a es
  end.

(** What the trace of task [k] says of it. *)
Record task_ok (k : nat) (tr : list (server_output Cb)) t : Prop := {
  task_sess : sess_ok (ut_session t) (accepted tr) (handled_of tr);
  task_id : ut_id t = as_u32 (Z.of_nat k + 1);
  task_ended : ut_ended t = true → live (us_phase (ut_session t)) = false;
  task_accepted a d : Accepted k a d ∈ tr → a = ut_addr t;
  task_dropped a d : Dropped k a d ∈ tr →
    a = ut_addr t ∧ live (us_phase (ut_session t)) = false
}.

(** The table holds exactly the tasks that have not ended. *)
Record server_ok s tr : Prop := {
  server_table a k : sv_hashmap s !! a = Some k ↔
    ∃ t, sv_tasks s !! k = Some t ∧ ut_addr t = a ∧ ut_ended t = false;
  server_seed : sv_session_id_seed s = as_u32 (Z.of_nat (length (sv_tasks s)));
  server_tasks k t : sv_tasks s !! k = Some t → task_ok k (of_task k tr) t;
  server_no_task k : (length (sv_tasks s) <= k)%nat → of_task k tr = []
}.

Lemma of_task_app k tr1 tr2 : of_task k (tr1 ++ tr2) = of_task k tr1 ++ of_task k tr2.
Proof. apply filter_app. Qed.
Lemma of_task_same k (out : list (server_output Cb)) : Forall (λ o, output_task o = k) out → of_task k out = out.
Proof.
  induction 1 as [|o out Ho _ IH]; [done|]. unfold of_task in *.
  by rewrite filter_cons_True, IH.
Qed.
Lemma of_task_other k k' (out : list (server_output Cb)) :
  Forall (λ o, output_task o = k) out → k' ≠ k → of_task k' out = [].
Proof.
  intros Hout Hk. induction Hout as [|o out Ho _ IH]; [done|]. unfold of_task in *.
  rewrite filter_cons_False; [done|]. by rewrite Ho.
Qed.

Lemma out_task k (out : list (udp_output Cb)) : Forall (λ o, output_task o = k) (Out k <$> out).
Proof. induction out; constructor; done. Qed.
Lemma accepted_out k (out : list (udp_output Cb)) : accepted (Out k <$> out) = [].
Proof. by induction out. Qed.
Lemma handled_out k (out : list (udp_output Cb)) : handled_of (Out k <$> out) = handled out.
Proof.
  induction out as [|[d|e] out IH]; [done|exact (f_equal (cons d) IH)|exact IH].
Qed.
Lemma received_out a k (out : list (udp_output Cb)) : received a (Out k <$> out) = [].
Proof. by induction out. Qed.

(** Two tasks that have not ended have different addresses. *)
Lemma server_unique s tr k k' t t' :
  server_ok s tr → sv_tasks s !! k = Some t → sv_tasks s !! k' = Some t' →
  ut_addr t = ut_addr t' → ut_ended t = false → ut_ended t' = false → k = k'.
Proof.
  intros Hs Hk Hk' Ha He He'.
  assert (sv_hashmap s !! ut_addr t = Some k) as E1 by (apply (server_table s tr Hs); eauto).
  assert (sv_hashmap s !! ut_addr t = Some k') as E2 by (apply (server_table s tr Hs); eauto).
  congruence.
Qed.

(** A task changes: its address, and whether it has ended, do not. *)
Lemma server_ok_update s tr k t t' (out : list (server_output Cb)) :
  server_ok s tr → sv_tasks s !! k = Some t → ut_addr t' = ut_addr t → ut_ended t' = ut_ended t →
  Forall (λ o, output_task o = k) out → task_ok k (of_task k tr ++ out) t' →
  server_ok (udp_set_tasks (<[k := t']> (sv_tasks s)) s) (tr ++ out).
Proof.
  intros [Ht Hseed Htasks Hno] Hk Ha He Hout Hok.
  split; cbn [udp_set_tasks sv_hashmap sv_session_id_seed sv_tasks].
  - intros a k'. rewrite Ht. destruct (decide (k' = k)) as [->|Hne].
    + rewrite list_lookup_insert_eq by (by eapply lookup_lt_Some). rewrite Hk.
      split; intros (u & [= <-] & <- & Hu); eexists; (split; [done|]); by rewrite ?Ha, ?He in *.
    + by rewrite list_lookup_insert_ne by done.
  - by rewrite length_insert.
  - intros k' u Hu. rewrite of_task_app. destruct (decide (k' = k)) as [->|Hne].
    + rewrite list_lookup_insert_eq in Hu by (by eapply lookup_lt_Some).
      injection Hu as <-. by rewrite (of_task_same k out).
    + rewrite list_lookup_insert_ne in Hu by done.
      rewrite (of_task_other k k' out) by done. rewrite app_nil_r. by apply Htasks.
  - intros k'. rewrite length_insert. intros Hle. rewrite of_task_app, Hno by done.
    apply (of_task_other k); [done|]. intros ->.
    apply lookup_lt_Some in Hk. lia.
Qed.

Lemma task_ok_session k tr t (x : udp_session D) (outs : list (udp_output Cb)) :
  task_ok k tr t → (live (us_phase x) = true → live (us_phase (ut_session t)) = true) →
  sess_ok x (accepted tr) (handled_of tr ++ handled outs) →
  task_ok k (tr ++ (Out k <$> outs)) (udp_set_session x t).
Proof.
  intros [Hs Hid He Ha Hd] Hl Hx.
  assert (live (us_phase (ut_session t)) = false → live (us_phase x) = false) as Hl'.
  { intros Hf. apply not_true_iff_false. intros Hx'. rewrite (Hl Hx') in Hf. done. }
  split; cbn [udp_set_session ut_session ut_id ut_addr ut_ended].
  - unfold accepted, handled_of in *. rewrite !omap_app.
    fold (accepted (Out k <$> outs)) (handled_of (Out k <$> outs)).
    by rewrite accepted_out, handled_out, app_nil_r.
  - done.
  - auto.
  - intros a d Hin. apply elem_of_app in Hin as [Hin|Hin]; [by apply (Ha _ d)|].
    by apply list_elem_of_fmap in Hin as (? & ? & ?).
  - intros a d Hin. apply elem_of_app in Hin as [Hin|Hin].
    + destruct (Hd a d Hin). auto.
    + by apply list_elem_of_fmap in Hin as (? & ? & ?).
Qed.

Lemma server_ok_wakes s tr k now w s' out :
  server_ok s tr → udp_server_step create s (Wakes k now w) = (s', out) →
  server_ok s' (tr ++ out).
Proof.
  intros Hs. cbn [udp_server_step].
  assert (server_ok s (tr ++ [])) as Hsame by by rewrite app_nil_r.
  destruct (sv_tasks s !! k) as [t|] eqn:Hk; [|by intros [= <- <-]].
  destruct (too_early s w); [by intros [= <- <-]|].
  destruct (udp_session_step _ _ _ now w (ut_session t)) as [x o] eqn:E.
  intros [= <- <-]. pose proof (server_tasks s tr Hs k t Hk) as Ht.
  apply (server_ok_update s tr k t); [done..|apply out_task|].
  apply task_ok_session; [done| |].
  - intros Hl. destruct (live (us_phase (ut_session t))) eqn:El; [done|].
    pose proof (session_step_over (ut_id t) (ut_addr t) (Z.of_nat k) now w _ El) as Ho.
    rewrite E in Ho. cbn in Ho. congruence.
  - eapply session_step_ok; [|exact E]. apply Ht.
Qed.

Lemma server_ok_removes s tr k s' out :
  server_ok s tr → udp_server_step create s (Removes k) = (s', out) → server_ok s' (tr ++ out).
Proof.
  intros Hs. cbn [udp_server_step].
  assert (server_ok s (tr ++ [])) as Hsame by by rewrite app_nil_r.
  destruct (sv_tasks s !! k) as [t|] eqn:Hk; [|by intros [= <- <-]].
  destruct (is_finished _ && negb (ut_ended t)) eqn:Ef; intros [= <- <-]; [|done].
  apply andb_prop in Ef as [Ef Ee]. apply negb_true_iff in Ee.
  assert (Hs' := Hs). destruct Hs' as [Ht Hseed Htasks Hno].
  rewrite app_nil_r. split; cbn [sv_hashmap sv_session_id_seed sv_tasks].
  - intros a k'. destruct (decide (k' = k)) as [->|Hne].
    + rewrite list_lookup_insert_eq by (by eapply lookup_lt_Some). split.
      * rewrite lookup_delete_Some, Ht, Hk. intros (Hna & u & [= <-] & Ha & _). congruence.
      * by intros (u & [= <-] & _ & ?).
    + rewrite list_lookup_insert_ne by done. rewrite lookup_delete_Some, Ht.
      split; [by intros [_ ?]|]. intros (u & Hu & <- & Hue). split; [|eauto].
      intros Ha. destruct Hne. symmetry. by apply (server_unique s tr k k' t u).
  - by rewrite length_insert.
  - intros k' u Hu. destruct (decide (k' = k)) as [->|Hne].
    + rewrite list_lookup_insert_eq in Hu by (by eapply lookup_lt_Some). injection Hu as <-.
      destruct (Htasks k t Hk) as [H1 H2 H3 H4 H5]. split; cbn; try done.
      intros _. by destruct (us_phase (ut_session t)).
    + rewrite list_lookup_insert_ne in Hu by done. by apply Htasks.
  - intros k'. rewrite length_insert. apply Hno.
Qed.

Lemma task_ok_new k a d : task_ok k [] (UdpTask (as_u32 (Z.of_nat k + 1)) a (udp_new d (Some chan_new)) false).
Proof.
  split; cbn; try done.
  - split; [by exists []|done].
  - intros ? ? Hin. inversion Hin.
  - intros ? ? Hin. inversion Hin.
Qed.

Lemma server_ok_admit s tr a :
  server_ok s tr → server_ok (udp_admit create a s) tr ∧
    sv_running (udp_admit create a s) = sv_running s ∧
    is_Some (sv_hashmap (udp_admit create a s) !! a).
Proof.
  intros Hs. unfold udp_admit. destruct (sv_hashmap s !! a) as [k|] eqn:Ea; [by rewrite Ea|].
  split; [|cbn; rewrite lookup_insert_eq; by split].
  destruct Hs as [Ht Hseed Htasks Hno]. rewrite Hseed, as_u32_succ.
  split; cbn [sv_hashmap sv_session_id_seed sv_tasks].
  - intros b k. setoid_rewrite lookup_snoc_Some. rewrite lookup_insert_Some, Ht. split.
    + intros [[<- <-]|[Hne (t & Hk & <- & He)]].
      * eexists. split; [by right|done].
      * exists t. split; [left; split; [by eapply lookup_lt_Some|done]|done].
    + intros (t & [[_ Hk]|[-> <-]] & Hb & He); [right|by left].
      split; [|eauto]. intros ->.
      assert (sv_hashmap s !! b = Some k) as E by (apply Ht; eauto). congruence.
  - rewrite length_app. cbn. f_equal. lia.
  - intros k t Hk. apply lookup_snoc_Some in Hk as [[_ Hk]|[-> <-]]; [by apply Htasks|].
    rewrite Hno by done. apply task_ok_new.
  - intros k. rewrite length_app. intros. apply Hno. lia.
Qed.

(** A datagram for an address in the table is accounted for. *)
Lemma server_ok_forward s tr a d s' out :
  server_ok s tr → is_Some (sv_hashmap s !! a) → udp_forward a d s = (s', out) →
  server_ok s' (tr ++ out) ∧ sv_running s' = sv_running s ∧
  ∀ b, received b out = if decide (a = b) then [d] else [].
Proof.
  intros Hs [k Ha]. unfold udp_forward. rewrite Ha.
  assert (Ht := Ha). apply (server_table s tr Hs) in Ht as (t & Hk & <- & He). rewrite Hk.
  pose proof (server_tasks s tr Hs k t Hk) as Hok. destruct Hok as [Hx Hid Hend Hacc Hdrop].
  assert (Hx' := Hx). destruct Hx' as ([q Hq] & Hpre & Hheld). rewrite Hq.
  cbn [fmap option_fmap option_map]. unfold chan_send. cbn [chan_open chan_queue].
  destruct (live (us_phase (ut_session t))) eqn:El; intros [= <- <-].
  - split; [|split; [done|]]; [|intros b; unfold received; cbn; by case_decide].
    apply (server_ok_update s tr k t); [done..|by repeat constructor|].
    split; cbn [udp_set_session ut_session ut_id ut_addr ut_ended]; [|done|by rewrite He| |].
    + unfold accepted, handled_of in *. rewrite !omap_app. cbn [omap list_omap].
      rewrite app_nil_r. split; [|split].
      * exists (q ++ [d]). cbn. by rewrite El.
      * by apply prefix_app_r.
      * intros _. rewrite <- Hheld by done. unfold held. cbn. rewrite Hq. cbn.
        by rewrite <- !app_assoc.
    + intros b e Hin. apply elem_of_app in Hin as [Hin|Hin]; [by apply (Hacc b e)|].
      apply list_elem_of_singleton in Hin. by injection Hin.
    + intros b e Hin. apply elem_of_app in Hin as [Hin|Hin].
      * by destruct (Hdrop b e Hin).
      * by apply list_elem_of_singleton in Hin.
  - split; [|split; [done|]]; [|intros b; unfold received; cbn; by case_decide].
    replace s with (udp_set_tasks (<[k := t]> (sv_tasks s)) s)
      by (rewrite list_insert_id by done; by destruct s).
    apply (server_ok_update s tr k t); [done..|by repeat constructor|].
    split; [|done|done| |].
    + unfold accepted, handled_of in *. rewrite !omap_app. cbn [omap list_omap].
      by rewrite !app_nil_r.
    + intros b e Hin. apply elem_of_app in Hin as [Hin|Hin]; [by apply (Hacc b e)|].
      by apply list_elem_of_singleton in Hin.
    + intros b e Hin. rewrite El. apply elem_of_app in Hin as [Hin|Hin]; [by apply (Hdrop b e)|].
      apply list_elem_of_singleton in Hin. by injection Hin as -> ->.
Qed.

(** What an event brings from an address, while the server runs. *)
Definition brings (a : SocketAddr) s (e : udp_event Cb) : list bytes :=
  if sv_running s then arrivals a [e] else [].

Lemma server_ok_step s tr e s' out :
  server_ok s tr → udp_server_step create s e = (s', out) →
  server_ok s' (tr ++ out) ∧ (∀ a, received a out = brings a s e) ∧
  sv_running s' = (sv_running s && match e with Stops => false | _ => true end).
Proof.
  intros Hs E. unfold brings.
  assert (server_ok s (tr ++ [])) as Hsame by by rewrite app_nil_r.
  destruct e as [[[d a]|]|k now w|k|].
  - cbn [udp_server_step] in E. rewrite andb_true_r.
    destruct (sv_running s) eqn:Er; [|by injection E as <- <-].
    destruct (server_ok_admit s tr a Hs) as (Ha & Hr & Hsome).
    destruct (server_ok_forward _ tr a d s' out Ha Hsome E) as (H1 & H2 & H3).
    split; [done|]. split; [exact H3|]. by rewrite H2, Hr.
  - injection E as <- <-. split; [done|]. rewrite andb_true_r. by destruct (sv_running s).
  - split; [by apply (server_ok_wakes s tr k now w)|]. cbn [udp_server_step] in E.
    rewrite andb_true_r.
    destruct (sv_tasks s !! k); [|injection E as <- <-; by destruct (sv_running s)].
    destruct (too_early s w); [injection E as <- <-; by destruct (sv_running s)|].
    destruct (udp_session_step _ _ _ _ _ _). injection E as <- <-.
    split; [|done]. intros a. rewrite received_out. by destruct (sv_running s).
  - split; [by apply (server_ok_removes s tr k)|]. cbn [udp_server_step] in E.
    rewrite andb_true_r.
    destruct (sv_tasks s !! k); [|injection E as <- <-; by destruct (sv_running s)].
    destruct (_ && _); injection E as <- <-; by destruct (sv_running s).
  - injection E as <- <-. rewrite andb_false_r. split; [by rewrite app_nil_r; destruct Hs|].
    by destruct (sv_running s).
Qed.

Lemma arrivals_cons a e es :
  arrivals a (e :: es) =
    match e with Stops => [] | _ => arrivals a [e] ++ arrivals a es end.
Proof. destruct e as [[[d b]|]| | |]; try done. cbn. by case_decide. Qed.

Lemma server_run_ok es : ∀ s tr s' tr',
  server_ok s tr →
  fold_left (λ '(s, tr) e, let '(s', out) := udp_server_step create s e in (s', tr ++ out))
    es (s, tr) = (s', tr') →
  server_ok s' tr' ∧
  ∀ a, received a tr' = received a tr ++ (if sv_running s then arrivals a es else []).
Proof.
  induction es as [|e es IH]; intros s tr s' tr' Hs.
  { intros [= <- <-]. split; [done|]. intros a. destruct (sv_running s); by rewrite app_nil_r. }
  cbn [fold_left]. destruct (udp_server_step create s e) as [s1 out] eqn:E. intros Hrun.
  destruct (server_ok_step s tr e s1 out Hs E) as (Hs1 & Hrec & Hr).
  destruct (IH s1 (tr ++ out) s' tr' Hs1 Hrun) as [Hs' Hrec']. split; [done|].
  intros a. rewrite Hrec'. unfold received at 1. rewrite omap_app.
  fold (received a tr) (received a out). rewrite Hrec, <- app_assoc, Hr, arrivals_cons.
  unfold brings. by destruct (sv_running s), e as [[[d b]|]| | |]; rewrite ?app_nil_r.
Qed.

Lemma server_ok_new : server_ok udp_server_new [].
Proof.
  split; cbn; try done. intros a k. rewrite lookup_empty. split; [done|]. by intros (? & ? & _).
Qed.
End ServerFacts.

(** *** The write loop *)

Section UdpWriteFacts.
Context {Cb : Type}.

(** The datagram a message asks to send from a session with the peer [addr]. *)
Definition udp_target (addr : SocketAddr) (m : WriterMessage Cb) : option (bytes * SocketAddr) :=
  match m with
  | Send (b :: d) _ | SendAndThen (b :: d) _ => Some (b :: d, addr)
  | SendTo (b :: d) target_addr => Some (b :: d, target_addr)
  | _ => None
  end.

(** What a message makes the loop do when its datagram, if any, is sent. *)
Definition udp_effects (addr : SocketAddr) (m : WriterMessage Cb) : list (udp_write_event Cb) :=
  match udp_target addr m with Some (d, a) => [SentTo d a] | None => [] end ++
  match m with
  | SendAndThen _ cb => [UdpCalled cb]
  | CloseDelayed ms => [UdpSlept ms]
  | _ => []
  end.

(** The messages the loop deals with: up to the first that stops it, and short
    of the first whose datagram the socket refuses. *)
Fixpoint udp_until_stop (addr : SocketAddr) (ms : list (WriterMessage Cb * bool))
    : list (WriterMessage Cb) :=
  match ms with
  | [] => []
  | (m, sent) :: ms =>
      if negb sent && bool_decide (is_Some (udp_target addr m)) then []
      else if stops_loop m then [m] else m :: udp_until_stop addr ms
  end.

Lemma udp_write_step_spec addr m sent log :
  udp_write_step addr m sent log =
    if negb sent && bool_decide (is_Some (udp_target addr m)) then (Ok Break, log)
    else (Ok (if stops_loop m then Break else Continue), log ++ udp_effects addr m).
Proof.
  unfold udp_effects.
  destruct m as [| |ms|[|b d] fl|[|b d] a|[|b d] cb], sent; cbn;
    rewrite ?app_nil_r; try done.
  rewrite decide_False by done. mred. by rewrite <- app_assoc.
Qed.

Lemma udp_poll_write_spec addr ms log :
  ∃ c rest, udp_poll_write addr ms log =
    (Ok (c, rest), log ++ (udp_until_stop addr ms ≫= udp_effects addr)).
Proof.
  revert log. induction ms as [|[m sent] ms IH]; intros log.
  { eexists _, _. cbn. by rewrite app_nil_r. }
  cbn [udp_poll_write udp_until_stop]. mred. rewrite udp_write_step_spec.
  destruct (negb sent && _).
  { eexists _, _. cbn. by rewrite app_nil_r. }
  destruct (stops_loop m).
  { eexists _, _. cbn. by rewrite app_nil_r. }
  destruct (IH (log ++ udp_effects addr m)) as (c & rest & ->).
  eexists _, _. cbn. by rewrite <- app_assoc.
Qed.

Lemma udp_effects_sent addr (us : list (WriterMessage Cb)) :
  omap (λ e, match e with SentTo d a => Some (d, a) | _ => None end) (us ≫= udp_effects addr) =
    omap (udp_target addr) us.
Proof.
  induction us as [|m us IH]; [done|]. rewrite bind_cons, omap_app, IH.
  by destruct m as [| |ms|[|b d] fl|[|b d] a|[|b d] cb].
Qed.

Lemma udp_effects_called addr cb (m : WriterMessage Cb) :
  UdpCalled cb ∈ udp_effects addr m →
  ∃ d, m = SendAndThen d cb ∧
    udp_effects addr m = (if decide (d = []) then [] else [SentTo d addr]) ++ [UdpCalled cb].
Proof.
  destruct m as [| |ms|[|b d] fl|[|b d] a|[|b d] cb']; unfold udp_effects; cbn;
    rewrite ?elem_of_cons, ?elem_of_nil; intros Hin; destruct_or? Hin; try done;
    injection Hin as ->; by eexists.
Qed.
End UdpWriteFacts.

(** ** Properties *)

Section UdpProperties.
Context {D : Type} `{SessionDelegate D} {Cb : Type}.

(** C17: Whatever happens to a UDP server, each datagram that arrives while it
    runs is accounted for once and in order, under its address: the task of a
    session of that address accepts it, or it is lost, which only happens when
    that session is over. What a session's delegate is given is a prefix of
    what its task accepted, and while the session lives the rest is held, in
    order. Two sessions of one address are never current together, and the
    ids of the sessions count up from one (modulo 2^32). *)
Theorem udp_server_routes (create : nat → D) (es : list (udp_event Cb)) s tr :
  run_server create es = (s, tr) →
  (∀ a, received a tr = arrivals a es) ∧
  (∀ k t, sv_tasks s !! k = Some t →
    ut_id t = as_u32 (Z.of_nat k + 1) ∧
    handled_of (of_task k tr) `prefix_of` accepted (of_task k tr) ∧
    (live (us_phase (ut_session t)) = true →
       handled_of (of_task k tr) ++ held (ut_session t) = accepted (of_task k tr)) ∧
    (∀ a d, Accepted k a d ∈ tr → a = ut_addr t) ∧
    (∀ a d, Dropped k a d ∈ tr → a = ut_addr t ∧ live (us_phase (ut_session t)) = false)) ∧
  (∀ k k' t t', sv_tasks s !! k = Some t → sv_tasks s !! k' = Some t' →
    ut_addr t = ut_addr t' → ut_ended t = false → ut_ended t' = false → k = k').
Proof.
  intros Hrun. destruct (server_run_ok create es _ [] s tr server_ok_new Hrun) as [Hs Hrec].
  split; [exact Hrec|]. split.
  - intros k t Hk. destruct (server_tasks s tr Hs k t Hk) as [(_ & Hp & Hh) Hid _ Ha Hd].
    split; [done|]. split; [done|]. split; [done|].
    split; intros a d Hin; [apply (Ha a d)|apply (Hd a d)]; by apply list_elem_of_filter.
  - intros k k' t t'. apply (server_unique s tr k k' t t' Hs).
Qed.

(** C18: The idle timeout of a UDP session, checked at a time [now] not before
    anything that happened: it closes a session on which nothing happened for
    more than ten seconds (the session is over unless its close waits), and leaves alone one that was active within the
    last nine; the second between them is the grain of the recorded time. *)
Theorem udp_idle_timeout (id : u32) (addr : SocketAddr) (tx : handle) (d : D)
    (inbox : option (chan bytes)) (ws : list (Z * udp_wakeup Cb)) (now : Z) :
  let x := fst (udp_run id addr tx (udp_new d inbox) ws) in
  let t := last_activity id addr tx (udp_new d inbox) ws in
  let x' := fst (udp_session_step id addr tx now (UTick (Cb := Cb)) x) in
  StronglySorted Z.le (ws.*1 ++ [now]) → us_phase x = Running →
  (10000 < now - t → x' = udp_close x ∧ us_phase x' ≠ Running ∧
     (us_closes x' = S (us_closes x) ∨
      us_phase x' = Closing ∧ fst (on_session_close (us_delegate x)) = Pending)) ∧
  (now - t <= 9000 → x' = x).
Proof.
  intros x t x' Hs Hr. subst x t x'. unfold last_activity.
  pose proof (last_ok_run id addr tx (udp_new d inbox) ws now eq_refl Hs) as Hok.
  rewrite <- timed_run in *. destruct (fold_left _ ws _) as [x t]. cbn [fst snd] in *.
  destruct (Hok Hr) as [Hlast Hle]. cbn [fst snd] in *.
  unfold udp_session_step, timed_out. rewrite Hr. split; intros Ht.
  - destruct (Z.ltb_spec 10000 (now - us_last_active x)); [|lia].
    split; [done|]. split; [apply udp_close_phase|]. cbn. unfold udp_close.
    destruct (on_session_close (us_delegate x)) as [[] ?]; cbn; auto.
  - destruct (Z.ltb_spec 10000 (now - us_last_active x)); [lia|done].
Qed.

(** The write loop of a UDP session sends the datagrams of its messages in
    order, each to its target ([SendTo]'s own, the session's peer for the
    others), skips empty ones, stops at the first message that closes the
    session or whose datagram the socket refuses, and calls a callback only
    after its datagram was sent; it never panics. *)
Theorem udp_poll_write_correct (addr : SocketAddr) (ms : list (WriterMessage Cb * bool)) :
  ∃ c rest log, udp_poll_write addr ms [] = (Ok (c, rest), log) ∧
    omap (λ e, match e with SentTo d a => Some (d, a) | _ => None end) log =
      omap (udp_target addr) (udp_until_stop addr ms) ∧
    (∀ cb, UdpCalled cb ∈ log → ∃ d l1 l2, SendAndThen d cb ∈ udp_until_stop addr ms ∧
       log = l1 ++ (if decide (d = []) then [] else [SentTo d addr]) ++ UdpCalled cb :: l2).
Proof.
  destruct (udp_poll_write_spec addr ms []) as (c & rest & ->).
  eexists _, _, _. split; [done|]. cbn [app].
  generalize (udp_until_stop addr ms) as us. intros us. split; [apply udp_effects_sent|].
  intros cb Hin. apply list_elem_of_bind in Hin as (m & Hin & Hm).
  apply udp_effects_called in Hin as (d & -> & He).
  exists d. assert (Hm' := Hm). apply list_elem_of_split in Hm as (us1 & us2 & ->).
  exists (us1 ≫= udp_effects addr), (us2 ≫= udp_effects addr).
  split; [done|]. rewrite bind_app, bind_cons, He. by rewrite <- !app_assoc.
Qed.
End UdpProperties.

(** ** Concrete instances, for the witnesses *)

Module UdpConcrete.
Import NetConcrete.

Definition peer1 : SocketAddr := V4 (Ipv4 10 0 0 1) 5000.
Definition peer2 : SocketAddr := V4 (Ipv4 10 0 0 2) 5000.

(** Two clients; the first one's session times out, one of its datagrams comes
    before its address is removed, and the next starts a second session. *)
Definition events : list (udp_event Z) :=
  [Datagram (Some ([1], peer1)); Wakes 0 0 UStart; Datagram (Some ([2], peer2));
   Wakes 0 5 UTakes; Wakes 0 5 UHandles; Datagram None; Datagram (Some ([3], peer1));
   Wakes 0 10002 UTick; Datagram (Some ([4], peer1)); Removes 0;
   Datagram (Some ([5], peer1)); Wakes 1 10003 UStart; Wakes 1 10004 UTakes; Stops;
   Datagram (Some ([6], peer2))].

Definition final : udp_server (list bytes) * list (server_output Z) :=
  run_server (λ _, []) events.

(** A message taken within a second of the start is not recorded, and the
    session ends after nine seconds of silence. *)
Example early_timeout :
  us_phase (fst (udp_run (D := list bytes) (Cb := Z) 1 peer1 5 (udp_new [] (Some chan_new))
    [(0, UStart); (999, UWrites (Send [1] false) true); (10001, UTick)])) = Finished.
Proof. reflexivity. Qed.
End UdpConcrete.

Import NetConcrete UdpConcrete.

Lemma udp_server_routes_witness :
  (∀ a, received a (snd UdpConcrete.final) = arrivals a UdpConcrete.events) ∧
  (∀ k t, sv_tasks (fst UdpConcrete.final) !! k = Some t →
    ut_id t = as_u32 (Z.of_nat k + 1) ∧
    handled_of (of_task k (snd UdpConcrete.final)) `prefix_of`
      accepted (of_task k (snd UdpConcrete.final)) ∧
    (live (us_phase (ut_session t)) = true →
       handled_of (of_task k (snd UdpConcrete.final)) ++ held (ut_session t) =
         accepted (of_task k (snd UdpConcrete.final))) ∧
    (∀ a d, Accepted k a d ∈ snd UdpConcrete.final → a = ut_addr t) ∧
    (∀ a d, Dropped k a d ∈ snd UdpConcrete.final →
       a = ut_addr t ∧ live (us_phase (ut_session t)) = false)) ∧
  (∀ k k' t t', sv_tasks (fst UdpConcrete.final) !! k = Some t →
    sv_tasks (fst UdpConcrete.final) !! k' = Some t' →
    ut_addr t = ut_addr t' → ut_ended t = false → ut_ended t' = false → k = k').
Proof.
  apply (udp_server_routes (λ _, []) UdpConcrete.events (fst UdpConcrete.final)
    (snd UdpConcrete.final)).
  vm_compute. reflexivity.
Defined.

Lemma udp_idle_timeout_witness :
  let ws := [(0, UStart); (999, UWrites (Send [1] false) true); (1500, UTakes); (9000, UTick)] in
  let x := fst (udp_run (Cb := Z) 1 UdpConcrete.peer1 5
                  (udp_new (D := list bytes) [] (Some (Chan true [[7]]))) ws) in
  us_phase (fst (udp_session_step 1 UdpConcrete.peer1 5 12000 (UTick (Cb := Z)) x)) ≠ Running.
Proof.
  intros ws x.
  refine (proj1 (proj2 (proj1 (udp_idle_timeout 1 UdpConcrete.peer1 5 [] (Some (Chan true [[7]])) ws 12000
    _ _) _))).
  - cbn. repeat first [apply SSorted_nil|apply SSorted_cons|apply Forall_nil_2|apply Forall_cons_2|lia].
  - reflexivity.
  - reflexivity.
Defined.
