(* ===== verification/Listener.v ===== *)
(** [np_base/src/net/tcp_server.rs]: the builder, the accept loop, a task for
    each connection, and the end of the server, which waits for its sessions. *)

From S2P Require Import Prelude Std Tls Net.

(** ** The server

    [create] is [on_create_session_delegate_callback]; [tls] tells whether
    there is a TLS configuration, [stream_init] whether there is an
    [on_stream_init_callback]. A task is known by its number. *)

Section TcpServer.
Context {D : Type} `{SessionDelegate D} (create : nat → D) (tls stream_init : bool).

(** The task of a connection: in [try_tls], in [tcp_session::run], or returned
    because the handshake failed. *)
Inductive tcp_task_state :=
| Handshake
| InSession (s : session D)
| NoSession.

Record tcp_task := TcpTask { tt_id : u32; tt_addr : SocketAddr; tt_state : tcp_task_state }.

(** [build_with_listener]: in [start_server]'s loop; waiting for the tasks;
    returned, [forced] when the wait timed out. *)
Inductive tcp_phase := Accepting | Draining | Stopped (forced : bool).

Record tcp_server := TcpServer {
  ts_phase : tcp_phase;
  ts_session_id_seed : u32;
  ts_tasks : list tcp_task
}.

(** What happens: a connection is accepted, and its stream initialised or not;
    [accept] fails; the shutdown condition holds; a handshake ends; a session
    is woken; the last [shutdown_complete] is dropped; the wait times out. *)
Inductive tcp_event :=
| Accepts (addr : SocketAddr) (init_ok : bool)
| AcceptFails
| ShutdownCondition
| TlsEnds (task : nat) (ok : bool)
| WakesTcp (task : nat) (w : wakeup)
| AllDropped
| WaitTimesOut.

Definition session_over (s : session D) : bool :=
  match s_phase s with Finished | Aborted => true | _ => false end.

(** The task has dropped its [shutdown_complete]. *)
Definition task_over (t : tcp_task) : bool :=
  match tt_state t with
  | Handshake => false
  | InSession s => session_over s
  | NoSession => true
  end.

Definition new_session (k : nat) : session D := Session Starting [] (create k) 0.

(** A connection whose stream was initialised gets a task. *)
Definition accept_connection (addr : SocketAddr) (s : tcp_server) : tcp_server :=
  let session_id := as_u32 (ts_session_id_seed s + 1) in
  let k := length (ts_tasks s) in
  TcpServer (ts_phase s) session_id
    (ts_tasks s ++
       [TcpTask session_id addr (if tls then Handshake else InSession (new_session k))]).

Definition set_task_state (k : nat) (x : tcp_task_state) (t : tcp_task) (s : tcp_server)
    : tcp_server :=
  TcpServer (ts_phase s) (ts_session_id_seed s)
    (<[k := TcpTask (tt_id t) (tt_addr t) x]> (ts_tasks s)).

Definition set_tcp_phase (p : tcp_phase) (s : tcp_server) : tcp_server :=
  TcpServer p (ts_session_id_seed s) (ts_tasks s).

(** Sessions learn of the shutdown once [notify_shutdown] is dropped. *)
Definition told_to_stop (s : tcp_server) (w : wakeup) : bool :=
  match w, ts_phase s with WShutdown, Accepting => false | _, _ => true end.

Definition tcp_server_step (s : tcp_server) (e : tcp_event) : tcp_server :=
  match e, ts_phase s with
  | Accepts addr init_ok, Accepting =>
      if stream_init && negb init_ok then s else accept_connection addr s
  | AcceptFails, Accepting | ShutdownCondition, Accepting => set_tcp_phase Draining s
  | TlsEnds k ok, _ =>
      match ts_tasks s !! k with
      | Some t =>
          match tt_state t with
          | Handshake =>
              set_task_state k (if ok then InSession (new_session k) else NoSession) t s
          | _ => s
          end
      | None => s
      end
  | WakesTcp k w, _ =>
      match ts_tasks s !! k with
      | Some t =>
          match tt_state t with
          | InSession x =>
              if told_to_stop s w
              then set_task_state k
                     (InSession (session_step (tt_id t) (tt_addr t) (Z.of_nat k) w x)) t s
              else s
          | _ => s
          end
      | None => s
      end
  | AllDropped, Draining =>
      if forallb task_over (ts_tasks s) then set_tcp_phase (Stopped false) s else s
  | WaitTimesOut, Draining => set_tcp_phase (Stopped true) s
  | _, _ => s
  end.

(** [certificates] tells whether the TLS configuration could be loaded; when it
    cannot, [start_server] fails at once. *)
Definition tcp_server_new (certificates : bool) : tcp_server :=
  TcpServer (if tls && negb certificates then Draining else Accepting) 0 [].

Definition tcp_server_run (certificates : bool) (es : list tcp_event) : tcp_server :=
  fold_left tcp_server_step es (tcp_server_new certificates).
End TcpServer.
Arguments tcp_server D : clear implicits.
Arguments tcp_task D : clear implicits.

(** ** The builder

    [rustls] makes an acceptor of certificates and a key; its handshake on a
    connection ends, or does not within the seconds given. *)
Class ServerTls := {
  TlsAcceptor : Type;
  with_single_cert : list bytes → bytes → outcome TlsAcceptor
}.

Record TlsConfiguration := { certificate : string; key : string }.

(** [Init] is the type of what initialises a connection's stream. *)
Record Builder (D Init : Type) := {
  create_session_delegate_callback : nat → D;
  tls_configuration : option TlsConfiguration;
  steam_init_callback : option Init
}.
Arguments create_session_delegate_callback {D Init} b : rename.
Arguments tls_configuration {D Init} b : rename.
Arguments steam_init_callback {D Init} b : rename.

Definition TCP_TIMEOUT_TLS : Z := 15.

Section Builder.
Context {D Init : Type}.

Definition builder_new (create : nat → D) : Builder D Init := {|
  create_session_delegate_callback := create;
  tls_configuration := None;
  steam_init_callback := None
|}.
Definition set_on_steam_init_callback (f : Init) (b : Builder D Init) : Builder D Init := {|
  create_session_delegate_callback := create_session_delegate_callback b;
  tls_configuration := tls_configuration b;
  steam_init_callback := Some f
|}.
Definition set_tls_configuration (certificate key : string) (b : Builder D Init)
    : Builder D Init := {|
  create_session_delegate_callback := create_session_delegate_callback b;
  tls_configuration := Some {| certificate := certificate; key := key |};
  steam_init_callback := steam_init_callback b
|}.

Context `{PemFiles} `{ServerTls} `{SessionDelegate D}.

(** The TLS part of [start_server], before it accepts anything. *)
Definition tls_acceptor (b : Builder D Init) : outcome (option TlsAcceptor) :=
  match tls_configuration b with
  | Some c =>
      certs ← load_certs (certificate c);
      keys ← load_private_key (key c);
      acceptor ← with_single_cert certs keys;
      Ok (Some acceptor)
  | None => Ok None
  end.

(** [try_tls]: [accept] is [None] when the time is up. *)
Definition try_tls {S} (accept : Z → option (outcome S)) : outcome S :=
  match accept TCP_TIMEOUT_TLS with Some stream => stream | None => Err "deadline has elapsed" end.

Definition build_with_listener (b : Builder D Init) (es : list tcp_event) : tcp_server D :=
  tcp_server_run (create_session_delegate_callback b) (bool_decide (is_Some (tls_configuration b)))
    (bool_decide (is_Some (steam_init_callback b))) (is_ok (tls_acceptor b)) es.

(** [bind] is what [TcpListener::bind] answers. *)
Definition build_tcp (b : Builder D Init) (bind : outcome unit) (es : list tcp_event)
    : outcome (tcp_server D) :=
  bind ≫= λ _, Ok (build_with_listener b es).
End Builder.

(** ** Facts *)

Section Facts.
Context {D : Type} `{SessionDelegate D} (create : nat → D) (tls stream_init : bool).
Implicit Types (s : tcp_server D) (t : tcp_task D).

(** A task's id, and the life of its session. *)
Definition tcp_task_ok (k : nat) t : Prop :=
  tt_id t = as_u32 (Z.of_nat k + 1) ∧
  match tt_state t with
  | InSession x => closes_ok x ∧ finish_ok (tt_id t) (tt_addr t) (Z.of_nat k) x
  | _ => True
  end.

Record tcp_ok s : Prop := {
  tcp_seed : ts_session_id_seed s = as_u32 (Z.of_nat (length (ts_tasks s)));
  tcp_tasks k t : ts_tasks s !! k = Some t → tcp_task_ok k t;
  tcp_over k t : ts_phase s = Stopped false → ts_tasks s !! k = Some t → task_over t = true
}.

Lemma tcp_task_ok_new k addr :
  tcp_task_ok k (TcpTask (as_u32 (Z.of_nat k + 1)) addr
                   (if tls then Handshake else InSession (new_session create k))).
Proof. split; [done|]. by destruct tls. Qed.

(** A task moves on; one that is over stays over. *)
Lemma tcp_ok_set k t (x : tcp_task_state) s :
  tcp_ok s → ts_tasks s !! k = Some t → tcp_task_ok k (TcpTask (tt_id t) (tt_addr t) x) →
  (task_over t = true → task_over (TcpTask (tt_id t) (tt_addr t) x) = true) →
  tcp_ok (set_task_state k x t s).
Proof.
  intros [Hseed Htasks Hover] Hk Hok Ho. split; cbn [set_task_state ts_session_id_seed ts_tasks ts_phase].
  - by rewrite length_insert.
  - intros k' t' Hk'. apply list_lookup_insert_Some in Hk' as [(-> & <- & _)|[_ Hk']]; eauto.
  - intros k' t' Hp Hk'. apply list_lookup_insert_Some in Hk' as [(-> & <- & _)|[_ Hk']]; eauto.
Qed.

Lemma tcp_ok_phase p s :
  tcp_ok s → (p = Stopped false → ∀ k t, ts_tasks s !! k = Some t → task_over t = true) →
  tcp_ok (set_tcp_phase p s).
Proof. intros [Hseed Htasks _] Hp. split; cbn; try done. intros k t Hst. by apply Hp. Qed.

Lemma tcp_ok_step e s : tcp_ok s → tcp_ok (tcp_server_step create tls stream_init s e).
Proof.
  intros Hs. assert (Hs' := Hs). destruct Hs' as [Hseed Htasks Hover].
  destruct e as [addr init_ok| | |k ok|k w| |]; cbn [tcp_server_step].
  - destruct (ts_phase s) eqn:Ep; [|done..]. destruct (stream_init && negb init_ok); [done|].
    split; cbn [accept_connection ts_session_id_seed ts_tasks ts_phase].
    + rewrite Hseed, as_u32_succ, length_app. cbn. f_equal. lia.
    + intros k t Hk. apply lookup_snoc_Some in Hk as [[_ Hk]|[-> <-]]; [by apply Htasks|].
      rewrite Hseed, as_u32_succ. apply tcp_task_ok_new.
    + intros k t Hp. congruence.
  - destruct (ts_phase s); [by apply tcp_ok_phase|done..].
  - destruct (ts_phase s); [by apply tcp_ok_phase|done..].
  - destruct (ts_tasks s !! k) as [t|] eqn:Hk; [|done].
    destruct (tt_state t) eqn:Et; [|done..]. destruct (Htasks k t Hk) as [Hid _].
    apply tcp_ok_set; [done..|split; [done|by destruct ok]|]. unfold task_over. by rewrite Et.
  - destruct (ts_tasks s !! k) as [t|] eqn:Hk; [|done].
    destruct (tt_state t) as [|x|] eqn:Et; [done| |done]. destruct (told_to_stop s w); [|done].
    destruct (Htasks k t Hk) as [Hid Hx]. rewrite Et in Hx. destruct Hx as [Hc Hf].
    apply tcp_ok_set; [done..| |].
    + split; [done|]. cbn. split; [by apply session_step_closes|by apply session_step_finish].
    + unfold task_over. rewrite Et. cbn. unfold session_over, session_step.
      by destruct (s_phase x) eqn:Ex; try done; destruct w; rewrite ?Ex.
  - destruct (ts_phase s); [done| |done]. destruct (forallb _ _) eqn:Ef; [|done].
    apply tcp_ok_phase; [done|]. intros _ k t Hk. rewrite forallb_forall in Ef.
    apply Ef, list_elem_of_In. by eapply list_elem_of_lookup_2.
  - destruct (ts_phase s); [done|by apply tcp_ok_phase|done].
Qed.

Lemma tcp_ok_run es s :
  tcp_ok s → tcp_ok (fold_left (tcp_server_step create tls stream_init) es s).
Proof. revert s. induction es as [|e es IH]; intros s Hs; [done|]. by apply IH, tcp_ok_step. Qed.

Lemma tcp_ok_new certificates : tcp_ok (tcp_server_new tls certificates).
Proof. split; [done|done|]. intros k t Hp. unfold tcp_server_new in Hp. by destruct (_ && _). Qed.

(** Nothing happens to a server that has ended without being forced. *)
Lemma tcp_ended_step e s :
  tcp_ok s → ts_phase s = Stopped false → tcp_server_step create tls stream_init s e = s.
Proof.
  intros Hs Hp. destruct e as [addr init_ok| | |k ok|k w| |]; cbn [tcp_server_step];
    try by rewrite Hp.
  - destruct (ts_tasks s !! k) as [t|] eqn:Hk; [|done].
    pose proof (tcp_over s Hs k t Hp Hk) as Ho. unfold task_over in Ho.
    by destruct (tt_state t).
  - destruct (ts_tasks s !! k) as [t|] eqn:Hk; [|done].
    pose proof (tcp_over s Hs k t Hp Hk) as Ho. unfold task_over in Ho.
    destruct (tt_state t) as [|x|] eqn:Et; [done| |done]. destruct (told_to_stop s w); [|done].
    replace (session_step _ _ _ w x) with x.
    + unfold set_task_state. rewrite <- Et. destruct t. rewrite list_insert_id by done. by destruct s.
    + unfold session_step, session_over in *. by destruct (s_phase x), w.
Qed.
End Facts.

Section DrainFacts.
Context {D : Type} `{SessionDelegate D} (create : nat → D) (tls stream_init : bool).
Implicit Types (s : tcp_server D) (t : tcp_task D).

Abbreviation step := (tcp_server_step create tls stream_init).

















End DrainFacts.

Section BuilderFacts.
Context {D Init : Type} `{PemFiles} `{ServerTls} `{SessionDelegate D}.
Implicit Types (b : Builder D Init).

(** A configuration that cannot be loaded ends the server before it accepts
    anything, and nobody is told: the call of [build] has succeeded. *)
Lemma tls_files_missing b es :
  is_ok (tls_acceptor b) = false →
  ∃ s, build_tcp b (Ok tt) es = Ok s ∧ ts_phase s ≠ Accepting ∧ ts_tasks s = [].
Proof.
  intros Hb. eexists. split; [reflexivity|]. unfold build_with_listener, tcp_server_run. rewrite Hb.
  assert (bool_decide (is_Some (tls_configuration b)) = true) as ->.
  { apply bool_decide_true. unfold tls_acceptor in Hb. by destruct (tls_configuration b). }
  unfold tcp_server_new. cbn [andb negb].
  assert (∀ s, ts_phase s ≠ Accepting → ts_tasks s = [] →
    ∀ create tls init, ts_phase (fold_left (tcp_server_step create tls init) es s) ≠ Accepting ∧
      ts_tasks (fold_left (tcp_server_step create tls init) es s) = []) as Hstay.
  { induction es as [|e es IH]; intros s Hp Ht create tls init; [done|]. cbn [fold_left].
    apply IH; destruct e; cbn [tcp_server_step]; rewrite ?Ht; try done;
      by destruct (ts_phase s) eqn:Ep; cbn; rewrite ?Ep. }
  by apply Hstay.
Qed.
End BuilderFacts.

(** ** Properties *)

Section Properties.
Context {D : Type} `{SessionDelegate D} (create : nat → D) (tls stream_init : bool).

(** C19: A TCP server that has ended without being forced has no session left:
    every connection it gave a task is over, its session closed exactly once
    unless it never started or panicked, and nothing can happen any more. The
    ids of the sessions count up from one (modulo 2^32). *)
Theorem tcp_server_ends (certificates : bool) (es es' : list tcp_event) :
  let s := tcp_server_run create tls stream_init certificates es in
  ts_phase s = Stopped false →
  (∀ k t, ts_tasks s !! k = Some t →
    task_over t = true ∧ tt_id t = as_u32 (Z.of_nat k + 1) ∧
    ∀ x, tt_state t = InSession x → s_phase x = Finished →
      s_closes x = 1%nat ∨
      ∃ d e, on_session_start (tt_id t) (tt_addr t) (Z.of_nat k) d = (Err e, s_delegate x)) ∧
  fold_left (tcp_server_step create tls stream_init) es' s = s.
Proof.
  intros s Hp. assert (tcp_ok s) as Hs by apply tcp_ok_run, tcp_ok_new.
  split.
  - intros k t Hk. destruct (tcp_tasks s Hs k t Hk) as [Hid Ht].
    split; [by apply (tcp_over s Hs k)|]. split; [done|]. intros x Ex Hf. rewrite Ex in Ht.
    destruct Ht as [_ Ht]. unfold finish_ok in Ht. by rewrite Hf in Ht.
  - induction es' as [|e es' IH]; [done|]. cbn [fold_left].
    replace (tcp_server_step create tls stream_init s e) with s; [done|].
    symmetry. apply (tcp_ended_step create tls stream_init e s Hs Hp).
Qed.

End Properties.

(** ** Concrete instances, for the witnesses *)

Module ListenerConcrete.
Import NetConcrete.

Definition client1 : SocketAddr := V4 (Ipv4 10 0 0 1) 4000.
Definition client2 : SocketAddr := V4 (Ipv4 10 0 0 2) 4000.

(** Two connections over TLS, the second still in its handshake at the end. *)
Definition busy : list tcp_event :=
  [Accepts client1 true; Accepts client2 true; TlsEnds 0 true; WakesTcp 0 WStart;
   WakesTcp 0 (WRead (Bytes [1; 7])); ShutdownCondition].
Definition quiet : list tcp_event :=
  busy ++ [WakesTcp 0 WShutdown; TlsEnds 1 false; AllDropped].


End ListenerConcrete.

Import NetConcrete.

Lemma tcp_server_ends_witness :
  let s := tcp_server_run (D := list bytes) (λ _, []) true false true
             ListenerConcrete.quiet in
  (∀ k t, ts_tasks s !! k = Some t →
    task_over t = true ∧ tt_id t = as_u32 (Z.of_nat k + 1) ∧
    ∀ x, tt_state t = InSession x → s_phase x = Finished →
      s_closes x = 1%nat ∨
      ∃ d e, on_session_start (tt_id t) (tt_addr t) (Z.of_nat k) d = (Err e, s_delegate x)) ∧
  fold_left (tcp_server_step (λ _, []) true false) [Accepts ListenerConcrete.client1 true] s = s.
Proof.
  apply (tcp_server_ends (λ _, []) true false true ListenerConcrete.quiet
    [Accepts ListenerConcrete.client1 true]).
  reflexivity.
Defined.

