(* ===== verification/Proxy.v ===== *)
(** [np_base/src/proxy]: the messages between the two ends of a tunnel
    ([mod.rs]), the kinds of tunnel ([inlet.rs]), and the state the sessions of
    one end share (counters, channels), with the calls on it. *)

From S2P Require Import Prelude Std Net.

(** ** mod.rs *)

Inductive ProxyMessage :=
| I2oConnect (session_id : u32) (tunnel_type : u8) (is_tcp is_compressed : bool)
    (addr encryption_method encryption_key client_addr : string)
| O2iConnect (session_id : u32) (success : bool) (error_info : string)
| I2oSendData (session_id : u32) (data : bytes)
| I2oSendToData (session_id : u32) (data : bytes) (target_addr : string)
| O2iSendDataResult (session_id : u32) (data_len : usize)
| O2iRecvDataFrom (session_id : u32) (data : bytes) (remote_addr : string)
| O2iRecvData (session_id : u32) (data : bytes)
| I2oRecvDataResult (session_id : u32) (data_len : usize)
| I2oDisconnect (session_id : u32)
| O2iDisconnect (session_id : u32).

#[export] Instance ProxyMessage_eq_dec : EqDecision ProxyMessage.
Proof. solve_decision. Defined.

(** The session a message is about. *)
Definition message_session (m : ProxyMessage) : u32 :=
  match m with
  | I2oConnect s _ _ _ _ _ _ _ | O2iConnect s _ _ | I2oSendData s _ | I2oSendToData s _ _
  | O2iSendDataResult s _ | O2iRecvDataFrom s _ _ | O2iRecvData s _
  | I2oRecvDataResult s _ | I2oDisconnect s | O2iDisconnect s => s
  end.

(** ** inlet.rs: [InletProxyType], [InletDataEx] *)

Inductive InletProxyType := TCP | UDP | SOCKS5.

#[export] Instance InletProxyType_eq_dec : EqDecision InletProxyType.
Proof. solve_decision. Defined.

Definition from_u32 (value : u32) : option InletProxyType :=
  if value =? 0 then Some TCP
  else if value =? 1 then Some UDP
  else if value =? 2 then Some SOCKS5
  else None.

Definition to_u8 (t : InletProxyType) : u8 :=
  match t with TCP => 0 | UDP => 1 | SOCKS5 => 2 end.

Definition is_socks5 (t : InletProxyType) : bool :=
  match t with SOCKS5 => true | _ => false end.
Definition is_tcp (t : InletProxyType) : bool :=
  match t with TCP => true | _ => false end.

Record InletDataEx := { username : string; password : string }.

(** ** Shared state

    A counter behind an [Arc<RwLock<usize>>] and the sending half of a channel
    are handles into [env]: their clones are the same handle. A callback the
    proxy hands to a writer always sends one message to the output channel, and
    is represented by that message. *)

Definition WMsg : Type := WriterMessage ProxyMessage.

Record env := Env {
  cells : gmap handle usize;
  writers : gmap handle (chan WMsg);
  proxy_chans : gmap handle (chan ProxyMessage);
  output : chan ProxyMessage;
  next_handle : handle
}.

Definition env0 : env := Env ∅ ∅ ∅ chan_new 0.

(** A component whose state contains an [env]. *)
Class HasEnv (S : Type) := {
  env_of : S → env;
  set_env : env → S → S;
  env_of_set e s : env_of (set_env e s) = e;
  set_env_of s : set_env (env_of s) s = s;
  set_env_set e e' s : set_env e (set_env e' s) = set_env e s
}.

#[export] Instance env_has_env : HasEnv env.
Proof. by refine {| env_of := id; set_env := λ e _, e |}. Defined.

Section EnvCalls.
Context {S : Type} `{HasEnv S}.

Definition with_env {A} (m : M env A) : M S A := λ s,
  let '(o, e) := m (env_of s) in (o, set_env e s).

Definition set_cells (f : gmap handle usize → gmap handle usize) (e : env) : env :=
  Env (f (cells e)) (writers e) (proxy_chans e) (output e) (next_handle e).
Definition set_writers (f : gmap handle (chan WMsg) → gmap handle (chan WMsg)) (e : env) : env :=
  Env (cells e) (f (writers e)) (proxy_chans e) (output e) (next_handle e).
Definition set_proxy_chans (f : gmap handle (chan ProxyMessage) → gmap handle (chan ProxyMessage))
    (e : env) : env :=
  Env (cells e) (writers e) (f (proxy_chans e)) (output e) (next_handle e).
Definition set_output (c : chan ProxyMessage) (e : env) : env :=
  Env (cells e) (writers e) (proxy_chans e) c (next_handle e).
Definition bump (e : env) : env :=
  Env (cells e) (writers e) (proxy_chans e) (output e) (next_handle e + 1).

(** [Arc::new(RwLock::new(0))] *)
Definition new_cell : M S handle := with_env (λ e,
  (Ok (next_handle e), bump (set_cells <[next_handle e := 0]> e))).

Definition cell_value (l : handle) (e : env) : usize := default 0 (cells e !! l).
Definition read_cell (l : handle) : M S usize := with_env (gets (cell_value l)).
Definition write_cell (l : handle) (v : usize) : M S unit :=
  with_env (modify (set_cells <[l := v]>)).

(** [mpsc::unbounded_channel()], for a writer and for proxy messages. *)
Definition new_writer : M S handle := with_env (λ e,
  (Ok (next_handle e), bump (set_writers <[next_handle e := chan_new]> e))).
Definition new_proxy_chan : M S handle := with_env (λ e,
  (Ok (next_handle e), bump (set_proxy_chans <[next_handle e := chan_new]> e))).

(** [tx.send(m)] on each kind of channel. *)
Definition send_writer (h : handle) (m : WMsg) : M S unit := with_env (λ e,
  match writers e !! h with
  | Some c => let '(o, c') := chan_send m c in (o, set_writers <[h := c']> e)
  | None => (Err "channel closed", e)
  end).
Definition send_proxy (h : handle) (m : ProxyMessage) : M S unit := with_env (λ e,
  match proxy_chans e !! h with
  | Some c => let '(o, c') := chan_send m c in (o, set_proxy_chans <[h := c']> e)
  | None => (Err "channel closed", e)
  end).
(** [output.send(m).await]: the wait for room in the bounded channel is left to
    the scheduler. *)
Definition send_output (m : ProxyMessage) : M S unit := with_env (λ e,
  let '(o, c') := chan_send m (output e) in (o, set_output c' e)).
End EnvCalls.

(** What a session has been told to write, and what has been sent out. *)
Definition writer_queue (h : handle) (e : env) : list WMsg :=
  match writers e !! h with Some c => chan_queue c | None => [] end.
Definition sent (e : env) : list ProxyMessage := chan_queue (output e).

Definition writer_open (h : handle) (e : env) : Prop :=
  ∃ q, writers e !! h = Some (Chan true q).

(** ** Facts *)

Lemma from_u32_to_u8 t : from_u32 (to_u8 t) = Some t.
Proof. by destruct t. Qed.

Section EnvFacts.
Context {S : Type} `{HasEnv S}.
Implicit Types s : S.

Lemma send_writer_open h m s :
  writer_open h (env_of s) →
  ∃ q, writers (env_of s) !! h = Some (Chan true q) ∧
    send_writer h m s =
      (Ok tt, set_env (set_writers <[h := Chan true (q ++ [m])]> (env_of s)) s).
Proof.
  intros [q Hq]. exists q. split; [done|]. unfold send_writer, with_env. by rewrite Hq.
Qed.

Lemma send_output_open m s :
  chan_open (output (env_of s)) = true →
  send_output m s =
    (Ok tt, set_env (set_output (Chan true (sent (env_of s) ++ [m])) (env_of s)) s).
Proof.
  intros Ho. unfold send_output, with_env, chan_send. by rewrite Ho.
Qed.

(** A writer's channel once it has been sent [m], whether it takes it or not. *)
Definition told (h : handle) (m : WMsg) (e : env) : env :=
  match writers e !! h with
  | Some c => set_writers <[h := snd (chan_send m c)]> e
  | None => e
  end.

Lemma told_next h m e : next_handle (told h m e) = next_handle e.
Proof. unfold told. by destruct (writers e !! h). Qed.

Lemma ignore_send_writer h m s :
  ignore (send_writer h m) s = (Ok tt, set_env (told h m (env_of s)) s).
Proof.
  unfold ignore, send_writer, with_env, told. destruct (writers _ !! h) as [[[] q]|]; done.
Qed.

Lemma writer_queue_push h m e q :
  writers e !! h = Some (Chan true q) →
  writer_queue h (set_writers <[h := Chan true (q ++ [m])]> e) = writer_queue h e ++ [m].
Proof. intros Hq. unfold writer_queue. cbn. by rewrite lookup_insert_eq, Hq. Qed.
End EnvFacts.

Lemma send_writer_no_panic {S} `{HasEnv S} h m (s : S) : is_panic (fst (send_writer h m s)) = false.
Proof.
  unfold send_writer, with_env. destruct (writers _ !! h) as [[[] ?]|]; done.
Qed.

Lemma send_proxy_no_panic {S} `{HasEnv S} h m (s : S) : is_panic (fst (send_proxy h m s)) = false.
Proof.
  unfold send_proxy, with_env. destruct (proxy_chans _ !! h) as [[[] ?]|]; done.
Qed.
