(* ===== verification/Common.v ===== *)
(** [np_base/src/proxy/common.rs]: what a session knows about its tunnel, the
    encoding of its data, and the flow control of the bytes in flight. *)

From S2P Require Import Prelude Std Extern Crypto Net Proxy.

Definition READ_BUF_MAX_LEN : usize := 1024 * 1024 * 1.

Record SessionCommonInfo := {
  is_compressed : bool;
  encryption_method : EncryptionMethod;
  encryption_key : bytes;
  read_buf_len : handle
}.

Section Common.
Context `{Lz4} `{SimplestCrypt} `{Rng}.
Context {S : Type} `{HasEnv S}.

Definition info_new (is_compressed : bool) (m : EncryptionMethod) (key : bytes)
    : M S SessionCommonInfo :=
  l ← new_cell;
  mret {| is_compressed := is_compressed; encryption_method := m; encryption_key := key;
          read_buf_len := l |}.

(** [from_method_name]; [r] is the random generator the key is drawn from. *)
Definition info_from_method_name (is_compressed : bool) (method : string) (r : rng)
    : M S SessionCommonInfo :=
  let m := get_method method in
  let key := fst (generate_key m r) in
  info_new is_compressed m key.

(** The encoding half of [encode_data_and_limiting]. *)
Definition encode_data (nonce : Z) (info : SessionCommonInfo) (data : bytes) : outcome bytes :=
  data ← (if is_compressed info then compress_data data else mret data);
  if negb (is_none (encryption_method info))
  then encrypt nonce (encryption_method info) (encryption_key info) data
  else mret data.

(** [while *read_buf_len > READ_BUF_MAX_LEN { yield_now().await }] *)
Definition wait_for_room (l : handle) : M S unit :=
  n ← read_cell l;
  if READ_BUF_MAX_LEN <? n then lift Pending else mret tt.

(** [*read_buf_len_rw = *read_buf_len_rw + data.len()] *)
Definition add_in_flight (l : handle) (data_len : usize) : M S unit :=
  n ← read_cell l;
  write_cell l (n + data_len).

Definition encode_data_and_limiting (nonce : Z) (info : SessionCommonInfo) (data : bytes)
    : M S bytes :=
  data ← lift (encode_data nonce info data);
  wait_for_room (read_buf_len info);;
  add_in_flight (read_buf_len info) (len data);;
  mret data.

Definition decode_data (info : SessionCommonInfo) (data : bytes) : outcome bytes :=
  data ← (if negb (is_none (encryption_method info))
          then decrypt (encryption_method info) (encryption_key info) data
          else mret data);
  if is_compressed info then decompress_data data else mret data.

(** The update both ends apply on an acknowledgement: subtract, not below 0. *)
Definition release (l : handle) (data_len : usize) : M S unit :=
  n ← read_cell l;
  if n <=? data_len then write_cell l 0 else write_cell l (n - data_len).

(** [parse_addr]; [lookup_host] is the resolver's answer for a host. *)
Definition parse_addr (lookup_host : string → outcome (list SocketAddr)) (host : string)
    : outcome SocketAddr :=
  match parse_socket_addr host with
  | Ok addr => Ok addr
  | _ =>
      addrs ← lookup_host host;
      match addrs with
      | addr :: _ => Ok addr
      | [] => Err ("The address format is invalid: '" +:+ host +:+ "'")
      end
  end.
End Common.

(** ** Encoding *)

Section CommonFacts.
Context `{Lz4} `{SimplestCrypt} `{Rng}.
Context {S : Type} `{HasEnv S}.
Implicit Types s : S.

Lemma decode_of_encode nonce info data c :
  encode_data nonce info data = Ok c → decode_data info c = Ok data.
Proof.
  unfold encode_data, decode_data. unfold mbind, outcome_bind, mret, outcome_ret.
  destruct (is_compressed info).
  - unfold compress_data. destruct (is_none (encryption_method info)); cbn [negb].
    + intros [= <-]. by apply decompress_of_compress.
    + intros He. erewrite decrypt_of_encrypt by done. by apply decompress_of_compress.
  - destruct (is_none (encryption_method info)); cbn [negb].
    + by intros [= <-].
    + intros He. by erewrite decrypt_of_encrypt by done.
Qed.

(** Two descriptions of a session that agree on the coding. *)
Definition same_coding (i j : SessionCommonInfo) : Prop :=
  is_compressed i = is_compressed j ∧ encryption_method i = encryption_method j ∧
  encryption_key i = encryption_key j.

#[export] Instance same_coding_equiv : Equivalence same_coding.
Proof. split; unfold same_coding; red; intuition congruence. Qed.

#[export] Instance encode_data_proper nonce :
  Proper (same_coding ==> eq ==> eq) (encode_data nonce).
Proof. intros i j (Hc & Hm & Hk) d _ <-. unfold encode_data. by rewrite Hc, Hm, Hk. Qed.

#[export] Instance decode_data_proper : Proper (same_coding ==> eq ==> eq) decode_data.
Proof. intros i j (Hc & Hm & Hk) d _ <-. unfold decode_data. by rewrite Hc, Hm, Hk. Qed.

Lemma encode_data_total nonce info data :
  encryption_method info ≠ MAes128 → ∃ c, encode_data nonce info data = Ok c.
Proof.
  intros Hm. unfold encode_data. unfold mbind, outcome_bind, mret, outcome_ret.
  destruct (is_compressed info), (is_none (encryption_method info)); cbn; eauto using encrypt_total.
Qed.

(** ** The counter *)

Definition set_cell (l : handle) (v : usize) (s : S) : S :=
  set_env (set_cells <[l := v]> (env_of s)) s.

Lemma read_cell_eq l s : read_cell l s = (Ok (cell_value l (env_of s)), s).
Proof. unfold read_cell, with_env, gets. by rewrite set_env_of. Qed.

Lemma write_cell_eq l v s : write_cell l v s = (Ok tt, set_cell l v s).
Proof. done. Qed.

Lemma cell_value_set l v s : cell_value l (env_of (set_cell l v s)) = v.
Proof.
  unfold set_cell, cell_value. rewrite env_of_set. cbn. by rewrite lookup_insert_eq.
Qed.

Lemma encode_and_limit_eq nonce info data s :
  encode_data_and_limiting nonce info data s =
    match encode_data nonce info data with
    | Ok c =>
        let n := cell_value (read_buf_len info) (env_of s) in
        if READ_BUF_MAX_LEN <? n then (Pending, s)
        else (Ok c, set_cell (read_buf_len info) (n + len c) s)
    | Err e => (Err e, s)
    | Panic w => (Panic w, s)
    | Pending => (Pending, s)
    end.
Proof.
  unfold encode_data_and_limiting, wait_for_room, add_in_flight. unfold mbind, M_bind, lift.
  destruct (encode_data nonce info data) as [c| | |]; try done.
  rewrite read_cell_eq. destruct (READ_BUF_MAX_LEN <? _); [done|].
  unfold mret, M_ret. by rewrite read_cell_eq, write_cell_eq.
Qed.

Lemma release_eq l n s :
  release l n s = (Ok tt, set_cell l (Z.max 0 (cell_value l (env_of s) - n)) s).
Proof.
  unfold release. unfold mbind, M_bind. rewrite read_cell_eq.
  destruct (Z.leb_spec (cell_value l (env_of s)) n); rewrite write_cell_eq;
    do 2 f_equal; lia.
Qed.
End CommonFacts.

(** ** Flow control of one session, at the granularity of its awaits

    The session's reader waits for room and then adds what it is about to send;
    between the two, and at any time, acknowledgements of data in flight are
    applied by the task that receives messages. [Checked n]: the reader has left
    the waiting loop with [n] encoded bytes to send. *)

Section FlowControl.
Context {S : Type} `{HasEnv S}.

Inductive reader_pc := Reading | Checked (data_len : usize).

Inductive flow_step (l : handle) (max_len : usize) :
    S * reader_pc * list usize → S * reader_pc * list usize → Prop :=
| flow_check s s' n fl :
    0 <= n <= max_len → wait_for_room l s = (Ok tt, s') →
    flow_step l max_len (s, Reading, fl) (s', Checked n, fl)
| flow_add s s' n fl :
    add_in_flight l n s = (Ok tt, s') →
    flow_step l max_len (s, Checked n, fl) (s', Reading, n :: fl)
| flow_ack s s' pc fl1 n fl2 :
    release l n s = (Ok tt, s') →
    flow_step l max_len (s, pc, fl1 ++ n :: fl2) (s', pc, fl1 ++ fl2).

Definition sumZ (ns : list Z) : Z := foldr Z.add 0 ns.

Definition flow_inv (l : handle) (max_len : usize) (c : S * reader_pc * list usize) : Prop :=
  let '(s, pc, fl) := c in
  let n := cell_value l (env_of s) in
  n = sumZ fl ∧ Forall (λ k, 0 <= k) fl ∧ n <= READ_BUF_MAX_LEN + max_len ∧
  match pc with Reading => True | Checked k => 0 <= k <= max_len ∧ n <= READ_BUF_MAX_LEN end.

Lemma sumZ_app xs ys : sumZ (xs ++ ys) = sumZ xs + sumZ ys.
Proof. unfold sumZ. induction xs; cbn; lia. Qed.

Lemma sumZ_nonneg ns : Forall (λ k, 0 <= k) ns → 0 <= sumZ ns.
Proof. unfold sumZ. induction 1; cbn; lia. Qed.

Lemma wait_for_room_eq l (s : S) :
  wait_for_room l s =
    if READ_BUF_MAX_LEN <? cell_value l (env_of s) then (Pending, s) else (Ok tt, s).
Proof.
  unfold wait_for_room. unfold mbind, M_bind. rewrite read_cell_eq. by destruct (_ <? _).
Qed.

Lemma add_in_flight_eq l n (s : S) :
  add_in_flight l n s = (Ok tt, set_cell l (cell_value l (env_of s) + n) s).
Proof.
  unfold add_in_flight. unfold mbind, M_bind. by rewrite read_cell_eq, write_cell_eq.
Qed.

Lemma flow_step_inv l max_len c c' :
  flow_step l max_len c c' → flow_inv l max_len c → flow_inv l max_len c'.
Proof.
  intros [s s' n fl Hn Hw|s s' n fl Ha|s s' pc fl1 n fl2 Hr]; unfold flow_inv.
  - rewrite wait_for_room_eq in Hw.
    destruct (Z.ltb_spec READ_BUF_MAX_LEN (cell_value l (env_of s))); [done|].
    injection Hw as <-. intros (? & ? & ? & _). split_and!; done || lia.
  - rewrite add_in_flight_eq in Ha. injection Ha as <-. rewrite cell_value_set.
    intros (-> & Hfl & _ & Hk & ?). split_and!; [cbn; unfold sumZ; lia| |lia|done].
    constructor; [lia|done].
  - rewrite release_eq in Hr. injection Hr as <-. rewrite cell_value_set, !sumZ_app.
    rewrite !Forall_app, Forall_cons. intros (-> & (H1 & Hn & H2) & Hmax & Hpc).
    apply sumZ_nonneg in H1 as H1'. apply sumZ_nonneg in H2 as H2'.
    unfold sumZ in *. cbn [foldr] in *.
    split_and!; [lia|done|done|lia|]. destruct pc; [done|]. lia.
Qed.

Lemma flow_reachable_inv l max_len c c' :
  rtc (flow_step l max_len) c c' → flow_inv l max_len c → flow_inv l max_len c'.
Proof. induction 1; eauto using flow_step_inv. Qed.
End FlowControl.

(** ** Properties *)

Section CommonProperties.

(** C8: Data decodes to what was encoded, for every encryption method, with
    and without compression, at two sessions that agree on the coding. *)
Theorem decode_encode `{Lz4} `{SimplestCrypt} (i j : SessionCommonInfo) nonce (data c : bytes) :
  same_coding i j → encode_data nonce i data = Ok c → decode_data j c = Ok data.
Proof. intros <-. apply decode_of_encode. Qed.

(** C9: Flow control. In every interleaving of a session's reader with the
    acknowledgements of its data, starting with nothing in flight, the counter
    is exactly the number of encoded bytes in flight, never exceeds the limit
    by more than one message (so the addition cannot overflow for messages that
    fit in memory), and a reader with nothing in flight never waits. *)
Theorem flow_control {S : Type} `{HasEnv S} (l : handle) (max_len : usize) (s s' : S) pc fl :
  cell_value l (env_of s) = 0 → 0 <= max_len < 9223372036854775808 →
  rtc (flow_step l max_len) (s, Reading, []) (s', pc, fl) →
  cell_value l (env_of s') = sumZ fl ∧
  cell_value l (env_of s') <= READ_BUF_MAX_LEN + max_len ∧
  in_usize (cell_value l (env_of s')) ∧
  (fl = [] → wait_for_room l s' = (Ok tt, s')).
Proof.
  intros H0 Hmax Hsteps.
  assert (flow_inv l max_len (s', pc, fl)) as (Hsum & Hfl & Hle & _).
  { apply (flow_reachable_inv _ _ _ _ Hsteps). unfold flow_inv, READ_BUF_MAX_LEN.
    rewrite H0. split_and!; [done|constructor|lia|done]. }
  pose proof (sumZ_nonneg fl Hfl).
  split_and!; [done|done|unfold in_usize, READ_BUF_MAX_LEN in *; lia|].
  intros ->. by rewrite wait_for_room_eq, Hsum.
Qed.
End CommonProperties.

Lemma decode_encode_witness :
  decode_data (H := Concrete.lz4) (H0 := Concrete.simplestcrypt)
    {| is_compressed := true; encryption_method := MXor; encryption_key := [7; 9];
       read_buf_len := 4 |} [7; 8; 5; 10] = Ok [1; 2; 3].
Proof.
  apply (decode_encode (H := Concrete.lz4) (H0 := Concrete.simplestcrypt)
    {| is_compressed := true; encryption_method := MXor; encryption_key := [7; 9];
       read_buf_len := 3 |}
    {| is_compressed := true; encryption_method := MXor; encryption_key := [7; 9];
       read_buf_len := 4 |} 0 [1; 2; 3]).
  - repeat split.
  - reflexivity.
Defined.

Lemma flow_control_witness :
  let s' := set_cell 0 5 (set_cell 0 3 env0) in
  cell_value 0 (env_of s') = sumZ [2; 3] ∧
  cell_value 0 (env_of s') <= READ_BUF_MAX_LEN + 4 ∧
  in_usize (cell_value 0 (env_of s')) ∧ ([2; 3] = [] → wait_for_room 0 s' = (Ok tt, s')).
Proof.
  apply (flow_control 0 4 env0 (set_cell 0 5 (set_cell 0 3 env0)) Reading [2; 3]).
  - reflexivity.
  - lia.
  - eapply rtc_l; [apply (flow_check 0 4 env0 env0 3); [lia|reflexivity]|].
    eapply rtc_l; [apply (flow_add 0 4 env0 (set_cell 0 3 env0) 3 []); reflexivity|].
    eapply rtc_l; [apply (flow_check 0 4 _ (set_cell 0 3 env0) 2); [lia|reflexivity]|].
    eapply rtc_l; [apply (flow_add 0 4 _ (set_cell 0 5 (set_cell 0 3 env0)) 2 [3]); reflexivity|].
    apply rtc_refl.
Defined.
