(* ===== verification/TargetAddr.v ===== *)
(** [np_base/src/proxy/socks5/target_addr.rs]: the target addresses of SOCKS5
    requests, their wire format and its parser. *)

From S2P Require Import Prelude Std.

Definition SOCKS5_ADDR_TYPE_IPV4 : u8 := 1.
Definition SOCKS5_ADDR_TYPE_DOMAIN_NAME : u8 := 3.
Definition SOCKS5_ADDR_TYPE_IPV6 : u8 := 4.

Inductive TargetAddr :=
| Ip (addr : SocketAddr)
| Domain (host : string) (port : u16).

#[export] Instance TargetAddr_eq_dec : EqDecision TargetAddr.
Proof. solve_decision. Defined.

Definition is_ip (t : TargetAddr) : bool := match t with Ip _ => true | _ => false end.
Definition is_domain (t : TargetAddr) : bool := negb (is_ip t).

Definition to_be_bytes (t : TargetAddr) : outcome bytes :=
  match t with
  | Ip (V4 ip port) => Ok ([SOCKS5_ADDR_TYPE_IPV4] ++ octets4 ip ++ be16 port)
  | Ip (V6 ip port _ _) => Ok ([SOCKS5_ADDR_TYPE_IPV6] ++ ip ++ be16 port)
  | Domain domain port =>
      if 255 <? str_len domain then Err "Maximum field length exceeded"
      else Ok ([SOCKS5_ADDR_TYPE_DOMAIN_NAME; as_u8 (str_len domain)] ++ as_bytes domain
               ++ be16 port)
  end.

(** [TargetAddr::port] *)
Definition target_port (t : TargetAddr) : u16 :=
  match t with Ip addr => sa_port addr | Domain _ port => port end.

(** [ToSocketAddrs::to_socket_addrs] *)
Definition to_socket_addrs (t : TargetAddr) : outcome (list SocketAddr) :=
  match t with
  | Ip addr => Ok [addr]
  | Domain _ _ => Err "Domain name has to be explicitly resolved, please use TargetAddr::resolve_dns()."
  end.

(** [Display] *)
Definition target_to_string (t : TargetAddr) : string :=
  match t with
  | Ip addr => show_addr addr
  | Domain addr port => addr +:+ ":" +:+ show port
  end.

(** [ToTargetAddr] for [(Ipv4Addr, u16)] and [(Ipv6Addr, u16)] *)
Definition v4_to_target_addr (ip : Ipv4Addr) (port : u16) : TargetAddr := Ip (V4 ip port).
Definition v6_to_target_addr (ip : Ipv6Addr) (port : u16) : TargetAddr := Ip (V6 ip port 0 0).

(** [ToTargetAddr] for [SocketAddr] and for [(&str, u16)]: a text that is no
    address is a name. *)
Definition addr_to_target_addr (addr : SocketAddr) : TargetAddr := Ip addr.
Definition str_to_target_addr (host : string) (port : u16) : TargetAddr :=
  match parse_ipv4_addr host with
  | Some addr => v4_to_target_addr addr port
  | None =>
      match parse_ipv6_addr host with
      | Some addr => v6_to_target_addr addr port
      | None => Domain host port
      end
  end.

Inductive Addr :=
| AddrV4 (octets : bytes)
| AddrV6 (octets : bytes)
| AddrDomain (domain : string)
| AddrUnknown.

(** The first half of [read_address]: the address, if all of it has arrived,
    and the length of the whole field. *)
Definition read_addr_field (data : bytes) (atyp : u8) : outcome (Addr * usize) :=
  if atyp =? SOCKS5_ADDR_TYPE_IPV4 then
    if len data <? 6 then Ok (AddrUnknown, 6)
    else array ← slice data 0 4; Ok (AddrV4 array, 6)
  else if atyp =? SOCKS5_ADDR_TYPE_IPV6 then
    if len data <? 18 then Ok (AddrUnknown, 18)
    else array ← slice data 0 16; Ok (AddrV6 array, 18)
  else if atyp =? SOCKS5_ADDR_TYPE_DOMAIN_NAME then
    b ← index data 0;
    let n := b + 1 in
    let addr_data_len := 2 + n in
    if len data <? addr_data_len then Ok (AddrUnknown, addr_data_len)
    else
      bs ← slice data 1 n;
      domain ← from_utf8 bs;
      Ok (AddrDomain domain, addr_data_len)
  else Err "incorrect address type".

Definition read_address (data : bytes) (atyp : u8) : outcome (option (TargetAddr * usize)) :=
  '(addr, addr_data_len) ← read_addr_field data atyp;
  match addr with
  | AddrUnknown => Ok None
  | _ =>
      hi ← index data (addr_data_len - 2);
      lo ← index data (addr_data_len - 1);
      let port := Z.lor (as_u16 (Z.shiftl hi 8)) lo in
      match addr with
      | AddrV4 [a; b; c; d] => Ok (Some (v4_to_target_addr (Ipv4 a b c d) port, addr_data_len))
      | AddrV6 x => Ok (Some (v6_to_target_addr x port, addr_data_len))
      | AddrDomain domain => Ok (Some (Domain domain port, addr_data_len))
      | _ => Panic "Unknown"
      end
  end.

(** ** Well-formed targets *)

Definition target_ok (t : TargetAddr) : Prop :=
  match t with
  | Ip a => sa_ok a
  | Domain host port => str_ok host ∧ in_u16 port
  end.

(** What survives the wire: an IPv6 address loses its flow label and scope. *)
Definition wire_form (t : TargetAddr) : TargetAddr :=
  match t with Ip (V6 ip port _ _) => Ip (V6 ip port 0 0) | _ => t end.

(** ** Facts *)

Lemma lor_shift hi lo : in_u8 hi → in_u8 lo → Z.lor (as_u16 (Z.shiftl hi 8)) lo = hi * 256 + lo.
Proof.
  unfold in_u8, as_u16. intros Hhi Hlo. rewrite Z.shiftl_mul_pow2 by lia. change (2 ^ 8) with 256.
  rewrite Z.mod_small by lia. rewrite <- Z.add_lor_land.
  replace (Z.land (hi * 256) lo) with 0; [lia|].
  symmetry. apply Z.bits_inj'. intros n Hn. rewrite Z.land_spec, Z.bits_0.
  destruct (Z.lt_ge_cases n 8).
  - change 256 with (2 ^ 8). rewrite Z.mul_pow2_bits_low by lia. done.
  - assert (lo < 2 ^ n).
    { apply Z.lt_le_trans with (2 ^ 8); [cbn; lia|]. apply Z.pow_le_mono_r; lia. }
    assert (Z.testbit lo n = false) as ->; [|by rewrite andb_false_r].
    apply Z.testbit_false; [lia|]. by rewrite Z.div_small by lia.
Qed.

Lemma read_be16_lor p : in_u16 p →
  Z.lor (as_u16 (Z.shiftl (as_u8 (Z.shiftr p 8)) 8)) (as_u8 p) = p.
Proof.
  intros Hp. rewrite lor_shift by apply as_u8_range.
  pose proof (read_be16 p) as Hr. unfold read_be, be16 in Hr. cbn [fold_left] in Hr.
  rewrite Z.add_0_l in Hr. rewrite Hr. apply Z.mod_small, Hp.
Qed.

(** The two port bytes after a field of [k] bytes. *)
Lemma port_bytes {A} (x : A) (f : Z → Z → outcome A) pre p more :
  f (as_u8 (Z.shiftr p 8)) (as_u8 p) = Ok x →
  (hi ← index (pre ++ be16 p ++ more) (len pre);
   lo ← index (pre ++ be16 p ++ more) (len pre + 1);
   f hi lo) = Ok x.
Proof.
  intros Hf. unfold len.
  rewrite (index_lookup _ (length pre) (as_u8 (Z.shiftr p 8))).
  2:{ rewrite lookup_app_r, Nat.sub_diag by lia. done. }
  cbn [mbind outcome_bind].
  replace (Z.of_nat (length pre) + 1) with (Z.of_nat (length pre + 1)) by lia.
  rewrite (index_lookup _ (length pre + 1) (as_u8 p)); [done|].
  rewrite lookup_app_r by lia. by replace (length pre + 1 - length pre)%nat with 1%nat by lia.
Qed.

Lemma read_address_v4 ip p more :
  in_u16 p →
  read_address (octets4 ip ++ be16 p ++ more) SOCKS5_ADDR_TYPE_IPV4 =
    Ok (Some (Ip (V4 ip p), 6)).
Proof.
  intros Hp. destruct ip as [a b c d]. unfold read_address, read_addr_field. cbn [Z.eqb].
  change (SOCKS5_ADDR_TYPE_IPV4 =? SOCKS5_ADDR_TYPE_IPV4) with true. cbn iota.
  pose proof (len_nonneg more).
  destruct (Z.ltb_spec (len (octets4 (Ipv4 a b c d) ++ be16 p ++ more)) 6) as [Hlt|_].
  { rewrite !len_app in Hlt. change (len (octets4 _)) with 4 in Hlt.
    change (len (be16 p)) with 2 in Hlt. lia. }
  rewrite (slice_app_pre (octets4 (Ipv4 a b c d))) by done.
  cbn [mbind outcome_bind].
  apply (port_bytes _ _ (octets4 (Ipv4 a b c d))).
  by rewrite read_be16_lor.
Qed.

Lemma read_address_v6 ip p more :
  length ip = 16%nat → in_u16 p →
  read_address (ip ++ be16 p ++ more) SOCKS5_ADDR_TYPE_IPV6 = Ok (Some (Ip (V6 ip p 0 0), 18)).
Proof.
  intros Hip Hp. unfold read_address, read_addr_field.
  change (SOCKS5_ADDR_TYPE_IPV6 =? SOCKS5_ADDR_TYPE_IPV4) with false.
  change (SOCKS5_ADDR_TYPE_IPV6 =? SOCKS5_ADDR_TYPE_IPV6) with true. cbn iota.
  assert (len ip = 16) as Hl by (unfold len; lia). pose proof (len_nonneg more).
  destruct (Z.ltb_spec (len (ip ++ be16 p ++ more)) 18) as [Hlt|_].
  { rewrite !len_app in Hlt. change (len (be16 p)) with 2 in Hlt. lia. }
  rewrite slice_app_pre by done. cbn [mbind outcome_bind].
  replace (18 - 2) with (len ip) by lia. replace (18 - 1) with (len ip + 1) by lia.
  apply (port_bytes _ _ ip). by rewrite read_be16_lor.
Qed.

Lemma read_address_domain host p more :
  str_ok host → str_len host <= 255 → in_u16 p →
  read_address ((str_len host :: as_bytes host) ++ be16 p ++ more) SOCKS5_ADDR_TYPE_DOMAIN_NAME =
    Ok (Some (Domain host p, str_len host + 3)).
Proof.
  intros Hh Hl Hp. unfold read_address, read_addr_field.
  change (SOCKS5_ADDR_TYPE_DOMAIN_NAME =? SOCKS5_ADDR_TYPE_IPV4) with false.
  change (SOCKS5_ADDR_TYPE_DOMAIN_NAME =? SOCKS5_ADDR_TYPE_IPV6) with false.
  change (SOCKS5_ADDR_TYPE_DOMAIN_NAME =? SOCKS5_ADDR_TYPE_DOMAIN_NAME) with true. cbn iota.
  set (data := (str_len host :: as_bytes host) ++ be16 p ++ more).
  assert (index data 0 = Ok (str_len host)) as -> by done.
  cbn [mbind outcome_bind]. pose proof (len_nonneg more).
  assert (len data = str_len host + 3 + len more) as Hd.
  { unfold data. rewrite !len_app, len_cons. change (len (be16 p)) with 2.
    change (len (as_bytes host)) with (str_len host). lia. }
  destruct (Z.ltb_spec (len data) (2 + (str_len host + 1))) as [?|_]; [lia|].
  unfold data at 1. rewrite (slice_app_mid [str_len host] (as_bytes host) (be16 p ++ more))
    by (rewrite ?len_cons, ?len_nil; unfold str_len; lia).
  cbn [mbind outcome_bind].
  rewrite from_utf8_as_bytes by done. cbn [mbind outcome_bind].
  replace (2 + (str_len host + 1) - 2) with (len (str_len host :: as_bytes host))
    by (rewrite len_cons; unfold str_len; lia).
  replace (2 + (str_len host + 1) - 1) with (len (str_len host :: as_bytes host) + 1)
    by (rewrite len_cons; unfold str_len; lia).
  apply (port_bytes _ _ (str_len host :: as_bytes host)).
  rewrite read_be16_lor by done. do 3 f_equal. lia.
Qed.

(** Every byte of the answer is decided by the first [n] bytes of the data. *)
Lemma index_app {A} (l r : list A) i x : index l i = Ok x → index (l ++ r) i = Ok x.
Proof.
  unfold index. destruct (i <? 0); [done|].
  destruct (l !! Z.to_nat i) as [y|] eqn:E; [|done]. intros [= ->].
  by rewrite (lookup_app_l_Some _ _ _ _ E).
Qed.

Lemma slice_app {A} (l r : list A) a b x :
  slice l a b = Ok x → 0 <= a → slice (l ++ r) a b = Ok x.
Proof.
  intros Hs Ha. revert Hs. unfold slice. rewrite len_app. pose proof (len_nonneg r).
  destruct (Z.ltb_spec b a); [done|]. destruct (Z.ltb_spec (len l) b); [done|].
  destruct (Z.ltb_spec (len l + len r) b); [lia|]. intros [= <-].
  unfold len in *. rewrite drop_app_le by lia.
  rewrite take_app_le by (rewrite length_drop; lia). done.
Qed.

Lemma read_addr_field_app data more atyp a n :
  read_addr_field data atyp = Ok (a, n) → a ≠ AddrUnknown →
  read_addr_field (data ++ more) atyp = Ok (a, n).
Proof.
  intros H Ha. unfold read_addr_field in *. rewrite len_app. pose proof (len_nonneg more).
  destruct (atyp =? _).
  { destruct (Z.ltb_spec (len data) 6); [congruence|].
    destruct (Z.ltb_spec (len data + len more) 6); [lia|].
    destruct (slice data 0 4) as [x| | |] eqn:E; try done.
    by rewrite (slice_app _ _ _ _ x E) by done. }
  destruct (atyp =? _).
  { destruct (Z.ltb_spec (len data) 18); [congruence|].
    destruct (Z.ltb_spec (len data + len more) 18); [lia|].
    destruct (slice data 0 16) as [x| | |] eqn:E; try done.
    by rewrite (slice_app _ _ _ _ x E) by done. }
  destruct (atyp =? _); [|done].
  destruct (index data 0) as [b| | |] eqn:E; try done.
  rewrite (index_app _ _ _ b) by done. cbn [mbind outcome_bind] in *.
  destruct (Z.ltb_spec (len data) (2 + (b + 1))); [congruence|].
  destruct (Z.ltb_spec (len data + len more) (2 + (b + 1))); [lia|].
  destruct (slice data 1 (b + 1)) as [x| | |] eqn:Es; try done.
  by rewrite (slice_app _ _ _ _ x Es) by done.
Qed.

Lemma read_address_app data more atyp r :
  read_address data atyp = Ok (Some r) → read_address (data ++ more) atyp = Ok (Some r).
Proof.
  unfold read_address. destruct (read_addr_field data atyp) as [[a n]| | |] eqn:E; [|done..].
  cbn [mbind outcome_bind]. intros H.
  rewrite (read_addr_field_app _ _ _ a n E) by (intros ->; discriminate). cbn [mbind outcome_bind].
  assert (a = AddrUnknown ∨ a ≠ AddrUnknown) as [->|Ha] by (destruct a; auto); [done|].
  destruct (index data (n - 2)) as [hi| | |] eqn:Eh; [|(by destruct a)..].
  destruct (index data (n - 1)) as [lo| | |] eqn:El; [|(by destruct a)..].
  rewrite (index_app _ more _ _ Eh), (index_app _ more _ _ El). by destruct a.
Qed.

(** The length of the whole field, once its first byte is known. *)
Definition field_len (data : bytes) (atyp : u8) : Z :=
  if atyp =? 1 then 6 else if atyp =? 4 then 18 else 3 + default 0 (head data).

Lemma slice_total {A} (l : list A) a b :
  0 <= a <= b → b <= len l → ∃ x, slice l a b = Ok x ∧ len x = b - a.
Proof.
  intros Ha Hb. eexists. split; [by apply slice_ok|]. unfold len in *.
  rewrite length_take, length_drop. lia.
Qed.

Lemma index_total {A} (l : list A) i : 0 <= i < len l → ∃ x, index l i = Ok x.
Proof. intros H. destruct (index_ok l i H) as (x & ? & _). eauto. Qed.

Definition known_atyp (atyp : u8) : bool := (atyp =? 1) || (atyp =? 4) || (atyp =? 3).

(** The parser's answer on any input with at least one byte of data. *)
Lemma read_address_total data atyp :
  bytes_ok data → data ≠ [] →
  match read_address data atyp with
  | Ok None => known_atyp atyp = true ∧ len data < field_len data atyp
  | Ok (Some (t, n)) =>
      known_atyp atyp = true ∧ n = field_len data atyp ∧ n <= len data
  | Err _ => known_atyp atyp = false ∨
      (atyp = 3 ∧ field_len data atyp <= len data ∧
       ∃ bs, slice data 1 (default 0 (head data) + 1) = Ok bs ∧ utf8_valid bs = false)
  | Panic _ | Pending => False
  end.
Proof.
  intros Hok Hne. unfold read_address, read_addr_field, field_len, known_atyp,
    SOCKS5_ADDR_TYPE_IPV4, SOCKS5_ADDR_TYPE_IPV6, SOCKS5_ADDR_TYPE_DOMAIN_NAME.
  destruct (Z.eqb_spec atyp 1) as [->|H1].
  { destruct (Z.ltb_spec (len data) 6); [done|].
    destruct (slice_total data 0 4) as (x & -> & Hx); [lia..|]. cbn [mbind outcome_bind].
    destruct (index_total data (6 - 2)) as [hi ->]; [lia|].
    destruct (index_total data (6 - 1)) as [lo ->]; [lia|]. cbn [mbind outcome_bind].
    destruct x as [|? [|? [|? [|? [|]]]]]; unfold len in Hx; cbn in Hx; try lia; done. }
  destruct (Z.eqb_spec atyp 4) as [->|H4].
  { destruct (Z.ltb_spec (len data) 18); [done|].
    destruct (slice_total data 0 16) as (x & -> & Hx); [lia..|]. cbn [mbind outcome_bind].
    destruct (index_total data (18 - 2)) as [hi ->]; [lia|].
    destruct (index_total data (18 - 1)) as [lo ->]; [lia|]. done. }
  destruct (Z.eqb_spec atyp 3) as [->|H3]; [|by left].
  destruct data as [|b data]; [done|]. apply Forall_cons in Hok as [Hb _].
  cbv beta in Hb. unfold in_u8 in Hb.
  change (index (b :: data) 0) with (Ok b). cbn [mbind outcome_bind head default].
  destruct (Z.ltb_spec (len (b :: data)) (2 + (b + 1))); [split; [done|]; cbn; lia|].
  destruct (slice_total (b :: data) 1 (b + 1)) as (x & Hs & Hx); [lia..|].
  rewrite Hs. cbn [mbind outcome_bind]. unfold from_utf8.
  destruct (utf8_valid x) eqn:Hu; cbn [mbind outcome_bind].
  - destruct (index_total (b :: data) (2 + (b + 1) - 2)) as [hi ->]; [lia|].
    destruct (index_total (b :: data) (2 + (b + 1) - 1)) as [lo ->]; [lia|]. cbn. lia.
  - right. split; [done|]. split; [cbn; lia|]. by exists x.
Qed.

(** A proper prefix of a field is not enough. *)
Lemma read_address_prefix p more atyp t :
  bytes_ok p → p ≠ [] → more ≠ [] →
  read_address (p ++ more) atyp = Ok (Some (t, len (p ++ more))) → read_address p atyp = Ok None.
Proof.
  intros Hok Hp Hm Hr. pose proof (read_address_total p atyp Hok Hp) as Ht.
  assert (0 < len more) by (destruct more; [done|rewrite len_cons; pose proof (len_nonneg more); lia]).
  rewrite len_app in Hr.
  destruct (read_address p atyp) as [[[t' n]|]|e|w|] eqn:E; try done.
  - destruct Ht as (_ & _ & Hn). rewrite (read_address_app _ more _ _ E) in Hr.
    injection Hr as _ ->. lia.
  - destruct Ht as [Hk|(-> & Hl & bs & Hs & Hu)]; exfalso.
    + unfold read_address, read_addr_field, known_atyp in *.
      unfold SOCKS5_ADDR_TYPE_IPV4, SOCKS5_ADDR_TYPE_IPV6, SOCKS5_ADDR_TYPE_DOMAIN_NAME in Hr.
      by destruct (atyp =? 1), (atyp =? 4), (atyp =? 3).
    + destruct p as [|x p]; [done|]. change (default 0 (head (x :: p))) with x in Hs. revert Hr.
      unfold read_address, read_addr_field. cbn [Z.eqb SOCKS5_ADDR_TYPE_IPV4 SOCKS5_ADDR_TYPE_IPV6
        SOCKS5_ADDR_TYPE_DOMAIN_NAME Pos.eqb].
      change (index ((x :: p) ++ more) 0) with (Ok x). cbn [mbind outcome_bind].
      destruct (_ <? _); [done|]. rewrite (slice_app _ more _ _ _ Hs) by lia.
      cbn [mbind outcome_bind]. unfold from_utf8. by rewrite Hu.
Qed.

Lemma to_be_bytes_ok t bs : target_ok t → to_be_bytes t = Ok bs → bytes_ok bs.
Proof.
  destruct t as [[ip p|ip p f sc]|host p]; cbn [target_ok to_be_bytes sa_ok].
  - intros [Hip _] [= <-]. constructor; [unfold in_u8, SOCKS5_ADDR_TYPE_IPV4; lia|].
    apply Forall_app. split; [apply Hip|apply be16_bytes].
  - intros (Hip & _) [= <-]. constructor; [unfold in_u8, SOCKS5_ADDR_TYPE_IPV6; lia|].
    apply Forall_app. split; [apply Hip|apply be16_bytes].
  - intros _. case_match; [done|]. intros [= <-].
    constructor; [unfold in_u8, SOCKS5_ADDR_TYPE_DOMAIN_NAME; lia|].
    constructor; [apply as_u8_range|]. apply Forall_app. split; [apply as_bytes_ok|apply be16_bytes].
Qed.

Lemma read_address_encoded (t : TargetAddr) atyp rest more :
  target_ok t → to_be_bytes t = Ok (atyp :: rest) →
  read_address (rest ++ more) atyp = Ok (Some (wire_form t, len rest)).
Proof.
  destruct t as [[ip p|ip p f s]|host p]; cbn [target_ok to_be_bytes wire_form sa_ok].
  - intros [_ Hp] [= <- <-]. pose proof (read_address_v4 ip p more Hp) as Hr.
    destruct ip. exact Hr.
  - intros (_ & Hip & Hp & _) [= <- <-]. rewrite <- app_assoc, (read_address_v6 ip p more Hip Hp).
    do 3 f_equal. rewrite len_app. unfold len. rewrite Hip. done.
  - intros [Hh Hp]. destruct (Z.ltb_spec 255 (str_len host)); [done|]. intros [= <- <-].
    rewrite as_u8_id by (unfold in_u8; pose proof (len_nonneg (as_bytes host)); unfold str_len in *; lia).
    pose proof (read_address_domain host p more Hh H Hp) as Hr.
    cbn [app] in *. rewrite <- app_assoc, Hr. do 3 f_equal.
    rewrite len_cons, len_app. change (len (be16 p)) with 2. unfold str_len. lia.
Qed.

(** The text of an IPv4 address is that address, never a name. *)
Lemma str_to_target_addr_v4 ip port :
  ip4_ok ip → str_to_target_addr (show_ip4 ip) port = v4_to_target_addr ip port.
Proof. intros Hip. unfold str_to_target_addr. by rewrite parse_show_ip4. Qed.

(** ** Properties *)

(** C21: An address that fits the wire format is read back from it, whatever
    follows, and the length reported is that of its encoding after the type
    byte (an IPv6 flow label and scope are not transmitted). *)
Theorem read_address_to_be_bytes (t : TargetAddr) atyp rest more :
  target_ok t → to_be_bytes t = Ok (atyp :: rest) →
  read_address (rest ++ more) atyp = Ok (Some (wire_form t, len rest)).
Proof. apply read_address_encoded. Qed.

(** On any data with at least one byte the parser returns without
    panicking: it asks for more exactly when the field is incomplete, fails
    exactly on an unknown type or a complete domain that is not UTF-8, and
    otherwise reports the field's length; an address it has read does not
    depend on the bytes that follow. *)
Theorem read_address_correct (data more : bytes) atyp :
  bytes_ok data → data ≠ [] →
  match read_address data atyp with
  | Ok None => known_atyp atyp = true ∧ len data < field_len data atyp
  | Ok (Some (t, n)) =>
      known_atyp atyp = true ∧ n = field_len data atyp ∧ n <= len data ∧
      read_address (data ++ more) atyp = Ok (Some (t, n))
  | Err _ => known_atyp atyp = false ∨
      (atyp = 3 ∧ field_len data atyp <= len data ∧
       ∃ bs, slice data 1 (default 0 (head data) + 1) = Ok bs ∧ utf8_valid bs = false)
  | Panic _ | Pending => False
  end.
Proof.
  intros Hok Hne. pose proof (read_address_total data atyp Hok Hne) as H.
  destruct (read_address data atyp) as [[[t n]|]| | |] eqn:E; try done.
  destruct H as (? & ? & ?). split_and!; [done..|]. by apply read_address_app.
Qed.

Lemma read_address_to_be_bytes_witness :
  read_address ([3; 97; 46; 98; 0; 80] ++ [9; 9]) 3 = Ok (Some (Domain "a.b" 80, 6)).
Proof.
  apply (read_address_to_be_bytes (Domain "a.b" 80) 3 [3; 97; 46; 98; 0; 80] [9; 9]).
  - split; [reflexivity|]. unfold in_u16. lia.
  - reflexivity.
Defined.

Lemma read_address_correct_witness :
  known_atyp 1 = true ∧ 6 = field_len [10; 0; 0; 1; 31; 144; 7] 1 ∧
  6 <= len [10; 0; 0; 1; 31; 144; 7] ∧
  read_address ([10; 0; 0; 1; 31; 144; 7] ++ [5]) 1 =
    Ok (Some (Ip (V4 (Ipv4 10 0 0 1) 8080), 6)).
Proof.
  exact (read_address_correct [10; 0; 0; 1; 31; 144; 7] [5] 1
    ltac:(repeat constructor; unfold in_u8; lia) ltac:(done)).
Defined.
