(* ===== verification/Socks5.v ===== *)
(** [np_base/src/proxy/socks5/mod.rs]: the SOCKS5 server of an inlet session:
    greeting, authentication, request, relaying. *)

From S2P Require Import Prelude Std Extern Crypto Net Proxy Common TargetAddr.

Definition SOCKS5_VERSION : u8 := 5.
Definition SOCKS5_AUTH_METHOD_NONE : u8 := 0.
Definition SOCKS5_AUTH_METHOD_PASSWORD : u8 := 2.
Definition SOCKS5_AUTH_METHOD_NOT_ACCEPTABLE : u8 := 255.
Definition SOCKS5_CMD_TCP_CONNECT : u8 := 1.
Definition SOCKS5_CMD_TCP_BIND : u8 := 2.
Definition SOCKS5_CMD_UDP_ASSOCIATE : u8 := 3.

(** ** The operating system's UDP sockets, a socket being a handle *)

Class UdpOs := {
  udp_bind_any : outcome handle;                      (** [UdpSocket::bind("0.0.0.0:0")] *)
  udp_connect : handle → SocketAddr → outcome unit;
  udp_connect_host : handle → string → outcome unit;  (** a host and port, resolved first *)
  udp_local_port : handle → outcome u16;
  udp_send : handle → bytes → outcome unit
}.

(** ** State *)

Inductive Status :=
| Init
| Verification
| Connect
| Connecting (is_tcp : bool)
| RunWithTcp
| RunWithUdp (socket : handle).

#[export] Instance Status_eq_dec : EqDecision Status.
Proof. solve_decision. Defined.

(** The field [output] is the shared output channel of [env]; a task handle is
    [true] while the task is there to be cancelled. *)
Record Socks5Context := {
  status : Status;
  buffer : bytes;
  write_msg_tx : handle;
  data_ex : InletDataEx;
  target_addr : option TargetAddr;
  session_id : u32;
  addr : SocketAddr;
  common_data : SessionCommonInfo;
  read_input_task_handle : bool;
  udp_task_handle : bool
}.

(** The context, the state shared with the other sessions, and the datagrams
    the context's socket has sent. *)
Record s5 := S5 { ctx : Socks5Context; s5_env : env; datagrams : list bytes }.

#[export] Instance s5_has_env : HasEnv s5.
Proof.
  refine {| env_of := s5_env; set_env := λ e s, S5 (ctx s) e (datagrams s) |}; [done| |done].
  by intros [].
Defined.

Definition set_ctx (f : Socks5Context → Socks5Context) : M s5 unit :=
  modify (λ s, S5 (f (ctx s)) (s5_env s) (datagrams s)).

Definition upd_status (st : Status) (c : Socks5Context) : Socks5Context :=
  {| status := st; buffer := buffer c; write_msg_tx := write_msg_tx c; data_ex := data_ex c;
     target_addr := target_addr c; session_id := session_id c; addr := addr c;
     common_data := common_data c; read_input_task_handle := read_input_task_handle c;
     udp_task_handle := udp_task_handle c |}.
Definition upd_buffer (b : bytes) (c : Socks5Context) : Socks5Context :=
  {| status := status c; buffer := b; write_msg_tx := write_msg_tx c; data_ex := data_ex c;
     target_addr := target_addr c; session_id := session_id c; addr := addr c;
     common_data := common_data c; read_input_task_handle := read_input_task_handle c;
     udp_task_handle := udp_task_handle c |}.
Definition upd_target (t : option TargetAddr) (c : Socks5Context) : Socks5Context :=
  {| status := status c; buffer := buffer c; write_msg_tx := write_msg_tx c;
     data_ex := data_ex c; target_addr := t; session_id := session_id c; addr := addr c;
     common_data := common_data c; read_input_task_handle := read_input_task_handle c;
     udp_task_handle := udp_task_handle c |}.
Definition upd_tasks (r u : bool) (c : Socks5Context) : Socks5Context :=
  {| status := status c; buffer := buffer c; write_msg_tx := write_msg_tx c;
     data_ex := data_ex c; target_addr := target_addr c; session_id := session_id c;
     addr := addr c; common_data := common_data c; read_input_task_handle := r;
     udp_task_handle := u |}.

Definition set_status (st : Status) : M s5 unit := set_ctx (upd_status st).
Definition set_buffer (b : bytes) : M s5 unit := set_ctx (upd_buffer b).

(** [self.write_msg_tx.send(m)] *)
Definition write_msg (m : WMsg) : M s5 unit :=
  c ← gets ctx; send_writer (write_msg_tx c) m.

(** [self.buffer.drain(0..n)] *)
Definition drain (n : usize) : M s5 bytes :=
  c ← gets ctx;
  front ← lift (slice (buffer c) 0 n);
  rest ← lift (slice_from (buffer c) n);
  set_buffer rest;;
  mret front.

Section Socks5.
Context `{Lz4} `{SimplestCrypt} `{Base64} `{UdpOs}.

(** [Socks5Context::new]: the context; the task it spawns hands it the messages
    of the proxy channel it returns. *)
Definition socks5_new (write_msg_tx : handle) (session_id : u32) (addr : SocketAddr)
    (data_ex : InletDataEx) (common_data : SessionCommonInfo) : Socks5Context :=
  {| status := Init; buffer := []; write_msg_tx := write_msg_tx; data_ex := data_ex;
     target_addr := None; session_id := session_id; addr := addr; common_data := common_data;
     read_input_task_handle := true; udp_task_handle := false |}.

(** *** Greeting *)

Definition no_credentials (d : InletDataEx) : bool :=
  str_is_empty (username d) && str_is_empty (password d).

Definition choose_method (d : InletDataEx) (methods : bytes) : u8 :=
  if no_credentials d then
    if bool_decide (SOCKS5_AUTH_METHOD_NONE ∈ methods)
    then SOCKS5_AUTH_METHOD_NONE else SOCKS5_AUTH_METHOD_NOT_ACCEPTABLE
  else
    if bool_decide (SOCKS5_AUTH_METHOD_PASSWORD ∈ methods)
    then SOCKS5_AUTH_METHOD_PASSWORD else SOCKS5_AUTH_METHOD_NOT_ACCEPTABLE.

Definition refuse_greeting : M s5 unit :=
  write_msg (Send [SOCKS5_VERSION; SOCKS5_AUTH_METHOD_NOT_ACCEPTABLE] true);;
  write_msg (CloseDelayed 10).

Definition on_socks5_init : M s5 unit :=
  c ← gets ctx;
  if len (buffer c) <? 3 then mret tt
  else
    b0 ← lift (index (buffer c) 0);
    if b0 =? SOCKS5_VERSION then
      num_of_methods ← lift (index (buffer c) 1);
      let num_of_package := num_of_methods + 2 in
      if len (buffer c) <? num_of_package then mret tt
      else
        methods ← lift (slice (buffer c) 2 num_of_package);
        let method := choose_method (data_ex c) methods in
        if negb (method =? SOCKS5_AUTH_METHOD_NOT_ACCEPTABLE) then
          write_msg (Send [SOCKS5_VERSION; method] true);;
          drain num_of_package;;
          set_status (if method =? SOCKS5_AUTH_METHOD_NONE then Connect else Verification)
        else refuse_greeting
    else refuse_greeting.

(** *** Username and password *)

Definition on_socks5_verification : M s5 unit :=
  c ← gets ctx;
  if len (buffer c) <? 4 then mret tt
  else
    ver ← lift (index (buffer c) 0);
    unl ← lift (index (buffer c) 1);
    pwl ← lift (index (buffer c) (2 + unl));
    let num_of_package := unl + pwl + 3 in
    unm ← lift (slice (buffer c) 2 (2 + unl));
    pwd ← lift (slice (buffer c) (3 + unl) (3 + unl + pwl));
    if bool_decide (unm = as_bytes (username (data_ex c))) &&
       bool_decide (pwd = as_bytes (password (data_ex c))) then
      write_msg (Send [ver; 0] true);;
      drain num_of_package;;
      set_status Connect
    else
      write_msg (Send [ver; 1] true);;
      write_msg (CloseDelayed 1000).

(** *** Request *)

Definition refuse_command : M s5 unit :=
  write_msg (Send [SOCKS5_VERSION; 7; 0; 1; 0; 0; 0; 0; 0; 0] true);;
  write_msg (CloseDelayed 1000).

(** The tunnel's end for a CONNECT, the client itself for a UDP ASSOCIATE. *)
Definition request_target (c : Socks5Context) (cmd : u8) (t : TargetAddr)
    : outcome (TargetAddr * bool) :=
  if cmd =? SOCKS5_CMD_TCP_CONNECT then Ok (t, true)
  else if cmd =? SOCKS5_CMD_UDP_ASSOCIATE then
    Ok (Ip (set_port (addr c) (target_port t)), false)
  else Panic "unknown cmd".

Definition connect_message (c : Socks5Context) (t : TargetAddr) (is_tcp : bool) : ProxyMessage :=
  I2oConnect (session_id c) (to_u8 SOCKS5) is_tcp (is_compressed (common_data c))
    (target_to_string t) (method_to_string (encryption_method (common_data c)))
    (base64_encode (encryption_key (common_data c))) (show_addr (addr c)).

Definition on_socks5_connect : M s5 unit :=
  c ← gets ctx;
  if len (buffer c) <? 8 then mret tt
  else
    head_data ← drain 4;
    ver ← lift (index head_data 0);
    cmd ← lift (index head_data 1);
    rsv ← lift (index head_data 2);
    address_type ← lift (index head_data 3);
    let support := negb (negb (ver =? SOCKS5_VERSION) || negb (rsv =? 0)) in
    if support && ((cmd =? SOCKS5_CMD_TCP_CONNECT) || (cmd =? SOCKS5_CMD_UDP_ASSOCIATE)) then
      c ← gets ctx;
      addr_result ← lift (read_address (buffer c) address_type);
      match addr_result with
      | Some (t, addr_data_len) =>
          '(t, is_tcp) ← lift (request_target c cmd t);
          send_output (connect_message c t is_tcp);;
          set_ctx (upd_target (Some t));;
          set_buffer [];;
          set_status (Connecting is_tcp)
      | None => set_buffer (head_data ++ buffer c)
      end
    else refuse_command.

(** *** A frame from the client; [nonce] is the cipher's *)

Definition recv_frame (nonce : Z) (frame : bytes) : M s5 unit :=
  c ← gets ctx;
  match status c with
  | Init => set_buffer (buffer c ++ frame);; on_socks5_init
  | Verification => set_buffer (buffer c ++ frame);; on_socks5_verification
  | Connect => set_buffer (buffer c ++ frame);; on_socks5_connect
  | Connecting _ => mret tt
  | RunWithTcp =>
      frame ← encode_data_and_limiting nonce (common_data c) frame;
      send_output (I2oSendData (session_id c) frame)
  | RunWithUdp _ => mret tt
  end.

(** *** Messages from the outlet *)

Definition on_recv_o2i_recv_data (sid : u32) (data : bytes) : M s5 unit :=
  c ← gets ctx;
  match status c with
  | RunWithTcp =>
      let data_len := len data in
      data ← lift (decode_data (common_data c) data);
      write_msg (SendAndThen data (I2oRecvDataResult sid data_len))
  | _ => mret tt
  end.

Definition socket_send (sock : handle) (d : bytes) : M s5 unit := λ s,
  match udp_send sock d with
  | Ok _ => (Ok tt, S5 (ctx s) (s5_env s) (datagrams s ++ [d]))
  | Err e => (Err e, s)
  | Panic w => (Panic w, s)
  | Pending => (Pending, s)
  end.

Definition on_recv_o2i_recv_data_from (sid : u32) (data : bytes) (peer_addr : string)
    : M s5 unit :=
  c ← gets ctx;
  match status c with
  | RunWithUdp sock =>
      let data_len := len data in
      data ← lift (decode_data (common_data c) data);
      peer ← lift (parse_socket_addr peer_addr);
      addr_bytes ← lift (to_be_bytes (Ip peer));
      socket_send sock ([0; 0; 0] ++ addr_bytes ++ data);;
      ignore (send_output (I2oRecvDataResult sid data_len))
  | _ => mret tt
  end.

Definition connect_socket (sock : handle) (t : option TargetAddr) : outcome unit :=
  match t with
  | Some (Ip a) => udp_connect sock a
  | Some (Domain host port) => udp_connect_host sock (host +:+ ":" +:+ show port)
  | None => Ok tt
  end.

Definition udp_bind : M s5 bytes :=
  sock ← lift udp_bind_any;
  c ← gets ctx;
  lift (connect_socket sock (target_addr c));;
  port ← lift (udp_local_port sock);
  let buf := [SOCKS5_VERSION; 0; 0; 1; 0; 0; 0; 0] ++ be16 port in
  set_ctx (upd_tasks (read_input_task_handle c) true);;
  set_status (RunWithUdp sock);;
  mret buf.

Definition host_unreachable : bytes := [SOCKS5_VERSION; 4; 0; 1; 0; 0; 0; 0; 0; 0].

(** [if let Ok(data) = self.udp_bind().await { data } else { .. }] *)
Definition udp_bind_or_unreachable : M s5 bytes := λ s,
  match udp_bind s with
  | (Err _, s') => (Ok host_unreachable, s')
  | r => r
  end.

Definition on_recv_o2i_connect (success : bool) : M s5 unit :=
  c ← gets ctx;
  match status c, target_addr c with
  | Connecting is_tcp, Some _ =>
      response ← (if success then
                    if is_tcp then
                      set_status RunWithTcp;;
                      mret [SOCKS5_VERSION; 0; 0; 1; 0; 0; 0; 0; 0; 0]
                    else udp_bind_or_unreachable
                  else mret host_unreachable);
      ignore (write_msg (Send response true))
  | _, _ => mret tt
  end.

Definition on_recv_proxy_message (m : ProxyMessage) : M s5 unit :=
  match m with
  | O2iConnect _ success _ => on_recv_o2i_connect success
  | O2iRecvData sid data => on_recv_o2i_recv_data sid data
  | O2iRecvDataFrom sid data peer_addr => on_recv_o2i_recv_data_from sid data peer_addr
  | _ => mret tt
  end.

(** *** The UDP task *)

Definition recv_udp_data (sid : u32) (amt : usize) (buf : bytes) (info : SessionCommonInfo)
    : M s5 unit :=
  if amt <? 11 then bail "received data of illegal length"
  else
    received_data ← lift (slice buf 0 amt);
    address_type ← lift (index received_data 3);
    tail ← lift (slice_from received_data 4);
    match read_address tail address_type with
    | Ok (Some (a, addr_data_len)) =>
        let start := 4 + addr_data_len in
        payload ← lift (slice buf start amt);
        data ← lift (decode_data info payload);
        send_output (I2oSendToData sid data (target_to_string a))
    | Panic w => lift (Panic w)
    | _ => bail "address resolution failed"
    end.

(** One turn of the task's loop on a received datagram: an error ends the task,
    which closes the session. *)
Definition udp_task_step (amt : usize) (buf : bytes) : M s5 unit :=
  c ← gets ctx;
  on_err (recv_udp_data (session_id c) amt buf (common_data c))
    (λ _, ignore (write_msg Close)).

(** *** [on_destroy]: both tasks are cancelled *)
Definition on_destroy : M s5 unit := set_ctx (upd_tasks false false).
End Socks5.

(** ** Facts *)

Section Socks5Facts.
Context `{Lz4} `{SimplestCrypt} `{Base64} `{UdpOs}.
Implicit Types (s : s5) (c : Socks5Context).

(** What a call that only talks to the client leaves alone. *)
Definition quiet s s' : Prop := ctx s' = ctx s ∧ output (s5_env s') = output (s5_env s).

Lemma quiet_refl s : quiet s s.
Proof. done. Qed.
Lemma quiet_trans s1 s2 s3 : quiet s1 s2 → quiet s2 s3 → quiet s1 s3.
Proof. unfold quiet. intuition congruence. Qed.

Lemma write_msg_quiet m s : after (write_msg m) s (λ _, quiet s).
Proof.
  unfold write_msg. mstep. mstep. unfold after, send_writer, with_env. cbn.
  destruct (writers _ !! _) as [[[] q]|]; done.
Qed.

Lemma refuse_quiet m k s : after (write_msg m;; write_msg k) s (λ _, quiet s).
Proof.
  mstep. apply (after_mono _ _ _ _ (write_msg_quiet m s)). intros o s1 Hq.
  destruct o; [|done..]. apply (after_mono _ _ _ _ (write_msg_quiet k s1)).
  intros ? ? ?. by eapply quiet_trans.
Qed.

(** Reading a buffer by index and slice determines its prefix. *)
Lemma slice_split {A} (l : list A) a b x :
  slice l a b = Ok x → 0 <= a → ∃ pre post, l = pre ++ x ++ post ∧ len pre = a ∧ len x = b - a.
Proof.
  unfold slice. destruct (Z.ltb_spec b a); [done|]. destruct (Z.ltb_spec (len l) b); [done|].
  intros [= <-] Ha. exists (take (Z.to_nat a) l), (drop (Z.to_nat (b - a)) (drop (Z.to_nat a) l)).
  unfold len in *. rewrite !take_drop, !length_take, length_drop. split; [done|]. lia.
Qed.

Lemma index_split {A} (l : list A) i x :
  index l i = Ok x → ∃ pre post, l = pre ++ x :: post ∧ len pre = i.
Proof.
  unfold index. destruct (Z.ltb_spec i 0); [done|].
  destruct (l !! Z.to_nat i) as [y|] eqn:E; [|done]. intros [= ->].
  exists (take (Z.to_nat i) l), (drop (S (Z.to_nat i)) l).
  pose proof (lookup_lt_Some _ _ _ E). split; [by rewrite take_drop_middle|].
  unfold len. rewrite length_take. lia.
Qed.

Lemma drain_eq n s :
  0 <= n <= len (buffer (ctx s)) →
  drain n s = (Ok (take (Z.to_nat n) (buffer (ctx s))),
               S5 (upd_buffer (drop (Z.to_nat n) (buffer (ctx s))) (ctx s)) (s5_env s)
                  (datagrams s)).
Proof.
  intros Hn. unfold drain, mbind, M_bind, gets, lift, slice_from.
  rewrite !slice_ok by lia. rewrite drop_0. rewrite Z.sub_0_r.
  unfold set_buffer, set_ctx, modify, mret, M_ret.
  rewrite (take_ge (drop _ _)); [done|]. unfold len. rewrite length_drop. lia.
Qed.

(** *** What each step of the handshake does to the context and the output *)

Definition greeting (methods : bytes) : bytes := SOCKS5_VERSION :: len methods :: methods.

Definition login_packet (d : InletDataEx) (ver : u8) : bytes :=
  [ver; str_len (username d)] ++ as_bytes (username d) ++
  [str_len (password d)] ++ as_bytes (password d).

Lemma after_drain n s (Q : outcome bytes → s5 → Prop) :
  0 <= n <= len (buffer (ctx s)) →
  Q (Ok (take (Z.to_nat n) (buffer (ctx s))))
    (S5 (upd_buffer (drop (Z.to_nat n) (buffer (ctx s))) (ctx s)) (s5_env s) (datagrams s)) →
  after (drain n) s Q.
Proof. intros Hn HQ. unfold after. by rewrite drain_eq. Qed.

(** Talk to the client, take a packet off the buffer, move on. *)
Lemma advance_post m p rest st s :
  buffer (ctx s) = p ++ rest →
  after (write_msg m;; drain (len p);; set_status st) s (λ _ s',
    output (s5_env s') = output (s5_env s) ∧
    (ctx s' = ctx s ∨ ctx s' = upd_status st (upd_buffer rest (ctx s)))).
Proof.
  intros Hb. mstep. apply (after_mono _ _ _ _ (write_msg_quiet m s)). intros o s1 [Hc Ho].
  destruct o; [|by auto..]. mstep. pose proof (len_nonneg p); pose proof (len_nonneg rest).
  apply after_drain; [rewrite Hc, Hb, len_app; lia|].
  unfold after; cbn. split; [done|]. right. rewrite Hc, Hb. unfold len.
  by rewrite Nat2Z.id, drop_app_length.
Qed.

Definition init_advance c c' : Prop := ∃ methods rest,
  buffer c = greeting methods ++ rest ∧
  choose_method (data_ex c) methods ≠ SOCKS5_AUTH_METHOD_NOT_ACCEPTABLE ∧
  c' = upd_status (if choose_method (data_ex c) methods =? SOCKS5_AUTH_METHOD_NONE
                   then Connect else Verification) (upd_buffer rest c).

Lemma init_post s :
  bytes_ok (buffer (ctx s)) →
  after on_socks5_init s (λ _ s',
    output (s5_env s') = output (s5_env s) ∧
    (ctx s' = ctx s ∨ init_advance (ctx s) (ctx s'))).
Proof.
  intros Hok. unfold on_socks5_init. do 2 mstep. mstep; [mstep; by auto|].
  do 2 mstep. mstep; [|by auto..]. mstep.
  2:{ apply (after_mono _ _ _ _ (refuse_quiet _ _ s)). intros ? ? [? ?]. auto. }
  do 2 mstep. mstep; [|by auto..]. mstep; [mstep; by auto|]. do 2 mstep. mstep; [|by auto..].
  destruct (negb _) eqn:Hm.
  2:{ apply (after_mono _ _ _ _ (refuse_quiet _ _ s)). intros ? ? [? ?]. auto. }
  assert (∃ rest, buffer (ctx s) = greeting a1 ++ rest ∧ a0 + 2 = len (greeting a1))
    as (rest & Hb & Hn).
  { apply slice_split in Heqo1 as (pre & post & Hb & Hpre & Hlen); [|lia].
    destruct pre as [|x [|y [|]]]; unfold len in Hpre; cbn in Hpre; try lia.
    rewrite Hb in Heqo, Heqo0. cbn in Heqo, Heqo0. injection Heqo as ->. injection Heqo0 as ->.
    apply Z.eqb_eq in Heqb0 as ->. exists post. rewrite Hb. unfold greeting.
    replace (len a1) with a0 by lia. split; [done|]. rewrite !len_cons. lia. }
  rewrite Hn. apply (after_mono _ _ _ _ (advance_post _ _ _ _ s Hb)).
  intros ? s' [? [?|Hc]]; [by auto|]. split; [done|]. right. exists a1, rest.
  split_and!; [done| |done]. intros E. by rewrite E in Hm.
Qed.

Definition login_advance c c' : Prop := ∃ ver rest,
  buffer c = login_packet (data_ex c) ver ++ rest ∧
  c' = upd_status Connect (upd_buffer rest c).

Lemma login_packet_prefix b d ver unl pwl :
  bytes_ok b → index b 0 = Ok ver → index b 1 = Ok unl → index b (2 + unl) = Ok pwl →
  slice b 2 (2 + unl) = Ok (as_bytes (username d)) →
  slice b (3 + unl) (3 + unl + pwl) = Ok (as_bytes (password d)) →
  ∃ rest, b = login_packet d ver ++ rest ∧ unl + pwl + 3 = len (login_packet d ver).
Proof.
  intros Hok Hi0 Hi1 Hi2 Hu Hp.
  assert (0 <= unl) as Hunl.
  { apply index_split in Hi1 as (pre & post & -> & _).
    apply Forall_app in Hok as [_ Hok]. apply Forall_cons in Hok as [Hx _].
    cbv beta in Hx. unfold in_u8 in Hx. lia. }
  apply slice_split in Hu as (pre & post & -> & Hpre & Hlen); [|lia].
  destruct pre as [|x [|y [|]]]; unfold len in Hpre; cbn in Hpre; try lia.
  injection Hi0 as ->. injection Hi1 as ->.
  change ([ver; unl] ++ as_bytes (username d) ++ post)
    with ([ver; unl] ++ (as_bytes (username d) ++ post)) in *.
  rewrite app_assoc in Hi2, Hp. set (u := [ver; unl] ++ as_bytes (username d)) in *.
  assert (len u = 2 + unl) as Hulen by (unfold u; rewrite len_app; change (len [ver; unl]) with 2; lia).
  apply index_split in Hi2 as (pre2 & post2 & Hb & Hpre2).
  apply app_inj_1 in Hb as [<- ->]; [|unfold len in *; lia].
  apply slice_split in Hp as (pre3 & post3 & Hb & Hpre3 & Hplen); [|lia].
  replace (u ++ pwl :: post2) with ((u ++ [pwl]) ++ post2) in Hb by by rewrite <- app_assoc.
  apply app_inj_1 in Hb as [<- ->]; [|unfold len in *; rewrite length_app; cbn; lia].
  exists post3. unfold login_packet, str_len.
  replace (len (as_bytes (username d))) with unl by lia.
  replace (len (as_bytes (password d))) with pwl by lia. split.
  - subst u. by rewrite <- !app_assoc.
  - rewrite !len_app. change (len [ver; unl]) with 2. change (len [pwl]) with 1. lia.
Qed.

Lemma verification_post s :
  bytes_ok (buffer (ctx s)) →
  after on_socks5_verification s (λ _ s',
    output (s5_env s') = output (s5_env s) ∧
    (ctx s' = ctx s ∨ login_advance (ctx s) (ctx s'))).
Proof.
  intros Hok. unfold on_socks5_verification. do 2 mstep. mstep; [mstep; by auto|].
  do 5 (do 2 mstep; mstep; [|by auto..]). cbv zeta.
  destruct (_ && _) eqn:Hm.
  2:{ apply (after_mono _ _ _ _ (refuse_quiet _ _ s)). intros ? ? [? ?]. auto. }
  apply andb_true_iff in Hm as [->%bool_decide_eq_true ->%bool_decide_eq_true].
  destruct (login_packet_prefix _ _ _ _ _ Hok Heqo Heqo0 Heqo1 Heqo2 Heqo3) as (rest & Hb & Hn).
  rewrite Hn. apply (after_mono _ _ _ _ (advance_post _ _ _ _ s Hb)).
  intros ? s' [? [?|Hc]]; [by auto|]. split; [done|]. right. by exists a, rest.
Qed.

(** *** Past authentication

    [ready]: the handshake is behind; no later event goes back. *)
Definition ready (st : Status) : bool :=
  match st with Init | Verification => false | _ => true end.

Definition ready_for (d : InletDataEx) s : Prop := data_ex (ctx s) = d ∧ ready (status (ctx s)) = true.

Lemma preserves_env (d : InletDataEx) {A} (m : M s5 A) :
  (∀ s, ctx (snd (m s)) = ctx s) → preserves (ready_for d) m.
Proof.
  intros Hm s [Hd Hr]. unfold after. specialize (Hm s). destruct (m s) as [o s'].
  cbn in Hm. unfold ready_for. by rewrite Hm.
Qed.

Lemma preserves_set_ctx d f :
  (∀ c, data_ex (f c) = data_ex c) → (∀ c, ready (status c) = true → ready (status (f c)) = true) →
  preserves (ready_for d) (set_ctx f).
Proof. intros Hd Hr. apply preserves_modify. intros s [<- ?]. split; cbn; auto. Qed.

Lemma ctx_with_env {A} (m : M env A) s : ctx (snd (with_env m s)) = ctx s.
Proof. unfold with_env. by destruct (m (env_of s)). Qed.

Lemma ctx_send_writer h m s : ctx (snd (send_writer h m s)) = ctx s.
Proof. apply ctx_with_env. Qed.
Lemma ctx_send_output m s : ctx (snd (send_output m s)) = ctx s.
Proof. apply ctx_with_env. Qed.
Lemma ctx_socket_send sock p s : ctx (snd (socket_send sock p s)) = ctx s.
Proof. unfold socket_send. by destruct (udp_send sock p). Qed.
Lemma ctx_encode nonce info f s : ctx (snd (encode_data_and_limiting nonce info f s)) = ctx s.
Proof. rewrite encode_and_limit_eq. destruct (encode_data _ _ _); try done. cbv zeta. by destruct (_ <? _). Qed.

Lemma ready_send_writer d h m : preserves (ready_for d) (send_writer h m).
Proof. apply preserves_env, ctx_send_writer. Qed.
Lemma ready_send_output d m : preserves (ready_for d) (send_output m).
Proof. apply preserves_env, ctx_send_output. Qed.
Lemma ready_socket_send d sock p : preserves (ready_for d) (socket_send sock p).
Proof. apply preserves_env, ctx_socket_send. Qed.
Lemma ready_encode d nonce info f : preserves (ready_for d) (encode_data_and_limiting nonce info f).
Proof. apply preserves_env, ctx_encode. Qed.
Lemma ready_set_buffer d b : preserves (ready_for d) (set_buffer b).
Proof. by apply preserves_set_ctx. Qed.
Lemma ready_set_target d t : preserves (ready_for d) (set_ctx (upd_target t)).
Proof. by apply preserves_set_ctx. Qed.
Lemma ready_set_tasks d r u : preserves (ready_for d) (set_ctx (upd_tasks r u)).
Proof. by apply preserves_set_ctx. Qed.
Lemma ready_set_status d st : ready st = true → preserves (ready_for d) (set_status st).
Proof. intros ?. by apply preserves_set_ctx. Qed.

#[local] Hint Resolve ready_send_writer ready_send_output ready_socket_send ready_encode
  ready_set_buffer ready_set_target ready_set_tasks ready_set_status : npipe.

Lemma ready_write_msg d m : preserves (ready_for d) (write_msg m).
Proof. unfold write_msg. auto with npipe. Qed.
Lemma ready_drain d n : preserves (ready_for d) (drain n).
Proof. unfold drain. auto 7 with npipe. Qed.
#[local] Hint Resolve ready_write_msg ready_drain : npipe.

Lemma ready_connect d : preserves (ready_for d) on_socks5_connect.
Proof. unfold on_socks5_connect, refuse_command. auto 30 with npipe. Qed.

Lemma ready_udp_bind d : preserves (ready_for d) udp_bind_or_unreachable.
Proof.
  assert (preserves (ready_for d) udp_bind) as Hb by (unfold udp_bind; auto 20 with npipe).
  intros s Hs. specialize (Hb s Hs). unfold after, udp_bind_or_unreachable in *.
  by destruct (udp_bind s) as [[] ?].
Qed.
#[local] Hint Resolve ready_udp_bind : npipe.

Lemma ready_proxy_message d m : preserves (ready_for d) (on_recv_proxy_message m).
Proof.
  destruct m; cbn [on_recv_proxy_message]; unfold on_recv_o2i_connect,
    on_recv_o2i_recv_data, on_recv_o2i_recv_data_from; auto 20 with npipe.
Qed.

Lemma ready_datagram d amt b : preserves (ready_for d) (udp_task_step amt b).
Proof. unfold udp_task_step, recv_udp_data. auto 20 with npipe. Qed.

Lemma ready_frame d nonce f s : ready_for d s → after (recv_frame nonce f) s (λ _, ready_for d).
Proof.
  intros Hs. unfold recv_frame. do 2 mstep. pose proof Hs as [_ Hr].
  revert s Hs Hr. intros s. generalize (ctx s) as c. intros c Hs.
  assert (∀ b, preserves (ready_for d) (set_buffer b;; on_socks5_connect)) as Hc
    by auto using ready_connect with npipe.
  assert (preserves (ready_for d) (encode_data_and_limiting nonce (common_data c) f
    ≫= λ f, send_output (I2oSendData (session_id c) f))) as Hp by auto with npipe.
  destruct (status c); intros Hr; (done || by apply Hc || by apply Hp).
Qed.

(** *** The events of a session, in any order, among any activity of the others *)

Inductive s5_event :=
| Frame (nonce : Z) (frame : bytes)
| Message (m : ProxyMessage)
| Datagram (amt : usize) (buf : bytes)
| Destroy.

Definition s5_handle (ev : s5_event) : M s5 unit :=
  match ev with
  | Frame nonce frame => recv_frame nonce frame
  | Message m => on_recv_proxy_message m
  | Datagram amt buf => udp_task_step amt buf
  | Destroy => on_destroy
  end.

(** A frame is made of bytes; a datagram needs the task that receives it. *)
Definition event_ok (ev : s5_event) c : Prop :=
  match ev with
  | Frame _ frame => bytes_ok frame
  | Datagram _ _ => udp_task_handle c = true
  | _ => True
  end.

Definition frame_of (ev : s5_event) : bytes :=
  match ev with Frame _ frame => frame | _ => [] end.

(** From context [c0], the client has sent [rc], the session has sent out [out],
    and its context is [c]. Between two events the shared state may change in
    any way. *)
Inductive session_run (c0 : Socks5Context) : bytes → list ProxyMessage → Socks5Context → Prop :=
| run_new : session_run c0 [] [] c0
| run_event rc out c ev e ds o s' :
    session_run c0 rc out c → event_ok ev c → s5_handle ev (S5 c e ds) = (o, s') →
    session_run c0 (rc ++ frame_of ev) (out ++ drop (length (sent e)) (sent (s5_env s'))) (ctx s').

(** The client has presented the configured credentials. *)
Definition authenticated (d : InletDataEx) (rc : bytes) : Prop := ∃ methods ver rest,
  rc = greeting methods ++ login_packet d ver ++ rest ∧ SOCKS5_AUTH_METHOD_PASSWORD ∈ methods.

Definition auth_inv (d : InletDataEx) (rc : bytes) (out : list ProxyMessage) c : Prop :=
  data_ex c = d ∧ bytes_ok rc ∧
  match status c with
  | Init => out = [] ∧ udp_task_handle c = false ∧ rc = buffer c
  | Verification => out = [] ∧ udp_task_handle c = false ∧
      ∃ methods, rc = greeting methods ++ buffer c ∧ SOCKS5_AUTH_METHOD_PASSWORD ∈ methods
  | _ => authenticated d rc
  end.

Lemma authenticated_app d rc more : authenticated d rc → authenticated d (rc ++ more).
Proof.
  intros (ms & ver & rest & -> & ?). exists ms, ver, (rest ++ more). by rewrite <- !app_assoc.
Qed.

Lemma choose_password d methods :
  no_credentials d = false → choose_method d methods ≠ SOCKS5_AUTH_METHOD_NOT_ACCEPTABLE →
  choose_method d methods = SOCKS5_AUTH_METHOD_PASSWORD ∧ SOCKS5_AUTH_METHOD_PASSWORD ∈ methods.
Proof. unfold choose_method. intros ->. by case_bool_decide. Qed.

Lemma sent_same (e e' : env) : output e' = output e → drop (length (sent e)) (sent e') = [].
Proof. unfold sent. intros ->. by rewrite drop_all. Qed.

(** An event in a session that is not ready: only a frame does anything. *)
Lemma auth_inv_frame d rc out c nonce frame e ds o s' :
  no_credentials d = false → auth_inv d rc out c → ready (status c) = false → bytes_ok frame →
  recv_frame nonce frame (S5 c e ds) = (o, s') →
  auth_inv d (rc ++ frame) (out ++ drop (length (sent e)) (sent (s5_env s'))) (ctx s').
Proof.
  intros Hcred (Hd & Hok & Hst) Hr Hf Hrun.
  assert (bytes_ok (rc ++ frame)) as Hok' by (by apply Forall_app).
  destruct (status c) eqn:Est; try done; unfold recv_frame in Hrun;
    cbn [mbind M_bind gets ctx] in Hrun; unfold mbind, M_bind, gets in Hrun; cbn [ctx] in Hrun;
    rewrite Est in Hrun; cbn [set_buffer set_ctx modify ctx s5_env datagrams] in Hrun.
  - destruct Hst as (-> & Hu & ->).
    pose proof (init_post (S5 (upd_buffer (buffer c ++ frame) c) e ds) Hok') as Hp.
    apply (after_run _ _ _ _ _ Hrun) in Hp as [Hout Hp]. rewrite (sent_same e _ Hout).
    cbn [ctx] in Hp. destruct Hp as [->|(methods & rest & Hb & Hm & ->)].
    + unfold auth_inv. cbn [upd_buffer status data_ex buffer udp_task_handle]. by rewrite Est.
    + cbn [buffer upd_buffer data_ex] in Hb, Hm. rewrite Hd in Hm. cbn [data_ex upd_buffer].
      apply choose_password in Hm as [Hm Hin]; [|done]. rewrite Hd, Hm.
      unfold auth_inv. cbn. split_and!; [done|done|done|done|]. rewrite Hb. by exists methods.
  - destruct Hst as (-> & Hu & methods & -> & Hin). rewrite <- app_assoc in Hok'.
    assert (bytes_ok (buffer c ++ frame)) as Hb' by (by apply Forall_app in Hok' as [_ ?]).
    pose proof (verification_post (S5 (upd_buffer (buffer c ++ frame) c) e ds) Hb') as Hp.
    apply (after_run _ _ _ _ _ Hrun) in Hp as [Hout Hp]. rewrite (sent_same e _ Hout).
    rewrite <- app_assoc. cbn [ctx] in Hp. destruct Hp as [->|(ver & rest & Hb & ->)].
    + unfold auth_inv. cbn [upd_buffer status data_ex buffer udp_task_handle]. rewrite Est.
      split_and!; try done. by exists methods.
    + cbn [buffer upd_buffer data_ex] in Hb. unfold auth_inv. cbn. split_and!; [done|done|].
      exists methods, ver, rest. by rewrite Hb, Hd.
Qed.

Lemma proxy_message_ignored m c e ds :
  ready (status c) = false → on_recv_proxy_message m (S5 c e ds) = (Ok tt, S5 c e ds).
Proof.
  intros Hr. destruct m; try done; cbn [on_recv_proxy_message];
    unfold on_recv_o2i_connect, on_recv_o2i_recv_data, on_recv_o2i_recv_data_from,
      mbind, M_bind, gets; cbn [ctx]; by destruct (status c).
Qed.

Lemma s5_handle_ready d ev c e ds o s' :
  data_ex c = d → ready (status c) = true → s5_handle ev (S5 c e ds) = (o, s') →
  ready_for d s'.
Proof.
  intros Hd Hr Hrun.
  assert (after (s5_handle ev) (S5 c e ds) (λ _, ready_for d)) as Ha.
  { destruct ev; cbn [s5_handle].
    - by apply ready_frame.
    - by apply ready_proxy_message.
    - by apply ready_datagram.
    - by apply ready_set_tasks. }
  by apply (after_run _ _ _ _ _ Hrun) in Ha.
Qed.

Lemma session_run_inv c0 rc out c :
  no_credentials (data_ex c0) = false → status c0 = Init → buffer c0 = [] →
  udp_task_handle c0 = false →
  session_run c0 rc out c → auth_inv (data_ex c0) rc out c.
Proof.
  intros Hcred H0s H0b H0u. induction 1 as [|rc out c ev e ds o s' _ IH Hev Hrun].
  { unfold auth_inv. rewrite H0s. split_and!; (done || constructor || by rewrite H0b). }
  destruct (ready (status c)) eqn:Hr.
  - destruct IH as (Hd & Hok & Hst).
    destruct (s5_handle_ready _ _ _ _ _ _ _ Hd Hr Hrun) as [Hd' Hr'].
    assert (authenticated (data_ex c0) (rc ++ frame_of ev)).
    { apply authenticated_app. by destruct (status c). }
    assert (bytes_ok (frame_of ev)) by (destruct ev; done || constructor).
    split_and!; [done|by apply Forall_app|]. by destruct (status (ctx s')).
  - destruct ev as [nonce frame|m|amt b|]; cbn [frame_of s5_handle event_ok] in *.
    + by eapply auth_inv_frame.
    + rewrite proxy_message_ignored in Hrun by done. injection Hrun as <- <-.
      cbn [s5_env ctx]. by rewrite drop_all, !app_nil_r.
    + destruct IH as (_ & _ & Hst). destruct (status c); try done; destruct Hst as (_ & Hu & _);
        congruence.
    + injection Hrun as <- <-. cbn [s5_env ctx]. rewrite drop_all, !app_nil_r.
      destruct IH as (Hd & Hok & Hst). unfold auth_inv. cbn.
      destruct (status c); try done; by destruct Hst as (? & ? & ?).
Qed.

(** *** The handshake completes, in whatever pieces its packets arrive *)

Fixpoint recv_frames (nonce : Z) (frames : list bytes) : M s5 unit :=
  match frames with
  | [] => mret tt
  | f :: fs => recv_frame nonce f;; recv_frames nonce fs
  end.

Lemma recv_frames_app nonce fs gs s s1 :
  recv_frames nonce fs s = (Ok tt, s1) → recv_frames nonce (fs ++ gs) s = recv_frames nonce gs s1.
Proof.
  revert s. induction fs as [|f fs IH]; intros s; cbn [recv_frames app].
  - by intros [= ->].
  - unfold mbind, M_bind. destruct (recv_frame nonce f s) as [[[]| | |] s2]; try done. apply IH.
Qed.

Lemma feed_pieces nonce c e ds p s' gs b :
  (∀ b f more, more ≠ [] → b ++ f ++ more = p →
     recv_frame nonce f (S5 (upd_buffer b c) e ds) = (Ok tt, S5 (upd_buffer (b ++ f) c) e ds)) →
  (∀ b f, b ++ f = p → recv_frame nonce f (S5 (upd_buffer b c) e ds) = (Ok tt, s')) →
  Forall (λ g, g ≠ []) gs → gs ≠ [] → b ++ mjoin gs = p →
  recv_frames nonce gs (S5 (upd_buffer b c) e ds) = (Ok tt, s').
Proof.
  intros Hwait Hdone Hne. revert b.
  induction Hne as [|g gs Hg Hgs IH]; intros b Hnil Hp; [done|].
  cbn [recv_frames mjoin list_join] in *. unfold mbind, M_bind.
  destruct gs as [|g' gs].
  - cbn in Hp. rewrite app_nil_r in Hp. by rewrite (Hdone b g).
  - rewrite (Hwait b g (mjoin (g' :: gs))); [|cbn|done].
    + apply IH; [done|]. by rewrite <- app_assoc.
    + apply Forall_cons in Hgs as [Hg' _]. by destruct g'.
Qed.

Lemma frame_buffered nonce f b c e ds :
  recv_frame nonce f (S5 (upd_buffer b c) e ds) =
    match status c with
    | Init => on_socks5_init (S5 (upd_buffer (b ++ f) c) e ds)
    | Verification => on_socks5_verification (S5 (upd_buffer (b ++ f) c) e ds)
    | Connect => on_socks5_connect (S5 (upd_buffer (b ++ f) c) e ds)
    | _ => recv_frame nonce f (S5 (upd_buffer b c) e ds)
    end.
Proof. destruct (status c) eqn:E; try done; unfold recv_frame, mbind, M_bind, gets; cbn; by rewrite E. Qed.

(** The packet [m] is queued for the client. *)
Definition told (h : handle) (ms : list WMsg) (e e' : env) : Prop :=
  writer_open h e' ∧ writer_queue h e' = writer_queue h e ++ ms ∧ output e' = output e.

Lemma write_msg_told m s :
  writer_open (write_msg_tx (ctx s)) (s5_env s) →
  ∃ e', write_msg m s = (Ok tt, S5 (ctx s) e' (datagrams s)) ∧
    told (write_msg_tx (ctx s)) [m] (s5_env s) e'.
Proof.
  intros Ho. destruct (send_writer_open (H := s5_has_env) (write_msg_tx (ctx s)) m s Ho) as (q & Hq & Hs).
  unfold write_msg, mbind, M_bind, gets. rewrite Hs. eexists. split; [done|].
  split; [|split; [|done]].
  - exists (q ++ [m]). cbn. by rewrite lookup_insert_eq.
  - by apply writer_queue_push.
Qed.

Lemma advance_told m p st s :
  writer_open (write_msg_tx (ctx s)) (s5_env s) → buffer (ctx s) = p →
  ∃ e', (write_msg m;; drain (len p);; set_status st) s =
          (Ok tt, S5 (upd_status st (upd_buffer [] (ctx s))) e' (datagrams s)) ∧
    told (write_msg_tx (ctx s)) [m] (s5_env s) e'.
Proof.
  intros Ho Hb. destruct (write_msg_told m s Ho) as (e' & Hw & Ht). exists e'. split; [|done].
  unfold mbind at 1, M_bind at 1. rewrite Hw. unfold mbind, M_bind.
  rewrite drain_eq by (cbn; rewrite Hb; pose proof (len_nonneg p); lia).
  cbn [ctx s5_env datagrams]. rewrite Hb. unfold len. rewrite Nat2Z.id, drop_all. done.
Qed.

Lemma init_wait c b more e ds :
  status c = Init → more ≠ [] → (∃ methods, b ++ more = greeting methods) →
  on_socks5_init (S5 (upd_buffer b c) e ds) = (Ok tt, S5 (upd_buffer b c) e ds).
Proof.
  intros Hst Hm [methods Hb]. unfold on_socks5_init. rewrite gets_bind. cbn [ctx upd_buffer buffer].
  destruct (Z.ltb_spec (len b) 3); [done|].
  destruct b as [|x [|y b]]; [unfold len in *; cbn in *; lia..|].
  injection Hb as -> -> Hb. assert (len b < len methods) as Hlt.
  { rewrite <- Hb, len_app. destruct more; [done|]. rewrite len_cons.
    pose proof (len_nonneg more). lia. }
  change (index (SOCKS5_VERSION :: len methods :: b) 0) with (Ok SOCKS5_VERSION).
  rewrite lift_bind, Z.eqb_refl.
  change (index (SOCKS5_VERSION :: len methods :: b) 1) with (Ok (len methods)).
  rewrite lift_bind, !len_cons.
  destruct (Z.ltb_spec (1 + (1 + len b)) (len methods + 2)); [done|lia].
Qed.

Lemma init_done c methods e ds :
  writer_open (write_msg_tx c) e →
  choose_method (data_ex c) methods ≠ SOCKS5_AUTH_METHOD_NOT_ACCEPTABLE → methods ≠ [] →
  ∃ e', on_socks5_init (S5 (upd_buffer (greeting methods) c) e ds) =
      (Ok tt, S5 (upd_buffer [] (upd_status
         (if choose_method (data_ex c) methods =? SOCKS5_AUTH_METHOD_NONE
          then Connect else Verification) c)) e' ds) ∧
    told (write_msg_tx c) [Send [SOCKS5_VERSION; choose_method (data_ex c) methods] true] e e'.
Proof.
  intros Ho Hm Hne. set (s := S5 (upd_buffer (greeting methods) c) e ds).
  assert (0 < len methods).
  { destruct methods; [done|]. rewrite len_cons. pose proof (len_nonneg methods). lia. }
  destruct (advance_told (Send [SOCKS5_VERSION; choose_method (data_ex c) methods] true)
    (greeting methods) (if choose_method (data_ex c) methods =? SOCKS5_AUTH_METHOD_NONE
          then Connect else Verification) s Ho eq_refl) as (e' & Hrun & Ht).
  exists e'. split; [|done]. etransitivity; [|exact Hrun]. unfold on_socks5_init.
  rewrite gets_bind. change (buffer (ctx s)) with (greeting methods).
  assert (len (greeting methods) = len methods + 2) as Hl by (unfold greeting; rewrite !len_cons; lia).
  destruct (Z.ltb_spec (len (greeting methods)) 3); [lia|].
  change (index (greeting methods) 0) with (Ok SOCKS5_VERSION). rewrite lift_bind, Z.eqb_refl.
  change (index (greeting methods) 1) with (Ok (len methods)). rewrite lift_bind.
  cbv zeta. rewrite <- Hl, Z.ltb_irrefl.
  rewrite (slice_from_app [SOCKS5_VERSION; len methods] methods 2 eq_refl
    : slice (greeting methods) 2 (len (greeting methods)) = Ok methods).
  rewrite lift_bind. change (data_ex (ctx s)) with (data_ex c).
  apply Z.eqb_neq in Hm as ->. done.
Qed.

Lemma index_mid {A} (l r : list A) x i : i = len l → index (l ++ x :: r) i = Ok x.
Proof. intros ->. apply index_lookup. by apply list_lookup_middle. Qed.

Lemma login_fields d ver :
  let b := login_packet d ver in
  let unl := str_len (username d) in let pwl := str_len (password d) in
  index b 0 = Ok ver ∧ index b 1 = Ok unl ∧ index b (2 + unl) = Ok pwl ∧
  slice b 2 (2 + unl) = Ok (as_bytes (username d)) ∧
  slice b (3 + unl) (3 + unl + pwl) = Ok (as_bytes (password d)) ∧ len b = unl + pwl + 3.
Proof.
  cbv zeta. pose proof (len_nonneg (as_bytes (username d))).
  assert (len (login_packet d ver) = str_len (username d) + str_len (password d) + 3) as Hl.
  { unfold login_packet, str_len. rewrite !len_app. unfold len. cbn. lia. }
  split; [done|]. split; [done|]. split.
  { unfold login_packet. rewrite app_assoc. apply index_mid. by rewrite len_app. }
  split; [by apply slice_app_mid|]. split; [|done].
  replace (3 + str_len (username d) + str_len (password d)) with (len (login_packet d ver)) by lia.
  unfold login_packet. rewrite !app_assoc. apply slice_from_app. rewrite !len_app.
  change (len [ver; str_len (username d)]) with 2. change (len [str_len (password d)]) with 1.
  unfold str_len. lia.
Qed.

Lemma login_done d ver c e ds :
  data_ex c = d → no_credentials d = false → writer_open (write_msg_tx c) e →
  ∃ e', on_socks5_verification (S5 (upd_buffer (login_packet d ver) c) e ds) =
      (Ok tt, S5 (upd_buffer [] (upd_status Connect c)) e' ds) ∧
    told (write_msg_tx c) [Send [ver; 0] true] e e'.
Proof.
  intros Hd Hc Ho. set (s := S5 (upd_buffer (login_packet d ver) c) e ds).
  destruct (advance_told (Send [ver; 0] true) (login_packet d ver) Connect s Ho eq_refl)
    as (e' & Hrun & Ht).
  exists e'. split; [|done]. etransitivity; [|exact Hrun].
  destruct (login_fields d ver) as (Hi0 & Hi1 & Hi2 & Hs1 & Hs2 & Hl).
  unfold on_socks5_verification. rewrite gets_bind. change (buffer (ctx s)) with (login_packet d ver).
  assert (1 <= str_len (username d) + str_len (password d)) as Hpos.
  { unfold no_credentials, str_is_empty, str_len in *.
    destruct (username d), (password d); cbn in *; try done; rewrite ?len_cons, ?len_nil;
      repeat match goal with |- context [len (as_bytes ?s)] =>
        pose proof (len_nonneg (as_bytes s)); generalize dependent (len (as_bytes s)); intros end;
      lia. }
  destruct (Z.ltb_spec (len (login_packet d ver)) 4); [lia|].
  rewrite Hi0, lift_bind, Hi1, lift_bind, Hi2, lift_bind. cbv zeta.
  rewrite Hs1, lift_bind, Hs2, lift_bind. change (data_ex (ctx s)) with (data_ex c).
  rewrite Hd, !bool_decide_true by done. cbn [andb]. by rewrite Hl.
Qed.

(** A request to reach [t], [rest] being [t]'s encoding. *)
Definition request (rest : bytes) : bytes := [SOCKS5_VERSION; SOCKS5_CMD_TCP_CONNECT; 0] ++ rest.

Lemma connect_head c atyp p e ds (k : bytes → M s5 unit) :
  (drain 4 ≫= k) (S5 (upd_buffer (request (atyp :: p)) c) e ds) =
  k [SOCKS5_VERSION; SOCKS5_CMD_TCP_CONNECT; 0; atyp] (S5 (upd_buffer p c) e ds).
Proof.
  apply bind_ok. rewrite drain_eq; [done|]. cbn [ctx upd_buffer buffer]. unfold request.
  pose proof (len_nonneg p). cbn [app]. rewrite !len_cons. lia.
Qed.

(** The request once its head is off the buffer. *)
Lemma connect_request c atyp p e ds :
  5 <= len (atyp :: p) →
  on_socks5_connect (S5 (upd_buffer (request (atyp :: p)) c) e ds) =
  (addr_result ← lift (read_address p atyp);
   match addr_result with
   | Some (t, _) =>
       send_output (connect_message (upd_buffer p c) t true);;
       set_ctx (upd_target (Some t));;
       set_buffer [];;
       set_status (Connecting true)
   | None => set_buffer (request (atyp :: p))
   end) (S5 (upd_buffer p c) e ds).
Proof.
  intros Hl. unfold on_socks5_connect. rewrite gets_bind. cbn [ctx upd_buffer buffer].
  destruct (Z.ltb_spec (len (request (atyp :: p))) 8) as [Hlt|_].
  { unfold request in Hlt. cbn [app] in Hlt. rewrite !len_cons in *. lia. }
  rewrite connect_head. cbv beta.
  change (index [SOCKS5_VERSION; SOCKS5_CMD_TCP_CONNECT; 0; atyp] 0) with (Ok SOCKS5_VERSION).
  change (index [SOCKS5_VERSION; SOCKS5_CMD_TCP_CONNECT; 0; atyp] 1)
    with (Ok SOCKS5_CMD_TCP_CONNECT).
  change (index [SOCKS5_VERSION; SOCKS5_CMD_TCP_CONNECT; 0; atyp] 2) with (Ok 0).
  change (index [SOCKS5_VERSION; SOCKS5_CMD_TCP_CONNECT; 0; atyp] 3) with (Ok atyp).
  rewrite !lift_bind. cbv zeta. rewrite !Z.eqb_refl. cbn [negb orb andb]. rewrite gets_bind.
  cbn [ctx upd_buffer buffer]. unfold mbind, M_bind, lift.
  by destruct (read_address p atyp) as [[[t n]|]| | |].
Qed.

Lemma connect_wait c b more atyp rest t e ds :
  bytes_ok b → more ≠ [] → b ++ more = request (atyp :: rest) →
  read_address rest atyp = Ok (Some (t, len rest)) →
  on_socks5_connect (S5 (upd_buffer b c) e ds) = (Ok tt, S5 (upd_buffer b c) e ds).
Proof.
  intros Hok Hm Hb Hr.
  destruct (Z.ltb_spec (len b) 8) as [Hlt|Hge].
  { unfold on_socks5_connect. rewrite gets_bind. cbn [ctx upd_buffer buffer].
    by destruct (Z.ltb_spec (len b) 8); [|lia]. }
  destruct b as [|x0 [|x1 [|x2 [|x3 p]]]]; [unfold len in *; cbn in *; lia..|].
  injection Hb as -> -> -> -> Hb. rewrite !len_cons in Hge.
  change (SOCKS5_VERSION :: SOCKS5_CMD_TCP_CONNECT :: 0 :: atyp :: p) with (request (atyp :: p)).
  rewrite connect_request by (rewrite len_cons; lia).
  rewrite (read_address_prefix p more atyp t); [done| |..|by subst]; [|intros ->; cbn in Hge|done].
  - by do 4 apply Forall_inv_tail in Hok.
  - unfold len in Hge. cbn in Hge. lia.
Qed.

Lemma connect_done c atyp rest t e ds :
  5 <= len (atyp :: rest) → read_address rest atyp = Ok (Some (t, len rest)) →
  chan_open (output e) = true →
  on_socks5_connect (S5 (upd_buffer (request (atyp :: rest)) c) e ds) =
    (Ok tt, S5 (upd_status (Connecting true) (upd_buffer [] (upd_target (Some t) c)))
       (set_output (Chan true (sent e ++ [connect_message c t true])) e) ds).
Proof.
  intros Hl Hr Ho. rewrite connect_request, Hr, lift_bind by done.
  erewrite bind_ok; [|by apply (send_output_open (H := s5_has_env))]. done.
Qed.

Lemma told_trans h ms ms' e1 e2 e3 :
  told h ms e1 e2 → told h ms' e2 e3 → told h (ms ++ ms') e1 e3.
Proof.
  intros (_ & Hq & Ho) (Ho' & Hq' & Hout). split; [done|]. split; [|congruence].
  by rewrite Hq', Hq, <- app_assoc.
Qed.

Lemma greeting_phase nonce c gs methods e ds :
  status c = Init → writer_open (write_msg_tx c) e → methods ≠ [] →
  choose_method (data_ex c) methods ≠ SOCKS5_AUTH_METHOD_NOT_ACCEPTABLE →
  Forall (λ g, g ≠ []) gs → mjoin gs = greeting methods →
  ∃ e', recv_frames nonce gs (S5 (upd_buffer [] c) e ds) =
      (Ok tt, S5 (upd_buffer [] (upd_status
         (if choose_method (data_ex c) methods =? SOCKS5_AUTH_METHOD_NONE
          then Connect else Verification) c)) e' ds) ∧
    told (write_msg_tx c) [Send [SOCKS5_VERSION; choose_method (data_ex c) methods] true] e e'.
Proof.
  intros Hst Ho Hne Hm Hgs Hg. destruct (init_done c methods e ds Ho Hm Hne) as (e' & Hd & Ht).
  exists e'. split; [|done]. apply (feed_pieces nonce c e ds (greeting methods)); [| |done| |done].
  - intros b f more Hmore Hb. rewrite frame_buffered, Hst. apply (init_wait _ _ more); [done..|].
    exists methods. by rewrite <- app_assoc.
  - intros b f Hb. by rewrite frame_buffered, Hst, Hb.
  - intros ->. done.
Qed.

Lemma request_phase nonce c rs t atyp rest e ds :
  status c = Connect → chan_open (output e) = true →
  target_ok t → 0 < str_len (match t with Domain host _ => host | _ => "ip" end) →
  to_be_bytes t = Ok (atyp :: rest) →
  Forall (λ g, g ≠ []) rs → mjoin rs = request (atyp :: rest) →
  recv_frames nonce rs (S5 (upd_buffer [] c) e ds) =
    (Ok tt, S5 (upd_status (Connecting true) (upd_buffer [] (upd_target (Some (wire_form t)) c)))
       (set_output (Chan true (sent e ++ [connect_message c (wire_form t) true])) e) ds).
Proof.
  intros Hst Ho Ht Hdom Hw Hrs Hr.
  assert (Hra := read_address_encoded t atyp rest [] Ht Hw). rewrite app_nil_r in Hra.
  assert (5 <= len (atyp :: rest)) as Hlen.
  { destruct t as [[ip p|ip p f sc]|host p]; cbn [to_be_bytes] in Hw.
    - injection Hw as <- <-. destruct ip. unfold len. cbn. lia.
    - destruct Ht as (_ & Hip & _). injection Hw as <- <-. rewrite len_cons, len_app.
      unfold len. cbn. lia.
    - case_match; [done|]. injection Hw as <- <-. unfold str_len in *.
      rewrite !len_cons, len_app. change (len (be16 p)) with 2. lia. }
  assert (bytes_ok (request (atyp :: rest))) as Hok.
  { apply Forall_app. split; [repeat constructor; unfold in_u8, SOCKS5_VERSION,
      SOCKS5_CMD_TCP_CONNECT; lia|]. by eapply to_be_bytes_ok. }
  apply (feed_pieces nonce c e ds (request (atyp :: rest))); [| |done| |done].
  - intros b f more Hmore Hb. rewrite frame_buffered, Hst. rewrite app_assoc in Hb.
    apply (connect_wait _ _ more atyp rest (wire_form t)); [|done..].
    rewrite <- Hb in Hok. by apply Forall_app in Hok as [? _].
  - intros b f Hb. rewrite frame_buffered, Hst, Hb. by apply connect_done.
  - intros ->. done.
Qed.

(** A request for the empty domain is seven bytes long, one less than the
    inlet waits for. *)
Definition domain_is_empty (t : TargetAddr) : bool :=
  match t with Domain host _ => str_is_empty host | Ip _ => false end.

Lemma short_request_waits nonce c rs b e ds :
  status c = Connect → len (b ++ mjoin rs) < 8 →
  recv_frames nonce rs (S5 (upd_buffer b c) e ds) = (Ok tt, S5 (upd_buffer (b ++ mjoin rs) c) e ds).
Proof.
  intros Hst. revert b. induction rs as [|f rs IH]; intros b Hl; [cbn; by rewrite app_nil_r|].
  change (mjoin (f :: rs)) with (f ++ mjoin rs) in *. rewrite app_assoc in Hl |- *. cbn [recv_frames].
  erewrite bind_ok; [by apply IH|]. rewrite frame_buffered, Hst. unfold on_socks5_connect.
  rewrite gets_bind. cbn [ctx buffer upd_buffer].
  destruct (Z.ltb_spec (len (b ++ f)) 8); [done|]. rewrite len_app in Hl. pose proof (len_nonneg (mjoin rs)). lia.
Qed.

Lemma empty_domain_request t atyp rest :
  domain_is_empty t = true → to_be_bytes t = Ok (atyp :: rest) → len (request (atyp :: rest)) = 7.
Proof.
  destruct t as [|host p]; [done|]. cbn [domain_is_empty]. intros Hh.
  assert (host = ""%string) as -> by (by destruct host). cbn. by intros [= <- <-].
Qed.

(** *** The login packet's length, as its own fields give it *)

Definition login_len (b : bytes) : Z :=
  let unl := default 0 (b !! 1%nat) in
  3 + unl + default 0 (b !! Z.to_nat (2 + unl)).

Lemma bytes_ok_lookup b i x : bytes_ok b → b !! i = Some x → in_u8 x.
Proof. intros Hok Hx. by eapply Forall_lookup_1 in Hok. Qed.

Lemma verification_panic_iff s :
  writer_open (write_msg_tx (ctx s)) (s5_env s) → bytes_ok (buffer (ctx s)) →
  is_panic (fst (on_socks5_verification s)) = true ↔
  4 <= len (buffer (ctx s)) < login_len (buffer (ctx s)).
Proof.
  intros Ho Hok. unfold on_socks5_verification. rewrite gets_bind.
  set (b := buffer (ctx s)) in *.
  destruct (Z.ltb_spec (len b) 4); [split; [done|lia]|].
  destruct (index_ok b 0) as (ver & -> & _); [lia|]. rewrite lift_bind.
  destruct (index_ok b 1) as (unl & -> & Hunl); [lia|]. rewrite lift_bind.
  pose proof (bytes_ok_lookup _ _ _ Hok Hunl) as Hu. unfold in_u8 in Hu.
  unfold login_len. change (Z.to_nat 1) with 1%nat in Hunl. rewrite Hunl. cbn [default from_option id].
  destruct (Z.le_gt_cases (len b) (2 + unl)).
  { assert (is_panic (index b (2 + unl)) = true) by by apply index_oob.
    destruct (index b (2 + unl)) eqn:E; try done. unfold mbind, M_bind, lift. cbn. split; [|done].
    intros _. rewrite lookup_ge_None_2 by (unfold len in *; lia). cbn. lia. }
  destruct (index_ok b (2 + unl)) as (pwl & -> & Hpwl); [lia|]. rewrite lift_bind, Hpwl.
  pose proof (bytes_ok_lookup _ _ _ Hok Hpwl) as Hp. unfold in_u8 in Hp. cbn [default from_option id].
  cbv zeta. rewrite (slice_ok b 2 (2 + unl)), lift_bind by lia.
  destruct (Z.ltb_spec (len b) (3 + unl + pwl)).
  { unfold slice. destruct (Z.ltb_spec (3 + unl + pwl) (3 + unl)); [lia|].
    destruct (Z.ltb_spec (len b) (3 + unl + pwl)); [|lia]. split; [intros _; lia|done]. }
  rewrite (slice_ok b (3 + unl) (3 + unl + pwl)), lift_bind by lia. split; [|lia].
  destruct (_ && _).
  - destruct (write_msg_told (Send [ver; 0] true) s Ho) as (e' & Hw & _).
    rewrite (bind_ok _ _ _ _ _ Hw). erewrite bind_ok; [done|]. apply drain_eq. cbn [ctx].
    subst b. lia.
  - destruct (write_msg_told (Send [ver; 1] true) s Ho) as (e' & Hw & Ho' & _).
    rewrite (bind_ok _ _ _ _ _ Hw).
    by destruct (write_msg_told (CloseDelayed 1000) (S5 (ctx s) e' (datagrams s)) Ho')
      as (e2 & -> & _).
Qed.

(** *** The UDP relay *)





End Socks5Facts.

(** ** Properties *)

Section Socks5Properties.
Context `{Lz4} `{SimplestCrypt} `{Base64} `{UdpOs}.

(** C10: No traffic before authentication. When an inlet has credentials, then
    whatever a client sends, in whatever frames, and whatever else happens in
    the process meanwhile, its session sends nothing out and does not leave the
    handshake unless the bytes it received begin with a greeting that offers
    the password method followed by a login packet holding exactly the
    configured username and password. *)
Theorem socks5_authenticates h sid a d info rc out c :
  no_credentials d = false →
  session_run (socks5_new h sid a d info) rc out c →
  (out ≠ [] ∨ (status c ≠ Init ∧ status c ≠ Verification)) →
  authenticated d rc.
Proof.
  intros Hcred Hrun Hpast.
  destruct (session_run_inv (socks5_new h sid a d info) _ _ _ Hcred eq_refl eq_refl eq_refl Hrun) as (_ & _ & Hst).
  destruct (status c) eqn:E; try done.
  - destruct Hst as [-> _]. by destruct Hpast as [?|[? ?]].
  - destruct Hst as [-> _]. by destruct Hpast as [?|[? ?]].
Qed.

(** Greeting and login: the client is then asked for its request. *)
Lemma authentication_phase nonce h sid a d info e ds methods gs ver :
  let m := if no_credentials d then SOCKS5_AUTH_METHOD_NONE else SOCKS5_AUTH_METHOD_PASSWORD in
  let c0 := socks5_new h sid a d info in
  m ∈ methods → Forall (λ g, g ≠ []) gs → mjoin gs = greeting methods → writer_open h e →
  ∃ e', recv_frames nonce (gs ++ if no_credentials d then [] else [login_packet d ver]) (S5 c0 e ds) =
      (Ok tt, S5 (upd_buffer [] (upd_status Connect c0)) e' ds) ∧
    told h ([Send [SOCKS5_VERSION; m] true] ++
      (if no_credentials d then [] else [Send [ver; 0] true])) e e'.
Proof.
  intros m c0 Hin Hgs Hg Ho.
  assert (choose_method d methods = m) as Hm.
  { unfold choose_method, m in *. destruct (no_credentials d); by rewrite bool_decide_true. }
  assert (methods ≠ []) as Hne by (intros ->; by apply not_elem_of_nil in Hin).
  destruct (greeting_phase nonce c0 gs methods e ds) as (e1 & Hr1 & Ht1); [done..| |done|done|].
  { change (data_ex c0) with d. rewrite Hm. unfold m. by destruct (no_credentials d). }
  change (data_ex c0) with d in Hr1, Ht1. rewrite Hm in Hr1, Ht1.
  rewrite (recv_frames_app _ _ _ _ _ Hr1). subst m. destruct (no_credentials d) eqn:Hcred.
  - exists e1. split; [done|]. by rewrite app_nil_r.
  - destruct (login_done d ver (upd_status Verification c0) e1 ds) as (e2 & Hr2 & Ht2);
      [done..|by destruct Ht1|].
    exists e2. split; [|exact (told_trans _ _ _ _ _ _ Ht1 Ht2)].
    cbn [recv_frames]. erewrite bind_ok; [done|]. rewrite frame_buffered. exact Hr2.
Qed.

(** C11: The handshake. A client that offers the method the inlet requires,
    logs in where credentials are configured, in one frame (a login in pieces
    is another matter), and asks to connect to any target the wire format can
    carry is answered at each step, and exactly one connection request for that
    target goes out; the greeting and the request may arrive in any number of
    pieces. The one exception is a domain name of no bytes, which the wire
    format can carry: its request is too short for the inlet, which keeps it,
    waits for more and neither answers nor passes it on. *)
Theorem socks5_handshake nonce h sid a d info e ds methods gs ver t atyp rest rs :
  let m := if no_credentials d then SOCKS5_AUTH_METHOD_NONE else SOCKS5_AUTH_METHOD_PASSWORD in
  let logins := if no_credentials d then [] else [login_packet d ver] in
  let c0 := socks5_new h sid a d info in
  m ∈ methods → Forall (λ g, g ≠ []) gs → mjoin gs = greeting methods →
  target_ok t → to_be_bytes t = Ok (atyp :: rest) →
  Forall (λ r, r ≠ []) rs → mjoin rs = request (atyp :: rest) →
  writer_open h e → chan_open (output e) = true →
  ∃ c e',
    recv_frames nonce (gs ++ logins ++ rs) (S5 c0 e ds) = (Ok tt, S5 c e' ds) ∧
    writer_queue h e' = writer_queue h e ++ [Send [SOCKS5_VERSION; m] true] ++
      (if no_credentials d then [] else [Send [ver; 0] true]) ∧
    if domain_is_empty t
    then status c = Connect ∧ buffer c = mjoin rs ∧ sent e' = sent e
    else status c = Connecting true ∧ target_addr c = Some (wire_form t) ∧ buffer c = [] ∧
         sent e' = sent e ++ [connect_message c0 (wire_form t) true].
Proof.
  intros m logins c0 Hin Hgs Hg Ht Hw Hrs Hr Ho Hopen.
  destruct (authentication_phase nonce h sid a d info e ds methods gs ver Hin Hgs Hg Ho)
    as (e1 & Hr1 & Ho1 & Hq1 & Hout1).
  rewrite app_assoc. rewrite (recv_frames_app _ _ _ _ _ Hr1).
  destruct (domain_is_empty t) eqn:Hdom.
  - eexists _, _. split.
    { apply short_request_waits; [done|]. cbn [app]. rewrite Hr.
      rewrite (empty_domain_request t) by done. lia. }
    split; [done|]. split; [done|]. split; [done|]. unfold sent. by rewrite Hout1.
  - eexists _, _. split.
    { apply (request_phase nonce (upd_status Connect c0) rs t atyp rest); try done; [by rewrite Hout1|].
      destruct t as [|[] ?]; try done. }
    split; [done|]. repeat split. unfold sent at 1. cbn. unfold sent. by rewrite Hout1.
Qed.

(** C37: A login packet in several pieces. With [b] the bytes of the login
    received so far, the session panics exactly when there are four of them or
    more but the packet they begin is not complete. *)
Theorem verification_panics nonce frame s :
  status (ctx s) = Verification → writer_open (write_msg_tx (ctx s)) (s5_env s) →
  let b := buffer (ctx s) ++ frame in
  bytes_ok b →
  is_panic (fst (recv_frame nonce frame s)) = true ↔ 4 <= len b < login_len b.
Proof.
  intros Hst Ho b Hok. unfold recv_frame. rewrite gets_bind, Hst.
  unfold set_buffer at 1, set_ctx at 1. erewrite bind_ok by done.
  apply verification_panic_iff; [done|]. exact Hok.
Qed.

End Socks5Properties.

(** ** Concrete runs *)

Module Socks5Concrete.
Definition udp_os : UdpOs := {|
  udp_bind_any := Ok 7; udp_connect := λ _ _, Ok tt; udp_connect_host := λ _ _, Ok tt;
  udp_local_port := λ _, Ok 1080; udp_send := λ _ _, Ok tt |}.
#[export] Existing Instance udp_os.

Definition info : SessionCommonInfo :=
  {| is_compressed := true; encryption_method := MXor; encryption_key := [7; 9]; read_buf_len := 1 |}.
Definition creds : InletDataEx := {| username := "u"; password := "p" |}.
Definition client : SocketAddr := V4 (Ipv4 10 0 0 1) 5000.
Definition shared : env := Env ∅ {[ 2 := chan_new ]} ∅ chan_new 3.
Definition fresh : Socks5Context := socks5_new 2 9 client creds info.
End Socks5Concrete.

Section Socks5Witnesses.
Import Concrete Socks5Concrete.

Lemma socks5_authenticates_witness :
  authenticated creds ([5; 1; 2] ++ [1; 1; 117; 1; 112]).
Proof.
  pose (step c f := s5_handle (H := lz4) (H0 := simplestcrypt) (H1 := base64) (H2 := udp_os)
    (Frame 0 f) (S5 c shared [])).
  refine (socks5_authenticates (H := lz4) (H0 := simplestcrypt) (H1 := base64) (H2 := udp_os)
    2 9 client creds info ([5; 1; 2] ++ [1; 1; 117; 1; 112]) [] (upd_status Connect fresh)
    eq_refl _ _).
  - refine (run_event fresh [5; 1; 2] [] (upd_status Verification fresh)
      (Frame 0 [1; 1; 117; 1; 112]) shared [] (Ok tt)
      (snd (step (upd_status Verification fresh) [1; 1; 117; 1; 112])) _ _ _).
    + refine (run_event fresh [] [] fresh (Frame 0 [5; 1; 2]) shared [] (Ok tt)
        (snd (step fresh [5; 1; 2])) _ _ _).
      * apply run_new.
      * repeat constructor; unfold in_u8; lia.
      * reflexivity.
    + repeat constructor; unfold in_u8; lia.
    + reflexivity.
  - right. split; discriminate.
Defined.

Lemma socks5_handshake_witness : ∃ c e',
  recv_frames (H := lz4) (H0 := simplestcrypt) (H1 := base64) 0
    ([[5; 1]; [2]] ++ [[1; 1; 117; 1; 112]] ++ [[5; 1; 0; 3; 2]; [97; 98; 0; 80]])
    (S5 fresh shared []) = (Ok tt, S5 c e' []) ∧
  writer_queue 2 e' = [] ++ [Send [5; 2] true] ++ [Send [1; 0] true] ∧
  status c = Connecting true ∧ target_addr c = Some (Domain "ab" 80) ∧ buffer c = [] ∧
  sent e' = [] ++ [connect_message fresh (Domain "ab" 80) true].
Proof.
  refine (socks5_handshake (H := lz4) (H0 := simplestcrypt) (H1 := base64) 0 2 9 client creds info
    shared [] [2] [[5; 1]; [2]] 1 (Domain "ab" 80) 3 [2; 97; 98; 0; 80]
    [[5; 1; 0; 3; 2]; [97; 98; 0; 80]] _ _ _ _ _ _ _ _ _).
  - apply list_elem_of_here.
  - repeat constructor; discriminate.
  - reflexivity.
  - split; [reflexivity|]. unfold in_u16. lia.
  - reflexivity.
  - repeat constructor; discriminate.
  - reflexivity.
  - exists []. reflexivity.
  - reflexivity.
Defined.

(** The login [[1; 255; 0; 0]] claims a user name of 255 bytes. *)
Lemma verification_panics_witness :
  is_panic (fst (recv_frame (H := lz4) (H0 := simplestcrypt) (H1 := base64) 0 [255; 0; 0]
    (S5 (upd_status Verification (upd_buffer [1] fresh)) shared []))) = true.
Proof.
  apply (verification_panics (H := lz4) (H0 := simplestcrypt) (H1 := base64) 0 [255; 0; 0]
    (S5 (upd_status Verification (upd_buffer [1] fresh)) shared [])).
  - reflexivity.
  - exists []. reflexivity.
  - repeat constructor; unfold in_u8; lia.
  - split; [discriminate|reflexivity].
Defined.

End Socks5Witnesses.
