(* ===== verification/Inlet.v ===== *)
(** [np_base/src/proxy/inlet.rs]: the listening end of a tunnel: its sessions,
    the messages it takes from the outlet, its start and stop. *)

From S2P Require Import Prelude Std Extern Crypto Net Proxy Common TargetAddr Socks5.

(** ** State *)

(** [SessionInfo]: the entry of a session in the map the inlet's tasks share. *)
Record SessionInfo := {
  si_proxy_message_tx : option handle;
  si_write_msg_tx : handle;
  si_common_info : SessionCommonInfo
}.

(** What the inlet's tasks share; [contexts] holds the SOCKS5 contexts behind
    their [Arc<RwLock<_>>]. *)
Record inlet_world := InletWorld {
  iw_env : env;
  session_info_map : gmap u32 SessionInfo;
  contexts : gmap handle Socks5Context;
  iw_datagrams : list bytes
}.

#[export] Instance inlet_world_has_env : HasEnv inlet_world.
Proof.
  refine {| env_of := iw_env;
            set_env := λ e w, InletWorld e (session_info_map w) (contexts w) (iw_datagrams w) |};
    [done| |done]. by intros [].
Defined.

Definition set_sessions (f : gmap u32 SessionInfo → gmap u32 SessionInfo) (w : inlet_world)
    : inlet_world :=
  InletWorld (iw_env w) (f (session_info_map w)) (contexts w) (iw_datagrams w).
Definition set_contexts (f : gmap handle Socks5Context → gmap handle Socks5Context)
    (w : inlet_world) : inlet_world :=
  InletWorld (iw_env w) (session_info_map w) (f (contexts w)) (iw_datagrams w).

(** [InletSession]; its output is the shared output channel. *)
Record InletSession := {
  inlet_proxy_type : InletProxyType;
  output_addr : string;
  in_session_id : u32;
  in_common_data : SessionCommonInfo;
  socks5context : option handle;
  in_data_ex : InletDataEx
}.

(** A session's delegate with what it can reach; [i_nonce] numbers the random
    nonces its encryptions draw. *)
Record inlet_delegate := InletD {
  i_self : InletSession;
  i_world : inlet_world;
  i_nonce : Z
}.

#[export] Instance inlet_delegate_has_env : HasEnv inlet_delegate.
Proof.
  refine {| env_of := λ d, iw_env (i_world d);
            set_env := λ e d, InletD (i_self d) (set_env e (i_world d)) (i_nonce d) |};
    [done| |done]. by intros [? [] ?].
Defined.

Definition in_world {A} (m : M inlet_world A) : M inlet_delegate A := λ d,
  let '(o, w) := m (i_world d) in (o, InletD (i_self d) w (i_nonce d)).

Definition next_nonce : M inlet_delegate Z := λ d,
  (Ok (i_nonce d), InletD (i_self d) (i_world d) (i_nonce d + 1)).

Definition set_in_session (id : u32) : M inlet_delegate unit := modify (λ d,
  let s := i_self d in
  InletD {| inlet_proxy_type := inlet_proxy_type s; output_addr := output_addr s;
            in_session_id := id; in_common_data := in_common_data s;
            socks5context := socks5context s; in_data_ex := in_data_ex s |}
    (i_world d) (i_nonce d)).

Definition set_socks5context (h : option handle) : M inlet_delegate unit := modify (λ d,
  let s := i_self d in
  InletD {| inlet_proxy_type := inlet_proxy_type s; output_addr := output_addr s;
            in_session_id := in_session_id s; in_common_data := in_common_data s;
            socks5context := h; in_data_ex := in_data_ex s |}
    (i_world d) (i_nonce d)).

(** [context.write().await], then a call on the context. *)
Definition with_context {A} (h : handle) (m : M s5 A) : M inlet_world A := λ w,
  match contexts w !! h with
  | None => (Panic "no such context", w)
  | Some c =>
      let '(o, s) := m (S5 c (iw_env w) (iw_datagrams w)) in
      (o, InletWorld (s5_env s) (session_info_map w) (<[h := ctx s]> (contexts w)) (datagrams s))
  end.

Definition new_context (c : Socks5Context) : M inlet_world handle := λ w,
  let h := next_handle (iw_env w) in
  (Ok h, InletWorld (bump (iw_env w)) (session_info_map w) (<[h := c]> (contexts w))
           (iw_datagrams w)).

Section Inlet.
Context `{Lz4} `{SimplestCrypt} `{Base64} `{Rng} `{UdpOs}.

(** ** InletSession *)

(** [InletSession::new]; [r] is the generator of the session's key. *)
Definition inlet_session_new (t : InletProxyType) (output_addr : string) (is_compressed : bool)
    (encryption_method : string) (data_ex : InletDataEx) (r : rng) : M inlet_world InletSession :=
  info ← info_from_method_name is_compressed encryption_method r;
  mret {| inlet_proxy_type := t; output_addr := output_addr; in_session_id := 0;
          in_common_data := info; socks5context := None; in_data_ex := data_ex |}.

Definition insert_session (id : u32) (i : SessionInfo) : M inlet_world unit :=
  modify (set_sessions <[id := i]>).

(** The request that announces a session of a plain tunnel. *)
Definition inlet_connect_message (s : InletSession) (id : u32) (addr : SocketAddr)
    : ProxyMessage :=
  let info := in_common_data s in
  I2oConnect id (to_u8 (inlet_proxy_type s)) (is_tcp (inlet_proxy_type s)) (is_compressed info)
    (output_addr s) (method_to_string (encryption_method info))
    (base64_encode (encryption_key info)) (show_addr addr).

Definition inlet_on_session_start (id : u32) (addr : SocketAddr) (write_msg_tx : handle)
    : M inlet_delegate unit :=
  set_in_session id;;
  s ← gets i_self;
  if is_socks5 (inlet_proxy_type s) then
    tx ← in_world new_proxy_chan;
    c ← in_world (new_context (socks5_new write_msg_tx id addr (in_data_ex s) (in_common_data s)));
    set_socks5context (Some c);;
    in_world (insert_session id
      {| si_proxy_message_tx := Some tx; si_write_msg_tx := write_msg_tx;
         si_common_info := in_common_data s |})
  else
    in_world (insert_session id
      {| si_proxy_message_tx := None; si_write_msg_tx := write_msg_tx;
         si_common_info := in_common_data s |});;
    send_output (inlet_connect_message s id addr).

Definition inlet_on_session_close : M inlet_delegate unit :=
  s ← gets i_self;
  in_world (modify (set_sessions (delete (in_session_id s))));;
  send_output (I2oDisconnect (in_session_id s));;
  match socks5context s with
  | Some c => set_socks5context None;; in_world (with_context c on_destroy)
  | None => mret tt
  end.

Definition inlet_on_recv_frame (frame : bytes) : M inlet_delegate unit :=
  s ← gets i_self;
  nonce ← next_nonce;
  match socks5context s with
  | Some c => in_world (with_context c (recv_frame nonce frame))
  | None =>
      frame ← encode_data_and_limiting nonce (in_common_data s) frame;
      send_output (I2oSendData (in_session_id s) frame)
  end.

#[export] Instance InletSession_delegate : SessionDelegate inlet_delegate := {|
  on_session_start := inlet_on_session_start;
  on_session_close := inlet_on_session_close;
  on_try_extract_frame := default_try_extract_frame;
  on_recv_frame := inlet_on_recv_frame;
  on_recv_frame_from := default_recv_frame_from
|}.

(** A turn of the task [Socks5Context::new] spawns: the context handles the next
    message of its channel. *)
Definition socks5_task_step (tx context : handle) : M inlet_world unit := λ w,
  match proxy_chans (iw_env w) !! tx with
  | Some (Chan o (m :: ms)) =>
      ignore (with_context context (on_recv_proxy_message m))
        (set_env (set_proxy_chans <[tx := Chan o ms]> (iw_env w)) w)
  | _ => (Pending, w)
  end.

(** ** Messages from the outlet *)

(** [session_info_map.read().await.get(&session_id)] *)
Definition get_session (id : u32) : M inlet_world (option SessionInfo) :=
  gets (λ w, session_info_map w !! id).

Definition inlet_input_internal (message : ProxyMessage) : M inlet_world unit :=
  match message with
  | O2iConnect id success error_msg =>
      session ← get_session id;
      match session with
      | Some session =>
          match si_proxy_message_tx session with
          | Some tx => send_proxy tx (O2iConnect id success error_msg)
          | None => when (negb success) (send_writer (si_write_msg_tx session) Close)
          end
      | None => mret tt
      end
  | O2iDisconnect id =>
      session ← get_session id;
      match session with
      | Some session => send_writer (si_write_msg_tx session) Close
      | None => mret tt
      end
  | O2iSendDataResult id data_len =>
      session ← get_session id;
      match session with
      | Some session => release (read_buf_len (si_common_info session)) data_len
      | None => mret tt
      end
  | O2iRecvDataFrom id data remote_addr =>
      session ← get_session id;
      match session with
      | Some session =>
          match si_proxy_message_tx session with
          | Some tx => send_proxy tx (O2iRecvDataFrom id data remote_addr)
          | None => lift (Panic "Faulty logic")
          end
      | None => mret tt
      end
  | O2iRecvData id data =>
      session ← get_session id;
      match session with
      | Some session =>
          match si_proxy_message_tx session with
          | Some tx => send_proxy tx (O2iRecvData id data)
          | None =>
              let data_len := len data in
              data ← lift (decode_data (si_common_info session) data);
              send_writer (si_write_msg_tx session)
                (SendAndThen data (I2oRecvDataResult id data_len))
          end
      | None => mret tt
      end
  | _ => bail "Unknown message"
  end.

(** [async_receive_input] on the messages received so far: an error is logged. *)
Fixpoint inlet_receive_input (messages : list ProxyMessage) : M inlet_world unit :=
  match messages with
  | [] => mret tt
  | m :: ms => ignore (inlet_input_internal m);; inlet_receive_input ms
  end.
End Inlet.

(** ** The inlet itself *)

Class InletOs := {
  tcp_listener_bind : string → outcome unit;
  udp_socket_bind : string → outcome unit
}.

(** What the session delegates of a started inlet are made from. *)
Record InletConfig := {
  cfg_type : InletProxyType;
  cfg_output_addr : string;
  cfg_is_compressed : bool;
  cfg_encryption_method : string;
  cfg_data_ex : InletDataEx
}.

(** [in_server]: the task [start] spawned, while it runs. *)
Record Inlet := {
  is_running : bool;
  in_input : option handle;
  in_server : option InletConfig;
  in_state : inlet_world
}.

Definition inlet_new : Inlet :=
  {| is_running := false; in_input := None; in_server := None;
     in_state := InletWorld env0 ∅ ∅ [] |}.

Definition in_shared {A} (m : M inlet_world A) : M Inlet A := λ i,
  let '(o, w) := m (in_state i) in
  (o, {| is_running := is_running i; in_input := in_input i; in_server := in_server i;
         in_state := w |}).
Definition set_running (b : bool) : M Inlet unit := modify (λ i,
  {| is_running := b; in_input := in_input i; in_server := in_server i; in_state := in_state i |}).
Definition set_input (h : option handle) : M Inlet unit := modify (λ i,
  {| is_running := is_running i; in_input := h; in_server := in_server i; in_state := in_state i |}).
Definition set_server (c : option InletConfig) : M Inlet unit := modify (λ i,
  {| is_running := is_running i; in_input := in_input i; in_server := c; in_state := in_state i |}).

Section InletControl.
Context `{InletOs}.

Definition bind_listener (t : InletProxyType) (listen_addr : string) : outcome unit :=
  match t with
  | TCP | SOCKS5 => tcp_listener_bind listen_addr
  | UDP => udp_socket_bind listen_addr
  end.

Definition inlet_start (c : InletConfig) (listen_addr : string) : M Inlet unit :=
  running ← gets is_running;
  if (running : bool) then bail "Repeated start"
  else
    input_tx ← in_shared new_proxy_chan;
    in_shared (modify (λ w, set_env (set_output chan_new (iw_env w)) w));;
    set_input (Some input_tx);;
    set_running true;;
    lift (bind_listener (cfg_type c) listen_addr);;
    set_server (Some c).

(** [Inlet::input] *)
Definition inlet_input (m : ProxyMessage) : M Inlet unit :=
  input ← gets in_input;
  match input with
  | Some tx => ignore (in_shared (send_proxy tx m))
  | None => mret tt
  end.

(** [Inlet::stop]: awaits the end of the server task. *)
Definition inlet_stop : M Inlet unit :=
  set_input None;;
  running ← gets is_running;
  if (running : bool) then lift Pending
  else in_shared (modify (set_sessions (λ _, ∅))).

(** The server task has ended (its input channel is closed, or its output). *)
Definition server_exit : M Inlet unit :=
  server ← gets in_server;
  match server with
  | Some _ => set_running false;; set_server None
  | None => lift Pending
  end.
End InletControl.

(** ** Facts *)

Section InletFacts.
Context `{Lz4} `{SimplestCrypt} `{Base64} `{Rng} `{UdpOs}.
Implicit Types (w : inlet_world) (d : inlet_delegate) (id : u32).

(** What a message may change: the channels and the counter of its session. *)
Definition touches_only (s : option SessionInfo) w w' : Prop :=
  session_info_map w' = session_info_map w ∧ contexts w' = contexts w ∧
  iw_datagrams w' = iw_datagrams w ∧ output (iw_env w') = output (iw_env w) ∧
  (∀ h, (∀ i, s = Some i → h ≠ si_write_msg_tx i) →
     writers (iw_env w') !! h = writers (iw_env w) !! h) ∧
  (∀ h, (∀ i, s = Some i → si_proxy_message_tx i ≠ Some h) →
     proxy_chans (iw_env w') !! h = proxy_chans (iw_env w) !! h) ∧
  (∀ l, (∀ i, s = Some i → l ≠ read_buf_len (si_common_info i)) →
     cells (iw_env w') !! l = cells (iw_env w) !! l).

Lemma touches_refl s w : touches_only s w w.
Proof. done. Qed.

Lemma touches_writer i m w o w' :
  send_writer (si_write_msg_tx i) m w = (o, w') → touches_only (Some i) w w'.
Proof.
  unfold send_writer, with_env. cbn. destruct (writers _ !! _) as [c|] eqn:E; cbn.
  - destruct (chan_send m c) as [o' c'] eqn:Es. intros [= <- <-]. split_and!; try done.
    intros h Hh. cbn. apply lookup_insert_ne. intros <-. by apply (Hh i).
  - intros [= <- <-]. by destruct w.
Qed.

Lemma touches_proxy i tx m w o w' :
  si_proxy_message_tx i = Some tx → send_proxy tx m w = (o, w') → touches_only (Some i) w w'.
Proof.
  intros Hi. unfold send_proxy, with_env. cbn. destruct (proxy_chans _ !! _) as [c|] eqn:E; cbn.
  - destruct (chan_send m c) as [o' c'] eqn:Es. intros [= <- <-]. split_and!; try done.
    intros h Hh. cbn. apply lookup_insert_ne. intros <-. by apply (Hh i).
  - intros [= <- <-]. by destruct w.
Qed.

Lemma touches_release i n w o w' :
  release (read_buf_len (si_common_info i)) n w = (o, w') → touches_only (Some i) w w'.
Proof.
  rewrite release_eq. intros [= <- <-]. split_and!; try done.
  intros l Hl. cbn. apply lookup_insert_ne. intros <-. by apply (Hl i).
Qed.

Lemma inlet_input_touches m w o w' :
  inlet_input_internal m w = (o, w') →
  touches_only (session_info_map w !! message_session m) w w'.
Proof.
  intros Hrun. destruct m; cbn [inlet_input_internal message_session] in *;
    try (injection Hrun as <- <-; apply touches_refl);
    unfold get_session in Hrun; rewrite gets_bind in Hrun;
    destruct (session_info_map w !! _) as [i|]; try (injection Hrun as <- <-; apply touches_refl).
  - destruct (si_proxy_message_tx i) eqn:Hi; [by eapply touches_proxy|].
    destruct success; cbn [when negb] in Hrun; [injection Hrun as <- <-; apply touches_refl|].
    by eapply touches_writer.
  - by eapply touches_release.
  - destruct (si_proxy_message_tx i) eqn:Hi; [by eapply touches_proxy|].
    injection Hrun as <- <-; apply touches_refl.
  - destruct (si_proxy_message_tx i) eqn:Hi; [by eapply touches_proxy|].
    cbv zeta in Hrun. destruct (decode_data _ _);
      try (injection Hrun as <- <-; apply touches_refl).
    rewrite lift_bind in Hrun. by eapply touches_writer.
  - by eapply touches_writer.
Qed.

(** The messages that unwind the inlet's input task. *)
Definition inlet_fatal m w : Prop :=
  ∃ id i, session_info_map w !! id = Some i ∧ si_proxy_message_tx i = None ∧
    ((∃ data from, m = O2iRecvDataFrom id data from) ∨
     (∃ data, m = O2iRecvData id data ∧ is_panic (decode_data (si_common_info i) data) = true)).

Lemma inlet_panic_iff m w :
  is_panic (fst (inlet_input_internal m w)) = true ↔ inlet_fatal m w.
Proof.
  split.
  - destruct m; cbn [inlet_input_internal]; try done; unfold get_session; rewrite gets_bind;
      destruct (session_info_map w !! _) as [i|] eqn:E; try done.
    + destruct (si_proxy_message_tx i); [by rewrite send_proxy_no_panic|].
      destruct success; cbn [when negb]; [done|]. by rewrite send_writer_no_panic.
    + by rewrite release_eq.
    + destruct (si_proxy_message_tx i) eqn:Ei; [by rewrite send_proxy_no_panic|].
      intros _. eexists _, i. eauto 6.
    + destruct (si_proxy_message_tx i) eqn:Ei; [by rewrite send_proxy_no_panic|]. cbv zeta.
      destruct (decode_data _ data) eqn:Ed; try done.
      * rewrite lift_bind. by rewrite send_writer_no_panic.
      * intros _. eexists _, i. split; [done|]. split; [done|]. right. eexists. by rewrite Ed.
    + by rewrite send_writer_no_panic.
  - intros (id & i & Hi & Htx & [(data & from & ->)|(data & -> & Hp)]);
      cbn [inlet_input_internal]; unfold get_session; rewrite gets_bind, Hi, Htx; [done|].
    cbv zeta. by destruct (decode_data _ data).
Qed.

(** *** A session's life *)

Definition register (id : u32) (i : SessionInfo) (w : inlet_world) : inlet_world :=
  set_sessions <[id := i]> w.

Lemma inlet_start_plain id addr tx d :
  is_socks5 (inlet_proxy_type (i_self d)) = false → chan_open (output (iw_env (i_world d))) = true →
  ∃ d', inlet_on_session_start id addr tx d = (Ok tt, d') ∧
    in_session_id (i_self d') = id ∧ in_common_data (i_self d') = in_common_data (i_self d) ∧
    socks5context (i_self d') = socks5context (i_self d) ∧
    inlet_proxy_type (i_self d') = inlet_proxy_type (i_self d) ∧
    session_info_map (i_world d') = <[id := {| si_proxy_message_tx := None;
      si_write_msg_tx := tx; si_common_info := in_common_data (i_self d) |}]>
      (session_info_map (i_world d)) ∧
    iw_env (i_world d') = set_output (Chan true (sent (iw_env (i_world d)) ++
      [inlet_connect_message (i_self d) id addr])) (iw_env (i_world d)).
Proof.
  intros Hs Ho. unfold inlet_on_session_start. erewrite bind_ok by done. rewrite gets_bind.
  cbn [i_self inlet_proxy_type]. rewrite Hs. erewrite bind_ok by done.
  rewrite send_output_open by done. eexists. split; [done|]. cbn. done.
Qed.

Lemma inlet_close_eq d :
  chan_open (output (iw_env (i_world d))) = true →
  (∀ c, socks5context (i_self d) = Some c → is_Some (contexts (i_world d) !! c)) →
  ∃ d', inlet_on_session_close d = (Ok tt, d') ∧
    session_info_map (i_world d') = delete (in_session_id (i_self d)) (session_info_map (i_world d)) ∧
    iw_env (i_world d') = set_output (Chan true (sent (iw_env (i_world d)) ++
      [I2oDisconnect (in_session_id (i_self d))])) (iw_env (i_world d)) ∧
    socks5context (i_self d') = None ∧
    (∀ h c', contexts (i_world d') !! h = Some c' →
       if decide (socks5context (i_self d) = Some h)
       then read_input_task_handle c' = false ∧ udp_task_handle c' = false
       else contexts (i_world d) !! h = Some c').
Proof.
  intros Ho Hctx. unfold inlet_on_session_close. rewrite gets_bind. erewrite bind_ok by done.
  erewrite bind_ok; [|by apply send_output_open].
  destruct (socks5context (i_self d)) as [c|] eqn:Hc.
  - destruct (Hctx c eq_refl) as [x Hx]. erewrite bind_ok by done.
    unfold in_world, with_context. cbn. rewrite Hx. cbn. eexists. split; [done|].
    split_and!; [done..|]. intros h c' Hh. cbn in Hh. case_decide as Hd.
    + injection Hd as ->. rewrite lookup_insert_eq in Hh. by injection Hh as <-.
    + rewrite lookup_insert_ne in Hh by congruence. done.
  - eexists. split; [done|]. split_and!; done.
Qed.

(** *** Starting and stopping *)

End InletFacts.

Section InletControlFacts.
Context `{InletOs}.
Implicit Types i : Inlet.

Inductive inlet_op :=
| OpStart (c : InletConfig) (listen_addr : string)
| OpInput (m : ProxyMessage)
| OpStop
| OpExit.

Definition run_op (o : inlet_op) : M Inlet unit :=
  match o with
  | OpStart c a => inlet_start c a
  | OpInput m => inlet_input m
  | OpStop => inlet_stop
  | OpExit => server_exit
  end.

Definition run_ops (ops : list inlet_op) (i : Inlet) : Inlet :=
  fold_left (λ i o, snd (run_op o i)) ops i.

(** An inlet that says it runs although no server task is there to end it. *)
Definition wedged i : Prop := is_running i = true ∧ in_server i = None.

Lemma run_op_wedged o i : wedged i → wedged (snd (run_op o i)).
Proof.
  intros [Hr Hs]. destruct o; cbn [run_op].
  - unfold inlet_start. rewrite gets_bind, Hr. done.
  - unfold inlet_input. rewrite gets_bind. destruct (in_input i); [|done].
    unfold ignore, in_shared. destruct (send_proxy h m (in_state i)) as [[] ?]; done.
  - unfold inlet_stop. erewrite bind_ok by done. rewrite gets_bind. cbn [is_running]. by rewrite Hr.
  - unfold server_exit. by rewrite gets_bind, Hs.
Qed.

Lemma run_ops_wedged ops i : wedged i → wedged (run_ops ops i).
Proof.
  revert i. induction ops as [|o ops IH]; [done|]. intros i Hi. apply IH, run_op_wedged, Hi.
Qed.

Lemma wedged_stop i : wedged i → fst (inlet_stop i) = Pending.
Proof.
  intros [Hr _]. unfold inlet_stop. erewrite bind_ok by done. rewrite gets_bind.
  cbn [is_running]. by rewrite Hr.
Qed.

Lemma wedged_start c a i : wedged i → inlet_start c a i = (Err "Repeated start", i).
Proof. intros [Hr _]. unfold inlet_start. by rewrite gets_bind, Hr. Qed.

Lemma start_bind_failure c a e i :
  is_running i = false → in_server i = None → bind_listener (cfg_type c) a = Err e →
  fst (inlet_start c a i) = Err e ∧ wedged (snd (inlet_start c a i)).
Proof.
  intros Hr Hs He. unfold inlet_start. rewrite gets_bind, Hr.
  do 4 (erewrite bind_ok by done). rewrite He. cbn. done.
Qed.

Lemma start_ok c a i :
  is_running i = false → bind_listener (cfg_type c) a = Ok tt →
  ∃ i', inlet_start c a i = (Ok tt, i') ∧ is_running i' = true ∧ in_server i' = Some c ∧
    session_info_map (in_state i') = session_info_map (in_state i).
Proof.
  intros Hr Hb. unfold inlet_start. rewrite gets_bind, Hr.
  do 4 (erewrite bind_ok by done). rewrite Hb, lift_bind. eexists. split; [done|]. done.
Qed.
End InletControlFacts.

(** ** Properties *)

Section InletProperties.
Context `{Lz4} `{SimplestCrypt} `{Base64} `{Rng} `{UdpOs}.

(** C32: Isolation. A message from the outlet, whatever its outcome, changes
    nothing but the channels and the counter of the session it names; for a
    session the inlet does not have it changes nothing at all. *)
Theorem inlet_isolation m (w w' : inlet_world) o :
  inlet_input_internal m w = (o, w') →
  touches_only (session_info_map w !! message_session m) w w'.
Proof. apply inlet_input_touches. Qed.

(** The inlet's input task panics on a message exactly when it names a
    session of a plain tunnel and is a datagram, or is data whose decoding
    panics (the decompression of corrupt data does). *)
Theorem inlet_panics m (w : inlet_world) :
  is_panic (fst (inlet_input_internal m w)) = true ↔ inlet_fatal m w.
Proof. apply inlet_panic_iff. Qed.

(** The close of a session forgets it and no other, tells the outlet, and
    cancels the tasks of its SOCKS5 context and of no other. *)
Theorem inlet_close (d : inlet_delegate) :
  chan_open (output (iw_env (i_world d))) = true →
  (∀ c, socks5context (i_self d) = Some c → is_Some (contexts (i_world d) !! c)) →
  ∃ d', inlet_on_session_close d = (Ok tt, d') ∧
    session_info_map (i_world d') = delete (in_session_id (i_self d)) (session_info_map (i_world d)) ∧
    sent (iw_env (i_world d')) = sent (iw_env (i_world d)) ++ [I2oDisconnect (in_session_id (i_self d))] ∧
    socks5context (i_self d') = None ∧
    (∀ h c', contexts (i_world d') !! h = Some c' →
       if decide (socks5context (i_self d) = Some h)
       then read_input_task_handle c' = false ∧ udp_task_handle c' = false
       else contexts (i_world d) !! h = Some c').
Proof.
  intros Ho Hc. destruct (inlet_close_eq d Ho Hc) as (d' & ? & ? & He & ? & ?).
  exists d'. split_and!; try done. by rewrite He.
Qed.
End InletProperties.

(** C36: An inlet whose listener cannot be bound is wedged: [start] returns the
    error but leaves the inlet marked as running with no server task, so that
    whatever is called afterwards it keeps saying it runs, a second start is
    refused as repeated and a stop never returns. *)
Theorem failed_start_wedges `{InletOs} c a e (i : Inlet) ops :
  is_running i = false → in_server i = None → bind_listener (cfg_type c) a = Err e →
  fst (inlet_start c a i) = Err e ∧
  let i' := run_ops ops (snd (inlet_start c a i)) in
  is_running i' = true ∧ fst (inlet_stop i') = Pending ∧
  ∀ c2 a2, inlet_start c2 a2 i' = (Err "Repeated start", i').
Proof.
  intros Hr Hs He. destruct (start_bind_failure c a e i Hr Hs He) as [Hf Hw]. split; [done|].
  cbv zeta. pose proof (run_ops_wedged ops _ Hw) as Hw'. split; [apply Hw'|].
  split; [by apply wedged_stop|]. intros c2 a2. by apply wedged_start.
Qed.

(** ** Concrete runs *)

Module InletConcrete.
Definition info : SessionCommonInfo :=
  {| is_compressed := true; encryption_method := MXor; encryption_key := [7; 9]; read_buf_len := 1 |}.
Definition plain : SessionInfo :=
  {| si_proxy_message_tx := None; si_write_msg_tx := 2; si_common_info := info |}.
Definition socks : SessionInfo :=
  {| si_proxy_message_tx := Some 3; si_write_msg_tx := 4; si_common_info := info |}.
Definition world : inlet_world :=
  InletWorld (Env {[ 1 := 0 ]} {[ 2 := chan_new; 4 := chan_new ]} {[ 3 := chan_new ]} chan_new 6)
    {[ 8 := plain; 9 := socks ]}
    {[ 5 := socks5_new 4 9 Socks5Concrete.client Socks5Concrete.creds info ]} [].
Definition delegate : inlet_delegate :=
  InletD {| inlet_proxy_type := SOCKS5; output_addr := ""; in_session_id := 9;
            in_common_data := info; socks5context := Some 5;
            in_data_ex := Socks5Concrete.creds |} world 0.
Definition taken : InletOs := {|
  tcp_listener_bind := λ _, Err "Address already in use";
  udp_socket_bind := λ _, Ok tt |}.
Definition config : InletConfig :=
  {| cfg_type := TCP; cfg_output_addr := "10.0.0.9:80"; cfg_is_compressed := false;
     cfg_encryption_method := "None"; cfg_data_ex := {| username := ""; password := "" |} |}.
End InletConcrete.

Section InletWitnesses.
Import Concrete InletConcrete.

Lemma inlet_isolation_witness :
  touches_only (Some plain) world
    (snd (inlet_input_internal (H := lz4) (H0 := simplestcrypt) (O2iRecvData 8 [7; 8]) world)).
Proof.
  exact (inlet_isolation (H := lz4) (H0 := simplestcrypt) (O2iRecvData 8 [7; 8]) world
    (snd (inlet_input_internal (H := lz4) (H0 := simplestcrypt) (O2iRecvData 8 [7; 8]) world))
    (Ok tt) eq_refl).
Defined.

(** Data that does not decompress: the session's key turns [[6]] into [[1]]. *)
Example corrupt_data_panics :
  is_panic (fst (inlet_input_internal (H := lz4) (H0 := simplestcrypt)
    (O2iRecvData 8 [6]) world)) = true.
Proof. reflexivity. Qed.

Lemma inlet_close_witness : ∃ d', inlet_on_session_close delegate = (Ok tt, d') ∧
  session_info_map (i_world d') = delete 9 (session_info_map world) ∧
  sent (iw_env (i_world d')) = [] ++ [I2oDisconnect 9] ∧ socks5context (i_self d') = None ∧
  (∀ h c', contexts (i_world d') !! h = Some c' →
     if decide (Some 5 = Some h)
     then read_input_task_handle c' = false ∧ udp_task_handle c' = false
     else contexts world !! h = Some c').
Proof.
  apply (inlet_close delegate).
  - reflexivity.
  - intros c [= <-]. eexists. reflexivity.
Defined.

Lemma failed_start_wedges_witness :
  let start := inlet_start (H := taken) config "0.0.0.0:80" inlet_new in
  fst start = Err "Address already in use" ∧
  let i' := run_ops (H := taken) [OpStop; OpExit] (snd start) in
  is_running i' = true ∧ fst (inlet_stop i') = Pending ∧
  ∀ c2 a2, inlet_start (H := taken) c2 a2 i' = (Err "Repeated start", i').
Proof.
  exact (failed_start_wedges (H := taken) config "0.0.0.0:80" "Address already in use" inlet_new
    [OpStop; OpExit] eq_refl eq_refl eq_refl).
Defined.
End InletWitnesses.
