(* ===== verification/Ends.v ===== *)
(** What a client and the server have in common when they run the ends of
    tunnels: the entries of their tables, and the synchronisation of a table
    with a list of tunnels ([sync_tunnels] of [np_client/src/client.rs] and of
    [np_server/src/global/manager/proxy.rs]). *)

From S2P Require Import Prelude Std Proxy Inlet.

(** ** Entries *)

(** What the output callback of a tunnel's end was made with. The server's
    callbacks have the player 0 as their own. *)
Record route := {
  rt_this_machine : bool;
  rt_self_player_id : u32;
  rt_player_id : u32;
  rt_tunnel_id : u32
}.

(** A running outlet or inlet; its [input] is what it has been given. *)
Record outlet_entry := {
  oe_description : string;
  oe_route : route;
  oe_input : list ProxyMessage
}.
Record inlet_entry := {
  ie_description : string;
  ie_route : route;
  ie_listen : string;
  ie_config : InletConfig;
  ie_input : list ProxyMessage
}.

(** [outlet.input(m)], [inlet.input(m)] *)
Definition input_outlet (m : ProxyMessage) (e : outlet_entry) : outlet_entry :=
  {| oe_description := oe_description e; oe_route := oe_route e; oe_input := oe_input e ++ [m] |}.
Definition input_inlet (m : ProxyMessage) (e : inlet_entry) : inlet_entry :=
  {| ie_description := ie_description e; ie_route := ie_route e; ie_listen := ie_listen e;
     ie_config := ie_config e; ie_input := ie_input e ++ [m] |}.

(** A loop over a list. *)
Fixpoint for_each {T S} (f : T → M S unit) (l : list T) : M S unit :=
  match l with
  | [] => mret tt
  | x :: l => f x;; for_each f l
  end.

(** [common::async_receive_output], on the messages sent so far: each goes to
    the end's output callback. *)
Definition async_receive_output {S} (on_output_callback : ProxyMessage → M S unit)
    (sent : list ProxyMessage) : M S unit := for_each on_output_callback sent.

(** ** Synchronisation *)

Section Sync.
Context {T : Type} (tid : T → u32).

(** The first tunnel of the list that has the id and passes the test. *)
Fixpoint wanted (f : T → bool) (ts : list T) (id : u32) : option T :=
  match ts with
  | [] => None
  | t :: ts => if (id =? tid t) && f t then Some t else wanted f ts id
  end.

Lemma wanted_unknown f ts id : id ∉ (tid <$> ts) → wanted f ts id = None.
Proof.
  induction ts as [|t ts IH]; [done|]. cbn. intros Hn. apply not_elem_of_cons in Hn as [Hne Hn].
  destruct (Z.eqb_spec id (tid t)); [done|]. by apply IH.
Qed.

Lemma existsb_unknown (g : T → bool) ts id :
  id ∉ (tid <$> ts) → existsb (λ t, (id =? tid t) && g t) ts = false.
Proof.
  induction ts as [|t ts IH]; [done|]. cbn. intros Hn. apply not_elem_of_cons in Hn as [Hne Hn].
  destruct (Z.eqb_spec id (tid t)); [done|]. by apply IH.
Qed.

Lemma existsb_wanted (f g : T → bool) ts id :
  NoDup (tid <$> ts) →
  existsb (λ t, (id =? tid t) && (f t && g t)) ts =
  match wanted f ts id with Some t => g t | None => false end.
Proof.
  induction ts as [|t ts IH]; [done|]. cbn. intros [Hn Hnd]%NoDup_cons.
  destruct (Z.eqb_spec id (tid t)) as [->|]; [|by apply IH]. cbn [andb].
  rewrite existsb_unknown by done. rewrite orb_false_r.
  destruct (f t); [done|]. by rewrite wanted_unknown.
Qed.

Lemma existsb_same (g h : T → bool) ts : (∀ t, g t = h t) → existsb g ts = existsb h ts.
Proof. intros E. induction ts as [|t ts IH]; [done|]. cbn. by rewrite E, IH. Qed.

(** The pass that adds, on the table alone: [make t] is the entry made for [t],
    if one is. *)
Definition add_entries {E} (f : T → bool) (make : T → option E) (ts : list T) (m : gmap u32 E)
    : gmap u32 E :=
  fold_left (λ m t,
    if f t then
      match m !! tid t, make t with None, Some e => <[tid t := e]> m | _, _ => m end
    else m) ts m.

Lemma add_entries_lookup {E} f (make : T → option E) ts m id :
  NoDup (tid <$> ts) →
  add_entries f make ts m !! id =
    match m !! id with Some e => Some e | None => wanted f ts id ≫= make end.
Proof.
  unfold add_entries. revert m. induction ts as [|t ts IH]; intros m Hnd.
  { cbn. by destruct (m !! id). }
  apply NoDup_cons in Hnd as [Hn Hnd]. cbn [fold_left wanted]. rewrite IH by done.
  destruct (f t); [|by rewrite andb_false_r]. rewrite andb_true_r.
  destruct (Z.eqb_spec id (tid t)) as [->|Hne].
  - rewrite wanted_unknown by done. cbn [mbind option_bind].
    destruct (m !! tid t) as [e|] eqn:He; [by rewrite He|].
    destruct (make t) as [e|]; [by rewrite lookup_insert_eq|by rewrite He].
  - destruct (m !! tid t), (make t); by rewrite ?lookup_insert_ne.
Qed.

(** The entry there should be for an id, given the one there was: kept if the
    description still holds, made anew otherwise. *)
Definition expected {E} (f : T → bool) (description : T → string) (described : E → string)
    (make : T → option E) (ts : list T) (id : u32) (old : option E) : option E :=
  match wanted f ts id with
  | Some t =>
      match old with
      | Some e => if decide (description t = described e) then Some e else make t
      | None => make t
      end
  | None => None
  end.

(** Whether some tunnel of the list keeps an entry. *)
Definition retained {E} (f : T → bool) (description : T → string) (described : E → string)
    (ts : list T) (id : u32) (e : E) : bool :=
  existsb (λ t, (id =? tid t) && f t && bool_decide (description t = described e)) ts.
End Sync.

Lemma lookup_filter_bool {A} (f : u32 → A → bool) (m : gmap u32 A) (k : u32) :
  base.filter (λ kv, f kv.1 kv.2 = true) m !! k =
  match m !! k with Some e => if f k e then Some e else None | None => None end.
Proof.
  rewrite map_lookup_filter. destruct (m !! k) as [e|]; [|done]. cbn [mbind option_bind].
  destruct (f k e) eqn:E.
  - by rewrite option_guard_True.
  - rewrite option_guard_False; [done|]. cbn. by rewrite E.
Qed.

Lemma filter_ext {A} (f g : u32 → A → bool) (m : gmap u32 A) :
  (∀ k e, f k e = g k e) →
  base.filter (λ kv, f kv.1 kv.2 = true) m = base.filter (λ kv, g kv.1 kv.2 = true) m.
Proof. intros E. apply map_filter_ext. intros k e _. cbn. by rewrite E. Qed.

(** Both passes give the expected table. *)
Lemma sync_lookup {T E} (tid : T → u32) f description described (make : T → option E) ts m id :
  NoDup (tid <$> ts) →
  add_entries tid f make ts
    (base.filter (λ kv, retained tid f description described ts kv.1 kv.2 = true) m) !! id =
  expected tid f description described make ts id (m !! id).
Proof.
  intros Hnd. rewrite add_entries_lookup by done.
  rewrite (lookup_filter_bool (retained tid f description described ts)).
  unfold expected. destruct (m !! id) as [e|]; [|by destruct (wanted tid f ts id)].
  replace (retained tid f description described ts id e) with
    match wanted tid f ts id with
    | Some t => bool_decide (description t = described e) | None => false end.
  - destruct (wanted tid f ts id) as [t|]; [|done].
    by case_decide; [rewrite bool_decide_true|rewrite bool_decide_false].
  - rewrite <- (existsb_wanted tid f) by done. apply existsb_same. intros t. by rewrite andb_assoc.
Qed.

(** ** Starting an inlet *)

Section Start.
Context `{InletOs}.

(** Binding a listener answers. *)
Definition binds_answer : Prop :=
  ∀ ty a, match bind_listener ty a with Ok _ | Err _ => True | Panic _ | Pending => False end.

Lemma start_answers (c : InletConfig) a :
  binds_answer → match fst (inlet_start c a inlet_new) with Ok _ | Err _ => True | _ => False end.
Proof.
  intros Hb. specialize (Hb (cfg_type c) a).
  destruct (bind_listener (cfg_type c) a) as [[]|e| |] eqn:E; try done.
  - destruct (start_ok c a inlet_new eq_refl E) as (i' & -> & _). done.
  - destruct (start_bind_failure c a e inlet_new eq_refl eq_refl E) as [-> _]. done.
Qed.
End Start.
