(* ===== verification/Outlet.v ===== *)
(** [np_base/src/proxy/outlet.rs]: the connecting end of a tunnel: the requests
    and data it takes from the inlet, and its sessions with the targets. *)

From S2P Require Import Prelude Std Extern Crypto Net Proxy Common.

(** ** The operating system and the resolver *)

Class OutletOs := {
  tcp_stream_connect : string → outcome SocketAddr;  (** connected, keep-alive set: the peer *)
  udp_any_bind : outcome unit;
  udp_peer_connect : string → outcome SocketAddr;    (** connected: the peer *)
  lookup_host : string → outcome (list SocketAddr)
}.

(** The resolver, the sockets and the decoder of keys answer: none panics. *)
Class OutletAnswers `{Base64} `{OutletOs} : Prop := {
  tcp_connect_answers addr : is_panic (tcp_stream_connect addr) = false;
  udp_bind_answers : is_panic udp_any_bind = false;
  udp_connect_answers addr : is_panic (udp_peer_connect addr) = false;
  lookup_answers host : is_panic (lookup_host host) = false;
  base64_answers d : is_panic (base64_decode d) = false
}.

(** ** State *)

(** [SessionInfo] *)
Record OutSessionInfo := { so_sender : handle; so_common_info : SessionCommonInfo }.

(** [OutletSession] *)
Record OutletSession := {
  out_session_id : u32;
  out_common_data : SessionCommonInfo;
  tunnel_type : InletProxyType
}.

(** A session task that was spawned: its id, its peer and its delegate. *)
Record spawned_session := {
  sp_id : u32;
  sp_addr : SocketAddr;
  sp_delegate : OutletSession
}.

(** What the outlet's tasks share; [spawned] lists the session tasks started. *)
Record outlet_world := OutletWorld {
  ow_env : env;
  out_sessions : gmap u32 OutSessionInfo;
  spawned : list spawned_session
}.

#[export] Instance outlet_world_has_env : HasEnv outlet_world.
Proof.
  refine {| env_of := ow_env; set_env := λ e w, OutletWorld e (out_sessions w) (spawned w) |};
    [done| |done]. by intros [].
Defined.

Definition set_out_sessions (f : gmap u32 OutSessionInfo → gmap u32 OutSessionInfo)
    (w : outlet_world) : outlet_world :=
  OutletWorld (ow_env w) (f (out_sessions w)) (spawned w).

Definition spawn (s : spawned_session) : M outlet_world unit :=
  modify (λ w, OutletWorld (ow_env w) (out_sessions w) (spawned w ++ [s])).

(** A session's delegate with what it can reach. *)
Record outlet_delegate := OutletD {
  o_self : OutletSession;
  o_world : outlet_world;
  o_nonce : Z
}.

#[export] Instance outlet_delegate_has_env : HasEnv outlet_delegate.
Proof.
  refine {| env_of := λ d, ow_env (o_world d);
            set_env := λ e d, OutletD (o_self d) (set_env e (o_world d)) (o_nonce d) |};
    [done| |done]. by intros [? [] ?].
Defined.

Definition out_world {A} (m : M outlet_world A) : M outlet_delegate A := λ d,
  let '(o, w) := m (o_world d) in (o, OutletD (o_self d) w (o_nonce d)).

Definition out_next_nonce : M outlet_delegate Z := λ d,
  (Ok (o_nonce d), OutletD (o_self d) (o_world d) (o_nonce d + 1)).

Definition set_out_session (id : u32) : M outlet_delegate unit := modify (λ d,
  let s := o_self d in
  OutletD {| out_session_id := id; out_common_data := out_common_data s;
             tunnel_type := tunnel_type s |} (o_world d) (o_nonce d)).

Section Outlet.
Context `{Lz4} `{SimplestCrypt} `{Base64} `{OutletOs}.

(** ** OutletSession *)

Definition outlet_session_new (info : SessionCommonInfo) (t : InletProxyType) : OutletSession :=
  {| out_session_id := 0; out_common_data := info; tunnel_type := t |}.

(** The error is returned after a sleep of five seconds. *)
Definition outlet_on_session_start (id : u32) (addr : SocketAddr) (tx : handle)
    : M outlet_delegate unit :=
  set_out_session id;;
  s ← gets o_self;
  out_world (modify (set_out_sessions
    <[id := {| so_sender := tx; so_common_info := out_common_data s |}]>));;
  on_err (send_output (O2iConnect id true "")) (λ err, bail ("on_session_start: " +:+ err)).

Definition outlet_on_session_close : M outlet_delegate unit :=
  s ← gets o_self;
  out_world (modify (set_out_sessions (delete (out_session_id s))));;
  ignore (send_output (O2iDisconnect (out_session_id s))).

Definition outlet_on_recv_frame (frame : bytes) : M outlet_delegate unit :=
  s ← gets o_self;
  nonce ← out_next_nonce;
  frame ← encode_data_and_limiting nonce (out_common_data s) frame;
  send_output (O2iRecvData (out_session_id s) frame).

Definition outlet_on_recv_frame_from (frame : bytes) (peer_addr : SocketAddr)
    : M outlet_delegate unit :=
  s ← gets o_self;
  if is_socks5 (tunnel_type s) then
    nonce ← out_next_nonce;
    frame ← encode_data_and_limiting nonce (out_common_data s) frame;
    send_output (O2iRecvDataFrom (out_session_id s) frame (show_addr peer_addr))
  else outlet_on_recv_frame frame.

#[export] Instance OutletSession_delegate : SessionDelegate outlet_delegate := {|
  on_session_start := outlet_on_session_start;
  on_session_close := outlet_on_session_close;
  on_try_extract_frame := default_try_extract_frame;
  on_recv_frame := outlet_on_recv_frame;
  on_recv_frame_from := outlet_on_recv_frame_from
|}.

(** ** Messages from the inlet *)

Definition any_addr : SocketAddr := V4 (Ipv4 0 0 0 0) 0.

Definition tcp_connect (addr : string) (id : u32) (info : SessionCommonInfo)
    : M outlet_world unit :=
  peer ← lift (tcp_stream_connect addr);
  spawn {| sp_id := id; sp_addr := peer; sp_delegate := outlet_session_new info TCP |}.

Definition out_udp_connect (addr : string) (id : u32) (info : SessionCommonInfo)
    (t : InletProxyType) : M outlet_world unit :=
  lift udp_any_bind;;
  peer ← (if str_is_empty addr then mret any_addr else lift (udp_peer_connect addr));
  spawn {| sp_id := id; sp_addr := peer; sp_delegate := outlet_session_new info t |}.

Definition get_out_session (id : u32) : M outlet_world (option OutSessionInfo) :=
  gets (λ w, out_sessions w !! id).

(** [meanwhile] is what the other tasks do until the session is there or two
    seconds have passed. *)
Definition await_session (id : u32) (meanwhile : M outlet_world unit) : M outlet_world unit :=
  meanwhile;;
  s ← get_out_session id;
  match s with
  | Some _ => mret tt
  | None => bail "Waiting for the function on_session_start to call a response timeout"
  end.

Definition on_i2o_connect (meanwhile : M outlet_world unit) (id : u32) (tunnel_type : u8)
    (is_tcp is_compressed : bool) (addr method key : string) : M outlet_world unit :=
  s ← get_out_session id;
  match s with
  | Some _ => bail "repeated connection"
  | None =>
      let method := get_method method in
      key ← lift (base64_decode (as_bytes key));
      info ← info_new is_compressed method key;
      t ← lift (match from_u32 tunnel_type with
                | Some t => Ok t
                | None => Err ("unsupported tunnel_type: " +:+ show tunnel_type)
                end);
      match t with
      | TCP => tcp_connect addr id info
      | UDP => out_udp_connect addr id info t
      | SOCKS5 => if is_tcp then tcp_connect addr id info else out_udp_connect "" id info t
      end;;
      await_session id meanwhile
  end.

Definition on_i2o_send_data (id : u32) (data : bytes) : M outlet_world unit :=
  s ← get_out_session id;
  match s with
  | Some session =>
      let data_len := len data in
      data ← lift (decode_data (so_common_info session) data);
      send_writer (so_sender session) (SendAndThen data (O2iSendDataResult id data_len))
  | None => mret tt
  end.

Definition on_i2o_send_to_data (id : u32) (data : bytes) (target_addr : string)
    : M outlet_world unit :=
  s ← get_out_session id;
  match s with
  | Some session =>
      let data_len := len data in
      data ← lift (decode_data (so_common_info session) data);
      target ← lift (parse_addr lookup_host target_addr);
      send_writer (so_sender session) (SendTo data target);;
      ignore (send_output (O2iSendDataResult id data_len))
  | None => mret tt
  end.

Definition on_i2o_disconnect (id : u32) : M outlet_world unit :=
  s ← get_out_session id;
  match s with
  | Some client =>
      modify (set_out_sessions (delete id));;
      send_writer (so_sender client) Close
  | None => mret tt
  end.

Definition on_i2o_recv_data_result (id : u32) (data_len : usize) : M outlet_world unit :=
  s ← get_out_session id;
  match s with
  | Some client => release (read_buf_len (so_common_info client)) data_len
  | None => mret tt
  end.

(** [if let Err(err) = call { handler } else { rest }] *)
Definition if_err {S} (m : M S unit) (h : string → M S unit) (k : M S unit) : M S unit := λ s,
  match m s with
  | (Err e, s') => h e s'
  | (Ok _, s') => k s'
  | (Panic w, s') => (Panic w, s')
  | (Pending, s') => (Pending, s')
  end.

Definition outlet_input_internal (meanwhile : M outlet_world unit) (message : ProxyMessage)
    : M outlet_world unit :=
  match message with
  | I2oConnect id tunnel_type is_tcp is_compressed addr method key _ =>
      if_err (on_i2o_connect meanwhile id tunnel_type is_tcp is_compressed addr method key)
        (λ err, send_output (O2iConnect id false err))
        (send_output (O2iConnect id true ""))
  | I2oSendData id data => on_i2o_send_data id data
  | I2oSendToData id data target_addr => on_i2o_send_to_data id data target_addr
  | I2oDisconnect id => on_i2o_disconnect id
  | I2oRecvDataResult id data_len => on_i2o_recv_data_result id data_len
  | _ => bail "Unknown message"
  end.

(** [async_receive_input] on the messages received so far. *)
Fixpoint outlet_receive_input (meanwhile : M outlet_world unit) (messages : list ProxyMessage)
    : M outlet_world unit :=
  match messages with
  | [] => mret tt
  | m :: ms => ignore (outlet_input_internal meanwhile m);; outlet_receive_input meanwhile ms
  end.
End Outlet.

(** ** The outlet itself *)

(** [notify_shutdown]: still there until the first [stop]. *)
Record Outlet := { notify_shutdown : bool; out_state : outlet_world }.

Definition outlet_new : Outlet :=
  {| notify_shutdown := true; out_state := OutletWorld env0 ∅ [] |}.

(** [Outlet::stop]: the drop of the sender shuts the sessions down; [meanwhile]
    is what they do until the map is empty or ten seconds have passed, after
    which [stop] returns in any case. *)
Definition outlet_stop (meanwhile : M outlet_world unit) : M Outlet unit := λ o,
  if notify_shutdown o then
    let '(r, w) := ignore meanwhile (out_state o) in
    (r, {| notify_shutdown := false; out_state := w |})
  else (Ok tt, o).

(** ** Facts *)

(** A call that panics from no state. *)
Definition calm {S A} (m : M S A) : Prop := ∀ s, is_panic (fst (m s)) = false.

Lemma calm_const {S A} (m : M S A) : (∀ s, is_panic (fst (m s)) = false) → calm m.
Proof. exact id. Qed.
Lemma calm_lift {S A} (o : outcome A) : is_panic o = false → calm (lift o : M S A).
Proof. intros Ho s. exact Ho. Qed.
Lemma calm_bind {S A B} (m : M S A) (f : A → M S B) : calm m → (∀ a, calm (f a)) → calm (m ≫= f).
Proof.
  intros Hm Hf s. specialize (Hm s). unfold mbind, M_bind.
  destruct (m s) as [[a| | |] s1]; [apply Hf|done..].
Qed.
Lemma calm_output {S} `{HasEnv S} m : calm (send_output m : M S unit).
Proof. intros s. unfold send_output, with_env, chan_send. by destruct (chan_open _). Qed.
Lemma calm_ignore {S A} (m : M S A) : calm m → calm (ignore m).
Proof. intros Hm s. specialize (Hm s). unfold ignore. by destruct (m s) as [[] ?]. Qed.
Lemma calm_writer {S} `{HasEnv S} h m : calm (send_writer h m : M S unit).
Proof. intros s. apply send_writer_no_panic. Qed.

Section OutletFacts.
Context `{Lz4} `{SimplestCrypt} `{Base64} `{OutletOs}.
Implicit Types (w : outlet_world) (d : outlet_delegate) (id : u32).

(** The messages about a session that is already there. *)
Definition session_message (id : u32) (m : ProxyMessage) : Prop :=
  match m with
  | I2oSendData i _ | I2oSendToData i _ _ | I2oDisconnect i | I2oRecvDataResult i _ => i = id
  | _ => False
  end.

Lemma unknown_session_ignored mw id m w :
  out_sessions w !! id = None → session_message id m →
  outlet_input_internal mw m w = (Ok tt, w).
Proof.
  intros Hn Hm. destruct m; cbn [session_message] in Hm; try done; subst;
    cbn [outlet_input_internal];
    unfold on_i2o_send_data, on_i2o_send_to_data, on_i2o_disconnect, on_i2o_recv_data_result,
      get_out_session; by rewrite gets_bind, Hn.
Qed.

Lemma disconnect_eq mw id w so :
  out_sessions w !! id = Some so → writer_open (so_sender so) (ow_env w) →
  ∃ w', outlet_input_internal mw (I2oDisconnect id) w = (Ok tt, w') ∧
    out_sessions w' = delete id (out_sessions w) ∧
    writer_queue (so_sender so) (ow_env w') = writer_queue (so_sender so) (ow_env w) ++ [Close] ∧
    output (ow_env w') = output (ow_env w).
Proof.
  intros Hs [q Hq]. cbn [outlet_input_internal]. unfold on_i2o_disconnect, get_out_session.
  rewrite gets_bind, Hs. erewrite bind_ok by done.
  destruct (send_writer_open (H := outlet_world_has_env) (so_sender so) Close
    (set_out_sessions (delete id) w) (ex_intro _ q Hq)) as (q' & Hq' & ->).
  eexists. split; [done|]. split; [done|]. split; [|done]. by apply writer_queue_push.
Qed.

Lemma repeated_connect mw id t tcp z addr meth key client w so :
  out_sessions w !! id = Some so → chan_open (output (ow_env w)) = true →
  outlet_input_internal mw (I2oConnect id t tcp z addr meth key client) w =
    (Ok tt, set_env (set_output (Chan true (sent (ow_env w) ++
       [O2iConnect id false "repeated connection"])) (ow_env w)) w).
Proof.
  intros Hs Ho. cbn [outlet_input_internal]. unfold if_err, on_i2o_connect, get_out_session.
  rewrite gets_bind, Hs. cbn. by rewrite send_output_open.
Qed.

Lemma outlet_start_eq id addr tx d :
  chan_open (output (ow_env (o_world d))) = true →
  outlet_on_session_start id addr tx d =
    (Ok tt, OutletD {| out_session_id := id; out_common_data := out_common_data (o_self d);
                       tunnel_type := tunnel_type (o_self d) |}
              (set_out_sessions
                 <[id := {| so_sender := tx; so_common_info := out_common_data (o_self d) |}]>
                 (set_env (set_output (Chan true (sent (ow_env (o_world d)) ++
                    [O2iConnect id true ""])) (ow_env (o_world d))) (o_world d)))
              (o_nonce d)).
Proof.
  intros Ho. unfold outlet_on_session_start. erewrite bind_ok by done. rewrite gets_bind.
  erewrite bind_ok by done. unfold on_err. by rewrite send_output_open.
Qed.

(** The session delegate a request leads to. *)
Definition delegate_type (t : InletProxyType) (is_tcp : bool) : InletProxyType :=
  match t with SOCKS5 => if is_tcp then TCP else SOCKS5 | t => t end.

(** The operating system's part in a connection request. *)
Definition os_connect (t : InletProxyType) (tcp : bool) (addr : string) : outcome SocketAddr :=
  match t with
  | TCP => tcp_stream_connect addr
  | UDP => udp_any_bind;; if str_is_empty addr then Ok any_addr else udp_peer_connect addr
  | SOCKS5 => if tcp then tcp_stream_connect addr else udp_any_bind;; Ok any_addr
  end.

Definition request_info w (z : bool) (meth : string) (key : bytes) : SessionCommonInfo :=
  {| is_compressed := z; encryption_method := get_method meth; encryption_key := key;
     read_buf_len := next_handle (ow_env w) |}.

(** The state a successful request leaves to the session task. *)
Definition spawned_world w id t tcp z meth key peer : outlet_world :=
  OutletWorld (bump (set_cells <[next_handle (ow_env w) := 0]> (ow_env w))) (out_sessions w)
    (spawned w ++ [{| sp_id := id; sp_addr := peer;
       sp_delegate := outlet_session_new (request_info w z meth key) (delegate_type t tcp) |}]).

Lemma connect_eq mw id t tcp z addr meth key kb peer w :
  out_sessions w !! id = None → base64_decode (as_bytes key) = Ok kb →
  os_connect t tcp addr = Ok peer →
  on_i2o_connect mw id (to_u8 t) tcp z addr meth key w =
    await_session id mw (spawned_world w id t tcp z meth kb peer).
Proof.
  intros Hn Hk Hos. unfold on_i2o_connect, get_out_session. rewrite gets_bind, Hn. cbv zeta.
  rewrite Hk, lift_bind. erewrite bind_ok by done. rewrite from_u32_to_u8, lift_bind.
  erewrite bind_ok; [done|].
  destruct t; [|cbn [os_connect] in Hos|destruct tcp; cbn [os_connect] in Hos].
  - unfold tcp_connect. cbn [os_connect] in Hos. by rewrite Hos.
  - unfold out_udp_connect. destruct udp_any_bind as [[]| | |] eqn:Hb; try done. rewrite lift_bind.
    cbn [mbind outcome_bind] in Hos. destruct (str_is_empty addr).
    + injection Hos as <-. done.
    + rewrite Hos, lift_bind. done.
  - unfold tcp_connect. by rewrite Hos.
  - unfold out_udp_connect. destruct udp_any_bind as [[]| | |] eqn:Hb; try done. rewrite lift_bind.
    injection Hos as <-. done.
Qed.

(** *** What makes the input task panic *)

(** Data for a session that is there, and whose decoding panics. *)
Definition outlet_fatal m w : Prop :=
  ∃ id so data, out_sessions w !! id = Some so ∧
    is_panic (decode_data (so_common_info so) data) = true ∧
    (m = I2oSendData id data ∨ ∃ addr, m = I2oSendToData id data addr).

Context `{!OutletAnswers}.

Lemma calm_tcp_connect addr id info : calm (tcp_connect addr id info).
Proof. apply calm_bind; [apply calm_lift, tcp_connect_answers|]. intros peer. by apply calm_const. Qed.
Lemma calm_udp_connect addr id info t : calm (out_udp_connect addr id info t).
Proof.
  apply calm_bind; [apply calm_lift, udp_bind_answers|]. intros _. apply calm_bind.
  - destruct (str_is_empty addr); [by apply calm_const|]. apply calm_lift, udp_connect_answers.
  - intros peer. by apply calm_const.
Qed.

Lemma calm_connect mw id t tcp z addr meth key :
  calm mw → calm (on_i2o_connect mw id t tcp z addr meth key).
Proof.
  intros Hmw. apply calm_bind; [by apply calm_const|]. intros [so|]; [by apply calm_const|].
  cbv zeta. apply calm_bind; [apply calm_lift, base64_answers|]. intros kb.
  apply calm_bind; [by apply calm_const|]. intros info.
  apply calm_bind; [apply calm_lift; by destruct (from_u32 t)|]. intros ty. apply calm_bind.
  - destruct ty; [apply calm_tcp_connect|apply calm_udp_connect|].
    destruct tcp; [apply calm_tcp_connect|apply calm_udp_connect].
  - intros _. apply calm_bind; [done|]. intros _. apply calm_bind; [by apply calm_const|].
    intros [so|]; by apply calm_const.
Qed.

Lemma parse_addr_answers host : is_panic (parse_addr lookup_host host) = false.
Proof.
  unfold parse_addr. pose proof (lookup_answers host) as Hl.
  destruct (parse_socket_addr host); [done|..]; cbn [mbind outcome_bind];
    destruct (lookup_host host) as [[]| | |]; done.
Qed.

Lemma outlet_panic_iff mw m w :
  calm mw → is_panic (fst (outlet_input_internal mw m w)) = true ↔ outlet_fatal m w.
Proof.
  intros Hmw. split.
  - destruct m as [id t tcp z addr meth key client| |id data|id data addr| | | |id n|id|];
      cbn [outlet_input_internal]; try done.
    + unfold if_err. pose proof (calm_connect mw id t tcp z addr meth key Hmw w) as Hc.
      destruct (on_i2o_connect _ _ _ _ _ _ _ _ w) as [[] w1]; try done; by rewrite calm_output.
    + unfold on_i2o_send_data, get_out_session. rewrite gets_bind.
      destruct (out_sessions w !! id) as [so|] eqn:Hso; [|done]. cbv zeta.
      destruct (decode_data _ data) eqn:Hd; try done.
      * rewrite lift_bind. by rewrite calm_writer.
      * intros _. exists id, so, data. rewrite Hd. split_and!; [done..|by left].
    + unfold on_i2o_send_to_data, get_out_session. rewrite gets_bind.
      destruct (out_sessions w !! id) as [so|] eqn:Hso; [|done]. cbv zeta.
      destruct (decode_data _ data) eqn:Hd; try done.
      * rewrite lift_bind. rewrite calm_bind; [done|apply calm_lift, parse_addr_answers|].
        intros target. apply calm_bind; [apply calm_writer|]. intros _. apply calm_ignore, calm_output.
      * intros _. exists id, so, data. rewrite Hd. split_and!; [done..|]. right. by eexists.
    + unfold on_i2o_recv_data_result, get_out_session. rewrite gets_bind.
      destruct (out_sessions w !! id); [by rewrite release_eq|done].
    + unfold on_i2o_disconnect, get_out_session. rewrite gets_bind.
      destruct (out_sessions w !! id); [|done]. erewrite bind_ok by done. by rewrite calm_writer.
  - intros (id & so & data & Hso & Hd & [-> |[addr ->]]); cbn [outlet_input_internal];
      unfold on_i2o_send_data, on_i2o_send_to_data, get_out_session; rewrite gets_bind, Hso; cbv zeta;
      by destruct (decode_data _ data).
Qed.
End OutletFacts.

(** ** Properties *)

Section OutletProperties.
Context `{Lz4} `{SimplestCrypt} `{Base64} `{OutletOs}.

(** A disconnected session is forgotten and its writer told to close, and
    every later message about it is accepted and ignored. *)
Theorem outlet_disconnect mw id (w : outlet_world) so :
  out_sessions w !! id = Some so → writer_open (so_sender so) (ow_env w) →
  ∃ w', outlet_input_internal mw (I2oDisconnect id) w = (Ok tt, w') ∧
    out_sessions w' = delete id (out_sessions w) ∧
    writer_queue (so_sender so) (ow_env w') = writer_queue (so_sender so) (ow_env w) ++ [Close] ∧
    ∀ m, session_message id m → outlet_input_internal mw m w' = (Ok tt, w').
Proof.
  intros Hs Ho. destruct (disconnect_eq mw id w so Hs Ho) as (w' & Hrun & Hm & Hq & _).
  exists w'. split_and!; [done..|]. intros m. apply unknown_session_ignored.
  by rewrite Hm, lookup_delete_eq.
Qed.
End OutletProperties.

Module OutletConcrete.
Definition os : OutletOs := {|
  tcp_stream_connect := λ _, Ok (V4 (Ipv4 10 0 0 9) 80);
  udp_any_bind := Ok tt;
  udp_peer_connect := λ _, Ok (V4 (Ipv4 10 0 0 9) 53);
  lookup_host := λ _, Err "no such host" |}.
#[export] Instance os_answers : @OutletAnswers Concrete.base64 os.
Proof. by split. Defined.

Definition info : SessionCommonInfo :=
  {| is_compressed := true; encryption_method := MXor; encryption_key := [7; 9]; read_buf_len := 1 |}.
Definition world : outlet_world :=
  OutletWorld (Env {[ 1 := 0 ]} {[ 2 := chan_new ]} ∅ chan_new 6)
    {[ 8 := {| so_sender := 2; so_common_info := info |} ]} [].
End OutletConcrete.

Lemma outlet_disconnect_witness : ∃ w',
  outlet_input_internal (H := Concrete.lz4) (H0 := Concrete.simplestcrypt) (H1 := Concrete.base64)
    (H2 := OutletConcrete.os) (mret tt) (I2oDisconnect 8) OutletConcrete.world = (Ok tt, w') ∧
  out_sessions w' = delete 8 (out_sessions OutletConcrete.world) ∧
  writer_queue 2 (ow_env w') = [] ++ [Close] ∧
  ∀ m, session_message 8 m →
    outlet_input_internal (H := Concrete.lz4) (H0 := Concrete.simplestcrypt)
      (H1 := Concrete.base64) (H2 := OutletConcrete.os) (mret tt) m w' = (Ok tt, w').
Proof.
  apply (outlet_disconnect (H := Concrete.lz4) (H0 := Concrete.simplestcrypt)
    (H1 := Concrete.base64) (H2 := OutletConcrete.os) (mret tt) 8 OutletConcrete.world
    {| so_sender := 2; so_common_info := OutletConcrete.info |}).
  - reflexivity.
  - exists []. reflexivity.
Defined.
