(* ===== verification/Tunnel.v ===== *)
(** The two ends of a tunnel together ([inlet.rs] and [outlet.rs]): a session's
    announcement, and each turn of its tasks as one equation. *)

From S2P Require Import Prelude Std Extern Crypto Net Proxy Common TargetAddr Socks5 Inlet Outlet.

Section Tunnel.
Context `{Lz4} `{SimplestCrypt} `{Base64} `{UdpOs} `{OutletOs}.

(** ** Connecting *)

(** The session task spawned last starts, on a new connection. *)
Definition start_spawned : M outlet_world unit := λ w,
  match last (spawned w) with
  | None => (Pending, w)
  | Some sp =>
      match new_writer w with
      | (Ok tx, w) =>
          let '(o, d) := on_session_start (sp_id sp) (sp_addr sp) tx
                           (OutletD (sp_delegate sp) w 0) in
          (o, o_world d)
      | (_, w) => (Pending, w)
      end
  end.

(** The delegate of the session [sp], once its task has started with [tx]. *)
Definition started (sp : spawned_session) (tx : handle) (o : outlet_delegate) : Prop :=
  ∃ w, on_session_start (sp_id sp) (sp_addr sp) tx (OutletD (sp_delegate sp) w 0) = (Ok tt, o).

Lemma start_spawned_eq w id t tcp z meth key peer :
  chan_open (output (ow_env w)) = true →
  let w0 := spawned_world w id t tcp z meth key peer in
  ∃ o sp so, start_spawned w0 = (Ok tt, o_world o) ∧
    spawned (o_world o) = spawned w ++ [sp] ∧ started sp (so_sender so) o ∧
    o_self o = {| out_session_id := id; out_common_data := request_info w z meth key;
                  tunnel_type := delegate_type t tcp |} ∧
    out_sessions (o_world o) = <[id := so]> (out_sessions w) ∧
    so_common_info so = request_info w z meth key ∧
    writer_open (so_sender so) (ow_env (o_world o)) ∧
    writer_queue (so_sender so) (ow_env (o_world o)) = [] ∧
    output (ow_env (o_world o)) = Chan true (sent (ow_env w) ++ [O2iConnect id true ""]) ∧
    cell_value (next_handle (ow_env w)) (ow_env (o_world o)) = 0.
Proof.
  intros Ho w0. unfold start_spawned, w0, spawned_world. cbn [spawned]. rewrite last_snoc.
  unfold new_writer at 1, with_env at 1. cbv beta iota zeta.
  cbn [on_session_start OutletSession_delegate sp_id sp_addr sp_delegate].
  erewrite outlet_start_eq by done. eexists _, _, (Build_OutSessionInfo _ _).
  split; [done|]. split; [done|]. split.
  { unfold started. eexists. cbn [on_session_start OutletSession_delegate sp_id sp_addr sp_delegate].
    by apply outlet_start_eq. }
  cbn. split_and!; try done.
  - eexists. cbn. by rewrite lookup_insert_eq.
  - unfold writer_queue. cbn. by rewrite lookup_insert_eq.
  - unfold cell_value. cbn. by rewrite lookup_insert_eq.
Qed.

(** ** Data in both directions

    The inlet's delegate and the outlet's, for one session of a plain tunnel. *)
Record tunnel := Tunnel { t_inlet : inlet_delegate; t_outlet : outlet_delegate }.

Definition t_in_env (t : tunnel) : env := iw_env (i_world (t_inlet t)).
Definition t_out_env (t : tunnel) : env := ow_env (o_world (t_outlet t)).

(** The session [id] is up: [hi] writes to the client and [ho] to the target. *)
Record linked (id : u32) (hi ho : handle) (t : tunnel) : Prop := {
  l_in_id : in_session_id (i_self (t_inlet t)) = id;
  l_plain : socks5context (i_self (t_inlet t)) = None;
  l_in_entry : session_info_map (i_world (t_inlet t)) !! id = Some
    {| si_proxy_message_tx := None; si_write_msg_tx := hi;
       si_common_info := in_common_data (i_self (t_inlet t)) |};
  l_in_writer : writer_open hi (t_in_env t);
  l_in_output : chan_open (output (t_in_env t)) = true;
  l_out_id : out_session_id (o_self (t_outlet t)) = id;
  l_out_entry : out_sessions (o_world (t_outlet t)) !! id = Some
    {| so_sender := ho; so_common_info := out_common_data (o_self (t_outlet t)) |};
  l_out_writer : writer_open ho (t_out_env t);
  l_out_output : chan_open (output (t_out_env t)) = true;
  l_coding : same_coding (in_common_data (i_self (t_inlet t)))
                         (out_common_data (o_self (t_outlet t)))
}.

Definition in_counter (t : tunnel) : usize :=
  cell_value (read_buf_len (in_common_data (i_self (t_inlet t)))) (t_in_env t).
Definition out_counter (t : tunnel) : usize :=
  cell_value (read_buf_len (out_common_data (o_self (t_outlet t)))) (t_out_env t).

(** What a step added to a queue. *)
Definition added {A} (before after : list A) : list A := drop (length before) after.

(** The bytes these messages write. *)
Definition payloads (ms : list WMsg) : list bytes := payload <$> ms.

Lemma added_app {A} (l k : list A) : added l (l ++ k) = k.
Proof. apply drop_app_length. Qed.

Lemma added_self {A} (l : list A) : added l l = [].
Proof. apply drop_all. Qed.

Lemma sent_push e ms : sent (set_output (Chan true ms) e) = ms.
Proof. done. Qed.

(** *** One step on each side *)

Definition push_output (m : ProxyMessage) (e : env) : env :=
  set_output (Chan true (sent e ++ [m])) e.
Definition put_cell (l : handle) (v : usize) (e : env) : env := set_cells <[l := v]> e.
Definition push_writer (h : handle) (m : WMsg) (e : env) : env :=
  set_writers <[h := Chan true (writer_queue h e ++ [m])]> e.

Lemma inlet_recv_eq d f c :
  socks5context (i_self d) = None →
  encode_data (i_nonce d) (in_common_data (i_self d)) f = Ok c →
  let l := read_buf_len (in_common_data (i_self d)) in
  let e := iw_env (i_world d) in
  cell_value l e <= READ_BUF_MAX_LEN → chan_open (output e) = true →
  on_recv_frame f d = (Ok tt, InletD (i_self d)
    (set_env (push_output (I2oSendData (in_session_id (i_self d)) c)
       (put_cell l (cell_value l e + len c) e)) (i_world d)) (i_nonce d + 1)).
Proof.
  intros Hs Henc l e Hroom Ho. cbn [on_recv_frame InletSession_delegate].
  unfold inlet_on_recv_frame. rewrite gets_bind. erewrite bind_ok by done. rewrite Hs.
  erewrite bind_ok.
  2:{ rewrite encode_and_limit_eq, Henc. cbv zeta. cbn [env_of inlet_delegate_has_env i_world].
      change (iw_env (i_world d)) with e. change (read_buf_len (in_common_data (i_self d))) with l.
      destruct (Z.ltb_spec READ_BUF_MAX_LEN (cell_value l e)); [lia|done]. }
  by rewrite send_output_open.
Qed.

Lemma outlet_recv_eq d f c :
  encode_data (o_nonce d) (out_common_data (o_self d)) f = Ok c →
  let l := read_buf_len (out_common_data (o_self d)) in
  let e := ow_env (o_world d) in
  cell_value l e <= READ_BUF_MAX_LEN → chan_open (output e) = true →
  on_recv_frame f d = (Ok tt, OutletD (o_self d)
    (set_env (push_output (O2iRecvData (out_session_id (o_self d)) c)
       (put_cell l (cell_value l e + len c) e)) (o_world d)) (o_nonce d + 1)).
Proof.
  intros Henc l e Hroom Ho. cbn [on_recv_frame OutletSession_delegate].
  unfold outlet_on_recv_frame. rewrite gets_bind. erewrite bind_ok by done.
  erewrite bind_ok.
  2:{ rewrite encode_and_limit_eq, Henc. cbv zeta. cbn [env_of outlet_delegate_has_env o_world].
      change (ow_env (o_world d)) with e. change (read_buf_len (out_common_data (o_self d))) with l.
      destruct (Z.ltb_spec READ_BUF_MAX_LEN (cell_value l e)); [lia|done]. }
  by rewrite send_output_open.
Qed.

Lemma outlet_data_eq mw id c f w so :
  out_sessions w !! id = Some so → writer_open (so_sender so) (ow_env w) →
  decode_data (so_common_info so) c = Ok f →
  outlet_receive_input mw [I2oSendData id c] w =
    (Ok tt, set_env (push_writer (so_sender so) (SendAndThen f (O2iSendDataResult id (len c)))
              (ow_env w)) w).
Proof.
  intros Hs Ho Hd. cbn [outlet_receive_input]. erewrite bind_ok; [done|].
  cbn [outlet_input_internal]. unfold ignore, on_i2o_send_data, get_out_session.
  rewrite gets_bind, Hs. cbv zeta. rewrite Hd, lift_bind.
  destruct (send_writer_open (H := outlet_world_has_env) _ 
    (SendAndThen f (O2iSendDataResult id (len c))) w Ho) as (q & Hq & ->).
  unfold push_writer, writer_queue. cbn [env_of outlet_world_has_env] in Hq. by rewrite Hq.
Qed.

Lemma inlet_data_eq id c f w i :
  session_info_map w !! id = Some i → si_proxy_message_tx i = None →
  writer_open (si_write_msg_tx i) (iw_env w) → decode_data (si_common_info i) c = Ok f →
  inlet_receive_input [O2iRecvData id c] w =
    (Ok tt, set_env (push_writer (si_write_msg_tx i) (SendAndThen f (I2oRecvDataResult id (len c)))
              (iw_env w)) w).
Proof.
  intros Hs Hp Ho Hd. cbn [inlet_receive_input]. erewrite bind_ok; [done|].
  cbn [inlet_input_internal]. unfold ignore, get_session. rewrite gets_bind, Hs, Hp. cbv zeta.
  rewrite Hd, lift_bind.
  destruct (send_writer_open (H := inlet_world_has_env) _
    (SendAndThen f (I2oRecvDataResult id (len c))) w Ho) as (q & Hq & ->).
  unfold push_writer, writer_queue. cbn [env_of inlet_world_has_env] in Hq. by rewrite Hq.
Qed.

Lemma inlet_ack_eq id n w i :
  session_info_map w !! id = Some i →
  let l := read_buf_len (si_common_info i) in
  inlet_receive_input [O2iSendDataResult id n] w =
    (Ok tt, set_env (put_cell l (Z.max 0 (cell_value l (iw_env w) - n)) (iw_env w)) w).
Proof.
  intros Hs l. cbn [inlet_receive_input]. erewrite bind_ok; [done|].
  cbn [inlet_input_internal]. unfold ignore, get_session. rewrite gets_bind, Hs.
  by rewrite release_eq.
Qed.

Lemma outlet_ack_eq mw id n w so :
  out_sessions w !! id = Some so →
  let l := read_buf_len (so_common_info so) in
  outlet_receive_input mw [I2oRecvDataResult id n] w =
    (Ok tt, set_env (put_cell l (Z.max 0 (cell_value l (ow_env w) - n)) (ow_env w)) w).
Proof.
  intros Hs l. cbn [outlet_receive_input]. erewrite bind_ok; [done|].
  cbn [outlet_input_internal]. unfold ignore, on_i2o_recv_data_result, get_out_session.
  rewrite gets_bind, Hs. by rewrite release_eq.
Qed.

Lemma writer_queue_pushed h m e : writer_queue h (push_writer h m e) = writer_queue h e ++ [m].
Proof. unfold writer_queue at 1, push_writer. cbn. by rewrite lookup_insert_eq. Qed.

Lemma writer_open_pushed h h' m e : writer_open h' e → writer_open h' (push_writer h m e).
Proof.
  intros [q Hq]. destruct (decide (h = h')) as [->|Hne].
  - eexists. cbn. by rewrite lookup_insert_eq.
  - exists q. cbn. by rewrite lookup_insert_ne.
Qed.

Lemma cell_put l v e : cell_value l (put_cell l v e) = v.
Proof. unfold cell_value. cbn. by rewrite lookup_insert_eq. Qed.

Definition encodes (info : SessionCommonInfo) : Prop :=
  ∀ nonce f, ∃ c, encode_data nonce info f = Ok c.

(** *** The announcement *)

Lemma request_same_coding w (i : SessionCommonInfo) :
  same_coding i (request_info w (is_compressed i) (method_to_string (encryption_method i))
    (encryption_key i)).
Proof. split_and!; try done. cbn. by rewrite get_method_to_string. Qed.

(** A request that reaches the target: the session is set up, and two messages
    report it (one from the session's start, one from the request). *)
Lemma announced_connect id t tcp addr client (i : SessionCommonInfo) peer w :
  bytes_ok (encryption_key i) → out_sessions w !! id = None → os_connect t tcp addr = Ok peer →
  chan_open (output (ow_env w)) = true →
  ∃ o sp so w', outlet_input_internal start_spawned
      (I2oConnect id (to_u8 t) tcp (is_compressed i) addr (method_to_string (encryption_method i))
         (base64_encode (encryption_key i)) client) w = (Ok tt, w') ∧
    spawned w' = spawned w ++ [sp] ∧ started sp (so_sender so) o ∧
    out_session_id (o_self o) = id ∧ so_common_info so = out_common_data (o_self o) ∧
    same_coding i (out_common_data (o_self o)) ∧
    out_sessions w' = <[id := so]> (out_sessions w) ∧
    writer_open (so_sender so) (ow_env w') ∧ writer_queue (so_sender so) (ow_env w') = [] ∧
    cell_value (read_buf_len (out_common_data (o_self o))) (ow_env w') = 0 ∧
    output (ow_env w') = Chan true (sent (ow_env w) ++ [O2iConnect id true ""; O2iConnect id true ""]).
Proof.
  intros Hk Hn Hos Ho. cbn [outlet_input_internal]. unfold if_err.
  erewrite connect_eq; [|done|by apply base64_roundtrip|exact Hos].
  destruct (start_spawned_eq w id t tcp (is_compressed i)
    (method_to_string (encryption_method i)) (encryption_key i) peer Ho)
    as (o & sp & so & Hs & Hsp & Hst & Hself & Hm & Hi & Hw & Hq & Hout & Hcell).
  unfold await_session. rewrite (bind_ok _ _ _ _ _ Hs). unfold get_out_session. rewrite gets_bind.
  rewrite Hm, lookup_insert_eq. unfold mret, M_ret.
  rewrite send_output_open by (cbn; by rewrite Hout). exists o, sp, so. eexists. split; [done|].
  rewrite Hself, Hi.
  cbn [env_of outlet_world_has_env set_env out_sessions ow_env spawned out_common_data out_session_id].
  split_and!; try done.
  - apply request_same_coding.
  - cbn. unfold sent at 1. rewrite Hout. cbn. by rewrite <- app_assoc.
Qed.

(** *** Datagrams of a plain tunnel *)

Lemma plain_outlet_frames_from d f peer :
  is_socks5 (tunnel_type (o_self d)) = false →
  on_recv_frame_from f peer d = on_recv_frame f d.
Proof.
  intros Ht. cbn [on_recv_frame_from on_recv_frame OutletSession_delegate].
  unfold outlet_on_recv_frame_from. rewrite gets_bind, Ht. done.
Qed.
End Tunnel.

(** ** A concrete session *)

Module TunnelConcrete.
Import InletConcrete.
Definition inlet_side : inlet_delegate :=
  InletD {| inlet_proxy_type := TCP; output_addr := "10.0.0.9:80"; in_session_id := 8;
            in_common_data := info; socks5context := None;
            in_data_ex := Socks5Concrete.creds |} InletConcrete.world 0.
Definition outlet_side : outlet_delegate :=
  OutletD {| out_session_id := 8; out_common_data := OutletConcrete.info; tunnel_type := TCP |}
    OutletConcrete.world 0.
End TunnelConcrete.
