(* ===== verification/Link.v ===== *)
(** A session's tasks at both ends of a tunnel, interleaved: the readers, the
    tasks that take the other end's messages, and the write loops, with the
    messages on their way between them; its abstract specification, a pair of
    first-in first-out queues of frames; and the refinement between them. *)

From S2P Require Import Prelude Std Extern Crypto Net Proxy Common TargetAddr Socks5 Inlet Outlet Tunnel.

(** ** The tasks *)

Section Link.
Context `{Lz4} `{SimplestCrypt} `{Base64} `{UdpOs} `{OutletOs} `{AsyncWrite} `{HB : !BufWriter}.

(** Both ends, what each has sent and the other has not taken yet, what each
    write loop has still to take, and the state of the write loops. *)
Record link := Link {
  k_inlet : inlet_delegate;
  k_outlet : outlet_delegate;
  k_up : list ProxyMessage;
  k_down : list ProxyMessage;
  k_to_target : list WMsg;
  k_to_client : list WMsg;
  k_target : pw ProxyMessage;
  k_client : pw ProxyMessage
}.

Definition in_env (d : inlet_delegate) : env := iw_env (i_world d).
Definition out_env (d : outlet_delegate) : env := ow_env (o_world d).

Definition sent_since {D} (env_of : D → env) (d d' : D) : list ProxyMessage :=
  added (sent (env_of d)) (sent (env_of d')).
Definition queued_since {D} (env_of : D → env) (h : handle) (d d' : D) : list WMsg :=
  added (writer_queue h (env_of d)) (writer_queue h (env_of d')).

(** The callbacks a turn of a write loop has run: each sends its message. *)
Fixpoint run_callbacks {D} `{HasEnv D} (cbs : list ProxyMessage) : M D unit :=
  match cbs with
  | [] => mret tt
  | m :: cbs => ignore (send_output m);; run_callbacks cbs
  end.

(** What is seen from outside: the frames that are read off a stream, and what
    reaches one from behind its buffered writer. *)
Inductive label :=
| ClientSends (f : bytes)
| TargetGets (d : bytes)
| TargetSends (f : bytes)
| ClientGets (d : bytes)
| Inside.

(** One turn of one task; [hi] writes to the client and [ho] to the target. *)
Inductive link_step (hi ho : handle) : link → label → link → Prop :=
| read_client f i i' o up down tt_ tc t c :
    on_recv_frame f i = (Ok tt, i') →
    link_step hi ho (Link i o up down tt_ tc t c) (ClientSends f)
      (Link i' o (up ++ sent_since in_env i i') down tt_ tc t c)
| read_target f i o o' up down tt_ tc t c :
    on_recv_frame f o = (Ok tt, o') →
    link_step hi ho (Link i o up down tt_ tc t c) (TargetSends f)
      (Link i o' up (down ++ sent_since out_env o o') tt_ tc t c)
| take_up m i o o' up down tt_ tc t c :
    out_world (outlet_receive_input (mret tt) [m]) o = (Ok tt, o') →
    link_step hi ho (Link i o (m :: up) down tt_ tc t c) Inside
      (Link i o' up (down ++ sent_since out_env o o') (tt_ ++ queued_since out_env ho o o') tc t c)
| take_down m i i' o up down tt_ tc t c :
    in_world (inlet_receive_input [m]) i = (Ok tt, i') →
    link_step hi ho (Link i o up (m :: down) tt_ tc t c) Inside
      (Link i' o (up ++ sent_since in_env i i') down tt_ (tc ++ queued_since in_env hi i i') t c)
| write_target m i o o' up down tt_ tc t t' c :
    write_step m t = (Ok Continue, t') →
    run_callbacks (called (added (pw_log t) (pw_log t'))) o = (Ok tt, o') →
    link_step hi ho (Link i o up down (m :: tt_) tc t c)
      (TargetGets (added (delivered_by t) (delivered_by t')))
      (Link i o' up (down ++ sent_since out_env o o') tt_ tc t' c)
| write_client m i i' o up down tt_ tc t c c' :
    write_step m c = (Ok Continue, c') →
    run_callbacks (called (added (pw_log c) (pw_log c'))) i = (Ok tt, i') →
    link_step hi ho (Link i o up down tt_ (m :: tc) t c)
      (ClientGets (added (delivered_by c) (delivered_by c')))
      (Link i' o (up ++ sent_since in_env i i') down tt_ tc t c').

Inductive link_run (hi ho : handle) : link → list label → link → Prop :=
| run_nil k : link_run hi ho k [] k
| run_cons k l k1 ls k2 :
    link_step hi ho k l k1 → link_run hi ho k1 ls k2 → link_run hi ho k (l :: ls) k2.

(** ** The specification: a first-in first-out queue of frames each way *)

Inductive spec_step : list bytes * list bytes → label → list bytes * list bytes → Prop :=
| spec_client f u d : spec_step (u, d) (ClientSends f) (u ++ [f], d)
| spec_target_gets f u d : spec_step (f :: u, d) (TargetGets f) (u, d)
| spec_target f u d : spec_step (u, d) (TargetSends f) (u, d ++ [f])
| spec_client_gets f u d : spec_step (u, f :: d) (ClientGets f) (u, d)
| spec_inside s : spec_step s Inside s.

Inductive spec_run : list bytes * list bytes → list label → list bytes * list bytes → Prop :=
| spec_nil s : spec_run s [] s
| spec_cons s l s1 ls s2 : spec_step s l s1 → spec_run s1 ls s2 → spec_run s (l :: ls) s2.

(** ** What is on its way *)

(** The frames the messages carry, decoded as their receiver does. *)
Definition up_frames (j : SessionCommonInfo) (ms : list ProxyMessage) : list bytes :=
  omap (λ m, match m with
             | I2oSendData _ c => match decode_data j c with Ok f => Some f | _ => None end
             | _ => None
             end) ms.
Definition down_frames (i : SessionCommonInfo) (ms : list ProxyMessage) : list bytes :=
  omap (λ m, match m with
             | O2iRecvData _ c => match decode_data i c with Ok f => Some f | _ => None end
             | _ => None
             end) ms.

(** The frames under way in each direction, the oldest first. *)
Definition under_way (k : link) : list bytes * list bytes :=
  (payloads (k_to_target k) ++ up_frames (out_common_data (o_self (k_outlet k))) (k_up k),
   payloads (k_to_client k) ++ down_frames (in_common_data (i_self (k_inlet k))) (k_down k)).

(** The encoded bytes a message still holds of a counter. *)
Definition up_debt (m : ProxyMessage) : Z :=
  match m with I2oSendData _ c => len c | O2iSendDataResult _ n => n | _ => 0 end.
Definition down_debt (m : ProxyMessage) : Z :=
  match m with O2iRecvData _ c => len c | I2oRecvDataResult _ n => n | _ => 0 end.
Definition callback_of (m : WMsg) : option ProxyMessage :=
  match m with SendAndThen _ cb => Some cb | _ => None end.
Definition write_debt (debt : ProxyMessage → Z) (m : WMsg) : Z :=
  match callback_of m with Some cb => debt cb | None => 0 end.

Definition debt (d : ProxyMessage → Z) (k : link) : Z :=
  sumZ (d <$> k_up k) + sumZ (d <$> k_down k) +
  sumZ (write_debt d <$> k_to_target k) + sumZ (write_debt d <$> k_to_client k).

(** The messages of session [id] that can be on their way. *)
Definition up_ok (id : u32) (j : SessionCommonInfo) (m : ProxyMessage) : Prop :=
  match m with
  | I2oSendData s c => s = id ∧ is_ok (decode_data j c) = true
  | I2oRecvDataResult s n => s = id ∧ 0 <= n
  | _ => False
  end.
Definition down_ok (id : u32) (i : SessionCommonInfo) (m : ProxyMessage) : Prop :=
  match m with
  | O2iRecvData s c => s = id ∧ is_ok (decode_data i c) = true
  | O2iSendDataResult s n => s = id ∧ 0 <= n
  | _ => False
  end.
Definition to_target_ok (id : u32) (m : WMsg) : Prop :=
  match m with SendAndThen _ (O2iSendDataResult s n) => s = id ∧ 0 <= n | _ => False end.
Definition to_client_ok (id : u32) (m : WMsg) : Prop :=
  match m with SendAndThen _ (I2oRecvDataResult s n) => s = id ∧ 0 <= n | _ => False end.

(** The invariant of a session that is up. *)
Record link_ok (id : u32) (hi ho : handle) (k : link) : Prop := {
  k_linked : linked id hi ho (Tunnel (k_inlet k) (k_outlet k));
  k_up_ok : Forall (up_ok id (out_common_data (o_self (k_outlet k)))) (k_up k);
  k_down_ok : Forall (down_ok id (in_common_data (i_self (k_inlet k)))) (k_down k);
  k_to_target_ok : Forall (to_target_ok id) (k_to_target k);
  k_to_client_ok : Forall (to_client_ok id) (k_to_client k);
  k_in_counter : in_counter (Tunnel (k_inlet k) (k_outlet k)) = debt up_debt k;
  k_out_counter : out_counter (Tunnel (k_inlet k) (k_outlet k)) = debt down_debt k;
  k_target_flushed : buffered (pw_writer (k_target k)) = [];
  k_client_flushed : buffered (pw_writer (k_client k)) = []
}.
End Link.

(** ** Facts *)

Section LinkFacts.
Context `{Lz4} `{SimplestCrypt} `{Base64} `{UdpOs} `{OutletOs} `{AsyncWrite} `{HB : !BufWriter}.

(** A side after a change of its environment. *)
Definition upd_in (e : env) (n : Z) (i : inlet_delegate) : inlet_delegate :=
  InletD (i_self i) (set_env e (i_world i)) n.
Definition upd_out (e : env) (n : Z) (o : outlet_delegate) : outlet_delegate :=
  OutletD (o_self o) (set_env e (o_world o)) n.

Lemma linked_upd_in id hi ho i o e n :
  linked id hi ho (Tunnel i o) → writer_open hi e → chan_open (output e) = true →
  linked id hi ho (Tunnel (upd_in e n i) o).
Proof. intros [] Hw Ho. by split. Qed.

Lemma linked_upd_out id hi ho i o e n :
  linked id hi ho (Tunnel i o) → writer_open ho e → chan_open (output e) = true →
  linked id hi ho (Tunnel i (upd_out e n o)).
Proof. intros [] Hw Ho. by split. Qed.

(** Reports of success change nothing at a plain session. *)
Lemma reports_taken id i (w : inlet_world) ms :
  session_info_map w !! id = Some i → si_proxy_message_tx i = None →
  Forall (λ m, m = O2iConnect id true "") ms → inlet_receive_input ms w = (Ok tt, w).
Proof.
  intros Hs Hp. induction 1 as [|m ms -> _ IH]; [done|]. cbn [inlet_receive_input].
  erewrite bind_ok; [exact IH|]. unfold ignore. cbn [inlet_input_internal].
  unfold get_session. by rewrite gets_bind, Hs, Hp.
Qed.

(** *** The readers *)

Definition in_cell (i : inlet_delegate) : handle := read_buf_len (in_common_data (i_self i)).
Definition out_cell (o : outlet_delegate) : handle := read_buf_len (out_common_data (o_self o)).

(** The environment after a frame was read and its encoding [c] sent. *)
Definition read_in (i : inlet_delegate) (c : bytes) : env :=
  push_output (I2oSendData (in_session_id (i_self i)) c)
    (put_cell (in_cell i) (cell_value (in_cell i) (in_env i) + len c) (in_env i)).
Definition read_out (o : outlet_delegate) (c : bytes) : env :=
  push_output (O2iRecvData (out_session_id (o_self o)) c)
    (put_cell (out_cell o) (cell_value (out_cell o) (out_env o) + len c) (out_env o)).

Lemma inlet_reads i i' f :
  socks5context (i_self i) = None → chan_open (output (in_env i)) = true →
  on_recv_frame f i = (Ok tt, i') ↔
  ∃ c, encode_data (i_nonce i) (in_common_data (i_self i)) f = Ok c ∧
    cell_value (in_cell i) (in_env i) <= READ_BUF_MAX_LEN ∧
    i' = upd_in (read_in i c) (i_nonce i + 1) i.
Proof.
  intros Hs Ho. split.
  - intros Hrun. assert (∃ c, encode_data (i_nonce i) (in_common_data (i_self i)) f = Ok c ∧
      cell_value (in_cell i) (in_env i) <= READ_BUF_MAX_LEN) as (c & Hc & Hroom).
    { revert Hrun. cbn [on_recv_frame InletSession_delegate]. unfold inlet_on_recv_frame.
      rewrite gets_bind. erewrite bind_ok by done. rewrite Hs.
      unfold mbind at 1, M_bind at 1. rewrite encode_and_limit_eq.
      destruct (encode_data _ _ f) as [c| | |]; try done. cbv zeta.
      cbn [env_of inlet_delegate_has_env i_world].
      fold (in_cell i) (in_env i). destruct (Z.ltb_spec READ_BUF_MAX_LEN (cell_value (in_cell i) (in_env i)));
        [done|]. intros _. by exists c. }
    exists c. split_and!; [done..|]. rewrite (inlet_recv_eq i f c Hs Hc Hroom Ho) in Hrun.
    by injection Hrun as <-.
  - intros (c & Hc & Hroom & ->). by apply inlet_recv_eq.
Qed.

Lemma outlet_reads o o' f :
  chan_open (output (out_env o)) = true →
  on_recv_frame f o = (Ok tt, o') ↔
  ∃ c, encode_data (o_nonce o) (out_common_data (o_self o)) f = Ok c ∧
    cell_value (out_cell o) (out_env o) <= READ_BUF_MAX_LEN ∧
    o' = upd_out (read_out o c) (o_nonce o + 1) o.
Proof.
  intros Ho. split.
  - intros Hrun. assert (∃ c, encode_data (o_nonce o) (out_common_data (o_self o)) f = Ok c ∧
      cell_value (out_cell o) (out_env o) <= READ_BUF_MAX_LEN) as (c & Hc & Hroom).
    { revert Hrun. cbn [on_recv_frame OutletSession_delegate]. unfold outlet_on_recv_frame.
      rewrite gets_bind. erewrite bind_ok by done.
      unfold mbind at 1, M_bind at 1. rewrite encode_and_limit_eq.
      destruct (encode_data _ _ f) as [c| | |]; try done. cbv zeta.
      cbn [env_of outlet_delegate_has_env o_world].
      fold (out_cell o) (out_env o). destruct (Z.ltb_spec READ_BUF_MAX_LEN (cell_value (out_cell o) (out_env o)));
        [done|]. intros _. by exists c. }
    exists c. split_and!; [done..|]. rewrite (outlet_recv_eq o f c Hc Hroom Ho) in Hrun.
    by injection Hrun as <-.
  - intros (c & Hc & Hroom & ->). by apply outlet_recv_eq.
Qed.

(** *** The write loops *)

Lemma write_turn (f : bytes) (cb : ProxyMessage) (p p' : pw ProxyMessage) c :
  writer_accepts → buffered (pw_writer p) = [] → write_step (SendAndThen f cb) p = (Ok c, p') →
  c = Continue ∧ added (delivered_by p) (delivered_by p') = f ∧ buffered (pw_writer p') = [] ∧
  called (added (pw_log p) (pw_log p')) = [cb].
Proof.
  intros Hw Hb Hs. destruct (write_step_log (SendAndThen f cb) p Hw eq_refl) as [w' Hs'].
  destruct (write_step_settles Hw (SendAndThen f cb) p eq_refl) as (p2 & E & [_ T] & He).
  rewrite E in Hs. injection Hs as <- <-. rewrite E in Hs'. injection Hs' as ->.
  cbn [pw_log stops_loop]. rewrite added_app. unfold taken, delivered_by in *. cbn [pw_writer payload] in *.
  rewrite Hb, app_nil_r in T. destruct f as [|b f].
  - revert E. cbn. unfold log_event. intros [= <-]. by rewrite added_self.
  - rewrite (He eq_refl), app_nil_r in T. rewrite T, added_app. by rewrite (He eq_refl).
Qed.

Lemma write_turn_done (f : bytes) (cb : ProxyMessage) (p : pw ProxyMessage) :
  writer_accepts → ∃ p', write_step (SendAndThen f cb) p = (Ok Continue, p').
Proof.
  intros Hw. destruct (write_step_log (SendAndThen f cb) p Hw eq_refl) as [w' Hs']. eauto.
Qed.

Lemma run_callback {D} `{HasEnv D} m (d : D) :
  chan_open (output (env_of d)) = true →
  run_callbacks [m] d = (Ok tt, set_env (push_output m (env_of d)) d).
Proof.
  intros Ho. cbn [run_callbacks]. erewrite bind_ok; [done|].
  unfold ignore. by rewrite send_output_open.
Qed.

(** *** What a step adds *)

Lemma added_push m e e' : sent e' = sent e → added (sent e) (sent (push_output m e')) = [m].
Proof. intros He. unfold push_output. rewrite sent_push, He. apply added_app. Qed.
Lemma added_queue h m e : added (writer_queue h e) (writer_queue h (push_writer h m e)) = [m].
Proof. rewrite writer_queue_pushed. apply added_app. Qed.

Lemma sumZ_cons x xs : sumZ (x :: xs) = x + sumZ xs.
Proof. done. Qed.

Lemma sum_nonneg {A} (P : A → Prop) (d : A → Z) ms :
  (∀ m, P m → 0 <= d m) → Forall P ms → 0 <= sumZ (d <$> ms).
Proof. intros Hd Hms. apply sumZ_nonneg, Forall_fmap. by eapply Forall_impl. Qed.

(** No debt is negative. *)
Definition is_debt (d : ProxyMessage → Z) : Prop := d = up_debt ∨ d = down_debt.

Lemma up_nonneg id j d ms : is_debt d → Forall (up_ok id j) ms → 0 <= sumZ (d <$> ms).
Proof.
  intros Hd. apply sum_nonneg. intros [] Hm; destruct Hd as [-> | ->]; cbn in *; try done;
    auto using len_nonneg; lia.
Qed.
Lemma down_nonneg id j d ms : is_debt d → Forall (down_ok id j) ms → 0 <= sumZ (d <$> ms).
Proof.
  intros Hd. apply sum_nonneg. intros [] Hm; destruct Hd as [-> | ->]; cbn in *; try done;
    auto using len_nonneg; lia.
Qed.
Lemma to_target_nonneg id d ms :
  is_debt d → Forall (to_target_ok id) ms → 0 <= sumZ (write_debt d <$> ms).
Proof.
  intros Hd. apply sum_nonneg. intros [| | | | |f []] Hm; destruct Hd as [-> | ->]; cbn in *;
    done || lia.
Qed.
Lemma to_client_nonneg id d ms :
  is_debt d → Forall (to_client_ok id) ms → 0 <= sumZ (write_debt d <$> ms).
Proof.
  intros Hd. apply sum_nonneg. intros [| | | | |f []] Hm; destruct Hd as [-> | ->]; cbn in *;
    done || lia.
Qed.

Lemma is_debt_up : is_debt up_debt.
Proof. by left. Qed.
Lemma is_debt_down : is_debt down_debt.
Proof. by right. Qed.

Lemma write_debt_then d f cb : write_debt d (SendAndThen f cb) = d cb.
Proof. done. Qed.

(** *** The turns, from a session that is up *)

Lemma in_counter_upd e n i o : in_counter (Tunnel (upd_in e n i) o) = cell_value (in_cell i) e.
Proof. done. Qed.
Lemma out_counter_upd e n i o : out_counter (Tunnel i (upd_out e n o)) = cell_value (out_cell o) e.
Proof. done. Qed.
Lemma in_counter_same e n i o : in_counter (Tunnel i (upd_out e n o)) = in_counter (Tunnel i o).
Proof. done. Qed.
Lemma out_counter_same e n i o : out_counter (Tunnel (upd_in e n i) o) = out_counter (Tunnel i o).
Proof. done. Qed.
Lemma cell_push_output l m e : cell_value l (push_output m e) = cell_value l e.
Proof. done. Qed.
Lemma cell_push_writer l h m e : cell_value l (push_writer h m e) = cell_value l e.
Proof. done. Qed.

#[local] Ltac fields := cbn [k_inlet k_outlet k_up k_down k_to_target k_to_client k_target k_client] in *.

#[local] Ltac debts :=
  repeat match goal with
  | Hms : Forall (up_ok _ _) ?ms |- _ => pose proof (up_nonneg _ _ _ _ is_debt_up Hms);
      pose proof (up_nonneg _ _ _ _ is_debt_down Hms); revert Hms
  | Hms : Forall (down_ok _ _) ?ms |- _ => pose proof (down_nonneg _ _ _ _ is_debt_up Hms);
      pose proof (down_nonneg _ _ _ _ is_debt_down Hms); revert Hms
  | Hms : Forall (to_target_ok _) ?ms |- _ => pose proof (to_target_nonneg _ _ _ is_debt_up Hms);
      pose proof (to_target_nonneg _ _ _ is_debt_down Hms); revert Hms
  | Hms : Forall (to_client_ok _) ?ms |- _ => pose proof (to_client_nonneg _ _ _ is_debt_up Hms);
      pose proof (to_client_nonneg _ _ _ is_debt_down Hms); revert Hms
  end; intros.

(** The sums of what is on its way, after a turn. *)
#[local] Ltac sums :=
  unfold debt in *; fields;
  rewrite ?in_counter_upd, ?out_counter_upd, ?in_counter_same, ?out_counter_same,
    ?fmap_app, ?fmap_cons, ?fmap_nil, ?sumZ_app, ?sumZ_cons, ?write_debt_then in *;
  cbn [up_debt down_debt] in *;
  change (sumZ []) with 0 in *;
  unfold read_in, read_out; rewrite ?cell_push_output, ?cell_push_writer, ?cell_put;
  unfold in_counter, out_counter, t_in_env, t_out_env, in_cell, out_cell, in_env, out_env in *;
  cbn [t_inlet t_outlet] in *; lia.

Lemma read_client_turn id hi ho i o up down tt_ tc t c x :
  link_ok id hi ho (Link i o up down tt_ tc t c) →
  is_ok (decode_data (in_common_data (i_self i)) x) = true →
  link_ok id hi ho
    (Link (upd_in (read_in i x) (i_nonce i + 1) i) o (up ++ [I2oSendData id x]) down tt_ tc t c).
Proof.
  intros [Hl Hu Hd Htt Htc Hic Hoc Hft Hfc] Hx. fields. pose proof (l_coding _ _ _ _ Hl) as Hcod.
  split; fields; try done; try sums.
  - by destruct (Hl); apply linked_upd_in.
  - apply Forall_app. split; [done|]. repeat constructor. by rewrite <- Hcod.
Qed.

Lemma read_target_turn id hi ho i o up down tt_ tc t c x :
  link_ok id hi ho (Link i o up down tt_ tc t c) →
  is_ok (decode_data (out_common_data (o_self o)) x) = true →
  link_ok id hi ho
    (Link i (upd_out (read_out o x) (o_nonce o + 1) o) up (down ++ [O2iRecvData id x]) tt_ tc t c).
Proof.
  intros [Hl Hu Hd Htt Htc Hic Hoc Hft Hfc] Hx. fields. pose proof (l_coding _ _ _ _ Hl) as Hcod.
  split; fields; try done; try sums.
  - by destruct (Hl); apply linked_upd_out.
  - apply Forall_app. split; [done|]. repeat constructor. cbn [t_inlet t_outlet] in Hcod. by rewrite Hcod.
Qed.

(** The outlet takes a message of the inlet: data goes to its write loop, an
    acknowledgement is subtracted. *)
Definition taken_up (ho : handle) (m : ProxyMessage) (o : outlet_delegate) : outlet_delegate * list WMsg :=
  match m with
  | I2oSendData id x =>
      match decode_data (out_common_data (o_self o)) x with
      | Ok f =>
          let w := SendAndThen f (O2iSendDataResult id (len x)) in
          (upd_out (push_writer ho w (out_env o)) (o_nonce o) o, [w])
      | _ => (o, [])
      end
  | I2oRecvDataResult id n =>
      (upd_out (put_cell (out_cell o) (Z.max 0 (cell_value (out_cell o) (out_env o) - n)) (out_env o))
         (o_nonce o) o, [])
  | _ => (o, [])
  end.

Definition taken_down (hi : handle) (m : ProxyMessage) (i : inlet_delegate) : inlet_delegate * list WMsg :=
  match m with
  | O2iRecvData id x =>
      match decode_data (in_common_data (i_self i)) x with
      | Ok f =>
          let w := SendAndThen f (I2oRecvDataResult id (len x)) in
          (upd_in (push_writer hi w (in_env i)) (i_nonce i) i, [w])
      | _ => (i, [])
      end
  | O2iSendDataResult id n =>
      (upd_in (put_cell (in_cell i) (Z.max 0 (cell_value (in_cell i) (in_env i) - n)) (in_env i))
         (i_nonce i) i, [])
  | _ => (i, [])
  end.

Lemma take_up_eq id hi ho i o up m down tt_ tc t c :
  link_ok id hi ho (Link i o (m :: up) down tt_ tc t c) →
  let r := taken_up ho m o in
  out_world (outlet_receive_input (mret tt) [m]) o = (Ok tt, fst r) ∧
  sent_since out_env o (fst r) = [] ∧ queued_since out_env ho o (fst r) = snd r.
Proof.
  intros [Hl Hu _ _ _ _ _ _ _] r. fields. destruct Hl as [_ _ _ _ _ _ Hout How Hoo _].
  cbn [t_inlet t_outlet] in *. apply Forall_cons in Hu as [Hm _]. unfold out_world.
  destruct m; try done; cbn in Hm; destruct Hm as [-> Hm]; unfold r; cbn [taken_up].
  - destruct (decode_data (out_common_data (o_self o)) _) as [f| | |] eqn:Hf; try done.
    rewrite (outlet_data_eq _ _ _ f _ _ Hout How Hf). split; [done|]. cbn [fst snd].
    split; [apply added_self|]. apply added_queue.
  - rewrite (outlet_ack_eq _ _ _ _ _ Hout). split; [done|]. cbn [fst snd].
    split; apply added_self.
Qed.

Lemma take_up_turn id hi ho i o up m down tt_ tc t c :
  link_ok id hi ho (Link i o (m :: up) down tt_ tc t c) →
  let r := taken_up ho m o in
  link_ok id hi ho (Link i (fst r) up down (tt_ ++ snd r) tc t c).
Proof.
  intros [Hl Hu Hd Htt Htc Hic Hoc Hft Hfc] r. fields. apply Forall_cons in Hu as [Hm Hu]. debts. destruct (Hl) as [_ _ _ _ _ _ Hout How Hoo _].
  destruct m; try done; cbn in Hm; destruct Hm as [-> Hm]; unfold r; cbn [taken_up].
  - destruct (decode_data (out_common_data (o_self o)) _) as [f| | |] eqn:Hf; try done. cbn [fst snd].
    split; fields; try done; try sums.
    + apply linked_upd_out; [done|by apply writer_open_pushed|done].
    + apply Forall_app. split; [done|]. repeat constructor. apply len_nonneg.
  - cbn [fst snd]. rewrite app_nil_r. split; fields; try done; try sums.
    by apply linked_upd_out.
Qed.

Lemma take_down_eq id hi ho i o up m down tt_ tc t c :
  link_ok id hi ho (Link i o up (m :: down) tt_ tc t c) →
  let r := taken_down hi m i in
  in_world (inlet_receive_input [m]) i = (Ok tt, fst r) ∧
  sent_since in_env i (fst r) = [] ∧ queued_since in_env hi i (fst r) = snd r.
Proof.
  intros [Hl _ Hd _ _ _ _ _ _] r. fields. destruct Hl as [_ _ Hin Hiw Hio _ _ _ _ _].
  cbn [t_inlet t_outlet] in *. apply Forall_cons in Hd as [Hm _]. unfold in_world.
  destruct m; try done; cbn in Hm; destruct Hm as [-> Hm]; unfold r; cbn [taken_down].
  - rewrite (inlet_ack_eq _ _ _ _ Hin). split; [done|]. cbn [fst snd].
    split; apply added_self.
  - destruct (decode_data (in_common_data (i_self i)) _) as [f| | |] eqn:Hf; try done.
    rewrite (inlet_data_eq _ _ f _ _ Hin eq_refl Hiw Hf). split; [done|]. cbn [fst snd].
    split; [apply added_self|]. apply added_queue.
Qed.

Lemma take_down_turn id hi ho i o up m down tt_ tc t c :
  link_ok id hi ho (Link i o up (m :: down) tt_ tc t c) →
  let r := taken_down hi m i in
  link_ok id hi ho (Link (fst r) o up down tt_ (tc ++ snd r) t c).
Proof.
  intros [Hl Hu Hd Htt Htc Hic Hoc Hft Hfc] r. fields. apply Forall_cons in Hd as [Hm Hd]. debts.
  destruct (Hl) as [_ _ Hin Hiw Hio _ _ _ _ _].
  destruct m; try done; cbn in Hm; destruct Hm as [-> Hm]; unfold r; cbn [taken_down].
  - cbn [fst snd]. rewrite app_nil_r. split; fields; try done; try sums.
    by apply linked_upd_in.
  - destruct (decode_data (in_common_data (i_self i)) _) as [f| | |] eqn:Hf; try done. cbn [fst snd].
    split; fields; try done; try sums.
    + apply linked_upd_in; [done|by apply writer_open_pushed|done].
    + apply Forall_app. split; [done|]. repeat constructor. apply len_nonneg.
Qed.

(** A write loop has written a frame: its acknowledgement is sent. *)
Lemma write_target_turn id hi ho i o up f n down tt_ tc t t' c :
  let cb := O2iSendDataResult id n in
  buffered (pw_writer t') = [] →
  link_ok id hi ho (Link i o up down (SendAndThen f cb :: tt_) tc t c) →
  link_ok id hi ho
    (Link i (upd_out (push_output cb (out_env o)) (o_nonce o) o) up (down ++ [cb]) tt_ tc t' c).
Proof.
  intros cb Hf' [Hl Hu Hd Htt Htc Hic Hoc Hft Hfc]. fields. apply Forall_cons in Htt as [Hm Htt].
  destruct (Hl) as [_ _ _ _ _ _ Hout How Hoo _]. unfold cb in *.
  split; fields; try done; try sums.
  - by apply linked_upd_out.
  - apply Forall_app. split; [done|]. apply Forall_singleton. exact Hm.
Qed.

Lemma write_client_turn id hi ho i o up f n down tt_ tc t c c' :
  let cb := I2oRecvDataResult id n in
  buffered (pw_writer c') = [] →
  link_ok id hi ho (Link i o up down tt_ (SendAndThen f cb :: tc) t c) →
  link_ok id hi ho
    (Link (upd_in (push_output cb (in_env i)) (i_nonce i) i) o (up ++ [cb]) down tt_ tc t c').
Proof.
  intros cb Hf' [Hl Hu Hd Htt Htc Hic Hoc Hft Hfc]. fields. apply Forall_cons in Htc as [Hm Htc].
  destruct (Hl) as [_ _ Hin Hiw Hio _ _ _ _ _]. unfold cb in *.
  split; fields; try done; try sums.
  - by apply linked_upd_in.
  - apply Forall_app. split; [done|]. apply Forall_singleton. exact Hm.
Qed.

(** *** What is under way, after a turn *)

Lemma up_frames_app j l k : up_frames j (l ++ k) = up_frames j l ++ up_frames j k.
Proof. apply omap_app. Qed.
Lemma down_frames_app j l k : down_frames j (l ++ k) = down_frames j l ++ down_frames j k.
Proof. apply omap_app. Qed.

Lemma added_pushed_in cb i n : chan_open (output (in_env i)) = true →
  run_callbacks [cb] i = (Ok tt, upd_in (push_output cb (in_env i)) (i_nonce i) i) ∧
  sent_since in_env i (upd_in (push_output cb (in_env i)) n i) = [cb].
Proof.
  intros Ho. split; [|by apply added_push]. exact (run_callback (H5 := inlet_delegate_has_env) cb i Ho).
Qed.

Lemma added_pushed_out cb o n : chan_open (output (out_env o)) = true →
  run_callbacks [cb] o = (Ok tt, upd_out (push_output cb (out_env o)) (o_nonce o) o) ∧
  sent_since out_env o (upd_out (push_output cb (out_env o)) n o) = [cb].
Proof.
  intros Ho. split; [|by apply added_push]. exact (run_callback (H5 := outlet_delegate_has_env) cb o Ho).
Qed.

Lemma take_up_way id hi ho i o up m down tt_ tc t c :
  link_ok id hi ho (Link i o (m :: up) down tt_ tc t c) →
  under_way (Link i (fst (taken_up ho m o)) up down (tt_ ++ snd (taken_up ho m o)) tc t c) =
  under_way (Link i o (m :: up) down tt_ tc t c).
Proof.
  intros Hk. pose proof (Forall_inv (k_up_ok _ _ _ _ Hk)) as Hm. unfold under_way. fields.
  change (m :: up) with ([m] ++ up). rewrite up_frames_app. unfold up_frames at 2.
  destruct m; try done; cbn in Hm; destruct Hm as [-> Hm]; cbn [taken_up omap list_omap].
  - destruct (decode_data _ _) as [f| | |] eqn:Hf; try done. cbn [fst snd].
    unfold payloads. rewrite fmap_app. cbn. by rewrite <- app_assoc.
  - cbn [fst snd]. by rewrite app_nil_r.
Qed.

Lemma take_down_way id hi ho i o up m down tt_ tc t c :
  link_ok id hi ho (Link i o up (m :: down) tt_ tc t c) →
  under_way (Link (fst (taken_down hi m i)) o up down tt_ (tc ++ snd (taken_down hi m i)) t c) =
  under_way (Link i o up (m :: down) tt_ tc t c).
Proof.
  intros Hk. pose proof (Forall_inv (k_down_ok _ _ _ _ Hk)) as Hm. unfold under_way. fields.
  change (m :: down) with ([m] ++ down). rewrite down_frames_app. unfold down_frames at 2.
  destruct m; try done; cbn in Hm; destruct Hm as [-> Hm]; cbn [taken_down omap list_omap].
  - cbn [fst snd]. by rewrite app_nil_r.
  - destruct (decode_data _ _) as [f| | |] eqn:Hf; try done. cbn [fst snd].
    unfold payloads. rewrite fmap_app. cbn. by rewrite <- app_assoc.
Qed.

(** One turn: the invariant is kept and the specification follows. *)
Lemma link_step_ok id hi ho k l k' :
  writer_accepts → link_ok id hi ho k → link_step hi ho k l k' →
  link_ok id hi ho k' ∧ spec_step (under_way k) l (under_way k').
Proof.
  intros Hw Hk Hs. pose proof (k_linked _ _ _ _ Hk) as Hl. destruct Hs; fields;
    destruct (Hl) as [Hid Hpl Hin Hiw Hio Hoid Hout How Hoo Hcod]; cbn [t_inlet t_outlet] in *.
  - (* read_client *)
    apply inlet_reads in H5 as (x & Hx & _ & ->); [|done..]. apply decode_of_encode in Hx.
    assert (sent_since in_env i (upd_in (read_in i x) (i_nonce i + 1) i) = [I2oSendData id x]) as ->.
    { unfold read_in. rewrite Hid. by apply added_push. }
    split; [apply read_client_turn; [done|by rewrite Hx]|].
    unfold under_way. fields. rewrite up_frames_app, app_assoc.
    replace (up_frames _ [I2oSendData id x]) with [f]; [constructor|].
    unfold up_frames. cbn. rewrite <- Hcod, Hx. done.
  - apply outlet_reads in H5 as (x & Hx & _ & ->); [|done..]. apply decode_of_encode in Hx.
    assert (sent_since out_env o (upd_out (read_out o x) (o_nonce o + 1) o) = [O2iRecvData id x]) as ->.
    { unfold read_out. rewrite Hoid. by apply added_push. }
    split; [apply read_target_turn; [done|by rewrite Hx]|].
    unfold under_way. fields. rewrite down_frames_app, app_assoc.
    replace (down_frames _ [O2iRecvData id x]) with [f]; [constructor|].
    unfold down_frames. cbn. rewrite Hcod, Hx. done.
  - destruct (take_up_eq _ _ _ _ _ _ _ _ _ _ _ _ Hk) as (Hrun & Hsent & Hq).
    rewrite H5 in Hrun. injection Hrun as ->. rewrite Hsent, Hq, app_nil_r.
    split; [by apply (take_up_turn _ _ _ _ _ _ _ _ _ _ _ _ Hk)|].
    rewrite (take_up_way _ _ _ _ _ _ _ _ _ _ _ _ Hk). constructor.
  - destruct (take_down_eq _ _ _ _ _ _ _ _ _ _ _ _ Hk) as (Hrun & Hsent & Hq).
    rewrite H5 in Hrun. injection Hrun as ->. rewrite Hsent, Hq, app_nil_r.
    split; [by apply (take_down_turn _ _ _ _ _ _ _ _ _ _ _ _ Hk)|].
    rewrite (take_down_way _ _ _ _ _ _ _ _ _ _ _ _ Hk). constructor.
  - pose proof (Forall_inv (k_to_target_ok _ _ _ _ Hk)) as Hm. fields.
    destruct m as [| | | | |f [| | | |id' n| | | | |]]; try done. cbn in Hm. destruct Hm as [-> Hn].
    destruct (write_turn _ _ t _ _ Hw (k_target_flushed _ _ _ _ Hk) H5) as (_ & -> & Hf & Hcb).
    rewrite Hcb in H6.
    destruct (added_pushed_out (O2iSendDataResult id n) o (o_nonce o) Hoo) as [Hrun Hsent].
    rewrite Hrun in H6. injection H6 as <-. rewrite Hsent.
    split; [by eapply write_target_turn; [exact Hf|]|].
    unfold under_way. fields. rewrite down_frames_app. cbn. rewrite app_nil_r. constructor.
  - pose proof (Forall_inv (k_to_client_ok _ _ _ _ Hk)) as Hm. fields.
    destruct m as [| | | | |f [| | | | | | |id' n| |]]; try done. cbn in Hm. destruct Hm as [-> Hn].
    destruct (write_turn _ _ c _ _ Hw (k_client_flushed _ _ _ _ Hk) H5) as (_ & -> & Hf & Hcb).
    rewrite Hcb in H6.
    destruct (added_pushed_in (I2oRecvDataResult id n) i (i_nonce i) Hio) as [Hrun Hsent].
    rewrite Hrun in H6. injection H6 as <-. rewrite Hsent.
    split; [by eapply write_client_turn; [exact Hf|]|].
    unfold under_way. fields. rewrite up_frames_app. cbn. rewrite app_nil_r. constructor.
Qed.

Lemma link_run_ok id hi ho k ls k' :
  writer_accepts → link_ok id hi ho k → link_run hi ho k ls k' →
  link_ok id hi ho k' ∧ spec_run (under_way k) ls (under_way k').
Proof.
  intros Hw Hk Hrun. induction Hrun as [k|k l k1 ls k2 Hs _ IH]; [split; [done|constructor]|].
  destruct (link_step_ok _ _ _ _ _ _ Hw Hk Hs) as [Hk1 Hspec]. destruct (IH Hk1) as [Hk2 Hrun].
  split; [done|]. by econstructor.
Qed.

(** *** What the queues of the specification give out *)

Definition client_sent (ls : list label) : list bytes :=
  omap (λ l, match l with ClientSends f => Some f | _ => None end) ls.
Definition target_got (ls : list label) : list bytes :=
  omap (λ l, match l with TargetGets f => Some f | _ => None end) ls.
Definition target_sent (ls : list label) : list bytes :=
  omap (λ l, match l with TargetSends f => Some f | _ => None end) ls.
Definition client_got (ls : list label) : list bytes :=
  omap (λ l, match l with ClientGets f => Some f | _ => None end) ls.

Lemma spec_run_fifo s ls s' :
  spec_run s ls s' →
  fst s ++ client_sent ls = target_got ls ++ fst s' ∧
  snd s ++ target_sent ls = client_got ls ++ snd s'.
Proof.
  induction 1 as [s|s l s1 ls s2 Hs _ [IH1 IH2]]; [by rewrite !app_nil_r|].
  unfold client_sent, target_got, target_sent, client_got in *.
  destruct Hs; cbn in *; rewrite <- ?IH1, <- ?IH2, <- ?app_assoc; done.
Qed.

(** *** Draining *)

Definition internal (l : label) : bool :=
  match l with ClientSends _ | TargetSends _ => false | _ => true end.

(** The turns a message still costs. *)
Definition turns (m : ProxyMessage) : nat :=
  match m with I2oSendData _ _ | O2iRecvData _ _ => 3 | _ => 1 end.
Definition load (k : link) : nat :=
  (sum_list_with turns (k_up k) + sum_list_with turns (k_down k) +
   2 * (length (k_to_target k) + length (k_to_client k)))%nat.

#[local] Ltac loads :=
  unfold load; fields; rewrite ?sum_list_with_app, ?length_app; cbn [sum_list_with turns length]; lia.

Lemma load_decreases id hi ho k l k' :
  writer_accepts → link_ok id hi ho k → link_step hi ho k l k' → internal l = true →
  (load k' < load k)%nat.
Proof.
  intros Hw Hk Hs Hl. pose proof (k_linked _ _ _ _ Hk) as Hlk. destruct Hs; try done; fields;
    destruct (Hlk) as [Hid Hpl Hin Hiw Hio Hoid Hout How Hoo Hcod]; cbn [t_inlet t_outlet] in *.
  - destruct (take_up_eq _ _ _ _ _ _ _ _ _ _ _ _ Hk) as (Hrun & Hsent & Hq).
    rewrite H5 in Hrun. injection Hrun as ->. rewrite Hsent, Hq, app_nil_r.
    pose proof (Forall_inv (k_up_ok _ _ _ _ Hk)) as Hm. fields.
    destruct m; try done; cbn [taken_up]; [|cbn [snd]; loads].
    destruct (decode_data _ _); cbn [snd]; loads.
  - destruct (take_down_eq _ _ _ _ _ _ _ _ _ _ _ _ Hk) as (Hrun & Hsent & Hq).
    rewrite H5 in Hrun. injection Hrun as ->. rewrite Hsent, Hq, app_nil_r.
    pose proof (Forall_inv (k_down_ok _ _ _ _ Hk)) as Hm. fields.
    destruct m; try done; cbn [taken_down]; [cbn [snd]; loads|].
    destruct (decode_data _ _); cbn [snd]; loads.
  - pose proof (Forall_inv (k_to_target_ok _ _ _ _ Hk)) as Hm. fields.
    destruct m as [| | | | |f [| | | |id' n| | | | |]]; try done.
    destruct (write_turn _ _ t _ _ Hw (k_target_flushed _ _ _ _ Hk) H5) as (_ & _ & _ & Hcb). rewrite Hcb in H6.
    destruct (added_pushed_out (O2iSendDataResult id' n) o (o_nonce o) Hoo) as [Hrun Hsent].
    rewrite Hrun in H6. injection H6 as <-. rewrite Hsent. loads.
  - pose proof (Forall_inv (k_to_client_ok _ _ _ _ Hk)) as Hm. fields.
    destruct m as [| | | | |f [| | | | | | |id' n| |]]; try done.
    destruct (write_turn _ _ c _ _ Hw (k_client_flushed _ _ _ _ Hk) H5) as (_ & _ & _ & Hcb). rewrite Hcb in H6.
    destruct (added_pushed_in (I2oRecvDataResult id' n) i (i_nonce i) Hio) as [Hrun Hsent].
    rewrite Hrun in H6. injection H6 as <-. rewrite Hsent. loads.
Qed.

Lemma link_progress id hi ho k :
  writer_accepts → link_ok id hi ho k →
  (∃ l k', internal l = true ∧ link_step hi ho k l k') ∨
  (k_up k = [] ∧ k_down k = [] ∧ k_to_target k = [] ∧ k_to_client k = []).
Proof.
  intros Hw Hk. pose proof (k_linked _ _ _ _ Hk) as Hlk.
  destruct k as [i o [|m up] [|m' down] [|w tt_] [|w' tc] t c]; [by right|..]; left.
  all: destruct (Hlk) as [Hid Hpl Hin Hiw Hio Hoid Hout How Hoo Hcod]; cbn [t_inlet t_outlet] in *.
  all: match goal with
  | Hk : link_ok _ _ _ (Link _ _ (_ :: _) _ _ _ _ _) |- _ =>
      destruct (take_up_eq _ _ _ _ _ _ _ _ _ _ _ _ Hk) as (Hrun & _);
      eexists Inside, _; split; [done|]; by apply take_up
  | Hk : link_ok _ _ _ (Link _ _ _ (_ :: _) _ _ _ _) |- _ =>
      destruct (take_down_eq _ _ _ _ _ _ _ _ _ _ _ _ Hk) as (Hrun & _);
      eexists Inside, _; split; [done|]; by apply take_down
  | Hk : link_ok _ _ _ (Link _ _ _ _ (_ :: _) _ _ _) |- _ =>
      pose proof (Forall_inv (k_to_target_ok _ _ _ _ Hk)) as Hm; fields;
      destruct w as [| | | | |f [| | | |id' n| | | | |]]; try done;
      destruct (write_turn_done f (O2iSendDataResult id' n) t Hw) as [t' Ht];
      destruct (write_turn _ _ t _ _ Hw (k_target_flushed _ _ _ _ Hk) Ht) as (_ & Hwr & _ & Hcb);
      destruct (added_pushed_out (O2iSendDataResult id' n) o (o_nonce o) Hoo) as [Hrun _];
      eexists (TargetGets _), _; split; [done|]; eapply write_target; [exact Ht|];
      rewrite Hcb; exact Hrun
  | Hk : link_ok _ _ _ (Link _ _ _ _ _ (_ :: _) _ _) |- _ =>
      pose proof (Forall_inv (k_to_client_ok _ _ _ _ Hk)) as Hm; fields;
      destruct w' as [| | | | |f [| | | | | | |id' n| |]]; try done;
      destruct (write_turn_done f (I2oRecvDataResult id' n) c Hw) as [c' Hc];
      destruct (write_turn _ _ c _ _ Hw (k_client_flushed _ _ _ _ Hk) Hc) as (_ & Hwr & _ & Hcb);
      destruct (added_pushed_in (I2oRecvDataResult id' n) i (i_nonce i) Hio) as [Hrun _];
      eexists (ClientGets _), _; split; [done|]; eapply write_client; [exact Hc|];
      rewrite Hcb; exact Hrun
  end.
Qed.

Lemma drained id hi ho k :
  link_ok id hi ho k →
  k_up k = [] → k_down k = [] → k_to_target k = [] → k_to_client k = [] →
  under_way k = ([], []) ∧ in_counter (Tunnel (k_inlet k) (k_outlet k)) = 0 ∧
  out_counter (Tunnel (k_inlet k) (k_outlet k)) = 0.
Proof.
  intros Hk H1' H2' H3' H4'. rewrite (k_in_counter _ _ _ _ Hk), (k_out_counter _ _ _ _ Hk).
  unfold under_way, debt. by rewrite H1', H2', H3', H4'.
Qed.

Lemma reads_when_idle id hi ho k f :
  link_ok id hi ho k →
  (in_counter (Tunnel (k_inlet k) (k_outlet k)) = 0 →
   encodes (in_common_data (i_self (k_inlet k))) → ∃ k', link_step hi ho k (ClientSends f) k') ∧
  (out_counter (Tunnel (k_inlet k) (k_outlet k)) = 0 →
   encodes (out_common_data (o_self (k_outlet k))) → ∃ k', link_step hi ho k (TargetSends f) k').
Proof.
  intros Hk. destruct (k_linked _ _ _ _ Hk) as [Hid Hpl Hin Hiw Hio Hoid Hout How Hoo Hcod].
  destruct k as [i o up down tt_ tc t c]. cbn [t_inlet t_outlet k_inlet k_outlet] in *.
  split; intros H0' He.
  - destruct (He (i_nonce i) f) as [x Hx]. eexists. apply read_client. apply inlet_reads; [done..|].
    exists x. split_and!; [done| |done]. unfold READ_BUF_MAX_LEN.
    change (in_counter _) with (cell_value (in_cell i) (in_env i)) in H0'. lia.
  - destruct (He (o_nonce o) f) as [x Hx]. eexists. apply read_target. apply outlet_reads; [done..|].
    exists x. split_and!; [done| |done]. unfold READ_BUF_MAX_LEN.
    change (out_counter _) with (cell_value (out_cell o) (out_env o)) in H0'. lia.
Qed.

Lemma internal_run id hi ho k ls k' :
  writer_accepts → link_ok id hi ho k → Forall (λ l, internal l = true) ls →
  link_run hi ho k ls k' → (length ls + load k' <= load k)%nat.
Proof.
  intros Hw Hk Hls Hrun. induction Hrun as [k|k l k1 ls k2 Hs _ IH]; [cbn; lia|].
  apply Forall_cons in Hls as [Hl Hls].
  pose proof (load_decreases _ _ _ _ _ _ Hw Hk Hs Hl).
  destruct (link_step_ok _ _ _ _ _ _ Hw Hk Hs) as [Hk1 _]. specialize (IH Hk1 Hls). cbn. lia.
Qed.

Lemma steady_inner ls : Forall (λ l, internal l = true) ls → client_sent ls = [] ∧ target_sent ls = [].
Proof. induction 1 as [|[] ls Hl _ [IH1 IH2]]; by cbn. Qed.
End LinkFacts.

(** ** Properties *)

Section LinkProperties.
Context `{Lz4} `{SimplestCrypt} `{Base64} `{UdpOs} `{OutletOs} `{AsyncWrite} `{HB : !BufWriter}.

(** C3: A session is set up. What a client's connection makes the inlet of a
    plain tunnel announce leads an outlet that can reach the target to start a
    session task; once the inlet has taken the two reports of success, both
    ends form a session that is up, under the same coding, with nothing on its
    way and nothing in flight. *)
Theorem tunnel_connects id a tx (d : inlet_delegate) (w : outlet_world) peer pt pc :
  let s := i_self d in
  is_socks5 (inlet_proxy_type s) = false → socks5context s = None →
  bytes_ok (encryption_key (in_common_data s)) →
  cell_value (in_cell d) (in_env d) = 0 → writer_open tx (in_env d) →
  chan_open (output (in_env d)) = true →
  out_sessions w !! id = None → chan_open (output (ow_env w)) = true →
  os_connect (inlet_proxy_type s) (is_tcp (inlet_proxy_type s)) (output_addr s) = Ok peer →
  buffered (pw_writer pt) = [] → buffered (pw_writer pc) = [] →
  ∃ d' request w' reports sp ho o,
    on_session_start id a tx d = (Ok tt, d') ∧
    sent (in_env d') = sent (in_env d) ++ [request] ∧
    outlet_input_internal start_spawned request w = (Ok tt, w') ∧
    spawned w' = spawned w ++ [sp] ∧ started sp ho o ∧
    sent (ow_env w') = sent (ow_env w) ++ reports ∧
    inlet_receive_input reports (i_world d') = (Ok tt, i_world d') ∧
    link_ok id tx ho (Link d' (OutletD (o_self o) w' 0) [] [] [] [] pt pc).
Proof.
  intros s Hp Hctx Hk Hc0 Htx Ho Hn Hoo Hos Hpt Hpc.
  destruct (inlet_start_plain id a tx d Hp Ho) as (d' & Hrun & Hid & Hcd & Hsc & Ht & Hm & He).
  destruct (announced_connect id (inlet_proxy_type s) (is_tcp (inlet_proxy_type s))
    (output_addr s) (show_addr a) (in_common_data s) peer w Hk Hn Hos Hoo)
    as (o & sp & [ho info] & w' & Hin & Hsp & Hst & Hoid & Hi & Hc & Hmo & Hw & _ & Hcell & Hout).
  cbn [so_sender so_common_info] in *. subst info.
  exists d', (inlet_connect_message s id a), w', [O2iConnect id true ""; O2iConnect id true ""], sp, ho, o.
  assert (session_info_map (i_world d') !! id = Some {| si_proxy_message_tx := None;
    si_write_msg_tx := tx; si_common_info := in_common_data (i_self d') |}) as Hentry.
  { rewrite Hm, lookup_insert_eq. by rewrite Hcd. }
  split_and!; try done.
  - unfold in_env. by rewrite He.
  - unfold sent at 1. by rewrite Hout.
  - apply (reports_taken _ _ _ _ Hentry); [done|]. by repeat constructor.
  - split; try by constructor.
    + split; cbn [t_inlet t_outlet k_inlet k_outlet o_self o_world]; try done.
      * by rewrite Hsc.
      * unfold t_in_env. cbn [t_inlet]. rewrite He. exact Htx.
      * unfold t_in_env. cbn [t_inlet]. by rewrite He.
      * rewrite Hmo. by rewrite lookup_insert_eq.
      * unfold t_out_env. cbn [t_outlet o_world]. by rewrite Hout.
      * by rewrite Hcd.
    + unfold in_counter, t_in_env. cbn [t_inlet k_inlet]. rewrite Hcd, He. exact Hc0.
    + unfold out_counter, t_out_env. cbn [t_outlet o_world o_self k_outlet]. exact Hcell.
    + exact Hpt.
    + exact Hpc.
Qed.

(** C1: A tunnel's session refines two queues. Whatever order the readers, the
    message tasks and the write loops of both ends take their turns in, what
    is seen from outside is what a first-in first-out queue of frames in each
    direction allows: the target's stream gets, from behind the buffered writer,
    exactly the frames the client sent, whole and in order, and what has not come out yet is under way; the other way
    round likewise. *)
Theorem tunnel_refines_queues id hi ho (k k' : link) ls :
  writer_accepts → link_ok id hi ho k → link_run hi ho k ls k' →
  link_ok id hi ho k' ∧ spec_run (under_way k) ls (under_way k') ∧
  fst (under_way k) ++ client_sent ls = target_got ls ++ fst (under_way k') ∧
  snd (under_way k) ++ target_sent ls = client_got ls ++ snd (under_way k').
Proof.
  intros Hw Hk Hrun. destruct (link_run_ok _ _ _ _ _ _ Hw Hk Hrun) as [Hk' Hspec].
  split_and!; [done..|by apply spec_run_fifo|by apply spec_run_fifo].
Qed.

(** C2: A tunnel's session drains and never blocks. Without new frames, every
    order of turns ends within a bound known in advance; where no turn is left
    every frame that was under way has come out in order, both counters are
    back at zero, and both readers take the next frame, so that the wait of the
    flow control always ends. *)
Theorem tunnel_drains id hi ho (k k' : link) ls :
  writer_accepts → link_ok id hi ho k → link_run hi ho k ls k' →
  Forall (λ l, internal l = true) ls →
  (length ls <= load k)%nat ∧
  ((∃ l k'', internal l = true ∧ link_step hi ho k' l k'') ∨
   (target_got ls = fst (under_way k) ∧ client_got ls = snd (under_way k) ∧
    in_counter (Tunnel (k_inlet k') (k_outlet k')) = 0 ∧
    out_counter (Tunnel (k_inlet k') (k_outlet k')) = 0 ∧
    ∀ f, (encodes (in_common_data (i_self (k_inlet k'))) → ∃ k'', link_step hi ho k' (ClientSends f) k'') ∧
         (encodes (out_common_data (o_self (k_outlet k'))) → ∃ k'', link_step hi ho k' (TargetSends f) k''))).
Proof.
  intros Hw Hk Hrun Hls. pose proof (internal_run _ _ _ _ _ _ Hw Hk Hls Hrun) as Hload.
  split; [lia|]. destruct (link_run_ok _ _ _ _ _ _ Hw Hk Hrun) as [Hk' Hspec].
  destruct (link_progress _ _ _ _ Hw Hk') as [?|(H1' & H2' & H3' & H4')]; [by left|]. right.
  destruct (drained _ _ _ _ Hk' H1' H2' H3' H4') as (Hway & Hi & Ho).
  destruct (spec_run_fifo _ _ _ Hspec) as [Hu Hd]. destruct (steady_inner ls Hls) as [E1 E2].
  rewrite Hway, E1, E2, !app_nil_r in *. cbn [fst snd] in *. rewrite ?app_nil_r in Hu, Hd.
  split_and!; [done..|]. intros f. destruct (reads_when_idle _ _ _ k' f Hk'). auto.
Qed.
End LinkProperties.

(** ** A concrete run *)

Module LinkConcrete.
Import NetConcrete TunnelConcrete.
#[export] Existing Instances Concrete.lz4 Concrete.simplestcrypt Concrete.base64
  Socks5Concrete.udp_os OutletConcrete.os sink_writer sink_buffer.

(** The session of [TunnelConcrete], with nothing on its way. *)
Definition idle : link := Link inlet_side outlet_side [] [] [] [] (Pw [] []) (Pw [] []).

Lemma idle_ok : link_ok 8 2 2 idle.
Proof.
  split; try reflexivity; try by constructor. split; try reflexivity; by exists [].
Qed.

Lemma sink_accepts : writer_accepts.
Proof. by split. Qed.

(** The inlet has read the frame [[1; 2]], encoded as [code]. *)
Definition code : bytes := [7; 8; 5].
Definition reading : link :=
  Link (upd_in (read_in inlet_side code) 1 inlet_side) outlet_side [I2oSendData 8 code] [] [] []
    (Pw [] []) (Pw [] []).

Lemma read_step : link_step 2 2 idle (ClientSends [1; 2]) reading.
Proof. exact (read_client 2 2 [1; 2] inlet_side _ outlet_side [] [] [] [] _ _ eq_refl). Qed.

Lemma reading_ok : link_ok 8 2 2 reading.
Proof. apply (read_client_turn 8 2 2 inlet_side outlet_side [] [] [] []); [apply idle_ok|done]. Qed.

(** The outlet takes it, its write loop writes it, the inlet takes the
    acknowledgement. *)
Definition ack : ProxyMessage := O2iSendDataResult 8 3.
Definition outlet1 : outlet_delegate := fst (taken_up 2 (I2oSendData 8 code) outlet_side).
Definition taken : link :=
  Link (k_inlet reading) outlet1 [] [] [SendAndThen [1; 2] ack] [] (Pw [] []) (Pw [] []).
Definition outlet2 : outlet_delegate :=
  upd_out (push_output ack (out_env outlet1)) (o_nonce outlet1) outlet1.
Definition wrote : link :=
  Link (k_inlet reading) outlet2 [] [ack] [] [] (Pw [1; 2] [Wrote [1; 2]; Flushed; Called ack]) (Pw [] []).

Lemma relay_run : ∃ k, link_run 2 2 reading [Inside; TargetGets [1; 2]; Inside] k.
Proof.
  eexists. apply (run_cons _ _ _ _ taken).
  { exact (take_up 2 2 (I2oSendData 8 code) (k_inlet reading) outlet_side outlet1 [] [] [] [] _ _ eq_refl). }
  apply (run_cons _ _ _ _ wrote).
  { exact (write_target 2 2 (SendAndThen [1; 2] ack) (k_inlet reading) outlet1 outlet2 [] [] [] []
             (Pw [] []) (Pw [1; 2] [Wrote [1; 2]; Flushed; Called ack]) (Pw [] []) eq_refl eq_refl). }
  eapply run_cons; [|apply run_nil].
  by eapply (take_down 2 2 ack (k_inlet reading) _ outlet2 [] [] [] []).
Qed.
End LinkConcrete.

Section LinkWitnesses.
Import LinkConcrete.

Lemma tunnel_connects_witness : ∃ d' request w' reports sp ho o,
  on_session_start (D := inlet_delegate) 11 Socks5Concrete.client 4 TunnelConcrete.inlet_side =
    (Ok tt, d') ∧
  sent (in_env d') = [] ++ [request] ∧
  outlet_input_internal start_spawned request OutletConcrete.world = (Ok tt, w') ∧
  spawned w' = [] ++ [sp] ∧ started sp ho o ∧
  sent (ow_env w') = [] ++ reports ∧
  inlet_receive_input reports (i_world d') = (Ok tt, i_world d') ∧
  link_ok 11 4 ho (Link d' (OutletD (o_self o) w' 0) [] [] [] [] (Pw [] []) (Pw [] [])).
Proof.
  refine (tunnel_connects 11 Socks5Concrete.client 4 TunnelConcrete.inlet_side
    OutletConcrete.world (V4 (Ipv4 10 0 0 9) 80) (Pw [] []) (Pw [] []) _ _ _ _ _ _ _ _ _ _ _);
    try reflexivity; [|by exists []].
  repeat constructor; unfold in_u8; lia.
Defined.

Lemma tunnel_refines_queues_witness :
  link_ok 8 2 2 reading ∧ spec_run ([], []) [ClientSends [1; 2]] (under_way reading) ∧
  [[1; 2]] = [] ++ fst (under_way reading) ∧ [] = [] ++ snd (under_way reading).
Proof.
  apply (tunnel_refines_queues 8 2 2 idle reading [ClientSends [1; 2]] sink_accepts idle_ok).
  econstructor; [apply read_step|constructor].
Defined.

Lemma tunnel_drains_witness : ∃ k', link_run 2 2 reading [Inside; TargetGets [1; 2]; Inside] k' ∧
  (3 <= load reading)%nat ∧
  ((∃ l k'', internal l = true ∧ link_step 2 2 k' l k'') ∨
   ([[1; 2]] = fst (under_way reading) ∧ [] = snd (under_way reading) ∧
    in_counter (Tunnel (k_inlet k') (k_outlet k')) = 0 ∧
    out_counter (Tunnel (k_inlet k') (k_outlet k')) = 0 ∧
    ∀ f, (encodes (in_common_data (i_self (k_inlet k'))) → ∃ k'', link_step 2 2 k' (ClientSends f) k'') ∧
         (encodes (out_common_data (o_self (k_outlet k'))) → ∃ k'', link_step 2 2 k' (TargetSends f) k''))).
Proof.
  destruct relay_run as [k' Hrun]. exists k'. split; [exact Hrun|].
  apply (tunnel_drains 8 2 2 reading k' [Inside; TargetGets [1; 2]; Inside] sink_accepts reading_ok Hrun).
  by repeat constructor.
Defined.
End LinkWitnesses.
