(* ===== verification/Messages.v ===== *)
(** [np_proto/src]: the messages of the client/server protocol and their
    encoding ([class_def.rs], [client_server.rs], [server_client.rs],
    [generic.rs], [message_map.rs]). *)

From S2P Require Import Prelude Std.

Abbreviation i64 := Z (only parsing).
Definition in_i64 (x : Z) : Prop := -9223372036854775808 <= x < 9223372036854775808.

(** ** The structures

    A field's type is the Rust one; [_ok] says its value is one of that type. *)

Record class_def_TunnelPoint := {
  tp_addr : string
}.
Definition class_def_TunnelPoint_ok (m : class_def_TunnelPoint) : Prop :=
  str_ok (tp_addr m).

Record class_def_Tunnel := {
  tn_source : option class_def_TunnelPoint;
  tn_endpoint : option class_def_TunnelPoint;
  tn_id : u32;
  tn_enabled : bool;
  tn_sender : u32;
  tn_receiver : u32;
  tn_tunnel_type : i32;
  tn_password : string;
  tn_username : string;
  tn_is_compressed : bool;
  tn_encryption_method : string;
  tn_custom_mapping : gmap string string
}.
Definition class_def_Tunnel_ok (m : class_def_Tunnel) : Prop :=
  from_option class_def_TunnelPoint_ok True (tn_source m) ∧ from_option class_def_TunnelPoint_ok True (tn_endpoint m) ∧ in_u32 (tn_id m) ∧ in_u32 (tn_sender m) ∧ in_u32 (tn_receiver m) ∧ in_i32 (tn_tunnel_type m) ∧ str_ok (tn_password m) ∧ str_ok (tn_username m) ∧ str_ok (tn_encryption_method m) ∧ map_Forall (λ k v, str_ok k ∧ str_ok v) (tn_custom_mapping m).

Record client_server_LoginReq := {
  lq_version : string;
  lq_username : string;
  lq_password : string
}.
Definition client_server_LoginReq_ok (m : client_server_LoginReq) : Prop :=
  str_ok (lq_version m) ∧ str_ok (lq_username m) ∧ str_ok (lq_password m).

Record client_server_RegisterReq := {
  rq_username : string;
  rq_password : string
}.
Definition client_server_RegisterReq_ok (m : client_server_RegisterReq) : Prop :=
  str_ok (rq_username m) ∧ str_ok (rq_password m).

Record client_server_ManagementLoginReq := {
  mq_username : string;
  mq_password : string
}.
Definition client_server_ManagementLoginReq_ok (m : client_server_ManagementLoginReq) : Prop :=
  str_ok (mq_username m) ∧ str_ok (mq_password m).

Record server_client_LoginAck := {
  la_player_id : u32;
  la_tunnel_list : list class_def_Tunnel
}.
Definition server_client_LoginAck_ok (m : server_client_LoginAck) : Prop :=
  in_u32 (la_player_id m) ∧ Forall class_def_Tunnel_ok (la_tunnel_list m).

Record server_client_ManagementLoginAck := {
  ma_code : i32
}.
Definition server_client_ManagementLoginAck_ok (m : server_client_ManagementLoginAck) : Prop :=
  in_i32 (ma_code m).

Record server_client_ModifyTunnelNtf := {
  mt_is_delete : bool;
  mt_tunnel : option class_def_Tunnel
}.
Definition server_client_ModifyTunnelNtf_ok (m : server_client_ModifyTunnelNtf) : Prop :=
  from_option class_def_Tunnel_ok True (mt_tunnel m).

Record generic_Success := { }.
Definition generic_Success_ok (m : generic_Success) : Prop :=
  True.

Record generic_Fail := {
  gf_number : i32;
  gf_message : string
}.
Definition generic_Fail_ok (m : generic_Fail) : Prop :=
  in_i32 (gf_number m) ∧ str_ok (gf_message m).

Record generic_Error := {
  ge_number : i32;
  ge_message : string
}.
Definition generic_Error_ok (m : generic_Error) : Prop :=
  in_i32 (ge_number m) ∧ str_ok (ge_message m).

Record generic_Ping := {
  gi_ticks : i64
}.
Definition generic_Ping_ok (m : generic_Ping) : Prop :=
  in_i64 (gi_ticks m).

Record generic_Pong := {
  go_ticks : i64
}.
Definition generic_Pong_ok (m : generic_Pong) : Prop :=
  in_i64 (go_ticks m).

Record generic_I2oConnect := {
  ic_tunnel_id : u32;
  ic_session_id : u32;
  ic_tunnel_type : u32;
  ic_is_tcp : bool;
  ic_is_compressed : bool;
  ic_addr : string;
  ic_encryption_method : string;
  ic_encryption_key : string;
  ic_client_addr : string
}.
Definition generic_I2oConnect_ok (m : generic_I2oConnect) : Prop :=
  in_u32 (ic_tunnel_id m) ∧ in_u32 (ic_session_id m) ∧ in_u32 (ic_tunnel_type m) ∧ str_ok (ic_addr m) ∧ str_ok (ic_encryption_method m) ∧ str_ok (ic_encryption_key m) ∧ str_ok (ic_client_addr m).

Record generic_O2iConnect := {
  oc_tunnel_id : u32;
  oc_session_id : u32;
  oc_success : bool;
  oc_error_info : string
}.
Definition generic_O2iConnect_ok (m : generic_O2iConnect) : Prop :=
  in_u32 (oc_tunnel_id m) ∧ in_u32 (oc_session_id m) ∧ str_ok (oc_error_info m).

Record generic_I2oSendData := {
  isd_tunnel_id : u32;
  isd_session_id : u32;
  isd_data : bytes
}.
Definition generic_I2oSendData_ok (m : generic_I2oSendData) : Prop :=
  in_u32 (isd_tunnel_id m) ∧ in_u32 (isd_session_id m) ∧ bytes_ok (isd_data m).

Record generic_O2iRecvData := {
  ord_tunnel_id : u32;
  ord_session_id : u32;
  ord_data : bytes
}.
Definition generic_O2iRecvData_ok (m : generic_O2iRecvData) : Prop :=
  in_u32 (ord_tunnel_id m) ∧ in_u32 (ord_session_id m) ∧ bytes_ok (ord_data m).

Record generic_I2oDisconnect := {
  idc_tunnel_id : u32;
  idc_session_id : u32
}.
Definition generic_I2oDisconnect_ok (m : generic_I2oDisconnect) : Prop :=
  in_u32 (idc_tunnel_id m) ∧ in_u32 (idc_session_id m).

Record generic_O2iDisconnect := {
  odc_tunnel_id : u32;
  odc_session_id : u32
}.
Definition generic_O2iDisconnect_ok (m : generic_O2iDisconnect) : Prop :=
  in_u32 (odc_tunnel_id m) ∧ in_u32 (odc_session_id m).

Record generic_O2iSendDataResult := {
  osr_tunnel_id : u32;
  osr_session_id : u32;
  osr_data_len : u32
}.
Definition generic_O2iSendDataResult_ok (m : generic_O2iSendDataResult) : Prop :=
  in_u32 (osr_tunnel_id m) ∧ in_u32 (osr_session_id m) ∧ in_u32 (osr_data_len m).

Record generic_I2oRecvDataResult := {
  irr_tunnel_id : u32;
  irr_session_id : u32;
  irr_data_len : u32
}.
Definition generic_I2oRecvDataResult_ok (m : generic_I2oRecvDataResult) : Prop :=
  in_u32 (irr_tunnel_id m) ∧ in_u32 (irr_session_id m) ∧ in_u32 (irr_data_len m).

Record generic_I2oSendToData := {
  ist_tunnel_id : u32;
  ist_session_id : u32;
  ist_data : bytes;
  ist_target_addr : string
}.
Definition generic_I2oSendToData_ok (m : generic_I2oSendToData) : Prop :=
  in_u32 (ist_tunnel_id m) ∧ in_u32 (ist_session_id m) ∧ bytes_ok (ist_data m) ∧ str_ok (ist_target_addr m).

Record generic_O2iRecvDataFrom := {
  orf_tunnel_id : u32;
  orf_session_id : u32;
  orf_data : bytes;
  orf_remote_addr : string
}.
Definition generic_O2iRecvDataFrom_ok (m : generic_O2iRecvDataFrom) : Prop :=
  in_u32 (orf_tunnel_id m) ∧ in_u32 (orf_session_id m) ∧ bytes_ok (orf_data m) ∧ str_ok (orf_remote_addr m).

(** ** The enumerations *)

Inductive TunnelType := Tcp | Udp | Socks5 | Unknown.
Inductive ErrorCode := ErrorCode_None | InternalError | InterfaceAbsent | PlayerNotLogin.

#[export] Instance TunnelType_eq_dec : EqDecision TunnelType.
Proof. solve_decision. Defined.
#[export] Instance ErrorCode_eq_dec : EqDecision ErrorCode.
Proof. solve_decision. Defined.

(** [as i32], which [derive(prost::Enumeration)] also makes [into]. *)
Definition TunnelType_into (t : TunnelType) : i32 :=
  match t with Tcp => 0 | Udp => 1 | Socks5 => 2 | Unknown => 3 end.
Definition ErrorCode_into (e : ErrorCode) : i32 :=
  match e with
  | ErrorCode_None => 0
  | InternalError => -1000
  | InterfaceAbsent => -1001
  | PlayerNotLogin => -1002
  end.
Coercion ErrorCode_into : ErrorCode >-> Z.

Definition TunnelType_as_str_name (t : TunnelType) : string :=
  match t with Tcp => "TCP" | Udp => "UDP" | Socks5 => "SOCKS5" | Unknown => "UNKNOWN" end.
Definition TunnelType_from_str_name (value : string) : option TunnelType :=
  if bool_decide (value = "TCP") then Some Tcp
  else if bool_decide (value = "UDP") then Some Udp
  else if bool_decide (value = "SOCKS5") then Some Socks5
  else if bool_decide (value = "UNKNOWN") then Some Unknown
  else None.

Definition ErrorCode_as_str_name (e : ErrorCode) : string :=
  match e with
  | ErrorCode_None => "None"
  | InternalError => "InternalError"
  | InterfaceAbsent => "InterfaceAbsent"
  | PlayerNotLogin => "PlayerNotLogin"
  end.
Definition ErrorCode_from_str_name (value : string) : option ErrorCode :=
  if bool_decide (value = "None") then Some ErrorCode_None
  else if bool_decide (value = "InternalError") then Some InternalError
  else if bool_decide (value = "InterfaceAbsent") then Some InterfaceAbsent
  else if bool_decide (value = "PlayerNotLogin") then Some PlayerNotLogin
  else None.

Lemma TunnelType_str_name t v : TunnelType_from_str_name v = Some t ↔ TunnelType_as_str_name t = v.
Proof.
  unfold TunnelType_from_str_name. split; [|by intros <-; destruct t].
  repeat case_bool_decide; intros [= <-]; by subst.
Qed.
Lemma ErrorCode_str_name e v : ErrorCode_from_str_name v = Some e ↔ ErrorCode_as_str_name e = v.
Proof.
  unfold ErrorCode_from_str_name. split; [|by intros <-; destruct e].
  repeat case_bool_decide; intros [= <-]; by subst.
Qed.

(** *** Decidable equality and an enumeration of each structure *)

#[export] Instance class_def_TunnelPoint_eq_dec : EqDecision class_def_TunnelPoint.
Proof. solve_decision. Defined.
#[export] Instance class_def_TunnelPoint_countable : Countable class_def_TunnelPoint.
Proof.
  refine (inj_countable' (λ m, (tp_addr m)) (λ x0, Build_class_def_TunnelPoint x0) _).
  by intros [].
Defined.

#[export] Instance class_def_Tunnel_eq_dec : EqDecision class_def_Tunnel.
Proof. solve_decision. Defined.
#[export] Instance class_def_Tunnel_countable : Countable class_def_Tunnel.
Proof.
  refine (inj_countable' (λ m, (tn_source m, tn_endpoint m, tn_id m, tn_enabled m, tn_sender m, tn_receiver m, tn_tunnel_type m, tn_password m, tn_username m, tn_is_compressed m, tn_encryption_method m, tn_custom_mapping m)) (λ '(x0, x1, x2, x3, x4, x5, x6, x7, x8, x9, x10, x11), Build_class_def_Tunnel x0 x1 x2 x3 x4 x5 x6 x7 x8 x9 x10 x11) _).
  by intros [].
Defined.

#[export] Instance client_server_LoginReq_eq_dec : EqDecision client_server_LoginReq.
Proof. solve_decision. Defined.
#[export] Instance client_server_LoginReq_countable : Countable client_server_LoginReq.
Proof.
  refine (inj_countable' (λ m, (lq_version m, lq_username m, lq_password m)) (λ '(x0, x1, x2), Build_client_server_LoginReq x0 x1 x2) _).
  by intros [].
Defined.

#[export] Instance client_server_RegisterReq_eq_dec : EqDecision client_server_RegisterReq.
Proof. solve_decision. Defined.
#[export] Instance client_server_RegisterReq_countable : Countable client_server_RegisterReq.
Proof.
  refine (inj_countable' (λ m, (rq_username m, rq_password m)) (λ '(x0, x1), Build_client_server_RegisterReq x0 x1) _).
  by intros [].
Defined.

#[export] Instance client_server_ManagementLoginReq_eq_dec : EqDecision client_server_ManagementLoginReq.
Proof. solve_decision. Defined.
#[export] Instance client_server_ManagementLoginReq_countable : Countable client_server_ManagementLoginReq.
Proof.
  refine (inj_countable' (λ m, (mq_username m, mq_password m)) (λ '(x0, x1), Build_client_server_ManagementLoginReq x0 x1) _).
  by intros [].
Defined.

#[export] Instance server_client_LoginAck_eq_dec : EqDecision server_client_LoginAck.
Proof. solve_decision. Defined.
#[export] Instance server_client_LoginAck_countable : Countable server_client_LoginAck.
Proof.
  refine (inj_countable' (λ m, (la_player_id m, la_tunnel_list m)) (λ '(x0, x1), Build_server_client_LoginAck x0 x1) _).
  by intros [].
Defined.

#[export] Instance server_client_ManagementLoginAck_eq_dec : EqDecision server_client_ManagementLoginAck.
Proof. solve_decision. Defined.
#[export] Instance server_client_ManagementLoginAck_countable : Countable server_client_ManagementLoginAck.
Proof.
  refine (inj_countable' (λ m, (ma_code m)) (λ x0, Build_server_client_ManagementLoginAck x0) _).
  by intros [].
Defined.

#[export] Instance server_client_ModifyTunnelNtf_eq_dec : EqDecision server_client_ModifyTunnelNtf.
Proof. solve_decision. Defined.
#[export] Instance server_client_ModifyTunnelNtf_countable : Countable server_client_ModifyTunnelNtf.
Proof.
  refine (inj_countable' (λ m, (mt_is_delete m, mt_tunnel m)) (λ '(x0, x1), Build_server_client_ModifyTunnelNtf x0 x1) _).
  by intros [].
Defined.

#[export] Instance generic_Success_eq_dec : EqDecision generic_Success.
Proof. solve_decision. Defined.
#[export] Instance generic_Success_countable : Countable generic_Success.
Proof.
  refine (inj_countable' (λ m, tt) (λ _, Build_generic_Success) _).
  by intros [].
Defined.

#[export] Instance generic_Fail_eq_dec : EqDecision generic_Fail.
Proof. solve_decision. Defined.
#[export] Instance generic_Fail_countable : Countable generic_Fail.
Proof.
  refine (inj_countable' (λ m, (gf_number m, gf_message m)) (λ '(x0, x1), Build_generic_Fail x0 x1) _).
  by intros [].
Defined.

#[export] Instance generic_Error_eq_dec : EqDecision generic_Error.
Proof. solve_decision. Defined.
#[export] Instance generic_Error_countable : Countable generic_Error.
Proof.
  refine (inj_countable' (λ m, (ge_number m, ge_message m)) (λ '(x0, x1), Build_generic_Error x0 x1) _).
  by intros [].
Defined.

#[export] Instance generic_Ping_eq_dec : EqDecision generic_Ping.
Proof. solve_decision. Defined.
#[export] Instance generic_Ping_countable : Countable generic_Ping.
Proof.
  refine (inj_countable' (λ m, (gi_ticks m)) (λ x0, Build_generic_Ping x0) _).
  by intros [].
Defined.

#[export] Instance generic_Pong_eq_dec : EqDecision generic_Pong.
Proof. solve_decision. Defined.
#[export] Instance generic_Pong_countable : Countable generic_Pong.
Proof.
  refine (inj_countable' (λ m, (go_ticks m)) (λ x0, Build_generic_Pong x0) _).
  by intros [].
Defined.

#[export] Instance generic_I2oConnect_eq_dec : EqDecision generic_I2oConnect.
Proof. solve_decision. Defined.
#[export] Instance generic_I2oConnect_countable : Countable generic_I2oConnect.
Proof.
  refine (inj_countable' (λ m, (ic_tunnel_id m, ic_session_id m, ic_tunnel_type m, ic_is_tcp m, ic_is_compressed m, ic_addr m, ic_encryption_method m, ic_encryption_key m, ic_client_addr m)) (λ '(x0, x1, x2, x3, x4, x5, x6, x7, x8), Build_generic_I2oConnect x0 x1 x2 x3 x4 x5 x6 x7 x8) _).
  by intros [].
Defined.

#[export] Instance generic_O2iConnect_eq_dec : EqDecision generic_O2iConnect.
Proof. solve_decision. Defined.
#[export] Instance generic_O2iConnect_countable : Countable generic_O2iConnect.
Proof.
  refine (inj_countable' (λ m, (oc_tunnel_id m, oc_session_id m, oc_success m, oc_error_info m)) (λ '(x0, x1, x2, x3), Build_generic_O2iConnect x0 x1 x2 x3) _).
  by intros [].
Defined.

#[export] Instance generic_I2oSendData_eq_dec : EqDecision generic_I2oSendData.
Proof. solve_decision. Defined.
#[export] Instance generic_I2oSendData_countable : Countable generic_I2oSendData.
Proof.
  refine (inj_countable' (λ m, (isd_tunnel_id m, isd_session_id m, isd_data m)) (λ '(x0, x1, x2), Build_generic_I2oSendData x0 x1 x2) _).
  by intros [].
Defined.

#[export] Instance generic_O2iRecvData_eq_dec : EqDecision generic_O2iRecvData.
Proof. solve_decision. Defined.
#[export] Instance generic_O2iRecvData_countable : Countable generic_O2iRecvData.
Proof.
  refine (inj_countable' (λ m, (ord_tunnel_id m, ord_session_id m, ord_data m)) (λ '(x0, x1, x2), Build_generic_O2iRecvData x0 x1 x2) _).
  by intros [].
Defined.

#[export] Instance generic_I2oDisconnect_eq_dec : EqDecision generic_I2oDisconnect.
Proof. solve_decision. Defined.
#[export] Instance generic_I2oDisconnect_countable : Countable generic_I2oDisconnect.
Proof.
  refine (inj_countable' (λ m, (idc_tunnel_id m, idc_session_id m)) (λ '(x0, x1), Build_generic_I2oDisconnect x0 x1) _).
  by intros [].
Defined.

#[export] Instance generic_O2iDisconnect_eq_dec : EqDecision generic_O2iDisconnect.
Proof. solve_decision. Defined.
#[export] Instance generic_O2iDisconnect_countable : Countable generic_O2iDisconnect.
Proof.
  refine (inj_countable' (λ m, (odc_tunnel_id m, odc_session_id m)) (λ '(x0, x1), Build_generic_O2iDisconnect x0 x1) _).
  by intros [].
Defined.

#[export] Instance generic_O2iSendDataResult_eq_dec : EqDecision generic_O2iSendDataResult.
Proof. solve_decision. Defined.
#[export] Instance generic_O2iSendDataResult_countable : Countable generic_O2iSendDataResult.
Proof.
  refine (inj_countable' (λ m, (osr_tunnel_id m, osr_session_id m, osr_data_len m)) (λ '(x0, x1, x2), Build_generic_O2iSendDataResult x0 x1 x2) _).
  by intros [].
Defined.

#[export] Instance generic_I2oRecvDataResult_eq_dec : EqDecision generic_I2oRecvDataResult.
Proof. solve_decision. Defined.
#[export] Instance generic_I2oRecvDataResult_countable : Countable generic_I2oRecvDataResult.
Proof.
  refine (inj_countable' (λ m, (irr_tunnel_id m, irr_session_id m, irr_data_len m)) (λ '(x0, x1, x2), Build_generic_I2oRecvDataResult x0 x1 x2) _).
  by intros [].
Defined.

#[export] Instance generic_I2oSendToData_eq_dec : EqDecision generic_I2oSendToData.
Proof. solve_decision. Defined.
#[export] Instance generic_I2oSendToData_countable : Countable generic_I2oSendToData.
Proof.
  refine (inj_countable' (λ m, (ist_tunnel_id m, ist_session_id m, ist_data m, ist_target_addr m)) (λ '(x0, x1, x2, x3), Build_generic_I2oSendToData x0 x1 x2 x3) _).
  by intros [].
Defined.

#[export] Instance generic_O2iRecvDataFrom_eq_dec : EqDecision generic_O2iRecvDataFrom.
Proof. solve_decision. Defined.
#[export] Instance generic_O2iRecvDataFrom_countable : Countable generic_O2iRecvDataFrom.
Proof.
  refine (inj_countable' (λ m, (orf_tunnel_id m, orf_session_id m, orf_data m, orf_remote_addr m)) (λ '(x0, x1, x2, x3), Build_generic_O2iRecvDataFrom x0 x1 x2 x3) _).
  by intros [].
Defined.

(** *** The types are decidable *)

#[local] Instance field_ok_dec {A} (P : A → Prop) `{∀ x, Decision (P x)} (o : option A) :
  Decision (from_option P True o).
Proof. destruct o; apply _. Defined.
#[local] Ltac decide_fields := intros; unfold in_u32, in_i32, in_i64, str_ok, bytes_ok; apply _.

#[export] Instance class_def_TunnelPoint_ok_dec m : Decision (class_def_TunnelPoint_ok m).
Proof. unfold class_def_TunnelPoint_ok. decide_fields. Defined.
#[export] Instance class_def_Tunnel_ok_dec m : Decision (class_def_Tunnel_ok m).
Proof. unfold class_def_Tunnel_ok. decide_fields. Defined.
#[export] Instance client_server_LoginReq_ok_dec m : Decision (client_server_LoginReq_ok m).
Proof. unfold client_server_LoginReq_ok. decide_fields. Defined.
#[export] Instance client_server_RegisterReq_ok_dec m : Decision (client_server_RegisterReq_ok m).
Proof. unfold client_server_RegisterReq_ok. decide_fields. Defined.
#[export] Instance client_server_ManagementLoginReq_ok_dec m : Decision (client_server_ManagementLoginReq_ok m).
Proof. unfold client_server_ManagementLoginReq_ok. decide_fields. Defined.
#[export] Instance server_client_LoginAck_ok_dec m : Decision (server_client_LoginAck_ok m).
Proof. unfold server_client_LoginAck_ok. decide_fields. Defined.
#[export] Instance server_client_ManagementLoginAck_ok_dec m : Decision (server_client_ManagementLoginAck_ok m).
Proof. unfold server_client_ManagementLoginAck_ok. decide_fields. Defined.
#[export] Instance server_client_ModifyTunnelNtf_ok_dec m : Decision (server_client_ModifyTunnelNtf_ok m).
Proof. unfold server_client_ModifyTunnelNtf_ok. decide_fields. Defined.
#[export] Instance generic_Success_ok_dec m : Decision (generic_Success_ok m).
Proof. unfold generic_Success_ok. decide_fields. Defined.
#[export] Instance generic_Fail_ok_dec m : Decision (generic_Fail_ok m).
Proof. unfold generic_Fail_ok. decide_fields. Defined.
#[export] Instance generic_Error_ok_dec m : Decision (generic_Error_ok m).
Proof. unfold generic_Error_ok. decide_fields. Defined.
#[export] Instance generic_Ping_ok_dec m : Decision (generic_Ping_ok m).
Proof. unfold generic_Ping_ok. decide_fields. Defined.
#[export] Instance generic_Pong_ok_dec m : Decision (generic_Pong_ok m).
Proof. unfold generic_Pong_ok. decide_fields. Defined.
#[export] Instance generic_I2oConnect_ok_dec m : Decision (generic_I2oConnect_ok m).
Proof. unfold generic_I2oConnect_ok. decide_fields. Defined.
#[export] Instance generic_O2iConnect_ok_dec m : Decision (generic_O2iConnect_ok m).
Proof. unfold generic_O2iConnect_ok. decide_fields. Defined.
#[export] Instance generic_I2oSendData_ok_dec m : Decision (generic_I2oSendData_ok m).
Proof. unfold generic_I2oSendData_ok. decide_fields. Defined.
#[export] Instance generic_O2iRecvData_ok_dec m : Decision (generic_O2iRecvData_ok m).
Proof. unfold generic_O2iRecvData_ok. decide_fields. Defined.
#[export] Instance generic_I2oDisconnect_ok_dec m : Decision (generic_I2oDisconnect_ok m).
Proof. unfold generic_I2oDisconnect_ok. decide_fields. Defined.
#[export] Instance generic_O2iDisconnect_ok_dec m : Decision (generic_O2iDisconnect_ok m).
Proof. unfold generic_O2iDisconnect_ok. decide_fields. Defined.
#[export] Instance generic_O2iSendDataResult_ok_dec m : Decision (generic_O2iSendDataResult_ok m).
Proof. unfold generic_O2iSendDataResult_ok. decide_fields. Defined.
#[export] Instance generic_I2oRecvDataResult_ok_dec m : Decision (generic_I2oRecvDataResult_ok m).
Proof. unfold generic_I2oRecvDataResult_ok. decide_fields. Defined.
#[export] Instance generic_I2oSendToData_ok_dec m : Decision (generic_I2oSendToData_ok m).
Proof. unfold generic_I2oSendToData_ok. decide_fields. Defined.
#[export] Instance generic_O2iRecvDataFrom_ok_dec m : Decision (generic_O2iRecvDataFrom_ok m).
Proof. unfold generic_O2iRecvDataFrom_ok. decide_fields. Defined.

(** ** [prost], the protobuf library

    [derive(prost::Message)] gives a structure its encoding. *)

Class ProstStruct (A : Type) := {
  struct_eq_dec :: EqDecision A;
  struct_countable :: Countable A;
  struct_ok : A → Prop;
  struct_ok_dec m : Decision (struct_ok m)
}.
#[export] Existing Instance struct_ok_dec.

Class Prost := {
  encode_raw : ∀ {A : Type} `{ProstStruct A}, A → bytes;
  encoded_len : ∀ {A : Type} `{ProstStruct A}, A → usize;
  decode : ∀ {A : Type} `{ProstStruct A}, bytes → outcome A;
  encoded_len_spec : ∀ {A : Type} `{ProstStruct A} (m : A), encoded_len m = len (encode_raw m);
  encode_raw_bytes : ∀ {A : Type} `{ProstStruct A} (m : A), bytes_ok (encode_raw m);
  prost_roundtrip : ∀ {A : Type} `{ProstStruct A} (m : A),
    struct_ok m → decode (encode_raw m) = Ok m;
  prost_typed : ∀ {A : Type} `{ProstStruct A} bs (m : A), decode bs = Ok m → struct_ok m
}.

#[export] Instance client_server_LoginReq_struct : ProstStruct client_server_LoginReq := {| struct_ok := client_server_LoginReq_ok |}.
#[export] Instance client_server_RegisterReq_struct : ProstStruct client_server_RegisterReq := {| struct_ok := client_server_RegisterReq_ok |}.
#[export] Instance client_server_ManagementLoginReq_struct : ProstStruct client_server_ManagementLoginReq := {| struct_ok := client_server_ManagementLoginReq_ok |}.
#[export] Instance server_client_LoginAck_struct : ProstStruct server_client_LoginAck := {| struct_ok := server_client_LoginAck_ok |}.
#[export] Instance server_client_ManagementLoginAck_struct : ProstStruct server_client_ManagementLoginAck := {| struct_ok := server_client_ManagementLoginAck_ok |}.
#[export] Instance server_client_ModifyTunnelNtf_struct : ProstStruct server_client_ModifyTunnelNtf := {| struct_ok := server_client_ModifyTunnelNtf_ok |}.
#[export] Instance generic_Success_struct : ProstStruct generic_Success := {| struct_ok := generic_Success_ok |}.
#[export] Instance generic_Fail_struct : ProstStruct generic_Fail := {| struct_ok := generic_Fail_ok |}.
#[export] Instance generic_Error_struct : ProstStruct generic_Error := {| struct_ok := generic_Error_ok |}.
#[export] Instance generic_Ping_struct : ProstStruct generic_Ping := {| struct_ok := generic_Ping_ok |}.
#[export] Instance generic_Pong_struct : ProstStruct generic_Pong := {| struct_ok := generic_Pong_ok |}.
#[export] Instance generic_I2oConnect_struct : ProstStruct generic_I2oConnect := {| struct_ok := generic_I2oConnect_ok |}.
#[export] Instance generic_O2iConnect_struct : ProstStruct generic_O2iConnect := {| struct_ok := generic_O2iConnect_ok |}.
#[export] Instance generic_I2oSendData_struct : ProstStruct generic_I2oSendData := {| struct_ok := generic_I2oSendData_ok |}.
#[export] Instance generic_O2iRecvData_struct : ProstStruct generic_O2iRecvData := {| struct_ok := generic_O2iRecvData_ok |}.
#[export] Instance generic_I2oDisconnect_struct : ProstStruct generic_I2oDisconnect := {| struct_ok := generic_I2oDisconnect_ok |}.
#[export] Instance generic_O2iDisconnect_struct : ProstStruct generic_O2iDisconnect := {| struct_ok := generic_O2iDisconnect_ok |}.
#[export] Instance generic_O2iSendDataResult_struct : ProstStruct generic_O2iSendDataResult := {| struct_ok := generic_O2iSendDataResult_ok |}.
#[export] Instance generic_I2oRecvDataResult_struct : ProstStruct generic_I2oRecvDataResult := {| struct_ok := generic_I2oRecvDataResult_ok |}.
#[export] Instance generic_I2oSendToData_struct : ProstStruct generic_I2oSendToData := {| struct_ok := generic_I2oSendToData_ok |}.
#[export] Instance generic_O2iRecvDataFrom_struct : ProstStruct generic_O2iRecvDataFrom := {| struct_ok := generic_O2iRecvDataFrom_ok |}.

(** ** message_map.rs *)

Inductive MessageType :=
| NoMessage
| ClientServerLoginReq (msg : client_server_LoginReq)
| ClientServerRegisterReq (msg : client_server_RegisterReq)
| ClientServerManagementLoginReq (msg : client_server_ManagementLoginReq)
| ServerClientLoginAck (msg : server_client_LoginAck)
| ServerClientManagementLoginAck (msg : server_client_ManagementLoginAck)
| ServerClientModifyTunnelNtf (msg : server_client_ModifyTunnelNtf)
| GenericSuccess (msg : generic_Success)
| GenericFail (msg : generic_Fail)
| GenericError (msg : generic_Error)
| GenericPing (msg : generic_Ping)
| GenericPong (msg : generic_Pong)
| GenericI2oConnect (msg : generic_I2oConnect)
| GenericO2iConnect (msg : generic_O2iConnect)
| GenericI2oSendData (msg : generic_I2oSendData)
| GenericO2iRecvData (msg : generic_O2iRecvData)
| GenericI2oDisconnect (msg : generic_I2oDisconnect)
| GenericO2iDisconnect (msg : generic_O2iDisconnect)
| GenericO2iSendDataResult (msg : generic_O2iSendDataResult)
| GenericI2oRecvDataResult (msg : generic_I2oRecvDataResult)
| GenericI2oSendToData (msg : generic_I2oSendToData)
| GenericO2iRecvDataFrom (msg : generic_O2iRecvDataFrom)
.

#[export] Instance MessageType_eq_dec : EqDecision MessageType.
Proof. solve_decision. Defined.

(** [MessageType::is_none] *)
Definition message_is_none (m : MessageType) : bool :=
  match m with NoMessage => true | _ => false end.

Definition get_message_id (message : MessageType) : option u32 :=
  match message with
  | ClientServerLoginReq _ => Some 1001
  | ClientServerRegisterReq _ => Some 1003
  | ClientServerManagementLoginReq _ => Some 1005
  | ServerClientLoginAck _ => Some 1002
  | ServerClientManagementLoginAck _ => Some 1006
  | ServerClientModifyTunnelNtf _ => Some 1008
  | GenericSuccess _ => Some 150001
  | GenericFail _ => Some 150002
  | GenericError _ => Some 150003
  | GenericPing _ => Some 150004
  | GenericPong _ => Some 150005
  | GenericI2oConnect _ => Some 150006
  | GenericO2iConnect _ => Some 150007
  | GenericI2oSendData _ => Some 150008
  | GenericO2iRecvData _ => Some 150009
  | GenericI2oDisconnect _ => Some 150010
  | GenericO2iDisconnect _ => Some 150011
  | GenericO2iSendDataResult _ => Some 150012
  | GenericI2oRecvDataResult _ => Some 150013
  | GenericI2oSendToData _ => Some 150014
  | GenericO2iRecvDataFrom _ => Some 150015
  | NoMessage => None
  end.

(** What is well formed is of its Rust type. *)
Definition message_ok (message : MessageType) : Prop :=
  match message with
  | ClientServerLoginReq msg => client_server_LoginReq_ok msg
  | ClientServerRegisterReq msg => client_server_RegisterReq_ok msg
  | ClientServerManagementLoginReq msg => client_server_ManagementLoginReq_ok msg
  | ServerClientLoginAck msg => server_client_LoginAck_ok msg
  | ServerClientManagementLoginAck msg => server_client_ManagementLoginAck_ok msg
  | ServerClientModifyTunnelNtf msg => server_client_ModifyTunnelNtf_ok msg
  | GenericSuccess msg => generic_Success_ok msg
  | GenericFail msg => generic_Fail_ok msg
  | GenericError msg => generic_Error_ok msg
  | GenericPing msg => generic_Ping_ok msg
  | GenericPong msg => generic_Pong_ok msg
  | GenericI2oConnect msg => generic_I2oConnect_ok msg
  | GenericO2iConnect msg => generic_O2iConnect_ok msg
  | GenericI2oSendData msg => generic_I2oSendData_ok msg
  | GenericO2iRecvData msg => generic_O2iRecvData_ok msg
  | GenericI2oDisconnect msg => generic_I2oDisconnect_ok msg
  | GenericO2iDisconnect msg => generic_O2iDisconnect_ok msg
  | GenericO2iSendDataResult msg => generic_O2iSendDataResult_ok msg
  | GenericI2oRecvDataResult msg => generic_I2oRecvDataResult_ok msg
  | GenericI2oSendToData msg => generic_I2oSendToData_ok msg
  | GenericO2iRecvDataFrom msg => generic_O2iRecvDataFrom_ok msg
  | NoMessage => True
  end.

Section MessageMap.
Context `{Prost}.

Definition decode_message (message_id : u32) (bs : bytes) : outcome MessageType :=
  if message_id =? 1001 then m ← decode (A := client_server_LoginReq) bs; Ok (ClientServerLoginReq m)
  else if message_id =? 1003 then m ← decode (A := client_server_RegisterReq) bs; Ok (ClientServerRegisterReq m)
  else if message_id =? 1005 then m ← decode (A := client_server_ManagementLoginReq) bs; Ok (ClientServerManagementLoginReq m)
  else if message_id =? 1002 then m ← decode (A := server_client_LoginAck) bs; Ok (ServerClientLoginAck m)
  else if message_id =? 1006 then m ← decode (A := server_client_ManagementLoginAck) bs; Ok (ServerClientManagementLoginAck m)
  else if message_id =? 1008 then m ← decode (A := server_client_ModifyTunnelNtf) bs; Ok (ServerClientModifyTunnelNtf m)
  else if message_id =? 150001 then m ← decode (A := generic_Success) bs; Ok (GenericSuccess m)
  else if message_id =? 150002 then m ← decode (A := generic_Fail) bs; Ok (GenericFail m)
  else if message_id =? 150003 then m ← decode (A := generic_Error) bs; Ok (GenericError m)
  else if message_id =? 150004 then m ← decode (A := generic_Ping) bs; Ok (GenericPing m)
  else if message_id =? 150005 then m ← decode (A := generic_Pong) bs; Ok (GenericPong m)
  else if message_id =? 150006 then m ← decode (A := generic_I2oConnect) bs; Ok (GenericI2oConnect m)
  else if message_id =? 150007 then m ← decode (A := generic_O2iConnect) bs; Ok (GenericO2iConnect m)
  else if message_id =? 150008 then m ← decode (A := generic_I2oSendData) bs; Ok (GenericI2oSendData m)
  else if message_id =? 150009 then m ← decode (A := generic_O2iRecvData) bs; Ok (GenericO2iRecvData m)
  else if message_id =? 150010 then m ← decode (A := generic_I2oDisconnect) bs; Ok (GenericI2oDisconnect m)
  else if message_id =? 150011 then m ← decode (A := generic_O2iDisconnect) bs; Ok (GenericO2iDisconnect m)
  else if message_id =? 150012 then m ← decode (A := generic_O2iSendDataResult) bs; Ok (GenericO2iSendDataResult m)
  else if message_id =? 150013 then m ← decode (A := generic_I2oRecvDataResult) bs; Ok (GenericI2oRecvDataResult m)
  else if message_id =? 150014 then m ← decode (A := generic_I2oSendToData) bs; Ok (GenericI2oSendToData m)
  else if message_id =? 150015 then m ← decode (A := generic_O2iRecvDataFrom) bs; Ok (GenericO2iRecvDataFrom m)
  else Err "unknown message id".

Definition encode_message (message : MessageType) : option (u32 * bytes) :=
  match message with
  | ClientServerLoginReq msg => Some (1001, encode_raw msg)
  | ClientServerRegisterReq msg => Some (1003, encode_raw msg)
  | ClientServerManagementLoginReq msg => Some (1005, encode_raw msg)
  | ServerClientLoginAck msg => Some (1002, encode_raw msg)
  | ServerClientManagementLoginAck msg => Some (1006, encode_raw msg)
  | ServerClientModifyTunnelNtf msg => Some (1008, encode_raw msg)
  | GenericSuccess msg => Some (150001, encode_raw msg)
  | GenericFail msg => Some (150002, encode_raw msg)
  | GenericError msg => Some (150003, encode_raw msg)
  | GenericPing msg => Some (150004, encode_raw msg)
  | GenericPong msg => Some (150005, encode_raw msg)
  | GenericI2oConnect msg => Some (150006, encode_raw msg)
  | GenericO2iConnect msg => Some (150007, encode_raw msg)
  | GenericI2oSendData msg => Some (150008, encode_raw msg)
  | GenericO2iRecvData msg => Some (150009, encode_raw msg)
  | GenericI2oDisconnect msg => Some (150010, encode_raw msg)
  | GenericO2iDisconnect msg => Some (150011, encode_raw msg)
  | GenericO2iSendDataResult msg => Some (150012, encode_raw msg)
  | GenericI2oRecvDataResult msg => Some (150013, encode_raw msg)
  | GenericI2oSendToData msg => Some (150014, encode_raw msg)
  | GenericO2iRecvDataFrom msg => Some (150015, encode_raw msg)
  | NoMessage => None
  end.

Definition get_message_size (message : MessageType) : usize :=
  match message with
  | ClientServerLoginReq msg => encoded_len msg
  | ClientServerRegisterReq msg => encoded_len msg
  | ClientServerManagementLoginReq msg => encoded_len msg
  | ServerClientLoginAck msg => encoded_len msg
  | ServerClientManagementLoginAck msg => encoded_len msg
  | ServerClientModifyTunnelNtf msg => encoded_len msg
  | GenericSuccess msg => encoded_len msg
  | GenericFail msg => encoded_len msg
  | GenericError msg => encoded_len msg
  | GenericPing msg => encoded_len msg
  | GenericPong msg => encoded_len msg
  | GenericI2oConnect msg => encoded_len msg
  | GenericO2iConnect msg => encoded_len msg
  | GenericI2oSendData msg => encoded_len msg
  | GenericO2iRecvData msg => encoded_len msg
  | GenericI2oDisconnect msg => encoded_len msg
  | GenericO2iDisconnect msg => encoded_len msg
  | GenericO2iSendDataResult msg => encoded_len msg
  | GenericI2oRecvDataResult msg => encoded_len msg
  | GenericI2oSendToData msg => encoded_len msg
  | GenericO2iRecvDataFrom msg => encoded_len msg
  | NoMessage => 0
  end.

(** What is appended to the buffer. *)
Definition encode_raw_message (message : MessageType) : bytes :=
  match message with
  | ClientServerLoginReq msg => encode_raw msg
  | ClientServerRegisterReq msg => encode_raw msg
  | ClientServerManagementLoginReq msg => encode_raw msg
  | ServerClientLoginAck msg => encode_raw msg
  | ServerClientManagementLoginAck msg => encode_raw msg
  | ServerClientModifyTunnelNtf msg => encode_raw msg
  | GenericSuccess msg => encode_raw msg
  | GenericFail msg => encode_raw msg
  | GenericError msg => encode_raw msg
  | GenericPing msg => encode_raw msg
  | GenericPong msg => encode_raw msg
  | GenericI2oConnect msg => encode_raw msg
  | GenericO2iConnect msg => encode_raw msg
  | GenericI2oSendData msg => encode_raw msg
  | GenericO2iRecvData msg => encode_raw msg
  | GenericI2oDisconnect msg => encode_raw msg
  | GenericO2iDisconnect msg => encode_raw msg
  | GenericO2iSendDataResult msg => encode_raw msg
  | GenericI2oRecvDataResult msg => encode_raw msg
  | GenericI2oSendToData msg => encode_raw msg
  | GenericO2iRecvDataFrom msg => encode_raw msg
  | NoMessage => []
  end.

(** [serde_json::to_string], behind the feature [serde-serialize]. *)
Class JsonText := { json_to_string : ∀ {A : Type} `{ProstStruct A}, A → outcome string }.

Definition serialize_to_json `{JsonText} (message : MessageType) : outcome string :=
  match message with
  | ClientServerLoginReq msg => json_to_string msg
  | ClientServerRegisterReq msg => json_to_string msg
  | ClientServerManagementLoginReq msg => json_to_string msg
  | ServerClientLoginAck msg => json_to_string msg
  | ServerClientManagementLoginAck msg => json_to_string msg
  | ServerClientModifyTunnelNtf msg => json_to_string msg
  | GenericSuccess msg => json_to_string msg
  | GenericFail msg => json_to_string msg
  | GenericError msg => json_to_string msg
  | GenericPing msg => json_to_string msg
  | GenericPong msg => json_to_string msg
  | GenericI2oConnect msg => json_to_string msg
  | GenericO2iConnect msg => json_to_string msg
  | GenericI2oSendData msg => json_to_string msg
  | GenericO2iRecvData msg => json_to_string msg
  | GenericI2oDisconnect msg => json_to_string msg
  | GenericO2iDisconnect msg => json_to_string msg
  | GenericO2iSendDataResult msg => json_to_string msg
  | GenericI2oRecvDataResult msg => json_to_string msg
  | GenericI2oSendToData msg => json_to_string msg
  | GenericO2iRecvDataFrom msg => json_to_string msg
  | NoMessage => Ok "null"
  end.

(** ** Facts *)

Lemma encode_message_parts m id bs :
  encode_message m = Some (id, bs) →
  get_message_id m = Some id ∧ encode_raw_message m = bs ∧ get_message_size m = len bs.
Proof. destruct m; [done|..]; intros [= <- <-]; (split_and!; [done..|apply encoded_len_spec]). Qed.

Lemma encode_message_total m : m ≠ NoMessage → is_Some (encode_message m).
Proof. destruct m; done. Qed.

Lemma get_message_size_spec m : get_message_size m = len (encode_raw_message m).
Proof. destruct m; [done|apply encoded_len_spec..]. Qed.

Lemma encode_raw_message_bytes m : bytes_ok (encode_raw_message m).
Proof. destruct m; [constructor|apply encode_raw_bytes..]. Qed.

Lemma decode_encoded m id bs :
  message_ok m → encode_message m = Some (id, bs) → decode_message id bs = Ok m.
Proof.
  intros Hok. destruct m; [done|..]; intros [= <- <-]; unfold decode_message; cbn [Z.eqb Pos.eqb];
    rewrite prost_roundtrip; done.
Qed.

Lemma get_message_id_range m id : get_message_id m = Some id → in_u32 id.
Proof. unfold in_u32. destruct m; [done|..]; intros [= <-]; lia. Qed.

Lemma decoded_typed id bs m : decode_message id bs = Ok m → message_ok m.
Proof.
  unfold decode_message, mbind, outcome_bind.
  repeat match goal with
  | |- context [?a =? ?b] => destruct (a =? b);
      [match goal with |- context [decode bs] => destruct (decode bs) eqn:E; [|done..] end;
       intros [= <-]; exact (prost_typed _ _ E)|]
  end.
  done.
Qed.

Lemma decoded_id id bs m : decode_message id bs = Ok m → get_message_id m = Some id.
Proof.
  unfold decode_message, mbind, outcome_bind.
  repeat match goal with
  | |- context [?a =? ?b] => destruct (Z.eqb_spec a b) as [->|_];
      [match goal with |- context [decode bs] => destruct (decode bs); [|done..] end;
       by intros [= <-]|]
  end.
  done.
Qed.
End MessageMap.

(** ** A concrete encoding: the digits of the structure's number *)

Module ProstConcrete.
Fixpoint digits (fuel : nat) (n : N) : bytes :=
  match fuel with
  | O => []
  | S k => if decide (n = 0%N) then [] else Z.of_N (n mod 256)%N :: digits k (n / 256)%N
  end.

Definition undigits (bs : bytes) : N := foldr (λ b n, Z.to_N b + 256 * n)%N 0%N bs.

Lemma digits_bytes fuel n : bytes_ok (digits fuel n).
Proof.
  revert n. induction fuel as [|k IH]; intros n; cbn; [constructor|]. case_decide; [constructor|].
  constructor; [|apply IH]. unfold in_u8.
  rewrite N2Z.inj_mod. apply Z.mod_pos_bound. lia.
Qed.

Lemma undigits_digits fuel n : (n < 2 ^ N.of_nat fuel)%N → undigits (digits fuel n) = n.
Proof.
  revert n. induction fuel as [|k IH]; intros n Hn.
  { change (N.of_nat 0) with 0%N in Hn. rewrite N.pow_0_r in Hn. cbn. lia. }
  cbn [digits]. case_decide as Hz; [by subst|]. cbn [undigits foldr]. fold (undigits (digits k (n / 256))).
  rewrite ?N2Z.id; fold undigits; rewrite IH.
  - pose proof (N.Div0.div_mod n 256). change (foldr _ 0%N) with undigits. lia.
  - rewrite Nat2N.inj_succ, N.pow_succ_r' in Hn.
    apply N.Div0.div_lt_upper_bound. lia.
Qed.

Definition number {A} `{ProstStruct A} (m : A) : positive := countable.encode m.
Definition to_bytes {A} `{ProstStruct A} (m : A) : bytes :=
  digits (Pos.size_nat (number m)) (Npos (number m)).
Definition of_number {A} `{ProstStruct A} (bs : bytes) : outcome A :=
  match undigits bs with
  | Npos p => match countable.decode p with
              | Some m => if decide (struct_ok m) then Ok m else Err "invalid message"
              | None => Err "invalid message"
              end
  | N0 => Err "empty message"
  end.

Lemma size_nat_bound p : (Npos p < 2 ^ N.of_nat (Pos.size_nat p))%N.
Proof.
  induction p as [p IH|p IH|]; cbn [Pos.size_nat]; rewrite ?Nat2N.inj_succ, ?N.pow_succ_r'; lia.
Qed.

(** An encoding has at most one byte for each bit of the number. *)
Lemma to_bytes_len {A} `{ProstStruct A} (m : A) : len (to_bytes m) <= Z.pos (Pos.size (number m)).
Proof.
  unfold to_bytes, len. generalize (number m). intros p.
  assert (∀ fuel n, (length (digits fuel n) <= fuel)%nat) as Hd.
  { induction fuel as [|fuel IH]; intros n; cbn; [done|]. case_decide; cbn; [lia|]. specialize (IH (n / 256)%N). lia. }
  assert (Z.of_nat (Pos.size_nat p) = Z.pos (Pos.size p)) as <- by (induction p; cbn [Pos.size_nat Pos.size]; lia).
  specialize (Hd (Pos.size_nat p) (Npos p)). lia.
Qed.

#[export] Instance prost : Prost.
Proof.
  refine {| encode_raw := λ A _, to_bytes; encoded_len := λ A _ m, len (to_bytes m);
            decode := λ A _, of_number |}.
  - done.
  - intros. apply digits_bytes.
  - intros A HA m Hm. unfold of_number, to_bytes. rewrite undigits_digits by apply size_nat_bound.
    unfold number. rewrite decode_encode. by rewrite decide_True.
  - intros A HA bs m. unfold of_number. repeat case_match; try done. by intros [= <-].
Defined.
End ProstConcrete.
