(* ===== verification/Bridge.v ===== *)
(** [np_proto/src/utils/message_bridge.rs]: tunnel messages as protocol messages
    and back. *)

From S2P Require Import Prelude Std Net Proxy Messages.

Definition proxy_message_2_pb (proxy_message : ProxyMessage) (tunnel_id : u32) : MessageType :=
  match proxy_message with
  | I2oConnect session_id tunnel_type is_tcp is_compressed addr encryption_method encryption_key
      client_addr =>
      GenericI2oConnect {|
        ic_tunnel_id := tunnel_id; ic_session_id := session_id; ic_tunnel_type := tunnel_type;
        ic_is_tcp := is_tcp; ic_is_compressed := is_compressed; ic_addr := addr;
        ic_encryption_method := encryption_method; ic_encryption_key := encryption_key;
        ic_client_addr := client_addr |}
  | O2iConnect session_id success error_info =>
      GenericO2iConnect {| oc_tunnel_id := tunnel_id; oc_session_id := session_id;
                           oc_success := success; oc_error_info := error_info |}
  | I2oSendData session_id data =>
      GenericI2oSendData {| isd_tunnel_id := tunnel_id; isd_session_id := session_id;
                            isd_data := data |}
  | I2oSendToData session_id data target_addr =>
      GenericI2oSendToData {| ist_tunnel_id := tunnel_id; ist_session_id := session_id;
                              ist_data := data; ist_target_addr := target_addr |}
  | O2iSendDataResult session_id data_len =>
      GenericO2iSendDataResult {| osr_tunnel_id := tunnel_id; osr_session_id := session_id;
                                  osr_data_len := as_u32 data_len |}
  | O2iRecvData session_id data =>
      GenericO2iRecvData {| ord_tunnel_id := tunnel_id; ord_session_id := session_id;
                            ord_data := data |}
  | O2iRecvDataFrom session_id data remote_addr =>
      GenericO2iRecvDataFrom {| orf_tunnel_id := tunnel_id; orf_session_id := session_id;
                                orf_data := data; orf_remote_addr := remote_addr |}
  | I2oRecvDataResult session_id data_len =>
      GenericI2oRecvDataResult {| irr_tunnel_id := tunnel_id; irr_session_id := session_id;
                                  irr_data_len := as_u32 data_len |}
  | I2oDisconnect session_id =>
      GenericI2oDisconnect {| idc_tunnel_id := tunnel_id; idc_session_id := session_id |}
  | O2iDisconnect session_id =>
      GenericO2iDisconnect {| odc_tunnel_id := tunnel_id; odc_session_id := session_id |}
  end.

(** The [From] implementations. *)
Definition from_I2oConnect (m : generic_I2oConnect) : ProxyMessage :=
  I2oConnect (ic_session_id m) (as_u8 (ic_tunnel_type m)) (ic_is_tcp m) (ic_is_compressed m)
    (ic_addr m) (ic_encryption_method m) (ic_encryption_key m) (ic_client_addr m).
Definition from_O2iConnect (m : generic_O2iConnect) : ProxyMessage :=
  O2iConnect (oc_session_id m) (oc_success m) (oc_error_info m).
Definition from_I2oSendData (m : generic_I2oSendData) : ProxyMessage :=
  I2oSendData (isd_session_id m) (isd_data m).
Definition from_I2oSendToData (m : generic_I2oSendToData) : ProxyMessage :=
  I2oSendToData (ist_session_id m) (ist_data m) (ist_target_addr m).
Definition from_O2iSendDataResult (m : generic_O2iSendDataResult) : ProxyMessage :=
  O2iSendDataResult (osr_session_id m) (osr_data_len m).
Definition from_O2iRecvData (m : generic_O2iRecvData) : ProxyMessage :=
  O2iRecvData (ord_session_id m) (ord_data m).
Definition from_O2iRecvDataFrom (m : generic_O2iRecvDataFrom) : ProxyMessage :=
  O2iRecvDataFrom (orf_session_id m) (orf_data m) (orf_remote_addr m).
Definition from_I2oRecvDataResult (m : generic_I2oRecvDataResult) : ProxyMessage :=
  I2oRecvDataResult (irr_session_id m) (irr_data_len m).
Definition from_I2oDisconnect (m : generic_I2oDisconnect) : ProxyMessage :=
  I2oDisconnect (idc_session_id m).
Definition from_O2iDisconnect (m : generic_O2iDisconnect) : ProxyMessage :=
  O2iDisconnect (odc_session_id m).

Definition pb_2_proxy_message (message : MessageType) : option (ProxyMessage * u32) :=
  match message with
  | GenericI2oConnect msg => Some (from_I2oConnect msg, ic_tunnel_id msg)
  | GenericI2oSendData msg => Some (from_I2oSendData msg, isd_tunnel_id msg)
  | GenericI2oSendToData msg => Some (from_I2oSendToData msg, ist_tunnel_id msg)
  | GenericI2oRecvDataResult msg => Some (from_I2oRecvDataResult msg, irr_tunnel_id msg)
  | GenericI2oDisconnect msg => Some (from_I2oDisconnect msg, idc_tunnel_id msg)
  | GenericO2iConnect msg => Some (from_O2iConnect msg, oc_tunnel_id msg)
  | GenericO2iRecvData msg => Some (from_O2iRecvData msg, ord_tunnel_id msg)
  | GenericO2iRecvDataFrom msg => Some (from_O2iRecvDataFrom msg, orf_tunnel_id msg)
  | GenericO2iDisconnect msg => Some (from_O2iDisconnect msg, odc_tunnel_id msg)
  | GenericO2iSendDataResult msg => Some (from_O2iSendDataResult msg, osr_tunnel_id msg)
  | _ => None
  end.

Definition is_i2o_message (m : ProxyMessage) : bool :=
  match m with
  | I2oConnect _ _ _ _ _ _ _ _ | I2oSendData _ _ | I2oSendToData _ _ _ | I2oDisconnect _
  | I2oRecvDataResult _ _ => true
  | O2iConnect _ _ _ | O2iSendDataResult _ _ | O2iRecvData _ _ | O2iRecvDataFrom _ _ _
  | O2iDisconnect _ => false
  end.

(** ** Facts *)

(** A tunnel message whose fields are of their Rust types, and whose length
    fits the 32 bits it is given on the wire. *)
Definition proxy_message_ok (m : ProxyMessage) : Prop :=
  match m with
  | I2oConnect s t _ _ a e k c =>
      in_u32 s ∧ in_u8 t ∧ str_ok a ∧ str_ok e ∧ str_ok k ∧ str_ok c
  | O2iConnect s _ e => in_u32 s ∧ str_ok e
  | I2oSendData s d | O2iRecvData s d => in_u32 s ∧ bytes_ok d
  | I2oSendToData s d a | O2iRecvDataFrom s d a => in_u32 s ∧ bytes_ok d ∧ str_ok a
  | O2iSendDataResult s n | I2oRecvDataResult s n => in_u32 s ∧ in_u32 n
  | I2oDisconnect s | O2iDisconnect s => in_u32 s
  end.

Lemma pb_roundtrip m tid :
  proxy_message_ok m → pb_2_proxy_message (proxy_message_2_pb m tid) = Some (m, tid).
Proof.
  destruct m; cbn [proxy_message_ok proxy_message_2_pb pb_2_proxy_message]; intros Hok;
    unfold from_I2oConnect, from_O2iConnect, from_I2oSendData, from_I2oSendToData,
      from_O2iSendDataResult, from_O2iRecvData, from_O2iRecvDataFrom, from_I2oRecvDataResult,
      from_I2oDisconnect, from_O2iDisconnect; cbn; try done.
  - by rewrite as_u8_id by apply Hok.
  - by rewrite as_u32_id by apply Hok.
  - by rewrite as_u32_id by apply Hok.
Qed.

Lemma pb_not_none m tid : message_is_none (proxy_message_2_pb m tid) = false.
Proof. by destruct m. Qed.

Lemma pb_ok m tid : in_u32 tid → proxy_message_ok m → message_ok (proxy_message_2_pb m tid).
Proof.
  intros Ht. destruct m; cbn; intros Hm.
  - destruct Hm as (? & Hu & ?). unfold generic_I2oConnect_ok, in_u8, in_u32 in *. cbn.
    intuition lia.
  - by unfold generic_O2iConnect_ok.
  - by unfold generic_I2oSendData_ok.
  - by unfold generic_I2oSendToData_ok.
  - unfold generic_O2iSendDataResult_ok. cbn. destruct Hm. auto using as_u32_range.
  - by unfold generic_O2iRecvDataFrom_ok.
  - by unfold generic_O2iRecvData_ok.
  - unfold generic_I2oRecvDataResult_ok. cbn. destruct Hm. auto using as_u32_range.
  - by unfold generic_I2oDisconnect_ok.
  - by unfold generic_O2iDisconnect_ok.
Qed.

Lemma from_pb_ok pb m tid :
  message_ok pb → pb_2_proxy_message pb = Some (m, tid) → proxy_message_ok m ∧ in_u32 tid.
Proof.
  destruct pb; cbn; intros Hok [= <- <-]; cbn in *.
  all: unfold generic_I2oConnect_ok, generic_O2iConnect_ok, generic_I2oSendData_ok,
    generic_O2iRecvData_ok, generic_I2oDisconnect_ok, generic_O2iDisconnect_ok,
    generic_O2iSendDataResult_ok, generic_I2oRecvDataResult_ok, generic_I2oSendToData_ok,
    generic_O2iRecvDataFrom_ok in Hok; intuition (auto using as_u8_range).
Qed.

(** ** Properties *)

(** C33: What is received is well typed. A message decoded from any bytes, and
    the tunnel message and tunnel read from it, have fields of their types;
    sent on, it goes out under the id it came with, well typed again, and is
    read as the same message, the only field that may change being a tunnel
    type that does not fit a byte. *)
Theorem received_typed `{Prost} (id : u32) (bs : bytes) (pb : MessageType) m tid :
  decode_message id bs = Ok pb → pb_2_proxy_message pb = Some (m, tid) →
  message_ok pb ∧ proxy_message_ok m ∧ in_u32 tid ∧
  let pb' := proxy_message_2_pb m tid in
  get_message_id pb' = Some id ∧ message_ok pb' ∧ pb_2_proxy_message pb' = Some (m, tid) ∧
  (pb' = pb ∨ ∃ c, pb = GenericI2oConnect c ∧ 256 <= ic_tunnel_type c).
Proof.
  intros Hd Hp. pose proof (decoded_typed _ _ _ Hd) as Hok.
  destruct (from_pb_ok pb m tid Hok Hp) as [Hm Ht].
  pose proof (decoded_id _ _ _ Hd) as Hid.
  split; [done|]. split; [done|]. split; [done|]. cbv zeta. split_and!.
  - by destruct pb; try done; cbn in Hp; injection Hp as <- <-.
  - by apply pb_ok.
  - by apply pb_roundtrip.
  - destruct pb; try done; cbn in Hp; injection Hp as <- <-; cbn in Hok.
    1: { match goal with |- context [from_I2oConnect ?c] =>
           destruct (Z_lt_le_dec (ic_tunnel_type c) 256); [left|right; by exists c] end.
         destruct msg. cbn in *. rewrite as_u8_id; [done|]. unfold in_u8.
         unfold generic_I2oConnect_ok, in_u32 in Hok. cbn in Hok. lia. }
    all: left; destruct msg; cbn in *; unfold generic_O2iSendDataResult_ok,
      generic_I2oRecvDataResult_ok in Hok; cbn in Hok; rewrite ?as_u32_id by apply Hok; done.
Qed.


Lemma received_typed_witness :
  let c := {| ic_tunnel_id := 4; ic_session_id := 8; ic_tunnel_type := 258; ic_is_tcp := true;
              ic_is_compressed := false; ic_addr := "a:1"; ic_encryption_method := "None";
              ic_encryption_key := ""; ic_client_addr := "" |} in
  let m := from_I2oConnect c in
  message_ok (GenericI2oConnect c) ∧ proxy_message_ok m ∧ in_u32 4 ∧
  let pb' := proxy_message_2_pb m 4 in
  get_message_id pb' = Some 150006 ∧ message_ok pb' ∧ pb_2_proxy_message pb' = Some (m, 4) ∧
  (pb' = GenericI2oConnect c ∨
   ∃ c', GenericI2oConnect c = GenericI2oConnect c' ∧ 256 <= ic_tunnel_type c').
Proof.
  intros c m. apply (received_typed (H := ProstConcrete.prost) 150006
    (encode_raw_message (H := ProstConcrete.prost) (GenericI2oConnect c))).
  - vm_compute. reflexivity.
  - reflexivity.
Defined.

(** A tunnel message survives the wire: the protocol message it becomes is
    encoded under the id its receiver decodes it by, and converts back to the
    same message for the same tunnel. *)
Theorem proxy_message_roundtrip `{Prost} (m : ProxyMessage) (tunnel_id : u32) :
  in_u32 tunnel_id → proxy_message_ok m →
  ∃ id bs pb, encode_message (proxy_message_2_pb m tunnel_id) = Some (id, bs) ∧
    decode_message id bs = Ok pb ∧ pb_2_proxy_message pb = Some (m, tunnel_id).
Proof.
  intros Ht Hm. destruct (encode_message_total (proxy_message_2_pb m tunnel_id)) as [[id bs] He].
  { intros E. pose proof (pb_not_none m tunnel_id). by rewrite E in *. }
  exists id, bs, (proxy_message_2_pb m tunnel_id). split; [done|].
  split; [by apply decode_encoded, He; apply pb_ok|by apply pb_roundtrip].
Qed.

Lemma proxy_message_roundtrip_witness : ∃ id bs pb,
  encode_message (H := ProstConcrete.prost) (proxy_message_2_pb (I2oSendData 8 [1; 2; 3]) 4) = Some (id, bs) ∧
  decode_message (H := ProstConcrete.prost) id bs = Ok pb ∧
  pb_2_proxy_message pb = Some (I2oSendData 8 [1; 2; 3], 4).
Proof.
  apply (proxy_message_roundtrip (H := ProstConcrete.prost) (I2oSendData 8 [1; 2; 3]) 4).
  - unfold in_u32. lia.
  - split; [unfold in_u32; lia|]. repeat constructor; unfold in_u8; lia.
Defined.
