(* ===== verification/Framing.v ===== *)
(** The frames of the client/server protocol ([np_client/src/client.rs] and
    [np_server/src/peer/mod.rs] build and take apart the same ones): one flag
    byte, the length of the rest, a serial number, a message id, the message. *)

From S2P Require Import Prelude Std Net Messages.

Definition FLAG : u8 := 33.

(** The limits on a frame's length: the client's and the server's. *)
Definition CLIENT_MAX : usize := 1024 * 1024 * 5.
Definition SERVER_MAX : usize := 1024 * 1024 * 2.

Section Framing.
Context `{Prost}.

(** The buffer [package_and_send_message] builds; [None] for a message that has
    no id. *)
Definition package_message (serial : i32) (message : MessageType) : option bytes :=
  match get_message_id message with
  | Some message_id =>
      let message_size := get_message_size message in
      Some ([FLAG] ++ be32 (as_u32 (8 + message_size)) ++ be32 (as_u32 serial) ++
            be32 message_id ++ encode_raw_message message)
  | None => None
  end.

(** Taking a frame off a buffer that starts with the flag: [too_long] is the
    error of a length that is 0 or not below [limit]. *)
Definition take_frame (limit : usize) (buffer : bytes) : outcome (option bytes * bytes) :=
  if len buffer <? 5 then Ok (None, buffer)
  else
    buf ← slice buffer 1 5;
    let n := read_be buf in
    if (n <=? 0) || (limit <=? n) then Err "Message too long"
    else if len buffer <? 5 + n then Ok (None, buffer)
    else
      front ← slice buffer 0 (5 + n);
      rest ← slice_from buffer (5 + n);
      frame ← slice_from front 5;
      Ok (Some frame, rest).

(** The client's [try_extract_frame]. *)
Definition try_extract_frame (buffer : bytes) : outcome (option bytes * bytes) :=
  if 0 <? len buffer then
    b ← index buffer 0;
    if negb (b =? FLAG) then Err "Bad flag" else take_frame CLIENT_MAX buffer
  else take_frame CLIENT_MAX buffer.

(** The serial number and the message of a frame of at least 8 bytes. *)
Definition parse_frame (frame : bytes) : outcome (i32 * u32 * bytes) :=
  s ← slice frame 0 4;
  i ← slice frame 4 8;
  rest ← slice_from frame 8;
  Ok (as_i32 (read_be s), read_be i, rest).

(** ** Facts *)

Lemma read_be_nonneg bs : bytes_ok bs → 0 <= read_be bs.
Proof.
  unfold read_be. assert (∀ a, 0 <= a → bytes_ok bs → 0 <= fold_left (λ acc b, acc * 256 + b) bs a)
    as Hg; [|apply Hg; lia].
  induction bs as [|b bs IH]; intros a Ha Hok; cbn; [done|].
  apply Forall_cons in Hok as [Hb Hok]. cbv beta in Hb. unfold in_u8 in Hb. apply IH; [lia|done].
Qed.

(** A frame of [body] on the wire. *)
Definition frame_of (body : bytes) : bytes := [FLAG] ++ be32 (as_u32 (len body)) ++ body.

Lemma frame_of_len body : len (frame_of body) = 5 + len body.
Proof. unfold frame_of. rewrite !len_app. change (len [FLAG]) with 1. unfold len at 1. cbn. lia. Qed.

Lemma frame_length body more :
  in_u32 (len body) →
  ∃ b, slice (frame_of body ++ more) 1 5 = Ok b ∧ read_be b = len body.
Proof.
  intros Hl. exists (be32 (as_u32 (len body))). split.
  - unfold frame_of. rewrite <- !app_assoc. by apply slice_app_mid.
  - rewrite read_be32. rewrite !as_u32_id; [done|done|by rewrite as_u32_id].
Qed.

Lemma take_frame_whole limit body more :
  0 < len body < limit → limit <= 4294967296 →
  take_frame limit (frame_of body ++ more) = Ok (Some body, more).
Proof.
  intros Hl Hlim. unfold take_frame. pose proof (frame_of_len body) as Hf.
  pose proof (len_nonneg more). rewrite len_app, Hf.
  destruct (Z.ltb_spec (5 + len body + len more) 5); [lia|].
  destruct (frame_length body more) as (b & -> & Hb); [unfold in_u32; lia|].
  cbn [mbind outcome_bind]. cbv zeta. rewrite Hb.
  destruct (Z.leb_spec (len body) 0); [lia|]. destruct (Z.leb_spec limit (len body)); [lia|].
  cbn [orb]. destruct (Z.ltb_spec (5 + len body + len more) (5 + len body)); [lia|].
  rewrite slice_app_pre by lia. cbn [mbind outcome_bind].
  rewrite slice_from_app by lia. cbn [mbind outcome_bind].
  unfold frame_of. rewrite app_assoc, slice_from_app; [done|].
  rewrite len_app. unfold len at 2. cbn. reflexivity.
Qed.

Lemma take_frame_part limit body b more :
  0 < len body < limit → limit <= 4294967296 → b ++ more = frame_of body → more ≠ [] →
  take_frame limit b = Ok (None, b).
Proof.
  intros Hl Hlim Hb Hm. unfold take_frame. destruct (Z.ltb_spec (len b) 5); [done|].
  assert (len b < 5 + len body) as Hlt.
  { rewrite <- frame_of_len, <- Hb, len_app. destruct more; [done|].
    rewrite len_cons. pose proof (len_nonneg more). lia. }
  destruct (frame_length body []) as (x & Hx & Hr); [unfold in_u32; lia|].
  rewrite app_nil_r, <- Hb in Hx.
  assert (slice b 1 5 = Ok x) as ->.
  { revert Hx. rewrite !slice_ok by (rewrite ?len_app; pose proof (len_nonneg more); lia).
    intros [= <-]. unfold len in *. rewrite drop_app_le by lia.
    rewrite take_app_le by (rewrite length_drop; lia). done. }
  cbn [mbind outcome_bind]. cbv zeta. rewrite Hr.
  destruct (Z.leb_spec (len body) 0); [lia|]. destruct (Z.leb_spec limit (len body)); [lia|].
  cbn [orb]. by destruct (Z.ltb_spec (len b) (5 + len body)); [|lia].
Qed.

(** What a frame's body parses to. *)
Definition body_of (serial : i32) (id : u32) (raw : bytes) : bytes :=
  be32 (as_u32 serial) ++ be32 id ++ raw.

Lemma parse_body serial id raw :
  in_i32 serial → in_u32 id → parse_frame (body_of serial id raw) = Ok (serial, id, raw).
Proof.
  intros Hs Hi. unfold parse_frame, body_of.
  rewrite slice_app_pre by done. cbn [mbind outcome_bind].
  rewrite slice_app_mid by done. cbn [mbind outcome_bind].
  rewrite app_assoc, slice_from_app by done. cbn [mbind outcome_bind].
  rewrite !read_be32, (as_u32_id id), (as_u32_id (as_u32 serial)) by (done || apply as_u32_range).
  by rewrite as_i32_of_u32.
Qed.

Lemma package_frame serial m id bs :
  encode_message m = Some (id, bs) → in_u32 (8 + len bs) →
  package_message serial m = Some (frame_of (body_of serial id bs)).
Proof.
  intros He Hl. destruct (encode_message_parts m id bs He) as (Hid & Hraw & Hsize).
  unfold package_message. rewrite Hid. cbv zeta. rewrite Hsize, Hraw. f_equal.
  unfold frame_of, body_of. rewrite !len_app. unfold len at 2 3. cbn [length be32].
  by rewrite Z.add_assoc.
Qed.

(** *** The client's extraction *)

Lemma try_extract_flag rest : try_extract_frame (FLAG :: rest) = take_frame CLIENT_MAX (FLAG :: rest).
Proof.
  unfold try_extract_frame. rewrite len_cons. pose proof (len_nonneg rest).
  destruct (Z.ltb_spec 0 (1 + len rest)); [|lia]. done.
Qed.

Lemma try_extract_bad b rest : b ≠ FLAG → try_extract_frame (b :: rest) = Err "Bad flag".
Proof.
  intros Hb. unfold try_extract_frame. rewrite len_cons. pose proof (len_nonneg rest).
  destruct (Z.ltb_spec 0 (1 + len rest)); [|lia].
  change (index (b :: rest) 0) with (Ok b). cbn [mbind outcome_bind].
  by apply Z.eqb_neq in Hb as ->.
Qed.

(** Every case of [take_frame], on any buffer. *)
Lemma take_frame_cases limit buffer :
  (len buffer < 5 ∧ take_frame limit buffer = Ok (None, buffer)) ∨
  5 <= len buffer ∧ ∃ b, (∀ more, slice (buffer ++ more) 1 5 = Ok b) ∧
    let n := read_be b in
    ((n <= 0 ∨ limit <= n) ∧ take_frame limit buffer = Err "Message too long") ∨
    (0 < n < limit ∧ len buffer < 5 + n ∧ take_frame limit buffer = Ok (None, buffer)) ∨
    (0 < n < limit ∧ 5 + n <= len buffer ∧
     take_frame limit buffer = Ok (Some (take (Z.to_nat n) (drop 5 buffer)),
                                   drop (Z.to_nat (5 + n)) buffer)).
Proof.
  unfold take_frame. destruct (Z.ltb_spec (len buffer) 5); [by left|]. right. split; [done|].
  exists (take 4 (drop 1 buffer)). split.
  { intros more. rewrite slice_ok by (rewrite ?len_app; pose proof (len_nonneg more); lia).
    unfold len in *. change (Z.to_nat (5 - 1)) with 4%nat. change (Z.to_nat 1) with 1%nat.
    by rewrite drop_app_le, take_app_le by (rewrite ?length_drop; lia). }
  rewrite slice_ok by lia. change (Z.to_nat (5 - 1)) with 4%nat. change (Z.to_nat 1) with 1%nat.
  cbn [mbind outcome_bind]. cbv zeta. set (n := read_be _).
  destruct (Z.leb_spec n 0); [by auto|]. destruct (Z.leb_spec limit n); [by auto|]. cbn [orb].
  destruct (Z.ltb_spec (len buffer) (5 + n)); [right; left; split_and!; done || lia|].
  right; right. split; [lia|]. split; [lia|].
  rewrite slice_ok, drop_0, Z.sub_0_r by lia. cbn [mbind outcome_bind].
  unfold slice_from. rewrite (slice_ok buffer (5 + n) (len buffer)) by lia. cbn [mbind outcome_bind].
  assert (len (take (Z.to_nat (5 + n)) buffer) = 5 + n) as Hl
    by (unfold len in *; rewrite length_take; lia).
  rewrite slice_ok by (rewrite ?Hl; lia). cbn [mbind outcome_bind]. rewrite Hl.
  change (Z.to_nat 5) with 5%nat. do 3 f_equal.
  - rewrite skipn_firstn_comm, take_take. f_equal. lia.
  - apply take_ge. unfold len. rewrite length_drop. lia.
Qed.

Lemma take_frame_more limit buffer more f r :
  take_frame limit buffer = Ok (Some f, r) →
  take_frame limit (buffer ++ more) = Ok (Some f, r ++ more).
Proof.
  intros E. destruct (take_frame_cases limit buffer) as [[_ E']|(Hl & b & Hb & Hc)]; [congruence|].
  cbv zeta in Hc. destruct Hc as [[_ E']|[(_ & _ & E')|(Hn & Hlen & E')]]; [congruence..|].
  rewrite E' in E. injection E as <- <-.
  destruct (take_frame_cases limit (buffer ++ more)) as [[Hs _]|(Hl2 & b2 & Hb2 & Hc2)].
  { rewrite len_app in Hs. pose proof (len_nonneg more). lia. }
  assert (b2 = b) as ->.
  { specialize (Hb2 []). rewrite app_nil_r, Hb in Hb2. by injection Hb2. }
  cbv zeta in Hc2. rewrite len_app in Hc2. pose proof (len_nonneg more).
  destruct Hc2 as [[[?|?] _]|[(_ & ? & _)|(_ & _ & ->)]]; [lia..|].
  unfold len in *. rewrite drop_app_le, take_app_le, drop_app_le
    by (rewrite ?length_drop; lia). done.
Qed.

Lemma take_frame_err limit buffer more e :
  take_frame limit buffer = Err e → take_frame limit (buffer ++ more) = Err e.
Proof.
  intros E. destruct (take_frame_cases limit buffer) as [[_ E']|(Hl & b & Hb & Hc)]; [congruence|].
  cbv zeta in Hc. destruct Hc as [[Hn E']|[(_ & _ & E')|(_ & _ & E')]]; [|congruence..].
  rewrite E' in E. injection E as <-.
  destruct (take_frame_cases limit (buffer ++ more)) as [[Hs _]|(Hl2 & b2 & Hb2 & Hc2)].
  { rewrite len_app in Hs. pose proof (len_nonneg more). lia. }
  assert (b2 = b) as ->.
  { specialize (Hb2 []). rewrite app_nil_r, Hb in Hb2. by injection Hb2. }
  cbv zeta in Hc2. destruct Hc2 as [[_ ?]|[(? & _)|(? & _)]]; [done|lia..].
Qed.

Lemma take_frame_no_panic limit buffer :
  match take_frame limit buffer with Panic _ | Pending => False | _ => True end.
Proof.
  destruct (take_frame_cases limit buffer) as [[_ ->]|(_ & b & _ & Hc)]; [done|].
  cbv zeta in Hc. by destruct Hc as [[_ ->]|[(_ & _ & ->)|(_ & _ & ->)]].
Qed.

Lemma take_frame_none limit buffer r : take_frame limit buffer = Ok (None, r) → r = buffer.
Proof.
  intros E. destruct (take_frame_cases limit buffer) as [[_ E']|(_ & b & _ & Hc)]; [congruence|].
  cbv zeta in Hc. destruct Hc as [[_ E']|[(_ & _ & E')|(_ & _ & E')]]; congruence.
Qed.

Lemma take_frame_shorter limit buffer f r :
  take_frame limit buffer = Ok (Some f, r) → (length r < length buffer)%nat.
Proof.
  intros E. destruct (take_frame_cases limit buffer) as [[_ E']|(Hl & b & _ & Hc)]; [congruence|].
  cbv zeta in Hc. destruct Hc as [[_ E']|[(_ & _ & E')|(Hn & Hlen & E')]]; [congruence..|].
  rewrite E' in E. injection E as _ <-. rewrite length_drop. unfold len in *. lia.
Qed.

#[export] Instance client_consuming {D} : Consuming (D := D) (λ b, lift (try_extract_frame b)).
Proof.
  intros [|x buffer] d f r d' E; [done|]. injection E as E <-.
  destruct (decide (x = FLAG)) as [->|Hx].
  - rewrite try_extract_flag in E. by eapply take_frame_shorter.
  - by rewrite try_extract_bad in E.
Qed.

#[export] Instance client_incremental {D} : Incremental (D := D) (λ b, lift (try_extract_frame b)).
Proof.
  intros [|x buffer] more d Hne; [done|]. unfold lift. cbn [app].
  destruct (decide (x = FLAG)) as [->|Hx].
  - rewrite !try_extract_flag. pose proof (take_frame_no_panic CLIENT_MAX (FLAG :: buffer)) as Hp.
    destruct (take_frame CLIENT_MAX (FLAG :: buffer)) as [[[f|] r]|e| |] eqn:E; try done.
    + apply (take_frame_more _ _ more) in E. cbn [app] in E. by rewrite E.
    + by apply take_frame_none in E.
    + apply (take_frame_err _ _ more) in E. cbn [app] in E. by rewrite E.
  - by rewrite !try_extract_bad.
Qed.

Lemma take_frame_too_long limit body more :
  limit <= len body → in_u32 (len body) →
  take_frame limit (frame_of body ++ more) = Err "Message too long".
Proof.
  intros Hl Hu. unfold take_frame. pose proof (frame_of_len body) as Hf.
  pose proof (len_nonneg more). pose proof (len_nonneg body). rewrite len_app, Hf.
  destruct (Z.ltb_spec (5 + len body + len more) 5); [lia|].
  destruct (frame_length body more Hu) as (b & -> & Hb). cbn [mbind outcome_bind]. cbv zeta.
  rewrite Hb. destruct (Z.leb_spec limit (len body)); [|lia]. by rewrite orb_true_r.
Qed.
End Framing.

(** ** Properties *)

(** C13: A message survives its frame. What either side packages the client
    takes off the stream whole, whatever follows, with its serial number and
    its message; the server does too below its own limit, and refuses the
    connection's data beyond it although the client's limit allows it. *)
Theorem frame_roundtrip `{Prost} (m : MessageType) serial id bs more :
  encode_message m = Some (id, bs) → message_ok m → in_i32 serial →
  8 + len bs < CLIENT_MAX →
  ∃ buf body, package_message serial m = Some buf ∧
    try_extract_frame (buf ++ more) = Ok (Some body, more) ∧
    parse_frame body = Ok (serial, id, bs) ∧ decode_message id bs = Ok m ∧
    take_frame SERVER_MAX (buf ++ more) =
      if 8 + len bs <? SERVER_MAX then Ok (Some body, more) else Err "Message too long".
Proof.
  intros He Hok Hs Hl. unfold CLIENT_MAX in Hl. pose proof (len_nonneg bs).
  assert (in_u32 (8 + len bs)) as Hu by (unfold in_u32; lia).
  destruct (encode_message_parts m id bs He) as (Hid & _).
  assert (len (body_of serial id bs) = 8 + len bs) as Hb.
  { unfold body_of. rewrite !len_app. unfold len at 1 2. cbn. lia. }
  exists (frame_of (body_of serial id bs)), (body_of serial id bs).
  split; [by apply package_frame|]. split.
  { change (frame_of (body_of serial id bs) ++ more)
      with (FLAG :: (be32 (as_u32 (len (body_of serial id bs))) ++ body_of serial id bs) ++ more).
    rewrite try_extract_flag. apply (take_frame_whole CLIENT_MAX); unfold CLIENT_MAX; lia. }
  split; [apply parse_body; [done|by eapply get_message_id_range]|].
  split; [by apply decode_encoded|].
  destruct (Z.ltb_spec (8 + len bs) SERVER_MAX) as [Hlt|Hge]; unfold SERVER_MAX in *.
  - apply take_frame_whole; lia.
  - apply take_frame_too_long; rewrite Hb; [lia|done].
Qed.

Lemma frame_roundtrip_witness :
  let P := ProstConcrete.prost in
  let m := GenericPing {| gi_ticks := 5 |} in
  ∃ buf body, package_message (-2) m = Some buf ∧
    try_extract_frame (buf ++ [33]) = Ok (Some body, [33]) ∧
    parse_frame body = Ok (-2, 150004, encode_raw {| gi_ticks := 5 |}) ∧
    decode_message 150004 (encode_raw {| gi_ticks := 5 |}) = Ok m ∧
    take_frame SERVER_MAX (buf ++ [33]) =
      if 8 + len (encode_raw {| gi_ticks := 5 |}) <? SERVER_MAX
      then Ok (Some body, [33]) else Err "Message too long".
Proof.
  intros P m. apply (frame_roundtrip m (-2) 150004 (encode_raw {| gi_ticks := 5 |}) [33]).
  - reflexivity.
  - cbn. unfold generic_Ping_ok, in_i64. cbn. lia.
  - unfold in_i32. lia.
  - vm_compute. reflexivity.
Defined.
