(* ===== verification/Client.v ===== *)
(** [np_client/src/client.rs]: the client: its login, the tunnels it runs, the
    messages it takes from the server and routes. *)

From S2P Require Import Prelude Std Extern Net Proxy Common Socks5 Inlet Messages Bridge Framing Ends.

(** ** State *)

Abbreviation Tunnel := class_def_Tunnel.

(** The order a [HashMap] is iterated in, which the standard library leaves
    open: some order of the entries. *)
Class HashMapOrder := {
  mapping_iter : gmap string string → list (string * string);
  mapping_iter_perm m : mapping_iter m ≡ₚ map_to_list m;
  tunnels_iter : gmap u32 Tunnel → list Tunnel;
  tunnels_iter_perm m : tunnels_iter m ≡ₚ (map_to_list m).*2
}.

Section Client.
Context `{AsyncWrite} `{Prost} `{InletOs} `{HashMapOrder}.

Record client := Client {
  c_writer : writer;
  c_username : string;
  c_password : string;
  c_player_id : u32;
  c_outlets : gmap u32 outlet_entry;
  c_inlets : gmap u32 inlet_entry;
  c_tunnels : gmap u32 Tunnel
}.

Definition set_writer (w : writer) (c : client) : client :=
  Client w (c_username c) (c_password c) (c_player_id c) (c_outlets c) (c_inlets c) (c_tunnels c).
Definition set_player_id (p : u32) (c : client) : client :=
  Client (c_writer c) (c_username c) (c_password c) p (c_outlets c) (c_inlets c) (c_tunnels c).
Definition set_outlets (f : gmap u32 outlet_entry → gmap u32 outlet_entry) (c : client) : client :=
  Client (c_writer c) (c_username c) (c_password c) (c_player_id c) (f (c_outlets c))
    (c_inlets c) (c_tunnels c).
Definition set_inlets (f : gmap u32 inlet_entry → gmap u32 inlet_entry) (c : client) : client :=
  Client (c_writer c) (c_username c) (c_password c) (c_player_id c) (c_outlets c)
    (f (c_inlets c)) (c_tunnels c).
Definition set_tunnels (f : gmap u32 Tunnel → gmap u32 Tunnel) (c : client) : client :=
  Client (c_writer c) (c_username c) (c_password c) (c_player_id c) (c_outlets c)
    (c_inlets c) (f (c_tunnels c)).

Definition new_client (w : writer) (username password : string) : client :=
  Client w username password 0 ∅ ∅ ∅.

(** ** Sending *)

Definition package_and_send_message (serial : i32) (message : MessageType) : M client unit := λ c,
  match package_message serial message with
  | Some buf => let '(o, w) := write_all buf (c_writer c) in (o, set_writer w c)
  | None => (Err "Message id not found", c)
  end.

Definition send_login : M client unit :=
  c ← gets id;
  package_and_send_message (-1) (ClientServerLoginReq
    {| lq_version := "0.0.0"; lq_username := c_username c; lq_password := c_password c |}).

(** A turn of [ping_forever]: [elapsed] milliseconds since the last data, at
    [now] milliseconds. *)
Definition ping_step (elapsed now : Z) : M client unit :=
  if elapsed <? 5000 then mret tt
  else package_and_send_message (-2) (GenericPing {| gi_ticks := now |}).

(** [Outlet::input], [Inlet::input] *)
Definition give_outlet (tunnel_id : u32) (m : ProxyMessage) : M client unit := modify (λ c,
  match c_outlets c !! tunnel_id with
  | Some e => set_outlets <[tunnel_id := input_outlet m e]> c
  | None => c
  end).
Definition give_inlet (tunnel_id : u32) (m : ProxyMessage) : M client unit := modify (λ c,
  match c_inlets c !! tunnel_id with
  | Some e => set_inlets <[tunnel_id := input_inlet m e]> c
  | None => c
  end).

Definition send_proxy_message (self_player_id player_id tunnel_id : u32) (m : ProxyMessage)
    : M client unit :=
  if self_player_id =? player_id then
    if is_i2o_message m then give_outlet tunnel_id m else give_inlet tunnel_id m
  else
    let message := proxy_message_2_pb m tunnel_id in
    if negb (message_is_none message) then ignore (package_and_send_message 0 message)
    else mret tt.

(** The callbacks [outlet_output] and [inlet_output]. *)
Definition outlet_output (r : route) (m : ProxyMessage) : M client unit :=
  if rt_this_machine r then give_inlet (rt_tunnel_id r) m
  else send_proxy_message (rt_self_player_id r) (rt_player_id r) (rt_tunnel_id r) m.
Definition inlet_output (r : route) (m : ProxyMessage) : M client unit :=
  if rt_this_machine r then give_outlet (rt_tunnel_id r) m
  else send_proxy_message (rt_self_player_id r) (rt_player_id r) (rt_tunnel_id r) m.

(** ** Descriptions *)

Definition show_bool (b : bool) : string := if b then "true" else "false".
Definition show_int (z : Z) : string := if z <? 0 then "-" +:+ show (- z) else show z.

Definition fmt_point (p : option class_def_TunnelPoint) : string :=
  match p with Some p => tp_addr p | None => "none" end.

Definition outlet_description (t : Tunnel) : string :=
  "id:" +:+ show (tn_id t) +:+ "-sender:" +:+ show (tn_sender t) +:+
  "-enabled:" +:+ show_bool (tn_enabled t).

Definition newline : string := String (ascii_of_byte 10) "".
Definition fmt_mapping (kvs : list (string * string)) : string :=
  foldr (λ kv s, fst kv +:+ ":" +:+ snd kv +:+ newline +:+ s) "" kvs.

Definition inlet_description (t : Tunnel) : string :=
  "id:" +:+ show (tn_id t) +:+ "-source:" +:+ fmt_point (tn_source t) +:+
  "-endpoint:" +:+ fmt_point (tn_endpoint t) +:+ "-sender:" +:+ show (tn_sender t) +:+
  "-receiver:" +:+ show (tn_receiver t) +:+ "-tunnel_type:" +:+ show_int (tn_tunnel_type t) +:+
  "-username:" +:+ tn_username t +:+ "-password:" +:+ tn_password t +:+
  "-enabled:" +:+ show_bool (tn_enabled t) +:+
  "-is_compressed:" +:+ show_bool (tn_is_compressed t) +:+
  "-encryption_method:" +:+ tn_encryption_method t +:+
  "-custom_mapping:[" +:+ fmt_mapping (mapping_iter (tn_custom_mapping t)) +:+ "]".

(** ** sync_tunnels *)

Definition sends (p : u32) (t : Tunnel) : bool := tn_enabled t && (tn_sender t =? p).
Definition receives (p : u32) (t : Tunnel) : bool := tn_enabled t && (tn_receiver t =? p).

Definition retain_outlet (p : u32) (ts : list Tunnel) (id : u32) (e : outlet_entry) : bool :=
  existsb (λ t, (id =? tn_id t) && tn_enabled t && (tn_sender t =? p) &&
                bool_decide (outlet_description t = oe_description e)) ts.
Definition retain_inlet (p : u32) (ts : list Tunnel) (id : u32) (e : inlet_entry) : bool :=
  existsb (λ t, (id =? tn_id t) && tn_enabled t && (tn_receiver t =? p) &&
                bool_decide (inlet_description t = ie_description e)) ts.

Definition new_outlet (p : u32) (t : Tunnel) : outlet_entry := {|
  oe_description := outlet_description t;
  oe_route := {| rt_this_machine := tn_receiver t =? tn_sender t; rt_self_player_id := p;
                 rt_player_id := tn_receiver t; rt_tunnel_id := tn_id t |};
  oe_input := [] |}.

Definition point_addr (p : option class_def_TunnelPoint) : string :=
  match p with Some p => tp_addr p | None => "" end.

Definition inlet_config (ty : InletProxyType) (t : Tunnel) : InletConfig := {|
  cfg_type := ty; cfg_output_addr := point_addr (tn_endpoint t);
  cfg_is_compressed := tn_is_compressed t; cfg_encryption_method := tn_encryption_method t;
  cfg_data_ex := {| username := tn_username t; password := tn_password t |} |}.

Definition new_inlet (p : u32) (ty : InletProxyType) (t : Tunnel) : inlet_entry := {|
  ie_description := inlet_description t;
  ie_route := {| rt_this_machine := tn_receiver t =? tn_sender t; rt_self_player_id := p;
                 rt_player_id := tn_sender t; rt_tunnel_id := tn_id t |};
  ie_listen := point_addr (tn_source t);
  ie_config := inlet_config ty t;
  ie_input := [] |}.

Definition add_outlet (t : Tunnel) : M client unit :=
  c ← gets id;
  if sends (c_player_id c) t then
    match c_outlets c !! tn_id t with
    | Some _ => mret tt
    | None => modify (set_outlets <[tn_id t := new_outlet (c_player_id c) t]>)
    end
  else mret tt.

(** An inlet that does not start is dropped, after an error in the log. *)
Definition add_inlet (t : Tunnel) : M client unit :=
  c ← gets id;
  if receives (c_player_id c) t then
    match c_inlets c !! tn_id t with
    | Some _ => mret tt
    | None =>
        match from_u32 (as_u32 (tn_tunnel_type t)) with
        | Some ty =>
            match fst (inlet_start (inlet_config ty t) (point_addr (tn_source t)) inlet_new) with
            | Ok _ => modify (set_inlets <[tn_id t := new_inlet (c_player_id c) ty t]>)
            | Err _ => mret tt
            | Panic w => lift (Panic w)
            | Pending => lift Pending
            end
        | None => mret tt
        end
    end
  else mret tt.

Definition sync_tunnels (ts : list Tunnel) : M client unit :=
  p ← gets c_player_id;
  modify (set_outlets (base.filter (λ kv, retain_outlet p ts (fst kv) (snd kv) = true)));;
  modify (set_inlets (base.filter (λ kv, retain_inlet p ts (fst kv) (snd kv) = true)));;
  for_each add_outlet ts;;
  for_each add_inlet ts.

(** ** Messages from the server *)

Definition on_server_client_modify_tunnel_ntf (msg : server_client_ModifyTunnelNtf)
    : M client unit :=
  match mt_tunnel msg with
  | Some t =>
      modify (set_tunnels (delete (tn_id t)));;
      if mt_is_delete msg then mret tt
      else
        modify (set_tunnels <[tn_id t := t]>);;
        ts ← gets (λ c, tunnels_iter (c_tunnels c));
        sync_tunnels ts
  | None => mret tt
  end.

Definition handle_push (message : MessageType) : M client unit :=
  match message with
  | ServerClientModifyTunnelNtf msg => on_server_client_modify_tunnel_ntf msg
  | _ =>
      match pb_2_proxy_message message with
      | Some (msg, tunnel_id) =>
          c ← gets id;
          match c_tunnels c !! tunnel_id with
          | Some t =>
              let player_id := if is_i2o_message msg then tn_sender t else tn_receiver t in
              send_proxy_message (c_player_id c) player_id (tn_id t) msg
          | None => mret tt
          end
      | None => mret tt
      end
  end.

(** [tunnel_list.into_iter().map(|x| (x.id, x)).collect()] *)
Definition collect_tunnels (ts : list Tunnel) : gmap u32 Tunnel :=
  fold_left (λ m t, <[tn_id t := t]> m) ts ∅.

Definition handle_message (serial : i32) (message : MessageType) : M client unit :=
  p ← gets c_player_id;
  if p =? 0 then
    if 0 <? serial then
      match message with
      | ServerClientLoginAck msg =>
          modify (set_player_id (la_player_id msg));;
          sync_tunnels (la_tunnel_list msg);;
          modify (set_tunnels (λ _, collect_tunnels (la_tunnel_list msg)))
      | GenericError err =>
          bail ("Login failed: " +:+ ge_message err +:+ ", code: " +:+ show_int (ge_number err))
      | _ => bail "Login failed, received unknown message"
      end
    else bail "Login failed"
  else if serial =? 0 then handle_push message
  else mret tt.

Definition on_recv_frame (frame : bytes) : M client unit :=
  if len frame <? 8 then bail "message length is too small"
  else
    '(serial, msg_id, raw) ← lift (parse_frame frame);
    message ← lift (decode_message msg_id raw);
    handle_message serial message.

(** [Client::run] on the reads completed so far; a read of zero bytes is the
    server's end of the connection. *)
Definition run (reads : list read_event) : M client unit :=
  poll_read (λ b, lift (try_extract_frame b)) on_recv_frame (Ok []) reads [];; mret tt.

(** [run_client]: [work] is what happened until one of the two loops ended. *)
Definition then_stop_all (work : M client unit) : M client unit := λ c,
  let '(o, c) := work c in
  let '(o2, c) := sync_tunnels [] c in
  (match o2 with Ok _ => o | _ => o2 end, c).
Definition run_client (work : M client unit) : M client unit :=
  send_login;; then_stop_all work.

(** ** What [sync_tunnels] is for

    The outlet there should be for an id, given the one there was: an outlet is
    kept if its description still holds, and made anew otherwise. *)
Definition expected_outlet (p : u32) : list Tunnel → u32 → option outlet_entry → option outlet_entry :=
  expected tn_id (sends p) outlet_description oe_description (λ t, Some (new_outlet p t)).

(** An inlet that starts, if its type is known and its address can be bound. *)
Definition started_inlet (p : u32) (t : Tunnel) : option inlet_entry :=
  match from_u32 (as_u32 (tn_tunnel_type t)) with
  | Some ty =>
      match fst (inlet_start (inlet_config ty t) (point_addr (tn_source t)) inlet_new) with
      | Ok _ => Some (new_inlet p ty t)
      | _ => None
      end
  | None => None
  end.

Definition expected_inlet (p : u32) : list Tunnel → u32 → option inlet_entry → option inlet_entry :=
  expected tn_id (receives p) inlet_description ie_description (started_inlet p).

(** ** Facts *)

Lemma retain_outlet_eq p ts id e :
  retain_outlet p ts id e = retained tn_id (sends p) outlet_description oe_description ts id e.
Proof. apply existsb_same. intros t. unfold sends. by rewrite <- !andb_assoc. Qed.
Lemma retain_inlet_eq p ts id e :
  retain_inlet p ts id e = retained tn_id (receives p) inlet_description ie_description ts id e.
Proof. apply existsb_same. intros t. unfold receives. by rewrite <- !andb_assoc. Qed.

(** *** The two passes that add *)

Definition with_outlets (os : gmap u32 outlet_entry) (c : client) : client :=
  set_outlets (λ _, os) c.
Definition with_inlets (ins : gmap u32 inlet_entry) (c : client) : client :=
  set_inlets (λ _, ins) c.

Lemma add_outlet_eq t c :
  add_outlet t c = (Ok tt,
    if sends (c_player_id c) t then
      match c_outlets c !! tn_id t with
      | Some _ => c
      | None => set_outlets <[tn_id t := new_outlet (c_player_id c) t]> c
      end
    else c).
Proof.
  unfold add_outlet. rewrite gets_bind. cbn [id].
  destruct (sends _ t); [|done]. by destruct (c_outlets c !! tn_id t).
Qed.

Lemma add_outlets_eq ts c :
  for_each add_outlet ts c = (Ok tt, with_outlets
    (add_entries tn_id (sends (c_player_id c)) (λ t, Some (new_outlet (c_player_id c) t)) ts
       (c_outlets c)) c).
Proof.
  revert c. induction ts as [|t ts IH]; intros c; [by destruct c|].
  cbn [for_each]. rewrite (bind_ok _ _ _ _ _ (add_outlet_eq t c)). unfold add_entries. cbn [fold_left].
  destruct (sends (c_player_id c) t); [|by apply IH].
  destruct (c_outlets c !! tn_id t); by rewrite IH.
Qed.

Lemma add_inlet_eq t c :
  binds_answer →
  add_inlet t c = (Ok tt,
    if receives (c_player_id c) t then
      match c_inlets c !! tn_id t, started_inlet (c_player_id c) t with
      | None, Some e => set_inlets <[tn_id t := e]> c
      | _, _ => c
      end
    else c).
Proof.
  intros Hb. unfold add_inlet, started_inlet. rewrite gets_bind. cbn [id].
  destruct (receives _ t); [|done]. destruct (c_inlets c !! tn_id t); [done|].
  destruct (from_u32 _) as [ty|]; [|done].
  pose proof (start_answers (inlet_config ty t) (point_addr (tn_source t)) Hb).
  by destruct (fst (inlet_start _ _ _)).
Qed.

Lemma add_inlets_eq ts c :
  binds_answer →
  for_each add_inlet ts c = (Ok tt, with_inlets
    (add_entries tn_id (receives (c_player_id c)) (started_inlet (c_player_id c)) ts
       (c_inlets c)) c).
Proof.
  intros Hb. revert c. induction ts as [|t ts IH]; intros c; [by destruct c|].
  cbn [for_each]. rewrite (bind_ok _ _ _ _ _ (add_inlet_eq t c Hb)).
  unfold add_entries. cbn [fold_left]. destruct (receives (c_player_id c) t); [|by apply IH].
  destruct (c_inlets c !! tn_id t), (started_inlet (c_player_id c) t); by rewrite IH.
Qed.

Lemma sync_tunnels_eq ts c :
  binds_answer → NoDup (tn_id <$> ts) →
  ∃ os ins, sync_tunnels ts c = (Ok tt, with_inlets ins (with_outlets os c)) ∧
    (∀ id, os !! id = expected_outlet (c_player_id c) ts id (c_outlets c !! id)) ∧
    (∀ id, ins !! id = expected_inlet (c_player_id c) ts id (c_inlets c !! id)).
Proof.
  intros Hb Hnd. unfold sync_tunnels. rewrite gets_bind.
  erewrite bind_ok; [|reflexivity]. erewrite bind_ok; [|reflexivity].
  erewrite bind_ok; [|apply add_outlets_eq]. rewrite add_inlets_eq by done.
  eexists _, _. split; [reflexivity|]. cbn -[add_entries].
  split; intros id.
  - rewrite (filter_ext _ _ _ (retain_outlet_eq (c_player_id c) ts)).
    exact (sync_lookup tn_id (sends (c_player_id c)) outlet_description oe_description
             (λ t, Some (new_outlet (c_player_id c) t)) ts (c_outlets c) id Hnd).
  - rewrite (filter_ext _ _ _ (retain_inlet_eq (c_player_id c) ts)).
    exact (sync_lookup tn_id (receives (c_player_id c)) inlet_description ie_description
             (started_inlet (c_player_id c)) ts (c_inlets c) id Hnd).
Qed.

Lemma sync_nothing c :
  sync_tunnels [] c = (Ok tt, with_inlets ∅ (with_outlets ∅ c)).
Proof.
  unfold sync_tunnels. rewrite gets_bind. unfold with_inlets, with_outlets.
  assert (base.filter (λ kv, retain_outlet (c_player_id c) [] kv.1 kv.2 = true) (c_outlets c) = ∅) as Ho.
  { apply map_eq. intros k. rewrite lookup_filter_bool, lookup_empty. by destruct (c_outlets c !! k). }
  assert (base.filter (λ kv, retain_inlet (c_player_id c) [] kv.1 kv.2 = true) (c_inlets c) = ∅) as Hi.
  { apply map_eq. intros k. rewrite lookup_filter_bool, lookup_empty. by destruct (c_inlets c !! k). }
  rewrite (bind_ok _ _ _ tt (set_outlets (λ _, ∅) c)) by (unfold modify, set_outlets; by rewrite Ho).
  rewrite (bind_ok _ _ _ tt (set_inlets (λ _, ∅) (set_outlets (λ _, ∅) c)))
    by (unfold modify, set_inlets; cbn [c_inlets set_outlets]; by rewrite Hi).
  done.
Qed.

(** Two versions of a tunnel that an outlet's description does not tell apart. *)
Definition same_outlet (t1 t2 : Tunnel) : Prop :=
  tn_id t1 = tn_id t2 ∧ tn_sender t1 = tn_sender t2 ∧ tn_enabled t1 = tn_enabled t2.

Lemma same_outlet_description t1 t2 :
  same_outlet t1 t2 → outlet_description t1 = outlet_description t2.
Proof. intros (Hi & Hs & He). unfold outlet_description. by rewrite Hi, Hs, He. Qed.

Lemma sends_wanted p t : sends p t = true → wanted tn_id (sends p) [t] (tn_id t) = Some t.
Proof. intros Hs. cbn. by rewrite Z.eqb_refl, Hs. Qed.

Lemma login_gate serial m c :
  c_player_id c = 0 →
  (∀ msg, m = ServerClientLoginAck msg → serial <= 0) →
  ∃ e, handle_message serial m c = (Err e, c).
Proof.
  intros Hp Hm. unfold handle_message. rewrite gets_bind, Hp. cbn [Z.eqb].
  destruct (Z.ltb_spec 0 serial); [|eexists; reflexivity].
  destruct m; try (eexists; reflexivity). specialize (Hm _ eq_refl). lia.
Qed.
End Client.

(** ** Properties *)

Section ClientProperties.
Context `{AsyncWrite} `{Prost} `{InletOs} `{HashMapOrder}.

(** C12: Synchronising with a list of tunnels (with distinct ids) leaves exactly
    the outlets and inlets the list asks of this player: an end whose tunnel is
    not in the list, is disabled or is not this player's is gone; one whose
    description still holds is kept as it was, with what it was given; any
    other is made anew (an inlet only if its type is known and it starts). *)
Theorem sync_tunnels_correct (ts : list Tunnel) (c : client) :
  binds_answer → NoDup (tn_id <$> ts) →
  ∃ c', sync_tunnels ts c = (Ok tt, c') ∧
    (∀ id, c_outlets c' !! id = expected_outlet (c_player_id c) ts id (c_outlets c !! id)) ∧
    (∀ id, c_inlets c' !! id = expected_inlet (c_player_id c) ts id (c_inlets c !! id)) ∧
    c_player_id c' = c_player_id c ∧ c_tunnels c' = c_tunnels c ∧ c_writer c' = c_writer c.
Proof.
  intros Hb Hnd. destruct (sync_tunnels_eq ts c Hb Hnd) as (os & ins & Hr & Ho & Hi).
  eexists. split; [done|]. done.
Qed.

(** A deleted tunnel keeps running. The notice that a tunnel is deleted
    removes it from the client's list but leaves the inlets and the outlets as
    they are, so an inlet of the tunnel goes on listening and its outlet goes
    on connecting. *)
Theorem deleted_tunnel_keeps_running (t : Tunnel) (c : client) :
  let c' := set_tunnels (delete (tn_id t)) c in
  handle_push (ServerClientModifyTunnelNtf {| mt_is_delete := true; mt_tunnel := Some t |}) c =
    (Ok tt, c') ∧
  c_tunnels c' !! tn_id t = None ∧ c_outlets c' = c_outlets c ∧ c_inlets c' = c_inlets c.
Proof. split; [done|]. split; [apply lookup_delete_eq|done]. Qed.

(** An outlet outlives a change of its tunnel's receiver. When a tunnel
    this player sent to itself is given another receiver, the outlet is kept
    with its old route, since its description does not name the receiver, and
    whatever it puts out from then on is dropped. *)
Theorem stale_outlet_drops (t1 t2 : Tunnel) (c : client) m :
  binds_answer →
  sends (c_player_id c) t1 = true → same_outlet t1 t2 →
  tn_receiver t1 = c_player_id c → tn_receiver t2 ≠ c_player_id c →
  c_outlets c !! tn_id t1 = Some (new_outlet (c_player_id c) t1) →
  ∃ c' e, sync_tunnels [t2] c = (Ok tt, c') ∧ c_outlets c' !! tn_id t2 = Some e ∧
    e = new_outlet (c_player_id c) t1 ∧ outlet_output (oe_route e) m c' = (Ok tt, c').
Proof.
  intros Hb Hs Hsame Hr1 Hr2 Hold.
  destruct (sync_tunnels_eq [t2] c Hb) as (os & ins & Hr & Ho & Hi).
  { repeat constructor. apply not_elem_of_nil. }
  eexists _, _. split; [exact Hr|]. pose proof Hsame as (Hid & Hsend & Hen).
  assert (sends (c_player_id c) t2 = true) as Hs2.
  { unfold sends in *. by rewrite <- Hsend, <- Hen. }
  split.
  { cbn. rewrite Ho. unfold expected_outlet, expected. rewrite sends_wanted by done.
    rewrite <- Hid, Hold. rewrite decide_True; [done|].
    symmetry. by apply same_outlet_description. }
  split; [done|]. unfold outlet_output, new_outlet. cbn [oe_route rt_this_machine rt_tunnel_id].
  assert ((tn_receiver t1 =? tn_sender t1) = true) as ->.
  { unfold sends in Hs. apply andb_true_iff in Hs as [_ Hs]. apply Z.eqb_eq in Hs.
    apply Z.eqb_eq. congruence. }
  unfold give_inlet, modify. cbn [c_inlets with_inlets set_inlets].
  rewrite Hi. unfold expected_inlet, expected. cbn [wanted]. rewrite Hid, Z.eqb_refl.
  unfold receives. apply Z.eqb_neq in Hr2. by rewrite Hr2, andb_false_r.
Qed.

(** Whatever a connection did, once its loops have ended the client has no
    inlet and no outlet left. *)
Theorem disconnect_stops_all (work : M client unit) (c : client) :
  let c' := snd (then_stop_all work c) in c_outlets c' = ∅ ∧ c_inlets c' = ∅.
Proof. unfold then_stop_all. destruct (work c) as [o c1]. by rewrite sync_nothing. Qed.

(** Nothing happens before the login is acknowledged: while the client has
    no player id, every message but a positive reply carrying the login
    acknowledgement ends the connection with an error and changes nothing. *)
Theorem login_required serial m (c : client) :
  c_player_id c = 0 → (∀ msg, m = ServerClientLoginAck msg → serial <= 0) →
  ∃ e, handle_message serial m c = (Err e, c).
Proof. apply login_gate. Qed.
End ClientProperties.

(** ** Concrete runs *)

Module ClientConcrete.
Import ProstConcrete.
#[export] Existing Instances NetConcrete.sink_writer prost.
#[export] Instance os : InletOs := {|
  tcp_listener_bind := λ _, Ok tt; udp_socket_bind := λ _, Ok tt |}.
#[export] Instance order : HashMapOrder.
Proof. by refine {| mapping_iter := map_to_list; tunnels_iter := λ m, (map_to_list m).*2 |}. Defined.

Definition tunnel (id receiver : u32) : Tunnel := {|
  tn_source := Some {| tp_addr := "0.0.0.0:80" |}; tn_endpoint := Some {| tp_addr := "10.0.0.9:80" |};
  tn_id := id; tn_enabled := true; tn_sender := 7; tn_receiver := receiver; tn_tunnel_type := 0;
  tn_password := ""; tn_username := ""; tn_is_compressed := false; tn_encryption_method := "None";
  tn_custom_mapping := ∅ |}.

Definition fresh : client := new_client (H := NetConcrete.sink_writer) ([] : bytes) "user" "pass".
Definition logged_in : client := set_player_id 7 fresh.
Definition self_tunnel : client :=
  set_outlets (λ _, {[ 3 := new_outlet 7 (tunnel 3 7) ]}) logged_in.
End ClientConcrete.

Section ClientWitnesses.
Import ClientConcrete.

Lemma concrete_binds : binds_answer.
Proof. by intros []. Qed.

Lemma sync_tunnels_correct_witness : ∃ c',
  sync_tunnels [tunnel 3 9; tunnel 4 7] self_tunnel = (Ok tt, c') ∧
  (∀ id, c_outlets c' !! id =
     expected_outlet 7 [tunnel 3 9; tunnel 4 7] id (c_outlets self_tunnel !! id)) ∧
  (∀ id, c_inlets c' !! id =
     expected_inlet 7 [tunnel 3 9; tunnel 4 7] id (c_inlets self_tunnel !! id)) ∧
  c_player_id c' = 7 ∧ c_tunnels c' = ∅ ∧ c_writer c' = [].
Proof.
  apply (sync_tunnels_correct [tunnel 3 9; tunnel 4 7] self_tunnel concrete_binds).
  apply (bool_decide_unpack _). reflexivity.
Defined.

Lemma stale_outlet_drops_witness : ∃ c' e,
  sync_tunnels [tunnel 3 9] self_tunnel = (Ok tt, c') ∧ c_outlets c' !! 3 = Some e ∧
  e = new_outlet 7 (tunnel 3 7) ∧
  outlet_output (oe_route e) (O2iRecvData 1 [42]) c' = (Ok tt, c').
Proof.
  apply (stale_outlet_drops (tunnel 3 7) (tunnel 3 9) self_tunnel (O2iRecvData 1 [42])
    concrete_binds).
  - reflexivity.
  - repeat split.
  - reflexivity.
  - discriminate.
  - reflexivity.
Defined.

Lemma login_required_witness : ∃ e,
  handle_message 0 (GenericPong {| go_ticks := 1 |}) fresh = (Err e, fresh).
Proof. apply (login_required 0 (GenericPong {| go_ticks := 1 |}) fresh); done. Defined.
End ClientWitnesses.
