(* ===== verification/Str.v ===== *)
(** [np_server/src/utils/str.rs]: the checks of names, passwords and of the
    addresses of tunnels. *)

From S2P Require Import Prelude Std.

(** ** Names and passwords *)

Definition is_ascii_nospace (s : string) : bool :=
  forallb (λ b, b <? 128) (as_bytes s) && negb (existsb (λ b, b =? 32) (as_bytes s)).
Definition is_valid_username (s : string) : bool :=
  (1 <=? str_len s) && (str_len s <=? 30) && is_ascii_nospace s.
Definition is_valid_password (s : string) : bool :=
  (1 <=? str_len s) && (str_len s <=? 15) && is_ascii_nospace s.

(** ** Pieces of a string

    [s.split(c)] for an ASCII character: the bytes between its occurrences. *)
Fixpoint split (c : u8) (bs : bytes) : list bytes :=
  match bs with
  | [] => [[]]
  | b :: bs =>
      if b =? c then [] :: split c bs
      else match split c bs with p :: ps => (b :: p) :: ps | [] => [[b]] end
  end.

(** [s.chars()] on valid UTF-8. *)
Fixpoint chars (bs : bytes) : list Z :=
  match bs with
  | [] => []
  | b1 :: r1 =>
      if b1 <? 128 then b1 :: chars r1
      else match r1 with
      | [] => []
      | b2 :: r2 =>
          if b1 <? 224 then (b1 - 192) * 64 + (b2 - 128) :: chars r2
          else match r2 with
          | [] => []
          | b3 :: r3 =>
              if b1 <? 240 then (b1 - 224) * 4096 + (b2 - 128) * 64 + (b3 - 128) :: chars r3
              else match r3 with
              | [] => []
              | b4 :: r4 =>
                  (b1 - 240) * 262144 + (b2 - 128) * 4096 + (b3 - 128) * 64 + (b4 - 128)
                    :: chars r4
              end
          end
      end
  end.

Definition ascii_alphanumeric (c : Z) : bool :=
  in_range 48 57 c || in_range 65 90 c || in_range 97 122 c.

(** [char::is_alphanumeric]: the tables of Unicode beyond ASCII. *)
Class Unicode := {
  is_alphanumeric : Z → bool;
  is_alphanumeric_ascii c : c < 128 → is_alphanumeric c = ascii_alphanumeric c
}.

(** [s.parse::<u16>()] *)
Definition parse_u16 (bs : bytes) : option u16 :=
  match read_digits 10 65536 None 0 0 (match bs with 43 :: ds => ds | _ => bs end) with
  | Some (n, S _, []) => Some n
  | _ => None
  end.

Section Addresses.
Context `{Unicode}.

(** ** Addresses *)

Definition is_valid_part (part : bytes) : bool :=
  negb (bool_decide (part = [])) &&
  forallb (λ c, is_alphanumeric c || (c =? 45)) (chars part) &&
  negb (bool_decide (head part = Some 45) || bool_decide (last part = Some 45)).

Definition is_valid_domain (domain : bytes) : bool :=
  let parts := split 46 domain in
  negb (length parts <? 2)%nat && forallb is_valid_part parts.

Definition is_valid_tunnel_source_address (addr : string) : bool := is_ok (parse_socket_addr addr).

Definition is_valid_tunnel_endpoint_address (addr : string) : bool :=
  if is_ok (parse_socket_addr addr) then true
  else match split 58 (as_bytes addr) with
       | [host; port] => is_valid_domain host && bool_decide (is_Some (parse_u16 port))
       | _ => false
       end.
End Addresses.

Definition get_tunnel_address_port (addr : string) : option u16 :=
  match split 58 (as_bytes addr) with [_; port] => parse_u16 port | _ => None end.

(** ** Facts *)

Definition digit (b : u8) : Prop := is_Some (to_digit 10 b).
Definition colons (bs : bytes) : nat := length (base.filter (λ b, b = 58) bs).

Lemma colons_app xs ys : colons (xs ++ ys) = (colons xs + colons ys)%nat.
Proof. unfold colons. by rewrite filter_app, length_app. Qed.

Lemma colons_split bs : length (split 58 bs) = S (colons bs).
Proof.
  induction bs as [|b bs IH]; [done|]. cbn [split]. unfold colons in *.
  destruct (Z.eqb_spec b 58) as [->|Hb].
  - rewrite filter_cons_True by done. cbn [length]. by rewrite IH.
  - rewrite filter_cons_False by done. destruct (split 58 bs); cbn in *; lia.
Qed.

Lemma split_app xs ys : colons xs = 0%nat → split 58 (xs ++ 58 :: ys) = xs :: split 58 ys.
Proof.
  unfold colons. induction xs as [|x xs IH]; [done|]. cbn [app split].
  destruct (Z.eqb_spec x 58) as [->|Hx].
  - rewrite filter_cons_True by done. done.
  - rewrite filter_cons_False by done. intros Hc. by rewrite IH.
Qed.

Lemma split_none xs : colons xs = 0%nat → split 58 xs = [xs].
Proof.
  unfold colons. induction xs as [|x xs IH]; [done|]. cbn [split].
  destruct (Z.eqb_spec x 58) as [->|Hx].
  - by rewrite filter_cons_True.
  - rewrite filter_cons_False by done. intros Hc. by rewrite IH.
Qed.

(** What the readers take has no colons of its own. *)
Lemma to_digit_colon radix b d : radix <= 36 → to_digit radix b = Some d → b ≠ 58.
Proof.
  intros Hr Hd ->. unfold to_digit in Hd. cbn in Hd. destruct (Z.ltb_spec radix radix); [lia|done].
Qed.

Lemma read_digits_taken radix bound m acc c bs n k rest :
  radix <= 36 → read_digits radix bound m acc c bs = Some (n, k, rest) →
  ∃ pre, bs = pre ++ rest ∧ colons pre = 0%nat.
Proof.
  intros Hr. revert acc c. induction bs as [|b bs IH]; intros acc c; cbn [read_digits].
  { intros [= <- <- <-]. by exists []. }
  destruct (to_digit radix b) as [d|] eqn:Hd; [|intros [= <- <- <-]; by exists []].
  intros Hrun. assert (∃ acc' c', read_digits radix bound m acc' c' bs = Some (n, k, rest)) as (a & c' & E).
  { destruct m as [m|]; [destruct (m <? S c)%nat|destruct (bound <=? acc * radix + d)];
      [done|by eauto|done|by eauto]. }
  destruct (IH a c' E) as (pre & -> & Hpre). exists (b :: pre). split; [done|].
  unfold colons in *. rewrite filter_cons_False; [done|]. by eapply to_digit_colon.
Qed.

Lemma read_number_taken radix bound m zp bs n rest :
  radix <= 36 → read_number radix bound m zp bs = Some (n, rest) →
  ∃ pre, bs = pre ++ rest ∧ colons pre = 0%nat.
Proof.
  intros Hr. unfold read_number.
  destruct (read_digits radix bound m 0 0 bs) as [[[n' k] r]|] eqn:E; [|done].
  destruct (k =? 0)%nat; [done|]. destruct (_ && _ && _); [done|].
  destruct (bound <=? n'); [done|]. intros [= <- <-]. by eapply read_digits_taken.
Qed.

(** [read] takes what has no colons. *)
Definition plain {A} (read : reader A) : Prop :=
  ∀ bs x rest, read bs = Some (x, rest) → ∃ pre, bs = pre ++ rest ∧ colons pre = 0%nat.

Lemma plain_char c : c ≠ 58 → plain (read_given_char c).
Proof.
  intros Hc [|b bs] x rest; [done|]. cbn. destruct (Z.eqb_spec b c) as [->|]; [|done].
  intros [= <- <-]. exists [c]. split; [done|]. unfold colons. by rewrite filter_cons_False.
Qed.

Lemma plain_bind {A B} (r1 : reader A) (f : A → reader B) :
  plain r1 → (∀ a, plain (f a)) → plain (λ bs, '(a, bs) ← r1 bs; f a bs).
Proof.
  intros H1 H2 bs x rest. destruct (r1 bs) as [[a bs']|] eqn:E1; [|done].
  cbn. intros E2. destruct (H1 _ _ _ E1) as (p1 & -> & Hp1).
  destruct (H2 _ _ _ _ E2) as (p2 & -> & Hp2). exists (p1 ++ p2).
  rewrite <- app_assoc, colons_app. split; [done|lia].
Qed.

Lemma plain_ret {A} (x : A) : plain (λ bs, Some (x, bs)).
Proof. intros bs y rest [= <- <-]. by exists []. Qed.

Lemma plain_octet i : plain (read_octet i).
Proof.
  intros bs x rest. unfold read_octet, read_separator. destruct i.
  - by apply read_number_taken.
  - destruct (read_given_char 46 bs) as [[[] bs']|] eqn:E; [|done]. intros E2.
    destruct (plain_char 46 ltac:(done) _ _ _ E) as (p1 & -> & Hp1).
    apply read_number_taken in E2 as (p2 & -> & Hp2); [|lia]. exists (p1 ++ p2).
    rewrite <- app_assoc, colons_app. split; [done|lia].
Qed.

Lemma plain_ipv4 : plain read_ipv4_addr.
Proof. unfold read_ipv4_addr. repeat (apply plain_bind; [apply plain_octet|intros ?]). apply plain_ret. Qed.

(** A separator takes one colon, except before the first item. *)
Lemma separator_colons {A} i (r : reader A) bs x rest :
  plain r → read_separator 58 i r bs = Some (x, rest) →
  ∃ pre, bs = pre ++ rest ∧ colons pre = (if i =? 0 then 0 else 1)%nat.
Proof.
  intros Hr. unfold read_separator. destruct i; [by apply Hr|]. cbn [Nat.eqb].
  destruct bs as [|b bs]; [done|]. cbn. destruct (Z.eqb_spec b 58) as [->|]; [|done].
  intros E. apply Hr in E as (pre & -> & Hp). exists (58 :: pre). split; [done|].
  unfold colons in *. rewrite filter_cons_True by done. cbn. by rewrite Hp.
Qed.

(** As many groups as were read, less one or two, were separated by colons. *)
Lemma read_groups_colons todo limit i bs gs v4 rest :
  read_groups todo limit i bs = (gs, v4, rest) →
  ∃ pre, bs = pre ++ rest ∧ (length gs <= colons pre + (if i =? 0 then 2 else 1))%nat.
Proof.
  revert i bs gs v4. induction todo as [|todo IH]; intros i bs gs v4; cbn [read_groups].
  { intros [= <- <- <-]. exists []. split; [done|]. cbn. lia. }
  destruct (if (i <? limit - 1)%nat then _ else None) as [[[a b c d] bs']|] eqn:E4.
  { intros [= <- <- <-]. destruct (i <? limit - 1)%nat; [|done].
    destruct (separator_colons _ _ _ _ _ plain_ipv4 E4) as (pre & -> & Hp).
    exists pre. split; [done|]. cbn. destruct i; cbn in *; lia. }
  destruct (read_separator 58 i (read_number 16 65536 (Some 4%nat) true) bs) as [[g bs']|] eqn:Eg.
  - destruct (read_groups todo limit (S i) bs') as [[gs' v4'] rest'] eqn:Er. intros [= <- <- <-].
    assert (plain (read_number 16 65536 (Some 4%nat) true)) as Hpl.
    { intros ? ? ?. by apply read_number_taken. }
    destruct (separator_colons _ _ _ _ _ Hpl Eg) as (p1 & -> & H1).
    destruct (IH _ _ _ _ Er) as (p2 & -> & H2). exists (p1 ++ p2).
    rewrite <- app_assoc, colons_app. split; [done|]. cbn in *. destruct i; cbn in *; lia.
  - intros [= <- <- <-]. exists []. split; [done|]. cbn. destruct i; cbn; lia.
Qed.

Lemma read_ipv6_colons bs ip rest :
  read_ipv6_addr bs = Some (ip, rest) → ∃ pre, bs = pre ++ rest ∧ (2 <= colons pre)%nat.
Proof.
  unfold read_ipv6_addr. destruct (read_groups 8 8 0 bs) as [[gs v4] bs1] eqn:E.
  destruct (read_groups_colons _ _ _ _ _ _ _ E) as (pre & -> & Hc). cbn [Nat.eqb] in Hc.
  destruct (Nat.eqb_spec (length gs) 8) as [H8|_].
  { intros [= <- <-]. exists pre. split; [done|]. lia. }
  destruct v4; [done|]. destruct bs1 as [|b1 [|b2 bs2]]; cbn [read_given_char mbind option_bind];
    [done|by destruct (b1 =? 58)|].
  destruct (Z.eqb_spec b1 58) as [->|]; [|done]. cbn [read_given_char mbind option_bind].
  destruct (Z.eqb_spec b2 58) as [->|]; [|done]. cbn [mbind option_bind].
  destruct (read_groups _ _ 0 bs2) as [[gs2 v42] bs3] eqn:E2.
  destruct (read_groups_colons _ _ _ _ _ _ _ E2) as (pre2 & -> & _).
  intros [= <- <-]. exists (pre ++ [58; 58] ++ pre2). rewrite <- !app_assoc. split; [done|].
  rewrite !colons_app. change (colons [58; 58]) with 2%nat. lia.
Qed.

(** The port's text is read the same by both parsers. *)
Lemma parse_port bs p :
  read_number 10 65536 None true bs = Some (p, []) → colons bs = 0%nat ∧ parse_u16 bs = Some p.
Proof.
  intros E. assert (E' := E). apply read_number_taken in E' as (pre & -> & Hp); [|lia].
  rewrite app_nil_r in *. split; [done|]. unfold read_number, parse_u16 in *.
  destruct (read_digits 10 65536 None 0 0 pre) as [[[n k] r]|] eqn:Ed; [|done].
  destruct k as [|k]; [done|]. cbn [Nat.eqb] in E.
  destruct (negb true && _ && _); [done|]. destruct (65536 <=? n); [done|].
  injection E as -> ->. destruct pre as [|b pre]; [done|].
  destruct (decide (b = 43)) as [->|Hb]; [done|].
  replace (match b :: pre with 43 :: ds => ds | _ => b :: pre end) with (b :: pre); [by rewrite Ed|].
  destruct b as [|p'|]; try done. repeat (destruct p' as [p'|p'|]; try done).
Qed.

Lemma read_port_taken bs p rest :
  read_port bs = Some (p, rest) →
  ∃ ds, bs = 58 :: ds ∧ read_number 10 65536 None true ds = Some (p, rest).
Proof.
  unfold read_port. destruct bs as [|b bs]; [done|]. cbn [read_given_char].
  destruct (Z.eqb_spec b 58) as [->|]; [|done]. cbn. eauto.
Qed.

Lemma source_port s a :
  parse_socket_addr s = Ok a →
  get_tunnel_address_port s = match a with V4 _ p => Some p | V6 _ _ _ _ => None end.
Proof.
  unfold parse_socket_addr, get_tunnel_address_port. generalize (as_bytes s) as bs. intros bs.
  destruct (read_socket_addr_v4 bs) as [[a4 r4]|] eqn:E4.
  - destruct r4; [|done]. intros [= <-]. unfold read_socket_addr_v4 in E4.
    destruct (read_ipv4_addr bs) as [[ip bs']|] eqn:Ei; [|done]. cbn [mbind option_bind] in E4.
    destruct (read_port bs') as [[p r]|] eqn:Ep; [|done]. injection E4 as <- ->.
    apply plain_ipv4 in Ei as (pre & -> & Hpre).
    apply read_port_taken in Ep as (ds & -> & Ep). apply parse_port in Ep as [Hc Hp].
    by rewrite split_app, split_none, Hp.
  - destruct (read_socket_addr_v6 bs) as [[a6 r6]|] eqn:E6; [|done].
    destruct r6; [|done]. intros [= <-]. unfold read_socket_addr_v6 in E6.
    destruct (read_given_char 91 bs) as [[[] b1]|] eqn:E1; [|done]. cbn [mbind option_bind] in E6.
    destruct (read_ipv6_addr b1) as [[ip b2]|] eqn:E2; [|done]. cbn [mbind option_bind] in E6.
    apply plain_char in E1 as (p1 & -> & _); [|done].
    apply read_ipv6_colons in E2 as (p2 & -> & H2).
    assert (is_Some (Some a6)) as _ by done.
    destruct (match read_scope_id b2 with Some _ => _ | None => _ end) as [scope b3].
    destruct (read_given_char 93 b3) as [[[] b4]|]; [|done]. cbn [mbind option_bind] in E6.
    destruct (read_port b4) as [[p r]|]; [|done]. injection E6 as <- _.
    pose proof (colons_split (p1 ++ p2 ++ b2)) as Hl. rewrite !colons_app in Hl.
    destruct (split 58 (p1 ++ p2 ++ b2)) as [|x [|y [|z l]]]; cbn in Hl; [lia..|done].
Qed.
