(* ===== verification/Connect.v ===== *)
(** How a client comes to its connection and keeps coming back: the connection
    ([run] of [np_client/src/client.rs]) and the loop around it
    ([run_with_args] of [np_client/src/main.rs]). *)

From S2P Require Import Prelude Std Extern Tls Net Proxy Common Socks5 Inlet Messages Bridge Framing Ends.
From S2P Require Import Client Str.

(** ** The libraries *)

(** Sockets and [rustls]. [tls_connect] has the roots it trusts, whether it
    verifies what the server shows, the server's name, and the connection; it
    is [None] when the handshake takes longer than the time given. *)
Class ClientNet := {
  tcp_stream : Type;
  tls_stream : Type;
  tcp_stream_connect : string → outcome tcp_stream;
  set_tcp_keepalive : Z → tcp_stream → outcome unit;
  root_store : Type;
  web_roots : root_store;                                (** [TLS_SERVER_ROOTS] *)
  add_root : bytes → root_store → outcome root_store;
  server_name : Type;
  server_name_try_from : bytes → outcome server_name;
  tls_connect : Z → root_store → bool → server_name → tcp_stream → option (outcome tls_stream)
}.

(** [CommonArgs] *)
Record CommonArgs := {
  a_backtrace : bool; a_server : string; a_username : string; a_password : string;
  a_enable_tls : bool; a_insecure : bool; a_ca_cert : string; a_log_level : string;
  a_base_log_level : string
}.

(** ** client.rs: run *)

Definition TIMEOUT_TLS : Z := 30.

Section Connect.
Context `{PemFiles} `{ClientNet}.

Inductive client_stream := Plain (s : tcp_stream) | Secured (s : tls_stream).

(** The roots the client trusts: the web's, and the first certificate of the
    file if one is given. *)
Definition client_roots (args : CommonArgs) : outcome root_store :=
  if str_is_empty (a_ca_cert args) then Ok web_roots
  else
    ca_certs ← load_certs (a_ca_cert args);
    match ca_certs with
    | [] => Err ("invalid cert file: " +:+ a_ca_cert args)
    | cert :: _ => add_root cert web_roots
    end.

(** [str_vec[0]] of the server's address split at its colons. *)
Definition host_of (server : string) : outcome bytes :=
  match split 58 (as_bytes server) with
  | [] => Err ("invalid addr: " +:+ server)
  | host :: _ => Ok host
  end.

Definition client_connect (args : CommonArgs) : outcome client_stream :=
  stream ← tcp_stream_connect (a_server args);
  _ ← set_tcp_keepalive 30 stream;
  if a_enable_tls args then
    root_cert_store ← client_roots args;
    host ← host_of (a_server args);
    name ← server_name_try_from host;
    match tls_connect TIMEOUT_TLS root_cert_store (negb (a_insecure args)) name stream with
    | Some stream => stream ≫= λ stream, Ok (Secured stream)
    | None => Err "deadline has elapsed"
    end
  else Ok (Plain stream).

Context `{AsyncWrite} `{Prost} `{InletOs} `{HashMapOrder}.

(** [writer_of] splits a stream, [work] is what happens on it until one of the
    two loops ends; the client is what [run_client] leaves behind. *)
Definition client_run (writer_of : client_stream → writer) (work : client_stream → M client unit)
    (args : CommonArgs) : outcome unit * option client :=
  match client_connect args with
  | Ok stream =>
      let '(o, c) := run_client (work stream)
        (new_client (writer_of stream) (a_username args) (a_password args)) in (o, Some c)
  | Err e => (Err e, None)
  | Panic w => (Panic w, None)
  | Pending => (Pending, None)
  end.
End Connect.

(** ** main.rs: the loop

    [runs] are the results of one [client::run] after the other; what comes out
    are the pauses, in milliseconds, and how the loop ends if it does. *)
Fixpoint run_with_args (runs : list (outcome unit)) : list Z * outcome unit :=
  match runs with
  | [] => ([], Pending)
  | Err _ :: runs => let '(pauses, o) := run_with_args runs in (5000 :: pauses, o)
  | Ok _ :: runs => let '(pauses, o) := run_with_args runs in (100 :: pauses, o)
  | Panic w :: _ => ([], Panic w)
  | Pending :: _ => ([], Pending)
  end.

(** ** Facts *)

Section ConnectFacts.
Context `{PemFiles} `{ClientNet}.

(** What comes before the first [c]. *)
Fixpoint until (c : u8) (bs : bytes) : bytes :=
  match bs with
  | [] => []
  | b :: bs => if b =? c then [] else b :: until c bs
  end.

Lemma split_first c bs : ∃ ps, split c bs = until c bs :: ps.
Proof.
  induction bs as [|b bs [ps IH]]; [by exists []|]. cbn. destruct (b =? c); [by eexists|].
  rewrite IH. by eexists.
Qed.
Lemma host_of_until server : host_of server = Ok (until 58 (as_bytes server)).
Proof. unfold host_of. by destruct (split_first 58 (as_bytes server)) as [ps ->]. Qed.

(** A bracketed address gives a host that is no name. *)
Lemma ipv6_server_refused args rest :
  (∀ n, is_ok (server_name_try_from (91 :: n)) = false) →
  as_bytes (a_server args) = 91 :: rest → a_enable_tls args = true →
  is_ok (client_connect args) = false.
Proof.
  intros Hn Hs Ht. unfold client_connect. rewrite Ht, host_of_until, Hs. cbn [until].
  change (91 =? 58) with false. cbv iota.
  destruct (tcp_stream_connect _); try done. cbn. destruct (set_tcp_keepalive _ _); try done. cbn.
  destruct (client_roots args); try done. cbn. specialize (Hn (until 58 rest)).
  by destruct (server_name_try_from _).
Qed.

(** The loop goes on after whatever [client::run] returns. *)
Lemma run_with_args_pauses runs :
  Forall (λ o, match o with Ok _ | Err _ => True | _ => False end) runs →
  run_with_args runs = ((λ o, match o with Ok _ => 100 | _ => 5000 end) <$> runs, Pending).
Proof.
  induction 1 as [|o runs Ho _ IH]; [done|]. by destruct o; cbn; try rewrite IH.
Qed.
End ConnectFacts.

(** ** Properties *)

Section ConnectProperties.
Context `{PemFiles} `{ClientNet} `{AsyncWrite} `{Prost} `{InletOs} `{HashMapOrder}.

(** The login goes to the server it is meant for. A client comes to be, and
    with it a first write, only on a connection to the address it was given;
    with TLS, only once a handshake within thirty seconds has verified the
    server's name, the part of the address before its first colon, against the
    web's roots and the given certificate, unless [insecure] says not to. *)
Theorem tls_before_login (writer_of : client_stream → writer) work args o c :
  client_run writer_of work args = (o, Some c) →
  ∃ stream conn, tcp_stream_connect (a_server args) = Ok conn ∧
    run_client (work stream) (new_client (writer_of stream) (a_username args) (a_password args)) = (o, c) ∧
    match stream with
    | Plain s => a_enable_tls args = false ∧ s = conn
    | Secured t =>
        a_enable_tls args = true ∧
        ∃ roots name, client_roots args = Ok roots ∧
          server_name_try_from (until 58 (as_bytes (a_server args))) = Ok name ∧
          tls_connect 30 roots (negb (a_insecure args)) name conn = Some (Ok t)
    end.
Proof.
  unfold client_run. destruct (client_connect args) as [stream|e|e|] eqn:E; [|done..].
  destruct (run_client _ _) as [o' c'] eqn:Er. intros [= -> ->]. exists stream.
  unfold client_connect in E. rewrite host_of_until in E.
  destruct (tcp_stream_connect (a_server args)) as [conn| | |]; try done. exists conn. split; [done|].
  split; [done|]. cbn in E. destruct (set_tcp_keepalive 30 conn); try done. cbn in E.
  destruct (a_enable_tls args); [|by injection E as <-].
  destruct (client_roots args) as [roots| | |]; try done. cbn in E.
  destruct (server_name_try_from _) as [name| | |] eqn:En; try done. cbn in E.
  destruct (tls_connect _ _ _ _ _) as [[t| | |]|] eqn:Et; try done. injection E as <-.
  split; [done|]. by exists roots, name.
Qed.
End ConnectProperties.

(** ** A concrete instance, for the witness *)

Module ConnectConcrete.
#[export] Instance no_files : PemFiles := {|
  open_file _ := Err "no such file"; pem_certs _ := []; pem_private_key _ := Ok None
|}.
#[export] Instance net : ClientNet := {|
  tcp_stream := string;
  tls_stream := bytes * string;
  tcp_stream_connect server := Ok server;
  set_tcp_keepalive _ _ := Ok tt;
  root_store := list bytes;
  web_roots := [];
  add_root cert roots := Ok (cert :: roots);
  server_name := bytes;
  server_name_try_from host := Ok host;
  tls_connect _ _ _ host conn := Some (Ok (host, conn))
|}.
Definition args : CommonArgs := {|
  a_backtrace := false; a_server := "example.org:8118"; a_username := "ann"; a_password := "pw";
  a_enable_tls := true; a_insecure := false; a_ca_cert := ""; a_log_level := "info";
  a_base_log_level := "error" |}.
Definition no_bytes : writer (AsyncWrite := NetConcrete.sink_writer) := ([] : bytes).
Definition sent_login : outcome unit * client (H := NetConcrete.sink_writer) :=
  run_client (H := NetConcrete.sink_writer) (H0 := ProstConcrete.prost)
    (H1 := ClientConcrete.os) (H2 := ClientConcrete.order) (mret tt)
    (new_client (H := NetConcrete.sink_writer) no_bytes "ann" "pw").
End ConnectConcrete.

Section ConnectWitness.
Import ConnectConcrete ClientConcrete.
#[local] Existing Instances no_files net NetConcrete.sink_writer ProstConcrete.prost.

Lemma tls_before_login_witness : ∃ stream conn,
  tcp_stream_connect "example.org:8118" = Ok conn ∧
  run_client (mret tt) (new_client no_bytes "ann" "pw") = sent_login ∧
  match stream with
  | Plain s => true = false ∧ s = conn
  | Secured t => true = true ∧ ∃ roots name, client_roots args = Ok roots ∧
      server_name_try_from (until 58 (as_bytes "example.org:8118")) = Ok name ∧
      tls_connect 30 roots true name conn = Some (Ok t)
  end.
Proof.
  destruct (tls_before_login (λ _, no_bytes) (λ _, mret tt) args (fst sent_login) (snd sent_login))
    as (stream & conn & Hc & Hr & Hs).
  - reflexivity.
  - exists stream, conn. split; [exact Hc|]. split; [rewrite surjective_pairing; exact Hr|exact Hs].
Defined.
End ConnectWitness.
