(* ===== verification/Service.v ===== *)
(** The client as a Windows service ([np_client/src/winservice.rs]): how it is
    installed, how it runs under the service manager, how it is removed. *)

From S2P Require Import Prelude Std Extern Tls Net Proxy Common Socks5 Inlet Messages Bridge Framing Ends.
From S2P Require Import Client Str Connect.

(** ** main.rs: the logger

    [already] tells whether [LOGGER] has been set. Whether a panic prints a
    backtrace is left out. *)
Definition init_logger `{Logging} (already : bool) (common_args : CommonArgs) : outcome unit :=
  _ ← start_logger (a_log_level common_args +:+ ", mio=error, np_base=" +:+
                    a_base_log_level common_args);
  if already then Panic "set logger error" else Ok tt.

(** ** windows_service *)

Inductive ServiceControl := Interrogate | StopControl | OtherControl.
Inductive ServiceControlHandlerResult := NoError | NotImplemented.
Inductive ServiceState := StateRunning | StateStopPending | StateStopped | OtherState.

#[export] Instance ServiceControl_eq_dec : EqDecision ServiceControl.
Proof. solve_decision. Defined.
#[export] Instance ServiceState_eq_dec : EqDecision ServiceState.
Proof. solve_decision. Defined.

(** What the client sets of a status; the rest is constant: its own process,
    stopped by [ServiceControl::Stop], no exit code, no process id. *)
Record ServiceStatus := {
  current_state : ServiceState;
  checkpoint : u32;
  wait_hint : Z        (** seconds *)
}.

Record ServiceInfo := {
  si_name : string;
  si_display_name : string;
  si_executable_path : string;
  si_launch_arguments : list string
}.

(** The manager: a handle to it or to a service is what [open] gives. *)
Class ServiceManager := {
  register : string → outcome unit;
  accept_status : ServiceStatus → outcome unit;
  local_computer : outcome unit;
  current_exe : outcome string;
  parent : string → string;             (** [path.pop()] *)
  with_file_name : string → string → string;
  set_current_dir : string → outcome unit;
  create_service : ServiceInfo → outcome unit;
  set_description : string → outcome unit;
  open_service : string → outcome unit;
  query_status : outcome ServiceState;
  stop_service : outcome unit;
  delete_service : outcome unit;
  dispatch : string → outcome unit
}.

Definition SERVICE_NAME : string := "np_client".
Definition SERVICE_EXE : string := "np_client.exe".
Definition SERVICE_DESC : string := "net pipe client".
Definition SERVICE_DISPLAY_NAME : string := "npipe client".

(** [Commands]; [None] is a command line without one. *)
Inductive Commands :=
| Install (common_args : CommonArgs)
| Uninstall
| RunService (common_args : CommonArgs)
| Run (common_args : CommonArgs).

Section Service.
Context `{Logging} `{ServiceManager}.

(** *** Running

    The statuses reported so far are the state. *)
Definition set_service_state (state : ServiceState) (point : u32) (hint : Z)
    : M (list ServiceStatus) unit := λ log,
  let next_status := {| current_state := state; checkpoint := point; wait_hint := hint |} in
  match accept_status next_status with
  | Ok _ => (Ok tt, log ++ [next_status])
  | Err e => (Err e, log)
  | Panic w => (Panic w, log)
  | Pending => (Pending, log)
  end.

(** [event_handler]: the answer, whether the sender is still there, and whether
    the shutdown is signalled. *)
Definition event_handler (control_event : ServiceControl) (shutdown_tx : bool)
    : ServiceControlHandlerResult * bool * bool :=
  match control_event with
  | Interrogate => (NoError, shutdown_tx, false)
  | StopControl => (NoError, false, shutdown_tx)
  | OtherControl => (NotImplemented, shutdown_tx, false)
  end.

(** Whether the shutdown is signalled by the controls that arrive. *)
Fixpoint shutdown_signalled (controls : list ServiceControl) (shutdown_tx : bool) : bool :=
  match controls with
  | [] => false
  | c :: controls =>
      let '(_, tx, sent) := event_handler c shutdown_tx in
      sent || shutdown_signalled controls tx
  end.

(** The [select!]: the client's loop, whose errors are logged, or the signal. *)
Definition service_task (runs : list (outcome unit)) (controls : list ServiceControl)
    : outcome unit :=
  match snd (run_with_args runs) with
  | Panic w => Panic w
  | Ok _ | Err _ => Ok tt
  | Pending => if shutdown_signalled controls true then Ok tt else Pending
  end.

Definition run_service (command : option Commands) (runs : list (outcome unit))
    (controls : list ServiceControl) : M (list ServiceStatus) unit :=
  lift (register SERVICE_NAME);;
  set_service_state StateRunning 1 0;;
  (match command with
   | Some (RunService common_args) =>
       lift (service_task runs controls);;
       on_err (set_service_state StateStopPending 2 3) (λ _, mret tt)
   | _ => mret tt
   end);;
  set_service_state StateStopped 3 3.

Definition unwrap {A} (o : outcome A) : outcome A :=
  match o with Err e => Panic e | _ => o end.

Definition run_server_as_service (common_args : CommonArgs) : outcome unit :=
  path ← unwrap current_exe;
  _ ← unwrap (set_current_dir (parent path));
  _ ← init_logger false common_args;
  dispatch SERVICE_NAME.

(** *** Installing and removing *)
Definition service_binary_arguments (args : CommonArgs) : list string :=
  ["run-service";
   if a_backtrace args then "--backtrace=true" else "--backtrace=false";
   "--server=" +:+ a_server args;
   "--username=" +:+ a_username args;
   "--password=" +:+ a_password args;
   "--log-level=" +:+ a_log_level args;
   "--base-log-level=" +:+ a_base_log_level args;
   "--ca-cert=" +:+ a_ca_cert args] ++
  (if a_enable_tls args then ["--enable-tls"] else []) ++
  (if a_insecure args then ["--insecure"] else []).

Definition service_info (path : string) (args : CommonArgs) : ServiceInfo := {|
  si_name := SERVICE_NAME;
  si_display_name := SERVICE_DISPLAY_NAME;
  si_executable_path := with_file_name path SERVICE_EXE;
  si_launch_arguments := service_binary_arguments args
|}.

Definition install_service (common_args : CommonArgs) : outcome unit :=
  _ ← local_computer;
  path ← unwrap current_exe;
  _ ← create_service (service_info path common_args);
  set_description SERVICE_DESC.

Definition uninstall_service : outcome unit :=
  _ ← local_computer;
  _ ← open_service SERVICE_NAME;
  state ← query_status;
  _ ← (if bool_decide (state = StateStopped) then Ok tt else stop_service);
  delete_service.

(** ** main of the client

    [windows] tells the builds apart. *)
Definition client_main (windows : bool) (runs : list (outcome unit)) (command : option Commands)
    : outcome unit :=
  match windows, command with
  | true, Some (Install common_args) => install_service common_args
  | true, Some Uninstall => uninstall_service
  | true, Some (RunService common_args) => run_server_as_service common_args
  | _, Some (Run common_args) => _ ← init_logger false common_args; snd (run_with_args runs)
  | _, _ => Panic "unknown command"
  end.
End Service.

(** ** Facts *)

Section ServiceFacts.
Context `{ServiceManager}.

(** Nothing of the arguments is lost on the way into the service. *)
Lemma app_str_inj (p s t : string) : p +:+ s = p +:+ t → s = t.
Proof.
  intros E. apply (f_equal as_bytes) in E. rewrite !as_bytes_app in E.
  by apply app_inv_head, as_bytes_inj in E.
Qed.
Lemma service_arguments_inj a b :
  service_binary_arguments a = service_binary_arguments b → a = b.
Proof.
  intros E. unfold service_binary_arguments in E. cbn [app] in E.
  injection E as Eb Es Eu Ep El Ebl Ec Er.
  apply app_str_inj in Es, Eu, Ep, El, Ebl, Ec.
  destruct a as [ba sa ua pa ta ia ca la bla], b as [bb sb ub pb tb ib cb lb blb]. cbn in *. subst.
  assert (ba = bb) as -> by (by destruct ba, bb).
  assert (ta = tb ∧ ia = ib) as [-> ->] by (by destruct ta, tb, ia, ib).
  done.
Qed.

(** A stop is signalled once, by the first stop that arrives, and only so. *)
Lemma shutdown_signalled_spec controls :
  shutdown_signalled controls true = bool_decide (StopControl ∈ controls) ∧
  shutdown_signalled controls false = false.
Proof.
  induction controls as [|c controls [IHt IHf]]; [done|].
  destruct c; cbn [shutdown_signalled event_handler]; rewrite ?IHt, ?IHf; cbn [orb].
  - split; [|done]. apply bool_decide_ext. rewrite elem_of_cons. by intuition.
  - split; [|done]. symmetry. apply bool_decide_true. by left.
  - split; [|done]. apply bool_decide_ext. rewrite elem_of_cons. by intuition.
Qed.

Definition reported (p : ServiceState * u32 * Z) : ServiceStatus :=
  {| current_state := fst (fst p); checkpoint := snd (fst p); wait_hint := snd p |}.

(** A service that the manager listens to, and whose client does not panic,
    runs until it is told to stop, and then says so in order. *)
Lemma run_service_stops args runs controls :
  register SERVICE_NAME = Ok tt → (∀ s, accept_status s = Ok tt) →
  Forall (λ o, match o with Ok _ | Err _ => True | _ => False end) runs →
  run_service (Some (RunService args)) runs controls [] =
    if bool_decide (StopControl ∈ controls)
    then (Ok tt, reported <$> [(StateRunning, 1, 0); (StateStopPending, 2, 3); (StateStopped, 3, 3)])
    else (Pending, reported <$> [(StateRunning, 1, 0)]).
Proof.
  intros Hr Ha Hruns. unfold run_service, service_task.
  rewrite (run_with_args_pauses runs Hruns). cbn [snd].
  rewrite (proj1 (shutdown_signalled_spec controls)).
  unfold set_service_state, on_err, mbind, M_bind, lift. rewrite Hr, Ha.
  case_bool_decide; cbn; [|done]. by rewrite !Ha.
Qed.

(** Without a command line of the service it reports that it ran and stopped. *)
Lemma run_service_wrong_command command runs controls :
  register SERVICE_NAME = Ok tt → (∀ s, accept_status s = Ok tt) →
  (∀ args, command ≠ Some (RunService args)) →
  run_service command runs controls [] =
    (Ok tt, reported <$> [(StateRunning, 1, 0); (StateStopped, 3, 3)]).
Proof.
  intros Hr Ha Hc. unfold run_service, set_service_state, mbind, M_bind, lift. rewrite Hr, Ha.
  destruct command as [[]|]; cbn; rewrite ?Ha; try done. by destruct (Hc common_args).
Qed.
End ServiceFacts.
