(* ===== verification/Build.v ===== *)
(** The protocol's code generator, [np_proto/build.rs]: it reads the ids of the
    messages from the .proto files, writes [message_map.rs], and has prost
    compile the files, in which it comments the ids out meanwhile. *)

From S2P Require Import Prelude Std Str.

(** ** What it uses of [str] *)

Definition LF : Ascii.ascii := ascii_of_byte 10.
Definition CR : Ascii.ascii := ascii_of_byte 13.
Definition nl : string := String LF "".

(** [s.starts_with(p)] *)
Definition starts_with (p s : string) : bool := String.prefix p s.

(** [s.lines()]: a line ends at "\n", or at "\r\n". *)
Fixpoint lines (s : string) : list string :=
  match s with
  | "" => []
  | String c s =>
      if decide (c = LF) then "" :: lines s
      else
        let go_on := match lines s with [] => [String c ""] | l :: ls => String c l :: ls end in
        match s with
        | String d s => if decide (c = CR ∧ d = LF) then "" :: lines s else go_on
        | "" => go_on
        end
  end.

(** [lines.join(sep)] *)
Definition join (sep : string) (ls : list string) : string := String.concat sep ls.

(** [s.trim_start_matches(p)]: every [p] at the start goes. *)
Fixpoint strip_prefix (p s : string) : option string :=
  match p, s with
  | "", _ => Some s
  | String a p, String b s => if decide (a = b) then strip_prefix p s else None
  | _, _ => None
  end.
Fixpoint strip_prefixes (fuel : nat) (p s : string) : string :=
  match fuel with
  | O => s
  | S fuel => match strip_prefix p s with Some s => strip_prefixes fuel p s | None => s end
  end.
Definition trim_start_matches (p s : string) : string := strip_prefixes (String.length s) p s.

(** [s.trim()]: the characters of Unicode's White_Space in UTF-8, of one, two
    and three bytes. *)
Definition white1 (a : u8) : bool := in_range 9 13 a || (a =? 32).
Definition white2 (a b : u8) : bool := (a =? 194) && ((b =? 133) || (b =? 160)).
Definition white3 (a b c : u8) : bool :=
  ((a =? 225) && (b =? 154) && (c =? 128)) ||
  ((a =? 226) && (b =? 128) && (in_range 128 138 c || in_range 168 169 c || (c =? 175))) ||
  ((a =? 226) && (b =? 129) && (c =? 159)) ||
  ((a =? 227) && (b =? 128) && (c =? 128)).

Fixpoint drop_white (bs : bytes) : bytes :=
  match bs with
  | [] => []
  | a :: r1 =>
      if white1 a then drop_white r1
      else match r1 with
      | [] => bs
      | b :: r2 =>
          if white2 a b then drop_white r2
          else match r2 with
          | [] => bs
          | c :: r3 => if white3 a b c then drop_white r3 else bs
          end
      end
  end.
Fixpoint drop_white_end (bs : bytes) : bytes :=
  match bs with
  | [] => []
  | a :: r => if bool_decide (drop_white bs = []) then [] else a :: drop_white_end r
  end.
Definition trim (s : string) : string := of_bytes (drop_white_end (drop_white (as_bytes s))).

(** [s.replace(from, to)], [from] not empty. *)
Fixpoint replace_from (fuel : nat) (from to s : string) : string :=
  match fuel with
  | O => s
  | S fuel =>
      match s with
      | "" => ""
      | String c rest =>
          match strip_prefix from s with
          | Some s => to +:+ replace_from fuel from to s
          | None => String c (replace_from fuel from to rest)
          end
      end
  end.
Definition replace (from to s : string) : string := replace_from (String.length s) from to s.

(** [s.parse::<u32>()] *)
Definition parse_u32 (s : string) : option u32 :=
  match read_digits 10 4294967296 None 0 0
          (match as_bytes s with 43 :: ds => ds | ds => ds end) with
  | Some (n, S _, []) => Some n
  | _ => None
  end.

(** ** The libraries

    [heck], [regex] and [prost_build], and the system: a project is the text of
    its files by path, relative to [np_proto]. [captures_iter re s] is the
    first group of every match. *)

Abbreviation project := (gmap string string) (only parsing).

Class BuildTools := {
  to_snake_case : string → string;
  to_upper_camel_case : string → string;
  is_match : string → string → bool;
  captures_iter : string → string → list (option string);
  compile_protos : list string → project → outcome project;
  read_dir : string → project → outcome (list string);
  current_dir : outcome unit;
  io_error : string → option string
}.

(** Files, as [std::fs] gives them; [io_error] is the error the system gives
    for a path, if it does. *)
Section Files.
Context `{BuildTools}.

Definition fs_read_to_string (path : string) : M project string := λ fs,
  match io_error path, fs !! path with
  | Some e, _ => (Err e, fs)
  | None, Some text => (Ok text, fs)
  | None, None => (Err "No such file or directory", fs)
  end.
Definition fs_write (path text : string) : M project unit := λ fs,
  match io_error path with Some e => (Err e, fs) | None => (Ok tt, <[path := text]> fs) end.
Definition fs_rename (from to : string) : M project unit := λ fs,
  match io_error to, fs !! from with
  | Some e, _ => (Err e, fs)
  | None, Some text => (Ok tt, <[to := text]> (delete from fs))
  | None, None => (Err "No such file or directory", fs)
  end.
End Files.

(** [path.file_stem()] of a file's name: up to its last dot, unless it starts
    there. *)
Fixpoint before_last_dot (bs : bytes) : option bytes :=
  match bs with
  | [] => None
  | b :: bs =>
      match before_last_dot bs with
      | Some p => Some (b :: p)
      | None => if b =? 46 then Some [] else None
      end
  end.
Definition file_stem (name : string) : string :=
  match before_last_dot (as_bytes name) with
  | None | Some [] => name
  | Some p => of_bytes p
  end.

(** ** Names *)

Record MessageInfo := { mi_name : string; mi_package : string; mi_id : u32 }.

#[export] Instance MessageInfo_eq_dec : EqDecision MessageInfo.
Proof. solve_decision. Defined.

Definition ANNOTATION_PREFIX : string := "//@build_automatically_generate_message_id@".

Definition rust_keywords : list string :=
  ["as"; "break"; "const"; "continue"; "else"; "enum"; "false"; "fn"; "for"; "if"; "impl"; "in";
   "let"; "loop"; "match"; "mod"; "move"; "mut"; "pub"; "ref"; "return"; "static"; "struct";
   "trait"; "true"; "type"; "unsafe"; "use"; "where"; "while"; "dyn"; "abstract"; "become"; "box";
   "do"; "final"; "macro"; "override"; "priv"; "typeof"; "unsized"; "virtual"; "yield"; "async";
   "await"; "try"].

Section Names.
Context `{BuildTools}.

Definition to_snake (s : string) : string :=
  let ident := to_snake_case s in
  if bool_decide (ident ∈ rust_keywords) then "r#" +:+ ident
  else if bool_decide (ident ∈ ["self"; "super"; "extern"; "crate"]) then ident +:+ "_"
  else ident.

Definition to_upper_camel (s : string) : string :=
  let ident := to_upper_camel_case s in
  if bool_decide (ident = "Self") then ident +:+ "_" else ident.

Definition format_package_name (info : MessageInfo) : string :=
  to_snake (replace "PB." "" (mi_package info)).
Definition format_message_full_type (info : MessageInfo) : string :=
  "super::" +:+ format_package_name info +:+ "::" +:+ to_upper_camel (mi_name info).
Definition format_message_type_name (info : MessageInfo) : string :=
  to_upper_camel (format_package_name info) +:+ to_upper_camel (mi_name info).
End Names.

(** ** The text of [message_map.rs]

    [quote] is the quotation mark; [type_name] and [full_type] are
    [format_message_type_name] and [format_message_full_type]. *)

Definition quote : string := String (ascii_of_byte 34) "".

Section Code.
Context (type_name full_type : MessageInfo → string).

Definition code_message (i : MessageInfo) : string :=
  "    " +:+ type_name i +:+ "(" +:+ full_type i +:+ "),".
Definition code_get_message_id (i : MessageInfo) : string :=
  "        MessageType::" +:+ type_name i +:+ "(_) => Some(" +:+ show (mi_id i) +:+ "u32),".
Definition code_decode_message (i : MessageInfo) : string := join nl
  ["        " +:+ show (mi_id i) +:+ "u32 => match " +:+ full_type i +:+ "::decode(bytes) {";
   "            Ok(message) => Ok(MessageType::" +:+ type_name i +:+ "(message)),";
   "            Err(err) => Err(err),";
   "        },"].
Definition code_encode_message (i : MessageInfo) : string :=
  "        MessageType::" +:+ type_name i +:+ "(msg) => Some((" +:+ show (mi_id i)
    +:+ "u32, msg.encode_to_vec())),".
Definition code_get_message_size (i : MessageInfo) : string :=
  "        MessageType::" +:+ type_name i +:+ "(msg) => msg.encoded_len(),".
Definition code_encode_raw_message (i : MessageInfo) : string :=
  "        MessageType::" +:+ type_name i +:+ "(msg) => msg.encode_raw(buf),".
Definition code_serialize_to_json (i : MessageInfo) : string :=
  "        MessageType::" +:+ type_name i +:+ "(msg) => serde_json::to_string(&msg),".

Definition build_code_with (messages : list MessageInfo) : string := join nl
  ["use bytes::BufMut;";
   "use prost::{DecodeError, Message};";
   "";
   "#[derive(Clone)]";
   "pub enum MessageType {";
   "    None,";
   join nl (code_message <$> messages);
   "}";
   "";
   "impl MessageType {";
   "    pub fn is_none(&self) -> bool {";
   "        match self {";
   "            MessageType::None => true,";
   "            _ => false,";
   "        }";
   "    }";
   "}";
   "";
   "pub fn get_message_id(message: &MessageType) -> Option<u32> {";
   "    match message {";
   join nl (code_get_message_id <$> messages);
   "        _ => None,";
   "    }";
   "}";
   "";
   "pub fn decode_message(message_id: u32, bytes: &[u8]) -> Result<MessageType, DecodeError> {";
   "    match message_id {";
   join nl (code_decode_message <$> messages);
   "        _ => Err(DecodeError::new(" +:+ quote +:+ "unknown message id" +:+ quote +:+ ")),";
   "    }";
   "}";
   "";
   "pub fn encode_message(message: &MessageType) -> Option<(u32, Vec<u8>)> {";
   "    match message {";
   join nl (code_encode_message <$> messages);
   "        _ => None,";
   "    }";
   "}";
   "";
   "pub fn get_message_size(message: &MessageType) -> usize {";
   "    match message {";
   join nl (code_get_message_size <$> messages);
   "        _ => 0,";
   "    }";
   "}";
   "";
   "pub fn encode_raw_message(message: &MessageType, buf: &mut impl BufMut) {";
   "    match message {";
   join nl (code_encode_raw_message <$> messages);
   "        _ => {}";
   "    }";
   "}";
   "";
   "#[cfg(feature = " +:+ quote +:+ "serde-serialize" +:+ quote +:+ ")]";
   "pub fn serialize_to_json(message: &MessageType) -> serde_json::Result<String> {";
   "    match message {";
   join nl (code_serialize_to_json <$> messages);
   "        _ => Ok(" +:+ quote +:+ "null" +:+ quote +:+ ".into()),";
   "    }";
   "}";
   ""].
End Code.

Definition build_code `{BuildTools} (messages : list MessageInfo) : string :=
  build_code_with format_message_type_name format_message_full_type messages.

(** ** build *)

Definition package_re : string := "package\s+([\w.]+)".
Definition msg_re : string := "message\s+(\w+)".
Definition id_match_re : string := "enum\s+MsgId\s+".
Definition id_re : string := "Id\s+=\s+(\d+);".

(** What the loop over the lines of a file keeps; the messages of all files. *)
Record scan := Scan {
  package_name : string;
  msg_name : string;
  msg_id : u32;
  out_lines : list string;
  messages : list MessageInfo
}.

Section Build.
Context `{BuildTools}.

(** The last match, if there is one: each assigns the variable. *)
Definition last_capture (re line old : string) : string :=
  foldl (λ _ cap, default "" cap) old (captures_iter re line).

Fixpoint last_id (caps : list (option string)) (has_id : bool) (id : u32) : outcome (bool * u32) :=
  match caps with
  | [] => Ok (has_id, id)
  | cap :: caps =>
      match parse_u32 (default "" cap) with
      | Some id => last_id caps true id
      | None => Panic "message id not a number"
      end
  end.

Definition declares_id (line : string) : bool :=
  (starts_with ANNOTATION_PREFIX line || starts_with "enum" line) && is_match id_match_re line.

Definition scan_line (s : scan) (raw : string) : outcome scan :=
  let s := Scan (package_name s) (msg_name s) (msg_id s) (out_lines s ++ [raw]) (messages s) in
  let line := trim raw in
  if starts_with "package" line then
    Ok (Scan (last_capture package_re line (package_name s)) (msg_name s) (msg_id s)
          (out_lines s) (messages s))
  else if starts_with "message " line then
    Ok (Scan (package_name s) (last_capture msg_re line (msg_name s)) (msg_id s)
          (out_lines s) (messages s))
  else if declares_id line then
    '(has_id, id) ← last_id (captures_iter id_re line) false (msg_id s);
    if has_id : bool then
      let written :=
        if starts_with ANNOTATION_PREFIX line then out_lines s
        else <[pred (length (out_lines s)) := ANNOTATION_PREFIX +:+ raw]> (out_lines s) in
      Ok (Scan (package_name s) (msg_name s) id written
            (messages s ++ [{| mi_name := msg_name s; mi_package := package_name s; mi_id := id |}]))
    else Ok (Scan (package_name s) (msg_name s) id (out_lines s) (messages s))
  else Ok s.

Fixpoint scan_lines (s : scan) (raws : list string) : outcome scan :=
  match raws with
  | [] => Ok s
  | raw :: raws => s ← scan_line s raw; scan_lines s raws
  end.

(** One file: it is read, and written back with its ids commented out. *)
Definition scan_file (filename : string) (ms : list MessageInfo) : M project (list MessageInfo) :=
  contents ← fs_read_to_string filename;
  s ← lift (scan_lines (Scan "" "" 0 [] ms) (lines contents));
  _ ← fs_write filename (join nl (out_lines s));
  mret (messages s).

Fixpoint scan_files (filenames : list string) (ms : list MessageInfo)
    : M project (list MessageInfo) :=
  match filenames with
  | [] => mret ms
  | filename :: filenames => ms ← scan_file filename ms; scan_files filenames ms
  end.

(** What prost generates as pb.abc_def.rs is renamed to abc_def.rs. *)
Definition rename_entry (out_dir name : string) : M project unit :=
  let stem := file_stem name in
  when (starts_with "pb." stem)
    (fs_rename (out_dir +:+ "/" +:+ name) (out_dir +:+ "/" +:+ replace "pb." "" stem +:+ ".rs")).

Fixpoint rename_entries (out_dir : string) (names : list string) : M project unit :=
  match names with
  | [] => mret tt
  | name :: names => _ ← rename_entry out_dir name; rename_entries out_dir names
  end.

Definition run_compile_protos (proto_file_list : list string) : M project unit := λ fs,
  match compile_protos proto_file_list fs with
  | Ok fs' => (Ok tt, fs')
  | Err e => (Err e, fs)
  | Panic w => (Panic w, fs)
  | Pending => (Pending, fs)
  end.

Definition build (proto_file_list : list string) (out_dir : string)
    : M project (list MessageInfo) :=
  messages ← scan_files proto_file_list [];
  _ ← fs_write (out_dir +:+ "/message_map.rs") (build_code messages);
  _ ← run_compile_protos proto_file_list;
  entries ← (λ fs, (read_dir out_dir fs, fs));
  _ ← rename_entries out_dir entries;
  mret messages.

(** ** main *)

Definition proto_file_list : list string :=
  ["src/pb/Client_Server.proto"; "src/pb/Server_Client.proto"; "src/pb/ClassDef.proto";
   "src/pb/Generic.proto"].

Fixpoint backup (files : list string) (backups : project) : M project project :=
  match files with
  | [] => mret backups
  | f :: files =>
      contents ← fs_read_to_string f;
      _ ← lift current_dir;
      backup files (<[f := contents]> backups)
  end.

Definition restore_line (line : string) : string :=
  if starts_with ANNOTATION_PREFIX line then trim_start_matches ANNOTATION_PREFIX line else line.
Definition restored (content : string) : string := join nl (restore_line <$> lines content).

Fixpoint restore (files : list string) (backups : project) : M project unit :=
  match files with
  | [] => mret tt
  | f :: files =>
      _ ← lift current_dir;
      content ← lift (match backups !! f with
                      | Some content => Ok content
                      | None => Panic "called `Option::unwrap()` on a `None` value"
                      end);
      _ ← fs_write f (restored content);
      restore files backups
  end.

(** Every id differs from those before it, or the first that does not. *)
Fixpoint repeated_id (seen : list u32) (ms : list MessageInfo) : option MessageInfo :=
  match ms with
  | [] => None
  | m :: ms =>
      if bool_decide (mi_id m ∈ seen) then Some m else repeated_id (mi_id m :: seen) ms
  end.

(** A failed [build] is looked at only once the files are restored; one that
    panics ends the generator. *)
Definition main (profile : string) (windows : bool) : M project unit :=
  if bool_decide (profile = "release") then mret tt
  else if negb windows then mret tt
  else
    backups ← backup proto_file_list ∅;
    result ← (λ fs, match build proto_file_list "src" fs with
                    | (Ok ms, fs) => (Ok (inl ms), fs)
                    | (Err e, fs) => (Ok (inr e), fs)
                    | (Panic w, fs) => (Panic w, fs)
                    | (Pending, fs) => (Pending, fs)
                    end);
    _ ← restore proto_file_list backups;
    match result with
    | inl ms =>
        match repeated_id [] ms with
        | Some m => lift (Panic ("消息id重复：" +:+ mi_name m))
        | None => mret tt
        end
    | inr err => bail err
    end.
End Build.

(** ** Facts about text *)

(** A line holds neither a line feed nor a carriage return. *)
Fixpoint is_line (s : string) : bool :=
  match s with
  | "" => true
  | String c s => negb (bool_decide (c = LF)) && negb (bool_decide (c = CR)) && is_line s
  end.

(** The lines of a text that does not end in a line feed. *)
Definition text_lines (ls : list string) : Prop :=
  Forall (λ l, is_line l = true) ls ∧ last ls ≠ Some "".

Lemma lines_cons l s : is_line l = true → lines (l +:+ String LF s) = l :: lines s.
Proof.
  induction l as [|c l IH]; intros Hl; [done|]. cbn [is_line] in Hl.
  apply andb_true_iff in Hl as [[Hf Hr]%andb_true_iff Hl].
  apply negb_true_iff, bool_decide_eq_false in Hf, Hr.
  change (String c l +:+ String LF s) with (String c (l +:+ String LF s)). cbn [lines].
  rewrite decide_False by done. specialize (IH Hl). rewrite IH.
  destruct (l +:+ String LF s); [done|]. rewrite decide_False by (by intros [? _]). done.
Qed.

Lemma lines_last l : is_line l = true → lines l = if bool_decide (l = "") then [] else [l].
Proof.
  induction l as [|c l IH]; intros Hl; [done|]. cbn [is_line] in Hl.
  apply andb_true_iff in Hl as [[Hf Hr]%andb_true_iff Hl].
  apply negb_true_iff, bool_decide_eq_false in Hf, Hr. cbn [lines].
  rewrite decide_False by done. rewrite (IH Hl). cbn. destruct l; [done|].
  rewrite decide_False by (by intros [? _]). done.
Qed.

Lemma join_cons sep l ls : ls ≠ [] → join sep (l :: ls) = l +:+ sep +:+ join sep ls.
Proof. by destruct ls. Qed.

Lemma lines_join ls : text_lines ls → lines (join nl ls) = ls.
Proof.
  intros [Hls Hlast]. induction Hls as [|l ls Hl Hls IH]; [done|]. destruct ls as [|l' ls].
  - cbn [join String.concat]. rewrite lines_last by done. rewrite bool_decide_false; [done|]. by intros ->.
  - rewrite join_cons by done. change (nl +:+ ?s) with (String LF s).
    rewrite lines_cons by done. by rewrite IH.
Qed.

Lemma strip_prefix_app p s : strip_prefix p (p +:+ s) = Some s.
Proof.
  induction p as [|a p IH]; [by destruct s|].
  change (String a p +:+ s) with (String a (p +:+ s)). cbn [strip_prefix]. by rewrite decide_True.
Qed.
Lemma strip_prefix_Some p s r : strip_prefix p s = Some r → s = p +:+ r.
Proof.
  revert s. induction p as [|a p IH]; intros s; [by intros [= ->]|].
  destruct s as [|b s]; [done|]. cbn. destruct (decide (a = b)) as [->|]; [|done].
  intros Hs. by rewrite (IH _ Hs).
Qed.
Lemma starts_with_strip p s : starts_with p s = bool_decide (is_Some (strip_prefix p s)).
Proof.
  revert s. induction p as [|a p IH]; intros s; [by destruct s|].
  destruct s as [|b s]; [done|]. unfold starts_with. cbn.
  destruct (Ascii.ascii_dec a b), (decide (a = b)); [apply IH|congruence..|done].
Qed.
Lemma str_app_assoc (p r t : string) : p +:+ (r +:+ t) = (p +:+ r) +:+ t.
Proof. apply as_bytes_inj. by rewrite !as_bytes_app, app_assoc. Qed.
Lemma starts_with_app p s : starts_with p (p +:+ s) = true.
Proof. rewrite starts_with_strip, strip_prefix_app. by apply bool_decide_true. Qed.
Lemma starts_with_more p s t : starts_with p s = true → starts_with p (s +:+ t) = true.
Proof.
  rewrite starts_with_strip. intros [r ->%strip_prefix_Some]%bool_decide_eq_true.
  rewrite <- str_app_assoc.   apply starts_with_app.
Qed.

Lemma trim_start_matches_once p s :
  p ≠ "" → starts_with p s = false → trim_start_matches p (p +:+ s) = s.
Proof.
  intros Hp Hs. unfold trim_start_matches. destruct p as [|a p]; [done|]. 
  change (String.length (String a p +:+ s)) with (S (String.length (p +:+ s))).
  cbn [strip_prefixes]. rewrite strip_prefix_app.
  rewrite starts_with_strip in Hs. apply bool_decide_eq_false in Hs.
  destruct (String.length _); [done|]. cbn [strip_prefixes].
  destruct (strip_prefix (String a p) s); [|done]. by destruct Hs.
Qed.

(** Trimming stops at a character of ASCII that is not white. *)
Definition solid (y : u8) : Prop := white1 y = false ∧ y < 128.

Lemma white2_ascii a b : a < 128 ∨ b < 128 → white2 a b = false.
Proof. unfold white2. lia. Qed.
Lemma white3_ascii a b c : a < 128 ∨ b < 128 ∨ c < 128 → white3 a b c = false.
Proof. unfold white3, in_range. lia. Qed.

Lemma drop_white_solid xs y ys :
  solid y → drop_white (xs ++ y :: ys) = drop_white xs ++ y :: ys.
Proof.
  intros [Hy Hl]. remember (length xs) as n eqn:Hn. revert xs Hn.
  induction (lt_wf n) as [n _ IH]. intros xs ->.
  destruct xs as [|a [|b [|c xs]]]; cbn [app drop_white].
  - rewrite Hy. destruct ys as [|b ys]; [done|]. rewrite white2_ascii by auto.
    destruct ys as [|c ys]; [done|]. by rewrite white3_ascii by auto.
  - destruct (white1 a); [by apply (IH 0%nat ltac:(cbn; lia) [])|]. rewrite white2_ascii by auto.
    destruct ys as [|c ys]; [done|]. by rewrite white3_ascii by auto.
  - destruct (white1 a); [by apply (IH 1%nat ltac:(cbn; lia) [b])|].
    destruct (white2 a b); [by apply (IH 0%nat ltac:(cbn; lia) [])|].
    by rewrite white3_ascii by auto.
  - destruct (white1 a); [by apply (IH (2 + length xs)%nat ltac:(cbn; lia) (b :: c :: xs))|].
    destruct (white2 a b); [by apply (IH (1 + length xs)%nat ltac:(cbn; lia) (c :: xs))|].
    destruct (white3 a b c); [by apply (IH (length xs) ltac:(cbn; lia) xs)|done].
Qed.

Lemma drop_white_end_app p y s :
  solid y → drop_white_end ((p ++ [y]) ++ s) = (p ++ [y]) ++ drop_white_end s.
Proof.
  intros Hy. rewrite <- !app_assoc. cbn [app].
  assert (∀ xs, bool_decide (drop_white (xs ++ y :: s) = []) = false) as Hd.
  { intros xs. apply bool_decide_false. rewrite drop_white_solid by done. by destruct (drop_white xs). }
  induction p as [|x p IH]; cbn [app drop_white_end].
  - pose proof (Hd []) as Hd'. cbn [app] in Hd'. by rewrite Hd'.
  - pose proof (Hd (x :: p)) as Hd'. cbn [app] in Hd'. by rewrite Hd', IH.
Qed.

(** Bytes that are no letter of ASCII; all that trimming drops is such. *)
Definition blank (b : u8) : bool :=
  (0 <=? b) && (b <? 256) && negb (in_range 65 90 b || in_range 97 122 b).
Definition blanks (w : bytes) : Prop := forallb blank w = true.

Lemma white_blank1 a : white1 a = true → blank a = true.
Proof. unfold white1, blank, in_range. lia. Qed.
Lemma white_blank2 a b : white2 a b = true → blank a = true ∧ blank b = true.
Proof. unfold white2, blank, in_range. lia. Qed.
Lemma white_blank3 a b c :
  white3 a b c = true → blank a = true ∧ blank b = true ∧ blank c = true.
Proof. unfold white3, blank, in_range. lia. Qed.
Lemma white_rest b r : 128 <= b < 194 → drop_white (b :: r) = b :: r.
Proof.
  intros Hb. cbn [drop_white]. replace (white1 b) with false by (unfold white1, in_range; lia).
  destruct r as [|c r]; [done|]. replace (white2 b c) with false by (unfold white2; lia).
  destruct r as [|d r]; [done|]. by replace (white3 b c d) with false by (unfold white3; lia).
Qed.
Lemma drop_white_end_rest b r :
  128 <= b < 194 → drop_white_end (b :: r) = b :: drop_white_end r.
Proof. intros Hb. cbn [drop_white_end]. by rewrite white_rest, bool_decide_false. Qed.

Lemma drop_white_end_start bs :
  ∃ w, blanks w ∧
    drop_white_end bs = w ++ drop_white_end (drop_white bs).
Proof.
  remember (length bs) as n eqn:Hn. revert bs Hn.
  induction (lt_wf n) as [n _ IH]. intros bs ->.
  destruct (decide (drop_white bs = [])) as [Hd|Hd].
  { exists []. split; [done|]. rewrite Hd. destruct bs; [done|]. cbn [drop_white_end].
    by rewrite bool_decide_true. }
  destruct bs as [|a r1]; [done|]. cbn [drop_white_end]. rewrite bool_decide_false by done.
  clear Hd. cbn [drop_white]. destruct (white1 a) eqn:E1.
  { destruct (IH (length r1) ltac:(cbn; lia) r1 eq_refl) as (w & Hw & ->). exists (a :: w).
    split; [|done]. unfold blanks. cbn. by rewrite (white_blank1 _ E1). }
  destruct r1 as [|b r2].
  { exists []. split; [done|]. cbn [drop_white_end drop_white]. by rewrite E1. }
  destruct (white2 a b) eqn:E2.
  { destruct (IH (length r2) ltac:(cbn; lia) r2 eq_refl) as (w & Hw & E).
    rewrite drop_white_end_rest, E by (unfold white2 in E2; lia). exists (a :: b :: w).
    split; [|done]. unfold blanks. cbn. by destruct (white_blank2 _ _ E2) as [-> ->]. }
  destruct r2 as [|c r3].
  { exists []. split; [done|]. cbn [drop_white_end drop_white app]. by rewrite E1, E2. }
  destruct (white3 a b c) eqn:E3.
  { destruct (IH (length r3) ltac:(cbn; lia) r3 eq_refl) as (w & Hw & E).
    rewrite !drop_white_end_rest, E by (unfold white3, in_range in E3; lia). exists (a :: b :: c :: w).
    split; [|done]. unfold blanks. cbn. by destruct (white_blank3 _ _ _ E3) as (-> & -> & ->). }
  exists []. split; [done|]. cbn [app].
  assert (drop_white (a :: b :: c :: r3) = a :: b :: c :: r3) as Ed.
  { cbn [drop_white]. by rewrite E1, E2, E3. }
  change (a :: drop_white_end (b :: c :: r3) = drop_white_end (a :: b :: c :: r3)).
  cbn [drop_white_end] in *. by rewrite Ed.
Qed.

Definition trim_end (s : string) : string := of_bytes (drop_white_end (as_bytes s)).

Lemma trim_annotated s :
  trim (ANNOTATION_PREFIX +:+ s) = ANNOTATION_PREFIX +:+ trim_end s.
Proof.
  unfold trim, trim_end. rewrite as_bytes_app.
  change (as_bytes ANNOTATION_PREFIX) with (removelast (as_bytes ANNOTATION_PREFIX) ++ [64]).
  assert (solid 64) as Hs by (split; [reflexivity|lia]).
  rewrite <- app_assoc at 1. cbn [app]. rewrite drop_white_solid by done.
  change (drop_white (removelast (as_bytes ANNOTATION_PREFIX)))
    with (removelast (as_bytes ANNOTATION_PREFIX)).
  change (64 :: as_bytes s) with ([64] ++ as_bytes s). rewrite app_assoc.
  rewrite drop_white_end_app by done. rewrite of_bytes_app. f_equal.
Qed.
Lemma trim_end_start s : ∃ w, blanks w ∧ trim_end s = of_bytes w +:+ trim s.
Proof.
  unfold trim_end, trim. destruct (drop_white_end_start (as_bytes s)) as (w & Hw & ->).
  exists w. split; [done|]. apply of_bytes_app.
Qed.

(** ** Facts about the generator *)

(** What the generator relies on: the patterns for ids are searched anywhere
    in a line, and no match starts in text without letters or in the annotation; prost writes only files named after their
    packages; the libraries return. *)
Class BuildLaws `{BuildTools} := {
  match_annotated s : is_match id_match_re (ANNOTATION_PREFIX +:+ s) = is_match id_match_re s;
  match_indented w s : blanks w → is_match id_match_re (of_bytes w +:+ s) = is_match id_match_re s;
  captures_annotated s : captures_iter id_re (ANNOTATION_PREFIX +:+ s) = captures_iter id_re s;
  captures_indented w s : blanks w → captures_iter id_re (of_bytes w +:+ s) = captures_iter id_re s;
  compile_returns files fs : match compile_protos files fs with Ok _ | Err _ => True | _ => False end;
  compile_keeps files fs fs' p :
    compile_protos files fs = Ok fs' → starts_with "src/pb." p = false → fs' !! p = fs !! p;
  read_dir_returns dir fs : match read_dir dir fs with Ok _ | Err _ => True | _ => False end
}.

(** A line as the generator writes it while prost runs. *)
Definition annotate_line `{BuildTools} (raw : string) : string :=
  let line := trim raw in
  if negb (starts_with "package" line) && negb (starts_with "message " line) &&
     declares_id line && negb (bool_decide (captures_iter id_re line = [])) &&
     negb (starts_with ANNOTATION_PREFIX line)
  then ANNOTATION_PREFIX +:+ raw else raw.

Section BuildFacts.
Context `{BuildLaws}.

Lemma annotate_cases raw :
  annotate_line raw = raw ∨
  annotate_line raw = ANNOTATION_PREFIX +:+ raw ∧
  starts_with "package" (trim raw) = false ∧ starts_with "message " (trim raw) = false ∧
  declares_id (trim raw) = true ∧ captures_iter id_re (trim raw) ≠ [] ∧
  starts_with ANNOTATION_PREFIX (trim raw) = false.
Proof.
  unfold annotate_line. destruct (_ && _) eqn:E; [|by left]. right. split; [done|].
  rewrite !andb_true_iff, !negb_true_iff, bool_decide_eq_false in E. tauto.
Qed.

Lemma last_id_nonempty caps has id :
  match last_id caps has id with
  | Ok (has', _) => has' = (has || negb (bool_decide (caps = [])))
  | Panic _ => caps ≠ []
  | _ => False
  end.
Proof.
  revert has id. induction caps as [|cap caps IH]; intros has id; cbn [last_id].
  { by destruct has. }
  destruct (parse_u32 _) as [n|]; [|done]. specialize (IH true n).
  destruct (last_id caps true n) as [[has' id']|e|w|]; try done. rewrite IH.
  by destruct has.
Qed.

(** Whatever a line does, what is written for it is its annotated form. *)
Lemma scan_line_writes s raw s' :
  scan_line s raw = Ok s' → out_lines s' = out_lines s ++ [annotate_line raw].
Proof.
  unfold scan_line, annotate_line. cbn [out_lines package_name msg_name msg_id messages].
  destruct (starts_with "package" _); [by intros [= <-]|].
  destruct (starts_with "message " _); [by intros [= <-]|].
  destruct (declares_id _); [|by intros [= <-]].
  pose proof (last_id_nonempty (captures_iter id_re (trim raw)) false (msg_id s)) as Hid.
  destruct (last_id _ _ _) as [[has id]|e|w|]; try done. cbn. cbn in Hid. subst has.
  destruct (bool_decide _); cbn [negb andb]; [by intros [= <-]|].
  intros [= <-]. cbn [out_lines]. destruct (starts_with ANNOTATION_PREFIX _); [done|]. cbn [negb].
  rewrite length_app. cbn [length]. replace (pred (length (out_lines s) + 1))%nat with (length (out_lines s) + 0)%nat by lia.
  by rewrite insert_app_r.
Qed.

(** An annotated line does what it did before. *)
Lemma scan_line_annotated s raw : scan_line s (annotate_line raw) = scan_line s raw.
Proof.
  destruct (annotate_cases raw) as [->|(-> & Hp & Hm & Hd & Hc & Ha)]; [done|].
  unfold scan_line. cbn [out_lines package_name msg_name msg_id messages].
  destruct (trim_end_start raw) as (ws & Hws & Et). rewrite trim_annotated, Et, Hp, Hm, Hd, Ha.
  replace (starts_with "package" (ANNOTATION_PREFIX +:+ _)) with false by done.
  replace (starts_with "message " (ANNOTATION_PREFIX +:+ _)) with false by done.
  assert (declares_id (ANNOTATION_PREFIX +:+ (of_bytes ws +:+ trim raw)) = true) as ->.
  { unfold declares_id in *. rewrite starts_with_app, match_annotated, match_indented by done.
    by apply andb_true_iff in Hd as [_ ->]. }
  rewrite captures_annotated, captures_indented, starts_with_app by done.
  pose proof (last_id_nonempty (captures_iter id_re (trim raw)) false (msg_id s)) as Hid.
  destruct (last_id _ _ _) as [[has id]|e|w|]; try done. cbn. cbn in Hid. subst has.
  rewrite bool_decide_false by done. cbn [negb]. do 3 f_equal.
  rewrite length_app. cbn [length]. replace (pred (length (out_lines s) + 1))%nat with (length (out_lines s) + 0)%nat by lia.
  by rewrite insert_app_r.
Qed.

Lemma scan_lines_writes raws s s' :
  scan_lines s raws = Ok s' → out_lines s' = out_lines s ++ (annotate_line <$> raws).
Proof.
  revert s. induction raws as [|raw raws IH]; intros s; cbn [scan_lines].
  { intros [= <-]. by rewrite app_nil_r. }
  destruct (scan_line s raw) as [s1| | |] eqn:E1; try done. cbn. intros E2.
  rewrite (IH s1 E2), (scan_line_writes s raw s1 E1). by rewrite <- app_assoc.
Qed.
Lemma scan_lines_annotated raws s :
  scan_lines s (annotate_line <$> raws) = scan_lines s raws.
Proof.
  revert s. induction raws as [|raw raws IH]; intros s; [done|]. cbn [scan_lines fmap list_fmap].
  rewrite scan_line_annotated. destruct (scan_line s raw); try done. cbn. apply IH.
Qed.

(** Lines as they are in the repository: not annotated. *)
Definition unannotated (ls : list string) : Prop :=
  Forall (λ l, starts_with ANNOTATION_PREFIX l = false) ls.

(** A text of these lines, in whatever way they end, or of these lines as an
    interrupted run left them. *)
Definition holds_lines (ls : list string) (c : string) : Prop :=
  lines c = ls ∨ lines c = annotate_line <$> ls.

Lemma annotate_line_twice l : annotate_line (annotate_line l) = annotate_line l.
Proof.
  destruct (annotate_cases l) as [E|[E _]]; rewrite E; [done|].
  unfold annotate_line. rewrite trim_annotated, starts_with_app. cbn [negb]. by rewrite !andb_false_r.
Qed.
Lemma annotated_lines ls c : holds_lines ls c → annotate_line <$> lines c = annotate_line <$> ls.
Proof.
  intros [->| ->]; [done|]. rewrite <- list_fmap_compose. apply list_fmap_ext. intros i l _. apply annotate_line_twice.
Qed.

Lemma is_line_app s t : is_line (s +:+ t) = is_line s && is_line t.
Proof.
  induction s as [|c s IH]; [done|]. change (String c s +:+ t) with (String c (s +:+ t)).
  cbn [is_line]. rewrite IH. by rewrite !andb_assoc.
Qed.

Lemma annotated_text_lines ls : text_lines ls → text_lines (annotate_line <$> ls).
Proof.
  intros [Hls Hlast]. split.
  - apply Forall_fmap. eapply Forall_impl; [exact Hls|]. intros l Hl.
    destruct (annotate_cases l) as [Ha|[Ha _]]; cbn; rewrite Ha; [done|].
    by rewrite is_line_app, Hl.
  - rewrite fmap_last. intros Hl. apply fmap_Some in Hl as (l & Hl & Ha).
    destruct (annotate_cases l) as [E|[E _]]; rewrite E in Ha; [by subst|done].
Qed.

Lemma restore_annotated l :
  starts_with ANNOTATION_PREFIX l = false → restore_line (annotate_line l) = l.
Proof.
  intros Hl. destruct (annotate_cases l) as [->|[-> _]]; unfold restore_line; [by rewrite Hl|].
  rewrite starts_with_app. by apply trim_start_matches_once.
Qed.
Lemma restored_lines ls c : unannotated ls → holds_lines ls c → restored c = join nl ls.
Proof.
  intros Ha Hc. unfold restored. f_equal. pose proof (proj1 (Forall_lookup _ _) Ha) as Hl.
  destruct Hc as [->| ->]; rewrite <- ?list_fmap_compose; rewrite <- (list_fmap_id ls) at 2;
    apply list_fmap_ext; intros i l Hi; specialize (Hl i l Hi).
  - unfold restore_line. by rewrite Hl.
  - by apply restore_annotated.
Qed.
End BuildFacts.

(** ** The files through a run *)

Section RunFacts.
Context `{BuildLaws} (ls : string → list string).
Implicit Types (fs : project) (files : list string).

(** Each file holds its lines, or its lines as an interrupted run left them. *)
Definition interrupted files fs : Prop :=
  ∀ f, f ∈ files → ∃ c, fs !! f = Some c ∧ holds_lines (ls f) c.

(** Each file is as it was, or has its ids commented out. *)
Definition commented_out files fs fs' : Prop :=
  ∀ f, f ∈ files → fs' !! f = fs !! f ∨ fs' !! f = Some (join nl (annotate_line <$> ls f)).

(** The messages of the files, from their lines alone. *)
Fixpoint messages_of files (ms : list MessageInfo) : outcome (list MessageInfo) :=
  match files with
  | [] => Ok ms
  | f :: files => s ← scan_lines (Scan "" "" 0 [] ms) (ls f); messages_of files (messages s)
  end.

(** The scan ends, with the messages or a panic over an id. *)
Lemma scan_line_returns s raw :
  match scan_line s raw with Ok _ | Panic _ => True | _ => False end.
Proof.
  unfold scan_line. cbn [out_lines package_name msg_name msg_id messages].
  destruct (starts_with "package" _); [done|]. destruct (starts_with "message " _); [done|].
  destruct (declares_id _); [|done].
  pose proof (last_id_nonempty (captures_iter id_re (trim raw)) false (msg_id s)) as Hid.
  destruct (last_id _ _ _) as [[has id]|e|w|]; try done. cbn. by destruct has.
Qed.
Lemma scan_lines_returns raws s :
  match scan_lines s raws with Ok _ | Panic _ => True | _ => False end.
Proof.
  revert s. induction raws as [|raw raws IH]; intros s; [done|]. cbn [scan_lines].
  pose proof (scan_line_returns s raw) as Hl. destruct (scan_line s raw); try done. apply IH.
Qed.
Lemma messages_of_returns files ms :
  match messages_of files ms with Ok _ | Panic _ => True | _ => False end.
Proof.
  revert ms. induction files as [|f files IH]; intros ms; [done|]. cbn [messages_of].
  pose proof (scan_lines_returns (ls f) (Scan "" "" 0 [] ms)) as Hl.
  destruct (scan_lines _ _); try done. apply IH.
Qed.

Definition readable files : Prop := ∀ f, f ∈ files → io_error f = None ∧ unannotated (ls f).

(** Where the lines have nothing but line feeds at their ends, and the last is
    not empty, the files are fit for another run. *)
Lemma commented_interrupted files fs fs' :
  (∀ f, f ∈ files → text_lines (ls f)) → interrupted files fs → commented_out files fs fs' →
  interrupted files fs'.
Proof.
  intros Ht Hi Hc f Hf. destruct (Hc f Hf) as [->|Hf']; [by apply Hi|].
  eexists. split; [exact Hf'|]. right. by apply lines_join, annotated_text_lines, Ht.
Qed.

(** Reading the files finds their messages, annotated or not, and leaves them
    with their ids commented out or as they are. *)
Lemma scan_files_spec files ms fs :
  readable files → NoDup files → interrupted files fs →
  ∃ fs', scan_files files ms fs = (messages_of files ms, fs') ∧ commented_out files fs fs' ∧
    ∀ p, p ∉ files → fs' !! p = fs !! p.
Proof.
  revert ms fs. induction files as [|f files IH]; intros ms fs Hr Hnd Hi.
  { exists fs. split; [done|]. split; [|done]. intros f _. by left. }
  apply NoDup_cons in Hnd as [Hn Hnd].
  destruct (Hi f ltac:(left)) as (c & Hc & Hl). destruct (Hr f ltac:(left)) as [Hio _].
  assert (scan_lines (Scan "" "" 0 [] ms) (lines c) = scan_lines (Scan "" "" 0 [] ms) (ls f)) as Hs.
  { destruct Hl as [->| ->]; [done|apply scan_lines_annotated]. }
  cbn [scan_files messages_of]. unfold scan_file, mbind, M_bind, fs_read_to_string, lift.
  rewrite Hio, Hc. destruct (scan_lines _ (lines c)) as [s| | |] eqn:Es; rewrite <- Hs;
    try (exists fs; split; [done|]; split; [intros g _; by left|done]).
  cbn. unfold fs_write. rewrite Hio. cbn. rewrite (scan_lines_writes _ _ _ Es). cbn [out_lines app].
  rewrite (annotated_lines _ _ Hl).
  destruct (IH (messages s) (<[f := join nl (annotate_line <$> ls f)]> fs)) as (fs' & E & Hco & Ho);
    [intros g Hg; by apply Hr; right|done| |].
  { intros g Hg. rewrite lookup_insert_ne by (by intros ->). apply Hi. by right. }
  exists fs'. split; [exact E|]. split.
  - intros g [->|Hg]%elem_of_cons.
    + right. rewrite Ho by done. apply lookup_insert_eq.
    + destruct (Hco g Hg) as [->|]; [|by right]. left. apply lookup_insert_ne. by intros ->.
  - intros p Hp. apply not_elem_of_cons in Hp as [Hpf Hp]. rewrite Ho by done.
    by apply lookup_insert_ne.
Qed.

(** What renaming does not touch: paths that prost would not write and to
    which nothing is renamed. *)
Definition renamed (name : string) : string :=
  "src" +:+ "/" +:+ replace "pb." "" (file_stem name) +:+ ".rs".
Definition kept_path (names : list string) (p : string) : Prop :=
  starts_with "src/pb." p = false ∧
  ∀ n, n ∈ names → starts_with "pb." (file_stem n) = true → p ≠ renamed n.

Lemma before_last_dot_app bs p : before_last_dot bs = Some p → ∃ r, bs = p ++ r.
Proof.
  revert p. induction bs as [|b bs IH]; intros p; [done|]. cbn [before_last_dot].
  destruct (before_last_dot bs) as [q|].
  - intros [= <-]. destruct (IH q eq_refl) as [r ->]. by exists r.
  - destruct (b =? 46); [|done]. intros [= <-]. by eexists.
Qed.
Lemma file_stem_starts p name :
  starts_with p (file_stem name) = true → starts_with p name = true.
Proof.
  unfold file_stem. destruct (before_last_dot (as_bytes name)) as [[|b q]|] eqn:E; try done.
  destruct (before_last_dot_app _ _ E) as [r Hr].
  replace name with (of_bytes (b :: q) +:+ of_bytes r); [apply starts_with_more|].
  rewrite <- of_bytes_app, <- Hr. apply of_bytes_as_bytes.
Qed.

Lemma rename_entries_keeps names p fs :
  kept_path names p → after (rename_entries "src" names) fs (λ o fs',
    match o with Ok _ | Err _ => fs' !! p = fs !! p | _ => False end).
Proof.
  intros [Hpb Hrs]. revert fs. induction names as [|name names IH]; intros fs; [done|].
  assert (∀ fs, after (rename_entries "src" names) fs (λ o fs',
    match o with Ok _ | Err _ => fs' !! p = fs !! p | _ => False end)) as IH'.
  { apply IH. intros n Hn. apply Hrs. by right. }
  cbn [rename_entries]. apply after_bind. unfold rename_entry, when.
  destruct (starts_with "pb." (file_stem name)) eqn:Es; [|apply IH'].
  unfold fs_rename, after. destruct (io_error _); [done|]. destruct (fs !! _); [|done].
  specialize (IH' (<["src" +:+ "/" +:+ replace "pb." "" (file_stem name) +:+ ".rs" := s]>
                    (delete ("src" +:+ "/" +:+ name) fs))).
  unfold after in IH'. destruct (rename_entries _ _ _) as [[| | |] fs']; try done; rewrite IH';
    (rewrite lookup_insert_ne, lookup_delete_ne; [done| |];
     [intros <-; change (starts_with "pb." name = false) in Hpb;
        by rewrite (file_stem_starts _ _ Es) in Hpb
     |intros E; apply (Hrs name ltac:(left) Es); by symmetry]).
Qed.

Lemma proto_files_differ : NoDup proto_file_list.
Proof. apply (bool_decide_unpack _). vm_compute. exact I. Qed.
Lemma generic_listed : "src/pb/Generic.proto" ∈ proto_file_list.
Proof. apply (bool_decide_unpack _). vm_compute. exact I. Qed.
Lemma proto_path_kept names f : f ∈ proto_file_list → kept_path names f.
Proof.
  intros Hf. assert (starts_with "src/pb." f = false ∧ last (as_bytes f) = Some 111) as [Hpb Ho].
  { unfold proto_file_list in Hf. set_unfold in Hf. by destruct Hf as [->|[->|[->|[->|[]]]]]. }
  split; [done|]. intros n _ _ ->. unfold renamed in Ho. rewrite !as_bytes_app, !app_assoc in Ho.
  change (as_bytes ".rs") with ([46; 114] ++ [115]) in Ho. by rewrite app_assoc, last_snoc in Ho.
Qed.

(** No package is called [PB.message_map]. *)
Definition names_ok : Prop :=
  ∀ fs names, read_dir "src" fs = Ok names → kept_path names "src/message_map.rs".

Lemma build_spec fs :
  readable proto_file_list → interrupted proto_file_list fs →
  ∃ o fs', build proto_file_list "src" fs = (o, fs') ∧ commented_out proto_file_list fs fs' ∧
    match messages_of proto_file_list [] with
    | Ok ms => match o with
               | Ok ms' => ms' = ms ∧
                   (names_ok → fs' !! "src/message_map.rs" = Some (build_code ms))
               | Err _ => True
               | _ => False
               end
    | r => o = r
    end.
Proof.
  intros Hr Hi. unfold build.
  destruct (scan_files_spec proto_file_list [] fs Hr proto_files_differ Hi) as (fs1 & E1 & Hi1 & _).
  destruct (messages_of proto_file_list []) as [ms|e|w|]; unfold mbind, M_bind; rewrite E1;
    [|by eexists _, _..].
  unfold fs_write. destruct (io_error _) as [e|]; [by eexists _, _|].
  set (fs2 := <["src" +:+ "/message_map.rs" := build_code ms]> fs1).
  assert (∀ f, f ∈ proto_file_list → fs2 !! f = fs1 !! f) as Hf2.
  { intros f Hf. apply lookup_insert_ne. intros <-. unfold proto_file_list in Hf. set_unfold in Hf.
    by destruct Hf as [?|[?|[?|[?|[]]]]]. }
  assert (commented_out proto_file_list fs fs2) as Hi2.
  { intros f Hf. rewrite Hf2 by done. by apply Hi1. }
  unfold run_compile_protos. pose proof (compile_returns proto_file_list fs2) as Hc.
  destruct (compile_protos proto_file_list fs2) as [fs3|e|w|] eqn:Ec; try done;
    [|by eexists _, _].
  pose proof (compile_keeps _ _ _ "src/message_map.rs" Ec eq_refl) as Hm3.
  assert (commented_out proto_file_list fs fs3) as Hi3.
  { intros f Hf. rewrite (compile_keeps _ _ _ f Ec (proj1 (proto_path_kept [] f Hf))). by apply Hi2. }
  pose proof (read_dir_returns "src" fs3) as Hd.
  destruct (read_dir "src" fs3) as [names|e|w|] eqn:Ed; try done; [|by eexists _, _].
  pose proof (λ p, rename_entries_keeps names p fs3) as Hk. unfold after in Hk.
  destruct (rename_entries "src" names fs3) as [o4 fs4].
  assert (commented_out proto_file_list fs fs4) as Hi4.
  { intros f Hf. specialize (Hk f (proto_path_kept names f Hf)). specialize (Hi3 f Hf).
    destruct o4; try done; by rewrite Hk. }
  assert (match o4 with Ok _ | Err _ => True | _ => False end) as Ho4.
  { specialize (Hk "src/pb/Generic.proto" (proto_path_kept names _ generic_listed)).
    by destruct o4. }
  destruct o4 as [[]|e|w|]; try done; [|by eexists _, _].
  eexists _, _. split; [reflexivity|]. split; [done|]. split; [done|]. intros Hn.
  rewrite (Hk _ (Hn _ _ Ed)), Hm3. apply lookup_insert_eq.
Qed.

Lemma backup_spec files b fs :
  current_dir = Ok tt → (∀ f, f ∈ files → io_error f = None ∧ is_Some (fs !! f)) → b ⊆ fs →
  ∃ b', backup files b fs = (Ok b', fs) ∧ b ⊆ b' ∧ b' ⊆ fs ∧ ∀ f, f ∈ files → is_Some (b' !! f).
Proof.
  intros Hd. revert b. induction files as [|f files IH]; intros b Hf Hb.
  { exists b. split; [done|]. split; [done|]. split; [done|]. intros f Hin. by apply elem_of_nil in Hin. }
  destruct (Hf f ltac:(left)) as [Hio [c Hc]].
  destruct (IH (<[f := c]> b)) as (b' & Hb' & Hle & Hsub & Hall).
  - intros g Hg. apply Hf. by right.
  - by apply insert_subseteq_l.
  - exists b'. split; [|split; [|split; [done|]]].
    + cbn [backup]. unfold mbind, M_bind, fs_read_to_string, lift. by rewrite Hio, Hc, Hd.
    + apply map_subseteq_spec. intros g x Hg. destruct (decide (f = g)) as [->|].
      * assert (c = x) as <- by (pose proof (lookup_weaken _ _ _ _ Hg Hb); congruence).
        eapply lookup_weaken; [|exact Hle]. apply lookup_insert_eq.
      * eapply lookup_weaken; [|exact Hle]. by rewrite lookup_insert_ne.
    + intros g [->|Hg]%elem_of_cons; [|by apply Hall]. exists c.
      eapply lookup_weaken; [|exact Hle]. apply lookup_insert_eq.
Qed.

Lemma restore_spec files b fs :
  current_dir = Ok tt → (∀ f, f ∈ files → io_error f = None) →
  (∀ f, f ∈ files → ∃ c, b !! f = Some c ∧ restored c = join nl (ls f)) →
  ∃ fs', restore files b fs = (Ok tt, fs') ∧
    (∀ f, f ∈ files → fs' !! f = Some (join nl (ls f))) ∧
    ∀ p, p ∉ files → fs' !! p = fs !! p.
Proof.
  intros Hd. revert fs. induction files as [|f files IH]; intros fs Hio Hb.
  { exists fs. split; [done|]. split; [|done]. intros f Hf. by apply elem_of_nil in Hf. }
  destruct (Hb f ltac:(left)) as (c & Hc & Hrc).
  destruct (IH (<[f := join nl (ls f)]> fs)) as (fs' & Er & Hin & Hout).
  - intros g Hg. apply Hio. by right.
  - intros g Hg. apply Hb. by right.
  - exists fs'. split; [|split].
    + cbn [restore]. unfold mbind, M_bind, lift, fs_write. rewrite Hd, Hc, (Hio f) by left.
      by rewrite Hrc.
    + intros g Hg. destruct (decide (g ∈ files)) as [|Hn]; [by apply Hin|].
      apply elem_of_cons in Hg as [->|Hg]; [|done]. rewrite Hout by done. apply lookup_insert_eq.
    + intros p Hp. rewrite not_elem_of_cons in Hp. rewrite Hout by tauto.
      apply lookup_insert_ne. by intros ->; destruct Hp.
Qed.

Lemma repeated_id_spec seen ms :
  match repeated_id seen ms with
  | None => NoDup (mi_id <$> ms) ∧ ∀ m, m ∈ ms → mi_id m ∉ seen
  | Some _ => ¬ (NoDup (mi_id <$> ms) ∧ ∀ m, m ∈ ms → mi_id m ∉ seen)
  end.
Proof.
  revert seen. induction ms as [|m ms IH]; intros seen; cbn [repeated_id].
  { split; [constructor|]. intros m Hm. by apply elem_of_nil in Hm. }
  case_bool_decide as Hm; [intros [_ Hn]; by apply (Hn m); [left|]|].
  specialize (IH (mi_id m :: seen)). destruct (repeated_id _ ms); rewrite fmap_cons, NoDup_cons.
  - intros [[Hx Hnd] Hn]. apply IH. split; [done|]. intros m' Hm' [E|Hin]%elem_of_cons.
    + apply Hx. rewrite <- E. by apply list_elem_of_fmap_2.
    + apply (Hn m'); [by right|done].
  - destruct IH as [Hnd Hn]. split; [split; [|done]|].
    + intros (m' & E & Hm')%list_elem_of_fmap. apply (Hn m' Hm'). rewrite <- E. by left.
    + intros m' [->|Hm']%elem_of_cons; [done|]. specialize (Hn m' Hm').
      rewrite not_elem_of_cons in Hn. tauto.
Qed.
End RunFacts.

(** ** Properties *)

Lemma not_elem_of_map_rs : "src/message_map.rs" ∉ proto_file_list.
Proof. apply (bool_decide_unpack _). vm_compute. exact I. Qed.


Section BuildProperties.
Context `{BuildLaws} (ls : string → list string).

(** C34: The generator leaves the lines of the protocol's files as they are,
    and makes up for a run that was interrupted. Whatever texts hold the lines,
    and even if some were left with their ids commented out, a run finds the
    messages that the lines alone declare. Where an id is no 32-bit number it
    panics, and each file stays as it was or with its ids commented out.
    Otherwise it restores every file, also when prost fails: with the same
    lines, joined by line feeds, so that carriage returns and a line feed at the
    end are lost. It writes the code of the messages and refuses ids that occur
    twice. The next run can start from the files of this one, where no line
    holds a carriage return and the last is not empty. *)
Theorem generator_recovers (fs : project) :
  readable ls proto_file_list → interrupted ls proto_file_list fs → current_dir = Ok tt →
  let '(o, fs') := main "debug" true fs in
  ((∀ f, f ∈ proto_file_list → text_lines (ls f)) → interrupted ls proto_file_list fs') ∧
  match messages_of ls proto_file_list [] with
  | Ok ms =>
      (∀ f, f ∈ proto_file_list → fs' !! f = Some (join nl (ls f))) ∧
      match o with
      | Ok _ => NoDup (mi_id <$> ms) ∧
                (names_ok → fs' !! "src/message_map.rs" = Some (build_code ms))
      | Panic _ => ¬ NoDup (mi_id <$> ms)
      | Err e => fst (build proto_file_list "src" fs) = Err e
      | Pending => False
      end
  | Panic w => o = Panic w ∧ commented_out ls proto_file_list fs fs'
  | _ => False
  end.
Proof.
  intros Hr Hi Hd. unfold main. rewrite bool_decide_false by done. cbn [negb].
  destruct (backup_spec proto_file_list ∅ fs Hd) as (b & Eb & _ & Hsub & Hall).
  { intros f Hf. split; [by apply Hr|]. by destruct (Hi f Hf) as (c & -> & _). }
  { apply map_empty_subseteq. }
  rewrite (bind_ok _ _ _ _ _ Eb). destruct (build_spec ls fs Hr Hi) as (o & fs1 & E1 & Hi1 & Ho).
  unfold mbind, M_bind. rewrite E1.
  destruct (restore_spec ls proto_file_list b fs1 Hd) as (fs' & Er & Hin & Hout).
  { intros f Hf. by apply Hr. }
  { intros f Hf. destruct (Hall f Hf) as [c Hc]. exists c. split; [done|].
    destruct (Hi f Hf) as (c' & Hc' & Hl). rewrite (lookup_weaken _ _ _ _ Hc Hsub) in Hc'.
    injection Hc' as ->. apply restored_lines; [by apply Hr|done]. }
  assert ((∀ f, f ∈ proto_file_list → text_lines (ls f)) → interrupted ls proto_file_list fs') as Hi'.
  { intros Ht f Hf. eexists. split; [by apply Hin|]. left. by apply lines_join, Ht. }
  pose proof (messages_of_returns ls proto_file_list []) as Hret.
  destruct (messages_of ls proto_file_list []) as [ms|e|w|]; try done.
  - destruct o as [ms'|e|w|]; try done.
    + destruct Ho as [-> Hmap]. rewrite Er. pose proof (repeated_id_spec [] ms) as Hrep.
      destruct (repeated_id [] ms) as [m|].
      * split; [done|]. split; [done|]. intros Hnd. apply Hrep. split; [done|].
        intros m' _ Hm'. by apply elem_of_nil in Hm'.
      * split; [done|]. split; [done|]. split; [apply Hrep|]. intros Hn. rewrite Hout; [by apply Hmap|].
        apply not_elem_of_map_rs.
    + by rewrite Er.
  - subst o. split; [|done]. intros Ht. by apply (commented_interrupted ls _ fs).
Qed.
End BuildProperties.

(** ** Concrete tools, for the witness

    The four patterns as matchers at a position, tried at every position; heck
    on names as the protocol has them; a prost that writes a file and a
    directory that lists it. *)

Module BuildConcrete.

Definition char_is (p : u8 → bool) (c : Ascii.ascii) : bool := p (byte_of_ascii c).
Definition word (b : u8) : bool :=
  in_range 48 57 b || in_range 65 90 b || (b =? 95) || in_range 97 122 b.

(** The characters of a class at the start, and what follows them. *)
Fixpoint span (p : u8 → bool) (s : string) : string * string :=
  match s with
  | "" => ("", "")
  | String c r =>
      if char_is p c then let '(a, b) := span p r in (String c a, b) else ("", s)
  end.
Definition plus (p : u8 → bool) (s : string) : option (string * string) :=
  match span p s with ("", _) => None | ab => Some ab end.

Definition match_at (re s : string) : option string :=
  if bool_decide (re = package_re) then
    r ← strip_prefix "package" s; '(_, r) ← plus white1 r;
    fst <$> plus (λ b, word b || (b =? 46)) r
  else if bool_decide (re = msg_re) then
    r ← strip_prefix "message" s; '(_, r) ← plus white1 r; fst <$> plus word r
  else if bool_decide (re = id_match_re) then
    r ← strip_prefix "enum" s; '(_, r) ← plus white1 r; r ← strip_prefix "MsgId" r;
    fst <$> plus white1 r
  else if bool_decide (re = id_re) then
    r ← strip_prefix "Id" s; '(_, r) ← plus white1 r; r ← strip_prefix "=" r;
    '(_, r) ← plus white1 r; '(ds, r) ← plus (in_range 48 57) r;
    (λ _, ds) <$> strip_prefix ";" r
  else None.

Fixpoint find_all (re s : string) : list (option string) :=
  match s with
  | "" => []
  | String _ r =>
      match match_at re s with Some cap => Some cap :: find_all re r | None => find_all re r end
  end.

Fixpoint snake (start : bool) (s : string) : string :=
  match s with
  | "" => ""
  | String c s =>
      let b := byte_of_ascii c in
      if in_range 65 90 b then
        (if start then "" else "_") +:+ String (ascii_of_byte (b + 32)) (snake true s)
      else String c (snake (b =? 95) s)
  end.
Fixpoint upper_camel (start : bool) (s : string) : string :=
  match s with
  | "" => ""
  | String c s =>
      let b := byte_of_ascii c in
      if b =? 95 then upper_camel true s
      else String (if start && in_range 97 122 b then ascii_of_byte (b - 32) else c)
             (upper_camel false s)
  end.

#[export] Instance tools : BuildTools := {|
  to_snake_case := snake true;
  to_upper_camel_case := upper_camel true;
  is_match re s := negb (bool_decide (find_all re s = []));
  captures_iter := find_all;
  compile_protos _ fs := Ok (<["src/pb.generic.rs" := "pub struct Success {}"]> fs);
  read_dir _ _ := Ok ["lib.rs"; "message_map.rs"; "pb"; "pb.generic.rs"];
  current_dir := Ok tt;
  io_error _ := None
|}.

Lemma find_all_blanks re w s :
  (re = id_match_re ∨ re = id_re) → blanks w → find_all re (of_bytes w +:+ s) = find_all re s.
Proof.
  intros Hre. induction w as [|b w IH]; intros Hw; [done|].
  apply andb_true_iff in Hw as [Hb Hw].
  change (of_bytes (b :: w) +:+ s) with (String (ascii_of_byte b) (of_bytes w +:+ s)).
  cbn [find_all]. rewrite (IH Hw).
  replace (match_at re _) with (@None string); [done|].
  assert (byte_of_ascii (ascii_of_byte b) = b) as Eb.
  { unfold blank in Hb. unfold byte_of_ascii, ascii_of_byte. rewrite Ascii.N_ascii_embedding by lia. lia. }
  assert (∀ c, byte_of_ascii c = 101 ∨ byte_of_ascii c = 73 → c ≠ ascii_of_byte b) as Hc.
  { intros c Hc ->. rewrite Eb in Hc. unfold blank, in_range in Hb. lia. }
  destruct Hre as [->| ->]; cbn [match_at].
  - change (match_at id_match_re (String (ascii_of_byte b) (of_bytes w +:+ s))) with
      (r ← strip_prefix "enum" (String (ascii_of_byte b) (of_bytes w +:+ s));
       '(_, r) ← plus white1 r; r ← strip_prefix "MsgId" r; fst <$> plus white1 r).
    cbn [strip_prefix]. by rewrite decide_False by (apply Hc; left; reflexivity).
  - change (match_at id_re (String (ascii_of_byte b) (of_bytes w +:+ s))) with
      (r ← strip_prefix "Id" (String (ascii_of_byte b) (of_bytes w +:+ s));
       '(_, r) ← plus white1 r; r ← strip_prefix "=" r;
       '(_, r) ← plus white1 r; '(ds, r) ← plus (in_range 48 57) r;
       (λ _, ds) <$> strip_prefix ";" r).
    cbn [strip_prefix]. by rewrite decide_False by (apply Hc; right; reflexivity).
Qed.

#[export] Instance laws : BuildLaws.
Proof.
  split.
  - reflexivity.
  - intros w s Hw. unfold is_match, tools. by rewrite find_all_blanks by auto.
  - reflexivity.
  - intros w s Hw. apply find_all_blanks; auto.
  - done.
  - intros files fs fs' p [= <-] Hp. apply lookup_insert_ne. by intros <-.
  - done.
Defined.

(** Two of the protocol's files have messages; the second was left annotated by
    an interrupted run, the first has the line ends of Windows. *)
Definition login_lines : list string :=
  ["package PB.Client_Server;"; "// login"; "message LoginReq {";
   "  enum MsgId {None = 0; Id = 1001;}"; "  string version = 1;"; "}"].
Definition ack_lines : list string :=
  ["package PB.ServerClient;"; "message LoginAck {"; "  enum MsgId {None = 0; Id = 1002;}"; "}"].
Definition files (f : string) : list string :=
  if bool_decide (f = "src/pb/Client_Server.proto") then login_lines
  else if bool_decide (f = "src/pb/Server_Client.proto") then ack_lines else [].
Definition left_behind : project :=
  <["src/pb/Client_Server.proto" := join (String CR nl) login_lines +:+ String CR nl]>
  (<["src/pb/Server_Client.proto" := join nl (annotate_line <$> ack_lines)]>
  (<["src/pb/ClassDef.proto" := ""]> (<["src/pb/Generic.proto" := ""]> ∅))).
Definition found : list MessageInfo :=
  [{| mi_name := "LoginReq"; mi_package := "PB.Client_Server"; mi_id := 1001 |};
   {| mi_name := "LoginAck"; mi_package := "PB.ServerClient"; mi_id := 1002 |}].
End BuildConcrete.

Section BuildWitness.
Import BuildConcrete.

Lemma files_readable : readable files proto_file_list.
Proof.
  intros f Hf. split; [reflexivity|]. unfold proto_file_list in Hf.
  rewrite !elem_of_cons, elem_of_nil in Hf.
  destruct Hf as [->|[->|[->|[->|[]]]]]; repeat constructor.
Qed.
Lemma left_behind_interrupted : interrupted files proto_file_list left_behind.
Proof.
  intros f Hf. unfold proto_file_list in Hf. rewrite !elem_of_cons, elem_of_nil in Hf.
  destruct Hf as [->|[->|[->|[->|[]]]]]; eexists; (split; [vm_compute; reflexivity|]);
    [left|right|left|left]; vm_compute; reflexivity.
Qed.
Lemma files_text f : f ∈ proto_file_list → text_lines (files f).
Proof.
  intros Hf. unfold text_lines, proto_file_list in *. rewrite !elem_of_cons, elem_of_nil in Hf.
  destruct Hf as [->|[->|[->|[->|[]]]]]; (split; [repeat constructor|by vm_compute]).
Qed.

Lemma generator_recovers_witness :
  messages_of files proto_file_list [] = Ok found ∧
  let '(o, fs') := main "debug" true left_behind in
  interrupted files proto_file_list fs' ∧
  match messages_of files proto_file_list [] with
  | Ok ms =>
      (∀ f, f ∈ proto_file_list → fs' !! f = Some (join nl (files f))) ∧
      match o with
      | Ok _ => NoDup (mi_id <$> ms) ∧
                (names_ok → fs' !! "src/message_map.rs" = Some (build_code ms))
      | Panic _ => ¬ NoDup (mi_id <$> ms)
      | Err e => fst (build proto_file_list "src" left_behind) = Err e
      | Pending => False
      end
  | Panic w => o = Panic w ∧ commented_out files proto_file_list left_behind fs'
  | _ => False
  end.
Proof.
  split; [vm_compute; reflexivity|].
  pose proof (generator_recovers files left_behind files_readable left_behind_interrupted eq_refl) as Hm.
  destruct (main "debug" true left_behind) as [o fs']. destruct Hm as [Hi Hm].
  split; [exact (Hi files_text)|exact Hm].
Defined.

(** There, the run ends well. *)
Example generator_recovers_run :
  fst (main "debug" true left_behind) = Ok tt ∧
  snd (main "debug" true left_behind) !! "src/message_map.rs" = Some (build_code found).
Proof. split; vm_compute; reflexivity. Qed.

(** What it loses: the line feed at the end of a file, and carriage returns. *)
Example restored_loses :
  restored (join nl ["package PB.Generic;"; ""]) = "package PB.Generic;" ∧
  restored (join (String CR nl) ["package PB.Generic;"; "}"]) = join nl ["package PB.Generic;"; "}"].
Proof. split; vm_compute; reflexivity. Qed.

(** An id that is no 32-bit number: the file before it stays commented out. *)
Definition bad_id : project :=
  <["src/pb/Server_Client.proto" :=
      join nl ["message LoginAck {"; "  enum MsgId {None = 0; Id = 4294967296;}"; "}"]]> left_behind.
Example panic_leaves_annotations :
  fst (main "debug" true bad_id) = Panic "message id not a number" ∧
  snd (main "debug" true bad_id) !! "src/pb/Client_Server.proto" =
    Some (join nl (annotate_line <$> login_lines)) ∧
  (annotate_line <$> login_lines) ≠ login_lines.
Proof. split; [vm_compute; reflexivity|]. split; [vm_compute; reflexivity|]. intros E. vm_compute in E. discriminate E. Qed.
End BuildWitness.
