(* ===== verification/Generated.v ===== *)
(** What the generator of [Build] makes of this repository: the protocol's
    .proto files ([np_proto/src/pb]), and [np_proto/src/message_map.rs], which
    is what it writes for them. *)

From S2P Require Import Prelude Std Messages Build.

(** ** The files *)

Definition client_server_proto : list string := [
  "syntax = " +:+ quote +:+ "proto3" +:+ quote +:+ ";";
  "";
  "package PB.Client_Server;";
  "";
  "// 登录请求";
  "message LoginReq {";
  "  enum MsgId {None = 0; Id = 1001;}";
  "  // 客户端版本号";
  "  string version = 1;";
  "  // 用户名";
  "  string username = 2;";
  "  // 密码";
  "  string password = 3;";
  "}";
  "";
  "// 注册请求";
  "// return Success | Error";
  "message RegisterReq {";
  "  enum MsgId {None = 0; Id = 1003;}";
  "  // 用户名";
  "  string username = 1;";
  "  // 密码";
  "  string password = 2;";
  "}";
  "";
  "// 管理员登录";
  "message ManagementLoginReq {";
  "  enum MsgId {None = 0; Id = 1005;}";
  "  // 用户名";
  "  string username = 1;";
  "  // 密码";
  "  string password = 2;";
  "}"
].

Definition server_client_proto : list string := [
  "syntax = " +:+ quote +:+ "proto3" +:+ quote +:+ ";";
  "";
  "import " +:+ quote +:+ "ClassDef.proto" +:+ quote +:+ ";";
  "";
  "package PB.ServerClient;";
  "";
  "// 登录回复";
  "message LoginAck {";
  "  enum MsgId {None = 0; Id = 1002;}";
  "  // 自己的玩家id";
  "  uint32 player_id = 1;";
  "  // 通道列表";
  "  repeated PB.ClassDef.Tunnel tunnel_list = 2;";
  "}";
  "";
  "// 管理员登录回复";
  "message ManagementLoginAck {";
  "  enum MsgId {None = 0; Id = 1006;}";
  "  // 错误码 0成功";
  "  int32 code = 1;";
  "}";
  "";
  "// 修改通道通知";
  "message ModifyTunnelNtf {";
  "  enum MsgId {None = 0; Id = 1008;}";
  "  // 是否是删除通道，如果不是则表示新增或更新通道信息";
  "  bool is_delete = 1;";
  "  // 通道信息";
  "  PB.ClassDef.Tunnel tunnel = 2;";
  "}"
].

Definition class_def_proto : list string := [
  "syntax = " +:+ quote +:+ "proto3" +:+ quote +:+ ";";
  "";
  "package PB.ClassDef;";
  "";
  "// 通道端点";
  "message TunnelPoint {";
  "    // 地址";
  "    string addr = 1;";
  "}";
  "";
  "// 通道类型";
  "enum TunnelType {";
  "    TCP = 0;";
  "    UDP = 1;";
  "    SOCKS5 = 2;";
  "    UNKNOWN = 3;";
  "}";
  "";
  "// 通道";
  "message Tunnel {";
  "    // 起点（入口）";
  "    TunnelPoint source = 1;";
  "    // 终点（出口）";
  "    TunnelPoint endpoint = 2;";
  "    // 通道id";
  "    uint32 id = 3;";
  "    // 是否启用";
  "    bool enabled = 4;";
  "    // 发送方id";
  "    uint32 sender = 5;";
  "    // 接收方id";
  "    uint32 receiver = 6;";
  "    // 通道类型";
  "    TunnelType tunnel_type = 7;";
  "    // 密码";
  "    string password = 8;";
  "    // 用户名";
  "    string username = 9;";
  "    // 是否压缩数据";
  "    bool is_compressed = 10;";
  "    // 加密算法";
  "    string encryption_method = 11;";
  "    // 自定义域名映射关系";
  "    map<string, string> custom_mapping = 12;";
  "}"
].

Definition generic_proto : list string := [
  "syntax = " +:+ quote +:+ "proto3" +:+ quote +:+ ";";
  "package PB.Generic;";
  "";
  "//通用成功";
  "message Success{";
  "  enum MsgId { None=0; Id = 150001; }";
  "}";
  "";
  "//通用返回失败";
  "message Fail{";
  "  enum MsgId {  None=0;Id = 150002; }";
  "  int32 number=1;";
  "  string message=2;";
  "}";
  "";
  "//通用错误返回";
  "message Error{";
  "  enum MsgId {  None=0;Id = 150003; }";
  "  int32 number=1;";
  "  string message=2;";
  "}";
  "";
  "//通用错误码";
  "enum ErrorCode {";
  "	None = 0;";
  "	// 服务器内部错误";
  "	InternalError = -1000;";
  "	// 请求协议Id不存在";
  "	InterfaceAbsent = -1001;";
  "	// 玩家未登录";
  "	PlayerNotLogin = -1002;";
  "}";
  "";
  "";
  "// ping";
  "message Ping {";
  "  enum MsgId {None = 0; Id = 150004;}";
  "  int64 ticks = 1;";
  "}";
  "";
  "// pong";
  "message Pong {";
  "  enum MsgId {None = 0; Id = 150005;}";
  "  int64 ticks = 1;";
  "}";
  "";
  "// 向输出端请求发起连接";
  "message I2oConnect {";
  "  enum MsgId {None = 0; Id = 150006;}";
  "  // 通道id";
  "  uint32 tunnel_id = 1;";
  "  // 会话id";
  "  uint32 session_id = 2;";
  "  // 通道类型";
  "  uint32  tunnel_type = 3;";
  "  // 是否是TCP";
  "  bool is_tcp = 4;";
  "  // 是否压缩数据";
  "  bool is_compressed = 5;";
  "  // 目标地址";
  "  string addr = 6;";
  "  // 加密方式";
  "  string encryption_method = 7;";
  "  // 加密key";
  "  string encryption_key = 8;";
  "  // 客户端地址";
  "  string client_addr = 9;";
  "}";
  "";
  "// 连接结果";
  "message O2iConnect {";
  "  enum MsgId {None = 0; Id = 150007;}";
  "  // 通道id";
  "  uint32 tunnel_id = 1;";
  "  // 会话id";
  "  uint32 session_id = 2;";
  "  // 是否是成功";
  "  bool success = 3;";
  "  // 错误信息";
  "  string error_info = 4;";
  "}";
  "";
  "// 输出端收到数据返回给输入端";
  "message I2oSendData {";
  "  enum MsgId {None = 0; Id = 150008;}";
  "  // 通道id";
  "  uint32 tunnel_id = 1;";
  "  // 会话id";
  "  uint32 session_id = 2;";
  "  // 数据";
  "  bytes data = 3;";
  "}";
  "";
  "// 输出端收到数据返回给输入端";
  "message O2iRecvData {";
  "  enum MsgId {None = 0; Id = 150009;}";
  "  // 通道id";
  "  uint32 tunnel_id = 1;";
  "  // 会话id";
  "  uint32 session_id = 2;";
  "  // 数据";
  "  bytes data = 3;";
  "}";
  "";
  "// 断开连接";
  "message I2oDisconnect {";
  "  enum MsgId {None = 0; Id = 150010;}";
  "  // 通道id";
  "  uint32 tunnel_id = 1;";
  "  // 会话id";
  "  uint32 session_id = 2;";
  "}";
  "";
  "// 断开连接";
  "message O2iDisconnect {";
  "  enum MsgId {None = 0; Id = 150011;}";
  "  // 通道id";
  "  uint32 tunnel_id = 1;";
  "  // 会话id";
  "  uint32 session_id = 2;";
  "}";
  "";
  "// 发送结果";
  "message O2iSendDataResult {";
  "  enum MsgId {None = 0; Id = 150012;}";
  "  // 通道id";
  "  uint32 tunnel_id = 1;";
  "  // 会话id";
  "  uint32 session_id = 2;";
  "  // 完成长度";
  "  uint32 data_len = 3;";
  "}";
  "";
  "// 接收数据处理结果";
  "message I2oRecvDataResult {";
  "  enum MsgId {None = 0; Id = 150013;}";
  "  // 通道id";
  "  uint32 tunnel_id = 1;";
  "  // 会话id";
  "  uint32 session_id = 2;";
  "  // 完成长度";
  "  uint32 data_len = 3;";
  "}";
  "";
  "";
  "// 输出端收到数据返回给输入端";
  "message I2oSendToData {";
  "  enum MsgId {None = 0; Id = 150014;}";
  "  // 通道id";
  "  uint32 tunnel_id = 1;";
  "  // 会话id";
  "  uint32 session_id = 2;";
  "  // 数据";
  "  bytes data = 3;";
  "  // 目标地址";
  "  string target_addr = 4;";
  "}";
  "";
  "// 输出端收到数据返回给输入端";
  "message O2iRecvDataFrom {";
  "  enum MsgId {None = 0; Id = 150015;}";
  "  // 通道id";
  "  uint32 tunnel_id = 1;";
  "  // 会话id";
  "  uint32 session_id = 2;";
  "  // 数据";
  "  bytes data = 3;";
  "  // 远程地址";
  "  string remote_addr = 4;";
  "}"
].

(** [message_map.rs], which ends in a line feed. *)
Definition message_map_rs : list string := [
  "use bytes::BufMut;";
  "use prost::{DecodeError, Message};";
  "";
  "#[derive(Clone)]";
  "pub enum MessageType {";
  "    None,";
  "    ClientServerLoginReq(super::client_server::LoginReq),";
  "    ClientServerRegisterReq(super::client_server::RegisterReq),";
  "    ClientServerManagementLoginReq(super::client_server::ManagementLoginReq),";
  "    ServerClientLoginAck(super::server_client::LoginAck),";
  "    ServerClientManagementLoginAck(super::server_client::ManagementLoginAck),";
  "    ServerClientModifyTunnelNtf(super::server_client::ModifyTunnelNtf),";
  "    GenericSuccess(super::generic::Success),";
  "    GenericFail(super::generic::Fail),";
  "    GenericError(super::generic::Error),";
  "    GenericPing(super::generic::Ping),";
  "    GenericPong(super::generic::Pong),";
  "    GenericI2oConnect(super::generic::I2oConnect),";
  "    GenericO2iConnect(super::generic::O2iConnect),";
  "    GenericI2oSendData(super::generic::I2oSendData),";
  "    GenericO2iRecvData(super::generic::O2iRecvData),";
  "    GenericI2oDisconnect(super::generic::I2oDisconnect),";
  "    GenericO2iDisconnect(super::generic::O2iDisconnect),";
  "    GenericO2iSendDataResult(super::generic::O2iSendDataResult),";
  "    GenericI2oRecvDataResult(super::generic::I2oRecvDataResult),";
  "    GenericI2oSendToData(super::generic::I2oSendToData),";
  "    GenericO2iRecvDataFrom(super::generic::O2iRecvDataFrom),";
  "}";
  "";
  "impl MessageType {";
  "    pub fn is_none(&self) -> bool {";
  "        match self {";
  "            MessageType::None => true,";
  "            _ => false,";
  "        }";
  "    }";
  "}";
  "";
  "pub fn get_message_id(message: &MessageType) -> Option<u32> {";
  "    match message {";
  "        MessageType::ClientServerLoginReq(_) => Some(1001u32),";
  "        MessageType::ClientServerRegisterReq(_) => Some(1003u32),";
  "        MessageType::ClientServerManagementLoginReq(_) => Some(1005u32),";
  "        MessageType::ServerClientLoginAck(_) => Some(1002u32),";
  "        MessageType::ServerClientManagementLoginAck(_) => Some(1006u32),";
  "        MessageType::ServerClientModifyTunnelNtf(_) => Some(1008u32),";
  "        MessageType::GenericSuccess(_) => Some(150001u32),";
  "        MessageType::GenericFail(_) => Some(150002u32),";
  "        MessageType::GenericError(_) => Some(150003u32),";
  "        MessageType::GenericPing(_) => Some(150004u32),";
  "        MessageType::GenericPong(_) => Some(150005u32),";
  "        MessageType::GenericI2oConnect(_) => Some(150006u32),";
  "        MessageType::GenericO2iConnect(_) => Some(150007u32),";
  "        MessageType::GenericI2oSendData(_) => Some(150008u32),";
  "        MessageType::GenericO2iRecvData(_) => Some(150009u32),";
  "        MessageType::GenericI2oDisconnect(_) => Some(150010u32),";
  "        MessageType::GenericO2iDisconnect(_) => Some(150011u32),";
  "        MessageType::GenericO2iSendDataResult(_) => Some(150012u32),";
  "        MessageType::GenericI2oRecvDataResult(_) => Some(150013u32),";
  "        MessageType::GenericI2oSendToData(_) => Some(150014u32),";
  "        MessageType::GenericO2iRecvDataFrom(_) => Some(150015u32),";
  "        _ => None,";
  "    }";
  "}";
  "";
  "pub fn decode_message(message_id: u32, bytes: &[u8]) -> Result<MessageType, DecodeError> {";
  "    match message_id {";
  "        1001u32 => match super::client_server::LoginReq::decode(bytes) {";
  "            Ok(message) => Ok(MessageType::ClientServerLoginReq(message)),";
  "            Err(err) => Err(err),";
  "        },";
  "        1003u32 => match super::client_server::RegisterReq::decode(bytes) {";
  "            Ok(message) => Ok(MessageType::ClientServerRegisterReq(message)),";
  "            Err(err) => Err(err),";
  "        },";
  "        1005u32 => match super::client_server::ManagementLoginReq::decode(bytes) {";
  "            Ok(message) => Ok(MessageType::ClientServerManagementLoginReq(message)),";
  "            Err(err) => Err(err),";
  "        },";
  "        1002u32 => match super::server_client::LoginAck::decode(bytes) {";
  "            Ok(message) => Ok(MessageType::ServerClientLoginAck(message)),";
  "            Err(err) => Err(err),";
  "        },";
  "        1006u32 => match super::server_client::ManagementLoginAck::decode(bytes) {";
  "            Ok(message) => Ok(MessageType::ServerClientManagementLoginAck(message)),";
  "            Err(err) => Err(err),";
  "        },";
  "        1008u32 => match super::server_client::ModifyTunnelNtf::decode(bytes) {";
  "            Ok(message) => Ok(MessageType::ServerClientModifyTunnelNtf(message)),";
  "            Err(err) => Err(err),";
  "        },";
  "        150001u32 => match super::generic::Success::decode(bytes) {";
  "            Ok(message) => Ok(MessageType::GenericSuccess(message)),";
  "            Err(err) => Err(err),";
  "        },";
  "        150002u32 => match super::generic::Fail::decode(bytes) {";
  "            Ok(message) => Ok(MessageType::GenericFail(message)),";
  "            Err(err) => Err(err),";
  "        },";
  "        150003u32 => match super::generic::Error::decode(bytes) {";
  "            Ok(message) => Ok(MessageType::GenericError(message)),";
  "            Err(err) => Err(err),";
  "        },";
  "        150004u32 => match super::generic::Ping::decode(bytes) {";
  "            Ok(message) => Ok(MessageType::GenericPing(message)),";
  "            Err(err) => Err(err),";
  "        },";
  "        150005u32 => match super::generic::Pong::decode(bytes) {";
  "            Ok(message) => Ok(MessageType::GenericPong(message)),";
  "            Err(err) => Err(err),";
  "        },";
  "        150006u32 => match super::generic::I2oConnect::decode(bytes) {";
  "            Ok(message) => Ok(MessageType::GenericI2oConnect(message)),";
  "            Err(err) => Err(err),";
  "        },";
  "        150007u32 => match super::generic::O2iConnect::decode(bytes) {";
  "            Ok(message) => Ok(MessageType::GenericO2iConnect(message)),";
  "            Err(err) => Err(err),";
  "        },";
  "        150008u32 => match super::generic::I2oSendData::decode(bytes) {";
  "            Ok(message) => Ok(MessageType::GenericI2oSendData(message)),";
  "            Err(err) => Err(err),";
  "        },";
  "        150009u32 => match super::generic::O2iRecvData::decode(bytes) {";
  "            Ok(message) => Ok(MessageType::GenericO2iRecvData(message)),";
  "            Err(err) => Err(err),";
  "        },";
  "        150010u32 => match super::generic::I2oDisconnect::decode(bytes) {";
  "            Ok(message) => Ok(MessageType::GenericI2oDisconnect(message)),";
  "            Err(err) => Err(err),";
  "        },";
  "        150011u32 => match super::generic::O2iDisconnect::decode(bytes) {";
  "            Ok(message) => Ok(MessageType::GenericO2iDisconnect(message)),";
  "            Err(err) => Err(err),";
  "        },";
  "        150012u32 => match super::generic::O2iSendDataResult::decode(bytes) {";
  "            Ok(message) => Ok(MessageType::GenericO2iSendDataResult(message)),";
  "            Err(err) => Err(err),";
  "        },";
  "        150013u32 => match super::generic::I2oRecvDataResult::decode(bytes) {";
  "            Ok(message) => Ok(MessageType::GenericI2oRecvDataResult(message)),";
  "            Err(err) => Err(err),";
  "        },";
  "        150014u32 => match super::generic::I2oSendToData::decode(bytes) {";
  "            Ok(message) => Ok(MessageType::GenericI2oSendToData(message)),";
  "            Err(err) => Err(err),";
  "        },";
  "        150015u32 => match super::generic::O2iRecvDataFrom::decode(bytes) {";
  "            Ok(message) => Ok(MessageType::GenericO2iRecvDataFrom(message)),";
  "            Err(err) => Err(err),";
  "        },";
  "        _ => Err(DecodeError::new(" +:+ quote +:+ "unknown message id" +:+ quote +:+ ")),";
  "    }";
  "}";
  "";
  "pub fn encode_message(message: &MessageType) -> Option<(u32, Vec<u8>)> {";
  "    match message {";
  "        MessageType::ClientServerLoginReq(msg) => Some((1001u32, msg.encode_to_vec())),";
  "        MessageType::ClientServerRegisterReq(msg) => Some((1003u32, msg.encode_to_vec())),";
  "        MessageType::ClientServerManagementLoginReq(msg) => Some((1005u32, msg.encode_to_vec())),";
  "        MessageType::ServerClientLoginAck(msg) => Some((1002u32, msg.encode_to_vec())),";
  "        MessageType::ServerClientManagementLoginAck(msg) => Some((1006u32, msg.encode_to_vec())),";
  "        MessageType::ServerClientModifyTunnelNtf(msg) => Some((1008u32, msg.encode_to_vec())),";
  "        MessageType::GenericSuccess(msg) => Some((150001u32, msg.encode_to_vec())),";
  "        MessageType::GenericFail(msg) => Some((150002u32, msg.encode_to_vec())),";
  "        MessageType::GenericError(msg) => Some((150003u32, msg.encode_to_vec())),";
  "        MessageType::GenericPing(msg) => Some((150004u32, msg.encode_to_vec())),";
  "        MessageType::GenericPong(msg) => Some((150005u32, msg.encode_to_vec())),";
  "        MessageType::GenericI2oConnect(msg) => Some((150006u32, msg.encode_to_vec())),";
  "        MessageType::GenericO2iConnect(msg) => Some((150007u32, msg.encode_to_vec())),";
  "        MessageType::GenericI2oSendData(msg) => Some((150008u32, msg.encode_to_vec())),";
  "        MessageType::GenericO2iRecvData(msg) => Some((150009u32, msg.encode_to_vec())),";
  "        MessageType::GenericI2oDisconnect(msg) => Some((150010u32, msg.encode_to_vec())),";
  "        MessageType::GenericO2iDisconnect(msg) => Some((150011u32, msg.encode_to_vec())),";
  "        MessageType::GenericO2iSendDataResult(msg) => Some((150012u32, msg.encode_to_vec())),";
  "        MessageType::GenericI2oRecvDataResult(msg) => Some((150013u32, msg.encode_to_vec())),";
  "        MessageType::GenericI2oSendToData(msg) => Some((150014u32, msg.encode_to_vec())),";
  "        MessageType::GenericO2iRecvDataFrom(msg) => Some((150015u32, msg.encode_to_vec())),";
  "        _ => None,";
  "    }";
  "}";
  "";
  "pub fn get_message_size(message: &MessageType) -> usize {";
  "    match message {";
  "        MessageType::ClientServerLoginReq(msg) => msg.encoded_len(),";
  "        MessageType::ClientServerRegisterReq(msg) => msg.encoded_len(),";
  "        MessageType::ClientServerManagementLoginReq(msg) => msg.encoded_len(),";
  "        MessageType::ServerClientLoginAck(msg) => msg.encoded_len(),";
  "        MessageType::ServerClientManagementLoginAck(msg) => msg.encoded_len(),";
  "        MessageType::ServerClientModifyTunnelNtf(msg) => msg.encoded_len(),";
  "        MessageType::GenericSuccess(msg) => msg.encoded_len(),";
  "        MessageType::GenericFail(msg) => msg.encoded_len(),";
  "        MessageType::GenericError(msg) => msg.encoded_len(),";
  "        MessageType::GenericPing(msg) => msg.encoded_len(),";
  "        MessageType::GenericPong(msg) => msg.encoded_len(),";
  "        MessageType::GenericI2oConnect(msg) => msg.encoded_len(),";
  "        MessageType::GenericO2iConnect(msg) => msg.encoded_len(),";
  "        MessageType::GenericI2oSendData(msg) => msg.encoded_len(),";
  "        MessageType::GenericO2iRecvData(msg) => msg.encoded_len(),";
  "        MessageType::GenericI2oDisconnect(msg) => msg.encoded_len(),";
  "        MessageType::GenericO2iDisconnect(msg) => msg.encoded_len(),";
  "        MessageType::GenericO2iSendDataResult(msg) => msg.encoded_len(),";
  "        MessageType::GenericI2oRecvDataResult(msg) => msg.encoded_len(),";
  "        MessageType::GenericI2oSendToData(msg) => msg.encoded_len(),";
  "        MessageType::GenericO2iRecvDataFrom(msg) => msg.encoded_len(),";
  "        _ => 0,";
  "    }";
  "}";
  "";
  "pub fn encode_raw_message(message: &MessageType, buf: &mut impl BufMut) {";
  "    match message {";
  "        MessageType::ClientServerLoginReq(msg) => msg.encode_raw(buf),";
  "        MessageType::ClientServerRegisterReq(msg) => msg.encode_raw(buf),";
  "        MessageType::ClientServerManagementLoginReq(msg) => msg.encode_raw(buf),";
  "        MessageType::ServerClientLoginAck(msg) => msg.encode_raw(buf),";
  "        MessageType::ServerClientManagementLoginAck(msg) => msg.encode_raw(buf),";
  "        MessageType::ServerClientModifyTunnelNtf(msg) => msg.encode_raw(buf),";
  "        MessageType::GenericSuccess(msg) => msg.encode_raw(buf),";
  "        MessageType::GenericFail(msg) => msg.encode_raw(buf),";
  "        MessageType::GenericError(msg) => msg.encode_raw(buf),";
  "        MessageType::GenericPing(msg) => msg.encode_raw(buf),";
  "        MessageType::GenericPong(msg) => msg.encode_raw(buf),";
  "        MessageType::GenericI2oConnect(msg) => msg.encode_raw(buf),";
  "        MessageType::GenericO2iConnect(msg) => msg.encode_raw(buf),";
  "        MessageType::GenericI2oSendData(msg) => msg.encode_raw(buf),";
  "        MessageType::GenericO2iRecvData(msg) => msg.encode_raw(buf),";
  "        MessageType::GenericI2oDisconnect(msg) => msg.encode_raw(buf),";
  "        MessageType::GenericO2iDisconnect(msg) => msg.encode_raw(buf),";
  "        MessageType::GenericO2iSendDataResult(msg) => msg.encode_raw(buf),";
  "        MessageType::GenericI2oRecvDataResult(msg) => msg.encode_raw(buf),";
  "        MessageType::GenericI2oSendToData(msg) => msg.encode_raw(buf),";
  "        MessageType::GenericO2iRecvDataFrom(msg) => msg.encode_raw(buf),";
  "        _ => {}";
  "    }";
  "}";
  "";
  "#[cfg(feature = " +:+ quote +:+ "serde-serialize" +:+ quote +:+ ")]";
  "pub fn serialize_to_json(message: &MessageType) -> serde_json::Result<String> {";
  "    match message {";
  "        MessageType::ClientServerLoginReq(msg) => serde_json::to_string(&msg),";
  "        MessageType::ClientServerRegisterReq(msg) => serde_json::to_string(&msg),";
  "        MessageType::ClientServerManagementLoginReq(msg) => serde_json::to_string(&msg),";
  "        MessageType::ServerClientLoginAck(msg) => serde_json::to_string(&msg),";
  "        MessageType::ServerClientManagementLoginAck(msg) => serde_json::to_string(&msg),";
  "        MessageType::ServerClientModifyTunnelNtf(msg) => serde_json::to_string(&msg),";
  "        MessageType::GenericSuccess(msg) => serde_json::to_string(&msg),";
  "        MessageType::GenericFail(msg) => serde_json::to_string(&msg),";
  "        MessageType::GenericError(msg) => serde_json::to_string(&msg),";
  "        MessageType::GenericPing(msg) => serde_json::to_string(&msg),";
  "        MessageType::GenericPong(msg) => serde_json::to_string(&msg),";
  "        MessageType::GenericI2oConnect(msg) => serde_json::to_string(&msg),";
  "        MessageType::GenericO2iConnect(msg) => serde_json::to_string(&msg),";
  "        MessageType::GenericI2oSendData(msg) => serde_json::to_string(&msg),";
  "        MessageType::GenericO2iRecvData(msg) => serde_json::to_string(&msg),";
  "        MessageType::GenericI2oDisconnect(msg) => serde_json::to_string(&msg),";
  "        MessageType::GenericO2iDisconnect(msg) => serde_json::to_string(&msg),";
  "        MessageType::GenericO2iSendDataResult(msg) => serde_json::to_string(&msg),";
  "        MessageType::GenericI2oRecvDataResult(msg) => serde_json::to_string(&msg),";
  "        MessageType::GenericI2oSendToData(msg) => serde_json::to_string(&msg),";
  "        MessageType::GenericO2iRecvDataFrom(msg) => serde_json::to_string(&msg),";
  "        _ => Ok(" +:+ quote +:+ "null" +:+ quote +:+ ".into()),";
  "    }";
  "}";
  ""
].

(** The messages, by the files' order. *)
Definition message (package name : string) (id : u32) : MessageInfo :=
  {| mi_name := name; mi_package := package; mi_id := id |}.
Definition protocol_messages : list MessageInfo := [
  message "PB.Client_Server" "LoginReq" 1001;
  message "PB.Client_Server" "RegisterReq" 1003;
  message "PB.Client_Server" "ManagementLoginReq" 1005;
  message "PB.ServerClient" "LoginAck" 1002;
  message "PB.ServerClient" "ManagementLoginAck" 1006;
  message "PB.ServerClient" "ModifyTunnelNtf" 1008;
  message "PB.Generic" "Success" 150001;
  message "PB.Generic" "Fail" 150002;
  message "PB.Generic" "Error" 150003;
  message "PB.Generic" "Ping" 150004;
  message "PB.Generic" "Pong" 150005;
  message "PB.Generic" "I2oConnect" 150006;
  message "PB.Generic" "O2iConnect" 150007;
  message "PB.Generic" "I2oSendData" 150008;
  message "PB.Generic" "O2iRecvData" 150009;
  message "PB.Generic" "I2oDisconnect" 150010;
  message "PB.Generic" "O2iDisconnect" 150011;
  message "PB.Generic" "O2iSendDataResult" 150012;
  message "PB.Generic" "I2oRecvDataResult" 150013;
  message "PB.Generic" "I2oSendToData" 150014;
  message "PB.Generic" "O2iRecvDataFrom" 150015
].

(** The lines of the file at a path. *)
Definition protocol_lines (f : string) : list string :=
  if bool_decide (f = "src/pb/Client_Server.proto") then client_server_proto
  else if bool_decide (f = "src/pb/Server_Client.proto") then server_client_proto
  else if bool_decide (f = "src/pb/ClassDef.proto") then class_def_proto
  else if bool_decide (f = "src/pb/Generic.proto") then generic_proto
  else [].

(** ** What is asked of the libraries

    The scan asks each pattern only about lines of one kind. There the patterns
    find what the matchers of [BuildConcrete] find, and heck turns the packages
    into [client_server], [server_client] and [generic] and leaves the names of
    the messages as they are. *)
Definition may_declare_id (line : string) : bool :=
  starts_with ANNOTATION_PREFIX line || starts_with "enum" line.
Definition asks (re line : string) : Prop :=
  (re = package_re ∧ starts_with "package" line = true) ∨
  (re = msg_re ∧ starts_with "message " line = true) ∨
  (re = id_re ∧ may_declare_id line = true).

Class ReadsProtocol `{BuildTools} := {
  reads_captures f l re :
    f ∈ proto_file_list → l ∈ protocol_lines f → asks re (trim l) →
    captures_iter re (trim l) = BuildConcrete.find_all re (trim l);
  reads_match f l :
    f ∈ proto_file_list → l ∈ protocol_lines f → may_declare_id (trim l) = true →
    is_match id_match_re (trim l) =
      negb (bool_decide (BuildConcrete.find_all id_match_re (trim l) = []));
  snake_packages :
    to_snake_case <$> ["Client_Server"; "ServerClient"; "Generic"]
    = ["client_server"; "server_client"; "generic"];
  camel_packages :
    to_upper_camel_case <$> ["client_server"; "server_client"; "generic"]
    = ["ClientServer"; "ServerClient"; "Generic"];
  camel_messages :
    to_upper_camel_case <$> (mi_name <$> protocol_messages) = mi_name <$> protocol_messages
}.

(** ** Facts *)

(** The scan asks the patterns only about these lines. *)
Definition tools_agree (T1 T2 : BuildTools) (line : string) : Prop :=
  (∀ re, asks re line →
     captures_iter (BuildTools := T1) re line = captures_iter (BuildTools := T2) re line) ∧
  (may_declare_id line = true →
     is_match (BuildTools := T1) id_match_re line = is_match (BuildTools := T2) id_match_re line).

Lemma scan_line_ext (T1 T2 : BuildTools) s raw :
  tools_agree T1 T2 (trim raw) → scan_line (H := T1) s raw = scan_line (H := T2) s raw.
Proof.
  intros [Hc Hm]. unfold scan_line, last_capture, declares_id.
  fold (may_declare_id (trim raw)).
  destruct (starts_with "package" (trim raw)) eqn:E1; [by rewrite Hc by (left; auto)|].
  destruct (starts_with "message " (trim raw)) eqn:E2; [by rewrite Hc by (right; left; auto)|].
  destruct (may_declare_id (trim raw)) eqn:E3; [|done]. cbn [andb].
  by rewrite (Hm eq_refl), Hc by (right; right; auto).
Qed.
Lemma scan_lines_ext (T1 T2 : BuildTools) raws s :
  (∀ l, l ∈ raws → tools_agree T1 T2 (trim l)) →
  scan_lines (H := T1) s raws = scan_lines (H := T2) s raws.
Proof.
  revert s. induction raws as [|raw raws IH]; intros s Ht; [done|]. cbn [scan_lines].
  rewrite (scan_line_ext T1 T2) by (apply Ht; left).
  destruct (scan_line s raw); try done. cbn. apply IH; intros l Hl. apply Ht. by right.
Qed.
Lemma messages_of_ext (T1 T2 : BuildTools) ls files ms :
  (∀ f l, f ∈ files → l ∈ ls f → tools_agree T1 T2 (trim l)) →
  messages_of (H := T1) ls files ms = messages_of (H := T2) ls files ms.
Proof.
  revert ms. induction files as [|f files IH]; intros ms Ht; [done|]. cbn [messages_of].
  rewrite (scan_lines_ext T1 T2) by (intros l Hl; apply (Ht f); [left|done]).
  destruct (scan_lines _ _); try done. cbn. apply IH. intros g l Hg. apply Ht. by right.
Qed.

Lemma protocol_scanned :
  messages_of (H := BuildConcrete.tools) protocol_lines proto_file_list [] = Ok protocol_messages.
Proof. vm_compute. reflexivity. Qed.

(** The code depends on the names only. *)
Lemma build_code_with_ext t1 t2 f1 f2 ms :
  (∀ i, i ∈ ms → t1 i = t2 i ∧ f1 i = f2 i) →
  build_code_with t1 f1 ms = build_code_with t2 f2 ms.
Proof.
  intros Hi. unfold build_code_with.
  assert (∀ g1 g2 : MessageInfo → string, (∀ i, t1 i = t2 i → f1 i = f2 i → g1 i = g2 i) →
    g1 <$> ms = g2 <$> ms) as Hext.
  { intros g1 g2 Hg. apply list_fmap_ext. intros k i Hk. apply list_elem_of_lookup_2 in Hk.
    by apply Hg; apply Hi. }
  rewrite (Hext (code_message t1 f1) (code_message t2 f2)),
    (Hext (code_get_message_id t1) (code_get_message_id t2)),
    (Hext (code_decode_message t1 f1) (code_decode_message t2 f2)),
    (Hext (code_encode_message t1) (code_encode_message t2)),
    (Hext (code_get_message_size t1) (code_get_message_size t2)),
    (Hext (code_encode_raw_message t1) (code_encode_raw_message t2)),
    (Hext (code_serialize_to_json t1) (code_serialize_to_json t2)); [done|..];
    intros i Ht Hf; unfold code_message, code_get_message_id, code_decode_message,
      code_encode_message, code_get_message_size, code_encode_raw_message, code_serialize_to_json;
    by rewrite ?Ht, ?Hf.
Qed.

Lemma protocol_code :
  build_code (H := BuildConcrete.tools) protocol_messages = join nl message_map_rs.
Proof. vm_compute. reflexivity. Qed.

Section GeneratedFacts.
Context `{ReadsProtocol}.

(** The package of a message, in the names. *)
Lemma protocol_package i :
  i ∈ protocol_messages →
  format_package_name i = format_package_name (H := BuildConcrete.tools) i ∧
  to_upper_camel (format_package_name i)
  = to_upper_camel (H := BuildConcrete.tools) (format_package_name i).
Proof.
  intros Hi. pose proof snake_packages as Hs. pose proof camel_packages as Hp.
  cbn in Hs, Hp. injection Hs as Hs1 Hs2 Hs3. injection Hp as Hp1 Hp2 Hp3.
  assert (∃ p, (p = "Client_Server" ∨ p = "ServerClient" ∨ p = "Generic") ∧
    replace "PB." "" (mi_package i) = p) as (p & Hpk & Er).
  { clear -Hi. unfold protocol_messages in Hi. rewrite !elem_of_cons, elem_of_nil in Hi.
    repeat (destruct Hi as [->|Hi]; [eexists; split; [|vm_compute; reflexivity]; auto|]). done. }
  unfold format_package_name. rewrite Er. unfold to_snake.
  destruct Hpk as [->|[->| ->]]; rewrite ?Hs1, ?Hs2, ?Hs3; (split; [vm_compute; reflexivity|]);
    unfold to_upper_camel;
    repeat match goal with |- context [bool_decide (?x ∈ ?l)] =>
      replace (bool_decide (x ∈ l)) with false by (vm_compute; reflexivity) end;
    cbv iota beta zeta; rewrite ?Hp1, ?Hp2, ?Hp3; vm_compute; reflexivity.
Qed.
Lemma protocol_name i :
  i ∈ protocol_messages →
  to_upper_camel (mi_name i) = to_upper_camel (H := BuildConcrete.tools) (mi_name i).
Proof.
  intros Hi. unfold to_upper_camel. pose proof camel_messages as Hm.
  assert (to_upper_camel_case (BuildTools := BuildConcrete.tools) <$> (mi_name <$> protocol_messages)
    = mi_name <$> protocol_messages) as Hm' by (vm_compute; reflexivity).
  rewrite <- Hm' in Hm at 2. apply list_elem_of_lookup in Hi as [k Hk].
  apply (f_equal (λ l, l !! k)) in Hm. rewrite !list_lookup_fmap, Hk in Hm. by injection Hm as ->.
Qed.
Lemma protocol_names i :
  i ∈ protocol_messages →
  format_message_type_name i = format_message_type_name (H := BuildConcrete.tools) i ∧
  format_message_full_type i = format_message_full_type (H := BuildConcrete.tools) i.
Proof.
  intros Hi. destruct (protocol_package i Hi) as [Hp Hc].
  unfold format_message_type_name, format_message_full_type. by rewrite Hc, Hp, protocol_name.
Qed.
End GeneratedFacts.

(** ** Properties *)

(** The generated code in the repository is up to date. From the lines of
    the four .proto files, the generator finds exactly the messages listed,
    with ids that are all different, and the text it writes for them is
    [message_map.rs] as it stands; and these ids are the ones that
    [get_message_id] of that text gives to every message: the hand-written
    [get_message_id] of [Messages] is that of the repository's files. *)
Theorem message_map_up_to_date `{ReadsProtocol} :
  messages_of protocol_lines proto_file_list [] = Ok protocol_messages ∧
  NoDup (mi_id <$> protocol_messages) ∧
  build_code protocol_messages = join nl message_map_rs ∧
  ∀ m : MessageType, message_is_none m = false →
    ∃ i, i ∈ protocol_messages ∧ get_message_id m = Some (mi_id i).
Proof.
  split; [|split; [|split]].
  - rewrite (messages_of_ext _ BuildConcrete.tools); [apply protocol_scanned|].
    intros f l Hf Hl. split; [intros re; by eapply reads_captures|by eapply reads_match].
  - apply (bool_decide_unpack _). vm_compute. exact I.
  - rewrite <- protocol_code. unfold build_code. apply build_code_with_ext. exact protocol_names.
  - intros m Hm. assert (∃ n, get_message_id m = Some n ∧ n ∈ (mi_id <$> protocol_messages))
      as (n & Hn & (i & -> & Hi)%list_elem_of_fmap); [|by exists i].
    destruct m; try done; (eexists; split; [reflexivity|]);
      apply (bool_decide_unpack _); vm_compute; exact I.
Qed.

#[export] Instance concrete_reads : ReadsProtocol (H := BuildConcrete.tools).
Proof. split; try (vm_compute; reflexivity); done. Defined.

Lemma message_map_up_to_date_witness :
  messages_of (H := BuildConcrete.tools) protocol_lines proto_file_list [] = Ok protocol_messages ∧
  NoDup (mi_id <$> protocol_messages) ∧
  build_code (H := BuildConcrete.tools) protocol_messages = join nl message_map_rs ∧
  ∀ m : MessageType, message_is_none m = false →
    ∃ i, i ∈ protocol_messages ∧ get_message_id m = Some (mi_id i).
Proof. apply (message_map_up_to_date (H := BuildConcrete.tools)). Defined.
