(* ===== verification/Server.v ===== *)
(** [np_server/src]: what the server's tasks share (players, tunnels, its own
    proxy ends, the database), the players ([player/mod.rs]), and the routing of
    tunnel messages ([global/manager/proxy.rs], [send_proxy_message]). *)

From S2P Require Import Prelude Std Extern Net Proxy Messages Bridge Framing Ends.

(** ** The database rows ([orm_entity/tunnel.rs], [orm_entity/user.rs]) *)

Record tunnel_Model := {
  tm_id : u32;
  tm_source : string;
  tm_endpoint : string;
  tm_enabled : u8;
  tm_sender : u32;
  tm_receiver : u32;
  tm_description : string;
  tm_tunnel_type : u32;
  tm_password : string;
  tm_username : string;
  tm_is_compressed : u8;
  tm_custom_mapping : string;
  tm_encryption_method : string
}.

Record user_Model := { um_id : u32; um_username : string; um_password : string; um_create_time : Z }.

(** [sea_orm] and the database behind it. *)
Class UserDb := {
  db : Type;
  find_login : string → string → db → outcome (option user_Model);  (** by name and password *)
  find_username : string → db → outcome (option user_Model);
  insert_user : user_Model → db → outcome unit * db
}.

(** [serde_json]: the text of a mapping of names. *)
Class Json := { mapping_from_str : string → outcome (gmap string string) }.

Section Model.
Context `{Json}.

(** [From<&tunnel::Model> for class_def::Tunnel] *)
Definition tunnel_of_model (t : tunnel_Model) : class_def_Tunnel := {|
  tn_source := Some {| tp_addr := tm_source t |};
  tn_endpoint := Some {| tp_addr := tm_endpoint t |};
  tn_id := tm_id t; tn_enabled := tm_enabled t =? 1; tn_sender := tm_sender t;
  tn_receiver := tm_receiver t; tn_tunnel_type := as_i32 (tm_tunnel_type t);
  tn_password := tm_password t; tn_username := tm_username t;
  tn_is_compressed := tm_is_compressed t =? 1; tn_encryption_method := tm_encryption_method t;
  tn_custom_mapping := match mapping_from_str (tm_custom_mapping t) with Ok m => m | _ => ∅ end |}.
End Model.

(** ** Player *)

Abbreviation PlayerId := u32 (only parsing).

Record Player := { p_tx : option handle; p_player_id : PlayerId; p_session_id : u32 }.

Section World.
Context `{UserDb}.

(** [w_players] holds the players behind their [Arc<RwLock<_>>];
    [w_player_list] and [w_player_map] are the manager's vector and map;
    [w_outlets] and [w_inlets] are the ends the server runs itself. *)
Record world := World {
  w_env : env;
  w_players : gmap handle Player;
  w_player_list : list handle;
  w_player_map : gmap PlayerId handle;
  w_tunnels : list tunnel_Model;
  w_outlets : gmap u32 outlet_entry;
  w_inlets : gmap u32 inlet_entry;
  w_db : db
}.

#[export] Instance world_has_env : HasEnv world.
Proof.
  refine {| env_of := w_env;
            set_env := λ e w, World e (w_players w) (w_player_list w) (w_player_map w)
                                (w_tunnels w) (w_outlets w) (w_inlets w) (w_db w) |};
    [done| |done]. by intros [].
Defined.

Definition set_players (f : gmap handle Player → gmap handle Player) (w : world) : world :=
  World (w_env w) (f (w_players w)) (w_player_list w) (w_player_map w) (w_tunnels w)
    (w_outlets w) (w_inlets w) (w_db w).
Definition set_server_outlets (f : gmap u32 outlet_entry → gmap u32 outlet_entry) (w : world)
    : world :=
  World (w_env w) (w_players w) (w_player_list w) (w_player_map w) (w_tunnels w)
    (f (w_outlets w)) (w_inlets w) (w_db w).
Definition set_server_inlets (f : gmap u32 inlet_entry → gmap u32 inlet_entry) (w : world)
    : world :=
  World (w_env w) (w_players w) (w_player_list w) (w_player_map w) (w_tunnels w)
    (w_outlets w) (f (w_inlets w)) (w_db w).

Definition set_world_tunnels (f : list tunnel_Model → list tunnel_Model) (w : world) : world :=
  World (w_env w) (w_players w) (w_player_list w) (w_player_map w) (f (w_tunnels w))
    (w_outlets w) (w_inlets w) (w_db w).
Definition set_player_list (f : list handle → list handle) (w : world) : world :=
  World (w_env w) (w_players w) (f (w_player_list w)) (w_player_map w) (w_tunnels w)
    (w_outlets w) (w_inlets w) (w_db w).
Definition set_db (d : db) (w : world) : world :=
  World (w_env w) (w_players w) (w_player_list w) (w_player_map w) (w_tunnels w)
    (w_outlets w) (w_inlets w) d.

(** A query, a change of the database. *)
Definition db_query {A} (q : db → outcome A) : M world A := λ w, (q (w_db w), w).
Definition db_exec {A} (q : db → outcome A * db) : M world A := λ w,
  let '(o, d) := q (w_db w) in (o, set_db d w).

(** [player.write().await], then a change of the player. *)
Definition get_player_at (h : handle) : M world Player := λ w,
  match w_players w !! h with Some p => (Ok p, w) | None => (Panic "no such player", w) end.
Definition put_player (h : handle) (p : Player) : M world unit :=
  modify (set_players <[h := p]>).
End World.

(** ** Sending a message to a peer ([peer/mod.rs]) *)

Section Sending.
Context `{Prost} {S : Type} `{HasEnv S}.

Definition peer_package_and_send_message (tx : option handle) (serial : i32)
    (message : MessageType) (flush : bool) : M S unit :=
  match tx with
  | Some tx =>
      match package_message serial message with
      | Some buf => ignore (send_writer tx (Send buf flush))
      | None => mret tt
      end
  | None => mret tt
  end.
End Sending.

(** ** player/mod.rs *)

Section PlayerMethods.
Context `{Prost} `{UserDb}.

Definition player_new (id : PlayerId) : Player :=
  {| p_tx := None; p_player_id := id; p_session_id := 0 |}.

Definition is_online (p : Player) : bool := 0 <? p_session_id p.

(** [assert!(serial < 0)] *)
Definition player_send_response (h : handle) (serial : i32) (message : MessageType) : M world unit :=
  p ← get_player_at h;
  if serial <? 0
  then peer_package_and_send_message (p_tx p) (as_i32 (- serial)) message true
  else lift (Panic "assertion failed: serial < 0").

Definition player_send_push (h : handle) (message : MessageType) : M world unit :=
  p ← get_player_at h; peer_package_and_send_message (p_tx p) 0 message true.

Definition player_flush (h : handle) : M world unit :=
  p ← get_player_at h;
  match p_tx p with Some tx => ignore (send_writer tx Flush) | None => mret tt end.

Definition close_session (h : handle) : M world unit :=
  p ← get_player_at h;
  match p_tx p with Some tx => ignore (send_writer tx Close) | None => mret tt end.

Definition reset_session_info (h : handle) : M world unit :=
  p ← get_player_at h;
  put_player h {| p_tx := None; p_player_id := p_player_id p; p_session_id := 0 |}.

Definition on_connect_session (h : handle) (session_id : u32) (tx : handle) : M world unit :=
  p ← get_player_at h;
  if is_online p then lift (Panic "assertion `left == right` failed")
  else put_player h {| p_tx := Some tx; p_player_id := p_player_id p; p_session_id := session_id |}.

Definition on_disconnect_session (h : handle) : M world unit := reset_session_info h.

Definition on_terminate_old_session (h : handle) : M world unit :=
  close_session h;; reset_session_info h.

Definition player_handle_request (_ : MessageType) : M world MessageType :=
  mret (GenericError {| ge_number := InterfaceAbsent; ge_message := "interface absent" |}).
End PlayerMethods.

(** ** global/manager: players and tunnel messages *)

Section Managers.
Context `{Prost} `{UserDb}.

(** [PlayerManager::get_player] *)
Definition get_player (id : PlayerId) : M world (option handle) := gets (λ w, w_player_map w !! id).

(** [PlayerManager::contain] *)
Definition contain_player (id : PlayerId) : M world bool :=
  gets (λ w, bool_decide (is_Some (w_player_map w !! id))).

Definition create_player (id : PlayerId) : M world handle := λ w,
  let h := next_handle (w_env w) in
  (Ok h, World (bump (w_env w)) (<[h := player_new id]> (w_players w)) (w_player_list w ++ [h])
           (<[id := h]> (w_player_map w)) (w_tunnels w) (w_outlets w) (w_inlets w) (w_db w)).

Definition push_message_to_player (id : PlayerId) (message : MessageType) : M world unit :=
  player ← get_player id;
  match player with
  | Some h => ignore (player_send_push h message)
  | None => mret tt
  end.

(** [if let Some(end) = ends.get(tunnel_id) { end.input(m) }] *)
Definition give {E} (input : E → E) (tunnel_id : u32) (ends : gmap u32 E) : gmap u32 E :=
  match ends !! tunnel_id with
  | Some e => <[tunnel_id := input e]> ends
  | None => ends
  end.

Definition send_input_to_outlet (tunnel_id : u32) (m : ProxyMessage) : M world unit :=
  modify (set_server_outlets (give (input_outlet m) tunnel_id)).
Definition send_input_to_inlet (tunnel_id : u32) (m : ProxyMessage) : M world unit :=
  modify (set_server_inlets (give (input_inlet m) tunnel_id)).

(** A message for one of the server's own ends. *)
Definition send_input (tunnel_id : u32) (m : ProxyMessage) : M world unit :=
  if is_i2o_message m then send_input_to_outlet tunnel_id m else send_input_to_inlet tunnel_id m.

(** What the sender is told when the receiver cannot be reached. *)
Definition offline_answer (to_player_id : PlayerId) (m : ProxyMessage) : option ProxyMessage :=
  match m with
  | I2oConnect session_id _ _ _ _ _ _ _ =>
      Some (O2iConnect session_id false
        ("no player " +:+ show to_player_id +:+ " or the player is offline"))
  | I2oSendData session_id _ | I2oRecvDataResult session_id _ => Some (O2iDisconnect session_id)
  | O2iConnect session_id _ _ | O2iRecvData session_id _ | O2iSendDataResult session_id _ =>
      Some (I2oDisconnect session_id)
  | _ => None
  end.

(** The player, if there is one and it is online. *)
Definition online_player (id : PlayerId) : M world (option handle) :=
  player ← get_player id;
  match player with
  | Some h => p ← get_player_at h; mret (if is_online p then Some h else None)
  | None => mret None
  end.

Definition server_send_proxy_message (from_player_id to_player_id : PlayerId) (tunnel_id : u32)
    (m : ProxyMessage) : M world unit :=
  if to_player_id =? 0 then send_input tunnel_id m
  else
    online ← online_player to_player_id;
    match online with
    | Some h =>
        let message := proxy_message_2_pb m tunnel_id in
        if negb (message_is_none message) then ignore (player_send_push h message) else mret tt
    | None =>
        match offline_answer to_player_id m with
        | Some answer =>
            if from_player_id =? 0 then send_input tunnel_id answer
            else push_message_to_player from_player_id (proxy_message_2_pb answer tunnel_id)
        | None => mret tt
        end
    end.
End Managers.
