(* ===== verification/Tunnels.v ===== *)
(** [np_server/src/global/manager]: the tunnel manager ([tunnel.rs]): the table
    of tunnels, its checks, its notices to players; and the ends the server
    runs itself ([ProxyManager::sync_tunnels] of [proxy.rs]). *)

From S2P Require Import Prelude Std Extern Net Proxy Inlet Messages Bridge Framing Ends Str Server.

(** ** The rows of the database's table of tunnels *)

Class TunnelDb `{UserDb} := {
  find_all_tunnels : db → outcome (list tunnel_Model);
  find_tunnel_by_id : u32 → db → outcome (option tunnel_Model);
  insert_tunnel : tunnel_Model → db → outcome u32 * db;      (** gives the row an id *)
  delete_tunnel_by_id : u32 → db → outcome Z * db;           (** the rows affected *)
  update_tunnel_row : tunnel_Model → db → outcome unit * db
}.

Section Tunnels.
Context `{Prost} `{Json} `{Unicode} `{InletOs} `{TunnelDb}.

(** ** The server's own ends ([proxy.rs]) *)

Definition model_outlet_description (t : tunnel_Model) : string :=
  "id:" +:+ show (tm_id t) +:+ "-sender:" +:+ show (tm_sender t) +:+
  "-enabled:" +:+ show (tm_enabled t).
Definition model_inlet_description (t : tunnel_Model) : string :=
  "id:" +:+ show (tm_id t) +:+ "-source:" +:+ tm_source t +:+ "-endpoint:" +:+ tm_endpoint t +:+
  "-sender:" +:+ show (tm_sender t) +:+ "-receiver:" +:+ show (tm_receiver t) +:+
  "-tunnel_type:" +:+ show (tm_tunnel_type t) +:+ "-username:" +:+ tm_username t +:+
  "-password:" +:+ tm_password t +:+ "-enabled:" +:+ show (tm_enabled t) +:+
  "-is_compressed:" +:+ show (tm_is_compressed t) +:+
  "-encryption_method:" +:+ tm_encryption_method t +:+
  "-custom_mapping:" +:+ tm_custom_mapping t.

Definition model_sends (t : tunnel_Model) : bool := (tm_enabled t =? 1) && (tm_sender t =? 0).
Definition model_receives (t : tunnel_Model) : bool := (tm_enabled t =? 1) && (tm_receiver t =? 0).

Definition server_retain_outlet (ts : list tunnel_Model) (id : u32) (e : outlet_entry) : bool :=
  existsb (λ t, (id =? tm_id t) && (tm_enabled t =? 1) && (tm_sender t =? 0) &&
                bool_decide (model_outlet_description t = oe_description e)) ts.
Definition server_retain_inlet (ts : list tunnel_Model) (id : u32) (e : inlet_entry) : bool :=
  existsb (λ t, (id =? tm_id t) && (tm_enabled t =? 1) && (tm_receiver t =? 0) &&
                bool_decide (model_inlet_description t = ie_description e)) ts.

Definition server_new_outlet (t : tunnel_Model) : outlet_entry := {|
  oe_description := model_outlet_description t;
  oe_route := {| rt_this_machine := tm_receiver t =? tm_sender t; rt_self_player_id := 0;
                 rt_player_id := tm_receiver t; rt_tunnel_id := tm_id t |};
  oe_input := [] |}.

Definition server_inlet_config (ty : InletProxyType) (t : tunnel_Model) : InletConfig := {|
  cfg_type := ty; cfg_output_addr := tm_endpoint t;
  cfg_is_compressed := tm_is_compressed t =? 1; cfg_encryption_method := tm_encryption_method t;
  cfg_data_ex := {| username := tm_username t; password := tm_password t |} |}.

Definition server_new_inlet (ty : InletProxyType) (t : tunnel_Model) : inlet_entry := {|
  ie_description := model_inlet_description t;
  ie_route := {| rt_this_machine := tm_receiver t =? tm_sender t; rt_self_player_id := 0;
                 rt_player_id := tm_sender t; rt_tunnel_id := tm_id t |};
  ie_listen := tm_source t;
  ie_config := server_inlet_config ty t;
  ie_input := [] |}.

(** The callbacks [outlet_output] and [inlet_output]. *)
Definition server_outlet_output (r : route) (m : ProxyMessage) : M world unit :=
  if rt_this_machine r then send_input_to_inlet (rt_tunnel_id r) m
  else server_send_proxy_message 0 (rt_player_id r) (rt_tunnel_id r) m.
Definition server_inlet_output (r : route) (m : ProxyMessage) : M world unit :=
  if rt_this_machine r then send_input_to_outlet (rt_tunnel_id r) m
  else server_send_proxy_message 0 (rt_player_id r) (rt_tunnel_id r) m.

Definition server_add_outlet (t : tunnel_Model) : M world unit :=
  if model_sends t then
    os ← gets w_outlets;
    match os !! tm_id t with
    | Some _ => mret tt
    | None => modify (set_server_outlets <[tm_id t := server_new_outlet t]>)
    end
  else mret tt.

(** An inlet that does not start is dropped, after an error in the log. *)
Definition server_add_inlet (t : tunnel_Model) : M world unit :=
  if model_receives t then
    ins ← gets w_inlets;
    match ins !! tm_id t with
    | Some _ => mret tt
    | None =>
        match from_u32 (tm_tunnel_type t) with
        | Some ty =>
            match fst (inlet_start (server_inlet_config ty t) (tm_source t) inlet_new) with
            | Ok _ => modify (set_server_inlets <[tm_id t := server_new_inlet ty t]>)
            | Err _ => mret tt
            | Panic w => lift (Panic w)
            | Pending => lift Pending
            end
        | None => mret tt
        end
    end
  else mret tt.

Definition server_sync_tunnels : M world unit :=
  ts ← gets w_tunnels;
  modify (set_server_outlets
    (base.filter (λ kv, server_retain_outlet ts (fst kv) (snd kv) = true)));;
  modify (set_server_inlets
    (base.filter (λ kv, server_retain_inlet ts (fst kv) (snd kv) = true)));;
  for_each server_add_outlet ts;;
  for_each server_add_inlet ts.

(** ** The checks of a tunnel *)

Definition player_id_detection (player_id : PlayerId) : M world unit :=
  known ← contain_player player_id;
  if negb (player_id =? 0) && negb known
  then bail ("player id " +:+ show player_id +:+ " does not exist")
  else mret tt.

Definition port_conflicts (receiver : u32) (port : option u16) (tunnel_id : option u32)
    (x : tunnel_Model) : bool :=
  (tm_receiver x =? receiver) && negb (bool_decide (tunnel_id = Some (tm_id x))) &&
  bool_decide (get_tunnel_address_port (tm_source x) = port).
Definition port_conflict_detection (receiver : u32) (port : option u16) (tunnel_id : option u32)
    : M world bool :=
  gets (λ w, existsb (port_conflicts receiver port tunnel_id) (w_tunnels w)).

Definition tunnel_detection (t : tunnel_Model) : M world unit :=
  if negb (is_valid_tunnel_source_address (tm_source t)) then bail "source address format error"
  else if negb (is_valid_tunnel_endpoint_address (tm_endpoint t))
  then bail "endpoint address format error"
  else
    player_id_detection (tm_sender t);;
    player_id_detection (tm_receiver t);;
    conflict ← port_conflict_detection (tm_receiver t) (get_tunnel_address_port (tm_source t))
                 (Some (tm_id t));
    if (conflict : bool) then bail "port already in use" else mret tt.

(** ** The operations *)

Definition broadcast_tunnel_info (player_id : PlayerId) (t : tunnel_Model) (is_delete : bool)
    : M world unit :=
  if player_id =? 0 then mret tt
  else
    player ← get_player player_id;
    match player with
    | Some h =>
        ignore (player_send_push h (ServerClientModifyTunnelNtf
          {| mt_is_delete := is_delete; mt_tunnel := Some (tunnel_of_model t) |}))
    | None => mret tt
    end.

(** The sender, and the receiver if it is another player. *)
Definition broadcast_to_ends (t : tunnel_Model) (is_delete : bool) : M world unit :=
  broadcast_tunnel_info (tm_sender t) t is_delete;;
  when (negb (tm_sender t =? tm_receiver t)) (broadcast_tunnel_info (tm_receiver t) t is_delete).

Definition with_id (id : u32) (t : tunnel_Model) : tunnel_Model := {|
  tm_id := id; tm_source := tm_source t; tm_endpoint := tm_endpoint t; tm_enabled := tm_enabled t;
  tm_sender := tm_sender t; tm_receiver := tm_receiver t; tm_description := tm_description t;
  tm_tunnel_type := tm_tunnel_type t; tm_password := tm_password t; tm_username := tm_username t;
  tm_is_compressed := tm_is_compressed t; tm_custom_mapping := tm_custom_mapping t;
  tm_encryption_method := tm_encryption_method t |}.

Definition load_all_tunnel : M world unit :=
  ts ← db_query find_all_tunnels;
  modify (set_world_tunnels (λ _, ts)).

(** [add_tunnel] in the parts between which other tasks run: the checks; the
    database; the change itself. *)
Definition add_apply (t : tunnel_Model) : M world unit :=
  broadcast_to_ends t false;;
  modify (set_world_tunnels (λ ts, ts ++ [t]));;
  server_sync_tunnels.

Definition add_tunnel (t : tunnel_Model) : M world unit :=
  tunnel_detection t;;
  id ← db_exec (insert_tunnel t);
  add_apply (with_id id t).

(** [iter().position(|it| it.id == tunnel_id)] *)
Fixpoint position (tunnel_id : u32) (ts : list tunnel_Model) : option nat :=
  match ts with
  | [] => None
  | t :: ts => if tm_id t =? tunnel_id then Some 0%nat else S <$> position tunnel_id ts
  end.

Definition delete_tunnel (tunnel_id : u32) : M world unit :=
  rows_affected ← db_exec (delete_tunnel_by_id tunnel_id);
  if negb (rows_affected =? 1)
  then bail ("delete_tunnel: rows_affected = " +:+ show rows_affected)
  else
    i ← gets (λ w, position tunnel_id (w_tunnels w));
    match i with
    | Some i =>
        t ← (λ w, (index (w_tunnels w) (Z.of_nat i), set_world_tunnels (delete i) w));
        broadcast_to_ends t true;;
        server_sync_tunnels
    | None => mret tt
    end.

(** [update_tunnel] in the parts between which other tasks run: the checks and
    the tunnel's position; the database; the change itself. *)
Definition update_position (t : tunnel_Model) : M world (option nat) :=
  tunnel_detection t;;
  gets (λ w, position (tm_id t) (w_tunnels w)).

Definition update_database (t : tunnel_Model) : M world unit :=
  row ← db_query (find_tunnel_by_id (tm_id t));
  match row with
  | Some _ => db_exec (update_tunnel_row t)
  | None => bail ("Can't find tunnel: " +:+ show (tm_id t))
  end.

Definition update_apply (i : nat) (t : tunnel_Model) : M world unit :=
  old ← (λ w, (index (w_tunnels w) (Z.of_nat i), w));
  when (negb (tm_sender old =? tm_sender t)) (broadcast_tunnel_info (tm_sender old) t true);;
  when (negb (tm_receiver old =? tm_sender t)) (broadcast_tunnel_info (tm_receiver old) t true);;
  broadcast_to_ends t false;;
  modify (set_world_tunnels <[i := t]>);;
  server_sync_tunnels.

Definition update_tunnel (t : tunnel_Model) : M world unit :=
  i ← update_position t;
  match i with
  | Some i => update_database t;; update_apply i t
  | None => bail ("Unable to find tunnel_id: " +:+ show (tm_id t))
  end.

(** [query]: the sizes are machine words. *)
Definition as_usize (x : Z) : usize := x mod 18446744073709551616.
Definition page_size_of (page_size : usize) : usize :=
  if (page_size <=? 0) || (100 <? page_size) then 10 else page_size.
Definition query (page_number page_size : usize) : M world (list tunnel_Model) :=
  ts ← gets w_tunnels;
  let page_size := page_size_of page_size in
  let start := as_usize (page_number * page_size) in
  let end_ := Z.min (as_usize (start + page_size)) (len ts) in
  if (start <=? end_) && (end_ <=? len ts) then lift (slice ts start end_) else mret [].
End Tunnels.

(** ** Facts *)

Section Facts.
Context `{Prost} `{Json} `{Unicode} `{InletOs} `{TunnelDb}.
Implicit Types (w : world) (t u : tunnel_Model) (ts : list tunnel_Model).

(** *** Notices *)

(** The manager's map leads to players. *)
Definition players_ok w : Prop :=
  ∀ id h, w_player_map w !! id = Some h → is_Some (w_players w !! h).

(** [m] changes nothing but what its messages change, and does not fail. *)
Definition only_sends {A} (m : M world A) : Prop :=
  ∀ w, players_ok w → ∃ a e, m w = (Ok a, set_env e w).

Lemma sends_ret : only_sends (mret tt).
Proof. intros w _. exists tt, (env_of w). by rewrite set_env_of. Qed.
Lemma sends_bind {A B} (m : M world A) (f : A → M world B) :
  only_sends m → (∀ a, only_sends (f a)) → only_sends (m ≫= f).
Proof.
  intros Hm Hf w Hw. destruct (Hm w Hw) as (a & e & E).
  assert (players_ok (set_env e w)) as Hw' by exact Hw.
  destruct (Hf a (set_env e w) Hw') as (b & e' & E').
  exists b, e'. by rewrite (bind_ok _ _ _ _ _ E), E'.
Qed.
Lemma sends_when b (m : M world unit) : only_sends m → only_sends (when b m).
Proof. intros Hm. destruct b; [done|apply sends_ret]. Qed.

Lemma sends_broadcast p t del : only_sends (broadcast_tunnel_info p t del).
Proof.
  unfold broadcast_tunnel_info. destruct (p =? 0); [apply sends_ret|].
  intros w Hw. unfold get_player. rewrite gets_bind.
  destruct (w_player_map w !! p) as [h|] eqn:Hp; [|by apply sends_ret].
  destruct (Hw p h Hp) as [pl Hpl]. unfold ignore, player_send_push, get_player_at.
  unfold mbind, M_bind. rewrite Hpl. unfold peer_package_and_send_message.
  destruct (p_tx pl) as [tx|]; [|by apply sends_ret].
  destruct (package_message 0 _) as [buf|]; [|by apply sends_ret].
  rewrite ignore_send_writer. by eexists _, _.
Qed.
Lemma sends_to_ends t del : only_sends (broadcast_to_ends t del).
Proof.
  apply sends_bind; [apply sends_broadcast|]. intros _. apply sends_when, sends_broadcast.
Qed.

(** *** The server's own ends *)

Definition with_ends (os : gmap u32 outlet_entry) (ins : gmap u32 inlet_entry) w : world :=
  set_server_inlets (λ _, ins) (set_server_outlets (λ _, os) w).

(** An inlet that starts, if its type is known and its address can be bound. *)
Definition server_started_inlet (t : tunnel_Model) : option inlet_entry :=
  match from_u32 (tm_tunnel_type t) with
  | Some ty =>
      match fst (inlet_start (server_inlet_config ty t) (tm_source t) inlet_new) with
      | Ok _ => Some (server_new_inlet ty t)
      | _ => None
      end
  | None => None
  end.

(** The ends there should be, given those there were. *)
Definition server_expected_outlet : list tunnel_Model → u32 → option outlet_entry → option outlet_entry :=
  expected tm_id model_sends model_outlet_description oe_description (λ t, Some (server_new_outlet t)).
Definition server_expected_inlet : list tunnel_Model → u32 → option inlet_entry → option inlet_entry :=
  expected tm_id model_receives model_inlet_description ie_description server_started_inlet.

Lemma server_retain_outlet_eq ts id e :
  server_retain_outlet ts id e =
    retained tm_id model_sends model_outlet_description oe_description ts id e.
Proof. apply existsb_same. intros t. unfold model_sends. by rewrite <- !andb_assoc. Qed.
Lemma server_retain_inlet_eq ts id e :
  server_retain_inlet ts id e =
    retained tm_id model_receives model_inlet_description ie_description ts id e.
Proof. apply existsb_same. intros t. unfold model_receives. by rewrite <- !andb_assoc. Qed.

(** One tunnel's step of the passes that add, on the tables. *)
Definition add_entry {E} (f : tunnel_Model → bool) (make : tunnel_Model → option E) t
    (m : gmap u32 E) : gmap u32 E := add_entries tm_id f make [t] m.

Lemma server_add_outlet_eq t w :
  server_add_outlet t w =
    (Ok tt, set_server_outlets (add_entry model_sends (λ t, Some (server_new_outlet t)) t) w).
Proof.
  unfold server_add_outlet, add_entry, add_entries. cbn [fold_left].
  destruct (model_sends t) eqn:Es; [|by destruct w]. rewrite gets_bind.
  unfold set_server_outlets. cbn [w_outlets]. by destruct (w_outlets w !! tm_id t) eqn:E, w.
Qed.

Lemma server_add_inlet_eq t w :
  binds_answer →
  server_add_inlet t w =
    (Ok tt, set_server_inlets (add_entry model_receives server_started_inlet t) w).
Proof.
  intros Hb. unfold server_add_inlet, add_entry, add_entries, server_started_inlet. cbn [fold_left].
  destruct (model_receives t) eqn:Es; [|by destruct w]. rewrite gets_bind.
  unfold set_server_inlets.
  destruct (w_inlets w !! tm_id t) eqn:E; [by destruct w|].
  destruct (from_u32 (tm_tunnel_type t)) as [ty|]; [|by destruct w].
  pose proof (start_answers (server_inlet_config ty t) (tm_source t) Hb).
  by destruct (fst (inlet_start (server_inlet_config ty t) (tm_source t) inlet_new)), w.
Qed.

Lemma server_add_outlets_eq ts w :
  for_each server_add_outlet ts w = (Ok tt, set_server_outlets
    (add_entries tm_id model_sends (λ t, Some (server_new_outlet t)) ts) w).
Proof.
  revert w. induction ts as [|t ts IH]; intros w; [by destruct w|].
  cbn [for_each]. by rewrite (bind_ok _ _ _ _ _ (server_add_outlet_eq t w)), IH.
Qed.

Lemma server_add_inlets_eq ts w :
  binds_answer →
  for_each server_add_inlet ts w = (Ok tt, set_server_inlets
    (add_entries tm_id model_receives server_started_inlet ts) w).
Proof.
  intros Hb. revert w. induction ts as [|t ts IH]; intros w; [by destruct w|].
  cbn [for_each]. by rewrite (bind_ok _ _ _ _ _ (server_add_inlet_eq t w Hb)), IH.
Qed.

Lemma server_sync_runs w :
  binds_answer → ∃ os ins, server_sync_tunnels w = (Ok tt, with_ends os ins w).
Proof.
  intros Hb. unfold server_sync_tunnels. rewrite gets_bind.
  erewrite bind_ok; [|reflexivity]. erewrite bind_ok; [|reflexivity].
  erewrite bind_ok; [|apply server_add_outlets_eq]. rewrite server_add_inlets_eq by done.
  by eexists _, _.
Qed.

Lemma server_sync_eq w :
  binds_answer → NoDup (tm_id <$> w_tunnels w) →
  ∃ os ins, server_sync_tunnels w = (Ok tt, with_ends os ins w) ∧
    (∀ id, os !! id = server_expected_outlet (w_tunnels w) id (w_outlets w !! id)) ∧
    (∀ id, ins !! id = server_expected_inlet (w_tunnels w) id (w_inlets w !! id)).
Proof.
  intros Hb Hnd. unfold server_sync_tunnels. rewrite gets_bind.
  erewrite bind_ok; [|reflexivity]. erewrite bind_ok; [|reflexivity].
  erewrite bind_ok; [|apply server_add_outlets_eq]. rewrite server_add_inlets_eq by done.
  set (ts := w_tunnels w).
  exists (add_entries tm_id model_sends (λ t, Some (server_new_outlet t)) ts
      (base.filter (λ kv, server_retain_outlet ts kv.1 kv.2 = true) (w_outlets w))),
    (add_entries tm_id model_receives server_started_inlet ts
      (base.filter (λ kv, server_retain_inlet ts kv.1 kv.2 = true) (w_inlets w))).
  split; [done|]. split; intros id.
  - rewrite (filter_ext _ _ _ (server_retain_outlet_eq ts)).
    exact (sync_lookup tm_id model_sends model_outlet_description oe_description
             (λ t, Some (server_new_outlet t)) ts (w_outlets w) id Hnd).
  - rewrite (filter_ext _ _ _ (server_retain_inlet_eq ts)).
    exact (sync_lookup tm_id model_receives model_inlet_description ie_description
             server_started_inlet ts (w_inlets w) id Hnd).
Qed.
End Facts.

(** *** The table's consistency *)

Section Consistency.
Context `{Prost} `{Json} `{Unicode} `{InletOs} `{TunnelDb}.
Implicit Types (w : world) (t u : tunnel_Model) (ts : list tunnel_Model).

(** Where a tunnel listens, as the check of ports sees it. *)
Definition slot t : u32 * option u16 := (tm_receiver t, get_tunnel_address_port (tm_source t)).

(** Ids are distinct and not zero, and no two tunnels listen in the same place. *)
Definition tunnels_ok ts : Prop :=
  NoDup (tm_id <$> ts) ∧ (0 ∉ (tm_id <$> ts)) ∧ NoDup (slot <$> ts).

Lemma port_conflicts_spec r p id x :
  port_conflicts r p (Some id) x = true ↔ slot x = (r, p) ∧ tm_id x ≠ id.
Proof.
  unfold port_conflicts, slot. rewrite !andb_true_iff, negb_true_iff, Z.eqb_eq, bool_decide_eq_true,
    bool_decide_eq_false. split.
  - intros ((-> & Hid) & ->). split; [done|]. congruence.
  - intros ([= -> ->] & Hid). split; [split|]; [done|congruence|done].
Qed.

Lemma existsb_false {A} (f : A → bool) l x : existsb f l = false → x ∈ l → f x = false.
Proof.
  intros Hf Hx. apply not_true_iff_false. intros Ht. apply not_true_iff_false in Hf.
  apply Hf, existsb_exists. exists x. split; [by apply list_elem_of_In|done].
Qed.

Lemma no_conflict t x ts :
  existsb (port_conflicts (tm_receiver t) (get_tunnel_address_port (tm_source t)) (Some (tm_id t))) ts
    = false →
  x ∈ ts → tm_id x ≠ tm_id t → slot x ≠ slot t.
Proof.
  intros Hc Hx Hid Hs. pose proof (existsb_false _ _ x Hc Hx) as Hf.
  apply not_true_iff_false in Hf. apply Hf. by apply port_conflicts_spec.
Qed.

Lemma tunnels_ok_snoc ts t id :
  tunnels_ok ts → id ≠ 0 → id ∉ (tm_id <$> ts) → (∀ x, x ∈ ts → slot x ≠ slot t) →
  tunnels_ok (ts ++ [with_id id t]).
Proof.
  intros (Hnd & Hz & Hs) Hid Hnew Hc. unfold tunnels_ok. rewrite !fmap_app. cbn [fmap list_fmap].
  change (tm_id (with_id id t)) with id. change (slot (with_id id t)) with (slot t).
  split; [|split].
  - apply NoDup_app. split; [done|]. split; [|apply NoDup_singleton].
    intros x Hx Hx'. by apply list_elem_of_singleton in Hx' as ->.
  - rewrite elem_of_app, list_elem_of_singleton. intros [?|?]; [done|congruence].
  - apply NoDup_app. split; [done|]. split; [|apply NoDup_singleton].
    intros x Hx Hx'. apply list_elem_of_singleton in Hx' as ->.
    apply list_elem_of_fmap in Hx as (y & E & Hy). by apply (Hc y).
Qed.

Lemma tunnels_ok_delete ts i : tunnels_ok ts → tunnels_ok (delete i ts).
Proof.
  intros (Hnd & Hz & Hs). unfold tunnels_ok. rewrite !list_fmap_delete. split; [|split].
  - by apply (sublist_NoDup _ (tm_id <$> ts)), sublist_delete.
  - intros Hx. by apply Hz, (list_elem_of_delete_inv _ i).
  - by apply (sublist_NoDup _ (slot <$> ts)), sublist_delete.
Qed.

Lemma NoDup_insert {A} (l : list A) i y :
  NoDup l → (∀ j x, l !! j = Some x → j ≠ i → x ≠ y) → NoDup (<[i := y]> l).
Proof.
  rewrite !NoDup_alt. intros Hl Hy j k x Hj Hk.
  apply list_lookup_insert_Some in Hj as [(-> & -> & _)|[Hj' Hj]];
    apply list_lookup_insert_Some in Hk as [(-> & E & _)|[Hk' Hk]]; [done| | |by apply (Hl j k x)].
  - by destruct (Hy k x Hk).
  - subst. by destruct (Hy j x Hj).
Qed.

Lemma position_Some id ts i :
  position id ts = Some i → ∃ t, ts !! i = Some t ∧ tm_id t = id.
Proof.
  revert i. induction ts as [|t ts IH]; intros i; cbn; [done|].
  destruct (Z.eqb_spec (tm_id t) id) as [Hid|_]; [intros [= <-]; by exists t|].
  destruct (position id ts) as [j|]; [|done]. intros [= <-]. by apply IH.
Qed.

Lemma tunnels_ok_update ts i t u :
  tunnels_ok ts → ts !! i = Some u → tm_id u = tm_id t →
  (∀ x, x ∈ ts → tm_id x ≠ tm_id t → slot x ≠ slot t) → tunnels_ok (<[i := t]> ts).
Proof.
  intros (Hnd & Hz & Hs) Hi Hid Hc. unfold tunnels_ok. rewrite !list_fmap_insert.
  assert (<[i := tm_id t]> (tm_id <$> ts) = tm_id <$> ts) as ->.
  { apply list_insert_id. by rewrite list_lookup_fmap, Hi, <- Hid. }
  split; [done|]. split; [done|]. apply NoDup_insert; [done|]. intros j x Hj Hne.
  rewrite list_lookup_fmap in Hj. apply fmap_Some in Hj as (v & Hv & ->).
  apply Hc; [by eapply list_elem_of_lookup_2|]. intros Hv'.
  apply Hne, (NoDup_lookup (tm_id <$> ts) j i (tm_id t) Hnd); rewrite list_lookup_fmap.
  - by rewrite Hv, <- Hv'.
  - by rewrite Hi, <- Hid.
Qed.

(** *** The checks *)

Definition player_known w (p : PlayerId) : bool :=
  (p =? 0) || bool_decide (is_Some (w_player_map w !! p)).
Definition acceptable w t : bool :=
  is_valid_tunnel_source_address (tm_source t) &&
  is_valid_tunnel_endpoint_address (tm_endpoint t) &&
  player_known w (tm_sender t) && player_known w (tm_receiver t) &&
  negb (existsb (port_conflicts (tm_receiver t) (get_tunnel_address_port (tm_source t))
                   (Some (tm_id t))) (w_tunnels w)).

Lemma detect_known p w : player_known w p = true → player_id_detection p w = (Ok tt, w).
Proof.
  unfold player_id_detection, player_known, contain_player. rewrite gets_bind.
  by destruct (p =? 0), (bool_decide _).
Qed.

Lemma detection_eq t w :
  ∃ e, tunnel_detection t w = (if acceptable w t then Ok tt else Err e, w).
Proof.
  unfold tunnel_detection, acceptable.
  destruct (is_valid_tunnel_source_address (tm_source t)); [|by eexists].
  destruct (is_valid_tunnel_endpoint_address (tm_endpoint t)); [|by eexists]. cbn [negb andb].
  assert (∀ p, ∃ e, player_id_detection p w = (if player_known w p then Ok tt else Err e, w)) as Hp.
  { intros p. unfold player_id_detection, player_known, contain_player. rewrite gets_bind.
    destruct (p =? 0), (bool_decide _); first [by exists ""|by eexists]. }
  destruct (Hp (tm_sender t)) as [e1 E1], (Hp (tm_receiver t)) as [e2 E2].
  unfold mbind, M_bind. rewrite E1. destruct (player_known w (tm_sender t)); [|by eexists].
  rewrite E2. destruct (player_known w (tm_receiver t)); [|by eexists].
  unfold port_conflict_detection, gets. destruct (existsb _ _); first [by exists ""|by eexists].
Qed.

(** *** The database

    What the manager relies on: ids of rows that are there, fresh ids for new
    rows, rows that stay unless they are deleted, and answers. *)
Class TunnelDbOk := {
  known : u32 → db → Prop;
  insert_ok t d : match insert_tunnel t d with
                  | (Ok id, d') => id ≠ 0 ∧ ¬ known id d ∧ known id d' ∧ ∀ x, known x d → known x d'
                  | (Err _, d') => ∀ x, known x d → known x d'
                  | _ => False
                  end;
  delete_ok id d : match delete_tunnel_by_id id d with
                   | (Ok n, d') => ∀ x, x ≠ id ∨ n ≠ 1 → known x d → known x d'
                   | (Err _, d') => ∀ x, known x d → known x d'
                   | _ => False
                   end;
  find_ok id d : match find_tunnel_by_id id d with Ok _ | Err _ => True | _ => False end;
  update_ok t d : match update_tunnel_row t d with
                  | (Ok _, d') | (Err _, d') => ∀ x, known x d → known x d'
                  | _ => False
                  end
}.

Context `{!TunnelDbOk}.

(** The table is consistent, and its tunnels have rows. *)
Definition manager_ok w : Prop :=
  tunnels_ok (w_tunnels w) ∧ ∀ t, t ∈ w_tunnels w → known (tm_id t) (w_db w).

(** [m] changes nothing but the channels there are, whatever its outcome. *)
Definition env_only {A} (m : M world A) : Prop := ∀ w, ∃ e,
  next_handle e = next_handle (env_of w) ∧ snd (m w) = set_env e w.

Lemma env_only_const {A} (m : M world A) : (∀ w, snd (m w) = w) → env_only m.
Proof. intros Hm w. exists (env_of w). by rewrite Hm, set_env_of. Qed.
Lemma env_only_bind {A B} (m : M world A) (f : A → M world B) :
  env_only m → (∀ a, env_only (f a)) → env_only (m ≫= f).
Proof.
  intros Hm Hf w. destruct (Hm w) as (e & Hn & E). unfold mbind, M_bind.
  destruct (m w) as [[a| | |] w1]; cbn [snd] in *; subst w1; [|by exists e..].
  destruct (Hf a (set_env e w)) as (e' & Hn' & E'). exists e'. split; [|by rewrite E', set_env_set].
  rewrite Hn'. by rewrite env_of_set.
Qed.
Lemma env_only_ignore {A} (m : M world A) : env_only m → env_only (ignore m).
Proof.
  intros Hm w. destruct (Hm w) as (e & Hn & E). exists e. split; [done|].
  unfold ignore. by destruct (m w) as [[] ?].
Qed.
Lemma env_only_preserves {A} (I : world → Prop) (m : M world A) :
  env_only m → (∀ e w, next_handle e = next_handle (env_of w) → I w → I (set_env e w)) →
  preserves I m.
Proof.
  intros Hm HI w Hw. destruct (Hm w) as (e & Hn & E). unfold after. destruct (m w) as [o w1].
  cbn in E. subst. by apply HI.
Qed.

Lemma env_only_package tx serial m flush :
  env_only (peer_package_and_send_message tx serial m flush : M world unit).
Proof.
  unfold peer_package_and_send_message. destruct tx; [|by apply env_only_const].
  destruct (package_message _ _); [|by apply env_only_const].
  intros w. rewrite ignore_send_writer. eexists. split; [|done]. apply told_next.
Qed.
Lemma env_only_send_push h m : env_only (player_send_push h m).
Proof.
  apply env_only_bind; [|intros pl; apply env_only_package].
  apply env_only_const. intros w. unfold get_player_at. by destruct (w_players w !! h).
Qed.
Lemma env_only_broadcast p t del : env_only (broadcast_tunnel_info p t del).
Proof.
  unfold broadcast_tunnel_info. destruct (p =? 0); [by apply env_only_const|].
  apply env_only_bind; [by apply env_only_const|]. intros [h|]; [|by apply env_only_const].
  apply env_only_ignore, env_only_send_push.
Qed.
Lemma env_only_when b (m : M world unit) : env_only m → env_only (when b m).
Proof. intros Hm. destruct b; [done|by apply env_only_const]. Qed.
Lemma env_only_to_ends t del : env_only (broadcast_to_ends t del).
Proof.
  apply env_only_bind; [apply env_only_broadcast|]. intros _. apply env_only_when, env_only_broadcast.
Qed.

Lemma preserves_for_each {T S} (I : S → Prop) (f : T → M S unit) l :
  (∀ x, preserves I (f x)) → preserves I (for_each f l).
Proof.
  intros Hf. induction l as [|x l IH]; [by apply preserves_const|].
  apply preserves_bind; [apply Hf|done].
Qed.

(** Synchronising changes the tables of ends only. *)
Lemma preserves_sync (I : world → Prop) :
  (∀ f w, I w → I (set_server_outlets f w)) → (∀ f w, I w → I (set_server_inlets f w)) →
  preserves I server_sync_tunnels.
Proof.
  intros Ho Hi.
  apply preserves_bind; [by apply preserves_const|]. intros ts.
  apply preserves_bind; [apply preserves_modify; auto|]. intros _.
  apply preserves_bind; [apply preserves_modify; auto|]. intros _.
  apply preserves_bind; [|intros _]; apply preserves_for_each; intros t.
  - unfold server_add_outlet. destruct (model_sends t); [|by apply preserves_const].
    apply preserves_bind; [by apply preserves_const|]. intros os.
    destruct (os !! tm_id t); [by apply preserves_const|apply preserves_modify; auto].
  - unfold server_add_inlet. destruct (model_receives t); [|by apply preserves_const].
    apply preserves_bind; [by apply preserves_const|]. intros ins.
    destruct (ins !! tm_id t); [by apply preserves_const|].
    destruct (from_u32 _); [|by apply preserves_const].
    destruct (fst (inlet_start _ _ _)); first [apply preserves_modify; auto|by apply preserves_const].
Qed.
Lemma manager_sync : preserves manager_ok server_sync_tunnels.
Proof. by apply preserves_sync. Qed.

(** A table that grows by a tunnel with a fresh row. *)
Lemma manager_ok_push w t id d' :
  manager_ok w → tm_id t = 0 → acceptable w t = true →
  id ≠ 0 → ¬ known id (w_db w) → known id d' → (∀ x, known x (w_db w) → known x d') →
  manager_ok (set_world_tunnels (λ ts, ts ++ [with_id id t]) (set_db d' w)).
Proof.
  intros [Hok Hk] Ht Ha Hid Hnew Hk' Hmono. unfold acceptable in Ha.
  apply andb_true_iff in Ha as [_ Hc]. apply negb_true_iff in Hc. split; cbn.
  - apply tunnels_ok_snoc; [done|done| |].
    + intros Hin. apply list_elem_of_fmap in Hin as (x & -> & Hx). by apply Hnew, Hk.
    + intros x Hx. apply (no_conflict t x (w_tunnels w)); [done..|]. rewrite Ht.
      intros Hx0. destruct Hok as (_ & Hz & _). apply Hz. rewrite <- Hx0. by apply list_elem_of_fmap_2.
  - intros x Hx. apply elem_of_app in Hx as [Hx|Hx]; [by apply Hmono, Hk|].
    by apply list_elem_of_singleton in Hx as ->.
Qed.

Lemma manager_add t : tm_id t = 0 → preserves manager_ok (add_tunnel t).
Proof.
  intros Ht w Hw. unfold after, add_tunnel, add_apply, mbind, M_bind.
  destruct (detection_eq t w) as [e ->]. destruct (acceptable w t) eqn:Ha; [|done].
  unfold db_exec. pose proof (insert_ok t (w_db w)) as Hi.
  destruct (insert_tunnel t (w_db w)) as [[id| | |] d']; [|by split; [apply Hw|intros x Hx; apply Hi, Hw]|done..].
  destruct Hi as (Hid & Hnew & Hk & Hmono).
  pose proof (manager_ok_push w t id d' Hw Ht Ha Hid Hnew Hk Hmono) as Hpush.
  destruct (env_only_to_ends (with_id id t) false (set_db d' w)) as (e' & _ & E').
  destruct (broadcast_to_ends (with_id id t) false (set_db d' w)) as [[[]| | |] w1];
    cbn in E'; subst w1; try (split; [apply Hw|intros x Hx; apply Hmono, Hw, Hx]).
  change (after server_sync_tunnels
    (set_world_tunnels (λ ts, ts ++ [with_id id t]) (set_env e' (set_db d' w))) (λ _, manager_ok)).
  apply manager_sync. exact Hpush.
Qed.

(** What deleting a row leaves has other ids. *)
Lemma deleted_id ts i t j x :
  tunnels_ok ts → ts !! i = Some t → delete i ts !! j = Some x → tm_id x ≠ tm_id t.
Proof.
  intros (Hnd & _) Hi Hj Hid.
  assert (∃ k, k ≠ i ∧ ts !! k = Some x) as (k & Hki & Hk).
  { destruct (decide (j < i)%nat).
    - rewrite list_lookup_delete_lt in Hj by done. exists j. split; [lia|done].
    - rewrite list_lookup_delete_ge in Hj by lia. exists (S j). split; [lia|done]. }
  apply Hki, (NoDup_lookup (tm_id <$> ts) k i (tm_id t) Hnd); rewrite list_lookup_fmap.
  - by rewrite Hk, <- Hid.
  - by rewrite Hi.
Qed.

Lemma position_None id ts x : position id ts = None → x ∈ ts → tm_id x ≠ id.
Proof.
  induction ts as [|t ts IH]; [by intros _ ?%not_elem_of_nil|]. cbn.
  destruct (Z.eqb_spec (tm_id t) id); [done|]. destruct (position id ts); [done|].
  intros _ [->|?]%elem_of_cons; [done|by apply IH].
Qed.

Lemma after_env_only {A B} (m : M world A) (f : A → M world B) w :
  env_only m → manager_ok w → (∀ a e, after (f a) (set_env e w) (λ _, manager_ok)) →
  after (m ≫= f) w (λ _, manager_ok).
Proof.
  intros Hm Hw Hf. apply after_bind. destruct (Hm w) as (e & _ & E). unfold after.
  destruct (m w) as [[a| | |] w1]; cbn [snd] in E; subst w1; [apply Hf|exact Hw..].
Qed.

Lemma position_at ts i t :
  NoDup (tm_id <$> ts) → ts !! i = Some t → position (tm_id t) ts = Some i.
Proof.
  intros Hnd Hi. destruct (position (tm_id t) ts) as [j|] eqn:Hj.
  - destruct (position_Some _ _ _ Hj) as (u & Hu & Hid). f_equal.
    apply (NoDup_lookup (tm_id <$> ts) j i (tm_id t) Hnd); rewrite list_lookup_fmap.
    + by rewrite Hu, <- Hid.
    + by rewrite Hi.
  - by destruct (position_None _ _ t Hj (list_elem_of_lookup_2 _ _ _ Hi)).
Qed.

(** The last part of an update, at the place where the tunnel is. *)
Lemma update_apply_ok i t u w :
  manager_ok w → w_tunnels w !! i = Some u → tm_id u = tm_id t →
  (∀ x, x ∈ w_tunnels w → tm_id x ≠ tm_id t → slot x ≠ slot t) →
  after (update_apply i t) w (λ _, manager_ok).
Proof.
  intros Hw Hi Hid Hc. unfold update_apply.
  apply after_env_only; [by apply env_only_const|done|]. intros old e1.
  apply after_env_only; [apply env_only_when, env_only_broadcast|done|]. intros _ e2.
  apply after_env_only; [apply env_only_when, env_only_broadcast|done|]. intros _ e3.
  apply after_env_only; [apply env_only_to_ends|done|]. intros _ e4.
  apply after_bind. cbn [modify after]. apply manager_sync. destruct Hw as [Hok Hk]. split.
  - by apply (tunnels_ok_update (w_tunnels w) i t u).
  - intros x Hx. change (w_tunnels _) with (<[i := t]> (w_tunnels w)) in Hx.
    apply list_elem_of_lookup in Hx as [j Hj].
    apply list_lookup_insert_Some in Hj as [(_ & <- & _)|[_ Hj]];
      [|by apply Hk; eapply list_elem_of_lookup_2].
    change (known (tm_id t) (w_db w)). rewrite <- Hid. apply Hk. by eapply list_elem_of_lookup_2.
Qed.

Lemma manager_delete id : preserves manager_ok (delete_tunnel id).
Proof.
  intros w [Hok Hk]. unfold after, delete_tunnel, mbind, M_bind, db_exec.
  pose proof (delete_ok id (w_db w)) as Hd.
  destruct (delete_tunnel_by_id id (w_db w)) as [[n| | |] d']; [|by split; [|intros; apply Hd, Hk]|done..].
  destruct (Z.eqb_spec n 1) as [->|Hn]; cbn [negb].
  2:{ split; [done|]. intros x Hx. apply Hd; [by right|by apply Hk]. }
  unfold gets. cbn [w_tunnels set_db].
  destruct (position id (w_tunnels w)) as [i|] eqn:Hp.
  - destruct (position_Some _ _ _ Hp) as (t & Hi & Hid).
    rewrite (index_lookup _ _ t) by done.
    set (w1 := set_world_tunnels (delete i) (set_db d' w)).
    assert (manager_ok w1) as Hw1.
    { split; [by apply tunnels_ok_delete|]. intros x Hx. cbn in Hx. apply Hd; [left|].
      - intros Hxid. apply list_elem_of_lookup in Hx as [j Hj].
        apply (deleted_id (w_tunnels w) i t j x); [done..|congruence].
      - by apply Hk, (list_elem_of_delete_inv _ i). }
    change (after (broadcast_to_ends t true;; server_sync_tunnels) w1 (λ _, manager_ok)).
    apply preserves_bind; [|intros _; apply manager_sync|done].
    by apply env_only_preserves; [apply env_only_to_ends|].
  - split; [done|]. intros x Hx. apply Hd; [|by apply Hk]. left.
    intros Hxid. by apply (position_None id (w_tunnels w) x).
Qed.

Lemma manager_update t : preserves manager_ok (update_tunnel t).
Proof.
  intros w Hw. assert (Hw' := Hw). destruct Hw' as [Hok Hk].
  unfold after, update_tunnel, update_position, mbind, M_bind.
  destruct (detection_eq t w) as [e ->]. destruct (acceptable w t) eqn:Ha; [|done].
  unfold gets. destruct (position (tm_id t) (w_tunnels w)) as [i|] eqn:Hp; [|done].
  unfold update_database, mbind, M_bind, db_query.
  pose proof (find_ok (tm_id t) (w_db w)) as Hf.
  destruct (find_tunnel_by_id (tm_id t) (w_db w)) as [[row|]| | |]; [|done..].
  unfold db_exec. pose proof (update_ok t (w_db w)) as Hu.
  destruct (update_tunnel_row t (w_db w)) as [[[]| | |] d']; [|by split; [|intros; apply Hu, Hk]|done..].
  destruct (position_Some _ _ _ Hp) as (u & Hi & Hid).
  change (after (update_apply i t) (set_db d' w) (λ _, manager_ok)).
  apply (update_apply_ok i t u); [split; [done|]; intros; by apply Hu, Hk|done..|].
  intros x Hx Hne. unfold acceptable in Ha. apply andb_true_iff in Ha as [_ Hc].
  apply negb_true_iff in Hc. by apply (no_conflict t x (w_tunnels w)).
Qed.
End Consistency.

(** *** The operations as edits of a table keyed by ids *)

Section Edits.
Context `{Prost} `{Json} `{Unicode} `{InletOs} `{TunnelDb} `{!TunnelDbOk}.
Implicit Types (w : world) (t u : tunnel_Model) (ts : list tunnel_Model).

(** A call on the manager, as the web interface makes them. *)
Inductive manager_call :=
| AddTunnel t
| DeleteTunnel (id : u32)
| UpdateTunnel t.

Definition manager_exec (c : manager_call) : M world unit :=
  match c with
  | AddTunnel t => add_tunnel t
  | DeleteTunnel id => delete_tunnel id
  | UpdateTunnel t => update_tunnel t
  end.
Definition manager_run (cs : list manager_call) w : world :=
  fold_left (λ w c, snd (manager_exec c w)) cs w.

(** The web interface adds tunnels without an id. *)
Definition call_ok (c : manager_call) : Prop :=
  match c with AddTunnel t => tm_id t = 0 | _ => True end.

Lemma manager_exec_ok c w : call_ok c → manager_ok w → manager_ok (snd (manager_exec c w)).
Proof.
  intros Hc Hw. assert (preserves manager_ok (manager_exec c)) as Hp.
  { destruct c; [by apply manager_add|apply manager_delete|apply manager_update]. }
  specialize (Hp w Hw). unfold after in Hp. by destruct (manager_exec c w).
Qed.

Definition replace_tunnel t ts : list tunnel_Model :=
  (λ x, if decide (tm_id x = tm_id t) then t else x) <$> ts.
Definition without (id : u32) ts : list tunnel_Model := base.filter (λ x, tm_id x ≠ id) ts.

(** What a call that succeeds makes of the table. *)
Inductive edit : manager_call → list tunnel_Model → list tunnel_Model → Prop :=
| edit_add t id ts :
    id ≠ 0 → id ∉ (tm_id <$> ts) → edit (AddTunnel t) ts (ts ++ [with_id id t])
| edit_delete id ts : edit (DeleteTunnel id) ts (without id ts)
| edit_update t ts :
    tm_id t ∈ (tm_id <$> ts) → edit (UpdateTunnel t) ts (replace_tunnel t ts).

Lemma without_all id ts : (∀ x, x ∈ ts → tm_id x ≠ id) → without id ts = ts.
Proof.
  unfold without. induction ts as [|t ts IH]; intros Hx; [done|].
  rewrite filter_cons_True by (apply Hx; left). f_equal. apply IH. intros x ?. apply Hx. by right.
Qed.

Lemma delete_at_position id ts i :
  NoDup (tm_id <$> ts) → position id ts = Some i → delete i ts = without id ts.
Proof.
  revert i. induction ts as [|t ts IH]; intros i Hnd; [done|]. cbn [position].
  cbn [fmap list_fmap] in Hnd. apply NoDup_cons in Hnd as [Hn Hnd]. unfold without.
  destruct (Z.eqb_spec (tm_id t) id) as [<-|Hne].
  - intros [= <-]. rewrite filter_cons_False by (by intros ?). symmetry. apply without_all.
    intros x Hx Hid. apply Hn. rewrite <- Hid. by apply list_elem_of_fmap_2.
  - destruct (position id ts) as [j|]; [|done]. intros [= <-].
    rewrite filter_cons_True by done. cbn. f_equal. by apply IH.
Qed.

Lemma replace_none t ts : tm_id t ∉ (tm_id <$> ts) → replace_tunnel t ts = ts.
Proof.
  unfold replace_tunnel. induction ts as [|u ts IH]; [done|]. cbn. intros Hn.
  apply not_elem_of_cons in Hn as [Hne Hn]. rewrite decide_False by done. f_equal. by apply IH.
Qed.

Lemma insert_at_position t ts i :
  NoDup (tm_id <$> ts) → position (tm_id t) ts = Some i → <[i := t]> ts = replace_tunnel t ts.
Proof.
  revert i. induction ts as [|u ts IH]; intros i Hnd; [done|]. cbn [position].
  cbn [fmap list_fmap] in Hnd. apply NoDup_cons in Hnd as [Hn Hnd].
  change (replace_tunnel t (u :: ts)) with
    ((if decide (tm_id u = tm_id t) then t else u) :: replace_tunnel t ts).
  destruct (Z.eqb_spec (tm_id u) (tm_id t)) as [Hid|Hne].
  - intros [= <-]. rewrite decide_True by done. rewrite replace_none; [done|]. by rewrite <- Hid.
  - destruct (position (tm_id t) ts) as [j|]; [|done]. intros [= <-].
    rewrite decide_False by done. cbn. f_equal. by apply IH.
Qed.

(** The ends are what a synchronisation with the table leaves of those there
    were, told apart by their descriptions; [Upkeep] says what that means for the
    rows themselves. *)
Definition synced w w' : Prop :=
  (∀ id, w_outlets w' !! id = server_expected_outlet (w_tunnels w') id (w_outlets w !! id)) ∧
  (∀ id, w_inlets w' !! id = server_expected_inlet (w_tunnels w') id (w_inlets w !! id)).

(** What the last steps of every operation do. *)
Lemma send_edit_sync (m : M world unit) (f : list tunnel_Model → list tunnel_Model) w :
  binds_answer → players_ok w → only_sends m → NoDup (tm_id <$> f (w_tunnels w)) →
  ∃ w', (m;; modify (set_world_tunnels f);; server_sync_tunnels) w = (Ok tt, w') ∧
    w_tunnels w' = f (w_tunnels w) ∧ synced w w'.
Proof.
  intros Hb Hw Hm Hnd. destruct (Hm w Hw) as ([] & e & E).
  set (w1 := set_world_tunnels f (set_env e w)).
  destruct (server_sync_eq w1 Hb Hnd) as (os & ins & Es & Ho & Hi). exists (with_ends os ins w1).
  split; [|split; [done|by split]].
  rewrite (bind_ok _ _ _ _ _ E). erewrite bind_ok; [|reflexivity]. exact Es.
Qed.

(** An edit whose row is gone by then sends after the edit. *)
Lemma edit_send_sync (m : M world unit) w :
  binds_answer → players_ok w → only_sends m → NoDup (tm_id <$> w_tunnels w) →
  ∃ w', (m;; server_sync_tunnels) w = (Ok tt, w') ∧ w_tunnels w' = w_tunnels w ∧ synced w w'.
Proof.
  intros Hb Hw Hm Hnd. destruct (Hm w Hw) as ([] & e & E).
  set (w1 := set_env e w).
  destruct (server_sync_eq w1 Hb Hnd) as (os & ins & Es & Ho & Hi). exists (with_ends os ins w1). split; [|split; [done|by split]].
  rewrite (bind_ok _ _ _ _ _ E). exact Es.
Qed.

Lemma add_apply_run t w :
  binds_answer → players_ok w →
  ∃ e os ins, add_apply t w =
    (Ok tt, with_ends os ins (set_world_tunnels (λ ts, ts ++ [t]) (set_env e w))).
Proof.
  intros Hb Hw. destruct (sends_to_ends t false w Hw) as ([] & e & E).
  destruct (server_sync_runs (set_world_tunnels (λ ts, ts ++ [t]) (set_env e w)) Hb) as (os & ins & Es).
  exists e, os, ins. unfold add_apply. rewrite (bind_ok _ _ _ _ _ E).
  erewrite bind_ok; [|reflexivity]. exact Es.
Qed.

(** What a call answers, with what it does to the table and the ends. *)
Definition call_post (c : manager_call) w (o : outcome unit) w' : Prop :=
  match o with
  | Ok _ => edit c (w_tunnels w) (w_tunnels w') ∧
      ((w_tunnels w' = w_tunnels w ∧ w_outlets w' = w_outlets w ∧ w_inlets w' = w_inlets w) ∨
       synced w w')
  | Err _ => w_tunnels w' = w_tunnels w ∧ w_outlets w' = w_outlets w ∧ w_inlets w' = w_inlets w
  | _ => False
  end.

Lemma add_call t w :
  binds_answer → players_ok w → manager_ok w → tm_id t = 0 →
  after (add_tunnel t) w (call_post (AddTunnel t) w).
Proof.
  intros Hb Hp Hw Ht. unfold add_tunnel, add_apply, after.
  destruct (detection_eq t w) as [e E]. unfold mbind at 1, M_bind at 1. rewrite E.
  destruct (acceptable w t) eqn:Ha; [|done].
  unfold mbind at 1, M_bind at 1. unfold db_exec. pose proof (insert_ok t (w_db w)) as Hi.
  destruct (insert_tunnel t (w_db w)) as [[id| | |] d']; [|done..].
  destruct Hi as (Hid & Hnew & Hk & Hmono).
  pose proof (manager_ok_push w t id d' Hw Ht Ha Hid Hnew Hk Hmono) as [(Hnd & _) _].
  destruct (send_edit_sync (broadcast_to_ends (with_id id t) false) (λ ts, ts ++ [with_id id t])
    (set_db d' w) Hb Hp (sends_to_ends _ _) Hnd) as (w' & -> & Hts & Hs).
  split; [|by right]. rewrite Hts. constructor; [done|]. intros Hin.
  apply list_elem_of_fmap in Hin as (x & -> & Hx). by apply Hnew, Hw.
Qed.

Lemma delete_call id w :
  binds_answer → players_ok w → manager_ok w →
  after (delete_tunnel id) w (call_post (DeleteTunnel id) w).
Proof.
  intros Hb Hp Hw. unfold delete_tunnel, after. unfold mbind at 1, M_bind at 1. unfold db_exec.
  pose proof (delete_ok id (w_db w)) as Hd.
  destruct (delete_tunnel_by_id id (w_db w)) as [[n| | |] d']; [|done..].
  destruct (Z.eqb_spec n 1) as [->|Hn]; [|done]. cbn [negb]. rewrite gets_bind.
  cbn [w_tunnels set_db]. destruct Hw as [Hok Hk]. assert (Hok' := Hok). destruct Hok' as (Hnd & _).
  destruct (position id (w_tunnels w)) as [i|] eqn:Hi.
  - destruct (position_Some _ _ _ Hi) as (t & Ht & _).
    set (w1 := set_world_tunnels (delete i) (set_db d' w)).
    rewrite (bind_ok _ _ _ t w1) by (cbn; by rewrite (index_lookup _ _ t Ht)).
    destruct (tunnels_ok_delete _ i Hok) as (Hnd' & _).
    destruct (edit_send_sync (broadcast_to_ends t true) w1 Hb Hp (sends_to_ends _ _) Hnd')
      as (w' & -> & Hts & Hs).
    split; [|by right]. rewrite Hts. cbn. rewrite (delete_at_position id) by done. constructor.
  - split; [|by left]. cbn. rewrite <- (without_all id (w_tunnels w)) at 2; [constructor|].
    intros x. by apply position_None.
Qed.

Lemma sends_update_apply old t :
  only_sends (when (negb (tm_sender old =? tm_sender t)) (broadcast_tunnel_info (tm_sender old) t true);;
              when (negb (tm_receiver old =? tm_sender t))
                (broadcast_tunnel_info (tm_receiver old) t true);;
              broadcast_to_ends t false).
Proof.
  apply sends_bind; [apply sends_when, sends_broadcast|]. intros _.
  apply sends_bind; [apply sends_when, sends_broadcast|]. intros _. apply sends_to_ends.
Qed.

Lemma bind_assoc {S A B C} (m : M S A) (f : A → M S B) (g : B → M S C) s :
  ((m ≫= f) ≫= g) s = (m ≫= (λ a, f a ≫= g)) s.
Proof. unfold mbind, M_bind. by destruct (m s) as [[] ?]. Qed.

Lemma update_apply_eq i t old w :
  w_tunnels w !! i = Some old →
  ∃ m : M world unit, only_sends m ∧
    update_apply i t w = (m;; modify (set_world_tunnels <[i := t]>);; server_sync_tunnels) w.
Proof.
  intros Hi. eexists. split; [apply (sends_update_apply old t)|]. unfold update_apply.
  rewrite (bind_ok _ _ _ old w) by (cbn; by rewrite (index_lookup _ _ old Hi)).
  rewrite !bind_assoc. unfold mbind, M_bind. destruct (when _ _ w) as [[] w1]; [|done..].
  by destruct (when _ _ w1) as [[] ?].
Qed.

(** [update_apply] where its index leads to a tunnel. *)
Lemma update_apply_run i t old w :
  binds_answer → players_ok w → w_tunnels w !! i = Some old →
  NoDup (tm_id <$> <[i := t]> (w_tunnels w)) →
  ∃ w', update_apply i t w = (Ok tt, w') ∧ w_tunnels w' = <[i := t]> (w_tunnels w) ∧ synced w w'.
Proof.
  intros Hb Hp Hi Hnd. destruct (update_apply_eq i t old w Hi) as (m & Hm & ->).
  exact (send_edit_sync m <[i := t]> w Hb Hp Hm Hnd).
Qed.

(** Even where the index leads to another tunnel's place. *)
Lemma update_apply_any i t old w :
  binds_answer → players_ok w → w_tunnels w !! i = Some old →
  ∃ w', update_apply i t w = (Ok tt, w') ∧ w_tunnels w' = <[i := t]> (w_tunnels w).
Proof.
  intros Hb Hp Hi. destruct (update_apply_eq i t old w Hi) as (m & Hm & ->).
  destruct (Hm w Hp) as ([] & e & E). set (w1 := set_world_tunnels <[i := t]> (set_env e w)).
  destruct (server_sync_runs w1 Hb) as (os & ins & Es). exists (with_ends os ins w1).
  split; [|done]. rewrite (bind_ok _ _ _ _ _ E). erewrite bind_ok; [|reflexivity]. exact Es.
Qed.

Lemma update_call t w :
  binds_answer → players_ok w → manager_ok w →
  after (update_tunnel t) w (call_post (UpdateTunnel t) w).
Proof.
  intros Hb Hp Hw. unfold update_tunnel, update_position, after. rewrite bind_assoc.
  destruct (detection_eq t w) as [e E]. unfold mbind at 1, M_bind at 1. rewrite E.
  destruct (acceptable w t) eqn:Ha; [|done]. rewrite gets_bind.
  destruct (position (tm_id t) (w_tunnels w)) as [i|] eqn:Hi; [|done].
  unfold mbind at 1, M_bind at 1. unfold update_database, mbind at 1, M_bind at 1, db_query.
  pose proof (find_ok (tm_id t) (w_db w)) as Hf.
  destruct (find_tunnel_by_id (tm_id t) (w_db w)) as [[row|]| | |]; [|done..].
  unfold db_exec. pose proof (update_ok t (w_db w)) as Hu.
  destruct (update_tunnel_row t (w_db w)) as [[[]| | |] d']; [|done..].
  destruct (position_Some _ _ _ Hi) as (u & Hu' & Hid). destruct Hw as [(Hnd & _) _].
  assert (NoDup (tm_id <$> <[i := t]> (w_tunnels w))) as Hnd'.
  { rewrite list_fmap_insert, list_insert_id; [done|]. by rewrite list_lookup_fmap, Hu', <- Hid. }
  destruct (update_apply_run i t u (set_db d' w) Hb Hp Hu' Hnd') as (w' & -> & Hts & Hs).
  split; [|by right]. rewrite Hts. change (w_tunnels (set_db d' w)) with (w_tunnels w).
  rewrite insert_at_position by done. constructor.
  rewrite <- Hid. apply list_elem_of_fmap_2. by eapply list_elem_of_lookup_2.
Qed.
End Edits.

(** *** Pages *)

Section Pages.
Context `{UserDb}.

Definition page (k size : nat) (ts : list tunnel_Model) : list tunnel_Model :=
  take size (drop (k * size) ts).

Lemma pages_join n size ts : mjoin ((λ k, page k size ts) <$> seq 0 n) = take (n * size) ts.
Proof.
  induction n as [|n IH]; [done|].
  rewrite seq_S, fmap_app, join_app, IH. cbn. rewrite app_nil_r. unfold page.
  rewrite <- (take_drop (n * size) ts) at 3. rewrite take_app.
  rewrite take_take, length_take. replace (Nat.min (size + n * size) (n * size)) with (n * size)%nat by lia.
  destruct (decide (n * size <= length ts)%nat).
  - f_equal. f_equal. lia.
  - rewrite drop_ge by lia. by rewrite !take_nil.
Qed.

Lemma page_size_range s : 1 <= page_size_of s <= 100.
Proof.
  unfold page_size_of. destruct (Z.leb_spec s 0), (Z.ltb_spec 100 s); cbn; lia.
Qed.

Lemma as_usize_range x : 0 <= as_usize x < 18446744073709551616.
Proof. apply Z.mod_pos_bound. lia. Qed.

Lemma query_total n s (w : world) : ∃ p, query n s w = (Ok p, w) ∧ len p <= 100.
Proof.
  unfold query. rewrite gets_bind. cbv zeta. pose proof (page_size_range s).
  pose proof (as_usize_range (n * page_size_of s)) as Hst. revert Hst. generalize (as_usize (n * page_size_of s)) as st. intros st Hst.
  assert (as_usize (st + page_size_of s) <= st + page_size_of s).
  { unfold as_usize. apply Z.mod_le; lia. }
  destruct (_ && _) eqn:E; [|by exists []]. apply andb_prop in E as [E1 E2].
  apply Z.leb_le in E1, E2. rewrite slice_ok by lia. eexists. split; [done|].
  unfold len. rewrite length_take. lia.
Qed.

Lemma query_page k s (w : world) :
  0 < s <= 100 → (Z.of_nat k + 1) * s < 18446744073709551616 →
  query (Z.of_nat k) s w = (Ok (page k (Z.to_nat s) (w_tunnels w)), w).
Proof.
  intros Hs Hk. unfold query. rewrite gets_bind.
  assert (page_size_of s = s) as ->.
  { unfold page_size_of. destruct (Z.leb_spec s 0), (Z.ltb_spec 100 s); cbn; lia. }
  unfold as_usize. rewrite (Z.mod_small (Z.of_nat k * s)) by nia.
  rewrite (Z.mod_small (Z.of_nat k * s + s)) by nia.
  set (ts := w_tunnels w). unfold page.
  assert (Z.to_nat (Z.of_nat k * s) = (k * Z.to_nat s)%nat) as Hn by nia.
  destruct (Z.leb_spec (Z.of_nat k * s) (Z.min (Z.of_nat k * s + s) (len ts))) as [Hle|Hgt].
  - destruct (Z.leb_spec (Z.min (Z.of_nat k * s + s) (len ts)) (len ts)); [|lia]. cbn [andb].
    rewrite slice_ok by nia. unfold lift. do 2 f_equal. rewrite Hn.
    destruct (decide (Z.of_nat k * s + s <= len ts)).
    + f_equal. lia.
    + rewrite !take_ge; [done|rewrite length_drop; unfold len in *; lia..].
  - cbn [andb]. rewrite drop_ge by (unfold len in *; lia). by rewrite take_nil.
Qed.
End Pages.

(** ** Properties *)

Section TunnelsProperties.
Context `{Prost} `{Json} `{Unicode} `{InletOs} `{TunnelDb} `{!TunnelDbOk}.
Implicit Types (w : world) (t u : tunnel_Model) (ts : list tunnel_Model).

(** C28: Whatever calls the web interface makes one after the other, with
    whatever outcomes, the table of tunnels stays consistent: ids are distinct, and no two tunnels
    of one receiver listen on the same port, as far as the source's text shows
    one; so two IPv4 sources of one receiver have different ports. Calls that
    overlap need not keep it: [add_race] and [update_race]. *)
Theorem tunnels_consistent (cs : list manager_call) w :
  Forall call_ok cs → manager_ok w →
  let ts := w_tunnels (manager_run cs w) in
  NoDup (tm_id <$> ts) ∧
  (∀ t u, t ∈ ts → u ∈ ts → tm_receiver t = tm_receiver u →
     get_tunnel_address_port (tm_source t) = get_tunnel_address_port (tm_source u) → t = u) ∧
  (∀ t u ip p ip' p', t ∈ ts → u ∈ ts → tm_receiver t = tm_receiver u → t ≠ u →
     parse_socket_addr (tm_source t) = Ok (V4 ip p) →
     parse_socket_addr (tm_source u) = Ok (V4 ip' p') → p ≠ p').
Proof.
  intros Hcs Hw ts. assert (manager_ok (manager_run cs w)) as [(Hnd & _ & Hs) _].
  { subst ts. revert w Hw. induction Hcs as [|c cs Hc Hcs IH]; intros w Hw; [done|].
    apply IH. by apply manager_exec_ok. }
  fold ts in Hnd, Hs.
  assert (∀ t u, t ∈ ts → u ∈ ts → tm_receiver t = tm_receiver u →
    get_tunnel_address_port (tm_source t) = get_tunnel_address_port (tm_source u) → t = u) as Hslot.
  { intros t u Ht Hu Hr Hp. apply list_elem_of_lookup in Ht as [i Hi], Hu as [j Hj].
    assert (i = j) as ->; [|congruence]. apply (NoDup_lookup (slot <$> ts) i j (slot t) Hs).
    - by rewrite list_lookup_fmap, Hi.
    - rewrite list_lookup_fmap, Hj. cbn. unfold slot. by rewrite Hr, Hp. }
  split; [done|]. split; [done|]. intros t u ip p ip' p' Ht Hu Hr Hne Ep Ep' <-.
  apply Hne, Hslot; [done..|]. by rewrite (source_port _ _ Ep), (source_port _ _ Ep').
Qed.

(** C40: An update races with a deletion. The place of the tunnel in the table
    is found before the database is asked; if a tunnel before it is deleted
    meanwhile, the update overwrites the tunnel that comes after it, which is
    lost from the table while the updated one is there twice, or, where none
    comes after it, panics. *)
Theorem update_race t a old l1 l2 l3 w w' :
  binds_answer → players_ok w' → acceptable w t = true → NoDup (tm_id <$> w_tunnels w) →
  w_tunnels w = l1 ++ a :: l2 ++ old :: l3 → tm_id old = tm_id t →
  edit (DeleteTunnel (tm_id a)) (w_tunnels w) (w_tunnels w') →
  ∃ i, update_position t w = (Ok (Some i), w) ∧
    match l3 with
    | [] => is_panic (fst (update_apply i t w')) = true
    | b :: l3 => ∃ w'', update_apply i t w' = (Ok tt, w'') ∧
        w_tunnels w'' = l1 ++ l2 ++ old :: t :: l3
    end.
Proof.
  intros Hb Hp Ha Hnd Hw Hid Hdel.
  assert (position (tm_id t) (w_tunnels w) = Some (S (length (l1 ++ l2)))) as Hpos.
  { rewrite <- Hid. replace (S (length (l1 ++ l2))) with (length (l1 ++ a :: l2))
      by (rewrite !length_app; cbn; lia).
    apply position_at; [done|]. rewrite Hw.
    change (a :: l2 ++ old :: l3) with ((a :: l2) ++ old :: l3). rewrite app_assoc.
    by apply list_lookup_middle. }
  assert (w_tunnels w' = l1 ++ l2 ++ old :: l3) as Hw'.
  { inversion Hdel as [|id ts Eid Ets Hd|].
    rewrite <- (delete_at_position (tm_id a) (w_tunnels w) (length l1)); [|done|].
    - rewrite Hw. by rewrite delete_middle.
    - apply position_at; [done|]. rewrite Hw. by apply list_lookup_middle. }
  exists (S (length (l1 ++ l2))). split.
  { unfold update_position. destruct (detection_eq t w) as [e E]. rewrite Ha in E.
    rewrite (bind_ok _ _ _ _ _ E). unfold gets. by rewrite Hpos. }
  destruct l3 as [|b l3].
  - unfold update_apply, mbind, M_bind.
    pose proof (index_oob (w_tunnels w') (Z.of_nat (S (length (l1 ++ l2))))) as Hoob.
    destruct (index (w_tunnels w') _); try done;
      assert (false = true) by (apply Hoob; rewrite Hw'; unfold len; rewrite !length_app; cbn; lia);
      done.
  - destruct (update_apply_any (S (length (l1 ++ l2))) t b w' Hb Hp) as (w'' & E & Hts).
    { rewrite Hw', app_assoc, lookup_app_r by lia.
      by replace (S (length (l1 ++ l2)) - length (l1 ++ l2))%nat with 1%nat by lia. }
    exists w''. split; [done|]. rewrite Hts, Hw', app_assoc, insert_app_r_alt by lia.
    replace (S (length (l1 ++ l2)) - length (l1 ++ l2))%nat with 1%nat by lia.
    by rewrite <- app_assoc.
Qed.

(** Two additions race. Both pass the check of ports before either has its row:
    then both are added, and two tunnels of one receiver listen in one place. *)
Theorem add_race t u i j d1 d2 w :
  binds_answer → players_ok w → acceptable w t = true → acceptable w u = true → slot t = slot u →
  insert_tunnel t (w_db w) = (Ok i, d1) → insert_tunnel u d1 = (Ok j, d2) →
  tunnel_detection t w = (Ok tt, w) ∧ tunnel_detection u w = (Ok tt, w) ∧
  ∃ w1 w2,
    (db_exec (insert_tunnel t) ≫= (λ id, add_apply (with_id id t))) w = (Ok tt, w1) ∧
    (db_exec (insert_tunnel u) ≫= (λ id, add_apply (with_id id u))) w1 = (Ok tt, w2) ∧
    w_tunnels w2 = w_tunnels w ++ [with_id i t; with_id j u] ∧ ¬ tunnels_ok (w_tunnels w2).
Proof.
  intros Hb Hp Ht Hu Hs Hi Hj.
  destruct (detection_eq t w) as [e ->], (detection_eq u w) as [e' ->]. rewrite Ht, Hu.
  split; [done|]. split; [done|].
  destruct (add_apply_run (with_id i t) (set_db d1 w) Hb Hp) as (e1 & os1 & ins1 & E1).
  set (w1 := with_ends _ _ _) in E1.
  destruct (add_apply_run (with_id j u) (set_db d2 w1) Hb Hp) as (e2 & os2 & ins2 & E2).
  eexists w1, _. split; [|split; [|split]].
  - unfold mbind, M_bind, db_exec. rewrite Hi. exact E1.
  - unfold mbind, M_bind, db_exec. change (w_db w1) with d1. rewrite Hj. exact E2.
  - cbn. by rewrite <- app_assoc.
  - intros (_ & _ & Hnd). cbn in Hnd. rewrite <- app_assoc, fmap_app in Hnd.
    apply NoDup_app in Hnd as (_ & _ & Hnd). cbn in Hnd. apply NoDup_cons in Hnd as [Hn _].
    apply Hn. change (slot (with_id i t)) with (slot t). rewrite Hs. left.
Qed.

(** Tunnels with IPv6 sources are taken to conflict. The check of ports
    reads no port from an IPv6 address, and compares nothing with nothing: a
    second such tunnel of a receiver, whatever its address and port, is
    refused as [port already in use]. *)
Theorem ipv6_sources_conflict t u ip p f sc ip' p' f' sc' w :
  u ∈ w_tunnels w → tm_id u ≠ tm_id t → tm_receiver u = tm_receiver t →
  parse_socket_addr (tm_source t) = Ok (V6 ip p f sc) →
  parse_socket_addr (tm_source u) = Ok (V6 ip' p' f' sc') →
  is_valid_tunnel_endpoint_address (tm_endpoint t) = true →
  player_known w (tm_sender t) = true → player_known w (tm_receiver t) = true →
  add_tunnel t w = (Err "port already in use", w) ∧
  update_tunnel t w = (Err "port already in use", w).
Proof.
  intros Hu Hid Hr Ht Hs He Hp1 Hp2.
  assert (tunnel_detection t w = (Err "port already in use", w)) as E.
  { unfold tunnel_detection, is_valid_tunnel_source_address. rewrite Ht, He. cbn [is_ok negb].
    rewrite (bind_ok _ _ _ tt w) by (by apply detect_known).
    rewrite (bind_ok _ _ _ tt w) by (by apply detect_known).
    unfold port_conflict_detection. rewrite gets_bind.
    replace (existsb _ _) with true; [done|]. symmetry. apply existsb_exists.
    exists u. split; [by apply list_elem_of_In|]. apply port_conflicts_spec.
    split; [|done]. unfold slot. by rewrite Hr, (source_port _ _ Ht), (source_port _ _ Hs). }
  split; [unfold add_tunnel|unfold update_tunnel, update_position];
    unfold mbind, M_bind; by rewrite E.
Qed.

(** The pages of the tunnel list, of any admissible size, put together
    from page 0 are the table; and no page number or size makes a query panic
    or return more than a hundred tunnels. *)
Theorem query_pages (size : usize) (n : nat) w :
  0 < size <= 100 → len (w_tunnels w) <= Z.of_nat n * size →
  Z.of_nat n * size < 18446744073709551616 →
  mjoin ((λ k, match fst (query (Z.of_nat k) size w) with Ok p => p | _ => [] end) <$> seq 0 n)
    = w_tunnels w ∧
  ∀ page_number page_size, ∃ p, query page_number page_size w = (Ok p, w) ∧ len p <= 100.
Proof.
  intros Hs Hn Hb. split; [|intros; apply query_total].
  transitivity (mjoin ((λ k, page k (Z.to_nat size) (w_tunnels w)) <$> seq 0 n)).
  - f_equal. apply list_fmap_ext. intros i k Hk. apply lookup_seq in Hk as [-> Hk].
    rewrite query_page; [done|done|]. nia.
  - rewrite pages_join. apply take_ge. unfold len in Hn. nia.
Qed.
End TunnelsProperties.

(** ** Concrete instances, for the witnesses *)

Module TunnelsConcrete.

(** A database with the ids of its tunnels; a new row gets the next one. *)
#[export] Instance users : UserDb := {|
  db := list u32;
  find_login _ _ _ := Ok None;
  find_username _ _ := Ok None;
  insert_user _ d := (Ok tt, d)
|}.
Definition top (ids : list u32) : u32 := foldr Z.max 0 ids.
#[export] Instance rows : TunnelDb := {|
  find_all_tunnels _ := Ok [];
  find_tunnel_by_id id d := Ok None;
  insert_tunnel _ d := (Ok (top d + 1), (top d + 1) :: d);
  delete_tunnel_by_id id d :=
    (Ok (if decide (id ∈ d) then 1 else 0), base.filter (λ x, x ≠ id) d);
  update_tunnel_row _ d := (Ok tt, d)
|}.

Lemma top_ge ids x : x ∈ ids → x <= top ids.
Proof.
  induction ids as [|y ids IH]; [by intros ?%not_elem_of_nil|].
  intros [->|Hx]%elem_of_cons; cbn; [lia|]. specialize (IH Hx). unfold top in IH. lia.
Qed.
Lemma top_nonneg ids : 0 <= top ids.
Proof. induction ids as [|y ids IH]; cbn; [done|]. unfold top in IH. lia. Qed.

#[export] Instance rows_ok : @TunnelDbOk users rows.
Proof.
  refine (@Build_TunnelDbOk users rows (λ (x : u32) (d : @db users), x ∈ (d : list u32)) _ _ _ _).
  - intros t d. cbn. pose proof (top_nonneg d). split; [lia|]. split.
    { intros Hx. apply top_ge in Hx. lia. }
    split; [left|by right].
  - intros id d. cbn. intros x Hx Hd. apply list_elem_of_filter. split; [|done].
    intros ->. rewrite decide_True in Hx by done. by destruct Hx.
  - intros id d. exact I.
  - intros t d x Hx. exact Hx.
Defined.

#[export] Instance json : Json := {| mapping_from_str := λ _, Err "not a mapping" |}.
#[export] Instance unicode : Unicode := {| is_alphanumeric := ascii_alphanumeric; is_alphanumeric_ascii := λ _ _, eq_refl |}.
#[export] Instance os : InletOs := {|
  tcp_listener_bind := λ _, Ok tt; udp_socket_bind := λ _, Ok tt |}.
Lemma os_binds : binds_answer.
Proof. intros [] a; by cbn; destruct (parse_socket_addr a). Qed.

Definition tunnel (id receiver : u32) (source : string) : tunnel_Model :=
  {| tm_id := id; tm_source := source; tm_endpoint := "10.0.0.9:80"; tm_enabled := 1;
     tm_sender := 0; tm_receiver := receiver; tm_description := ""; tm_tunnel_type := 0;
     tm_password := ""; tm_username := ""; tm_is_compressed := 0; tm_custom_mapping := "";
     tm_encryption_method := "None" |}.

Definition start (ts : list tunnel_Model) : world := {|
  w_env := env0; w_players := {[10 := player_new 7]}; w_player_list := [10];
  w_player_map := {[7 := 10]}; w_tunnels := ts; w_outlets := ∅; w_inlets := ∅;
  w_db := tm_id <$> ts
|}.

Lemma tunnels_start_players ts : players_ok (start ts).
Proof.
  intros id h Hm. cbn [start w_player_map] in Hm.
  apply lookup_singleton_Some in Hm as [_ <-]. by eexists.
Qed.

Definition a1 : tunnel_Model := tunnel 1 0 "0.0.0.0:8001".
Definition a2 : tunnel_Model := tunnel 2 0 "0.0.0.0:8002".
Definition a3 : tunnel_Model := tunnel 3 7 "0.0.0.0:8001".
Definition six (id : u32) (port : string) : tunnel_Model := tunnel id 0 ("[::1]:" +:+ port).
End TunnelsConcrete.

Section TunnelsWitnesses.
Import TunnelsConcrete.
#[local] Existing Instances ProstConcrete.prost users rows rows_ok json unicode os.

Lemma manager_ok_empty : manager_ok (TunnelsConcrete.start []).
Proof. split; [split; [constructor|split; [apply not_elem_of_nil|constructor]]|by intros t ?%not_elem_of_nil]. Qed.

Lemma tunnels_consistent_witness :
  let ts := w_tunnels (manager_run
    [AddTunnel (tunnel 0 0 "0.0.0.0:8001"); AddTunnel (tunnel 0 0 "127.0.0.1:8001");
     AddTunnel (tunnel 0 7 "0.0.0.0:8001"); DeleteTunnel 1] (TunnelsConcrete.start [])) in
  NoDup (tm_id <$> ts) ∧
  (∀ t u, t ∈ ts → u ∈ ts → tm_receiver t = tm_receiver u →
     get_tunnel_address_port (tm_source t) = get_tunnel_address_port (tm_source u) → t = u) ∧
  (∀ t u ip p ip' p', t ∈ ts → u ∈ ts → tm_receiver t = tm_receiver u → t ≠ u →
     parse_socket_addr (tm_source t) = Ok (V4 ip p) →
     parse_socket_addr (tm_source u) = Ok (V4 ip' p') → p ≠ p').
Proof.
  apply (tunnels_consistent
    [AddTunnel (tunnel 0 0 "0.0.0.0:8001"); AddTunnel (tunnel 0 0 "127.0.0.1:8001");
     AddTunnel (tunnel 0 7 "0.0.0.0:8001"); DeleteTunnel 1] (TunnelsConcrete.start [])).
  - by repeat constructor.
  - apply manager_ok_empty.
Defined.

(** Tunnel 2 is updated while tunnel 1 is deleted: tunnel 3 is lost. *)
Lemma update_race_witness : ∃ i,
  update_position a2 (TunnelsConcrete.start [a1; a2; a3]) =
    (Ok (Some i), TunnelsConcrete.start [a1; a2; a3]) ∧
  ∃ w'', update_apply i a2 (TunnelsConcrete.start [a2; a3]) = (Ok tt, w'') ∧
    w_tunnels w'' = [a2; a2].
Proof.
  apply (update_race a2 a1 a2 [] [] [a3] (TunnelsConcrete.start [a1; a2; a3])
    (TunnelsConcrete.start [a2; a3])).
  - apply os_binds.
  - apply tunnels_start_players.
  - vm_compute. reflexivity.
  - apply (bool_decide_unpack _). vm_compute. exact I.
  - reflexivity.
  - reflexivity.
  - exact (edit_delete 1 [a1; a2; a3]).
Defined.

(** Two players' web pages add a tunnel on port 8001 at once. *)
Lemma add_race_witness : ∃ w2,
  w_tunnels w2 = [with_id 1 (tunnel 0 0 "0.0.0.0:8001"); with_id 2 (tunnel 0 0 "127.0.0.1:8001")] ∧
  ¬ tunnels_ok (w_tunnels w2).
Proof.
  destruct (add_race (tunnel 0 0 "0.0.0.0:8001") (tunnel 0 0 "127.0.0.1:8001") 1 2
    ([1] : @db users) ([2; 1] : @db users) (TunnelsConcrete.start []))
    as (_ & _ & w1 & w2 & _ & _ & Hw & Hn);
    [exact os_binds|apply tunnels_start_players|vm_compute; reflexivity..|].
  by exists w2.
Defined.

Lemma ipv6_sources_conflict_witness :
  add_tunnel (six 0 "8002") (TunnelsConcrete.start [six 1 "8001"]) =
    (Err "port already in use", TunnelsConcrete.start [six 1 "8001"]) ∧
  update_tunnel (six 0 "8002") (TunnelsConcrete.start [six 1 "8001"]) =
    (Err "port already in use", TunnelsConcrete.start [six 1 "8001"]).
Proof.
  apply (ipv6_sources_conflict (six 0 "8002") (six 1 "8001")
    [0; 0; 0; 0; 0; 0; 0; 0; 0; 0; 0; 0; 0; 0; 0; 1] 8002 0 0
    [0; 0; 0; 0; 0; 0; 0; 0; 0; 0; 0; 0; 0; 0; 0; 1] 8001 0 0 (TunnelsConcrete.start [six 1 "8001"])).
  - left.
  - discriminate.
  - reflexivity.
  - vm_compute. reflexivity.
  - vm_compute. reflexivity.
  - vm_compute. reflexivity.
  - reflexivity.
  - reflexivity.
Defined.

Lemma query_pages_witness :
  mjoin ((λ k, match fst (query (Z.of_nat k) 2 (TunnelsConcrete.start [a1; a2; a3])) with
               | Ok p => p | _ => [] end) <$> seq 0 2) = [a1; a2; a3] ∧
  ∀ page_number page_size, ∃ p, query page_number page_size (TunnelsConcrete.start [a1; a2; a3]) =
    (Ok p, TunnelsConcrete.start [a1; a2; a3]) ∧ len p <= 100.
Proof.
  apply (query_pages 2 2 (TunnelsConcrete.start [a1; a2; a3])).
  - lia.
  - vm_compute. discriminate.
  - reflexivity.
Defined.
End TunnelsWitnesses.
