(* ===== verification/Upkeep.v ===== *)
(** The server's own ends through the calls on the tunnel manager
    ([np_server/src/global/manager/tunnel.rs] and [proxy.rs]): what the texts
    that tag the ends tell about a row, and that every call keeps the ends those
    of the table. *)

From stdpp Require Import pretty.
From S2P Require Import Prelude Std Extern Net Proxy Inlet Messages Bridge Framing Ends Str Server.
From S2P Require Import Tunnels.

(** ** Taking a text apart at its labels

    A label starts with a dash and has no other. *)

(** [d] does not occur in [s]. *)
Definition free_of (d s : string) : Prop := ∀ p q, s ≠ p +:+ d +:+ q.
Definition is_label (d : string) : bool :=
  match as_bytes d with b :: l => (b =? 45) && negb (bool_decide (45 ∈ l)) | [] => false end.

Lemma split_label_aux (l a a' r r' : bytes) k :
  45 ∉ l → (∀ p q, a' ≠ p ++ (45 :: l) ++ q) →
  a' = a ++ k → (45 :: l) ++ r = k ++ (45 :: l) ++ r' → a = a' ∧ r = r'.
Proof.
  intros Hl Ha' -> E. destruct k as [|b k].
  { rewrite app_nil_r. cbn in E. injection E as E. by apply app_inv_head in E. }
  cbn in E. injection E as <- E. exfalso.
  apply app_eq_app in E as (k2 & [[E1 E2]|[-> E2]]).
  - destruct k2 as [|b k2].
    + rewrite app_nil_r in E1. subst k. by apply (Ha' a []); rewrite app_nil_r.
    + cbn in E2. injection E2 as <- _. apply Hl. rewrite E1. apply elem_of_app. right. left.
  - by apply (Ha' a k2).
Qed.

Lemma split_label (d a a' r r' : string) :
  is_label d = true → free_of d a → free_of d a' → a +:+ d +:+ r = a' +:+ d +:+ r' → a = a' ∧ r = r'.
Proof.
  intros Hd Ha Ha' E. unfold is_label in Hd. destruct (as_bytes d) as [|b l] eqn:Ed; [done|].
  apply andb_prop in Hd as [->%Z.eqb_eq Hd]. apply negb_true_iff, bool_decide_eq_false in Hd.
  assert (∀ s, free_of d s → ∀ p q, as_bytes s ≠ p ++ (45 :: l) ++ q) as Hfree.
  { intros s Hs p q Es. apply (Hs (of_bytes p) (of_bytes q)).
    rewrite <- (of_bytes_as_bytes d), Ed, <- !of_bytes_app, <- Es. by rewrite of_bytes_as_bytes. }
  apply (f_equal as_bytes) in E. rewrite !as_bytes_app, Ed in E.
  assert (as_bytes a = as_bytes a' ∧ as_bytes r = as_bytes r') as [Ea Er];
    [|by split; apply as_bytes_inj].
  apply app_eq_app in E as (k & [[E1 E2]|[E1 E2]]).
  - destruct (split_label_aux l (as_bytes a') (as_bytes a) (as_bytes r') (as_bytes r) k); auto.
  - destruct (split_label_aux l (as_bytes a) (as_bytes a') (as_bytes r) (as_bytes r') k); auto.
Qed.

Lemma text_app_inj (p a b : string) : p +:+ a = p +:+ b → a = b.
Proof.
  intros E. apply as_bytes_inj. apply (f_equal as_bytes) in E. rewrite !as_bytes_app in E.
  by apply app_inv_head in E.
Qed.

(** A text without dashes, as those of numbers are, is free of labels. *)
Lemma dashless_free d s : is_label d = true → 45 ∉ as_bytes s → free_of d s.
Proof.
  intros Hd Hs p q ->. apply Hs. rewrite !as_bytes_app. unfold is_label in Hd.
  apply elem_of_app. right. apply elem_of_app. left.
  destruct (as_bytes d) as [|b l]; [done|]. apply andb_prop in Hd as [->%Z.eqb_eq _]. left.
Qed.

Lemma show_dashless n : 45 ∉ as_bytes (show n).
Proof.
  assert (∃ m, 0 <= m ∧ show n = show m) as (m & Hm & ->).
  { exists (Z.of_N (Z.to_N n)). split; [lia|]. unfold show. by rewrite N2Z.id. }
  destruct (show_canonical m Hm) as (ds & -> & (Hds & _) & _). unfold dec_bytes.
  intros (d & E & Hd)%list_elem_of_fmap. rewrite Forall_forall in Hds. specialize (Hds d Hd). lia.
Qed.
Lemma show_free d n : is_label d = true → free_of d (show n).
Proof. intros Hd. apply dashless_free; [done|apply show_dashless]. Qed.
Lemma show_inj n m : 0 <= n → 0 <= m → show n = show m → n = m.
Proof. intros Hn Hm E. unfold show in E. apply (inj (pretty (A := N))) in E. lia. Qed.

(** ** What a description tells *)

Section Descriptions.
Context `{Prost} `{Json} `{Unicode} `{InletOs} `{TunnelDb}.
Implicit Types (t u : tunnel_Model).

(** A row of the database's types, none of whose texts holds the label that
    follows it in the description. *)
Record separable t : Prop := {
  sep_sender : in_u32 (tm_sender t);
  sep_receiver : in_u32 (tm_receiver t);
  sep_type : in_u32 (tm_tunnel_type t);
  sep_enabled : in_u8 (tm_enabled t);
  sep_compressed : in_u8 (tm_is_compressed t);
  sep_source : free_of "-endpoint:" (tm_source t);
  sep_endpoint : free_of "-sender:" (tm_endpoint t);
  sep_username : free_of "-password:" (tm_username t);
  sep_password : free_of "-enabled:" (tm_password t);
  sep_method : free_of "-custom_mapping:" (tm_encryption_method t)
}.

Lemma separable_with_id id t : separable t → separable (with_id id t).
Proof. by intros []. Qed.

(** Equal in all that an inlet is started with. *)
Definition same_inlet t u : Prop :=
  tm_source t = tm_source u ∧ tm_endpoint t = tm_endpoint u ∧ tm_sender t = tm_sender u ∧
  tm_receiver t = tm_receiver u ∧ tm_tunnel_type t = tm_tunnel_type u ∧
  tm_username t = tm_username u ∧ tm_password t = tm_password u ∧
  tm_is_compressed t = tm_is_compressed u ∧ tm_encryption_method t = tm_encryption_method u.

(** The text before the next label of two equal descriptions. *)
#[local] Ltac next E :=
  let E' := fresh in
  apply split_label in E as [E' E];
    [|reflexivity|first [assumption|by apply show_free]|first [assumption|by apply show_free]];
  try (apply show_inj in E'; [|lia|lia]).

Lemma inlet_description_tells t u :
  separable t → separable u → model_inlet_description t = model_inlet_description u → same_inlet t u.
Proof.
  intros [Ht1 Ht2 Ht3 Ht4 Ht5 Ht6 Ht7 Ht8 Ht9 Ht10] [Hu1 Hu2 Hu3 Hu4 Hu5 Hu6 Hu7 Hu8 Hu9 Hu10] E.
  unfold in_u32, in_u8 in *. unfold model_inlet_description in E.
  apply text_app_inj in E.
  do 11 next E. by repeat split.
Qed.
End Descriptions.

(** ** The ends and the rows they serve

    Nothing here mentions the descriptions the code compares. *)

Section Ends.
Context `{Prost} `{Json} `{Unicode} `{InletOs} `{TunnelDb}.
Implicit Types (w : world) (t u : tunnel_Model) (ts : list tunnel_Model).

(** The rows for which the server is to run an outlet and an inlet. *)
Definition wants_outlet t : Prop := tm_enabled t = 1 ∧ tm_sender t = 0.
Definition wants_inlet t : Prop := tm_enabled t = 1 ∧ tm_receiver t = 0.

(** An outlet's messages go out as the server's, for the row's tunnel. *)
Definition outlet_serves t (e : outlet_entry) : Prop :=
  rt_tunnel_id (oe_route e) = tm_id t ∧ rt_self_player_id (oe_route e) = 0.

(** An inlet listens, logs in, encodes and sends as its row says. *)
Record inlet_serves t (e : inlet_entry) : Prop := {
  is_listen : ie_listen e = tm_source t;
  is_type : from_u32 (tm_tunnel_type t) = Some (cfg_type (ie_config e));
  is_target : cfg_output_addr (ie_config e) = tm_endpoint t;
  is_compression : cfg_is_compressed (ie_config e) = (tm_is_compressed t =? 1);
  is_encryption : cfg_encryption_method (ie_config e) = tm_encryption_method t;
  is_username : username (cfg_data_ex (ie_config e)) = tm_username t;
  is_password : password (cfg_data_ex (ie_config e)) = tm_password t;
  is_tunnel : rt_tunnel_id (ie_route e) = tm_id t;
  is_self : rt_self_player_id (ie_route e) = 0;
  is_player : rt_player_id (ie_route e) = tm_sender t;
  is_local : rt_this_machine (ie_route e) = (tm_receiver t =? tm_sender t)
}.

(** No listener can be had for the row. *)
Definition cannot_listen t : Prop :=
  ∀ ty, from_u32 (tm_tunnel_type t) = Some ty → is_ok (bind_listener ty (tm_source t)) = false.

(** The ends that run are those of the rows that want them. Each is tagged
    with its row's description. *)
Record ends_ok w : Prop := {
  ends_outlet id e : w_outlets w !! id = Some e → ∃ t, t ∈ w_tunnels w ∧ tm_id t = id ∧
    wants_outlet t ∧ outlet_serves t e ∧ oe_description e = model_outlet_description t;
  ends_inlet id e : w_inlets w !! id = Some e → ∃ t, t ∈ w_tunnels w ∧ tm_id t = id ∧
    wants_inlet t ∧ inlet_serves t e ∧ ie_description e = model_inlet_description t;
  ends_no_outlet t : t ∈ w_tunnels w → wants_outlet t → is_Some (w_outlets w !! tm_id t);
  ends_no_inlet t : t ∈ w_tunnels w → wants_inlet t →
    is_Some (w_inlets w !! tm_id t) ∨ cannot_listen t
}.

(** Ends are not restarted without need, and start with nothing to take. A new
    outlet sends to its row's receiver; one that runs on keeps its old one. *)
Record ends_kept w w' : Prop := {
  kept_outlet id e t : w_outlets w !! id = Some e → t ∈ w_tunnels w' → tm_id t = id →
    wants_outlet t → w_outlets w' !! id = Some e;
  kept_inlet id e t : w_inlets w !! id = Some e → t ∈ w_tunnels w → t ∈ w_tunnels w' →
    tm_id t = id → wants_inlet t → w_inlets w' !! id = Some e;
  new_outlet id e t : w_outlets w' !! id = Some e → w_outlets w !! id = None →
    t ∈ w_tunnels w' → tm_id t = id →
    oe_input e = [] ∧ rt_player_id (oe_route e) = tm_receiver t ∧
    rt_this_machine (oe_route e) = (tm_receiver t =? tm_sender t);
  new_inlet id e : w_inlets w' !! id = Some e → w_inlets w !! id = Some e ∨ ie_input e = []
}.

Lemma model_sends_spec t : model_sends t = true ↔ wants_outlet t.
Proof. unfold model_sends, wants_outlet. by rewrite andb_true_iff, !Z.eqb_eq. Qed.
Lemma model_receives_spec t : model_receives t = true ↔ wants_inlet t.
Proof. unfold model_receives, wants_inlet. by rewrite andb_true_iff, !Z.eqb_eq. Qed.

Lemma wanted_spec (f : tunnel_Model → bool) ts id t :
  NoDup (tm_id <$> ts) → t ∈ ts → tm_id t = id → wanted tm_id f ts id = if f t then Some t else None.
Proof.
  intros Hnd Ht <-. induction ts as [|u ts IH]; [by apply not_elem_of_nil in Ht|].
  cbn [wanted]. cbn in Hnd. apply NoDup_cons in Hnd as [Hn Hnd].
  apply elem_of_cons in Ht as [<-|Ht].
  - rewrite Z.eqb_refl. cbn [andb]. destruct (f t); [done|]. by apply wanted_unknown.
  - destruct (Z.eqb_spec (tm_id t) (tm_id u)) as [E|_]; [|by apply IH].
    destruct Hn. rewrite <- E. by apply list_elem_of_fmap_2.
Qed.
Lemma wanted_Some (f : tunnel_Model → bool) ts id t :
  wanted tm_id f ts id = Some t → t ∈ ts ∧ tm_id t = id ∧ f t = true.
Proof.
  induction ts as [|u ts IH]; [done|]. cbn [wanted].
  destruct (Z.eqb_spec id (tm_id u)) as [E|_]; cbn [andb]; [destruct (f u) eqn:Ef|].
  - intros [= <-]. split; [left|by split].
  - intros Hw. destruct (IH Hw) as (? & ? & ?). split; [by right|done].
  - intros Hw. destruct (IH Hw) as (? & ? & ?). split; [by right|done].
Qed.

(** *** Ends that are started *)

Lemma new_outlet_serves t : outlet_serves t (server_new_outlet t).
Proof. by split. Qed.
Lemma started_serves t e :
  server_started_inlet t = Some e →
  inlet_serves t e ∧ ie_description e = model_inlet_description t ∧ ie_input e = [].
Proof.
  unfold server_started_inlet. destruct (from_u32 (tm_tunnel_type t)) as [ty|] eqn:Ety; [|done].
  destruct (fst (inlet_start _ _ _)); try done. intros [= <-]. by repeat split.
Qed.
Lemma not_started t : server_started_inlet t = None → cannot_listen t.
Proof.
  unfold server_started_inlet, cannot_listen. intros Hn ty Ety. rewrite Ety in Hn.
  destruct (bind_listener ty (tm_source t)) as [[]| | |] eqn:Eb; [|done..].
  destruct (start_ok (server_inlet_config ty t) (tm_source t) inlet_new eq_refl Eb) as (i & E & _).
  by rewrite E in Hn.
Qed.

Lemma outlet_description_tells t u :
  tm_id t = tm_id u → wants_outlet t → wants_outlet u →
  model_outlet_description t = model_outlet_description u.
Proof. unfold model_outlet_description. by intros -> [-> ->] [-> ->]. Qed.

Lemma serves_same t u e :
  tm_id t = tm_id u → same_inlet t u → inlet_serves t e → inlet_serves u e.
Proof. intros Eid (?&?&?&?&?&?&?&?&?) []. split; congruence. Qed.
End Ends.

(** *** What a synchronisation keeps *)

Section Synced.
Context `{Prost} `{Json} `{Unicode} `{InletOs} `{TunnelDb}.
Implicit Types (w : world) (t u : tunnel_Model).

Lemma row_unique ts t u :
  NoDup (tm_id <$> ts) → t ∈ ts → u ∈ ts → tm_id t = tm_id u → t = u.
Proof.
  intros Hnd [i Hi]%list_elem_of_lookup [j Hj]%list_elem_of_lookup E.
  assert (i = j) as ->; [|congruence]. apply (NoDup_lookup (tm_id <$> ts) i j (tm_id t) Hnd);
    rewrite list_lookup_fmap, ?Hi, ?Hj; cbn; by f_equal.
Qed.

Context (w w' : world).
Hypotheses (Hnd : NoDup (tm_id <$> w_tunnels w)) (Hnd' : NoDup (tm_id <$> w_tunnels w')).
Hypotheses (Hsep : Forall separable (w_tunnels w)) (Hsep' : Forall separable (w_tunnels w')).
Hypotheses (Hok : ends_ok w) (Hsync : synced w w').

Lemma outlet_of_row t :
  t ∈ w_tunnels w' → wants_outlet t →
  w_outlets w' !! tm_id t =
    Some match w_outlets w !! tm_id t with Some e => e | None => server_new_outlet t end.
Proof using All.
  intros Ht Hw. rewrite (proj1 Hsync). unfold server_expected_outlet, expected.
  rewrite (wanted_spec model_sends _ _ t) by done. rewrite (proj2 (model_sends_spec t) Hw).
  destruct (w_outlets w !! tm_id t) as [e|] eqn:He; [|done].
  destruct (ends_outlet w Hok _ e He) as (u & _ & Hu & Hwu & _ & Ed). rewrite decide_True; [done|].
  rewrite Ed. by apply outlet_description_tells.
Qed.
Lemma row_of_outlet id e :
  w_outlets w' !! id = Some e → ∃ t, t ∈ w_tunnels w' ∧ tm_id t = id ∧ wants_outlet t.
Proof using All.
  rewrite (proj1 Hsync). unfold server_expected_outlet, expected.
  destruct (wanted tm_id model_sends (w_tunnels w') id) as [t|] eqn:Et; [|done]. intros _.
  apply wanted_Some in Et as (Ht & Hid & Hs). exists t. by rewrite <- model_sends_spec.
Qed.

(** An inlet runs on, or is started where none of this description runs. *)
Lemma inlet_of_row t :
  t ∈ w_tunnels w' → wants_inlet t →
  (∃ e, w_inlets w !! tm_id t = Some e ∧ ie_description e = model_inlet_description t ∧
     w_inlets w' !! tm_id t = Some e) ∨
  ((∀ e, w_inlets w !! tm_id t = Some e → ie_description e ≠ model_inlet_description t) ∧
   w_inlets w' !! tm_id t = server_started_inlet t).
Proof using All.
  intros Ht Hw. rewrite (proj2 Hsync). unfold server_expected_inlet, expected.
  rewrite (wanted_spec model_receives _ _ t) by done. rewrite (proj2 (model_receives_spec t) Hw).
  destruct (w_inlets w !! tm_id t) as [e|] eqn:He; [|by right].
  case_decide as Hd; [left; by exists e|]. right. split; [|done]. intros e' [= <-] E. by symmetry in E.
Qed.
Lemma row_of_inlet id e :
  w_inlets w' !! id = Some e → ∃ t, t ∈ w_tunnels w' ∧ tm_id t = id ∧ wants_inlet t.
Proof using All.
  rewrite (proj2 Hsync). unfold server_expected_inlet, expected.
  destruct (wanted tm_id model_receives (w_tunnels w') id) as [t|] eqn:Et; [|done]. intros _.
  apply wanted_Some in Et as (Ht & Hid & Hs). exists t. by rewrite <- model_receives_spec.
Qed.

(** An inlet that runs on serves the row as it is now. *)
Lemma inlet_runs_on t e :
  t ∈ w_tunnels w' → w_inlets w !! tm_id t = Some e → ie_description e = model_inlet_description t →
  inlet_serves t e.
Proof using All.
  intros Ht He Ed. destruct (ends_inlet w Hok _ e He) as (u & Hu & Huid & _ & Hserve & Edu).
  apply (serves_same u); [done| |done]. rewrite Edu in Ed.
  apply inlet_description_tells; [|by apply (proj1 (Forall_forall _ _) Hsep')|done].
  by apply (proj1 (Forall_forall _ _) Hsep).
Qed.

Lemma sync_ends_ok : ends_ok w'.
Proof using All.
  split.
  - intros id e He. destruct (row_of_outlet id e He) as (t & Ht & <- & Hw). exists t.
    rewrite (outlet_of_row t Ht Hw) in He. injection He as <-.
    destruct (w_outlets w !! tm_id t) as [e|] eqn:He; [|done].
    destruct (ends_outlet w Hok _ e He) as (u & _ & Hu & Hwu & [Hr Hs] & ->).
    split_and!; [done..|split; congruence|by apply outlet_description_tells].
  - intros id e He. destruct (row_of_inlet id e He) as (t & Ht & <- & Hw). exists t.
    destruct (inlet_of_row t Ht Hw) as [(e' & He' & Ed & E)|[_ E]]; rewrite E in He.
    + injection He as <-. split_and!; [done..|by apply inlet_runs_on|done].
    + apply started_serves in He as (? & ? & _). by split_and!.
  - intros t Ht Hw. by rewrite (outlet_of_row t).
  - intros t Ht Hw. destruct (inlet_of_row t Ht Hw) as [(e & _ & _ & ->)|[_ ->]]; [by left|].
    destruct (server_started_inlet t) eqn:E; [by left|]. right. by apply not_started.
Qed.

Lemma sync_ends_kept : ends_kept w w'.
Proof using All.
  split.
  - intros id e t He Ht <- Hw. by rewrite (outlet_of_row t), He.
  - intros id e t He Ht Ht' <- Hw. destruct (inlet_of_row t Ht' Hw) as [(e' & He' & _ & ->)|[Hne _]]; [congruence|].
    destruct (ends_inlet w Hok _ e He) as (u & Hu & Huid & _ & _ & Ed). destruct (Hne e He).
    by rewrite Ed, (row_unique _ u t Hnd).
  - intros id e t He Hn Ht Hid. destruct (row_of_outlet id e He) as (u & Hu & <- & Hw).
    rewrite (row_unique _ t u Hnd') by done.
    rewrite (outlet_of_row u), Hn in He by done. by injection He as <-.
  - intros id e He. destruct (row_of_inlet id e He) as (t & Ht & <- & Hw).
    destruct (inlet_of_row t Ht Hw) as [(e' & He' & _ & E)|[_ E]]; rewrite E in He.
    + injection He as <-. by left.
    + right. by apply started_serves in He as (_ & _ & ->).
Qed.
End Synced.

(** ** The calls *)

Section Calls.
Context `{Prost} `{Json} `{Unicode} `{InletOs} `{TunnelDb} `{!TunnelDbOk}.
Implicit Types (w : world) (t u : tunnel_Model).

Definition call_separable (c : manager_call) : Prop :=
  match c with AddTunnel t | UpdateTunnel t => separable t | DeleteTunnel _ => True end.

Lemma edit_separable c ts ts' :
  edit c ts ts' → call_separable c → Forall separable ts → Forall separable ts'.
Proof.
  rewrite !Forall_forall. destruct 1 as [t id ts _ _|id ts|t ts _]; cbn; intros Hc Hts x Hx.
  - apply elem_of_app in Hx as [Hx| ->%list_elem_of_singleton]; [by apply Hts|by apply separable_with_id].
  - apply list_elem_of_filter in Hx as [_ Hx]. by apply Hts.
  - apply list_elem_of_fmap in Hx as (y & -> & Hy). case_decide; [done|by apply Hts].
Qed.

Lemma ends_ok_same w w' :
  w_tunnels w' = w_tunnels w → w_outlets w' = w_outlets w → w_inlets w' = w_inlets w →
  ends_ok w → ends_ok w'.
Proof. intros Et Eo Ei []. split; by rewrite ?Et, ?Eo, ?Ei. Qed.
Lemma ends_kept_same w w' :
  w_outlets w' = w_outlets w → w_inlets w' = w_inlets w → ends_kept w w'.
Proof. intros Eo Ei. split; rewrite ?Eo, ?Ei; [done..|congruence|by left]. Qed.

(** What a call answers, with what it does to the table and the ends. *)
Definition call_answer (c : manager_call) w (o : outcome unit) w' : Prop :=
  match o with
  | Ok _ => edit c (w_tunnels w) (w_tunnels w')
  | Err _ => w_tunnels w' = w_tunnels w ∧ w_outlets w' = w_outlets w ∧ w_inlets w' = w_inlets w
  | _ => False
  end.

(** C27: Every call on the tunnel manager is an edit of a table keyed by ids:
    one that succeeds adds the tunnel under a fresh id, removes the tunnel of
    an id, or replaces it; one that fails changes neither the table nor the
    ends; and none panics or waits for ever. Every call keeps the server's own
    ends those of the table: an outlet for each enabled row whose sender is the
    server and no other; and for each enabled row whose receiver it is, unless
    its address cannot be had, an inlet and no other, which listens, logs in,
    encodes and sends as the row says. Ends whose rows stay are not restarted;
    an outlet that runs on keeps sending to the receiver it was started with.
    This is for rows in whose texts no label of their description occurs: see
    [ambiguous_description]. *)
Theorem manager_calls (c : manager_call) w :
  binds_answer → players_ok w → manager_ok w → call_ok c →
  Forall separable (w_tunnels w) → call_separable c → ends_ok w →
  after (manager_exec c) w (λ o w', call_answer c w o w' ∧ ends_ok w' ∧ ends_kept w w').
Proof.
  intros Hb Hp Hw Hc Hsep Hcs Hok. pose proof (manager_exec_ok c w Hc Hw) as [(Hnd' & _) _].
  assert (after (manager_exec c) w (call_post c w)) as Hpost.
  { destruct c; [by apply add_call|by apply delete_call|by apply update_call]. }
  unfold after in *. destruct (manager_exec c w) as [[[]|e| |] w']; cbn in Hnd', Hpost; try done.
  - destruct Hpost as [He [(Et & Eo & Ei)|Hs]]; (split; [done|]).
    + split; [by apply (ends_ok_same w)|by apply ends_kept_same].
    + destruct Hw as [(Hnd & _) _]. pose proof (edit_separable _ _ _ He Hcs Hsep).
      split; [by apply (sync_ends_ok w)|by apply sync_ends_kept].
  - destruct Hpost as (Et & Eo & Ei). split; [done|].
    split; [by apply (ends_ok_same w)|by apply ends_kept_same].
Qed.
End Calls.

(** ** Concrete rows *)

Module UpkeepConcrete.
Import TunnelsConcrete.

(** A user named as if his name went on with a label. *)
Definition login (name pass : string) : tunnel_Model := {|
  tm_id := 1; tm_source := "0.0.0.0:8001"; tm_endpoint := "10.0.0.9:80"; tm_enabled := 1;
  tm_sender := 7; tm_receiver := 0; tm_description := ""; tm_tunnel_type := 2;
  tm_password := pass; tm_username := name; tm_is_compressed := 0; tm_custom_mapping := "";
  tm_encryption_method := "None" |}.
End UpkeepConcrete.

Section UpkeepWitness.
Import TunnelsConcrete UpkeepConcrete.
#[local] Existing Instances ProstConcrete.prost users rows rows_ok json unicode os.

(** Two rows that are started with different credentials have one description:
    an update from one to the other leaves the inlet with the old ones. *)
Example ambiguous_description :
  model_inlet_description (login "a-password:b" "c") = model_inlet_description (login "a" "b-password:c").
Proof. reflexivity. Qed.

Lemma tunnel_separable id source :
  45 ∉ as_bytes source → separable (tunnel id 0 source).
Proof.
  intros Hs. split; try (unfold in_u32, in_u8; cbn; lia);
    (apply dashless_free; [reflexivity|]); [exact Hs|..];
    apply (bool_decide_unpack _); vm_compute; exact I.
Qed.
Lemma start_ends_ok : ends_ok (TunnelsConcrete.start []).
Proof.
  split; [intros id e; cbn; by rewrite lookup_empty..| |]; intros t Ht; by apply not_elem_of_nil in Ht.
Qed.

(** A tunnel from the server to itself: it gets both its ends. *)
Lemma manager_calls_witness :
  (∃ w', manager_exec (AddTunnel (tunnel 0 0 "0.0.0.0:8001")) (TunnelsConcrete.start []) = (Ok tt, w') ∧
     is_Some (w_outlets w' !! 1) ∧ is_Some (w_inlets w' !! 1)) ∧
  after (manager_exec (AddTunnel (tunnel 0 0 "0.0.0.0:8001"))) (TunnelsConcrete.start [])
    (λ o w', call_answer (AddTunnel (tunnel 0 0 "0.0.0.0:8001")) (TunnelsConcrete.start []) o w' ∧
       ends_ok w' ∧ ends_kept (TunnelsConcrete.start []) w').
Proof.
  split.
  { eexists. split; [vm_compute; reflexivity|]. split; eexists; vm_compute; reflexivity. }
  apply (manager_calls (AddTunnel (tunnel 0 0 "0.0.0.0:8001")) (TunnelsConcrete.start [])).
  - apply os_binds.
  - apply tunnels_start_players.
  - apply manager_ok_empty.
  - reflexivity.
  - constructor.
  - apply tunnel_separable. apply (bool_decide_unpack _). vm_compute. exact I.
  - apply start_ends_ok.
Defined.
End UpkeepWitness.
