(* ===== verification/Players.v ===== *)
(** [np_server/src/global/manager/player.rs]: the player manager: the players
    in its vector and its map, the accounts in the database, registration,
    removal and change of an account. *)

From S2P Require Import Prelude Std Extern Net Proxy Inlet Messages Bridge Framing Ends Str Server.
From S2P Require Import Tunnels.

(** ** The rows of the database's table of users *)

Class UserAdmin `{UserDb} := {
  find_all_users : db → outcome (list user_Model);
  find_user_by_id : u32 → db → outcome (option user_Model);
  update_user : user_Model → db → outcome unit * db;
  delete_user_by_id : u32 → db → outcome Z * db              (** the rows affected *)
}.

(** [PlayerDbData] *)
Record PlayerDbData := { pd_id : u32; pd_username : string; pd_password : string }.

(** ** Registration *)

Section Accounts.
Context `{UserDb} `{Rng}.

(** The loop of [add_player]: [tries] more draws of an id are allowed. *)
Fixpoint add_player_loop (tries : nat) (r : rng) (now : Z) (name pass : string)
    : M world (i32 * string) :=
  match tries with
  | O => mret (-3, "too many cycles")
  | S tries =>
      let '(id, r) := gen_range 10000000 99999999 r in
      known ← contain_player id;
      if (known : bool) then add_player_loop tries r now name pass
      else
        db_exec (insert_user
          {| um_id := id; um_username := name; um_password := pass; um_create_time := now |});;
        create_player id;;
        mret (0, "")
  end.

Definition add_player (r : rng) (now : Z) (name pass : string) : M world (i32 * string) :=
  if negb (is_valid_username name) || negb (is_valid_password pass) then
    mret (-1, "usernames may not exceed 30 characters, and passwords may not exceed 15 characters.")
  else
    user ← db_query (find_username name);
    match user with
    | Some _ => mret (-2, "user already exists")
    | None => add_player_loop (Z.to_nat 10000) r now name pass
    end.
End Accounts.

(** ** The other operations *)

Section Players.
Context `{Prost} `{Json} `{Unicode} `{InletOs} `{UserDb} `{!TunnelDb} `{!UserAdmin}.

Definition load_all_player : M world unit :=
  users ← db_query find_all_users;
  for_each (λ u, create_player (um_id u);; mret tt) users.

(** The ids of the tunnels a player has an end of. *)
Definition player_tunnels (player_id : u32) (ts : list tunnel_Model) : list u32 :=
  omap (λ x, if (tm_sender x =? player_id) || (tm_receiver x =? player_id)
             then Some (tm_id x) else None) ts.

(** The first player of the vector that has the id. *)
Fixpoint find_player (player_id : u32) (hs : list handle) : M world (option nat) :=
  match hs with
  | [] => mret None
  | h :: hs =>
      p ← get_player_at h;
      if p_player_id p =? player_id then mret (Some 0%nat)
      else i ← find_player player_id hs; mret (S <$> i)
  end.

Definition delete_player (player_id : u32) : M world unit :=
  ids ← gets (λ w, player_tunnels player_id (w_tunnels w));
  for_each delete_tunnel ids;;
  rows_affected ← db_exec (delete_user_by_id player_id);
  if negb (rows_affected =? 1)
  then bail ("delete_player: rows_affected = " +:+ show rows_affected)
  else
    hs ← gets w_player_list;
    i ← find_player player_id hs;
    match i with
    | Some i =>
        h ← (λ w, (index (w_player_list w) (Z.of_nat i), set_player_list (delete i) w));
        close_session h
    | None => mret tt
    end.

(** [user.password = Set(password)] *)
Definition set_password (password : string) (u : user_Model) : user_Model :=
  {| um_id := um_id u; um_username := um_username u; um_password := password;
     um_create_time := um_create_time u |}.

Definition update_player (data : PlayerDbData) : M world unit :=
  user ← db_query (find_user_by_id (pd_id data));
  match user with
  | Some user =>
      let user := set_password (pd_username data) user in
      let user := set_password (pd_password data) user in
      db_exec (update_user user)
  | None => bail ("can't find user: " +:+ show (pd_id data))
  end.
End Players.

(** ** Facts *)

Section Keeping.
Context `{Prost} `{Json} `{Unicode} `{InletOs} `{UserDb} `{!TunnelDb}.
Implicit Types (w : world) (t : tunnel_Model).

(** What only the player manager and the peers change. *)
Definition same_players w w' : Prop :=
  w_players w' = w_players w ∧ w_player_list w' = w_player_list w ∧
  w_player_map w' = w_player_map w ∧ next_handle (w_env w') = next_handle (w_env w).
#[export] Instance same_players_preorder : PreOrder same_players.
Proof.
  split; [done|]. intros w1 w2 w3 (E1 & E2 & E3 & E4) (F1 & F2 & F3 & F4).
  repeat split; congruence.
Qed.

Definition keeps_players {A} (m : M world A) : Prop := ∀ w, preserves (same_players w) m.

Lemma keeps_const {A} (m : M world A) : (∀ w, snd (m w) = w) → keeps_players m.
Proof. intros Hm w. by apply preserves_const. Qed.
Lemma keeps_bind {A B} (m : M world A) (f : A → M world B) :
  keeps_players m → (∀ a, keeps_players (f a)) → keeps_players (m ≫= f).
Proof. intros Hm Hf w. apply preserves_bind; [apply Hm|]. intros a. apply Hf. Qed.
Lemma keeps_modify (f : world → world) : (∀ w, same_players w (f w)) → keeps_players (modify f).
Proof. intros Hf w. apply preserves_modify. intros w' Hw. by etrans. Qed.
Lemma keeps_env_only {A} (m : M world A) : env_only m → keeps_players m.
Proof. intros Hm w. apply env_only_preserves; [done|]. intros e w' Hn Hw. by etrans. Qed.
Lemma keeps_exec {A} (q : db → outcome A * db) : keeps_players (db_exec q).
Proof. intros w w' Hw. unfold after, db_exec. by destruct (q (w_db w')). Qed.
Lemma keeps_sync : keeps_players server_sync_tunnels.
Proof. intros w. by apply preserves_sync. Qed.
Lemma keeps_detection t : keeps_players (tunnel_detection t).
Proof. apply keeps_const. intros w. by destruct (detection_eq t w) as [e ->]. Qed.

#[local] Hint Resolve keeps_exec keeps_sync keeps_detection : npipe.

Lemma keeps_add t : keeps_players (add_tunnel t).
Proof.
  apply keeps_bind; [auto with npipe|]. intros _. apply keeps_bind; [auto with npipe|]. intros id.
  apply keeps_bind; [apply keeps_env_only, env_only_to_ends|]. intros _.
  apply keeps_bind; [by apply keeps_modify|auto with npipe].
Qed.

Lemma keeps_index {A} (f : world → outcome A) (g : world → world) :
  (∀ w, same_players w (g w)) → keeps_players (λ w, (f w, g w)).
Proof. intros Hg w w' Hw. unfold after. by etrans. Qed.

Lemma keeps_delete id : keeps_players (delete_tunnel id).
Proof.
  apply keeps_bind; [auto with npipe|]. intros n. destruct (negb _); [by apply keeps_const|].
  apply keeps_bind; [by apply keeps_const|]. intros [i|]; [|by apply keeps_const].
  apply keeps_bind; [by apply keeps_index|]. intros t.
  apply keeps_bind; [apply keeps_env_only, env_only_to_ends|auto with npipe].
Qed.

Lemma keeps_update t : keeps_players (update_tunnel t).
Proof.
  apply keeps_bind.
  { apply keeps_bind; [auto with npipe|]. intros _. by apply keeps_const. }
  intros [i|]; [|by apply keeps_const]. apply keeps_bind.
  { apply keeps_bind; [by apply keeps_const|]. intros [row|]; [auto with npipe|by apply keeps_const]. }
  intros _. apply keeps_bind; [by apply keeps_index|]. intros old.
  do 2 (apply keeps_bind; [apply keeps_env_only, env_only_when, env_only_broadcast|]; intros _).
  apply keeps_bind; [apply keeps_env_only, env_only_to_ends|]. intros _.
  apply keeps_bind; [by apply keeps_modify|auto with npipe].
Qed.
End Keeping.

(** *** The invariant *)

Section Invariant.
Context `{Prost} `{Json} `{Unicode} `{InletOs} `{UserDb} `{!TunnelDb} `{!TunnelDbOk}.
Implicit Types (w : world) (t : tunnel_Model).

(** The table of tunnels is consistent, the map leads from ids to the players
    that have them, the vector holds players, and new handles are fresh. *)
Record server_ok w : Prop := {
  so_manager : manager_ok w;
  so_map id h : w_player_map w !! id = Some h →
    ∃ pl, w_players w !! h = Some pl ∧ p_player_id pl = id;
  so_list h : h ∈ w_player_list w → is_Some (w_players w !! h);
  so_fresh h : is_Some (w_players w !! h) → h < next_handle (w_env w)
}.

Lemma server_players_ok w : server_ok w → players_ok w.
Proof. intros Hw id h Hh. destruct (so_map w Hw id h Hh) as (pl & -> & _). by eexists. Qed.

Lemma server_ok_same w w' : server_ok w → same_players w w' → manager_ok w' → server_ok w'.
Proof.
  intros [Hm Hp Hl Hf] (E1 & E2 & E3 & E4) Hw. split; [done|..]; rewrite ?E1, ?E2, ?E3, ?E4; auto.
Qed.

(** A call of the tunnel manager. *)
Lemma server_ok_manager {A} (m : M world A) :
  preserves manager_ok m → keeps_players m → preserves server_ok m.
Proof.
  intros Hm Hk w Hw. pose proof (Hm w (so_manager w Hw)) as H1'.
  pose proof (Hk w w ltac:(reflexivity)) as H2'. unfold after in *. destruct (m w) as [o w'].
  by apply (server_ok_same w w').
Qed.

(** Players stay who they are. *)
Definition persist w w' : Prop := ∀ h pl, w_players w !! h = Some pl →
  ∃ pl', w_players w' !! h = Some pl' ∧ p_player_id pl' = p_player_id pl.
#[export] Instance persist_preorder : PreOrder persist.
Proof.
  split; [by intros w h pl Hpl; exists pl|]. intros w1 w2 w3 H12 H23 h pl Hpl.
  destruct (H12 h pl Hpl) as (pl2 & Hpl2 & E2). destruct (H23 h pl2 Hpl2) as (pl3 & Hpl3 & E3).
  exists pl3. split; [done|]. by rewrite E3.
Qed.

Lemma persist_same w w' : w_players w' = w_players w → persist w w'.
Proof. intros E h pl Hpl. exists pl. by rewrite E. Qed.
Lemma persist_new h pl w w' :
  w_players w !! h = None → w_players w' = <[h := pl]> (w_players w) → persist w w'.
Proof.
  intros Hh E h' pl' Hpl'. exists pl'. rewrite E, lookup_insert_ne; [done|]. by intros ->; rewrite Hpl' in Hh.
Qed.

Lemma server_ok_create id w : server_ok w → server_ok (snd (create_player id w)).
Proof.
  intros [Hm Hp Hl Hf]. unfold create_player.
  assert (∀ h, is_Some (w_players w !! h) → h ≠ next_handle (w_env w)) as Hne.
  { intros h Hh. apply Hf in Hh. lia. }
  split; [exact Hm|..]; cbn [snd w_players w_player_map w_player_list w_env].
  - intros id' h' [[<- <-]|[Hid Hh]]%lookup_insert_Some.
    { rewrite lookup_insert_eq. by exists (player_new id). }
    destruct (Hp id' h' Hh) as (pl & Hpl & <-). exists pl.
    rewrite lookup_insert_ne; [done|]. apply not_eq_sym, Hne. by rewrite Hpl.
  - intros h' [Hh| ->%list_elem_of_singleton]%elem_of_app; [|by rewrite lookup_insert_eq].
    apply Hl in Hh as Hs. by rewrite lookup_insert_ne by (by apply not_eq_sym, Hne).
  - intros h' [pl [[<- _]|[_ Hpl]]%lookup_insert_Some]; cbn; [lia|].
    assert (h' < next_handle (w_env w)) by (apply Hf; by rewrite Hpl). lia.
Qed.
End Invariant.

(** *** Registration *)

(** The database's users: it answers, and leaves the rows of tunnels alone. *)
Class DbAnswers `{UserDb} : Prop := {
  find_login_answers n p x : is_panic (find_login n p x) = false;
  find_username_answers n x : is_panic (find_username n x) = false;
  insert_user_answers u x : is_panic (fst (insert_user u x)) = false
}.

Class UsersOk `{TunnelDbOk} `{!UserAdmin} : Prop := {
  find_username_ok n d : match find_username n d with Ok _ | Err _ => True | _ => False end;
  insert_user_ok u d : match insert_user u d with
                       | (Ok _, d') | (Err _, d') => ∀ x, known x d → known x d'
                       | _ => False
                       end;
  find_users_ok d : match find_all_users d with Ok _ | Err _ => True | _ => False end;
  find_user_ok id d : match find_user_by_id id d with Ok _ | Err _ => True | _ => False end;
  update_user_ok u d : match update_user u d with
                       | (Ok _, d') | (Err _, d') => ∀ x, known x d → known x d'
                       | _ => False
                       end;
  delete_user_ok id d : match delete_user_by_id id d with
                        | (Ok _, d') | (Err _, d') => ∀ x, known x d → known x d'
                        | _ => False
                        end
}.

Section Registration.
Context `{Rng} `{UserDb}.
Implicit Types (w : world) (r : rng).

(** The ids drawn one after the other. *)
Fixpoint draws (n : nat) r : list u32 :=
  match n with
  | O => []
  | S n => let '(id, r) := gen_range 10000000 99999999 r in id :: draws n r
  end.

Lemma draws_range n r id : id ∈ draws n r → 10000000 <= id < 99999999.
Proof.
  revert r. induction n as [|n IH]; intros r; cbn; [by intros ?%not_elem_of_nil|].
  pose proof (gen_range_bounds 10000000 99999999 r ltac:(lia)) as Hb.
  destruct (gen_range _ _ r) as [x r']. intros [->|Hid]%elem_of_cons; [exact Hb|by apply (IH r')].
Qed.

Lemma add_player_loop_run n r now name pass w :
  (Forall (λ id, is_Some (w_player_map w !! id)) (draws n r) ∧
   add_player_loop n r now name pass w = (Ok (-3, "too many cycles"), w)) ∨
  ∃ id, id ∈ draws n r ∧ w_player_map w !! id = None ∧
    add_player_loop n r now name pass w =
      (db_exec (insert_user
         {| um_id := id; um_username := name; um_password := pass; um_create_time := now |});;
       create_player id;; mret (0, "")) w.
Proof.
  revert r. induction n as [|n IH]; intros r; cbn [draws add_player_loop]; [by left|].
  destruct (gen_range _ _ r) as [id r']. unfold contain_player. rewrite gets_bind.
  destruct (w_player_map w !! id) as [h|] eqn:Hid.
  - rewrite bool_decide_eq_true_2 by (by eexists).
    destruct (IH r') as [[Hf ->]|(id' & Hin & Hnew & ->)].
    + left. split; [|done]. constructor; [by rewrite Hid|done].
    + right. exists id'. split; [by right|done].
  - rewrite bool_decide_eq_false_2 by (by intros [? ?]). right. exists id. split; [by left|done].
Qed.
End Registration.

(** *** Removal *)

Section Removal.
Context `{Prost} `{Json} `{Unicode} `{InletOs} `{UserDb} `{!TunnelDb} `{!UserAdmin}
  `{!TunnelDbOk} `{!UsersOk}.
Implicit Types (w : world) (t : tunnel_Model) (ts : list tunnel_Model).

Definition without_ids (ids : list u32) ts : list tunnel_Model :=
  base.filter (λ t, tm_id t ∉ ids) ts.
(** The tunnels that have no end at a player. *)
Definition other_tunnels (player_id : u32) ts : list tunnel_Model :=
  base.filter (λ t, tm_sender t ≠ player_id ∧ tm_receiver t ≠ player_id) ts.

Lemma without_ids_nil ts : without_ids [] ts = ts.
Proof.
  induction ts as [|t ts IH]; [done|]. unfold without_ids in *.
  rewrite filter_cons_True by apply not_elem_of_nil. by rewrite IH.
Qed.
Lemma without_ids_cons id ids ts : without_ids ids (without id ts) = without_ids (id :: ids) ts.
Proof.
  unfold without_ids, without. rewrite list_filter_filter. apply list_filter_iff. intros t.
  rewrite not_elem_of_cons. tauto.
Qed.

Lemma player_tunnels_spec p ts id :
  id ∈ player_tunnels p ts ↔ ∃ t, t ∈ ts ∧ tm_id t = id ∧ (tm_sender t = p ∨ tm_receiver t = p).
Proof.
  unfold player_tunnels. rewrite list_elem_of_omap. split; intros (t & Ht & E); exists t.
  - destruct ((tm_sender t =? p) || (tm_receiver t =? p)) eqn:Eb; [|done].
    apply orb_true_iff in Eb. rewrite !Z.eqb_eq in Eb. by injection E as <-.
  - destruct E as [<- Hp]. split; [done|].
    replace (_ || _) with true; [done|]. symmetry. by rewrite orb_true_iff, !Z.eqb_eq.
Qed.

Lemma without_player_tunnels p ts :
  NoDup (tm_id <$> ts) → without_ids (player_tunnels p ts) ts = other_tunnels p ts.
Proof.
  intros Hnd. apply filter_ext_in. intros t Ht. rewrite player_tunnels_spec. split.
  - intros Hn. split; intros E; apply Hn; exists t; auto.
  - intros [Hs Hr] (u & Hu & Hid & Hp). assert (u = t) as ->; [|tauto].
    apply list_elem_of_lookup in Ht as [i Hi], Hu as [j Hj].
    assert (i = j) as ->; [|congruence]. apply (NoDup_lookup (tm_id <$> ts) i j (tm_id t) Hnd).
    + by rewrite list_lookup_fmap, Hi.
    + by rewrite list_lookup_fmap, Hj, <- Hid.
Qed.

Lemma preserves_delete id : preserves server_ok (delete_tunnel id).
Proof. apply server_ok_manager; [apply manager_delete|apply keeps_delete]. Qed.

(** The deletions, up to the first that fails. *)
Lemma delete_tunnels_run ids w :
  binds_answer → server_ok w →
  after (for_each delete_tunnel ids) w (λ o w', server_ok w' ∧ same_players w w' ∧
    match o with
    | Ok _ => w_tunnels w' = without_ids ids (w_tunnels w)
    | Err _ => ∃ n, w_tunnels w' = without_ids (take n ids) (w_tunnels w)
    | _ => False
    end).
Proof.
  intros Hb. revert w. induction ids as [|id ids IH]; intros w Hw.
  { split; [done|]. split; [done|]. by rewrite without_ids_nil. }
  cbn [for_each]. apply after_bind.
  pose proof (preserves_delete id w Hw) as H1'. pose proof (keeps_delete id w w ltac:(reflexivity)) as H2'.
  pose proof (delete_call id w Hb (server_players_ok w Hw) (so_manager w Hw)) as H3'.
  unfold after in H1', H2', H3'. unfold after at 1.
  destruct (delete_tunnel id w) as [[[]|e| |] w1]; [|split; [done|]; split; [done|]|done..].
  - destruct H3' as [He _].
    assert (w_tunnels w1 = without id (w_tunnels w)) as Hts.
    { by inversion He. }
    apply (after_mono _ _ _ _ (IH w1 H1')). intros o w2 (Hw2 & Hs & Ho). split; [done|].
    split; [by etrans|]. destruct o as [|e| |]; [|..].
    + by rewrite Ho, Hts, without_ids_cons.
    + destruct Ho as [n Hn]. exists (S n). by rewrite Hn, Hts, without_ids_cons.
    + done.
    + done.
  - exists 0%nat. rewrite without_ids_nil. by destruct H3'.
Qed.

Lemma find_player_run p hs w :
  (∀ h, h ∈ hs → is_Some (w_players w !! h)) →
  ∃ i, find_player p hs w = (Ok i, w) ∧
    match i with
    | Some i => ∃ h pl, hs !! i = Some h ∧ w_players w !! h = Some pl ∧ p_player_id pl = p
    | None => ∀ h pl, h ∈ hs → w_players w !! h = Some pl → p_player_id pl ≠ p
    end.
Proof.
  induction hs as [|h hs IH]; intros Hh; cbn [find_player].
  { exists None. split; [done|]. by intros h pl ?%not_elem_of_nil. }
  destruct (Hh h ltac:(by left)) as [pl Hpl].
  rewrite (bind_ok _ _ _ pl w) by (unfold get_player_at; by rewrite Hpl).
  destruct (Z.eqb_spec (p_player_id pl) p) as [Hp|Hp].
  { exists (Some 0%nat). split; [done|]. by exists h, pl. }
  destruct IH as (i & E & Hi). { intros h' ?. apply Hh. by right. }
  exists (S <$> i). split; [by rewrite (bind_ok _ _ _ _ _ E)|]. destruct i as [i|]; [exact Hi|].
  intros h' pl' [->|Hin]%elem_of_cons Hpl'; [by simplify_eq|by apply (Hi h')].
Qed.
End Removal.

(** ** Properties *)

Section PlayersProperties.
Context `{Prost} `{Json} `{Unicode} `{InletOs} `{UserDb} `{!TunnelDb} `{!UserAdmin}
  `{!TunnelDbOk} `{!UsersOk}.
Implicit Types (w : world).

Lemma close_session_run h pl w :
  w_players w !! h = Some pl →
  close_session h w = (Ok tt, match p_tx pl with
                              | Some tx => set_env (told tx Close (w_env w)) w
                              | None => w
                              end).
Proof.
  intros Hpl. unfold close_session.
  rewrite (bind_ok _ _ _ pl w) by (unfold get_player_at; by rewrite Hpl).
  destruct (p_tx pl) as [tx|]; [|done]. by rewrite ignore_send_writer.
Qed.

Lemma server_ok_db d w :
  server_ok w → (∀ x, known x (w_db w) → known x d) → server_ok (set_db d w).
Proof.
  intros Hw Hd. apply (server_ok_same w); [done|done|]. destruct (so_manager w Hw) as [Ht Hk].
  split; [done|]. intros t Hin. by apply Hd, Hk.
Qed.

Lemma server_ok_vector l e w :
  server_ok w → l ⊆ w_player_list w → next_handle e = next_handle (w_env w) →
  server_ok (set_env e (set_player_list (λ _, l) w)).
Proof.
  intros [Hm Hp Hl Hf] Hs Hn. split; [done|done|..].
  - intros h Hh. by apply Hl, Hs.
  - intros h Hh. change (h < next_handle e). rewrite Hn. by apply Hf.
Qed.

(** The end of a removal, once the tunnels are gone. *)
Lemma remove_from_vector p w :
  server_ok w →
  ∃ e l, (hs ← gets w_player_list;
          i ← find_player p hs;
          match i with
          | Some i =>
              h ← (λ w, (index (w_player_list w) (Z.of_nat i), set_player_list (delete i) w));
              close_session h
          | None => mret tt
          end) w = (Ok tt, set_env e (set_player_list (λ _, l) w)) ∧
    next_handle e = next_handle (w_env w) ∧
    ((l = w_player_list w ∧
      ∀ h pl, h ∈ w_player_list w → w_players w !! h = Some pl → p_player_id pl ≠ p) ∨
     ∃ l1 h l2 pl, w_player_list w = l1 ++ h :: l2 ∧ l = l1 ++ l2 ∧
       w_players w !! h = Some pl ∧ p_player_id pl = p ∧
       ∀ tx, p_tx pl = Some tx → ∃ e', e = told tx Close e').
Proof.
  intros Hw. rewrite gets_bind.
  destruct (find_player_run p (w_player_list w) w (so_list w Hw)) as (i & E & Hi).
  rewrite (bind_ok _ _ _ _ _ E). destruct i as [i|].
  - destruct Hi as (h & pl & Hh & Hpl & Hid).
    rewrite (bind_ok _ _ _ h (set_player_list (delete i) w)) by (cbn; by rewrite (index_lookup _ _ h Hh)).
    rewrite (close_session_run h pl) by done.
    apply list_elem_of_split_length in Hh as (l1 & l2 & El & ->).
    assert (delete (length l1) (w_player_list w) = l1 ++ l2) as Ed by (by rewrite El, delete_middle).
    exists (match p_tx pl with Some tx => told tx Close (w_env w) | None => w_env w end), (l1 ++ l2).
    split; [|split; [by destruct (p_tx pl); [apply told_next|]|]].
    + unfold set_player_list. rewrite Ed. by destruct (p_tx pl).
    + right. exists l1, h, l2, pl. repeat (split; [done|]). intros tx ->. by eexists.
  - exists (w_env w), (w_player_list w). split; [by destruct w|]. split; [done|]. by left.
Qed.

(** What registration and removal answer, with what they do. *)
Definition add_player_post `{Rng} (r : rng) (now : Z) (name pass : string) w
    (o : outcome (i32 * string)) w' : Prop :=
  server_ok w' ∧
  match o with
  | Ok (code, _) =>
      (code = -1 ∧ w' = w ∧ is_valid_username name && is_valid_password pass = false) ∨
      (code = -2 ∧ w' = w ∧ ∃ u, find_username name (w_db w) = Ok (Some u)) ∨
      (code = -3 ∧ w' = w ∧
       Forall (λ id, is_Some (w_player_map w !! id)) (draws (Z.to_nat 10000) r)) ∨
      (code = 0 ∧ is_valid_username name && is_valid_password pass = true ∧
       find_username name (w_db w) = Ok None ∧
       ∃ id h, 10000000 <= id < 99999999 ∧ w_player_map w !! id = None ∧
         w_players w !! h = None ∧ w_players w' = <[h := player_new id]> (w_players w) ∧
         w_player_map w' = <[id := h]> (w_player_map w) ∧
         w_player_list w' = w_player_list w ++ [h] ∧ w_tunnels w' = w_tunnels w ∧
         insert_user {| um_id := id; um_username := name; um_password := pass;
                        um_create_time := now |} (w_db w) = (Ok tt, w_db w'))
  | Err _ => same_players w w' ∧ w_tunnels w' = w_tunnels w
  | _ => False
  end.
Definition delete_player_post (p : u32) w (o : outcome unit) w' : Prop :=
  server_ok w' ∧ w_players w' = w_players w ∧ w_player_map w' = w_player_map w ∧
  match o with
  | Ok _ =>
      w_tunnels w' = other_tunnels p (w_tunnels w) ∧
      (∃ d, delete_user_by_id p d = (Ok 1, w_db w')) ∧
      ((w_player_list w' = w_player_list w ∧
        ∀ h pl, h ∈ w_player_list w → w_players w !! h = Some pl → p_player_id pl ≠ p) ∨
       ∃ l1 h l2 pl, w_player_list w = l1 ++ h :: l2 ∧ w_player_list w' = l1 ++ l2 ∧
         w_players w !! h = Some pl ∧ p_player_id pl = p ∧
         ∀ tx, p_tx pl = Some tx → ∃ e, w_env w' = told tx Close e)
  | Err _ =>
      w_player_list w' = w_player_list w ∧
      ∃ n, w_tunnels w' = without_ids (take n (player_tunnels p (w_tunnels w))) (w_tunnels w)
  | _ => False
  end.

Lemma add_player_run `{Rng} (r : rng) (now : Z) (name pass : string) w :
  server_ok w → after (add_player r now name pass) w (add_player_post r now name pass w).
Proof.
  intros Hw. unfold add_player_post, add_player. rewrite <- negb_andb.
  destruct (is_valid_username name && is_valid_password pass) eqn:Hv; cbn [negb].
  2: { split; [done|]. by left. }
  apply after_bind. unfold after at 1, db_query. pose proof (find_username_ok name (w_db w)) as Hf.
  destruct (find_username name (w_db w)) as [[u|]|e| |]; [| |done..].
  { split; [done|]. right. left. by eauto. }
  unfold after. generalize (Z.to_nat 10000). intros n.
  destruct (add_player_loop_run n r now name pass w) as [[Hd ->]|(id & Hid & Hnew & ->)].
  { split; [done|]. right. right. by left. }
  set (u := {| um_id := id; um_username := name; um_password := pass; um_create_time := now |}).
  unfold mbind, M_bind, db_exec. pose proof (insert_user_ok u (w_db w)) as Hi.
  destruct (insert_user u (w_db w)) as [[[]|e| |] d] eqn:E; [| |done..].
  - pose proof (server_ok_db d w Hw Hi) as Hw1. split; [by apply (server_ok_create id)|].
    right. right. right. do 3 (split; [done|]). exists id, (next_handle (w_env w)).
    split; [by apply (draws_range n r)|]. split; [done|]. split; [|done].
    apply eq_None_not_Some. intros Hs. pose proof (so_fresh w Hw _ Hs). lia.
  - by split; [apply server_ok_db|].
Qed.

Lemma delete_player_run p w :
  binds_answer → server_ok w → after (delete_player p) w (delete_player_post p w).
Proof.
  intros Hb Hw. unfold delete_player_post, delete_player. apply after_gets, after_bind.
  set (ids := player_tunnels p (w_tunnels w)).
  apply (after_mono _ _ _ _ (delete_tunnels_run ids w Hb Hw)).
  intros o w1 (Hw1 & (E1 & E2 & E3 & E4) & Ho). destruct o as [|e| |]; [|by auto|done..].
  apply after_bind. unfold after at 1, db_exec. pose proof (delete_user_ok p (w_db w1)) as Hd.
  destruct (delete_user_by_id p (w_db w1)) as [[n|e| |] d] eqn:Ed; [|..|done|done].
  2: { split; [by apply server_ok_db|]. repeat (split; [done|]).
       exists (length ids). by rewrite firstn_all. }
  assert (server_ok (set_db d w1)) as Hw2 by (by apply server_ok_db).
  destruct (Z.eqb_spec n 1) as [->|Hn]; cbn [negb].
  2: { split; [done|]. repeat (split; [done|]). exists (length ids). by rewrite firstn_all. }
  destruct (remove_from_vector p (set_db d w1) Hw2) as (e & l & E & He & Hl).
  unfold after. rewrite E. split.
  { apply server_ok_vector; [done| |done]. destruct Hl as [[-> _]|(l1 & h & l2 & _ & El & -> & _)]; [done|].
    rewrite El. intros x. rewrite !elem_of_app, elem_of_cons. tauto. }
  split; [done|]. split; [done|]. split; [|split; [by eexists|]].
  - cbn. rewrite Ho. apply without_player_tunnels, Hw.
  - cbn in Hl. rewrite E1, E2 in Hl. destruct Hl as [[-> Hn]|(l1 & h & l2 & pl & Hl)]; [by left|right].
    exists l1, h, l2, pl. exact Hl.
Qed.

(** C24: Registration. A name and a password of the right form that no account
    has get an account with a new id of eight digits, which no player has, and
    a player that is offline; every other answer leaves the server as it was:
    -1 for the form, -2 for a name that is taken, -3 when ten thousand draws
    gave ids that players have. A database that fails leaves the players as
    they were, and nothing panics. *)
Theorem add_player_correct `{Rng} (r : rng) (now : Z) (name pass : string) w :
  server_ok w →
  after (add_player r now name pass) w (λ o w',
    server_ok w' ∧
    match o with
    | Ok (code, _) =>
        (code = -1 ∧ w' = w ∧ is_valid_username name && is_valid_password pass = false) ∨
        (code = -2 ∧ w' = w ∧ ∃ u, find_username name (w_db w) = Ok (Some u)) ∨
        (code = -3 ∧ w' = w ∧
         Forall (λ id, is_Some (w_player_map w !! id)) (draws (Z.to_nat 10000) r)) ∨
        (code = 0 ∧ is_valid_username name && is_valid_password pass = true ∧
         find_username name (w_db w) = Ok None ∧
         ∃ id h, 10000000 <= id < 99999999 ∧ w_player_map w !! id = None ∧
           w_players w !! h = None ∧ w_players w' = <[h := player_new id]> (w_players w) ∧
           w_player_map w' = <[id := h]> (w_player_map w) ∧
           w_player_list w' = w_player_list w ++ [h] ∧ w_tunnels w' = w_tunnels w ∧
           insert_user {| um_id := id; um_username := name; um_password := pass;
                          um_create_time := now |} (w_db w) = (Ok tt, w_db w'))
    | Err _ => same_players w w' ∧ w_tunnels w' = w_tunnels w
    | _ => False
    end).
Proof. exact (add_player_run r now name pass w). Qed.

(** C25: Removing a player removes exactly its tunnels, whatever ends of them it
    has, then its account and its place in the vector, and closes its
    connection; a removal that fails midway has removed the first of its
    tunnels. The player stays in the map, so it is still accepted as an end of
    new tunnels and still gets messages; and nothing panics. *)
Theorem delete_player_correct (p : u32) w :
  binds_answer → server_ok w →
  after (delete_player p) w (λ o w',
    server_ok w' ∧ w_players w' = w_players w ∧ w_player_map w' = w_player_map w ∧
    match o with
    | Ok _ =>
        w_tunnels w' = other_tunnels p (w_tunnels w) ∧
        (∃ d, delete_user_by_id p d = (Ok 1, w_db w')) ∧
        ((w_player_list w' = w_player_list w ∧
          ∀ h pl, h ∈ w_player_list w → w_players w !! h = Some pl → p_player_id pl ≠ p) ∨
         ∃ l1 h l2 pl, w_player_list w = l1 ++ h :: l2 ∧ w_player_list w' = l1 ++ l2 ∧
           w_players w !! h = Some pl ∧ p_player_id pl = p ∧
           ∀ tx, p_tx pl = Some tx → ∃ e, w_env w' = told tx Close e)
    | Err _ =>
        w_player_list w' = w_player_list w ∧
        ∃ n, w_tunnels w' = without_ids (take n (player_tunnels p (w_tunnels w))) (w_tunnels w)
    | _ => False
    end).
Proof. exact (delete_player_run p w). Qed.

(** An account's name cannot be changed. The new name is written to the
    password, which the new password then overwrites: what an update does to
    the database does not depend on the name it was given. *)
Theorem update_player_ignores_name (id : u32) (name name' pass : string) w :
  update_player {| pd_id := id; pd_username := name; pd_password := pass |} w =
    update_player {| pd_id := id; pd_username := name'; pd_password := pass |} w ∧
  ∀ u, find_user_by_id id (w_db w) = Ok (Some u) →
    update_player {| pd_id := id; pd_username := name; pd_password := pass |} w =
      db_exec (update_user {| um_id := um_id u; um_username := um_username u; um_password := pass;
                              um_create_time := um_create_time u |}) w.
Proof.
  split; [done|]. intros u Hu. unfold update_player, db_query, mbind, M_bind. cbn [pd_id]. by rewrite Hu.
Qed.
End PlayersProperties.

(** ** A concrete instance, for the witnesses *)

Module PlayersConcrete.

(** A database: the ids of its tunnels, and its users. *)
#[export] Instance users : UserDb := {|
  db := list u32 * list user_Model;
  find_login n p d :=
    Ok (head (base.filter (λ u, um_username u = n ∧ um_password u = p) (snd d)));
  find_username n d := Ok (head (base.filter (λ u, um_username u = n) (snd d)));
  insert_user u d := (Ok tt, (fst d, snd d ++ [u]))
|}.
Definition top (ids : list u32) : u32 := foldr Z.max 0 ids.
#[export] Instance rows : TunnelDb := {|
  find_all_tunnels _ := Ok [];
  find_tunnel_by_id id d := Ok None;
  insert_tunnel _ d := (Ok (top (fst d) + 1), ((top (fst d) + 1) :: fst d, snd d));
  delete_tunnel_by_id id d :=
    (Ok (if decide (id ∈ fst d) then 1 else 0), (base.filter (λ x, x ≠ id) (fst d), snd d));
  update_tunnel_row _ d := (Ok tt, d)
|}.
#[export] Instance admin : UserAdmin := {|
  find_all_users d := Ok (snd d);
  find_user_by_id id d := Ok (head (base.filter (λ u, um_id u = id) (snd d)));
  update_user u d := (Ok tt, (fst d, (λ x, if decide (um_id x = um_id u) then u else x) <$> snd d));
  delete_user_by_id id d :=
    (Ok (if decide (id ∈ (um_id <$> snd d)) then 1 else 0),
     (fst d, base.filter (λ u, um_id u ≠ id) (snd d)))
|}.

Lemma below_top ids x : x ∈ ids → x <= top ids.
Proof.
  induction ids as [|y ids IH]; [by intros ?%not_elem_of_nil|].
  intros [->|Hx]%elem_of_cons; cbn; [lia|]. specialize (IH Hx). unfold top in IH. lia.
Qed.
Lemma top_not_negative ids : 0 <= top ids.
Proof. induction ids as [|y ids IH]; cbn; [done|]. unfold top in IH. lia. Qed.

#[export] Instance rows_ok : @TunnelDbOk users rows.
Proof.
  refine (@Build_TunnelDbOk users rows (λ (x : u32) (d : @db users), x ∈ (fst d : list u32)) _ _ _ _).
  - intros t d. cbn. pose proof (top_not_negative (fst d)). split; [lia|]. split.
    { intros Hx. apply below_top in Hx. lia. }
    split; [left|by right].
  - intros id d. cbn. intros x Hx Hd. apply list_elem_of_filter. split; [|done].
    intros ->. rewrite decide_True in Hx by done. by destruct Hx.
  - intros id d. exact I.
  - intros t d x Hx. exact Hx.
Defined.
#[export] Instance users_ok : UsersOk.
Proof. split; intros; first [exact I|exact (λ x Hx, Hx)]. Defined.

Definition user (id : u32) (name : string) : user_Model :=
  {| um_id := id; um_username := name; um_password := "pw"; um_create_time := 0 |}.

(** Players 7, connected with writer 1, and 8; all tunnels go out through the server,
    tunnel 1 from player 8, tunnel 2 from the server itself, tunnel 3 from player 7. *)
Definition start : world := {|
  w_env := Env ∅ {[1 := Chan true []]} ∅ chan_new 20;
  w_players := {[10 := {| p_tx := Some 1; p_player_id := 7; p_session_id := 100 |};
                 11 := player_new 8]};
  w_player_list := [10; 11]; w_player_map := {[7 := 10; 8 := 11]};
  w_tunnels := [TunnelsConcrete.tunnel 1 8 "0.0.0.0:8001"; TunnelsConcrete.tunnel 2 0 "0.0.0.0:8002";
                TunnelsConcrete.tunnel 3 7 "0.0.0.0:8001"];
  w_outlets := ∅; w_inlets := ∅; w_db := ([1; 2; 3], [user 7 "ann"; user 8 "bob"])
|}.

Lemma players_start_ok : server_ok start.
Proof.
  split.
  - split; [split; [|split]|].
    + apply (bool_decide_unpack _). vm_compute. exact I.
    + apply (bool_decide_unpack _). vm_compute. exact I.
    + apply (bool_decide_unpack _). vm_compute. exact I.
    + intros t Ht. change (tm_id t ∈ [1; 2; 3]). apply (list_elem_of_fmap_2 tm_id) in Ht. exact Ht.
  - intros id h Hm. unfold start in Hm. cbn [w_player_map] in Hm.
    apply lookup_insert_Some in Hm as [[<- <-]|[_ Hm]]; [by eexists|].
    apply lookup_singleton_Some in Hm as [<- <-]. by eexists.
  - intros h Hh. unfold start in Hh. cbn [w_player_list] in Hh.
    apply elem_of_cons in Hh as [->|Hh%list_elem_of_singleton]; [by eexists|]. subst h. by eexists.
  - intros h [pl Hh]. unfold start in Hh |- *. cbn [w_players w_env next_handle] in *.
    apply lookup_insert_Some in Hh as [[<- _]|[_ Hh]]; [lia|].
    apply lookup_singleton_Some in Hh as [<- _]. lia.
Qed.
End PlayersConcrete.

Section PlayersWitnesses.
Import PlayersConcrete.
#[local] Existing Instances ProstConcrete.prost users rows admin rows_ok users_ok
  TunnelsConcrete.json TunnelsConcrete.unicode TunnelsConcrete.os Concrete.rand.

Lemma add_player_correct_witness :
  after (add_player (1 : rng (Rng := Concrete.rand)) 0 "carol" "pw") PlayersConcrete.start (λ o w',
    server_ok w' ∧
    match o with
    | Ok (code, _) =>
        (code = -1 ∧ w' = PlayersConcrete.start ∧
         is_valid_username "carol" && is_valid_password "pw" = false) ∨
        (code = -2 ∧ w' = PlayersConcrete.start ∧
         ∃ u, find_username "carol" (w_db PlayersConcrete.start) = Ok (Some u)) ∨
        (code = -3 ∧ w' = PlayersConcrete.start ∧
         Forall (λ id, is_Some (w_player_map PlayersConcrete.start !! id))
           (draws (Z.to_nat 10000) (1 : rng (Rng := Concrete.rand)))) ∨
        (code = 0 ∧ is_valid_username "carol" && is_valid_password "pw" = true ∧
         find_username "carol" (w_db PlayersConcrete.start) = Ok None ∧
         ∃ id h, 10000000 <= id < 99999999 ∧ w_player_map PlayersConcrete.start !! id = None ∧
           w_players PlayersConcrete.start !! h = None ∧
           w_players w' = <[h := player_new id]> (w_players PlayersConcrete.start) ∧
           w_player_map w' = <[id := h]> (w_player_map PlayersConcrete.start) ∧
           w_player_list w' = w_player_list PlayersConcrete.start ++ [h] ∧
           w_tunnels w' = w_tunnels PlayersConcrete.start ∧
           insert_user {| um_id := id; um_username := "carol"; um_password := "pw";
                          um_create_time := 0 |} (w_db PlayersConcrete.start) = (Ok tt, w_db w'))
    | Err _ => same_players PlayersConcrete.start w' ∧ w_tunnels w' = w_tunnels PlayersConcrete.start
    | _ => False
    end).
Proof.
  apply (add_player_correct (1 : rng (Rng := Concrete.rand)) 0 "carol" "pw" PlayersConcrete.start).
  exact players_start_ok.
Defined.

Lemma delete_player_correct_witness :
  after (delete_player 7) PlayersConcrete.start (λ o w', server_ok w' ∧
    w_players w' = w_players PlayersConcrete.start ∧
    w_player_map w' = w_player_map PlayersConcrete.start ∧
    match o with
    | Ok _ =>
        w_tunnels w' = other_tunnels 7 (w_tunnels PlayersConcrete.start) ∧
        (∃ d, delete_user_by_id 7 d = (Ok 1, w_db w')) ∧
        ((w_player_list w' = w_player_list PlayersConcrete.start ∧
          ∀ h pl, h ∈ w_player_list PlayersConcrete.start →
            w_players PlayersConcrete.start !! h = Some pl → p_player_id pl ≠ 7) ∨
         ∃ l1 h l2 pl, w_player_list PlayersConcrete.start = l1 ++ h :: l2 ∧
           w_player_list w' = l1 ++ l2 ∧ w_players PlayersConcrete.start !! h = Some pl ∧
           p_player_id pl = 7 ∧ ∀ tx, p_tx pl = Some tx → ∃ e, w_env w' = told tx Close e)
    | Err _ =>
        w_player_list w' = w_player_list PlayersConcrete.start ∧
        ∃ n, w_tunnels w' = without_ids (take n (player_tunnels 7 (w_tunnels PlayersConcrete.start)))
                              (w_tunnels PlayersConcrete.start)
    | _ => False
    end).
Proof.
  apply (delete_player_correct 7 PlayersConcrete.start).
  - exact TunnelsConcrete.os_binds.
  - exact players_start_ok.
Defined.

(** The id drawn first is nobody's. *)
Example carol_registers :
  w_player_map (snd (add_player (1 : rng (Rng := Concrete.rand)) 0 "carol" "pw" PlayersConcrete.start)) !! 10000001 = Some 20.
Proof. vm_compute. reflexivity. Qed.
End PlayersWitnesses.
