(* ===== verification/Web.v ===== *)
(** [np_server/src/web]: the management interface: the requests and answers
    ([proto.rs]) and the handlers ([mod.rs]). [actix_web]'s routing gives a
    request its handler; its sessions are the events a handler causes. *)

From S2P Require Import Prelude Std Extern Net Proxy Inlet Messages Bridge Framing Ends Str Server.
From S2P Require Import Tunnels Players.

(** ** proto.rs *)

Record LoginReq := { lr_username : string; lr_password : string }.
Record GeneralResponse := { gr_msg : string; gr_code : i32 }.
Record PlayerListRequest := { lq_page_number : usize; lq_page_size : usize }.
Record PlayerListItem := {
  pi_id : u32; pi_username : string; pi_password : string; pi_online : bool
}.
Record PlayerListResponse := {
  ps_players : list PlayerListItem; ps_cur_page_number : usize; ps_total_count : usize
}.
Record PlayerRemoveReq := { prr_id : u32 }.
Record PlayerAddReq := { par_username : string; par_password : string }.
Record PlayerUpdateReq := { pur_id : u32; pur_username : string; pur_password : string }.
Record TunnelListItem := {
  ti_id : u32; ti_source : string; ti_endpoint : string; ti_enabled : bool; ti_sender : u32;
  ti_receiver : u32; ti_description : string; ti_tunnel_type : u32; ti_password : string;
  ti_username : string; ti_is_compressed : bool; ti_encryption_method : string;
  ti_custom_mapping : gmap string string
}.
Record TunnelListResponse := {
  ts_tunnels : list TunnelListItem; ts_cur_page_number : usize; ts_total_count : usize
}.
Record TunnelRemoveReq := { trr_id : u32 }.
Record TunnelAddReq := {
  tar_source : string; tar_endpoint : string; tar_enabled : u8; tar_sender : u32;
  tar_receiver : u32; tar_description : string; tar_tunnel_type : u32; tar_password : string;
  tar_username : string; tar_is_compressed : u8; tar_encryption_method : string;
  tar_custom_mapping : gmap string string
}.
Record TunnelUpdateReq := {
  tur_id : u32; tur_source : string; tur_endpoint : string; tur_enabled : u8; tur_sender : u32;
  tur_receiver : u32; tur_description : string; tur_tunnel_type : u32; tur_password : string;
  tur_username : string; tur_is_compressed : u8; tur_encryption_method : string;
  tur_custom_mapping : gmap string string
}.

(** ** The libraries *)

(** [serde_json::from_str] with a derived [Deserialize]. *)
Class FromJson (A : Type) := from_json : string → outcome A.

(** [serde_json::to_string] of a mapping, in some order of its entries. *)
Class MappingJson `{Json} := {
  mapping_to_str : gmap string string → outcome string;
  mapping_text m s : mapping_to_str m = Ok s → mapping_from_str s = Ok m
}.

(** [format!("{:x}", md5::compute(_))]: 32 hexadecimal digits. *)
Class Md5 := {
  md5_hex : bytes → string;
  md5_length bs : String.length (md5_hex bs) = 32%nat
}.

(** [GLOBAL_CONFIG] *)
Class WebConfig := { web_username : string; web_password : string }.

(** The pages of the users and their number. *)
Class UserPages `{UserDb} := {
  fetch_page : Z → Z → db → outcome (list user_Model);   (** size, number *)
  count_users : db → outcome Z
}.

(** ** Requests and answers *)

Section Web.
Context `{Rng}.

(** A request after the middleware: its path, whether it is a POST, what the
    session says about who sent it and whether a login can be attached to it,
    its body, and the randomness and time its handling meets. *)
Record request := {
  rq_path : string;
  rq_post : bool;
  rq_identity : option (outcome string);
  rq_login : outcome unit;
  rq_body : string;
  rq_entropy : rng;
  rq_now : Z
}.

Inductive HttpResponse :=
| General (r : GeneralResponse)
| PlayerList (r : PlayerListResponse)
| TunnelList (r : TunnelListResponse)
| NotRouted                          (** no route of the resource takes the method *)
| Files (path : string).             (** [actix_files] *)

(** What a handler makes of the session of a request. *)
Inductive session_event := LoggedIn (id : string) | LoggedOut.

Context `{Prost} `{Json} `{Unicode} `{InletOs} `{UserDb} `{!TunnelDb} `{!UserAdmin} `{!UserPages}
  `{!MappingJson} `{Md5} `{WebConfig}.

Record web := Web { wb_world : world; wb_events : list session_event }.

Definition in_world {A} (m : M world A) : M web A := λ s,
  let '(o, w) := m (wb_world s) in (o, Web w (wb_events s)).
Definition session_event_is (ev : session_event) : M web unit :=
  modify (λ s, Web (wb_world s) (wb_events s ++ [ev])).

Definition general (code : i32) (msg : string) : HttpResponse :=
  General {| gr_msg := msg; gr_code := code |}.
Definition expired : HttpResponse := general 10086 "Session expired, please log in again.".

(** ** Sessions *)

(** Who the request is from: an error of the session is the answer. *)
Definition identity_of (identity : option (outcome string)) : outcome string :=
  match identity with
  | None => Ok "anonymous"
  | Some (Ok id) => Ok id
  | Some (Err err) => Err err
  | Some (Panic w) => Panic w
  | Some Pending => Pending
  end.

Definition authentication (identity : option (outcome string)) : option (outcome HttpResponse) :=
  match identity_of identity with
  | Ok id => if bool_decide (id = "anonymous") then Some (Ok expired) else None
  | Err err => Some (Err err)
  | Panic w => Some (Panic w)
  | Pending => Some Pending
  end.

Definition web_test_auth (r : request) : M web HttpResponse :=
  id ← lift (identity_of (rq_identity r));
  if bool_decide (id = "anonymous") then mret expired else mret (general 0 ("hello " +:+ id)).

(** The extractor of the argument [id: Identity] refuses a request without one. *)
Definition web_logout (r : request) : M web HttpResponse :=
  match rq_identity r with
  | Some _ => session_event_is LoggedOut;; mret expired
  | None => bail "there is no identity in the session"
  end.

Definition correct_login (req : LoginReq) : bool :=
  (0 <? str_len web_username) && bool_decide (web_username = lr_username req) &&
  bool_decide (web_password = lr_password req).
Definition login_identity : string := md5_hex (as_bytes (web_username +:+ "-" +:+ web_password)).

Definition web_login `{!FromJson LoginReq} (r : request) : M web HttpResponse :=
  req ← lift (from_json (rq_body r));
  if correct_login req then
    lift (rq_login r);;
    session_event_is (LoggedIn login_identity);;
    mret (general 0 "Success")
  else mret (general (-2) "Incorrect username or password").

(** ** Handlers *)

(** The answer to a call of a manager. *)
Definition answer_call (code : i32) (m : M web unit) : M web HttpResponse := λ s,
  match m s with
  | (Ok _, s') => (Ok (general 0 "Success"), s')
  | (Err err, s') => (Ok (general code err), s')
  | (Panic w, s') => (Panic w, s')
  | (Pending, s') => (Pending, s')
  end.

Definition sqlx_error {A} (o : outcome A) : outcome A :=
  match o with Err err => Err ("sqlx error:" +:+ err) | _ => o end.

Definition player_page_size (page_size : usize) : usize :=
  if (page_size <=? 0) || (100 <? page_size) then 1 else page_size.

(** [true] if the manager has the player and it is online. *)
Definition player_online (id : u32) : M world bool :=
  player ← get_player id;
  match player with
  | Some h => p ← get_player_at h; mret (is_online p)
  | None => mret false
  end.

Fixpoint player_items (users : list user_Model) : M world (list PlayerListItem) :=
  match users with
  | [] => mret []
  | data :: users =>
      online ← player_online (um_id data);
      players ← player_items users;
      mret ({| pi_id := um_id data; pi_username := um_username data;
               pi_password := um_password data; pi_online := online |} :: players)
  end.

Definition web_player_list `{!FromJson PlayerListRequest} (r : request) : M web HttpResponse :=
  match authentication (rq_identity r) with
  | Some result => lift result
  | None =>
      req ← lift (from_json (rq_body r));
      let page_size := player_page_size (lq_page_size req) in
      users ← in_world (λ w, (sqlx_error (fetch_page page_size (lq_page_number req) (w_db w)), w));
      total_count ← in_world (λ w, (sqlx_error (count_users (w_db w)), w));
      players ← in_world (player_items users);
      mret (PlayerList {| ps_players := players; ps_cur_page_number := lq_page_number req;
                          ps_total_count := as_usize total_count |})
  end.

Definition web_remove_player `{!FromJson PlayerRemoveReq} (r : request) : M web HttpResponse :=
  match authentication (rq_identity r) with
  | Some result => lift result
  | None =>
      req ← lift (from_json (rq_body r));
      answer_call (-1) (in_world (delete_player (prr_id req)))
  end.

Definition web_add_player `{!FromJson PlayerAddReq} (r : request) : M web HttpResponse :=
  match authentication (rq_identity r) with
  | Some result => lift result
  | None =>
      req ← lift (from_json (rq_body r));
      '(code, msg) ← in_world (add_player (rq_entropy r) (rq_now r) (par_username req) (par_password req));
      mret (general code msg)
  end.

Definition web_update_player `{!FromJson PlayerUpdateReq} (r : request) : M web HttpResponse :=
  match authentication (rq_identity r) with
  | Some result => lift result
  | None =>
      req ← lift (from_json (rq_body r));
      if negb (is_valid_username (pur_username req)) || negb (is_valid_password (pur_password req))
      then mret (general (-1) "usernames may not exceed 30 characters, and passwords may not exceed 15 characters.")
      else answer_call (-2) (in_world (update_player
             {| pd_id := pur_id req; pd_username := pur_username req;
                pd_password := pur_password req |}))
  end.

Definition tunnel_item (data : tunnel_Model) : TunnelListItem := {|
  ti_id := tm_id data; ti_source := tm_source data; ti_endpoint := tm_endpoint data;
  ti_enabled := tm_enabled data =? 1; ti_sender := tm_sender data; ti_receiver := tm_receiver data;
  ti_description := tm_description data; ti_tunnel_type := tm_tunnel_type data;
  ti_password := tm_password data; ti_username := tm_username data;
  ti_is_compressed := tm_is_compressed data =? 1;
  ti_encryption_method := tm_encryption_method data;
  ti_custom_mapping := match mapping_from_str (tm_custom_mapping data) with Ok m => m | _ => ∅ end
|}.

Definition web_tunnel_list `{!FromJson PlayerListRequest} (r : request) : M web HttpResponse :=
  match authentication (rq_identity r) with
  | Some result => lift result
  | None =>
      req ← lift (from_json (rq_body r));
      tunnel_list ← in_world (query (lq_page_number req) (lq_page_size req));
      total_count ← in_world (gets (λ w, len (w_tunnels w)));
      mret (TunnelList {| ts_tunnels := tunnel_item <$> tunnel_list;
                          ts_cur_page_number := lq_page_number req;
                          ts_total_count := total_count |})
  end.

Definition web_remove_tunnel `{!FromJson TunnelRemoveReq} (r : request) : M web HttpResponse :=
  match authentication (rq_identity r) with
  | Some result => lift result
  | None =>
      req ← lift (from_json (rq_body r));
      answer_call (-1) (in_world (delete_tunnel (trr_id req)))
  end.

(** [serde_json::to_string(mapping).map_or("".to_string(), |x| x)] *)
Definition mapping_text_or_empty (m : gmap string string) : string :=
  match mapping_to_str m with Ok x => x | _ => "" end.

Definition new_tunnel (req : TunnelAddReq) : tunnel_Model := {|
  tm_source := tar_source req; tm_endpoint := tar_endpoint req; tm_id := 0;
  tm_enabled := tar_enabled req; tm_sender := tar_sender req; tm_receiver := tar_receiver req;
  tm_description := tar_description req; tm_tunnel_type := tar_tunnel_type req;
  tm_password := tar_password req; tm_username := tar_username req;
  tm_is_compressed := tar_is_compressed req;
  tm_custom_mapping := mapping_text_or_empty (tar_custom_mapping req);
  tm_encryption_method := tar_encryption_method req |}.

Definition changed_tunnel (req : TunnelUpdateReq) : tunnel_Model := {|
  tm_source := tur_source req; tm_endpoint := tur_endpoint req; tm_id := tur_id req;
  tm_enabled := tur_enabled req; tm_sender := tur_sender req; tm_receiver := tur_receiver req;
  tm_description := tur_description req; tm_tunnel_type := tur_tunnel_type req;
  tm_password := tur_password req; tm_username := tur_username req;
  tm_is_compressed := tur_is_compressed req;
  tm_custom_mapping := mapping_text_or_empty (tur_custom_mapping req);
  tm_encryption_method := tur_encryption_method req |}.

Definition web_add_tunnel `{!FromJson TunnelAddReq} (r : request) : M web HttpResponse :=
  match authentication (rq_identity r) with
  | Some result => lift result
  | None =>
      req ← lift (from_json (rq_body r));
      answer_call (-1) (in_world (add_tunnel (new_tunnel req)))
  end.

Definition web_update_tunnel `{!FromJson TunnelUpdateReq} (r : request) : M web HttpResponse :=
  match authentication (rq_identity r) with
  | Some result => lift result
  | None =>
      req ← lift (from_json (rq_body r));
      answer_call (-1) (in_world (update_tunnel (changed_tunnel req)))
  end.

(** ** Routing *)

Context `{!FromJson LoginReq} `{!FromJson PlayerListRequest} `{!FromJson PlayerRemoveReq}
  `{!FromJson PlayerAddReq} `{!FromJson PlayerUpdateReq} `{!FromJson TunnelRemoveReq}
  `{!FromJson TunnelAddReq} `{!FromJson TunnelUpdateReq}.

(** The services of [run_http_server], in order; the files come last. *)
Definition services : list (string * (request → M web HttpResponse)) :=
  [("/api/login", web_login); ("/api/logout", web_logout); ("/api/test_auth", web_test_auth);
   ("/api/player_list", web_player_list); ("/api/remove_player", web_remove_player);
   ("/api/add_player", web_add_player); ("/api/update_player", web_update_player);
   ("/api/tunnel_list", web_tunnel_list); ("/api/remove_tunnel", web_remove_tunnel);
   ("/api/add_tunnel", web_add_tunnel); ("/api/update_tunnel", web_update_tunnel)].

Definition run_http_server (r : request) : M web HttpResponse :=
  match head (base.filter (λ s, fst s = rq_path r) services) with
  | Some (_, handler) => if rq_post r then handler r else mret NotRouted
  | None => mret (Files (rq_path r))
  end.
End Web.

(** ** Facts *)

Section WebFacts.
Context `{Rng} `{Prost} `{Json} `{Unicode} `{InletOs} `{UserDb} `{!TunnelDb} `{!UserAdmin}
  `{!UserPages} `{!MappingJson} `{Md5} `{WebConfig}.
Context `{!FromJson LoginReq} `{!FromJson PlayerListRequest} `{!FromJson PlayerRemoveReq}
  `{!FromJson PlayerAddReq} `{!FromJson PlayerUpdateReq} `{!FromJson TunnelRemoveReq}
  `{!FromJson TunnelAddReq} `{!FromJson TunnelUpdateReq}.
Implicit Types (r : request) (s : web) (o : outcome HttpResponse).

(** What a request is handled by. *)
Lemma run_http_server_cases (P : M web HttpResponse → Prop) r :
  (∀ handler, (rq_path r, handler) ∈ services → rq_post r = true → P (handler r)) →
  P (mret NotRouted) → P (mret (Files (rq_path r))) → P (run_http_server r).
Proof.
  intros Hs Hn Hf. unfold run_http_server.
  destruct (head (base.filter _ services)) as [[path handler]|] eqn:E; [|done].
  destruct (rq_post r) eqn:Hp; [|done]. apply head_Some_elem_of in E.
  apply list_elem_of_filter in E as [E Hin]. cbn in E. subst path. by apply Hs.
Qed.

(** *** Nothing without a login *)

(** The session the request comes with was given out before. *)
Definition genuine s r : Prop :=
  ∀ id, rq_identity r = Some (Ok id) → LoggedIn id ∈ wb_events s.

Inductive served : web → list request → list (outcome HttpResponse) → web → Prop :=
| served_nil s : served s [] [] s
| served_cons s r rs o s1 os s2 :
    genuine s r → run_http_server r s = (o, s1) → served s1 rs os s2 →
    served s (r :: rs) (o :: os) s2.

(** A login with the configured name and password. *)
Definition right_login r : Prop :=
  rq_path r = "/api/login" ∧ rq_post r = true ∧
  ∃ req, from_json (rq_body r) = Ok req ∧ correct_login req = true.

(** An answer that tells nothing. *)
Definition refused o : Prop :=
  match o with
  | Ok x => x = expired ∨ x = general (-2) "Incorrect username or password" ∨ x = NotRouted ∨
            ∃ path, x = Files path
  | _ => True
  end.

Definition nobody s : Prop := ∀ id, LoggedIn id ∉ wb_events s.

(** The handling of a request gives nothing away and changes nothing. *)
Definition harmless (m : M web HttpResponse) : Prop := ∀ s, nobody s →
  after m s (λ o s', refused o ∧ wb_world s' = wb_world s ∧ nobody s').

Lemma harmless_const m : (∀ s, snd (m s) = s ∧ refused (fst (m s))) → harmless m.
Proof.
  intros Hm s Hs. specialize (Hm s). unfold after. destruct (m s) as [o s']. cbn in Hm.
  by destruct Hm as [-> Ho].
Qed.

(** Every handler that checks the session refuses. *)
Lemma harmless_authentication r (m : M web HttpResponse) :
  (∀ id, rq_identity r ≠ Some (Ok id)) →
  harmless (match authentication (rq_identity r) with Some result => lift result | None => m end).
Proof.
  intros Hid. apply harmless_const. intros s. unfold authentication, identity_of.
  destruct (rq_identity r) as [[id|e|w|]|] eqn:E; [by destruct (Hid id)|done|done|done|].
  rewrite bool_decide_eq_true_2 by done. split; [done|]. by left.
Qed.

Lemma harmless_logout r : harmless (web_logout r).
Proof.
  intros s Hs. unfold web_logout. destruct (rq_identity r); [|done].
  split; [by left|]. split; [done|]. intros id [Hin|Hin%list_elem_of_singleton]%elem_of_app; [|done].
  by apply (Hs id).
Qed.

Lemma harmless_login r : ¬ right_login r → rq_path r = "/api/login" → rq_post r = true →
  harmless (web_login r).
Proof.
  intros Hr Hp Hm. apply harmless_const. intros s. unfold web_login, lift, mbind, M_bind.
  destruct (from_json (rq_body r)) as [req|e|w|] eqn:E; [|done..].
  destruct (correct_login req) eqn:Hc.
  - destruct Hr. split; [done|]. split; [done|]. by exists req.
  - split; [done|]. right. by left.
Qed.

Lemma harmless_test_auth r : (∀ id, rq_identity r ≠ Some (Ok id)) → harmless (web_test_auth r).
Proof.
  intros Hid. apply harmless_const. intros s. unfold web_test_auth, identity_of, lift, mbind, M_bind.
  destruct (rq_identity r) as [[id|e|w|]|] eqn:E; [by destruct (Hid id)|done|done|done|].
  rewrite bool_decide_eq_true_2 by done. split; [done|]. by left.
Qed.

Lemma harmless_run r :
  (∀ id, rq_identity r ≠ Some (Ok id)) → ¬ right_login r → harmless (run_http_server r).
Proof.
  intros Hid Hr. apply run_http_server_cases.
  - intros handler Hin Hp. unfold services in Hin.
    repeat (apply elem_of_cons in Hin as [[= Epath ->]|Hin];
      [first [by apply harmless_authentication|by apply harmless_login|by apply harmless_logout
             |by apply harmless_test_auth]|]).
    by apply not_elem_of_nil in Hin.
  - apply harmless_const. intros s. split; [done|]. right. right. by left.
  - apply harmless_const. intros s. split; [done|]. do 3 right. by eexists.
Qed.

Lemma served_harmless s rs os s' :
  served s rs os s' → nobody s → Forall (λ r, ¬ right_login r) rs →
  wb_world s' = wb_world s ∧ Forall refused os.
Proof.
  induction 1 as [|s r rs o s1 os s2 Hg Hr Hrun IH]; intros Hs Hf; [done|].
  apply Forall_cons in Hf as [Hl Hf].
  assert (∀ id, rq_identity r ≠ Some (Ok id)) as Hid.
  { intros id E. by apply (Hs id), Hg. }
  pose proof (after_run _ _ _ _ _ Hr (harmless_run r Hid Hl s Hs)) as (Ho & Hw & Hs1).
  destruct (IH Hs1 Hf) as [Hw2 Hos]. split; [by rewrite Hw2|]. by constructor.
Qed.
End WebFacts.

(** *** Requests are answered, and the server stays consistent *)

Definition answered {A} (o : outcome A) : Prop :=
  match o with Ok _ | Err _ => True | _ => False end.

(** The libraries answer; a page has at least one user. *)
Class JsonAnswers (A : Type) `{FromJson A} : Prop := json_answers s : answered (from_json s).
Class PagesAnswer `{UserPages} : Prop := {
  fetch_page_ok size n d : 0 < size → answered (fetch_page size n d);
  count_users_ok d : answered (count_users d)
}.

Section WebSound.
Context `{Rng} `{Prost} `{Json} `{Unicode} `{InletOs} `{UserDb} `{!TunnelDb} `{!UserAdmin}
  `{!UserPages} `{!MappingJson} `{Md5} `{WebConfig}.
Context `{!FromJson LoginReq} `{!FromJson PlayerListRequest} `{!FromJson PlayerRemoveReq}
  `{!FromJson PlayerAddReq} `{!FromJson PlayerUpdateReq} `{!FromJson TunnelRemoveReq}
  `{!FromJson TunnelAddReq} `{!FromJson TunnelUpdateReq}.
Context `{!TunnelDbOk} `{!UsersOk} `{!PagesAnswer}.
Context `{!JsonAnswers LoginReq} `{!JsonAnswers PlayerListRequest} `{!JsonAnswers PlayerRemoveReq}
  `{!JsonAnswers PlayerAddReq} `{!JsonAnswers PlayerUpdateReq} `{!JsonAnswers TunnelRemoveReq}
  `{!JsonAnswers TunnelAddReq} `{!JsonAnswers TunnelUpdateReq}.
Implicit Types (r : request) (s : web) (w : world).

(** The session's store answers. *)
Definition request_ok r : Prop :=
  answered (rq_login r) ∧ match rq_identity r with Some o => answered o | None => True end.

(** A call that ends with an answer, from a consistent server in a consistent
    server with the same players. *)
Definition world_kept w w' : Prop := server_ok w' ∧ persist w w'.
Definition sound {A} (m : M web A) : Prop := ∀ s, server_ok (wb_world s) →
  after m s (λ o s', answered o ∧ world_kept (wb_world s) (wb_world s')).
Definition world_sound {A} (m : M world A) : Prop := ∀ w, server_ok w →
  after m w (λ o w', answered o ∧ world_kept w w').

Lemma world_kept_refl w : server_ok w → world_kept w w.
Proof. by intros Hw. Qed.
Lemma world_kept_trans w1 w2 w3 : world_kept w1 w2 → world_kept w2 w3 → world_kept w1 w3.
Proof. intros [H1' H2'] [H3' H4']. split; [done|by etrans]. Qed.
#[local] Hint Resolve world_kept_refl : npipe.

Lemma sound_const {A} (m : M web A) : (∀ s, wb_world (snd (m s)) = wb_world s ∧ answered (fst (m s))) → sound m.
Proof.
  intros Hm s Hs. unfold after. specialize (Hm s). destruct (m s) as [o s']. cbn in Hm.
  destruct Hm as [-> Ho]. auto with npipe.
Qed.
Lemma world_sound_const {A} (m : M world A) :
  (∀ w, server_ok w → snd (m w) = w ∧ answered (fst (m w))) → world_sound m.
Proof.
  intros Hm w Hw. unfold after. specialize (Hm w Hw). destruct (m w) as [o w']. cbn in Hm.
  destruct Hm as [-> Ho]. auto with npipe.
Qed.

Lemma sound_bind {A B} (m : M web A) (f : A → M web B) :
  sound m → (∀ a, sound (f a)) → sound (m ≫= f).
Proof.
  intros Hm Hf s Hs. apply after_bind. apply (after_mono _ _ _ _ (Hm s Hs)).
  intros [a|e| |] s' [Ho Hs']; [|done..]. apply (after_mono _ _ _ _ (Hf a s' (proj1 Hs'))).
  intros o s'' [Ho' Hs'']. split; [done|by eapply world_kept_trans].
Qed.
Lemma world_sound_bind {A B} (m : M world A) (f : A → M world B) :
  world_sound m → (∀ a, world_sound (f a)) → world_sound (m ≫= f).
Proof.
  intros Hm Hf s Hs. apply after_bind. apply (after_mono _ _ _ _ (Hm s Hs)).
  intros [a|e| |] s' [Ho Hs']; [|done..]. apply (after_mono _ _ _ _ (Hf a s' (proj1 Hs'))).
  intros o s'' [Ho' Hs'']. split; [done|by eapply world_kept_trans].
Qed.
Lemma sound_lift {A} (o : outcome A) : answered o → sound (lift o).
Proof. intros Ho. by apply sound_const. Qed.
Lemma sound_ret {A} (a : A) : sound (mret a).
Proof. by apply sound_const. Qed.
Lemma sound_in_world {A} (m : M world A) : world_sound m → sound (in_world m).
Proof.
  intros Hm s Hs. specialize (Hm _ Hs). unfold after, in_world in *. by destruct (m (wb_world s)).
Qed.
Lemma sound_answer_call code (m : M web unit) : sound m → sound (answer_call code m).
Proof.
  intros Hm s Hs. specialize (Hm s Hs). unfold after, answer_call in *.
  by destruct (m s) as [[] ?].
Qed.
Lemma sound_event ev : sound (session_event_is ev).
Proof. by apply sound_const. Qed.

Lemma sound_authentication r (m : M web HttpResponse) :
  request_ok r → sound m →
  sound (match authentication (rq_identity r) with Some result => lift result | None => m end).
Proof.
  intros [_ Hr] Hm. unfold authentication, identity_of.
  destruct (rq_identity r) as [[id|e|w|]|]; try done; [|by apply sound_lift..].
  by case_bool_decide; [apply sound_lift|].
Qed.

Lemma answered_sqlx {A} (o : outcome A) : answered o → answered (sqlx_error o).
Proof. by destruct o. Qed.

Lemma world_sound_player_items users : world_sound (player_items users).
Proof.
  induction users as [|u users IH]; [by apply world_sound_const|]. cbn [player_items].
  apply world_sound_bind.
  - apply world_sound_const. intros w Hw. unfold player_online, get_player. rewrite gets_bind.
    destruct (w_player_map w !! um_id u) as [h|] eqn:Hh; [|done].
    destruct (so_map w Hw _ _ Hh) as (pl & Hpl & _).
    by rewrite (bind_ok _ _ _ pl w) by (unfold get_player_at; by rewrite Hpl).
  - intros online. apply world_sound_bind; [done|]. intros players. by apply world_sound_const.
Qed.

(** A call of the tunnel manager. *)
Lemma world_sound_manager c (m : M world unit) :
  m = manager_exec c → binds_answer → call_ok c → world_sound m.
Proof.
  intros -> Hb Hc w Hw.
  assert (preserves manager_ok (manager_exec c) ∧ keeps_players (manager_exec c)) as [Hm Hk].
  { destruct c; eauto using manager_add, manager_delete, manager_update, keeps_add, keeps_delete,
      keeps_update. }
  pose proof (server_ok_manager _ Hm Hk w Hw) as Hok. pose proof (Hk w w ltac:(reflexivity)) as Hs.
  pose proof (server_players_ok w Hw) as Hpl. pose proof (so_manager w Hw) as Hmw.
  assert (after (manager_exec c) w (call_post c w)) as Hpost.
  { destruct c; [by apply add_call|by apply delete_call|by apply update_call]. }
  unfold after in *.
  destruct (manager_exec c w) as [[] w']; try done; (split; [done|]);
    (split; [done|apply persist_same, Hs]).
Qed.

Lemma world_sound_delete_player p : binds_answer → world_sound (delete_player p).
Proof.
  intros Hb w Hw. apply (after_mono _ _ _ _ (delete_player_run p w Hb Hw)).
  intros [] w' (Hw' & Hpl & _ & Ho); try done; (split; [done|]); (split; [done|by apply persist_same]).
Qed.
Lemma world_sound_add_player (g : rng) now name pass : world_sound (add_player g now name pass).
Proof.
  intros w Hw. apply (after_mono _ _ _ _ (add_player_run g now name pass w Hw)).
  intros [[code msg]|e| |] w' (Hw' & Ho); try done; (split; [done|]); (split; [done|]).
  - destruct Ho as [(_ & -> & _)|[(_ & -> & _)|[(_ & -> & _)|(_ & _ & _ & id & h & _ & _ & Hh & E & _)]]];
      [done..|by eapply persist_new].
  - apply persist_same, Ho.
Qed.
Lemma world_sound_update_player data : world_sound (update_player data).
Proof.
  intros w Hw. unfold update_player, db_query, db_exec, after, mbind, M_bind.
  pose proof (find_user_ok (pd_id data) (w_db w)) as Hf.
  destruct (find_user_by_id (pd_id data) (w_db w)) as [[u|]| | |]; try done.
  set (u' := set_password _ _). pose proof (update_user_ok u' (w_db w)) as Hu.
  destruct (update_user u' (w_db w)) as [[] d]; try done;
    (split; [done|]); (split; [by apply server_ok_db|by apply persist_same]).
Qed.

Lemma sound_run r : binds_answer → request_ok r → sound (run_http_server r).
Proof.
  intros Hb Hr. apply run_http_server_cases; [|apply sound_ret..].
  intros handler Hin _. unfold services in Hin.
  repeat (apply elem_of_cons in Hin as [[= _ ->]|Hin]; [try (apply sound_authentication; [done|];
    apply sound_bind; [apply sound_lift, json_answers|]; intros req)|]).
  - apply sound_bind; [apply sound_lift, json_answers|]. intros req.
    destruct (correct_login req); [|apply sound_ret].
    apply sound_bind; [apply sound_lift, Hr|]. intros _.
    apply sound_bind; [apply sound_event|]. intros _. apply sound_ret.
  - unfold web_logout. destruct (rq_identity r); [|by apply sound_const].
    apply sound_bind; [apply sound_event|]. intros _. apply sound_ret.
  - apply sound_bind.
    { apply sound_lift. destruct Hr as [_ Hr]. by destruct (rq_identity r) as [[]|]. }
    intros id. case_bool_decide; apply sound_ret.
  - apply sound_bind.
    { apply sound_in_world, world_sound_const. intros w _. split; [done|]. apply answered_sqlx, fetch_page_ok.
      unfold player_page_size. destruct (Z.leb_spec (lq_page_size req) 0); [done|].
      by destruct (100 <? lq_page_size req). }
    intros users. apply sound_bind.
    { apply sound_in_world, world_sound_const. intros w _. split; [done|].
      apply answered_sqlx, count_users_ok. }
    intros n. apply sound_bind; [apply sound_in_world, world_sound_player_items|].
    intros ps. apply sound_ret.
  - apply sound_answer_call, sound_in_world. by apply world_sound_delete_player.
  - apply sound_bind; [apply sound_in_world, world_sound_add_player|]. intros [code msg]. apply sound_ret.
  - destruct (_ || _); [apply sound_ret|].
    apply sound_answer_call, sound_in_world, world_sound_update_player.
  - apply sound_bind; [apply sound_in_world, world_sound_const|].
    { intros w _. by destruct (query_total (lq_page_number req) (lq_page_size req) w) as (p & -> & _). }
    intros ts. apply sound_bind; [by apply sound_in_world, world_sound_const|]. intros n.
    apply sound_ret.
  - apply sound_answer_call, sound_in_world.
    by apply (world_sound_manager (DeleteTunnel (trr_id req))).
  - apply sound_answer_call, sound_in_world. by apply (world_sound_manager (AddTunnel (new_tunnel req))).
  - apply sound_answer_call, sound_in_world.
    by apply (world_sound_manager (UpdateTunnel (changed_tunnel req))).
  - by apply not_elem_of_nil in Hin.
Qed.
End WebSound.

(** *** From a request to the list and to the clients *)

Section WebTunnels.
Context `{Rng} `{Prost} `{Json} `{Unicode} `{InletOs} `{UserDb} `{!TunnelDb} `{!UserAdmin}
  `{!UserPages} `{!MappingJson} `{Md5} `{WebConfig}.
Context `{!FromJson LoginReq} `{!FromJson PlayerListRequest} `{!FromJson PlayerRemoveReq}
  `{!FromJson PlayerAddReq} `{!FromJson PlayerUpdateReq} `{!FromJson TunnelRemoveReq}
  `{!FromJson TunnelAddReq} `{!FromJson TunnelUpdateReq}.
Context `{!TunnelDbOk}.
Implicit Types (r : request) (s : web) (w : world).

(** A request to a path by someone who has logged in. *)
Definition authorised (path : string) r : Prop :=
  rq_path r = path ∧ rq_post r = true ∧ authentication (rq_identity r) = None.

Lemma run_posted path handler r :
  rq_path r = path → rq_post r = true →
  head (base.filter (λ x, fst x = path) services) = Some (path, handler) →
  run_http_server r = handler r.
Proof. intros Hp Hm E. unfold run_http_server. by rewrite Hp, E, Hm. Qed.

Lemma add_tunnel_appends t w w' :
  binds_answer → players_ok w → manager_ok w → tm_id t = 0 → add_tunnel t w = (Ok tt, w') →
  ∃ id, id ≠ 0 ∧ (id ∉ (tm_id <$> w_tunnels w)) ∧ w_tunnels w' = w_tunnels w ++ [with_id id t].
Proof.
  intros Hb Hp Hm Ht E.
  pose proof (after_run _ _ _ _ _ E (add_call t w Hb Hp Hm Ht)) as [He _].
  inversion He; subst. by exists id.
Qed.

(** The page that the last tunnel is on. *)
Lemma query_last k size ts t w :
  0 < size <= 100 → (Z.of_nat k + 1) * size < 18446744073709551616 → w_tunnels w = ts ++ [t] →
  Z.of_nat k * size <= len ts < (Z.of_nat k + 1) * size →
  query (Z.of_nat k) size w = (Ok (drop (k * Z.to_nat size) ts ++ [t]), w).
Proof.
  intros Hs Hk Hts Hl. rewrite query_page by done. rewrite Hts. unfold page, len in *.
  rewrite drop_app_le by nia. rewrite take_ge; [done|].
  rewrite length_app, length_drop. cbn. nia.
Qed.

(** What the list shows of a tunnel that was asked for, and what its clients
    are told. *)
Definition listed (id : u32) (req : TunnelAddReq) : TunnelListItem := {|
  ti_id := id; ti_source := tar_source req; ti_endpoint := tar_endpoint req;
  ti_enabled := tar_enabled req =? 1; ti_sender := tar_sender req; ti_receiver := tar_receiver req;
  ti_description := tar_description req; ti_tunnel_type := tar_tunnel_type req;
  ti_password := tar_password req; ti_username := tar_username req;
  ti_is_compressed := tar_is_compressed req =? 1;
  ti_encryption_method := tar_encryption_method req;
  ti_custom_mapping := tar_custom_mapping req |}.
Definition announced (id : u32) (req : TunnelAddReq) : class_def_Tunnel := {|
  tn_source := Some {| tp_addr := tar_source req |};
  tn_endpoint := Some {| tp_addr := tar_endpoint req |};
  tn_id := id; tn_enabled := tar_enabled req =? 1; tn_sender := tar_sender req;
  tn_receiver := tar_receiver req; tn_tunnel_type := as_i32 (tar_tunnel_type req);
  tn_password := tar_password req; tn_username := tar_username req;
  tn_is_compressed := tar_is_compressed req =? 1;
  tn_encryption_method := tar_encryption_method req;
  tn_custom_mapping := tar_custom_mapping req |}.

Lemma mapping_text_back m :
  is_ok (mapping_to_str m) = true → mapping_from_str (mapping_text_or_empty m) = Ok m.
Proof.
  unfold mapping_text_or_empty. destruct (mapping_to_str m) as [x| | |] eqn:E; try done. intros _.
  by apply mapping_text.
Qed.
Lemma tunnel_item_new id req :
  is_ok (mapping_to_str (tar_custom_mapping req)) = true →
  tunnel_item (with_id id (new_tunnel req)) = listed id req.
Proof. intros Hm. unfold tunnel_item. cbn. by rewrite mapping_text_back. Qed.
Lemma tunnel_of_new id req :
  is_ok (mapping_to_str (tar_custom_mapping req)) = true →
  tunnel_of_model (with_id id (new_tunnel req)) = announced id req.
Proof. intros Hm. unfold tunnel_of_model. cbn. by rewrite mapping_text_back. Qed.
End WebTunnels.

(** ** Properties *)

Section WebProperties.
Context `{Rng} `{Prost} `{Json} `{Unicode} `{InletOs} `{UserDb} `{!TunnelDb} `{!UserAdmin}
  `{!UserPages} `{!MappingJson} `{Md5} `{WebConfig}.
Context `{!FromJson LoginReq} `{!FromJson PlayerListRequest} `{!FromJson PlayerRemoveReq}
  `{!FromJson PlayerAddReq} `{!FromJson PlayerUpdateReq} `{!FromJson TunnelRemoveReq}
  `{!FromJson TunnelAddReq} `{!FromJson TunnelUpdateReq}.
Context `{!TunnelDbOk} `{!UsersOk} `{!PagesAnswer}.
Context `{!JsonAnswers LoginReq} `{!JsonAnswers PlayerListRequest} `{!JsonAnswers PlayerRemoveReq}
  `{!JsonAnswers PlayerAddReq} `{!JsonAnswers PlayerUpdateReq} `{!JsonAnswers TunnelRemoveReq}
  `{!JsonAnswers TunnelAddReq} `{!JsonAnswers TunnelUpdateReq}.
Implicit Types (r : request) (s : web).

(** C22: The interface is closed without a login. Where no session was given out
    and no request is a login with the configured name and password (none is
    where the configuration has no name), whatever is sent to whatever path,
    nothing changes, and every answer is a refusal, an error or a file. The
    right login, in turn, gives out a session that every handler accepts. *)
Theorem web_requires_login :
  (∀ s rs os s', served s rs os s' → nobody s → Forall (λ r, ¬ right_login r) rs →
     wb_world s' = wb_world s ∧ Forall refused os) ∧
  (web_username = "" → ∀ r, ¬ right_login r) ∧
  (∀ s r, right_login r → rq_login r = Ok tt →
     run_http_server r s = (Ok (general 0 "Success"),
                            Web (wb_world s) (wb_events s ++ [LoggedIn login_identity])) ∧
     authentication (Some (Ok login_identity)) = None).
Proof.
  split; [intros; by eapply served_harmless|]. split.
  - intros Hu r (_ & _ & req & _ & Hc). unfold correct_login in Hc. by rewrite Hu in Hc.
  - intros s r (Hp & Hm & req & E & Hc) Hl. split.
    + rewrite (run_posted _ web_login r Hp Hm) by reflexivity. unfold web_login, lift, mbind, M_bind.
      by rewrite E, Hc, Hl.
    + unfold authentication, identity_of. rewrite bool_decide_eq_false_2; [done|].
      intros Ha. pose proof (md5_length (as_bytes (web_username +:+ "-" +:+ web_password))) as Hlen.
      unfold login_identity in Ha. by rewrite Ha in Hlen.
Qed.

(** Every request is answered, and the server stays consistent. Whoever
    sends whatever to whatever path, in whatever order, no handler panics or
    waits for ever, and the table of tunnels, the players and their map stay
    as the other components need them. *)
Theorem web_consistent s rs os s' :
  binds_answer → server_ok (wb_world s) → Forall request_ok rs → served s rs os s' →
  server_ok (wb_world s') ∧ Forall answered os.
Proof.
  intros Hb Hs Hrs Hserved. revert Hs Hrs.
  induction Hserved as [|s r rs o s1 os s2 _ Hr _ IH]; intros Hs Hrs; [done|].
  apply Forall_cons in Hrs as [Hr' Hrs].
  pose proof (after_run _ _ _ _ _ Hr (sound_run r Hb Hr' s Hs)) as (Ho & Hs1 & _).
  destruct (IH Hs1 Hrs) as [Hs2 Hos]. split; [done|]. by constructor.
Qed.

(** What is asked for is what is listed. A tunnel that is added is in the table
    under a fresh id, with every field of the request; and the list shows it, on
    the page its place falls on, counted from 0, as it was asked for, custom
    mapping included. *)
Theorem web_tunnel_listed s r req s' :
  binds_answer → server_ok (wb_world s) → authorised "/api/add_tunnel" r →
  from_json (rq_body r) = Ok req → is_ok (mapping_to_str (tar_custom_mapping req)) = true →
  run_http_server r s = (Ok (general 0 "Success"), s') →
  ∃ id t, (id ∉ (tm_id <$> w_tunnels (wb_world s))) ∧
    w_tunnels (wb_world s') = w_tunnels (wb_world s) ++ [t] ∧ tunnel_of_model t = announced id req ∧
    ∀ r' size k, authorised "/api/tunnel_list" r' →
      from_json (rq_body r') = Ok {| lq_page_number := Z.of_nat k; lq_page_size := size |} →
      0 < size <= 100 → (Z.of_nat k + 1) * size < 18446744073709551616 →
      Z.of_nat k * size <= len (w_tunnels (wb_world s)) < (Z.of_nat k + 1) * size →
      ∃ before, run_http_server r' s' = (Ok (TunnelList {|
          ts_tunnels := before ++ [listed id req]; ts_cur_page_number := Z.of_nat k;
          ts_total_count := len (w_tunnels (wb_world s)) + 1 |}), s').
Proof.
  intros Hb Hs Hr Hreq Hmap. destruct Hr as (Hp & Hm & Ha).
  rewrite (run_posted _ web_add_tunnel r Hp Hm) by reflexivity. unfold web_add_tunnel. rewrite Ha.
  unfold lift at 1, mbind at 1, M_bind at 1. rewrite Hreq. unfold answer_call, in_world.
  destruct (add_tunnel (new_tunnel req) (wb_world s)) as [[[]|e| |] w'] eqn:E; [|done..].
  intros [= <-]. destruct (add_tunnel_appends _ _ _ Hb (server_players_ok _ Hs) (so_manager _ Hs)
    (eq_refl : tm_id (new_tunnel req) = 0) E) as (id & _ & Hnew & Hts).
  exists id, (with_id id (new_tunnel req)). split; [done|]. split; [done|].
  split; [by apply tunnel_of_new|]. intros r' size k Hr' Hreq' Hsize Hk Hl.
  destruct Hr' as (Hp' & Hm' & Ha').
  rewrite (run_posted _ web_tunnel_list r' Hp' Hm') by reflexivity. unfold web_tunnel_list. rewrite Ha'.
  unfold lift, mbind, M_bind. rewrite Hreq'. unfold in_world. cbn [lq_page_number lq_page_size wb_world].
  rewrite (query_last k size _ _ w' Hsize Hk Hts Hl). unfold gets. cbn [wb_world wb_events].
  eexists. rewrite fmap_app, Hts, len_app. cbn [fmap list_fmap]. by rewrite tunnel_item_new.
Qed.
End WebProperties.

(** ** A concrete instance, for the witnesses *)

Module WebConcrete.

(** A configuration, a digest, and bodies that are names of requests. *)
#[export] Instance config : WebConfig := {| web_username := "admin"; web_password := "secret" |}.
#[export] Instance md5 : Md5 := {| md5_hex _ := "0123456789abcdef0123456789abcdef"; md5_length _ := eq_refl |}.
#[export] Instance json : Json := {|
  mapping_from_str s := if decide (s = "{}") then Ok ∅ else Err "not a mapping"
|}.
#[export] Instance mapping_json : MappingJson.
Proof.
  refine {| mapping_to_str m := if decide (m = ∅) then Ok "{}" else Err "no text" |}.
  intros m s. case_decide; [|done]. by intros [= <-]; subst.
Defined.
#[export] Instance pages : @UserPages PlayersConcrete.users :=
  @Build_UserPages PlayersConcrete.users
    (λ size n (d : list u32 * list user_Model),
       Ok (take (Z.to_nat size) (drop (Z.to_nat (n * size)) (snd d))))
    (λ d : list u32 * list user_Model, Ok (len (snd d))).

Definition body {A} (name : string) (a : A) (s : string) : outcome A :=
  if decide (s = name) then Ok a else Err "not this request".
Definition asked : TunnelAddReq := {|
  tar_source := "0.0.0.0:8005"; tar_endpoint := "10.0.0.9:80"; tar_enabled := 1; tar_sender := 0;
  tar_receiver := 0; tar_description := "web"; tar_tunnel_type := 0; tar_password := "";
  tar_username := ""; tar_is_compressed := 0; tar_encryption_method := "None";
  tar_custom_mapping := ∅ |}.
Definition asked_change : TunnelUpdateReq := {|
  tur_id := 2; tur_source := "0.0.0.0:8005"; tur_endpoint := "10.0.0.9:80"; tur_enabled := 1;
  tur_sender := 0; tur_receiver := 0; tur_description := "web"; tur_tunnel_type := 0;
  tur_password := ""; tur_username := ""; tur_is_compressed := 0; tur_encryption_method := "None";
  tur_custom_mapping := ∅ |}.

#[export] Instance login_json : FromJson LoginReq :=
  body "admin" {| lr_username := "admin"; lr_password := "secret" |}.
#[export] Instance list_json : FromJson PlayerListRequest :=
  body "page" {| lq_page_number := 0; lq_page_size := 10 |}.
#[export] Instance remove_json : FromJson PlayerRemoveReq := body "7" {| prr_id := 7 |}.
#[export] Instance add_json : FromJson PlayerAddReq :=
  body "carol" {| par_username := "carol"; par_password := "pw" |}.
#[export] Instance update_json : FromJson PlayerUpdateReq :=
  body "8" {| pur_id := 8; pur_username := "rob"; pur_password := "pw2" |}.
#[export] Instance tunnel_remove_json : FromJson TunnelRemoveReq := body "2" {| trr_id := 2 |}.
#[export] Instance tunnel_add_json : FromJson TunnelAddReq := body "tunnel" asked.
#[export] Instance tunnel_update_json : FromJson TunnelUpdateReq := body "tunnel" asked_change.

Lemma body_answers {A} name (a : A) s : answered (body name a s).
Proof. unfold body. by case_decide. Qed.
#[export] Instance pages_answer : @PagesAnswer PlayersConcrete.users pages.
Proof. by split. Defined.

Definition post (path : string) (identity : option (outcome string)) (text : string)
    : @request Concrete.rand := {|
  rq_path := path; rq_post := true; rq_identity := identity; rq_login := Ok tt; rq_body := text;
  rq_entropy := (1 : rng (Rng := Concrete.rand)); rq_now := 0 |}.
Definition session : option (outcome string) := Some (Ok "0123456789abcdef0123456789abcdef").

Definition login : @request Concrete.rand := post "/api/login" None "admin".
Definition add : @request Concrete.rand := post "/api/add_tunnel" session "tunnel".
Definition stranger : @request Concrete.rand := post "/api/add_tunnel" None "tunnel".
Definition listed_page : @request Concrete.rand := post "/api/tunnel_list" session "page".

Definition start : @web PlayersConcrete.users := @Web PlayersConcrete.users PlayersConcrete.start [].
Definition after_login : @web PlayersConcrete.users :=
  @Web PlayersConcrete.users PlayersConcrete.start [LoggedIn "0123456789abcdef0123456789abcdef"].
End WebConcrete.

Section WebWitnesses.
Import PlayersConcrete WebConcrete.
#[local] Existing Instances ProstConcrete.prost TunnelsConcrete.unicode TunnelsConcrete.os
  Concrete.rand PlayersConcrete.users rows admin rows_ok users_ok config md5 json mapping_json pages
  login_json list_json remove_json add_json update_json tunnel_remove_json tunnel_add_json
  tunnel_update_json pages_answer.

#[local] Instance answers_login : JsonAnswers LoginReq := body_answers _ _.
#[local] Instance answers_list : JsonAnswers PlayerListRequest := body_answers _ _.
#[local] Instance answers_remove : JsonAnswers PlayerRemoveReq := body_answers _ _.
#[local] Instance answers_add : JsonAnswers PlayerAddReq := body_answers _ _.
#[local] Instance answers_update : JsonAnswers PlayerUpdateReq := body_answers _ _.
#[local] Instance answers_tunnel_remove : JsonAnswers TunnelRemoveReq := body_answers _ _.
#[local] Instance answers_tunnel_add : JsonAnswers TunnelAddReq := body_answers _ _.
#[local] Instance answers_tunnel_update : JsonAnswers TunnelUpdateReq := body_answers _ _.


(** A stranger is refused, the administrator logs in. *)
Lemma web_requires_login_witness :
  served WebConcrete.start [stranger] [Ok expired] WebConcrete.start ∧
  (wb_world WebConcrete.start = wb_world WebConcrete.start ∧ Forall refused [Ok expired]) ∧
  run_http_server login WebConcrete.start = (Ok (general 0 "Success"), after_login).
Proof.
  assert (served WebConcrete.start [stranger] [Ok expired] WebConcrete.start) as Hs.
  { eapply served_cons; [|reflexivity|constructor]. by intros id. }
  destruct web_requires_login as (H1' & _ & H3'). split; [exact Hs|]. split.
  - apply (H1' WebConcrete.start [stranger] [Ok expired] WebConcrete.start Hs).
    + intros id. apply not_elem_of_nil.
    + constructor; [|constructor]. intros (Hp & _). discriminate Hp.
  - apply (H3' WebConcrete.start login); [|reflexivity].
    split; [reflexivity|]. split; [reflexivity|].
    exists {| lr_username := "admin"; lr_password := "secret" |}. split; reflexivity.
Defined.

Lemma web_consistent_witness :
  server_ok (wb_world (snd (run_http_server add after_login))) ∧
  Forall answered [Ok (general 0 "Success"); fst (run_http_server add after_login)].
Proof.
  apply (web_consistent WebConcrete.start [login; add]
    [Ok (general 0 "Success"); fst (run_http_server add after_login)]
    (snd (run_http_server add after_login))).
  - exact TunnelsConcrete.os_binds.
  - exact players_start_ok.
  - by repeat constructor.
  - eapply served_cons; [by intros id|reflexivity|].
    eapply served_cons; [|apply surjective_pairing|constructor].
    intros id [= <-]. left.
Defined.


Lemma web_tunnel_listed_witness : ∃ id t,
  (id ∉ (tm_id <$> w_tunnels PlayersConcrete.start)) ∧
  w_tunnels (wb_world (snd (run_http_server add after_login))) =
    w_tunnels PlayersConcrete.start ++ [t] ∧ tunnel_of_model t = announced id asked ∧
  ∃ before, run_http_server listed_page (snd (run_http_server add after_login)) =
    (Ok (TunnelList {| ts_tunnels := before ++ [listed id asked]; ts_cur_page_number := 0;
                       ts_total_count := 4 |}), snd (run_http_server add after_login)).
Proof.
  destruct (web_tunnel_listed after_login add asked (snd (run_http_server add after_login)))
    as (id & t & Hid & Hts & Ht & Hl).
  - exact TunnelsConcrete.os_binds.
  - exact players_start_ok.
  - by repeat split.
  - reflexivity.
  - reflexivity.
  - rewrite (surjective_pairing (run_http_server add after_login)) at 1. f_equal.
  - exists id, t. split; [exact Hid|]. split; [exact Hts|]. split; [exact Ht|].
    apply (Hl listed_page 10 0%nat); [by repeat split|reflexivity|lia|lia|vm_compute; split; [discriminate|reflexivity]].
Defined.
End WebWitnesses.
