(* ===== verification/Start.v ===== *)
(** [np_server/src/global/mod.rs] and [main.rs]: the start of the server: what
    it loads from the database, and which servers it runs. *)

From S2P Require Import Prelude Std Extern Tls Net Listener Proxy Inlet Messages Bridge Framing Ends Str Server.
From S2P Require Import Tunnels Players Web.

(** ** The libraries *)

(** [CREATE TABLE IF NOT EXISTS], with the statement of the backend. *)
Class Schema `{UserDb} := {
  create_user_table : db → outcome unit * db;
  create_tunnel_table : db → outcome unit * db
}.

(** The rest of [GLOBAL_CONFIG] that decides what runs. *)
Class ServerConfig `{WebConfig} := {
  web_addr : string;
  listen_addr : string;
  enable_tls : bool;
  tls_cert : string;
  tls_key : string
}.

Section Start.
Context `{Prost} `{Json} `{Unicode} `{InletOs} `{UserDb} `{!TunnelDb} `{!UserAdmin} `{!Schema}.

(** [GlobalManager::new], over a database. *)
Definition manager_new (d : db) : world := {|
  w_env := env0; w_players := ∅; w_player_list := []; w_player_map := ∅; w_tunnels := [];
  w_outlets := ∅; w_inlets := ∅; w_db := d
|}.

Definition init_tables : M world unit := db_exec create_user_table;; db_exec create_tunnel_table.
Definition init_managers : M world unit :=
  load_all_tunnel;; load_all_player;; server_sync_tunnels.

(** [init_logger] of [logger.rs]; [already] tells whether its handle is set.
    Whether a panic prints a backtrace is left out. *)
Definition init_logger `{Logging} (already : bool) (log_level base_log_level : string)
    : outcome unit :=
  _ ← start_logger (log_level +:+ ", sqlx=error, actix=error, mio=error, sea_orm=error, np_base="
                    +:+ base_log_level);
  if already then Err "logger set error" else Ok tt.

(** [connection] is what [Database::connect] answers; it is [expect]ed. *)
Definition init_global (logger : outcome unit) (connection : outcome db) : outcome world :=
  logger ≫= λ _,
  match connection with
  | Ok d => let '(o, w) := (init_tables;; init_managers) (manager_new d) in o ≫= λ _, Ok w
  | Err _ => Panic "Database initialization failed"
  | Panic w => Panic w
  | Pending => Pending
  end.
End Start.

(** ** main *)

Section Main.
Context `{ServerConfig}.

Definition web_enabled : bool :=
  negb (str_is_empty web_username || str_is_empty web_password || str_is_empty web_addr).

(** [create] makes the peer of a connection, [bind] is [TcpListener::bind], and
    [es] is what happens to the listener. *)
Definition server_builder {D} (create : nat → D) : Builder D unit :=
  if enable_tls then set_tls_configuration tls_cert tls_key (builder_new create)
  else builder_new create.
Definition run_tcp_server {D} `{SessionDelegate D} `{PemFiles} `{ServerTls} (create : nat → D)
    (bind : string → outcome unit) (es : list tcp_event) : outcome (tcp_server D) :=
  build_tcp (server_builder create) (bind listen_addr) es.

(** [serve] is the HTTP server at an address; [Pending] while it runs. *)
Definition run_web_server (serve : SocketAddr → outcome unit) : outcome unit :=
  match parse_socket_addr web_addr with
  | Ok addr => serve addr
  | Err parse_error => Err parse_error
  | Panic w => Panic w
  | Pending => Pending
  end.

(** [select!]: the first future that has ended gives the result, either one of
    two that have. *)
Definition select (tcp_first : bool) (tcp web : outcome unit) : outcome unit :=
  match tcp, web with
  | Pending, _ => web
  | _, Pending => tcp
  | _, _ => if tcp_first then tcp else web
  end.

(** How far [run_tcp_server] is. *)
Definition tcp_result {D} (r : outcome (tcp_server D)) : outcome unit :=
  s ← r; match ts_phase s with Stopped _ => Ok tt | _ => Pending end.

(** The result of [main] once the managers are initialised: [tcp] is how far the
    TCP server is. *)
Definition main_servers (tcp_first : bool) (tcp : outcome unit)
    (serve : SocketAddr → outcome unit) : outcome unit :=
  if web_enabled then select tcp_first tcp (run_web_server serve) else tcp.
End Main.

(** ** Facts *)

Section StartFacts.
Context `{Prost} `{Json} `{Unicode} `{InletOs} `{UserDb} `{!TunnelDb} `{!UserAdmin} `{!Schema}
  `{!TunnelDbOk}.
Implicit Types (w : world).

(** Everybody is offline. *)
Definition all_offline w : Prop :=
  ∀ h pl, w_players w !! h = Some pl → is_online pl = false.

Lemma load_players_run us w :
  server_ok w → all_offline w →
  ∃ w', for_each (λ u, create_player (um_id u);; mret tt) us w = (Ok tt, w') ∧
    server_ok w' ∧ all_offline w' ∧ w_tunnels w' = w_tunnels w ∧ w_outlets w' = w_outlets w ∧
    w_inlets w' = w_inlets w ∧ w_db w' = w_db w ∧
    length (w_player_list w') = (length (w_player_list w) + length us)%nat ∧
    ∀ id, is_Some (w_player_map w' !! id) ↔
      is_Some (w_player_map w !! id) ∨ id ∈ (um_id <$> us).
Proof.
  revert w. induction us as [|u us IH]; intros w Hw Hoff.
  { exists w. repeat (split; [done|]). intros id.
    split; [by left|]. by intros [?|?%not_elem_of_nil]. }
  set (w1 := snd (create_player (um_id u) w)).
  assert (server_ok w1) as Hw1 by (by apply server_ok_create).
  assert (all_offline w1) as Hoff1.
  { intros h pl Hpl. unfold w1, create_player in Hpl. cbn [snd w_players] in Hpl.
    apply lookup_insert_Some in Hpl as [[_ <-]|[_ Hpl]]; [done|by apply (Hoff h)]. }
  destruct (IH w1 Hw1 Hoff1) as (w' & E & Hw' & Hoff' & Et & Eo & Ei & Ed & El & Em).
  exists w'. split; [cbn [for_each]; rewrite bind_assoc; exact E|].
  do 2 (split; [done|]). split; [by rewrite Et|]. split; [by rewrite Eo|]. split; [by rewrite Ei|].
  split; [by rewrite Ed|]. split.
  - rewrite El. unfold w1. cbn. rewrite length_app. cbn. lia.
  - intros id. rewrite Em, fmap_cons, elem_of_cons. unfold w1, create_player. cbn [snd w_player_map].
    destruct (decide (um_id u = id)) as [<-|Hne].
    + rewrite lookup_insert_eq. split; [by right; left|]. intros _. left. by eexists.
    + rewrite lookup_insert_ne by done. intuition congruence.
Qed.

(** The server starts as its database says: with a consistent table of tunnels,
    the managers come up without failing, in a state in which the tunnel
    manager's and the interface's theorems apply. *)
Lemma init_global_starts d d1 d2 ts us :
  binds_answer → create_user_table d = (Ok tt, d1) → create_tunnel_table d1 = (Ok tt, d2) →
  find_all_tunnels d2 = Ok ts → find_all_users d2 = Ok us →
  tunnels_ok ts → (∀ t, t ∈ ts → known (tm_id t) d2) →
  ∃ w, init_global (Ok tt) (Ok d) = Ok w ∧ server_ok w ∧ w_tunnels w = ts ∧ w_db w = d2 ∧
    all_offline w ∧ length (w_player_list w) = length us ∧
    (∀ id, is_Some (w_player_map w !! id) ↔ id ∈ (um_id <$> us)) ∧
    (∀ id, w_outlets w !! id = server_expected_outlet ts id None) ∧
    (∀ id, w_inlets w !! id = server_expected_inlet ts id None).
Proof.
  intros Hb Hd1 Hd2 Hts Hus Hok Hk.
  set (w0 := set_world_tunnels (λ _, ts) (set_db d2 (manager_new d))).
  assert (server_ok w0) as Hw0.
  { split; [by split|..].
    - by intros id h [=].
    - by intros h ?%not_elem_of_nil.
    - by intros h [? [=]]. }
  destruct (load_players_run us w0 Hw0) as (w1 & E & Hw1 & Hoff & Et & Eo & Ei & Ed & El & Em).
  { by intros h pl [=]. }
  assert (NoDup (tm_id <$> w_tunnels w1)) as Hnd by (rewrite Et; apply Hok).
  destruct (server_sync_eq w1 Hb Hnd) as (os & ins & Es & Ho & Hi).
  exists (with_ends os ins w1). split.
  { unfold init_global, init_tables. cbn [mbind outcome_bind]. rewrite bind_assoc.
    rewrite (bind_ok _ _ _ tt (set_db d1 (manager_new d))) by (unfold db_exec; cbn; by rewrite Hd1).
    rewrite (bind_ok _ _ _ tt (set_db d2 (manager_new d))) by (unfold db_exec; cbn; by rewrite Hd2).
    unfold init_managers, load_all_tunnel.
    rewrite (bind_ok _ _ _ tt w0) by (unfold db_query, mbind, M_bind; cbn; by rewrite Hts).
    rewrite (bind_ok _ _ _ tt w1); [by rewrite Es|].
    unfold load_all_player. rewrite (bind_ok _ _ _ us w0); [exact E|].
    unfold db_query. cbn. by rewrite Hus. }
  rewrite Et, Eo in Ho. rewrite Et, Ei in Hi.
  split; [|split; [exact Et|split; [exact Ed|split; [exact Hoff|split; [exact El|]]]]].
  - apply (server_ok_same w1); [done|done|exact (so_manager w1 Hw1)].
  - split; [|done]. intros id. rewrite Em. cbn. split; [|by right].
    intros [[h Hh]|?]; [by rewrite lookup_empty in Hh|done].
Qed.
End StartFacts.

(** ** A concrete instance *)

Module StartConcrete.
Import PlayersConcrete.

(** The tables are there; one user, one tunnel of the server. *)
#[export] Instance schema : @Schema PlayersConcrete.users :=
  @Build_Schema PlayersConcrete.users (λ d, (Ok tt, d)) (λ d, (Ok tt, d)).
Definition tunnel1 : tunnel_Model := TunnelsConcrete.tunnel 1 0 "0.0.0.0:8001".
#[export] Instance stored : @TunnelDb PlayersConcrete.users := {|
  find_all_tunnels _ := Ok [tunnel1];
  find_tunnel_by_id id d := Ok None;
  insert_tunnel _ d := (Err "read-only", d);
  delete_tunnel_by_id id d := (Err "read-only", d);
  update_tunnel_row _ d := (Err "read-only", d)
|}.
#[export] Instance stored_ok : @TunnelDbOk PlayersConcrete.users stored.
Proof.
  refine (@Build_TunnelDbOk PlayersConcrete.users stored
    (λ (x : u32) (d : @db PlayersConcrete.users), x ∈ (fst d : list u32)) _ _ _ _);
    intros; first [exact I|exact (λ x Hx, Hx)].
Defined.
Definition stored_db : @db PlayersConcrete.users :=
  (([1], [user 7 "ann"]) : list u32 * list user_Model).
End StartConcrete.
