(* ===== verification/Boot.v ===== *)
(** The server process ([np_server/src/main.rs], [global/opts.rs],
    [global/config.rs]): its command line, its configuration file, and [main]
    from there to the servers it runs. *)

From S2P Require Import Prelude Std Extern Tls Net Listener Proxy Inlet Messages Bridge Framing Ends Str Server.
From S2P Require Import Tunnels Players Web Start.

(** ** The command line

    What clap finds among the arguments, each option at most once; [inl] is the
    code it ends the process with (after its usage or its help). *)

Record given := {
  gv_backtrace : option bool;
  gv_config_file : option string;
  gv_log_level : option string;
  gv_base_log_level : option string
}.
Class CommandLine := { parse_args : list string → Z + given }.

Record Opts := { backtrace : bool; config_file : string; log_level : string; base_log_level : string }.

Definition opts_of (g : given) : Opts := {|
  backtrace := default false (gv_backtrace g);
  config_file := default "config.json" (gv_config_file g);
  log_level := default "info" (gv_log_level g);
  base_log_level := default "error" (gv_base_log_level g)
|}.

(** ** The configuration file

    [open_config] opens and reads a file; [config_from_reader] is
    [serde_json::from_reader] with the field that has a default as an option. *)

Record config_fields := {
  cf_database_url : string; cf_listen_addr : string; cf_enable_tls : bool; cf_tls_cert : string;
  cf_tls_key : string; cf_web_addr : string; cf_web_username : string; cf_web_password : string;
  cf_web_base_dir : string; cf_illegal_traffic_forward : option string
}.
Class ConfigFiles := {
  open_config : string → option bytes;
  config_from_reader : bytes → option config_fields
}.

Record Config := {
  database_url : string;
  cfg_listen_addr : string;
  cfg_enable_tls : bool;
  cfg_tls_cert : string;
  cfg_tls_key : string;
  cfg_web_addr : string;
  cfg_web_username : string;
  cfg_web_password : string;
  web_base_dir : string;
  cfg_illegal_traffic_forward : string
}.

Definition default_illegal_traffic_forward : string := "".

Definition config_of (f : config_fields) : Config := {|
  database_url := cf_database_url f; cfg_listen_addr := cf_listen_addr f;
  cfg_enable_tls := cf_enable_tls f; cfg_tls_cert := cf_tls_cert f; cfg_tls_key := cf_tls_key f;
  cfg_web_addr := cf_web_addr f; cfg_web_username := cf_web_username f;
  cfg_web_password := cf_web_password f; web_base_dir := cf_web_base_dir f;
  cfg_illegal_traffic_forward :=
    default default_illegal_traffic_forward (cf_illegal_traffic_forward f)
|}.

(** The [Lazy] of [GLOBAL_CONFIG]: [inl] is the code the process exits with. *)
Definition load_config `{ConfigFiles} (file : string) : Z + Config :=
  match open_config file with
  | None => inl 1
  | Some content =>
      match config_from_reader content with
      | None => inl 1
      | Some f => inr (config_of f)
      end
  end.

(** [GLOBAL_CONFIG] as the other components read it. *)
Definition web_config (c : Config) : WebConfig :=
  {| web_username := cfg_web_username c; web_password := cfg_web_password c |}.
Definition server_config (c : Config) : @ServerConfig (web_config c) :=
  @Build_ServerConfig (web_config c) (cfg_web_addr c) (cfg_listen_addr c) (cfg_enable_tls c)
    (cfg_tls_cert c) (cfg_tls_key c).

(** ** main *)

Section Boot.
Context `{CommandLine} `{ConfigFiles} `{Logging} `{PemFiles} `{ServerTls}.
Context `{Prost} `{Json} `{Unicode} `{InletOs} `{UserDb} `{!TunnelDb} `{!UserAdmin} `{!Schema}.
Context {D : Type} `{SessionDelegate D}.

(** The process has exited with a code, or [main] is where its result says. *)
Inductive process := Exited (code : Z) | Main (result : outcome unit).

(** [connect] is [Database::connect]. Once the managers are up, [create] makes
    the peer of a connection, [bind] is [TcpListener::bind], [es] is what
    happens to the listener and [serve] how far the HTTP server is. *)
Definition server_main (args : list string) (connect : string → outcome db)
    (create : world → nat → D) (bind : string → outcome unit) (es : list tcp_event)
    (serve : world → SocketAddr → string → outcome unit) (tcp_first : bool) : process :=
  match parse_args args with
  | inl code => Exited code
  | inr g =>
      let opts := opts_of g in
      match load_config (config_file opts) with
      | inl code => Exited code
      | inr c =>
          Main
            (w ← init_global (init_logger false (log_level opts) (base_log_level opts))
                   (connect (database_url c));
             main_servers (H0 := server_config c) tcp_first
               (tcp_result (run_tcp_server (H0 := server_config c) (create w) bind es))
               (λ addr, serve w addr (web_base_dir c)))
      end
  end.

(** The part of [main] after the managers are up. *)
Definition servers_of (c : Config) (create : nat → D) (bind : string → outcome unit)
    (es : list tcp_event) (serve : SocketAddr → string → outcome unit) (tcp_first : bool)
    : outcome unit :=
  let tcp := tcp_result (build_tcp
    (if cfg_enable_tls c then set_tls_configuration (cfg_tls_cert c) (cfg_tls_key c) (builder_new create)
     else builder_new create : Builder D unit) (bind (cfg_listen_addr c)) es) in
  if bool_decide (cfg_web_username c = "" ∨ cfg_web_password c = "" ∨ cfg_web_addr c = "") then tcp
  else
    select tcp_first tcp
      match parse_socket_addr (cfg_web_addr c) with
      | Ok addr => serve addr (web_base_dir c)
      | Err e => Err e | Panic p => Panic p | Pending => Pending
      end.

Lemma main_servers_spec c create bind es serve tcp_first :
  main_servers (H0 := server_config c) tcp_first
    (tcp_result (run_tcp_server (H0 := server_config c) create bind es))
    (λ addr, serve addr (web_base_dir c)) =
  servers_of c create bind es serve tcp_first.
Proof.
  unfold main_servers, web_enabled, servers_of, str_is_empty, run_tcp_server, server_builder, run_web_server.
  cbn [web_username web_password web_addr listen_addr enable_tls tls_cert tls_key web_config server_config].
  destruct (decide (cfg_web_username c = "")) as [E1|E1], (decide (cfg_web_password c = "")) as [E2|E2],
    (decide (cfg_web_addr c = "")) as [E3|E3];
    rewrite ?(bool_decide_true _ E1), ?(bool_decide_false _ E1), ?(bool_decide_true _ E2),
      ?(bool_decide_false _ E2), ?(bool_decide_true _ E3), ?(bool_decide_false _ E3); cbn [orb negb];
    first [rewrite bool_decide_false by tauto|rewrite bool_decide_true by tauto]; reflexivity.
Qed.
End Boot.

(** ** Properties *)

Section BootProperties.
Context `{CommandLine} `{ConfigFiles} `{Logging} `{PemFiles} `{ServerTls}.
Context `{Prost} `{Json} `{Unicode} `{InletOs} `{UserDb} `{!TunnelDb} `{!UserAdmin} `{!Schema} `{!TunnelDbOk}.
Context {D : Type} `{SessionDelegate D}.

(** C23: The server comes up as its arguments, its file and its database say. A
    file that cannot be read or is no configuration ends the process with code
    1 before anything else happens; otherwise, where the logger and the database
    answer and the tables are consistent, the managers come up with the
    database's tunnels, its users, all offline, and the ends the tunnels ask of
    the server, and the servers run: the one for clients, with TLS if it is
    configured, and the management interface only if its address, user and
    password are all given. What is not on the command line or in the file has
    its default. *)
Theorem server_comes_up args g connect (create : world → nat → D) bind es serve tcp_first :
  parse_args args = inr g →
  let file := open_config (default "config.json" (gv_config_file g)) ≫= config_from_reader in
  (file = None → server_main args connect create bind es serve tcp_first = Exited 1) ∧
  (∀ f d d1 d2 ts us,
      file = Some f →
      init_logger false (default "info" (gv_log_level g)) (default "error" (gv_base_log_level g)) = Ok tt →
      connect (cf_database_url f) = Ok d →
      binds_answer → create_user_table d = (Ok tt, d1) → create_tunnel_table d1 = (Ok tt, d2) →
      find_all_tunnels d2 = Ok ts → find_all_users d2 = Ok us →
      tunnels_ok ts → (∀ t, t ∈ ts → known (tm_id t) d2) →
      cfg_illegal_traffic_forward (config_of f) = default "" (cf_illegal_traffic_forward f) ∧
      ∃ w, server_main args connect create bind es serve tcp_first =
             Main (servers_of (config_of f) (create w) bind es (serve w) tcp_first) ∧
        server_ok w ∧ w_tunnels w = ts ∧ w_db w = d2 ∧ all_offline w ∧
        length (w_player_list w) = length us ∧
        (∀ id, is_Some (w_player_map w !! id) ↔ id ∈ (um_id <$> us)) ∧
        (∀ id, w_outlets w !! id = server_expected_outlet ts id None) ∧
        (∀ id, w_inlets w !! id = server_expected_inlet ts id None)).
Proof.
  intros Hg file. subst file. unfold server_main. rewrite Hg. cbv zeta. unfold load_config. cbn [config_file opts_of].
  destruct (open_config _) as [content|]; cbn [mbind option_bind]; [|done].
  destruct (config_from_reader content) as [f0|]; [|done]. split; [done|].
  intros f d d1 d2 ts us [= <-] Hlog Hd Hb Hd1 Hd2 Hts Hus Hok Hk. split; [done|].
  destruct (init_global_starts d d1 d2 ts us Hb Hd1 Hd2 Hts Hus Hok Hk) as (w & E & Hw).
  exists w. split; [|exact Hw]. cbn [log_level base_log_level opts_of]. rewrite Hlog.
  change (database_url (config_of f0)) with (cf_database_url f0). rewrite Hd, E. cbn [mbind outcome_bind].
  by rewrite main_servers_spec.
Qed.
End BootProperties.

(** ** A concrete instance, for the witness *)

Module BootConcrete.
Import StartConcrete.

(** Options as name and value; a file with the least a configuration needs. *)
#[export] Instance command_line : CommandLine := {|
  parse_args args :=
    match args with
    | [_] => inr {| gv_backtrace := None; gv_config_file := None; gv_log_level := None;
                    gv_base_log_level := None |}
    | [_; "--config-file"; f] =>
        inr {| gv_backtrace := None; gv_config_file := Some f; gv_log_level := None;
               gv_base_log_level := None |}
    | _ => inl 2
    end
|}.
Definition fields : config_fields := {|
  cf_database_url := "sqlite:np.db"; cf_listen_addr := "0.0.0.0:8118"; cf_enable_tls := false;
  cf_tls_cert := ""; cf_tls_key := ""; cf_web_addr := "127.0.0.1:8120"; cf_web_username := "admin";
  cf_web_password := "pw"; cf_web_base_dir := "dist"; cf_illegal_traffic_forward := None
|}.
#[export] Instance files : ConfigFiles := {|
  open_config f := if decide (f = "config.json") then Some [1] else None;
  config_from_reader content := if decide (content = [1]) then Some fields else None
|}.
#[export] Instance logging : Logging := {| start_logger _ := Ok tt |}.
#[export] Instance pem : PemFiles := {|
  open_file _ := Err "no such file"; pem_certs _ := []; pem_private_key _ := Ok None
|}.
#[export] Instance tls : ServerTls := {| TlsAcceptor := unit; with_single_cert _ _ := Ok tt |}.
End BootConcrete.

Section BootWitness.
Import PlayersConcrete StartConcrete BootConcrete.
#[local] Existing Instances ProstConcrete.prost PlayersConcrete.users stored stored_ok admin schema
  TunnelsConcrete.json TunnelsConcrete.unicode TunnelsConcrete.os NetConcrete.collector.

Lemma server_comes_up_witness :
  let run := server_main (D := list bytes) ["np_server"]
    (λ url, if decide (url = "sqlite:np.db") then Ok stored_db else Err "no database")
    (λ _ _, []) (λ _, Ok tt) [] (λ _ _ _, Pending) true in
  cfg_illegal_traffic_forward (config_of fields) = "" ∧
  ∃ w, run = Main (servers_of (config_of fields) (λ _, []) (λ _, Ok tt) [] (λ _ _, Pending) true) ∧
    server_ok w ∧ w_tunnels w = [tunnel1] ∧ w_db w = stored_db ∧ all_offline w ∧
    length (w_player_list w) = 1%nat ∧
    (∀ id, is_Some (w_player_map w !! id) ↔ id ∈ [7]) ∧
    (∀ id, w_outlets w !! id = server_expected_outlet [tunnel1] id None) ∧
    (∀ id, w_inlets w !! id = server_expected_inlet [tunnel1] id None).
Proof.
  apply (proj2 (server_comes_up (H := command_line) (D := list bytes) ["np_server"]
    {| gv_backtrace := None; gv_config_file := None; gv_log_level := None; gv_base_log_level := None |}
    (λ url, if decide (url = "sqlite:np.db") then Ok stored_db else Err "no database")
    (λ _ _, []) (λ _, Ok tt) [] (λ _ _ _, Pending) true eq_refl)
    fields stored_db stored_db stored_db [tunnel1] [user 7 "ann"]).
  - reflexivity.
  - reflexivity.
  - reflexivity.
  - exact TunnelsConcrete.os_binds.
  - reflexivity.
  - reflexivity.
  - reflexivity.
  - reflexivity.
  - split; [apply NoDup_singleton|]. split; [|apply NoDup_singleton].
    intros Hz%list_elem_of_singleton. discriminate Hz.
  - intros t ->%list_elem_of_singleton. left.
Defined.
End BootWitness.
