(* ===== verification/Peer.v ===== *)
(** [np_server/src/peer]: the server's end of a client's connection: its frames,
    the requests it answers, the tunnel messages it routes. *)

From S2P Require Import Prelude Std Extern Net Proxy Messages Bridge Framing Ends Str Server Tunnels Players.

(** ** Peer *)

Record Peer := {
  pr_tx : option handle;
  pr_player : option handle;
  pr_session_id : u32;
  traffic_forward_writer : option handle
}.

Definition peer_new : Peer :=
  {| pr_tx := None; pr_player := None; pr_session_id := 0; traffic_forward_writer := None |}.

(** The configuration, the operating system, the clock and the entropy. *)
Class PeerOs `{Rng} := {
  illegal_traffic_forward : string;                  (** of [GLOBAL_CONFIG] *)
  forward_connect : string → outcome handle;         (** the writing half *)
  forward_write : handle → bytes → outcome unit;
  http_date : string;
  utc_now : Z;
  from_entropy : rng
}.

Section Peer.
Context `{Prost} `{UserDb} `{Json} `{Rng} `{!PeerOs}.

(** A peer with what it can reach; [pe_forwarded] is what it has forwarded. *)
Record peer_delegate := PeerD {
  pe_self : Peer;
  pe_world : world;
  pe_forwarded : list bytes
}.

#[export] Instance peer_delegate_has_env : HasEnv peer_delegate.
Proof.
  refine {| env_of := λ d, w_env (pe_world d);
            set_env := λ e d, PeerD (pe_self d) (set_env e (pe_world d)) (pe_forwarded d) |};
    [done| |done]. by intros [? [] ?].
Defined.

Definition in_server {A} (m : M world A) : M peer_delegate A := λ d,
  let '(o, w) := m (pe_world d) in (o, PeerD (pe_self d) w (pe_forwarded d)).

Definition set_peer (f : Peer → Peer) : M peer_delegate unit :=
  modify (λ d, PeerD (f (pe_self d)) (pe_world d) (pe_forwarded d)).

Definition upd_tx (tx : option handle) (p : Peer) : Peer :=
  {| pr_tx := tx; pr_player := pr_player p; pr_session_id := pr_session_id p;
     traffic_forward_writer := traffic_forward_writer p |}.
Definition upd_player (h : option handle) (p : Peer) : Peer :=
  {| pr_tx := pr_tx p; pr_player := h; pr_session_id := pr_session_id p;
     traffic_forward_writer := traffic_forward_writer p |}.
Definition upd_session_id (id : u32) (p : Peer) : Peer :=
  {| pr_tx := pr_tx p; pr_player := pr_player p; pr_session_id := id;
     traffic_forward_writer := traffic_forward_writer p |}.
Definition upd_forward (h : option handle) (p : Peer) : Peer :=
  {| pr_tx := pr_tx p; pr_player := pr_player p; pr_session_id := pr_session_id p;
     traffic_forward_writer := h |}.

(** *** Sending *)

(** [-serial] wraps around, as it does in a release build. *)
Definition send_response (serial : i32) (message : MessageType) : M peer_delegate unit :=
  p ← gets pe_self;
  if serial <? 0
  then peer_package_and_send_message (pr_tx p) (as_i32 (- serial)) message true
  else lift (Panic "assertion failed: serial < 0").

Definition send_push (message : MessageType) : M peer_delegate unit :=
  p ← gets pe_self; peer_package_and_send_message (pr_tx p) 0 message true.

Definition crlf : string := String (ascii_of_byte 13) (String (ascii_of_byte 10) "").
Definition http_body : string :=
  "<html>" +:+ crlf +:+
  "<head><title>400 Bad Request</title></head>" +:+ crlf +:+
  "<body>" +:+ crlf +:+
  "<center><h1>400 Bad Request</h1></center>" +:+ crlf +:+
  "<hr><center>nginx</center>" +:+ crlf +:+
  "</body>" +:+ crlf +:+
  "</html>" +:+ crlf.
Definition http_answer : string :=
  "HTTP/1.1 400 Bad Request" +:+ crlf +:+
  "Server: nginx" +:+ crlf +:+
  "Date: " +:+ http_date +:+ crlf +:+
  "Content-Type: text/html" +:+ crlf +:+
  "Content-Length: 150" +:+ crlf +:+
  "Connection: close" +:+ crlf +:+
  crlf +:+ http_body.

(** The sleep of five seconds that follows is left out. *)
Definition send_http_404_response : M peer_delegate unit :=
  p ← gets pe_self;
  match pr_tx p with
  | Some tx => send_writer tx (Send (as_bytes http_answer) true);; send_writer tx Close
  | None => mret tt
  end.

Definition create_traffic_forward_channel : M peer_delegate unit :=
  if str_is_empty illegal_traffic_forward then bail "no config illegal_traffic_forward"
  else
    p ← gets pe_self;
    match pr_tx p with
    | Some _ =>
        writer ← lift (forward_connect illegal_traffic_forward);
        set_peer (upd_forward (Some writer))
    | None => bail "tx is none"
    end.

(** A turn of the task that brings the forwarded traffic back. *)
Definition forward_back (tx : handle) (data : bytes) : M peer_delegate unit :=
  if decide (data = []) then ignore (send_writer tx Close)
  else ignore (send_writer tx (Send data true)).

Definition write_forward (h : handle) (frame : bytes) : M peer_delegate unit := λ d,
  match forward_write h frame with
  | Ok _ => (Ok tt, PeerD (pe_self d) (pe_world d) (pe_forwarded d ++ [frame]))
  | Err e => (Err e, d)
  | Panic w => (Panic w, d)
  | Pending => (Pending, d)
  end.

(** *** Requests *)

Definition error_message (number : i32) (text : string) : MessageType :=
  GenericError {| ge_number := number; ge_message := text |}.

Definition on_ping_request (m : generic_Ping) : M peer_delegate MessageType :=
  mret (GenericPong {| go_ticks := gi_ticks m |}).

(** The tunnels of a user, as the login acknowledgement lists them. *)
Definition user_tunnels (id : PlayerId) : M world (list class_def_Tunnel) := gets (λ w,
  tunnel_of_model <$> base.filter (λ t, tm_receiver t = id ∨ tm_sender t = id) (w_tunnels w)).

Definition on_login_request (m : client_server_LoginReq) : M peer_delegate MessageType :=
  p ← gets pe_self;
  match pr_player p with
  | Some _ => mret (error_message (-1) "repeat login")
  | None =>
      user ← in_server (db_query (find_login (lq_username m) (lq_password m)));
      match user with
      | None => mret (error_message (-2) "Incorrect username or password")
      | Some user =>
          player ← in_server (get_player (um_id user));
          match player with
          | Some h =>
              set_peer (upd_player (Some h));;
              pl ← in_server (get_player_at h);
              (if is_online pl then in_server (on_terminate_old_session h) else mret tt);;
              tx ← lift (match pr_tx p with
                         | Some tx => Ok tx
                         | None => Panic "called `Option::unwrap()` on a `None` value"
                         end);
              in_server (on_connect_session h (pr_session_id p) tx);;
              ts ← in_server (user_tunnels (um_id user));
              mret (ServerClientLoginAck {| la_player_id := um_id user; la_tunnel_list := ts |})
          | None => mret (error_message (-3) "unable to find player")
          end
      end
  end.

Definition on_register_request (m : client_server_RegisterReq) : M peer_delegate MessageType :=
  '(code, msg) ← in_server (add_player from_entropy utc_now (rq_username m) (rq_password m));
  mret (if code =? 0 then GenericSuccess Build_generic_Success else error_message code msg).

Definition handle_request (message : MessageType) : M peer_delegate MessageType :=
  match message with
  | GenericPing msg => on_ping_request msg
  | ClientServerLoginReq msg => on_login_request msg
  | ClientServerRegisterReq msg => on_register_request msg
  | _ =>
      p ← gets pe_self;
      match pr_player p with
      | Some h => in_server (player_handle_request message)
      | None => mret (error_message PlayerNotLogin "player not logged in")
      end
  end.

Definition handle_response (_ : MessageType) : M peer_delegate unit := mret tt.

(** *** Pushes *)

Definition find_tunnel (id : u32) (ts : list tunnel_Model) : option tunnel_Model :=
  head (base.filter (λ t, tm_id t = id) ts).

Definition peer_handle_push (message : MessageType) : M peer_delegate unit :=
  match pb_2_proxy_message message with
  | Some (msg, tunnel_id) =>
      t ← in_server (gets (λ w, find_tunnel tunnel_id (w_tunnels w)));
      match t with
      | Some t =>
          let '(from_player_id, to_player_id) :=
            if is_i2o_message msg then (tm_receiver t, tm_sender t)
            else (tm_sender t, tm_receiver t) in
          in_server (server_send_proxy_message from_player_id to_player_id (tm_id t) msg)
      | None => mret tt
      end
  | None => mret tt
  end.

Definition peer_handle_message (serial : i32) (message : MessageType) : M peer_delegate MessageType :=
  if serial <? 0 then handle_request message
  else if 0 <? serial then handle_response message;; mret NoMessage
  else peer_handle_push message;; mret NoMessage.

(** *** SessionDelegate *)

Definition peer_on_session_start (session_id : u32) (_ : SocketAddr) (tx : handle)
    : M peer_delegate unit :=
  set_peer (upd_tx (Some tx));; set_peer (upd_session_id session_id).

(** The forwarding channel is shut down, whatever its answer. *)
Definition peer_on_session_close : M peer_delegate unit :=
  set_peer (upd_tx None);;
  p ← gets pe_self;
  match pr_player p with
  | Some h =>
      set_peer (upd_player None);;
      pl ← in_server (get_player_at h);
      if p_session_id pl =? pr_session_id p then in_server (on_disconnect_session h) else mret tt
  | None => mret tt
  end;;
  set_peer (upd_forward None).

(** [if call.is_err() { handler }] *)
Definition if_is_err (m : M peer_delegate unit) (h : M peer_delegate unit) : M peer_delegate unit :=
  on_err m (λ _, h).

Definition check_flag (buffer : bytes) : M peer_delegate unit :=
  p ← gets pe_self;
  if (0 <? len buffer) && bool_decide (traffic_forward_writer p = None) then
    b ← lift (index buffer 0);
    if negb (b =? FLAG)
    then if_is_err create_traffic_forward_channel (send_http_404_response;; bail "Bad flag")
    else mret tt
  else mret tt.

Definition peer_try_extract_frame (buffer : bytes) : M peer_delegate (option bytes * bytes) :=
  check_flag buffer;;
  p ← gets pe_self;
  match traffic_forward_writer p with
  | Some h => write_forward h buffer;; mret (None, [])
  | None =>
      match take_frame SERVER_MAX buffer with
      | Err e => send_http_404_response;; bail e
      | o => lift o
      end
  end.

Definition answer_request (serial : i32) (result : outcome MessageType) : M peer_delegate unit :=
  match result with
  | Ok msg =>
      if serial <? 0 then
        if message_is_none msg
        then send_response serial (error_message InternalError "response is empty")
        else send_response serial msg
      else mret tt
  | Err err => send_response serial (error_message InternalError err)
  | Panic w => lift (Panic w)
  | Pending => lift Pending
  end.

Definition answer_message (serial : i32) (message : MessageType) : M peer_delegate unit := λ d,
  let '(result, d) := peer_handle_message serial message d in answer_request serial result d.

Definition peer_on_recv_frame (frame : bytes) : M peer_delegate unit :=
  if len frame <? 8 then send_http_404_response;; bail "message length is too small"
  else
    '(serial, msg_id, raw) ← lift (parse_frame frame);
    match decode_message msg_id raw with
    | Ok message => answer_message serial message
    | Err err => send_http_404_response;; bail err
    | Panic w => lift (Panic w)
    | Pending => lift Pending
    end.

#[export] Instance Peer_delegate : SessionDelegate peer_delegate := {|
  on_session_start := peer_on_session_start;
  on_session_close := peer_on_session_close;
  on_try_extract_frame := peer_try_extract_frame;
  on_recv_frame := peer_on_recv_frame;
  on_recv_frame_from := default_recv_frame_from
|}.
End Peer.

(** ** Facts *)

Section PeerFacts.
Context `{Prost} `{UserDb} `{Json} `{Rng} `{!PeerOs}.
Implicit Types (w : world) (d : peer_delegate).

(** *** Calls that do not panic

    [world_ok K]: the manager's map leads to players, and so do the handles of
    [K]. *)
Definition world_ok (K : handle → Prop) w : Prop :=
  (∀ id h, w_player_map w !! id = Some h → is_Some (w_players w !! h)) ∧
  (∀ h, K h → is_Some (w_players w !! h)).

Definition wsafe {A} (K : handle → Prop) (m : M world A) : Prop := safe (world_ok K) m.

Lemma wsafe_env {A} K (m : M env A) :
  (∀ e, is_panic (fst (m e)) = false) → wsafe K (with_env m).
Proof.
  intros Hm w Hw. unfold after, with_env. specialize (Hm (env_of w)).
  by destruct (m (env_of w)) as [o e].
Qed.

Lemma wsafe_send_writer K h m : wsafe K (send_writer h m).
Proof. apply wsafe_env. intros e. destruct (writers e !! h) as [[[] ?]|]; done. Qed.

Lemma wsafe_get_player_at K h : K h → wsafe K (get_player_at h).
Proof.
  intros Hh w Hw. unfold after, get_player_at. destruct (proj2 Hw h Hh) as [p ->]. done.
Qed.

Lemma world_ok_insert K h p w : world_ok K w → world_ok K (set_players <[h := p]> w).
Proof.
  intros [H1' H2']. split; [intros id h' Hm|intros h' Hk]; cbn in *;
    (destruct (decide (h = h')) as [->|]; [rewrite lookup_insert_eq|rewrite lookup_insert_ne by done]);
    eauto.
Qed.

Lemma wsafe_put_player K h p : wsafe K (put_player h p).
Proof. apply safe_modify. intros w. apply world_ok_insert. Qed.

Lemma wsafe_send_input K id m : wsafe K (send_input id m).
Proof. unfold send_input. destruct (is_i2o_message m); by apply safe_modify. Qed.

Lemma wsafe_lift {A} K (o : outcome A) : is_panic o = false → wsafe K (lift o).
Proof. intros Ho. by apply safe_const. Qed.

#[local] Hint Resolve wsafe_send_writer wsafe_get_player_at wsafe_put_player wsafe_send_input
  : npipe.
#[local] Hint Unfold wsafe : npipe.

Lemma wsafe_package K tx serial m flush :
  wsafe K (peer_package_and_send_message tx serial m flush).
Proof.
  unfold peer_package_and_send_message. destruct tx; [|by apply safe_const].
  destruct (package_message serial m); [|by apply safe_const].
  apply safe_ignore, wsafe_send_writer.
Qed.

Lemma wsafe_send_push K h m : K h → wsafe K (player_send_push h m).
Proof. intros Hh. apply safe_bind; [by apply wsafe_get_player_at|]. intros p. apply wsafe_package. Qed.

Lemma wsafe_more {A} (K K' : handle → Prop) (m : M world A) w :
  (∀ h, K h → K' h) → wsafe K' m → world_ok K' w →
  after m w (λ o w', is_panic o = false ∧ world_ok K w').
Proof.
  intros HK Hm Hw. apply (after_mono _ _ _ _ (Hm w Hw)). intros o w' [Hp [Ha Hb]].
  split; [done|]. split; [done|]. auto.
Qed.

(** What the manager's map gives is a player. *)
Lemma wsafe_get_player {B} K id (f : option handle → M world B) :
  wsafe K (f None) → (∀ h, wsafe (λ x, K x ∨ x = h) (f (Some h))) →
  wsafe K (get_player id ≫= f).
Proof.
  intros Hn Hs w Hw. unfold get_player. apply after_bind. unfold after at 1, gets.
  destruct (w_player_map w !! id) as [h|] eqn:E; [|by apply Hn].
  apply (wsafe_more K (λ x, K x ∨ x = h)); [auto|apply Hs|].
  destruct Hw as [Ha Hb]. split; [done|]. intros x [Hx| ->]; eauto.
Qed.

Lemma wsafe_push_to_player K id m : wsafe K (push_message_to_player id m).
Proof.
  apply wsafe_get_player; [by apply safe_const|]. intros h. apply safe_ignore, wsafe_send_push. auto.
Qed.

Lemma online_player_cases id w K :
  world_ok K w →
  online_player id w = (Ok None, w) ∨
  ∃ h p, online_player id w = (Ok (Some h), w) ∧ w_player_map w !! id = Some h ∧
    w_players w !! h = Some p ∧ is_online p = true.
Proof.
  intros [Ha _]. unfold online_player, get_player. rewrite gets_bind.
  destruct (w_player_map w !! id) as [h|] eqn:E; [|by left].
  destruct (Ha id h E) as [p Hp]. unfold get_player_at, mbind, M_bind. rewrite Hp.
  destruct (is_online p) eqn:Ho; [|by left]. right. by exists h, p.
Qed.

Lemma wsafe_send_proxy_message K from to tid m :
  wsafe K (server_send_proxy_message from to tid m).
Proof.
  intros w Hw. unfold server_send_proxy_message. destruct (to =? 0); [by apply wsafe_send_input|].
  apply after_bind. unfold after at 1.
  destruct (online_player_cases to w K Hw) as [-> |(h & p & -> & Hm & Hp & _)].
  - destruct (offline_answer to m); [|done]. destruct (from =? 0); [by apply wsafe_send_input|].
    by apply wsafe_push_to_player.
  - rewrite pb_not_none. cbn [negb].
    apply (wsafe_more K (λ x, K x ∨ x = h)); [auto| |].
    + apply safe_ignore, wsafe_send_push. auto.
    + destruct Hw as [Ha Hb]. split; [done|]. intros x [Hx| ->]; eauto.
Qed.

Lemma wsafe_create_player K id : wsafe K (create_player id).
Proof.
  intros w [Ha Hb]. unfold after, create_player. split; [done|]. split; cbn.
  - intros id' h' Hm. destruct (decide (h' = next_handle (w_env w))) as [->|].
    { by rewrite lookup_insert_eq. }
    rewrite lookup_insert_ne by done. destruct (decide (id = id')) as [->|].
    { rewrite lookup_insert_eq in Hm. by injection Hm as <-. }
    rewrite lookup_insert_ne in Hm by done. eauto.
  - intros h' Hk. destruct (decide (h' = next_handle (w_env w))) as [->|].
    { by rewrite lookup_insert_eq. }
    rewrite lookup_insert_ne by done. eauto.
Qed.

Lemma wsafe_add_player `{!DbAnswers} K r now name pass : wsafe K (add_player r now name pass).
Proof.
  unfold add_player. destruct (_ || _); [by apply safe_const|].
  apply safe_bind.
  { apply safe_const. intros w. split; [done|apply find_username_answers]. }
  intros [u|]; [by apply safe_const|].
  generalize (Z.to_nat 10000). intros tries. revert r.
  induction tries as [|tries IH]; intros r; cbn [add_player_loop]; [by apply safe_const|].
  destruct (gen_range _ _ r) as [id r']. apply safe_bind; [by apply safe_const|].
  intros [|]; [apply IH|]. apply safe_bind; [|intros _; apply safe_bind; [apply wsafe_create_player|]].
  - intros w Hw. unfold after, db_exec.
    pose proof (insert_user_answers {| um_id := id; um_username := name; um_password := pass;
      um_create_time := now |} (w_db w)) as Hi.
    by destruct (insert_user _ (w_db w)) as [o x].
  - intros h. by apply safe_const.
Qed.

(** *** The peer *)

Definition peer_ok d : Prop :=
  world_ok (λ h, pr_player (pe_self d) = Some h) (pe_world d) ∧ is_Some (pr_tx (pe_self d)).

Lemma psafe_server {A} (m : M world A) :
  (∀ K, wsafe K m) → safe peer_ok (in_server m).
Proof.
  intros Hm d [Hw Htx]. specialize (Hm _ _ Hw). unfold after, in_server in *.
  destruct (m (pe_world d)) as [o w]. destruct Hm. split; [done|]. by split.
Qed.

Lemma psafe_send_response serial m : serial < 0 → safe peer_ok (send_response serial m).
Proof.
  intros Hs. apply safe_bind; [by apply safe_const|]. intros p.
  destruct (Z.ltb_spec serial 0); [|lia].
  intros d [Hw Htx]. unfold peer_package_and_send_message.
  destruct (pr_tx p) as [tx|]; [|done]. destruct (package_message _ m); [|done].
  unfold after, ignore, send_writer, with_env.
  by destruct (writers _ !! tx) as [[[] ?]|].
Qed.

Lemma psafe_writer h m : safe peer_ok (send_writer h m).
Proof.
  intros d Hd. unfold after, send_writer, with_env. by destruct (writers _ !! h) as [[[] ?]|].
Qed.

Lemma psafe_send_http : safe peer_ok send_http_404_response.
Proof.
  pose proof psafe_writer as Hw.
  unfold send_http_404_response. apply safe_bind; [by apply safe_const|]. intros p.
  destruct (pr_tx p); [|by apply safe_const]. by apply safe_bind.
Qed.

(** *** Logging in *)

(** What ending the session of a player does to its writer. *)
Definition hang_up (pl : Player) (e : env) : env :=
  match p_tx pl with
  | Some t => if is_online pl then told t Close e else e
  | None => e
  end.

(** The player once a session has it. *)
Definition connected (pl : Player) (session_id : u32) (tx : handle) : Player :=
  {| p_tx := Some tx; p_player_id := p_player_id pl; p_session_id := session_id |}.

Lemma get_player_at_bind {A} h pl (f : Player → M world A) w :
  w_players w !! h = Some pl → (get_player_at h ≫= f) w = f pl w.
Proof. intros Hpl. unfold get_player_at, mbind, M_bind. by rewrite Hpl. Qed.

Lemma connect_offline h pl w session_id tx :
  w_players w !! h = Some pl → is_online pl = false →
  on_connect_session h session_id tx w =
    (Ok tt, set_players <[h := connected pl session_id tx]> w).
Proof.
  intros Hpl Hoff. unfold on_connect_session. rewrite (get_player_at_bind _ _ _ _ Hpl). by rewrite Hoff.
Qed.

Lemma end_session h pl w :
  w_players w !! h = Some pl → is_online pl = true →
  on_terminate_old_session h w =
    (Ok tt, set_players <[h := player_new (p_player_id pl)]> (set_env (hang_up pl (w_env w)) w)).
Proof.
  intros Hpl Hon. unfold on_terminate_old_session, close_session, hang_up. rewrite Hon.
  erewrite bind_ok.
  2: { rewrite (get_player_at_bind _ _ _ _ Hpl).
       instantiate (1 := match p_tx pl with Some t => set_env (told t Close (w_env w)) w | None => w end).
       destruct (p_tx pl); [exact (ignore_send_writer _ _ w)|done]. }
  unfold reset_session_info. erewrite get_player_at_bind.
  2: { instantiate (1 := pl). by destruct (p_tx pl). }
  destruct (p_tx pl); [done|]. by destruct w.
Qed.

(** The two steps of a login that take the player over. *)
Definition take_over (h : handle) (session_id : u32) (tx : handle) : M world unit :=
  pl ← get_player_at h;
  (if is_online pl then on_terminate_old_session h else mret tt);;
  on_connect_session h session_id tx.

Lemma take_over_run h pl w session_id tx :
  w_players w !! h = Some pl →
  take_over h session_id tx w =
    (Ok tt, set_players <[h := connected pl session_id tx]> (set_env (hang_up pl (w_env w)) w)).
Proof.
  intros Hpl. unfold take_over. rewrite (get_player_at_bind _ _ _ _ Hpl).
  destruct (is_online pl) eqn:Eon.
  - rewrite (bind_ok _ _ _ _ _ (end_session _ _ _ Hpl Eon)).
    erewrite connect_offline; [|by apply lookup_insert_eq|done].
    unfold set_players. cbn. by rewrite insert_insert_eq.
  - unfold hang_up. rewrite Eon. erewrite bind_ok; [|done]. erewrite connect_offline; [|done..].
    by destruct (p_tx pl), w.
Qed.

(** The acknowledgement of a login. *)
Definition login_ack (id : PlayerId) w : MessageType :=
  ServerClientLoginAck {| la_player_id := id;
    la_tunnel_list := tunnel_of_model <$>
      base.filter (λ t, tm_receiver t = id ∨ tm_sender t = id) (w_tunnels w) |}.

Lemma login_run m pe w fw u h pl tx :
  pr_player pe = None → pr_tx pe = Some tx →
  find_login (lq_username m) (lq_password m) (w_db w) = Ok (Some u) →
  w_player_map w !! um_id u = Some h → w_players w !! h = Some pl →
  on_login_request m (PeerD pe w fw) =
    (Ok (login_ack (um_id u) w),
     PeerD (upd_player (Some h) pe)
       (set_players <[h := connected pl (pr_session_id pe) tx]> (set_env (hang_up pl (w_env w)) w))
       fw).
Proof.
  intros Hpe Htx Hu Hid Hpl.
  pose proof (take_over_run h pl w (pr_session_id pe) tx Hpl) as Hrun.
  unfold take_over in Hrun. rewrite (get_player_at_bind _ _ _ _ Hpl) in Hrun.
  unfold on_login_request. rewrite gets_bind. cbn [pe_self]. rewrite Hpe.
  erewrite bind_ok; [|unfold in_server, db_query; cbn [pe_world]; rewrite Hu; reflexivity]; cbv beta iota.
  erewrite bind_ok; [|unfold in_server, get_player, gets; cbn [pe_world]; rewrite Hid; reflexivity].
  cbv beta iota.
  erewrite bind_ok; [|reflexivity]; cbv beta iota.
  erewrite bind_ok; [|unfold in_server, get_player_at; cbn [pe_world]; rewrite Hpl; reflexivity].
  cbn [pe_self pe_world pe_forwarded]. rewrite Htx. clear -Hrun.
  unfold mbind, M_bind in *. unfold in_server at 1. cbn [pe_self pe_world pe_forwarded].
  destruct (is_online pl); cbn [pe_self pe_world pe_forwarded].
  - destruct (on_terminate_old_session h w) as [[| | |] w1]; try discriminate.
    unfold lift, in_server. cbn [pe_self pe_world pe_forwarded]. rewrite Hrun. done.
  - unfold mret, M_ret, lift, in_server in *. cbn [pe_self pe_world pe_forwarded]. rewrite Hrun. done.
Qed.

(** Every branch of a login. *)
Definition login_spec (m : client_server_LoginReq) (pe : Peer) w : outcome MessageType :=
  match pr_player pe with
  | Some _ => Ok (error_message (-1) "repeat login")
  | None =>
      match find_login (lq_username m) (lq_password m) (w_db w) with
      | Ok None => Ok (error_message (-2) "Incorrect username or password")
      | Ok (Some u) =>
          match w_player_map w !! um_id u with
          | Some _ => Ok (login_ack (um_id u) w)
          | None => Ok (error_message (-3) "unable to find player")
          end
      | Err e => Err e | Panic e => Panic e | Pending => Pending
      end
  end.

(** The player a login gives the peer, and the row it is found under. *)
Definition login_wins (m : client_server_LoginReq) (pe : Peer) w : option (PlayerId * handle) :=
  match pr_player pe, find_login (lq_username m) (lq_password m) (w_db w) with
  | None, Ok (Some u) => pair (um_id u) <$> w_player_map w !! um_id u
  | _, _ => None
  end.

Lemma login_cases m d :
  peer_ok d →
  (login_wins m (pe_self d) (pe_world d) = None ∧
   on_login_request m d = (login_spec m (pe_self d) (pe_world d), d)) ∨
  ∃ id h pl tx,
    login_wins m (pe_self d) (pe_world d) = Some (id, h) ∧
    w_player_map (pe_world d) !! id = Some h ∧
    w_players (pe_world d) !! h = Some pl ∧
    pr_tx (pe_self d) = Some tx ∧
    on_login_request m d =
      (Ok (login_ack id (pe_world d)),
       PeerD (upd_player (Some h) (pe_self d))
         (set_players <[h := connected pl (pr_session_id (pe_self d)) tx]>
            (set_env (hang_up pl (w_env (pe_world d))) (pe_world d)))
         (pe_forwarded d)).
Proof.
  destruct d as [pe w fw]. intros [[Hmap _] [tx Htx]]. cbn [pe_self pe_world pe_forwarded] in *.
  unfold login_wins, login_spec.
  destruct (pr_player pe) as [h|] eqn:Epl.
  { left. split; [done|]. unfold on_login_request. rewrite gets_bind. cbn [pe_self]. by rewrite Epl. }
  destruct (find_login _ _ _) as [[u|]|e|e|] eqn:Eu;
    [destruct (w_player_map w !! um_id u) as [h|] eqn:Eh|..].
  { right. destruct (Hmap _ _ Eh) as [pl Hpl]. exists (um_id u), h, pl, tx.
    split_and!; try done. by apply login_run. }
  all: left; split; [by rewrite ?Eh|]; unfold on_login_request; rewrite gets_bind; cbn [pe_self];
    rewrite Epl; unfold mbind, M_bind, in_server, db_query, get_player, gets;
    cbn [pe_self pe_world pe_forwarded]; rewrite Eu; cbn [pe_self pe_world pe_forwarded];
    rewrite ?Eh; done.
Qed.

Lemma psafe_login `{!DbAnswers} m : safe peer_ok (on_login_request m).
Proof.
  intros d Hd. unfold after. destruct (login_cases m d Hd) as [[_ ->]|(id & h & pl & tx & _ & Hm & Hpl & Htx & ->)].
  - split; [|done]. unfold login_spec. case_match; [done|].
    pose proof (find_login_answers (lq_username m) (lq_password m) (w_db (pe_world d))).
    repeat case_match; done.
  - split; [done|]. destruct Hd as [[Ha Hb] _]. split; [|by cbn; eauto].
    split; cbn; [intros id' h' Hm'|intros h' [= <-]].
    + destruct (decide (h = h')) as [->|]; [by rewrite lookup_insert_eq|].
      rewrite lookup_insert_ne by done. eauto.
    + by rewrite lookup_insert_eq.
Qed.

(** The other calls a frame can lead to answer. *)
Class ForwardAnswers : Prop := {
  forward_connect_answers a : is_panic (forward_connect a) = false;
  forward_write_answers h b : is_panic (forward_write h b) = false
}.

Lemma psafe_request `{!DbAnswers} m : safe peer_ok (handle_request m).
Proof.
  assert (safe peer_ok (p ← gets pe_self;
      match pr_player p with
      | Some h => in_server (player_handle_request m)
      | None => mret (error_message PlayerNotLogin "player not logged in")
      end)) as Hother.
  { apply safe_bind; [by apply safe_const|]. intros p. destruct (pr_player p); [|by apply safe_const].
    apply psafe_server. intros K. by apply safe_const. }
  unfold handle_request. destruct m; try exact Hother.
  - apply psafe_login.
  - apply safe_bind; [apply psafe_server; intros K; apply wsafe_add_player|].
    intros [code text]. destruct (code =? 0); by apply safe_const.
  - by apply safe_const.
Qed.

Lemma psafe_push m : safe peer_ok (peer_handle_push m).
Proof.
  unfold peer_handle_push. destruct (pb_2_proxy_message m) as [[msg tid]|]; [|by apply safe_const].
  apply safe_bind; [apply psafe_server; intros K; by apply safe_const|].
  intros [t|]; [|by apply safe_const].
  destruct (if is_i2o_message msg then _ else _) as [from to].
  apply psafe_server. intros K. apply wsafe_send_proxy_message.
Qed.

(** *** Calls that have no error to return

    [answer_request] must not see an error for a push: it would answer it, and
    [send_response] asserts that the serial number is a request's. *)
Definition no_err {S A} (m : M S A) : Prop := ∀ s e, fst (m s) ≠ Err e.

Lemma no_err_bind {S A B} (m : M S A) (f : A → M S B) :
  no_err m → (∀ a, no_err (f a)) → no_err (m ≫= f).
Proof.
  intros Hm Hf s e. specialize (Hm s). unfold mbind, M_bind.
  destruct (m s) as [[a| | |] s']; [apply Hf|intros [= ->]; by apply (Hm e)|done..].
Qed.
Lemma no_err_ignore {S A} (m : M S A) : no_err (ignore m).
Proof. intros s e. unfold ignore. by destruct (m s) as [[| | |] ?]. Qed.
Lemma no_err_get_player_at h : no_err (get_player_at h).
Proof. intros s e. unfold get_player_at. by destruct (w_players s !! h). Qed.
Lemma no_err_server {A} (m : M world A) : no_err m → no_err (in_server m).
Proof. intros Hm s e. specialize (Hm (pe_world s) e). unfold in_server. by destruct (m (pe_world s)). Qed.

#[local] Hint Resolve no_err_bind no_err_ignore no_err_get_player_at no_err_server : npipe.
#[local] Hint Extern 1 (no_err (gets _)) => done : npipe.
#[local] Hint Extern 1 (no_err (mret _)) => done : npipe.
#[local] Hint Extern 1 (no_err (modify _)) => done : npipe.
#[local] Hint Extern 2 (no_err (match ?x with _ => _ end)) => destruct x : npipe.

Lemma no_err_send_proxy_message from to tid m : no_err (server_send_proxy_message from to tid m).
Proof.
  assert (∀ x, no_err (send_input tid x)) as Hin.
  { intros x. unfold send_input. by destruct (is_i2o_message x). }
  assert (∀ id x, no_err (push_message_to_player id x)) as Hpush.
  { intros id x. unfold push_message_to_player, get_player. eauto with npipe. }
  unfold server_send_proxy_message. destruct (to =? 0); [apply Hin|].
  apply no_err_bind; [unfold online_player, get_player; auto 8 with npipe|].
  intros [h|]; [eauto with npipe|]. destruct (offline_answer to m); [|done].
  destruct (from =? 0); auto.
Qed.

Lemma no_err_push m : no_err (peer_handle_push m).
Proof.
  unfold peer_handle_push. destruct (pb_2_proxy_message m) as [[msg tid]|]; [|done].
  apply no_err_bind; [by apply no_err_server|]. intros [t|]; [|done].
  destruct (if is_i2o_message msg then _ else _) as [from to].
  apply no_err_server, no_err_send_proxy_message.
Qed.

Lemma psafe_handle_message `{!DbAnswers} serial m : safe peer_ok (peer_handle_message serial m).
Proof.
  unfold peer_handle_message. destruct (serial <? 0); [apply psafe_request|].
  destruct (0 <? serial); (apply safe_bind; [|intros _; by apply safe_const]);
    [by apply safe_const|apply psafe_push].
Qed.

Lemma no_err_handle_message serial m : 0 <= serial → no_err (peer_handle_message serial m).
Proof.
  intros Hs. unfold peer_handle_message. destruct (Z.ltb_spec serial 0); [lia|].
  destruct (0 <? serial); apply no_err_bind; auto using no_err_push with npipe; done.
Qed.

Lemma psafe_answer `{!DbAnswers} serial m : safe peer_ok (answer_message serial m).
Proof.
  intros d Hd. unfold after, answer_message. pose proof (psafe_handle_message serial m d Hd) as Hm.
  pose proof (no_err_handle_message serial m) as He.
  unfold after in Hm. destruct (peer_handle_message serial m d) as [r d'] eqn:Er.
  destruct Hm as [Hp Hd']. unfold answer_request.
  pose proof (λ Hs x, psafe_send_response serial x Hs d' Hd') as Hsend. unfold after in Hsend.
  destruct r as [msg|e|e|]; try done; destruct (Z.ltb_spec serial 0) as [Hs|Hs].
  - destruct (message_is_none msg); exact (Hsend Hs _).
  - done.
  - exact (Hsend Hs _).
  - destruct (He Hs d e). by rewrite Er.
Qed.

(** [prost] refuses what it cannot decode. *)
Class ProstAnswers : Prop :=
  decode_answers : ∀ {A : Type} `{ProstStruct A} bs, is_panic (decode (A := A) bs) = false.

Lemma decode_message_answers `{!ProstAnswers} id bs : is_panic (decode_message id bs) = false.
Proof.
  unfold decode_message. repeat (case_match; [unfold mbind, outcome_bind;
    match goal with |- context [decode (A := ?A) bs] =>
      pose proof (decode_answers (A := A) bs); by destruct (decode (A := A) bs) end|]).
  done.
Qed.

Lemma psafe_http_bail {A} e : safe peer_ok (send_http_404_response;; bail (A := A) e).
Proof. apply safe_bind; [apply psafe_send_http|]. intros _. by apply safe_const. Qed.

Lemma psafe_frame `{!DbAnswers} `{!ProstAnswers} frame : safe peer_ok (peer_on_recv_frame frame).
Proof.
  unfold peer_on_recv_frame. destruct (Z.ltb_spec (len frame) 8) as [|Hl]; [apply psafe_http_bail|].
  assert (∃ x, parse_frame frame = Ok x) as [[[serial id] raw] ->].
  { pose proof (len_nonneg frame). unfold parse_frame, slice_from. rewrite !slice_ok by lia.
    by eexists. }
  apply safe_bind; [by apply safe_const|]. intros [[serial' id'] raw'].
  pose proof (decode_message_answers id' raw') as Ha.
  destruct (decode_message id' raw') as [m|e|e|]; try done;
    [apply psafe_answer|apply psafe_http_bail].
Qed.

Lemma psafe_forward_channel `{!ForwardAnswers} : safe peer_ok create_traffic_forward_channel.
Proof.
  unfold create_traffic_forward_channel. destruct (str_is_empty _); [by apply safe_const|].
  apply safe_bind; [by apply safe_const|]. intros p. destruct (pr_tx p); [|by apply safe_const].
  apply safe_bind; [apply safe_const; intros; split; [done|apply forward_connect_answers]|].
  intros writer d [Hw Htx]. done.
Qed.

Lemma psafe_extract `{!ForwardAnswers} buffer : safe peer_ok (peer_try_extract_frame buffer).
Proof.
  unfold peer_try_extract_frame. apply safe_bind.
  - unfold check_flag. apply safe_bind; [by apply safe_const|]. intros p.
    destruct (Z.ltb_spec 0 (len buffer)) as [Hl|]; [|by apply safe_const]. cbn [andb].
    destruct (bool_decide _); [|by apply safe_const].
    destruct (index_ok buffer 0) as (b & -> & _); [lia|].
    apply safe_bind; [by apply safe_const|]. intros b'. destruct (negb _); [|by apply safe_const].
    intros d Hd. unfold after, if_is_err, on_err. pose proof (psafe_forward_channel d Hd) as Hf.
    unfold after in Hf. destruct (create_traffic_forward_channel d) as [[] d'];
      destruct Hf as [Hp Hd']; try done. by apply psafe_http_bail.
  - intros _. apply safe_bind; [by apply safe_const|]. intros p.
    destruct (traffic_forward_writer p) as [h|].
    + apply safe_bind; [|intros _; by apply safe_const]. intros d Hd. unfold after, write_forward.
      pose proof (forward_write_answers h buffer). by destruct (forward_write h buffer).
    + pose proof (take_frame_no_panic SERVER_MAX buffer) as Hn.
      destruct (take_frame SERVER_MAX buffer); first [done|apply psafe_http_bail|by apply safe_const].
Qed.

Lemma close_run d :
  peer_ok d →
  ∃ pe w, peer_on_session_close d = (Ok tt, PeerD pe w (pe_forwarded d)) ∧
    pr_tx pe = None ∧ pr_player pe = None ∧ traffic_forward_writer pe = None ∧
    w = match pr_player (pe_self d) with
        | Some h =>
            match w_players (pe_world d) !! h with
            | Some pl =>
                if p_session_id pl =? pr_session_id (pe_self d)
                then set_players <[h := player_new (p_player_id pl)]> (pe_world d)
                else pe_world d
            | None => pe_world d
            end
        | None => pe_world d
        end.
Proof.
  destruct d as [[tx player sid fwd] w fw]. intros [[_ Hk] _]. cbn [pe_self pe_world pe_forwarded] in *.
  unfold peer_on_session_close, set_peer, modify, gets, in_server, mbind, M_bind.
  cbn [pe_self pe_world pe_forwarded upd_tx upd_player upd_forward pr_player pr_session_id].
  cbn in Hk. destruct player as [h|]; [|by eexists _, _].
  destruct (Hk h eq_refl) as [pl Hpl].
  cbn. unfold get_player_at at 1. rewrite Hpl. cbn.
  destruct (p_session_id pl =? sid); [|by eexists _, _].
  unfold on_disconnect_session, reset_session_info, get_player_at, mbind, M_bind. cbn. rewrite Hpl.
  by eexists _, _.
Qed.

(** *** A tunnel message pushed by a peer *)

(** The player a tunnel message is for, and the one it comes from. *)
Definition to_player (m : ProxyMessage) (t : tunnel_Model) : PlayerId :=
  if is_i2o_message m then tm_sender t else tm_receiver t.
Definition from_player (m : ProxyMessage) (t : tunnel_Model) : PlayerId :=
  if is_i2o_message m then tm_receiver t else tm_sender t.

Lemma find_tunnel_id tid ts t : find_tunnel tid ts = Some t → tm_id t = tid.
Proof.
  unfold find_tunnel. intros Ht. apply head_Some_elem_of, list_elem_of_filter in Ht as [? _]. done.
Qed.

Lemma push_frame m tid id bs t pe w fw :
  proxy_message_ok m → in_u32 tid → encode_message (proxy_message_2_pb m tid) = Some (id, bs) →
  find_tunnel tid (w_tunnels w) = Some t →
  ∀ w', server_send_proxy_message (from_player m t) (to_player m t) tid m w = (Ok tt, w') →
  peer_on_recv_frame (body_of 0 id bs) (PeerD pe w fw) = (Ok tt, PeerD pe w' fw).
Proof.
  intros Hm Ht He Hrow w' Hrun. pose proof (find_tunnel_id _ _ _ Hrow) as Hid.
  unfold peer_on_recv_frame. destruct (Z.ltb_spec (len (body_of 0 id bs)) 8) as [Hl|_].
  { unfold body_of in Hl. rewrite !len_app in Hl. pose proof (len_nonneg bs).
    unfold len at 1 2 in Hl. cbn [length be32] in Hl. lia. }
  destruct (encode_message_parts _ _ _ He) as [Hmid _].
  rewrite parse_body by (done || by eapply get_message_id_range). rewrite lift_bind.
  rewrite (decode_encoded _ _ _ (pb_ok m tid Ht Hm) He).
  unfold answer_message, peer_handle_message. cbn [Z.ltb Z.compare].
  unfold peer_handle_push. rewrite (pb_roundtrip m tid Hm).
  unfold mbind, M_bind, in_server, gets. cbn [pe_self pe_world pe_forwarded]. rewrite Hrow.
  unfold from_player, to_player in Hrun. rewrite Hid.
  destruct (is_i2o_message m); cbn [pe_self pe_world pe_forwarded]; by rewrite Hrun.
Qed.

Lemma reach_online h pl tx to from tid m w :
  to ≠ 0 → w_player_map w !! to = Some h → w_players w !! h = Some pl → is_online pl = true →
  p_tx pl = Some tx →
  server_send_proxy_message from to tid m w =
    match package_message 0 (proxy_message_2_pb m tid) with
    | Some buf => (Ok tt, set_env (told tx (Send buf true) (w_env w)) w)
    | None => (Ok tt, w)
    end.
Proof.
  intros Hto Hmap Hpl Hon Htx. unfold server_send_proxy_message.
  destruct (Z.eqb_spec to 0) as [|_]; [done|].
  assert (online_player to w = (Ok (Some h), w)) as Hrun.
  { unfold online_player, get_player. rewrite gets_bind, Hmap.
    by rewrite (get_player_at_bind _ _ _ _ Hpl), Hon. }
  rewrite (bind_ok _ _ _ _ _ Hrun). rewrite pb_not_none. cbn [negb].
  unfold player_send_push, ignore at 1. rewrite (get_player_at_bind _ _ _ _ Hpl), Htx.
  unfold peer_package_and_send_message. destruct (package_message 0 _) as [buf|]; [|done].
  by rewrite (ignore_send_writer tx _ w).
Qed.

Definition session_of (m : ProxyMessage) : u32 :=
  match m with
  | I2oConnect id _ _ _ _ _ _ _ | O2iConnect id _ _ | I2oSendData id _ | O2iRecvData id _
  | I2oSendToData id _ _ | O2iRecvDataFrom id _ _ | O2iSendDataResult id _
  | I2oRecvDataResult id _ | I2oDisconnect id | O2iDisconnect id => id
  end.

(** *** What a sender is told when the other end cannot be reached

    A request for a connection is refused, in the words shown. Datagrams and
    messages that end a session are lost in silence. Any other message ends its
    session, at the end it came from. *)
Definition lost_in_silence (m : ProxyMessage) : Prop :=
  match m with
  | I2oSendToData _ _ _ | O2iRecvDataFrom _ _ _ | I2oDisconnect _ | O2iDisconnect _ => True
  | _ => False
  end.
Definition asks_to_connect (m : ProxyMessage) : Prop :=
  match m with I2oConnect _ _ _ _ _ _ _ _ => True | _ => False end.
Definition ends_session (a : ProxyMessage) : Prop :=
  match a with I2oDisconnect _ | O2iDisconnect _ => True | _ => False end.

Inductive told_back (to : PlayerId) (m : ProxyMessage) : option ProxyMessage → Prop :=
| told_refusal :
    asks_to_connect m →
    told_back to m (Some (O2iConnect (session_of m) false
      ("no player " +:+ show to +:+ " or the player is offline")))
| told_end a :
    ¬ asks_to_connect m → ¬ lost_in_silence m → ends_session a →
    session_of a = session_of m → is_i2o_message a = negb (is_i2o_message m) →
    told_back to m (Some a)
| told_nothing : lost_in_silence m → told_back to m None.

Lemma offline_answer_told to m : told_back to m (offline_answer to m).
Proof. destruct m; try (by apply told_nothing); try (by apply told_end; try intros []); by apply told_refusal. Qed.

(** The player on the side [from] is connected, or it is the server itself. *)
Definition can_be_told (from : PlayerId) (w : world) : Prop :=
  from = 0 ∨ ∃ h pl tx, w_player_map w !! from = Some h ∧ w_players w !! h = Some pl ∧ p_tx pl = Some tx.

(** [a] reaches the side [from]: its end, where it is the server's own, or the
    writer of its connection, in one frame. *)
Definition tells (from : PlayerId) (tid : u32) (a : ProxyMessage) (w w' : world) : Prop :=
  if from =? 0 then
    w' = if is_i2o_message a then set_server_outlets (give (input_outlet a) tid) w
         else set_server_inlets (give (input_inlet a) tid) w
  else
    ∃ h pl tx buf, w_player_map w !! from = Some h ∧ w_players w !! h = Some pl ∧
      p_tx pl = Some tx ∧ package_message 0 (proxy_message_2_pb a tid) = Some buf ∧
      w' = set_env (told tx (Send buf true) (w_env w)) w.

Definition unreachable (id : PlayerId) w : Prop :=
  match w_player_map w !! id with
  | Some h => ∃ pl, w_players w !! h = Some pl ∧ is_online pl = false
  | None => True
  end.

Lemma unreachable_run to from tid m w :
  to ≠ 0 → unreachable to w →
  server_send_proxy_message from to tid m w =
    match offline_answer to m with
    | Some a =>
        if from =? 0 then send_input tid a w
        else push_message_to_player from (proxy_message_2_pb a tid) w
    | None => (Ok tt, w)
    end.
Proof.
  intros Hto Hun. unfold server_send_proxy_message. destruct (Z.eqb_spec to 0) as [|_]; [done|].
  assert (online_player to w = (Ok None, w)) as Hrun.
  { unfold online_player, get_player, unreachable in *. rewrite gets_bind.
    destruct (w_player_map w !! to) as [h|]; [|done]. destruct Hun as (pl & Hpl & Hoff).
    by rewrite (get_player_at_bind _ _ _ _ Hpl), Hoff. }
  rewrite (bind_ok _ _ _ _ _ Hrun). destruct (offline_answer to m); [|done]. by destruct (from =? 0).
Qed.

Lemma push_to_run id h pl tx m w :
  w_player_map w !! id = Some h → w_players w !! h = Some pl → p_tx pl = Some tx →
  push_message_to_player id m w =
    match package_message 0 m with
    | Some buf => (Ok tt, set_env (told tx (Send buf true) (w_env w)) w)
    | None => (Ok tt, w)
    end.
Proof.
  intros Hmap Hpl Htx. unfold push_message_to_player, get_player. rewrite gets_bind, Hmap.
  unfold player_send_push, ignore at 1. rewrite (get_player_at_bind _ _ _ _ Hpl), Htx.
  unfold peer_package_and_send_message. destruct (package_message 0 _) as [buf|]; [|done].
  by rewrite (ignore_send_writer tx _ w).
Qed.

Lemma told_run from tid a w :
  can_be_told from w → ∃ w',
    (if from =? 0 then send_input tid a w else push_message_to_player from (proxy_message_2_pb a tid) w)
      = (Ok tt, w') ∧ tells from tid a w w'.
Proof.
  unfold tells. destruct (Z.eqb_spec from 0) as [_|Hf].
  - intros _. eexists. split; [|reflexivity]. unfold send_input. by destruct (is_i2o_message a).
  - intros [?|(h & pl & tx & Hmap & Hpl & Htx)]; [done|].
    assert (is_Some (package_message 0 (proxy_message_2_pb a tid))) as [buf Hbuf] by (destruct a; by eexists).
    eexists. split; [rewrite (push_to_run from h pl tx) by done; by rewrite Hbuf|].
    by exists h, pl, tx, buf.
Qed.
End PeerFacts.

(** ** Properties *)

Section PeerProperties.
Context `{Prost} `{UserDb} `{Json} `{Rng} `{!PeerOs}.
Implicit Types (w : world) (pe : Peer) (d : peer_delegate).

(** No input unwinds a peer's task. As long as the libraries answer, no
    bytes a client can send make the extraction, the handling of a frame or the
    close panic: the assertions ([serial < 0] of a response, the player being
    offline when a session connects to it) and the [unwrap]s hold, with the
    invariant that the manager's map and the peer lead to players. *)
Theorem peer_never_panics `{!DbAnswers} `{!ForwardAnswers} `{!ProstAnswers} :
  (∀ buffer, safe peer_ok (peer_try_extract_frame buffer)) ∧
  (∀ frame, safe peer_ok (peer_on_recv_frame frame)) ∧
  (∀ d, peer_ok d → after peer_on_session_close d (λ o d', o = Ok tt ∧
     world_ok (λ h, pr_player (pe_self d') = Some h) (pe_world d'))) ∧
  (∀ id addr tx d, pr_player (pe_self d) = None → world_ok (λ _, False) (pe_world d) →
     after (peer_on_session_start id addr tx) d (λ o d', o = Ok tt ∧ peer_ok d')).
Proof.
  split; [apply psafe_extract|]. split; [apply psafe_frame|]. split.
  - intros d Hd. destruct (close_run d Hd) as (pe & w & Hrun & _ & Hpl & _ & Hw).
    unfold after. rewrite Hrun. split; [done|]. cbn [pe_self pe_world]. rewrite Hpl.
    destruct Hd as [[Ha Hb] _].
    assert (world_ok (λ h, None = Some h) (pe_world d)) as Hd by by split.
    rewrite Hw. repeat case_match; try done. by apply world_ok_insert.
  - intros id addr tx [pe w fw] Hpl [Ha _]. cbn [pe_self pe_world] in *. split; [done|].
    split; [|by eexists]. cbn. rewrite Hpl. by split.
Qed.

(** C29: A second login takes the player over. When a peer logs in as a player
    that is online in another session, that session's writer is told to close,
    the player belongs to the new session, the acknowledgement lists the
    tunnels it sends or receives for; and the close of the old session, which
    comes later, leaves the new one alone. *)
Theorem takeover m pe1 pe2 w fw1 fw2 u h pl t1 t2 :
  find_login (lq_username m) (lq_password m) (w_db w) = Ok (Some u) →
  w_player_map w !! um_id u = Some h → w_players w !! h = Some pl →
  is_online pl = true → p_tx pl = Some t1 → writer_open t1 (w_env w) →
  pr_player pe1 = Some h → pr_tx pe1 = Some t1 → p_session_id pl = pr_session_id pe1 →
  pr_player pe2 = None → pr_tx pe2 = Some t2 → pr_session_id pe1 ≠ pr_session_id pe2 →
  (∀ id h', w_player_map w !! id = Some h' → is_Some (w_players w !! h')) →
  ∃ w' pe1',
    on_login_request m (PeerD pe2 w fw2) =
      (Ok (login_ack (um_id u) w), PeerD (upd_player (Some h) pe2) w' fw2) ∧
    w_players w' = <[h := connected pl (pr_session_id pe2) t2]> (w_players w) ∧
    writer_queue t1 (w_env w') = writer_queue t1 (w_env w) ++ [Close] ∧
    (∀ t, t ≠ t1 → writer_queue t (w_env w') = writer_queue t (w_env w)) ∧
    peer_on_session_close (PeerD pe1 w' fw1) = (Ok tt, PeerD pe1' w' fw1) ∧
    pr_player pe1' = None.
Proof.
  intros Hu Hmap Hpl Hon Ht1 [q Hq] Hp1 Hx1 Hs1 Hp2 Hx2 Hs Hall.
  set (w' := set_players <[h := connected pl (pr_session_id pe2) t2]>
               (set_env (hang_up pl (w_env w)) w)).
  assert (peer_ok (PeerD pe1 w' fw1)) as Hok.
  { split; [|by eexists]. apply world_ok_insert. split; [exact Hall|]. cbn. intros h'.
    rewrite Hp1. intros [= <-]. by eexists. }
  destruct (close_run _ Hok) as (pe1' & w1 & Hc & _ & Hpl1 & _ & Hw1).
  exists w', pe1'. cbn [pe_self pe_world pe_forwarded] in Hw1, Hc. rewrite Hp1 in Hw1.
  assert (w_players w' !! h = Some (connected pl (pr_session_id pe2) t2)) as Hh
    by (unfold w'; cbn; by rewrite lookup_insert_eq).
  rewrite Hh in Hw1. cbn [p_session_id connected] in Hw1.
  destruct (Z.eqb_spec (pr_session_id pe2) (pr_session_id pe1)); [congruence|]. subst w1.
  assert (w_env w' = set_writers <[t1 := Chan true (q ++ [Close])]> (w_env w)) as Henv.
  { unfold w', hang_up, told. cbn. by rewrite Ht1, Hon, Hq. }
  split_and!; try done.
  - by apply login_run.
  - rewrite Henv. by apply writer_queue_push.
  - intros t Hne. rewrite Henv. unfold writer_queue. cbn. by rewrite lookup_insert_ne.
Qed.

(** C30: What a login is answered, on every branch: a peer that has a player,
    wrong credentials, an account without a player, and success, which alone
    changes anything. *)
Theorem login_answered m d :
  peer_ok d →
  fst (on_login_request m d) = login_spec m (pe_self d) (pe_world d) ∧
  (snd (on_login_request m d) = d ↔ login_wins m (pe_self d) (pe_world d) = None).
Proof.
  intros Hd. destruct (login_cases m d Hd) as [[Hn ->]|(id & h & pl & tx & Hw & Hm & _ & _ & ->)].
  - by rewrite Hn.
  - unfold login_wins in Hw. cbn [fst snd].
    destruct (pr_player (pe_self d)) eqn:Epl; [done|]. unfold login_wins, login_spec. rewrite Epl.
    destruct (find_login _ _ _) as [[u|]| | |]; try done.
    destruct (w_player_map (pe_world d) !! um_id u) as [h'|] eqn:Eh; [|done].
    cbn in Hw. injection Hw as -> ->. split; [done|]. split; [|done].
    intros E. apply (f_equal (λ x, pr_player (pe_self x))) in E. cbn in E. congruence.
Qed.

(** The server relays a tunnel message as it is. The frame a peer pushes
    for a tunnel goes, byte for byte, to the writer of the player at the other
    end of the tunnel's row, and nothing else changes. *)
Theorem server_relays m tid id bs t pe w fw h pl tx :
  proxy_message_ok m → in_u32 tid → encode_message (proxy_message_2_pb m tid) = Some (id, bs) →
  in_u32 (8 + len bs) →
  find_tunnel tid (w_tunnels w) = Some t → to_player m t ≠ 0 →
  w_player_map w !! to_player m t = Some h → w_players w !! h = Some pl →
  is_online pl = true → p_tx pl = Some tx →
  peer_on_recv_frame (body_of 0 id bs) (PeerD pe w fw) =
    (Ok tt, PeerD pe (set_env (told tx (Send (frame_of (body_of 0 id bs)) true) (w_env w)) w) fw).
Proof.
  intros Hm Ht He Hl Hrow Hto Hmap Hpl Hon Htx. apply (push_frame m tid id bs t); [done..|].
  erewrite reach_online by done. by rewrite (package_frame _ _ _ _ He Hl).
Qed.

(** C31: What becomes of a message whose other end cannot be reached. Pushed
    for a player that is unknown or offline, a request for a connection is
    answered with a refusal that says so; a datagram (also one to send,
    [I2oSendToData]) and the end of a session are lost without an answer; and
    any other message is answered with the end of its session. The answer goes
    to the end the message comes from, through its player's connection or, at
    the server's own end, its input, and nothing else changes. *)
Theorem offline_told m tid id bs t pe w fw :
  proxy_message_ok m → in_u32 tid → encode_message (proxy_message_2_pb m tid) = Some (id, bs) →
  find_tunnel tid (w_tunnels w) = Some t →
  to_player m t ≠ 0 → unreachable (to_player m t) w → can_be_told (from_player m t) w →
  ∃ answer w',
    told_back (to_player m t) m answer ∧
    peer_on_recv_frame (body_of 0 id bs) (PeerD pe w fw) = (Ok tt, PeerD pe w' fw) ∧
    match answer with Some a => tells (from_player m t) tid a w w' | None => w' = w end.
Proof.
  intros Hm Ht He Hrow Hto Hun Hfrom. exists (offline_answer (to_player m t) m).
  pose proof (offline_answer_told (to_player m t) m) as Htold.
  assert (∃ w', server_send_proxy_message (from_player m t) (to_player m t) tid m w = (Ok tt, w') ∧
    match offline_answer (to_player m t) m with
    | Some a => tells (from_player m t) tid a w w' | None => w' = w end) as (w' & Hrun & Htells).
  { rewrite unreachable_run by done. destruct (offline_answer (to_player m t) m) as [a|]; [|by exists w].
    by apply told_run. }
  exists w'. split; [done|]. split; [|done]. by apply (push_frame m tid id bs t).
Qed.

(** C39: A tunnel is open to peers that have not logged in. Who pushes a
    tunnel message is never looked at: a connection without a player writes to
    the end of any tunnel, here the outlet the server runs itself, which will
    connect and send on its behalf. *)
Theorem unauthenticated_push m tid id bs t pe w fw e :
  proxy_message_ok m → in_u32 tid → encode_message (proxy_message_2_pb m tid) = Some (id, bs) →
  find_tunnel tid (w_tunnels w) = Some t → tm_sender t = 0 → is_i2o_message m = true →
  w_outlets w !! tid = Some e → pr_player pe = None →
  peer_on_recv_frame (body_of 0 id bs) (PeerD pe w fw) =
    (Ok tt, PeerD pe (set_server_outlets <[tid := input_outlet m e]> w) fw).
Proof.
  intros Hm Ht He Hrow Hsend Hdir Hin _. apply (push_frame m tid id bs t); [done..|].
  unfold to_player. rewrite Hdir, Hsend. unfold server_send_proxy_message, send_input. rewrite Hdir.
  unfold send_input_to_outlet, modify, set_server_outlets, give. cbn. by rewrite Hin.
Qed.
End PeerProperties.

(** ** Witnesses *)

Module PeerConcrete.
#[local] Existing Instances Concrete.rand ProstConcrete.prost.

(** A table of users, a parser that accepts nothing, a quiet host. *)
#[export] Instance users : UserDb := {|
  db := list user_Model;
  find_login n p us :=
    Ok (head (base.filter (λ u, um_username u = n ∧ um_password u = p) us));
  find_username n us := Ok (head (base.filter (λ u, um_username u = n) us));
  insert_user u us := (Ok tt, us ++ [u])
|}.
#[export] Instance json : Json := {| mapping_from_str := λ _, Err "not a mapping" |}.
#[export] Instance os : PeerOs := {|
  illegal_traffic_forward := "";
  forward_connect := λ _, Err "refused";
  forward_write := λ _ _, Ok tt;
  http_date := "Thu, 01 Jan 1970 00:00:00 GMT";
  utc_now := 0;
  from_entropy := (1 : rng (Rng := Concrete.rand))
|}.

#[export] Instance db_answers : DbAnswers.
Proof. done. Defined.
#[export] Instance forward_answers : ForwardAnswers.
Proof. done. Defined.
#[export] Instance prost_answers : ProstAnswers.
Proof.
  intros A HA bs. unfold decode, ProstConcrete.prost, ProstConcrete.of_number.
  destruct (ProstConcrete.undigits bs) as [|p]; [done|]. destruct (countable.decode p); [by case_decide|done].
Defined.

Definition user7 : user_Model :=
  {| um_id := 7; um_username := "ann"; um_password := "pw"; um_create_time := 0 |}.
Definition user8 : user_Model :=
  {| um_id := 8; um_username := "bob"; um_password := "pw"; um_create_time := 0 |}.

(** Tunnel 4 goes from player 7's listener out through player 8, tunnel 5 out
    through the server. *)
Definition row (id sender receiver : u32) : tunnel_Model :=
  {| tm_id := id; tm_source := ""; tm_endpoint := "a:1"; tm_enabled := 1; tm_sender := sender;
     tm_receiver := receiver; tm_description := ""; tm_tunnel_type := 0; tm_password := "";
     tm_username := ""; tm_is_compressed := 0; tm_custom_mapping := ""; tm_encryption_method := "" |}.

Definition outlet5 : outlet_entry :=
  {| oe_description := "id:5-sender:0-enabled:1";
     oe_route := {| rt_this_machine := false; rt_self_player_id := 0; rt_player_id := 7;
                    rt_tunnel_id := 5 |};
     oe_input := [] |}.

(** Player 7 is online in session 100 with writer 1, player 8 is offline. *)
Definition start : world := {|
  w_env := set_writers (λ _, {[1 := Chan true []; 2 := Chan true []]}) env0;
  w_players := {[10 := {| p_tx := Some 1; p_player_id := 7; p_session_id := 100 |};
                 11 := player_new 8]};
  w_player_list := [10; 11];
  w_player_map := {[7 := 10; 8 := 11]};
  w_tunnels := [row 4 8 7; row 5 0 7];
  w_outlets := {[5 := outlet5]};
  w_inlets := ∅;
  w_db := [user7; user8]
|}.

Definition peer (player : option handle) (session_id : u32) (tx : handle) : Peer :=
  {| pr_tx := Some tx; pr_player := player; pr_session_id := session_id;
     traffic_forward_writer := None |}.

Lemma start_players id h : w_player_map start !! id = Some h → is_Some (w_players start !! h).
Proof.
  unfold start. cbn [w_player_map]. intros Hm.
  apply lookup_insert_Some in Hm as [[_ <-]|[_ Hm]]; [by eexists|].
  apply lookup_singleton_Some in Hm as [_ <-]. by eexists.
Qed.
End PeerConcrete.

Section Witnesses.
Import PeerConcrete.
#[local] Existing Instances ProstConcrete.prost Concrete.rand users json os db_answers
  forward_answers prost_answers.

Lemma peer_never_panics_witness :
  after (peer_on_recv_frame [255; 255; 255; 254; 0; 2; 73; 244]) (PeerD (peer (Some 10) 100 1) start [])
    (λ o d, is_panic o = false ∧ peer_ok d).
Proof.
  destruct peer_never_panics as (_ & H & _). apply H. split; [|by eexists].
  split; [apply start_players|]. intros h [= <-]. by eexists.
Defined.

Lemma login_answered_witness :
  let m := {| lq_version := "1"; lq_username := "bob"; lq_password := "no" |} in
  let d := PeerD (peer None 200 2) start [] in
  fst (on_login_request m d) = Ok (error_message (-2) "Incorrect username or password") ∧
  (snd (on_login_request m d) = d ↔ login_wins m (peer None 200 2) start = None).
Proof.
  intros m d. apply (login_answered m d). split; [|by eexists].
  split; [apply start_players|done].
Defined.

Lemma takeover_witness : ∃ w' pe1',
  on_login_request {| lq_version := "1"; lq_username := "ann"; lq_password := "pw" |} (PeerD (peer None 200 2) start []) =
    (Ok (login_ack 7 start), PeerD (upd_player (Some 10) (peer None 200 2)) w' []) ∧
  w_players w' = <[10 := connected {| p_tx := Some 1; p_player_id := 7; p_session_id := 100 |} 200 2]>
    (w_players start) ∧
  writer_queue 1 (w_env w') = [Close] ∧
  (∀ t, t ≠ 1 → writer_queue t (w_env w') = writer_queue t (w_env start)) ∧
  peer_on_session_close (PeerD (peer (Some 10) 100 1) w' []) = (Ok tt, PeerD pe1' w' []) ∧
  pr_player pe1' = None.
Proof.
  apply (takeover {| lq_version := "1"; lq_username := "ann"; lq_password := "pw" |} (peer (Some 10) 100 1)
           (peer None 200 2) start [] [] user7 10
           {| p_tx := Some 1; p_player_id := 7; p_session_id := 100 |} 1 2);
    try reflexivity; try done.
  - by exists [].
  - apply start_players.
Defined.

Lemma server_relays_witness : ∃ bs,
  peer_on_recv_frame (body_of 0 150009 bs) (PeerD (peer None 300 2) start []) =
    (Ok tt, PeerD (peer None 300 2)
      (set_env (told 1 (Send (frame_of (body_of 0 150009 bs)) true) (w_env start)) start) []).
Proof.
  eexists. apply (server_relays (O2iRecvData 3 [9]) 4 150009 _ (row 4 8 7) _ start [] 10
    {| p_tx := Some 1; p_player_id := 7; p_session_id := 100 |} 1); try reflexivity; try done.
  split; [unfold in_u32; lia|]. repeat constructor; unfold in_u8; lia.
Defined.

Lemma offline_told_witness : ∃ bs answer w',
  told_back 8 (I2oSendData 3 [9]) answer ∧
  peer_on_recv_frame (body_of 0 150008 bs) (PeerD (peer (Some 10) 100 1) start []) =
    (Ok tt, PeerD (peer (Some 10) 100 1) w' []) ∧
  match answer with Some a => tells 7 4 a start w' | None => w' = start end.
Proof.
  eexists. apply (offline_told (I2oSendData 3 [9]) 4 150008 _ (row 4 8 7) _ start []);
    try reflexivity; try done.
  - split; [unfold in_u32; lia|]. repeat constructor; unfold in_u8; lia.
  - by eexists.
  - right. by exists 10, {| p_tx := Some 1; p_player_id := 7; p_session_id := 100 |}, 1.
Defined.

Lemma unauthenticated_push_witness : ∃ bs,
  peer_on_recv_frame (body_of 0 150008 bs) (PeerD (peer None 300 2) start []) =
    (Ok tt, PeerD (peer None 300 2) (set_server_outlets <[5 := input_outlet (I2oSendData 3 [9]) outlet5]> start) []).
Proof.
  eexists. apply (unauthenticated_push (I2oSendData 3 [9]) 5 150008 _ (row 5 0 7) (peer None 300 2)
    start [] outlet5); try reflexivity; try done.
  split; [unfold in_u32; lia|]. repeat constructor; unfold in_u8; lia.
Defined.
End Witnesses.
