(* ===== verification/System.v ===== *)
(** The whole server: the connections' peers, the management interface and the
    ends of tunnels the server runs itself at work on one set of managers
    ([np_server/src/peer], [web], [global/manager]), one call after the other in
    any order. The ends hand their messages to the managers and take their input
    from them; a turn of the task that takes it is an event, with the sessions
    the end has at that time given. *)

From S2P Require Import Prelude Std Extern Net Proxy Common Inlet Outlet Messages Bridge Framing Ends Str Server.
From S2P Require Import Tunnels Players Web Start Peer.

(** ** What a peer does to the server *)

Section Steps.
Context `{Prost} `{Json} `{Unicode} `{InletOs} `{UserDb} `{!TunnelDb} `{!UserAdmin}
  `{!TunnelDbOk} `{!UsersOk} `{Rng} `{!PeerOs}.
Implicit Types (w : world) (d : peer_delegate).

(** [m] leaves a consistent server consistent, and its players who they are. *)
Definition steps {A} (m : M world A) : Prop := ∀ w, server_ok w → world_kept w (snd (m w)).

Lemma steps_const {A} (m : M world A) : (∀ w, snd (m w) = w) → steps m.
Proof. intros Hm w Hw. rewrite Hm. by apply world_kept_refl. Qed.
Lemma steps_bind {A B} (m : M world A) (f : A → M world B) :
  steps m → (∀ a, steps (f a)) → steps (m ≫= f).
Proof.
  intros Hm Hf w Hw. specialize (Hm w Hw). unfold mbind, M_bind.
  destruct (m w) as [[a| | |] w1]; cbn [snd] in Hm |- *; [|done..].
  eapply world_kept_trans; [exact Hm|]. apply Hf, Hm.
Qed.
Lemma steps_ignore {A} (m : M world A) : steps m → steps (ignore m).
Proof.
  intros Hm w Hw. specialize (Hm w Hw). unfold ignore. by destruct (m w) as [[] ?].
Qed.
Lemma steps_env {A} (m : M world A) : env_only m → steps m.
Proof.
  intros Hm w Hw. destruct (Hm w) as (e & Hn & ->).
  split; [|by apply persist_same]. apply (server_ok_same w); [done|done|exact (so_manager w Hw)].
Qed.

Lemma server_ok_put h pl pl' w :
  server_ok w → w_players w !! h = Some pl → p_player_id pl' = p_player_id pl →
  world_kept w (set_players <[h := pl']> w).
Proof.
  intros [Hm Hp Hl Hf] Hpl Hid. split; [split; [done|..]|].
  - intros id h' Hh. cbn in *. destruct (Hp id h' Hh) as (pl1 & Hpl1 & <-).
    destruct (decide (h = h')) as [<-|]; [|rewrite lookup_insert_ne by done; by exists pl1].
    rewrite lookup_insert_eq. exists pl'. split; [done|]. by simplify_eq.
  - intros h' Hh. cbn in *. destruct (decide (h = h')) as [<-|]; [by rewrite lookup_insert_eq|].
    rewrite lookup_insert_ne by done. by apply Hl.
  - intros h' Hh. change (h' < next_handle (w_env w)). apply Hf.
    change (is_Some (<[h := pl']> (w_players w) !! h')) in Hh.
    destruct (decide (h = h')) as [<-|]; [by eexists|]. by rewrite lookup_insert_ne in Hh.
  - intros h' pl1 Hpl1. cbn. destruct (decide (h = h')) as [<-|].
    + rewrite lookup_insert_eq. exists pl'. split; [done|]. by simplify_eq.
    + rewrite lookup_insert_ne by done. by exists pl1.
Qed.

Lemma steps_get h : steps (get_player_at h).
Proof. apply steps_const. intros w. unfold get_player_at. by destruct (w_players w !! h). Qed.

(** A change of a player that keeps its id. *)
Lemma steps_change h (f : Player → M world unit) :
  (∀ pl w, server_ok w → w_players w !! h = Some pl → world_kept w (snd (f pl w))) →
  steps (get_player_at h ≫= f).
Proof.
  intros Hf w Hw. unfold mbind, M_bind, get_player_at.
  destruct (w_players w !! h) as [pl|] eqn:Hpl; [by apply Hf|by apply world_kept_refl].
Qed.
Lemma steps_reset h : steps (reset_session_info h).
Proof. apply steps_change. intros pl w Hw Hpl. by apply (server_ok_put h pl). Qed.
Lemma steps_connect h sid tx : steps (on_connect_session h sid tx).
Proof.
  apply steps_change. intros pl w Hw Hpl.
  destruct (is_online pl); [by apply world_kept_refl|by apply (server_ok_put h pl)].
Qed.
Lemma steps_close h : steps (close_session h).
Proof.
  apply steps_bind; [apply steps_get|]. intros pl. destruct (p_tx pl) as [tx|]; [|by apply steps_const].
  apply steps_env. intros w. rewrite ignore_send_writer. eexists. split; [|done]. apply told_next.
Qed.
Lemma steps_add_player r now name pass : steps (add_player r now name pass).
Proof.
  intros w Hw. pose proof (add_player_run r now name pass w Hw) as Ha. unfold after in Ha.
  destruct (add_player r now name pass w) as [o w']. destruct Ha as [Hw' Ho]. split; [done|].
  destruct o as [[code msg]|e| |]; [|by apply persist_same, Ho|done..].
  destruct Ho as [(_ & -> & _)|[(_ & -> & _)|[(_ & -> & _)|(_ & _ & _ & id & h & _ & _ & Hh & E & _)]]];
    [done..|by eapply persist_new].
Qed.

Lemma steps_ends (f : world → world) :
  (∀ w, w_players (f w) = w_players w ∧ w_player_list (f w) = w_player_list w ∧
        w_player_map (f w) = w_player_map w ∧ w_env (f w) = w_env w ∧
        w_tunnels (f w) = w_tunnels w ∧ w_db (f w) = w_db w) → steps (modify f).
Proof.
  intros Hf w Hw. cbn. destruct (Hf w) as (E1 & E2 & E3 & E4 & E5 & E6).
  split; [|by apply persist_same]. apply (server_ok_same w); [done|split_and!; congruence|].
  unfold manager_ok. rewrite E5, E6. exact (so_manager w Hw).
Qed.
Lemma steps_send_input tid m : steps (send_input tid m).
Proof. unfold send_input. destruct (is_i2o_message m); by apply steps_ends. Qed.
Lemma steps_give_outlet tid m : steps (send_input_to_outlet tid m).
Proof. by apply steps_ends. Qed.
Lemma steps_give_inlet tid m : steps (send_input_to_inlet tid m).
Proof. by apply steps_ends. Qed.
Lemma steps_push_to_player id m : steps (push_message_to_player id m).
Proof.
  apply steps_bind; [by apply steps_const|]. intros [h|]; [|by apply steps_const].
  apply steps_env, env_only_ignore, env_only_send_push.
Qed.
Lemma steps_send_proxy_message from to tid m : steps (server_send_proxy_message from to tid m).
Proof.
  unfold server_send_proxy_message. destruct (to =? 0); [apply steps_send_input|].
  apply steps_bind.
  { apply steps_bind; [by apply steps_const|]. intros [h|]; [|by apply steps_const].
    apply steps_bind; [apply steps_get|]. intros p. by apply steps_const. }
  intros [h|].
  - destruct (negb _); [|by apply steps_const]. apply steps_env, env_only_ignore, env_only_send_push.
  - destruct (offline_answer to m); [|by apply steps_const].
    destruct (from =? 0); [apply steps_send_input|apply steps_push_to_player].
Qed.
Lemma steps_outlet_output r m : steps (server_outlet_output r m).
Proof.
  unfold server_outlet_output.
  destruct (rt_this_machine r); [apply steps_give_inlet|apply steps_send_proxy_message].
Qed.
Lemma steps_inlet_output r m : steps (server_inlet_output r m).
Proof.
  unfold server_inlet_output.
  destruct (rt_this_machine r); [apply steps_give_outlet|apply steps_send_proxy_message].
Qed.
End Steps.

(** ** The calls of a peer *)

Section PeerSteps.
Context `{Prost} `{Json} `{Unicode} `{InletOs} `{UserDb} `{!TunnelDb} `{!UserAdmin}
  `{!TunnelDbOk} `{!UsersOk} `{Rng} `{!PeerOs}.
Implicit Types (w : world) (d : peer_delegate).

Definition psteps {A} (m : M peer_delegate A) : Prop := ∀ d,
  server_ok (pe_world d) → world_kept (pe_world d) (pe_world (snd (m d))).

Lemma psteps_const {A} (m : M peer_delegate A) :
  (∀ d, pe_world (snd (m d)) = pe_world d) → psteps m.
Proof. intros Hm d Hd. rewrite Hm. by apply world_kept_refl. Qed.
Lemma psteps_bind {A B} (m : M peer_delegate A) (f : A → M peer_delegate B) :
  psteps m → (∀ a, psteps (f a)) → psteps (m ≫= f).
Proof.
  intros Hm Hf d Hd. specialize (Hm d Hd). unfold mbind, M_bind.
  destruct (m d) as [[a| | |] d1]; cbn [snd] in Hm |- *; [|done..].
  eapply world_kept_trans; [exact Hm|]. apply Hf, Hm.
Qed.
Lemma psteps_server {A} (m : M world A) : steps m → psteps (in_server m).
Proof.
  intros Hm d Hd. specialize (Hm _ Hd). unfold in_server. by destruct (m (pe_world d)).
Qed.
Lemma psteps_ignore {A} (m : M peer_delegate A) : psteps m → psteps (ignore m).
Proof.
  intros Hm d Hd. specialize (Hm d Hd). unfold ignore. by destruct (m d) as [[] ?].
Qed.
Lemma psteps_writer h m : psteps (send_writer h m).
Proof.
  intros d Hd. assert (∃ e, next_handle e = next_handle (w_env (pe_world d)) ∧
    pe_world (snd (send_writer h m d)) = set_env e (pe_world d)) as (e & Hn & ->).
  { exists (told h m (w_env (pe_world d))). split; [apply told_next|].
    unfold send_writer, with_env, told. cbn [env_of peer_delegate_has_env].
    destruct (writers _ !! h) as [c|]; [|done]. by destruct (chan_send m c). }
  split; [|by apply persist_same]. apply (server_ok_same (pe_world d)); [done|done|].
  exact (so_manager _ Hd).
Qed.

#[local] Hint Resolve psteps_ignore psteps_writer : npipe.

Lemma psteps_package tx serial m flush : psteps (peer_package_and_send_message tx serial m flush).
Proof.
  unfold peer_package_and_send_message. destruct tx; [|by apply psteps_const].
  destruct (package_message serial m); [auto with npipe|by apply psteps_const].
Qed.
Lemma psteps_send_response serial m : psteps (send_response serial m).
Proof.
  apply psteps_bind; [by apply psteps_const|]. intros p.
  destruct (serial <? 0); [apply psteps_package|by apply psteps_const].
Qed.
Lemma psteps_http : psteps send_http_404_response.
Proof.
  apply psteps_bind; [by apply psteps_const|]. intros p.
  destruct (pr_tx p); [|by apply psteps_const]. apply psteps_bind; auto with npipe.
Qed.
Lemma psteps_http_bail {A} e : psteps (send_http_404_response;; bail (A := A) e).
Proof. apply psteps_bind; [apply psteps_http|]. intros _. by apply psteps_const. Qed.

(** *** Requests *)

Lemma psteps_login m : psteps (on_login_request m).
Proof.
  unfold on_login_request. apply psteps_bind; [by apply psteps_const|]. intros p.
  destruct (pr_player p); [by apply psteps_const|].
  apply psteps_bind; [by apply psteps_server, steps_const|]. intros [u|]; [|by apply psteps_const].
  apply psteps_bind; [by apply psteps_server, steps_const|]. intros [h|]; [|by apply psteps_const].
  apply psteps_bind; [by apply psteps_const|]. intros _.
  apply psteps_bind; [apply psteps_server, steps_get|]. intros pl.
  apply psteps_bind.
  { destruct (is_online pl); [|by apply psteps_const].
    apply psteps_server, steps_bind; [apply steps_close|intros _; apply steps_reset]. }
  intros _. apply psteps_bind; [by apply psteps_const|]. intros tx.
  apply psteps_bind; [apply psteps_server, steps_connect|]. intros _.
  apply psteps_bind; [by apply psteps_server, steps_const|]. intros ts. by apply psteps_const.
Qed.

Lemma psteps_request m : psteps (handle_request m).
Proof.
  assert (psteps (p ← gets pe_self;
      match pr_player p with
      | Some h => in_server (player_handle_request m)
      | None => mret (error_message PlayerNotLogin "player not logged in")
      end)) as Hother.
  { apply psteps_bind; [by apply psteps_const|]. intros p. by destruct (pr_player p); apply psteps_const. }
  unfold handle_request. destruct m; try exact Hother.
  - apply psteps_login.
  - apply psteps_bind; [apply psteps_server, steps_add_player|]. intros [code text].
    by apply psteps_const.
  - by apply psteps_const.
Qed.

Lemma psteps_push m : psteps (peer_handle_push m).
Proof.
  unfold peer_handle_push. destruct (pb_2_proxy_message m) as [[msg tid]|]; [|by apply psteps_const].
  apply psteps_bind; [by apply psteps_server, steps_const|]. intros [t|]; [|by apply psteps_const].
  destruct (if is_i2o_message msg then _ else _) as [from to].
  apply psteps_server, steps_send_proxy_message.
Qed.

Lemma psteps_answer serial m : psteps (answer_message serial m).
Proof.
  intros d Hd. unfold answer_message.
  assert (psteps (peer_handle_message serial m)) as Hm.
  { unfold peer_handle_message. destruct (serial <? 0); [apply psteps_request|].
    destruct (0 <? serial); (apply psteps_bind; [|intros _; by apply psteps_const]);
      [by apply psteps_const|apply psteps_push]. }
  specialize (Hm d Hd). destruct (peer_handle_message serial m d) as [r d'] eqn:E. cbn [snd] in Hm.
  eapply world_kept_trans; [exact Hm|]. destruct Hm as [Hd' _]. unfold answer_request.
  destruct r; [destruct (serial <? 0); [destruct (message_is_none _)|]|..];
    first [by apply psteps_send_response|by apply world_kept_refl].
Qed.

Lemma psteps_frame frame : psteps (peer_on_recv_frame frame).
Proof.
  unfold peer_on_recv_frame. destruct (len frame <? 8); [apply psteps_http_bail|].
  apply psteps_bind; [by apply psteps_const|]. intros [[serial id] raw].
  destruct (decode_message id raw);
    first [apply psteps_answer|apply psteps_http_bail|by apply psteps_const].
Qed.

Lemma psteps_extract buffer : psteps (peer_try_extract_frame buffer).
Proof.
  unfold peer_try_extract_frame. apply psteps_bind.
  - unfold check_flag. apply psteps_bind; [by apply psteps_const|]. intros p.
    destruct (_ && _); [|by apply psteps_const]. apply psteps_bind; [by apply psteps_const|].
    intros b. destruct (negb _); [|by apply psteps_const].
    intros d Hd. unfold if_is_err, on_err.
    assert (psteps create_traffic_forward_channel) as Hf.
    { unfold create_traffic_forward_channel. destruct (str_is_empty _); [by apply psteps_const|].
      apply psteps_bind; [by apply psteps_const|]. intros q. destruct (pr_tx q); [|by apply psteps_const].
      apply psteps_bind; [by apply psteps_const|]. intros writer. by apply psteps_const. }
    specialize (Hf d Hd). destruct (create_traffic_forward_channel d) as [[] d']; try done.
    eapply world_kept_trans; [exact Hf|]. apply psteps_http_bail, Hf.
  - intros _. apply psteps_bind; [by apply psteps_const|]. intros p.
    destruct (traffic_forward_writer p) as [h|].
    + apply psteps_bind; [|intros _; by apply psteps_const]. apply psteps_const. intros d.
      unfold write_forward. by destruct (forward_write h buffer).
    + destruct (take_frame SERVER_MAX buffer); first [apply psteps_http_bail|by apply psteps_const].
Qed.

Lemma psteps_session_close : psteps peer_on_session_close.
Proof.
  unfold peer_on_session_close. apply psteps_bind; [by apply psteps_const|]. intros _.
  apply psteps_bind; [by apply psteps_const|]. intros p.
  apply psteps_bind; [|intros _; by apply psteps_const].
  destruct (pr_player p) as [h|]; [|by apply psteps_const].
  apply psteps_bind; [by apply psteps_const|]. intros _.
  apply psteps_bind; [apply psteps_server, steps_get|]. intros pl.
  destruct (_ =? _); [apply psteps_server, steps_reset|by apply psteps_const].
Qed.
End PeerSteps.

(** ** The server as a system *)

Section System.
Context `{Prost} `{Json} `{Unicode} `{InletOs} `{UserDb} `{!TunnelDb} `{!UserAdmin} `{!UserPages}
  `{!MappingJson} `{Rng} `{!PeerOs} `{Md5} `{WebConfig}
  `{Lz4} `{SimplestCrypt} `{Base64} `{OutletOs}.
Context `{!FromJson LoginReq} `{!FromJson PlayerListRequest} `{!FromJson PlayerRemoveReq}
  `{!FromJson PlayerAddReq} `{!FromJson PlayerUpdateReq} `{!FromJson TunnelRemoveReq}
  `{!FromJson TunnelAddReq} `{!FromJson TunnelUpdateReq}.

(** The managers with the sessions of the interface, and the connections: the
    peer of each with what it has forwarded. *)
Record system := System {
  sy_web : web;
  sy_peers : gmap Z (Peer * list bytes)
}.
Definition sy_world (sy : system) : world := wb_world (sy_web sy).

(** What happens: a connection is accepted, its reader offers its buffer to be
    divided or hands over a frame, what answers the traffic it forwards sends
    something back, it ends; a request arrives; an end of a tunnel the server
    runs itself has a message to pass on, or the task of such an end turns to
    the next message of its input: its sessions are then [sessions], and
    [meanwhile] is what they do while an outlet waits for a new one. *)
Inductive event :=
| Connected (c : Z) (session_id : u32) (addr : SocketAddr)
| Offered (c : Z) (buffer : bytes)
| Framed (c : Z) (frame : bytes)
| Returned (c : Z) (data : bytes)
| Disconnected (c : Z)
| Requested (r : request)
| OutletSent (tunnel_id : u32) (m : ProxyMessage)
| InletSent (tunnel_id : u32) (m : ProxyMessage)
| OutletTakes (tunnel_id : u32) (meanwhile : M outlet_world unit) (sessions : outlet_world)
| InletTakes (tunnel_id : u32) (sessions : inlet_world).

Definition put_world (w : world) (sy : system) : system :=
  System (Web w (wb_events (sy_web sy))) (sy_peers sy).

(** A call of the delegate of connection [c]; its result goes to the session. *)
Definition with_peer {A} (c : Z) (m : M peer_delegate A) : M system unit := λ sy,
  match sy_peers sy !! c with
  | Some (p, fw) =>
      let '(o, d) := m (PeerD p (sy_world sy) fw) in
      (o ≫= λ _, Ok tt,
       System (Web (pe_world d) (wb_events (sy_web sy)))
         (<[c := (pe_self d, pe_forwarded d)]> (sy_peers sy)))
  | None => (Ok tt, sy)
  end.

(** The task that brings forwarded traffic back writes to the connection. *)
Definition returned (data : bytes) : M peer_delegate unit :=
  p ← gets pe_self;
  match pr_tx p with Some tx => forward_back tx data | None => mret tt end.

(** A call of the managers that no connection makes. *)
Definition by_server (m : M world unit) : M system unit := λ sy,
  let '(o, w) := m (sy_world sy) in (o, put_world w sy).

(** What is left of an end's input. *)
Definition outlet_left (ms : list ProxyMessage) (e : outlet_entry) : outlet_entry :=
  {| oe_description := oe_description e; oe_route := oe_route e; oe_input := ms |}.
Definition inlet_left (ms : list ProxyMessage) (e : inlet_entry) : inlet_entry :=
  {| ie_description := ie_description e; ie_route := ie_route e; ie_listen := ie_listen e;
     ie_config := ie_config e; ie_input := ms |}.

(** A turn of [async_receive_input]: the next message leaves the channel and is
    handled; an error is logged. *)
Definition outlet_takes (tunnel_id : u32) (meanwhile : M outlet_world unit) (sessions : outlet_world)
    : M world unit := λ w,
  match w_outlets w !! tunnel_id with
  | Some e =>
      match oe_input e with
      | m :: ms => (fst (ignore (outlet_input_internal meanwhile m) sessions),
                    set_server_outlets <[tunnel_id := outlet_left ms e]> w)
      | [] => (Ok tt, w)
      end
  | None => (Ok tt, w)
  end.
Definition inlet_takes (tunnel_id : u32) (sessions : inlet_world) : M world unit := λ w,
  match w_inlets w !! tunnel_id with
  | Some e =>
      match ie_input e with
      | m :: ms => (fst (ignore (inlet_input_internal m) sessions),
                    set_server_inlets <[tunnel_id := inlet_left ms e]> w)
      | [] => (Ok tt, w)
      end
  | None => (Ok tt, w)
  end.

Definition exec (ev : event) : M system unit := λ sy,
  match ev with
  | Connected c session_id addr =>
      match sy_peers sy !! c with
      | Some _ => (Ok tt, sy)
      | None =>
          let '(o, w) := new_writer (sy_world sy) in
          match o with
          | Ok tx =>
              with_peer c (peer_on_session_start session_id addr tx)
                (System (Web w (wb_events (sy_web sy))) (<[c := (peer_new, [])]> (sy_peers sy)))
          | _ => (Ok tt, put_world w sy)
          end
      end
  | Offered c buffer => with_peer c (peer_try_extract_frame buffer) sy
  | Framed c frame => with_peer c (peer_on_recv_frame frame) sy
  | Returned c data => with_peer c (returned data) sy
  | Disconnected c =>
      let '(o, sy) := with_peer c peer_on_session_close sy in
      (o, System (sy_web sy) (delete c (sy_peers sy)))
  | Requested r =>
      let '(o, s) := run_http_server r (sy_web sy) in (o ≫= λ _, Ok tt, System s (sy_peers sy))
  | OutletSent tunnel_id m =>
      match w_outlets (sy_world sy) !! tunnel_id with
      | Some e => by_server (server_outlet_output (oe_route e) m) sy
      | None => (Ok tt, sy)
      end
  | InletSent tunnel_id m =>
      match w_inlets (sy_world sy) !! tunnel_id with
      | Some e => by_server (server_inlet_output (ie_route e) m) sy
      | None => (Ok tt, sy)
      end
  | OutletTakes tunnel_id meanwhile sessions =>
      by_server (outlet_takes tunnel_id meanwhile sessions) sy
  | InletTakes tunnel_id sessions => by_server (inlet_takes tunnel_id sessions) sy
  end.

Fixpoint exec_all (evs : list event) (sy : system) : list (outcome unit) * system :=
  match evs with
  | [] => ([], sy)
  | ev :: evs =>
      let '(o, sy) := exec ev sy in let '(os, sy) := exec_all evs sy in (o :: os, sy)
  end.

Lemma exec_all_cons ev evs sy : snd (exec_all (ev :: evs) sy) = snd (exec_all evs (snd (exec ev sy))).
Proof. cbn [exec_all]. destruct (exec ev sy) as [o sy1]. cbn. by destruct (exec_all evs sy1). Qed.

(** ** What ends the process

    A task of one of the server's own ends turns to a message that makes it
    panic. *)
Definition fatal_turn (sy : system) (ev : event) : Prop :=
  match ev with
  | OutletTakes tunnel_id _ sessions => ∃ e m ms,
      w_outlets (sy_world sy) !! tunnel_id = Some e ∧ oe_input e = m :: ms ∧ outlet_fatal m sessions
  | InletTakes tunnel_id sessions => ∃ e m ms,
      w_inlets (sy_world sy) !! tunnel_id = Some e ∧ ie_input e = m :: ms ∧ inlet_fatal m sessions
  | _ => False
  end.

(** ** Its invariant *)

Context `{!TunnelDbOk} `{!UsersOk} `{!PagesAnswer} `{!DbAnswers} `{!ForwardAnswers} `{!ProstAnswers}
  `{!OutletAnswers}.
Context `{!JsonAnswers LoginReq} `{!JsonAnswers PlayerListRequest} `{!JsonAnswers PlayerRemoveReq}
  `{!JsonAnswers PlayerAddReq} `{!JsonAnswers PlayerUpdateReq} `{!JsonAnswers TunnelRemoveReq}
  `{!JsonAnswers TunnelAddReq} `{!JsonAnswers TunnelUpdateReq}.
Implicit Types (w : world) (sy : system).

Definition peer_in w (p : Peer) : Prop :=
  is_Some (pr_tx p) ∧ ∀ h, pr_player p = Some h → is_Some (w_players w !! h).
Definition system_ok sy : Prop :=
  server_ok (sy_world sy) ∧
  ∀ c p fw, sy_peers sy !! c = Some (p, fw) → peer_in (sy_world sy) p.

(** A call that does not panic, after which the system is consistent and has
    the same players. *)
Definition kept sy (o : outcome unit) sy' : Prop :=
  is_panic o = false ∧ system_ok sy' ∧ persist (sy_world sy) (sy_world sy').

Lemma kept_refl sy : system_ok sy → kept sy (Ok tt) sy.
Proof. by intros Hsy. Qed.

Lemma peer_in_persist w w' p : persist w w' → peer_in w p → peer_in w' p.
Proof.
  intros Hw [Htx Hh]. split; [done|]. intros h E. destruct (Hh h E) as [pl Hpl].
  destruct (Hw h pl Hpl) as (pl' & -> & _). by eexists.
Qed.

Lemma peer_in_ok w p fw : server_ok w → peer_in w p → peer_ok (PeerD p w fw).
Proof.
  intros Hw [Htx Hh]. split; [|done]. split; [|exact Hh]. intros id h E.
  destruct (so_map w Hw id h E) as (pl & Hpl & _). by exists pl.
Qed.

(** A call after which the others' peers are as before. *)
Lemma system_ok_put sy w c p fw :
  system_ok sy → world_kept (sy_world sy) w → peer_in w p →
  system_ok (System (Web w (wb_events (sy_web sy))) (<[c := (p, fw)]> (sy_peers sy))).
Proof.
  intros [_ Hp] [Hw Hk] Hin. split; [done|]. intros c' p' fw' E. cbn [sy_peers] in E.
  apply lookup_insert_Some in E as [[_ [= <- <-]]|[_ E]]; [done|].
  apply (peer_in_persist (sy_world sy)); [done|by eapply Hp].
Qed.

Lemma with_peer_ok {A} c (m : M peer_delegate A) sy :
  psteps m → safe peer_ok m → system_ok sy →
  after (with_peer c m) sy (kept sy).
Proof.
  intros Hs Hm Hsy. unfold after, with_peer.
  destruct (sy_peers sy !! c) as [[p fw]|] eqn:Hc; [|by apply kept_refl].
  assert (Hsy' := Hsy). destruct Hsy' as [Hw Hp].
  specialize (Hs (PeerD p (sy_world sy) fw) Hw).
  specialize (Hm (PeerD p (sy_world sy) fw) (peer_in_ok _ _ _ Hw (Hp _ _ _ Hc))). unfold after in Hm.
  destruct (m (PeerD p (sy_world sy) fw)) as [o d]. destruct Hm as [Ho [[_ Hd] Htx]].
  split; [by destruct o|]. split; [by apply system_ok_put|]. apply Hs.
Qed.

Definition event_ok (ev : event) : Prop :=
  match ev with
  | Requested r => request_ok r
  | OutletTakes _ meanwhile _ => calm meanwhile
  | _ => True
  end.

Lemma server_ok_grown e w :
  server_ok w → next_handle (w_env w) <= next_handle e → world_kept w (set_env e w).
Proof.
  intros [Hm Hp Hl Hf] Hn. split; [|by apply persist_same]. split; [done|done|done|].
  intros h Hh. change (h < next_handle e). specialize (Hf h Hh). lia.
Qed.

Lemma connected_ok c id addr sy :
  system_ok sy → after (exec (Connected c id addr)) sy (kept sy).
Proof.
  intros Hsy. unfold after, exec. destruct (sy_peers sy !! c) as [x|] eqn:Hc; [by apply kept_refl|].
  unfold new_writer, with_env. cbn [env_of world_has_env].
  set (e := bump _). unfold with_peer. cbn [sy_peers sy_web]. rewrite lookup_insert_eq. cbn.
  unfold peer_on_session_start, set_peer, modify, mbind, M_bind. cbn. rewrite insert_insert_eq.
  assert (world_kept (sy_world sy) (set_env e (sy_world sy))) as Hk.
  { apply server_ok_grown; [apply Hsy|]. cbn. lia. }
  split; [done|]. split; [|apply Hk].
  by apply (system_ok_put sy); [..|split; [by eexists|]].
Qed.

Lemma disconnected_ok c sy :
  system_ok sy → after (exec (Disconnected c)) sy (kept sy).
Proof.
  intros Hsy. unfold after, exec, with_peer.
  destruct (sy_peers sy !! c) as [[p fw]|] eqn:Hc.
  2: { destruct Hsy as [Hw Hp]. split; [done|]. split; [|done]. split; [done|]. intros c' p' fw' E. cbn [sy_peers] in E.
       apply lookup_delete_Some in E as [_ E]. by eapply Hp. }
  destruct Hsy as [Hw Hp]. set (d := PeerD p (sy_world sy) fw).
  pose proof (psteps_session_close d Hw) as Hs.
  destruct (close_run d (peer_in_ok _ _ _ Hw (Hp _ _ _ Hc))) as (pe & w & E & _).
  rewrite E in Hs |- *. cbn in Hs |- *. rewrite delete_insert_eq.
  destruct Hs as [Hw' Hk]. split; [done|]. split; [|exact Hk]. split; [done|]. intros c' p' fw' E'. cbn [sy_peers] in E'.
  apply lookup_delete_Some in E' as [_ E']. eapply peer_in_persist; [exact Hk|by eapply Hp].
Qed.

Lemma requested_ok r sy :
  binds_answer → request_ok r → system_ok sy →
  after (exec (Requested r)) sy (kept sy).
Proof.
  intros Hb Hr [Hw Hp]. unfold after, exec. pose proof (sound_run r Hb Hr (sy_web sy) Hw) as Hs.
  unfold after in Hs. destruct (run_http_server r (sy_web sy)) as [o s]. destruct Hs as (Ho & Hw' & Hk).
  split; [by destruct o|]. split; [|exact Hk]. split; [done|]. intros c p fw E. cbn in E.
  eapply peer_in_persist; [exact Hk|by eapply Hp].
Qed.

Lemma by_server_ok m sy :
  steps m → (∀ K, wsafe K m) → system_ok sy → after (by_server m) sy (kept sy).
Proof.
  intros Hs Hm [Hw Hp]. specialize (Hs _ Hw).
  assert (world_ok (λ _, False) (sy_world sy)) as Hmap.
  { split; [|done]. intros id h E. destruct (so_map _ Hw id h E) as (pl & Hpl & _). by exists pl. }
  specialize (Hm _ _ Hmap). unfold after, by_server in *. destruct (m (sy_world sy)) as [o w].
  destruct Hm as [Ho _]. destruct Hs as [Hw' Hk]. split; [done|]. split; [|exact Hk].
  split; [done|]. intros c p fw E. eapply peer_in_persist; [exact Hk|by eapply Hp].
Qed.

Lemma wsafe_outlet_output r m K : wsafe K (server_outlet_output r m).
Proof.
  unfold server_outlet_output. destruct (rt_this_machine r);
    [by apply safe_modify|apply wsafe_send_proxy_message].
Qed.
Lemma wsafe_inlet_output r m K : wsafe K (server_inlet_output r m).
Proof.
  unfold server_inlet_output. destruct (rt_this_machine r);
    [by apply safe_modify|apply wsafe_send_proxy_message].
Qed.

Lemma psteps_returned data : psteps (returned data).
Proof.
  apply psteps_bind; [by apply psteps_const|]. intros p. destruct (pr_tx p) as [tx|];
    [|by apply psteps_const]. unfold forward_back. case_decide; apply psteps_ignore, psteps_writer.
Qed.
Lemma psafe_returned data : safe peer_ok (returned data).
Proof.
  apply safe_bind; [by apply safe_const|]. intros p. destruct (pr_tx p) as [tx|];
    [|by apply safe_const]. unfold forward_back. case_decide; apply safe_ignore, psafe_writer.
Qed.

Lemma is_panic_ignore {S A} (m : M S A) s : is_panic (fst (ignore m s)) = is_panic (fst (m s)).
Proof. unfold ignore. by destruct (m s) as [[] ?]. Qed.

(** A call of the ends' table: only its outcome can differ. *)
Lemma by_server_takes (m : M world unit) sy :
  steps m → system_ok sy →
  after (by_server m) sy (λ o sy', o = fst (m (sy_world sy)) ∧ system_ok sy' ∧
    persist (sy_world sy) (sy_world sy')).
Proof.
  intros Hs [Hw Hp]. specialize (Hs _ Hw). unfold after, by_server.
  destruct (m (sy_world sy)) as [o w]. destruct Hs as [Hw' Hk]. split; [done|]. split; [|exact Hk].
  split; [done|]. intros c p fw E. eapply peer_in_persist; [exact Hk|by eapply Hp].
Qed.

Lemma steps_outlet_takes tid mw ow : steps (outlet_takes tid mw ow).
Proof.
  intros w Hw. unfold outlet_takes. destruct (w_outlets w !! tid) as [e|]; [|by apply world_kept_refl].
  destruct (oe_input e) as [|m ms]; [by apply world_kept_refl|].
  by apply (steps_ends (set_server_outlets <[tid := outlet_left ms e]>)).
Qed.
Lemma steps_inlet_takes tid iw : steps (inlet_takes tid iw).
Proof.
  intros w Hw. unfold inlet_takes. destruct (w_inlets w !! tid) as [e|]; [|by apply world_kept_refl].
  destruct (ie_input e) as [|m ms]; [by apply world_kept_refl|].
  by apply (steps_ends (set_server_inlets <[tid := inlet_left ms e]>)).
Qed.

Lemma outlet_takes_panics tid mw ow sy :
  calm mw → is_panic (fst (outlet_takes tid mw ow (sy_world sy))) = true ↔
  fatal_turn sy (OutletTakes tid mw ow).
Proof.
  intros Hmw. unfold outlet_takes. cbn [fatal_turn].
  destruct (w_outlets (sy_world sy) !! tid) as [e|]; [|split; [done|by intros (? & ? & ? & ? & _)]].
  destruct (oe_input e) as [|m ms] eqn:Em.
  { split; [done|]. intros (e' & m & ms & [= <-] & E & _). congruence. }
  cbn [fst]. rewrite is_panic_ignore, outlet_panic_iff by done. split; [by intros ?; exists e, m, ms|].
  intros (e2 & m2 & ms2 & [= <-] & E & Hf). rewrite Em in E. by injection E as <- <-.
Qed.
Lemma inlet_takes_panics tid iw sy :
  is_panic (fst (inlet_takes tid iw (sy_world sy))) = true ↔ fatal_turn sy (InletTakes tid iw).
Proof.
  unfold inlet_takes. cbn [fatal_turn].
  destruct (w_inlets (sy_world sy) !! tid) as [e|]; [|split; [done|by intros (? & ? & ? & ? & _)]].
  destruct (ie_input e) as [|m ms] eqn:Em.
  { split; [done|]. intros (e' & m & ms & [= <-] & E & _). congruence. }
  cbn [fst]. rewrite is_panic_ignore, inlet_panic_iff. split; [by intros ?; exists e, m, ms|].
  intros (e2 & m2 & ms2 & [= <-] & E & Hf). rewrite Em in E. by injection E as <- <-.
Qed.

(** What every event does to a consistent system. *)
Definition goes_on sy ev (o : outcome unit) sy' : Prop :=
  (is_panic o = true ↔ fatal_turn sy ev) ∧ system_ok sy' ∧ persist (sy_world sy) (sy_world sy').

Lemma kept_goes_on ev sy :
  (∀ sy, ¬ fatal_turn sy ev) → after (exec ev) sy (kept sy) → after (exec ev) sy (goes_on sy ev).
Proof.
  intros Hn. unfold after. destruct (exec ev sy) as [o sy']. intros (Ho & Hk). split; [|done].
  split; [congruence|]. by intros Hf%Hn.
Qed.

Lemma exec_ok ev sy :
  binds_answer → event_ok ev → system_ok sy → after (exec ev) sy (goes_on sy ev).
Proof.
  intros Hb He Hsy.
  destruct ev as [c id addr|c buffer|c frame|c data|c|r|tid m|tid m|tid mw ow|tid iw];
    try (apply kept_goes_on; [by intros ? []|]).
  - by apply connected_ok.
  - apply with_peer_ok; [apply psteps_extract|apply psafe_extract|done].
  - apply with_peer_ok; [apply psteps_frame|apply psafe_frame|done].
  - apply with_peer_ok; [apply psteps_returned|apply psafe_returned|done].
  - by apply disconnected_ok.
  - by apply requested_ok.
  - unfold after, exec. destruct (w_outlets (sy_world sy) !! tid) as [e|]; [|by apply kept_refl].
    apply by_server_ok; [apply steps_outlet_output|apply wsafe_outlet_output|done].
  - unfold after, exec. destruct (w_inlets (sy_world sy) !! tid) as [e|]; [|by apply kept_refl].
    apply by_server_ok; [apply steps_inlet_output|apply wsafe_inlet_output|done].
  - pose proof (by_server_takes _ sy (steps_outlet_takes tid mw ow) Hsy) as Ht. unfold after, exec in *.
    destruct (by_server _ sy) as [o sy']. destruct Ht as (-> & Hk). split; [|done].
    by apply outlet_takes_panics.
  - pose proof (by_server_takes _ sy (steps_inlet_takes tid iw) Hsy) as Ht. unfold after, exec in *.
    destruct (by_server _ sy) as [o sy']. destruct Ht as (-> & Hk). split; [|done].
    apply inlet_takes_panics.
Qed.
End System.

(** ** Properties *)

Section SystemProperties.
Context `{Prost} `{Json} `{Unicode} `{InletOs} `{UserDb} `{!TunnelDb} `{!UserAdmin} `{!UserPages}
  `{!MappingJson} `{Rng} `{!PeerOs} `{Md5} `{WebConfig}
  `{Lz4} `{SimplestCrypt} `{Base64} `{OutletOs}.
Context `{!FromJson LoginReq} `{!FromJson PlayerListRequest} `{!FromJson PlayerRemoveReq}
  `{!FromJson PlayerAddReq} `{!FromJson PlayerUpdateReq} `{!FromJson TunnelRemoveReq}
  `{!FromJson TunnelAddReq} `{!FromJson TunnelUpdateReq}.
Context `{!TunnelDbOk} `{!UsersOk} `{!PagesAnswer} `{!DbAnswers} `{!ForwardAnswers} `{!ProstAnswers}
  `{!OutletAnswers}.
Context `{!JsonAnswers LoginReq} `{!JsonAnswers PlayerListRequest} `{!JsonAnswers PlayerRemoveReq}
  `{!JsonAnswers PlayerAddReq} `{!JsonAnswers PlayerUpdateReq} `{!JsonAnswers TunnelRemoveReq}
  `{!JsonAnswers TunnelAddReq} `{!JsonAnswers TunnelUpdateReq}.

(** C6: What can make the server panic, exactly. However many connections there
    are, whatever bytes they send and whenever they end, whatever the interface
    is asked, whatever the server's own ends of tunnels pass on and whatever
    sessions they have when they turn to their input, in whatever order the
    calls follow each other: a call panics exactly when it is the turn of the
    input task of an own end to a message that is fatal to it (for an inlet a
    datagram for a session of a plain tunnel, for either end data whose decoding
    panics), and no other call does; in a release build the process ends there.
    (The tasks of the ends' own sessions are not among the events:
    [verification_panics].) The managers stay consistent throughout,
    with tunnels that have ids of their own, every peer and every entry of the
    map leading to a player that is there, and players that keep their ids. *)
Theorem server_panics_exactly evs sy :
  binds_answer → system_ok sy → Forall event_ok evs →
  let '(os, sy') := exec_all evs sy in
  (∀ i ev, evs !! i = Some ev → ∃ o, os !! i = Some o ∧
     (is_panic o = true ↔ fatal_turn (snd (exec_all (take i evs) sy)) ev)) ∧
  system_ok sy' ∧ persist (sy_world sy) (sy_world sy').
Proof.
  intros Hb. revert sy. induction evs as [|ev evs IH]; intros sy Hsy Hevs; [done|].
  apply Forall_cons in Hevs as [Hev Hevs]. cbn [exec_all].
  pose proof (exec_ok ev sy Hb Hev Hsy) as He. unfold after in He.
  destruct (exec ev sy) as [o sy1] eqn:E. destruct He as (Ho & Hsy1 & Hp).
  specialize (IH sy1 Hsy1 Hevs). destruct (exec_all evs sy1) as [os sy2].
  destruct IH as (Hos & Hsy2 & Hp2). split; [|split; [done|by etrans]].
  intros [|i] ev' Hi; cbn [lookup list_lookup take] in *; [by simplify_eq; exists o|].
  rewrite exec_all_cons, E. by apply Hos.
Qed.
End SystemProperties.

(** ** A concrete instance, for the witness *)

Section SystemWitness.
Import PlayersConcrete WebConcrete.
#[local] Existing Instances ProstConcrete.prost TunnelsConcrete.unicode TunnelsConcrete.os
  Concrete.rand PlayersConcrete.users rows admin rows_ok users_ok config md5 WebConcrete.json
  mapping_json pages login_json list_json remove_json add_json update_json tunnel_remove_json
  tunnel_add_json tunnel_update_json pages_answer PeerConcrete.os PeerConcrete.forward_answers
  PeerConcrete.prost_answers Concrete.lz4 Concrete.simplestcrypt Concrete.base64 OutletConcrete.os
  OutletConcrete.os_answers.
#[local] Instance sys_answers_login : JsonAnswers LoginReq := body_answers _ _.
#[local] Instance sys_answers_list : JsonAnswers PlayerListRequest := body_answers _ _.
#[local] Instance sys_answers_remove : JsonAnswers PlayerRemoveReq := body_answers _ _.
#[local] Instance sys_answers_add : JsonAnswers PlayerAddReq := body_answers _ _.
#[local] Instance sys_answers_update : JsonAnswers PlayerUpdateReq := body_answers _ _.
#[local] Instance sys_answers_tunnel_remove : JsonAnswers TunnelRemoveReq := body_answers _ _.
#[local] Instance sys_answers_tunnel_add : JsonAnswers TunnelAddReq := body_answers _ _.
#[local] Instance sys_answers_tunnel_update : JsonAnswers TunnelUpdateReq := body_answers _ _.
#[local] Instance sys_db_answers : DbAnswers.
Proof. by split. Defined.

(** A stranger connects and sends garbage and a short frame, the administrator
    logs in and removes a player, the ends turn to their inputs, the stranger
    leaves. *)
Definition a_day : list event :=
  [Connected 1 100 (V4 (Ipv4 127 0 0 1) 5000); Offered 1 [1; 2; 3]; Framed 1 [4; 5];
   Requested login; Requested (post "/api/remove_player" session "7");
   InletTakes 5 InletConcrete.world; OutletTakes 6 (mret tt) OutletConcrete.world; Disconnected 1].

Lemma server_panics_exactly_witness :
  let '(os, sy') := exec_all a_day (System WebConcrete.start ∅) in
  (∀ i ev, a_day !! i = Some ev → ∃ o, os !! i = Some o ∧
     (is_panic o = true ↔ fatal_turn (snd (exec_all (take i a_day) (System WebConcrete.start ∅))) ev)) ∧
  system_ok sy' ∧ persist (sy_world (System WebConcrete.start ∅)) (sy_world sy').
Proof.
  apply (server_panics_exactly a_day (System WebConcrete.start ∅)).
  - exact TunnelsConcrete.os_binds.
  - split; [exact players_start_ok|]. by intros c p fw [=].
  - by repeat constructor.
Defined.
End SystemWitness.
