(* ===== verification/Stranger.v ===== *)
(** What a connection that never logged in can do to the inlets the server runs
    itself: [peer/handle_push.rs] hands its messages over without looking at who
    sends them, and the inlet's input task ([proxy/inlet.rs]) panics on some. *)

From stdpp Require Import gmap.
From S2P Require Import Prelude Std Extern Net Proxy Common Inlet Outlet Messages Bridge Framing Ends Str Server.
From S2P Require Import Tunnels Players Web Start Peer System.

Section Stranger.
Context `{Prost} `{Json} `{Unicode} `{InletOs} `{UserDb} `{!TunnelDb} `{!UserAdmin} `{!UserPages}
  `{!MappingJson} `{Rng} `{!PeerOs} `{Md5} `{WebConfig}
  `{Lz4} `{SimplestCrypt} `{Base64} `{OutletOs}.
Context `{!FromJson LoginReq} `{!FromJson PlayerListRequest} `{!FromJson PlayerRemoveReq}
  `{!FromJson PlayerAddReq} `{!FromJson PlayerUpdateReq} `{!FromJson TunnelRemoveReq}
  `{!FromJson TunnelAddReq} `{!FromJson TunnelUpdateReq}.
Implicit Types (w : world) (sy : system).


End Stranger.

(** ** Properties *)

Section StrangerProperties.
Context `{Prost} `{Json} `{Unicode} `{InletOs} `{UserDb} `{!TunnelDb} `{!UserAdmin} `{!UserPages}
  `{!MappingJson} `{Rng} `{!PeerOs} `{Md5} `{WebConfig}
  `{Lz4} `{SimplestCrypt} `{Base64} `{OutletOs}.
Context `{!FromJson LoginReq} `{!FromJson PlayerListRequest} `{!FromJson PlayerRemoveReq}
  `{!FromJson PlayerAddReq} `{!FromJson PlayerUpdateReq} `{!FromJson TunnelRemoveReq}
  `{!FromJson TunnelAddReq} `{!FromJson TunnelUpdateReq}.

End StrangerProperties.

(** ** A concrete instance, for the witness *)

Module StrangerConcrete.
End StrangerConcrete.

Section StrangerWitness.
Import PlayersConcrete WebConcrete StrangerConcrete.
#[local] Existing Instances ProstConcrete.prost TunnelsConcrete.unicode TunnelsConcrete.os
  Concrete.rand PlayersConcrete.users rows admin config md5 WebConcrete.json
  mapping_json pages login_json list_json remove_json add_json update_json tunnel_remove_json
  tunnel_add_json tunnel_update_json PeerConcrete.os Concrete.lz4 Concrete.simplestcrypt
  Concrete.base64 OutletConcrete.os.


End StrangerWitness.
