(* ===== verification/Streams.v ===== *)
(** Streams of frames: what a read loop makes of the frames of a stream that
    arrives in any pieces, and what a write loop puts on one. The two ends of a
    connection are composed through these lemmas. *)

From S2P Require Import Prelude Net Framing.

(** ** The stream a writer feeds

    [np_client]'s writer is the stream itself, without a buffer: [wire w] is
    what it has accepted, in order, which is what the other side of the
    connection reads, in pieces of any size. *)

Class Wire `{AsyncWrite} := {
  wire : writer → bytes;
  wire_write d w : ∃ w', write_all d w = (Ok tt, w') ∧ wire w' = wire w ++ d
}.

(** The pieces [cs] a stream [s] may be read in. *)
Definition pieces (cs : list bytes) (s : bytes) : Prop := Forall (λ c, c ≠ []) cs ∧ mjoin cs = s.

Section WriteSide.
Context `{BufWriter} {Cb : Type}.

(** The write loop on a queue of buffers to send, each with a flush: they reach
    the stream behind the buffered writer, and nothing waits in it. *)
Lemma poll_write_sends (ds : list bytes) (w : writer) (log : list (write_event Cb)) :
  writer_accepts → buffered w = [] →
  ∃ w' log', poll_write ((λ d, Send d true) <$> ds) (Pw w log) = (Ok (Continue, []), Pw w' log') ∧
    delivered w' = delivered w ++ mjoin ds ∧ buffered w' = [].
Proof.
  intros Ha. destruct (accepts_runs Ha) as [Hwr Hfl].
  revert w log. induction ds as [|d ds IH]; intros w log Hb.
  { exists w, log. split; [done|]. cbn. by rewrite app_nil_r. }
  cbn [fmap list_fmap poll_write write_step]. destruct (decide (d = [])) as [->|Hd].
  { destruct (IH w log Hb) as (w' & log' & E & Hw). exists w', log'. by split. }
  destruct (Hwr d w) as (w1 & E1). destruct (Hfl w1) as (w2 & E2).
  destruct (write_all_takes d w) as (_ & d' & _ & Hd' & T1).
  destruct (flush_delivers w1) as (_ & T2 & Hb2). rewrite E1 in Hd', T1. rewrite E2 in T2, Hb2.
  cbn [fst snd] in *. specialize (Hb2 eq_refl). rewrite (Hd' eq_refl), Hb in T1.
  rewrite Hb2, app_nil_r, T1 in T2.
  destruct (IH w2 ((log ++ [Wrote d]) ++ [Flushed]) Hb2) as (w' & log' & E & Hw & Hb').
  exists w', log'. split; [|split; [|done]].
  - rewrite <- E. unfold mbind at 1, M_bind at 1. unfold write_or_break, do_write. cbn [pw_writer].
    rewrite E1. unfold when, mbind, M_bind, ignore, do_flush. cbn [pw_writer pw_log]. by rewrite E2.
  - by rewrite Hw, T2, <- app_assoc.
Qed.
End WriteSide.

(** ** Reading a stream of frames

    [enc f] is what [f : F] is on the stream and [body f] the frame taken off
    it; [step f] is what receiving it does. [I fs d] says that the state [d] is
    ready for the frames [fs]. *)

Section ReadSide.
Context {D F : Type} (extract : bytes → M D (option bytes * bytes)) (recv : bytes → M D unit).
Context (I : list F → D → Prop) (P : F → Prop) (enc body : F → bytes) (step : F → D → D).

Class Framed : Prop := {
  framed_some f : P f → enc f ≠ [];
  framed_whole f fs more d : P f → I (f :: fs) d → extract (enc f ++ more) d = (Ok (Some (body f), more), d);
  framed_part f fs b more d : P f → I (f :: fs) d → b ≠ [] → more ≠ [] → b ++ more = enc f →
    extract b d = (Ok (None, b), d);
  framed_recv f fs d : P f → I (f :: fs) d → recv (body f) d = (Ok tt, step f d) ∧ I fs (step f d)
}.

Context `{!Framed}.

Abbreviation encs fs := (mjoin (M := list) (enc <$> fs)).
Abbreviation steps := (fold_left (λ d f, step f d)).

(** [r] begins the stream of [fs] and holds no whole frame. *)
Definition begins (r : bytes) (fs : list F) : Prop :=
  r = [] ∨ ∃ f fs' more, fs = f :: fs' ∧ more ≠ [] ∧ r ++ more = enc f.

Lemma steps_keep fs fs' d : Forall P fs → I (fs ++ fs') d → I fs' (steps fs d).
Proof using All.
  intros Hfs. revert d. induction Hfs as [|f fs Hf Hfs IH]; intros d Hd; [done|]. cbn.
  apply IH. by apply (framed_recv f (fs ++ fs') d Hf Hd).
Qed.

Lemma encs_cons f fs : encs (f :: fs) = enc f ++ encs fs.
Proof. done. Qed.

(** Any beginning of the stream is whole frames and the beginning of one. *)
Lemma stream_split fs b rest :
  Forall P fs → b ++ rest = encs fs →
  ∃ fs1 fs2 r, fs = fs1 ++ fs2 ∧ b = encs fs1 ++ r ∧ begins r fs2 ∧ r ++ rest = encs fs2.
Proof using All.
  intros Hfs. revert b. induction Hfs as [|f fs Hf Hfs IH]; intros b Hb.
  { exists [], [], []. apply app_eq_nil in Hb as [-> ->]. repeat split. by left. }
  destruct (decide (length (enc f) <= length b)%nat) as [Hle|Hlt].
  - rewrite encs_cons in Hb.
    assert (b = enc f ++ drop (length (enc f)) b) as E.
    { apply (f_equal (take (length (enc f)))) in Hb. rewrite take_app_le, take_app_length in Hb by done.
      rewrite <- Hb at 1. by rewrite take_drop. }
    rewrite E, <- app_assoc in Hb. apply app_inv_head in Hb.
    destruct (IH _ Hb) as (fs1 & fs2 & r & -> & Eb & Hr & Hrest).
    exists (f :: fs1), fs2, r. split; [done|]. split; [|done]. rewrite E, Eb, encs_cons. by rewrite app_assoc.
  - exists [], (f :: fs), b. split; [done|]. split; [done|]. split; [|done]. right.
    exists f, fs, (drop (length b) (enc f)). split; [done|]. split.
    + intros Hn. apply (f_equal length) in Hn. rewrite length_drop in Hn. cbn in Hn. lia.
    + rewrite encs_cons in Hb. apply (f_equal (take (length (enc f)))) in Hb.
      rewrite take_app_length, take_app_ge in Hb by lia. rewrite <- Hb. rewrite drop_app_ge by lia.
      by rewrite Nat.sub_diag.
Qed.

Lemma unpack_frames fs r fs' d fuel :
  Forall P (fs ++ fs') → I (fs ++ fs') d → begins r fs' → (length (encs fs ++ r) < fuel)%nat →
  unpack extract recv fuel (encs fs ++ r) d = (Ok (Some r), steps fs d).
Proof using All.
  intros Hfs. apply Forall_app in Hfs as [Hfs Hfs']. revert d fuel.
  induction Hfs as [|f fs Hf Hfs IH]; intros d [|fuel] Hd Hr Hl; try lia.
  - cbn [fmap list_fmap mjoin list_join app fold_left unpack]. case_decide as E; [by subst|].
    destruct Hr as [?|(f & fs'' & more & -> & Hm & Er)]; [done|]. apply Forall_cons in Hfs' as [Hf _].
    by rewrite (bind_ok _ _ _ _ _ (framed_part f fs'' r more d Hf Hd E Hm Er)).
  - rewrite encs_cons, <- app_assoc in *. cbn [unpack]. pose proof (framed_some f Hf) as Hne.
    case_decide as E; [by apply app_eq_nil in E as [? _]|].
    rewrite (bind_ok _ _ _ _ _ (framed_whole f (fs ++ fs') (encs fs ++ r) d Hf Hd)).
    destruct (framed_recv f (fs ++ fs') d Hf Hd) as [Er Hd']. rewrite (bind_ok _ _ _ _ _ Er). cbn [fold_left].
    apply IH; [done|done|]. rewrite length_app in Hl.
    destruct (enc f); [done|]. cbn in Hl. lia.
Qed.

Lemma poll_read_frames closed cs buffer fs d :
  Forall (λ c, c ≠ []) cs → Forall P fs → I fs d → begins buffer fs → buffer ++ mjoin cs = encs fs →
  poll_read extract recv closed (Bytes <$> cs) buffer d = (Ok [], steps fs d).
Proof using All.
  intros Hcs. revert buffer fs d. induction Hcs as [|c cs Hc Hcs IH]; intros buffer fs d Hfs Hd Hb E.
  - cbn in E. rewrite app_nil_r in E. cbn. destruct Hb as [->|(f & fs' & more & -> & Hm & Ef)].
    + destruct fs as [|f fs]; [done|]. apply Forall_cons in Hfs as [Hf _].
      rewrite encs_cons in E. symmetry in E. apply app_eq_nil in E as [E _]. by apply framed_some in Hf.
    + exfalso. rewrite encs_cons, <- Ef, <- app_assoc in E. apply (f_equal length) in E.
      rewrite !length_app in E. destruct more; [done|]. cbn in E. lia.
  - destruct c as [|x c]; [done|]. cbn [fmap list_fmap poll_read].
    change (mjoin ((x :: c) :: cs)) with ((x :: c) ++ mjoin (M := list) cs) in E. rewrite app_assoc in E.
    destruct (stream_split fs (buffer ++ x :: c) (mjoin cs) Hfs E) as (fs1 & fs2 & r & -> & Er & Hr & E').
    rewrite Er at 2. rewrite (bind_ok _ _ _ _ _ (unpack_frames fs1 r fs2 d _ Hfs Hd Hr ltac:(rewrite <- Er; apply Nat.lt_succ_diag_r))).
    rewrite fold_left_app. pose proof Hfs as [Hfs1 Hfs2]%Forall_app.
    apply IH; [done| |done|done]. by apply steps_keep.
Qed.

(** All of a stream, from an empty buffer. *)
Lemma poll_read_stream closed cs fs d :
  Forall P fs → I fs d → pieces cs (encs fs) →
  poll_read extract recv closed (Bytes <$> cs) [] d = (Ok [], steps fs d).
Proof using All.
  intros Hfs Hd [Hcs E]. apply poll_read_frames; [done..|by left|done].
Qed.
End ReadSide.

(** *** The frames of the protocol *)

Lemma frame_of_nonempty b : frame_of b ≠ [].
Proof. done. Qed.

(** A nonempty beginning of a frame starts with the flag. *)
Lemma frame_part_flag body b more :
  b ≠ [] → b ++ more = frame_of body → ∃ rest, b = FLAG :: rest.
Proof. destruct b as [|x b]; [done|]. intros _ [= -> _]. by exists b. Qed.
