(* ===== verification/Relay.v ===== *)
(** The server between two clients: a client's messages cross the connection to
    the server, the server's relaying and the connection to the other client.
    The stages are those of [np_client/src/client.rs] (sending, [run]) and
    [np_server/src/peer] (the peer's delegate and its write loop). *)

From S2P Require Import Prelude Std Extern Net Proxy Inlet Messages Bridge Framing Ends Client.
From S2P Require Import Str Server Tunnels Players Peer Streams.

(** ** What travels *)

Section Bodies.
Context `{Prost}.

(** The frame's body of a message with its serial number. *)
Definition message_body (serial : i32) (m : MessageType) : bytes :=
  match encode_message m with Some (id, bs) => body_of serial id bs | None => [] end.

Lemma body_of_len serial id bs : len (body_of serial id bs) = 8 + len bs.
Proof. unfold body_of. rewrite !len_app. unfold len at 1 2. cbn. lia. Qed.

Lemma message_body_some serial m :
  message_is_none m = false → ∃ id bs, encode_message m = Some (id, bs) ∧
    message_body serial m = body_of serial id bs ∧ in_u32 id ∧ 8 <= len (message_body serial m).
Proof.
  intros Hm. destruct (encode_message_total m) as [[id bs] E]; [by intros ->|].
  exists id, bs. unfold message_body. rewrite E, body_of_len. pose proof (len_nonneg bs).
  destruct (encode_message_parts m id bs E) as [Hid _].
  repeat split; try done; first [by apply (get_message_id_range m)|lia].
Qed.

Lemma package_body serial m :
  message_is_none m = false → in_u32 (len (message_body serial m)) →
  package_message serial m = Some (frame_of (message_body serial m)).
Proof.
  intros Hm Hl. destruct (message_body_some serial m Hm) as (id & bs & E & Eb & _).
  rewrite Eb in *. rewrite body_of_len in Hl. by apply package_frame.
Qed.

(** Taking a message off a frame gives the message. *)
Lemma parse_message_body serial m :
  message_is_none m = false → message_ok m → in_i32 serial →
  ∃ id bs, parse_frame (message_body serial m) = Ok (serial, id, bs) ∧ decode_message id bs = Ok m ∧
    (len (message_body serial m) <? 8) = false.
Proof.
  intros Hm Hok Hs. destruct (message_body_some serial m Hm) as (id & bs & E & Eb & Hid & Hl).
  exists id, bs. split; [rewrite Eb; by apply parse_body|]. split; [by apply decode_encoded|].
  by apply Z.ltb_ge.
Qed.

(** A tunnel message's frame. *)
Definition tunnel_body (tid : u32) (m : ProxyMessage) : bytes :=
  message_body 0 (proxy_message_2_pb m tid).
End Bodies.

(** ** The read loops on a stream of frames *)

Section Loops.
Context `{Prost} {F : Type}.

Lemma peer_framed `{UserDb} `{Json} `{Rng} `{!PeerOs} (I : list F → peer_delegate → Prop) (P : F → Prop) body step :
  (∀ fs d, I fs d → traffic_forward_writer (pe_self d) = None) →
  (∀ f, P f → 0 < len (body f) < SERVER_MAX) →
  (∀ f fs d, P f → I (f :: fs) d → peer_on_recv_frame (body f) d = (Ok tt, step f d) ∧ I fs (step f d)) →
  Framed peer_try_extract_frame peer_on_recv_frame I P (λ f, frame_of (body f)) body step.
Proof.
  intros HI HP Hr.
  assert (∀ rest fs d, I fs d → peer_try_extract_frame (FLAG :: rest) d =
            match take_frame SERVER_MAX (FLAG :: rest) with
            | Err e => (send_http_404_response;; bail e) d | o => (o, d) end) as Hx.
  { intros rest fs d Hd. pose proof (HI fs d Hd) as Hf. unfold peer_try_extract_frame.
    assert (check_flag (FLAG :: rest) d = (Ok tt, d)) as Hc.
    { unfold check_flag. rewrite gets_bind, Hf. by destruct (_ && _). }
    rewrite (bind_ok _ _ _ _ _ Hc), gets_bind, Hf. by destruct (take_frame _ _). }
  split; [intros f _; apply frame_of_nonempty| | |exact Hr].
  - intros f fs more d Hf Hd.
    change (frame_of (body f) ++ more) with (FLAG :: (be32 (as_u32 (len (body f))) ++ body f) ++ more).
    rewrite (Hx _ (f :: fs)) by done.
    change (FLAG :: (be32 (as_u32 (len (body f))) ++ body f) ++ more) with (frame_of (body f) ++ more).
    by rewrite take_frame_whole by (unfold SERVER_MAX; auto; lia).
  - intros f fs b more d Hf Hd Hb Hm E. destruct (frame_part_flag _ _ _ Hb E) as [rest ->].
    rewrite (Hx _ (f :: fs)) by done. by rewrite (take_frame_part SERVER_MAX (body f) _ more) by (unfold SERVER_MAX; auto; lia).
Qed.

Lemma client_framed `{AsyncWrite} `{InletOs} `{HashMapOrder} (I : list F → client → Prop) (P : F → Prop) body step :
  (∀ f, P f → 0 < len (body f) < CLIENT_MAX) →
  (∀ f fs c, P f → I (f :: fs) c → Client.on_recv_frame (body f) c = (Ok tt, step f c) ∧ I fs (step f c)) →
  Framed (λ b, lift (try_extract_frame b)) Client.on_recv_frame I P (λ f, frame_of (body f)) body step.
Proof.
  intros HP Hr. split; [intros f _; apply frame_of_nonempty| | |exact Hr].
  - intros f fs more d Hf Hd.
    change (frame_of (body f) ++ more) with (FLAG :: (be32 (as_u32 (len (body f))) ++ body f) ++ more).
    unfold lift. rewrite try_extract_flag.
    change (FLAG :: (be32 (as_u32 (len (body f))) ++ body f) ++ more) with (frame_of (body f) ++ more).
    by rewrite take_frame_whole by (unfold CLIENT_MAX; auto; lia).
  - intros f fs b more d Hf Hd Hb Hm E. destruct (frame_part_flag _ _ _ Hb E) as [rest ->].
    unfold lift. rewrite try_extract_flag.
    by rewrite (take_frame_part CLIENT_MAX (body f) _ more) by (unfold CLIENT_MAX; auto; lia).
Qed.

(** [Client::run] on all of a stream. *)
Lemma run_stream `{AsyncWrite} `{InletOs} `{HashMapOrder} (I : list F → client → Prop) (P : F → Prop) body step cs fs c :
  (∀ f, P f → 0 < len (body f) < CLIENT_MAX) →
  (∀ f fs c, P f → I (f :: fs) c → Client.on_recv_frame (body f) c = (Ok tt, step f c) ∧ I fs (step f c)) →
  Forall P fs → I fs c → pieces cs (mjoin ((λ f, frame_of (body f)) <$> fs)) →
  run (Bytes <$> cs) c = (Ok tt, fold_left (λ c f, step f c) fs c) ∧ I [] (fold_left (λ c f, step f c) fs c).
Proof.
  intros HP Hr Hfs Hc Hcs. unfold run.
  pose proof (client_framed I P body step HP Hr) as Hf. split.
  2:{ apply (steps_keep _ _ I P _ body step); [done|by rewrite app_nil_r]. }
  rewrite (bind_ok _ _ _ [] (fold_left (λ c f, step f c) fs c)); [done|].
  by apply (poll_read_stream _ _ I P (λ f, frame_of (body f)) body step).
Qed.
End Loops.

(** ** The stages of a tunnel message *)

Section Stages.
Context `{Prost} `{UserDb} `{Json} `{Rng} `{!PeerOs} `{AsyncWrite} `{InletOs} `{HashMapOrder}.
Implicit Types (w : world) (c : client) (sent : list (route * ProxyMessage)).

(** What a client's end puts out, an inlet its [I2o] messages, an outlet its
    [O2i] messages. *)
Definition end_output (rm : route * ProxyMessage) : M client unit :=
  let '(r, m) := rm in if is_i2o_message m then inlet_output r m else outlet_output r m.

(** What one inlet or one outlet has sent to its channel. *)
Lemma inlet_outputs r ms c :
  Forall (λ m, is_i2o_message m = true) ms →
  async_receive_output (inlet_output r) ms c = for_each end_output ((λ m, (r, m)) <$> ms) c.
Proof.
  intros Hms. revert c. induction Hms as [|m ms Hm Hms IH]; intros c; [done|].
  unfold async_receive_output in *. cbn [for_each fmap list_fmap end_output]. rewrite Hm.
  unfold mbind, M_bind. by destruct (inlet_output r m c) as [[] c'].
Qed.
Lemma outlet_outputs r ms c :
  Forall (λ m, is_i2o_message m = false) ms →
  async_receive_output (outlet_output r) ms c = for_each end_output ((λ m, (r, m)) <$> ms) c.
Proof.
  intros Hms. revert c. induction Hms as [|m ms Hm Hms IH]; intros c; [done|].
  unfold async_receive_output in *. cbn [for_each fmap list_fmap end_output]. rewrite Hm.
  unfold mbind, M_bind. by destruct (outlet_output r m c) as [[] c'].
Qed.

Definition sent_body (rm : route * ProxyMessage) : bytes := tunnel_body (rt_tunnel_id rm.1) rm.2.
Abbreviation frames sent := ((λ rm, frame_of (sent_body rm)) <$> sent).

(** The end is another machine's, as its route says. *)
Definition leaves (rm : route * ProxyMessage) : Prop :=
  rt_this_machine rm.1 = false ∧ rt_self_player_id rm.1 ≠ rt_player_id rm.1.

Lemma end_output_sends `{!Wire} rm c :
  leaves rm → in_u32 (len (sent_body rm)) →
  ∃ wr, end_output rm c = (Ok tt, set_writer wr c) ∧
    wire wr = wire (c_writer c) ++ frame_of (sent_body rm).
Proof.
  destruct rm as [r m]. intros [Hr Hp] Hl. cbn in Hr, Hp. unfold sent_body, tunnel_body in *. cbn [fst snd] in *.
  destruct (wire_write (frame_of (message_body 0 (proxy_message_2_pb m (rt_tunnel_id r)))) (c_writer c))
    as (wr & E & Hw).
  exists wr. split; [|done]. unfold end_output, inlet_output, outlet_output. rewrite Hr.
  assert (send_proxy_message (rt_self_player_id r) (rt_player_id r) (rt_tunnel_id r) m c =
    (Ok tt, set_writer wr c)) as Es.
  { unfold send_proxy_message. destruct (Z.eqb_spec (rt_self_player_id r) (rt_player_id r)); [done|].
    rewrite pb_not_none. cbn [negb]. unfold ignore, package_and_send_message.
    rewrite package_body by (done || apply pb_not_none). by rewrite E. }
  by destruct (is_i2o_message m).
Qed.

Lemma outputs_send `{!Wire} sent c :
  Forall (λ rm, leaves rm ∧ in_u32 (len (sent_body rm))) sent →
  ∃ wr, for_each end_output sent c = (Ok tt, set_writer wr c) ∧
    wire wr = wire (c_writer c) ++ mjoin (frames sent).
Proof.
  intros Hs. revert c. induction Hs as [|rm sent [Hr Hl] Hs IH]; intros c.
  { exists (c_writer c). split; [by destruct c|]. cbn. by rewrite app_nil_r. }
  destruct (end_output_sends rm c Hr Hl) as (wr1 & E1 & Hw1).
  destruct (IH (set_writer wr1 c)) as (wr2 & E2 & Hw2). exists wr2. split.
  - cbn [for_each]. by rewrite (bind_ok _ _ _ _ _ E1).
  - rewrite Hw2. cbn [c_writer set_writer]. rewrite Hw1, <- app_assoc. done.
Qed.

(** The row of a message's tunnel, whose other end is at [p]. *)
Definition goes_to (p : PlayerId) (ts : list tunnel_Model) (tid : u32) (m : ProxyMessage) : Prop :=
  ∃ t, find_tunnel tid ts = Some t ∧ to_player m t = p.

Definition told_all (tx : handle) (ms : list WMsg) (e : env) : env :=
  fold_left (λ e m, told tx m e) ms e.

Lemma told_all_queue tx ms e :
  writer_open tx e → writer_open tx (told_all tx ms e) ∧
  writer_queue tx (told_all tx ms e) = writer_queue tx e ++ ms ∧
  ∀ h, h ≠ tx → writers (told_all tx ms e) !! h = writers e !! h.
Proof.
  revert e. induction ms as [|m ms IH]; intros e [q Hq]; cbn [told_all fold_left].
  { rewrite app_nil_r. split; [by exists q|done]. }
  assert (told tx m e = set_writers <[tx := Chan true (q ++ [m])]> e) as Et
    by (unfold told; by rewrite Hq).
  destruct (IH (told tx m e)) as (Ho & Eq & Hn).
  { rewrite Et. exists (q ++ [m]). cbn. by rewrite lookup_insert_eq. }
  unfold told_all in *. split; [done|]. split.
  - rewrite Eq, Et, writer_queue_push by done. by rewrite <- app_assoc.
  - intros h Hh. rewrite Hn, Et by done. cbn. by rewrite lookup_insert_ne.
Qed.

(** A message that can cross: typed, of a frame the server takes, for a tunnel
    whose other end is at [p]. *)
Definition crosses (p : PlayerId) (ts : list tunnel_Model) (rm : route * ProxyMessage) : Prop :=
  in_u32 (rt_tunnel_id rm.1) ∧ proxy_message_ok rm.2 ∧ len (sent_body rm) < SERVER_MAX ∧
  goes_to p ts (rt_tunnel_id rm.1) rm.2.

Lemma tunnel_body_len tid m : 0 < len (tunnel_body tid m).
Proof. destruct (message_body_some 0 _ (pb_not_none m tid)) as (id & bs & _ & _ & _ & Hl). unfold tunnel_body. lia. Qed.

Lemma sent_body_len p ts rm : crosses p ts rm → 0 < len (sent_body rm) < SERVER_MAX.
Proof. intros (_ & _ & Hl & _). split; [apply tunnel_body_len|exact Hl]. Qed.

(** The server, on a stream of one client's messages to one player. *)
Lemma server_relays_stream sent cs closed pe w fw p h pl tx :
  traffic_forward_writer pe = None → p ≠ 0 →
  w_player_map w !! p = Some h → w_players w !! h = Some pl → is_online pl = true → p_tx pl = Some tx →
  Forall (crosses p (w_tunnels w)) sent → pieces cs (mjoin (frames sent)) →
  poll_read peer_try_extract_frame peer_on_recv_frame closed (Bytes <$> cs) [] (PeerD pe w fw) =
    (Ok [], PeerD pe
       (set_env (told_all tx ((λ rm, Send (frame_of (sent_body rm)) true) <$> sent) (w_env w)) w) fw).
Proof.
  intros Hf Hp Hmap Hpl Hon Htx Hs Hcs.
  set (step := λ (rm : route * ProxyMessage) d, PeerD (pe_self d)
    (set_env (told tx (Send (frame_of (sent_body rm)) true) (w_env (pe_world d))) (pe_world d)) (pe_forwarded d)).
  set (I := λ (_ : list (route * ProxyMessage)) d, ∃ e, d = PeerD pe (set_env e w) fw).
  pose proof (peer_framed I (crosses p (w_tunnels w)) sent_body step) as Hfr.
  assert (Framed peer_try_extract_frame peer_on_recv_frame I (crosses p (w_tunnels w))
            (λ rm, frame_of (sent_body rm)) sent_body step) as Hframed.
  { apply Hfr.
    - by intros _ d [e ->].
    - intros rm. apply sent_body_len.
    - intros [r m] fs d (Hid & Hm & Hl & t & Ht & Hto) [e ->]. cbn [fst snd] in *.
      split; [|exists (told tx (Send (frame_of (sent_body (r, m))) true) e); done].
      destruct (message_body_some 0 _ (pb_not_none m (rt_tunnel_id r))) as (id & bs & E & Eb & Hid' & Hlen).
      unfold step, sent_body, tunnel_body in *. cbn [fst snd pe_self pe_world pe_forwarded] in *.
      rewrite Eb in *. rewrite body_of_len in *.
      apply (push_frame m (rt_tunnel_id r) id bs t); [done..|]. rewrite Hto.
      erewrite reach_online by done. rewrite (package_frame _ _ _ _ E); [done|].
      unfold in_u32, SERVER_MAX in *. lia. }
  assert (I sent (PeerD pe w fw)) as HI by (exists (w_env w); by destruct w).
  rewrite (poll_read_stream _ _ I _ _ _ step closed cs sent _ Hs HI Hcs). f_equal.
  clear -sent. unfold told_all.
  assert (∀ e, fold_left (λ d rm, step rm d) sent (PeerD pe (set_env e w) fw) =
    PeerD pe (set_env (fold_left (λ e m, told tx m e) ((λ rm, Send (frame_of (sent_body rm)) true) <$> sent) e) w) fw)
    as Hgen.
  { induction sent as [|rm sent IH]; intros e; [done|]. cbn [fmap list_fmap fold_left].
    unfold step at 2. cbn [pe_self pe_world pe_forwarded]. apply IH. }
  specialize (Hgen (w_env w)). replace (set_env (w_env w) w) with w in Hgen by (by destruct w). exact Hgen.
Qed.

(** *** The receiving client *)

Definition give_end (tid : u32) (m : ProxyMessage) (c : client) : client :=
  snd ((if is_i2o_message m then give_outlet tid m else give_inlet tid m) c).

Definition fed_outlet (ms : list ProxyMessage) (e : outlet_entry) : outlet_entry :=
  {| oe_description := oe_description e; oe_route := oe_route e; oe_input := oe_input e ++ ms |}.
Definition fed_inlet (ms : list ProxyMessage) (e : inlet_entry) : inlet_entry :=
  {| ie_description := ie_description e; ie_route := ie_route e; ie_listen := ie_listen e;
     ie_config := ie_config e; ie_input := ie_input e ++ ms |}.

(** The messages of [sent] for one end of a tunnel, in order. *)
Definition for_end (i2o : bool) (tid : u32) sent : list ProxyMessage :=
  omap (λ rm, if (rt_tunnel_id rm.1 =? tid) && Bool.eqb (is_i2o_message rm.2) i2o then Some rm.2 else None) sent.

(** The tunnel is in the client's table as the server's row has it. *)
Definition listed (ts : list tunnel_Model) (tbl : gmap u32 Tunnel) (rm : route * ProxyMessage) : Prop :=
  ∃ t, find_tunnel (rt_tunnel_id rm.1) ts = Some t ∧
    tbl !! rt_tunnel_id rm.1 = Some (tunnel_of_model t).

Lemma handle_push_tunnel m tid (t : Tunnel) c :
  proxy_message_ok m → c_tunnels c !! tid = Some t →
  handle_push (proxy_message_2_pb m tid) c =
    send_proxy_message (c_player_id c) (if is_i2o_message m then tn_sender t else tn_receiver t) (tn_id t) m c.
Proof.
  intros Hm Ht. pose proof (pb_roundtrip m tid Hm) as Hr. unfold handle_push.
  destruct (proxy_message_2_pb m tid); try discriminate Hr; rewrite Hr, gets_bind; cbn [id]; by rewrite Ht.
Qed.

Lemma client_takes p ts rm c :
  p ≠ 0 → c_player_id c = p → crosses p ts rm → listed ts (c_tunnels c) rm →
  Client.on_recv_frame (sent_body rm) c = (Ok tt, give_end (rt_tunnel_id rm.1) rm.2 c).
Proof.
  destruct rm as [r m]. intros Hp Hc (Hid & Hm & Hl & t & Ht & Hto) (t' & Ht' & Htbl). cbn [fst snd] in *.
  rewrite Ht in Ht'. injection Ht' as <-. pose proof (find_tunnel_id _ _ _ Ht) as Etid.
  destruct (parse_message_body 0 _ (pb_not_none m (rt_tunnel_id r)) (pb_ok m _ Hid Hm)) as (id & bs & Ep & Ed & El);
    [done|].
  unfold sent_body, tunnel_body. cbn [fst snd]. unfold Client.on_recv_frame. rewrite El, Ep. rewrite lift_bind.
  rewrite Ed, lift_bind. unfold handle_message. rewrite gets_bind.
  destruct (Z.eqb_spec (c_player_id c) 0); [congruence|]. cbn [Z.eqb].
  rewrite (handle_push_tunnel _ _ _ _ Hm Htbl). cbn [tn_sender tn_receiver tn_id tunnel_of_model].
  rewrite Etid, Hc. unfold to_player in Hto. rewrite Hto.
  unfold send_proxy_message. rewrite Z.eqb_refl. unfold give_end. cbn [snd]. by destruct (is_i2o_message m).
Qed.

Lemma give_end_tables tid m c :
  c_player_id (give_end tid m c) = c_player_id c ∧ c_tunnels (give_end tid m c) = c_tunnels c ∧
  c_writer (give_end tid m c) = c_writer c.
Proof.
  unfold give_end, give_outlet, give_inlet, modify.
  destruct (is_i2o_message m); cbn [snd]; case_match; done.
Qed.

(** What one message adds to an end. *)
Definition share (i2o : bool) (tid id : u32) (m : ProxyMessage) : list ProxyMessage :=
  if (tid =? id) && Bool.eqb (is_i2o_message m) i2o then [m] else [].

Lemma fed_outlet_nil e : fed_outlet [] e = e.
Proof. destruct e. unfold fed_outlet. cbn. by rewrite app_nil_r. Qed.
Lemma fed_inlet_nil e : fed_inlet [] e = e.
Proof. destruct e. unfold fed_inlet. cbn. by rewrite app_nil_r. Qed.
Lemma fed_outlet_app l1 l2 e : fed_outlet l2 (fed_outlet l1 e) = fed_outlet (l1 ++ l2) e.
Proof. unfold fed_outlet. cbn. by rewrite app_assoc. Qed.
Lemma fed_inlet_app l1 l2 e : fed_inlet l2 (fed_inlet l1 e) = fed_inlet (l1 ++ l2) e.
Proof. unfold fed_inlet. cbn. by rewrite app_assoc. Qed.

(** An entry of a table that is replaced, if it is there. *)
Lemma lookup_replaced {E} (f g : E → E) (tid id : u32) (m : gmap u32 E) :
  (∀ e, tid = id → f e = g e) → (∀ e, tid ≠ id → g e = e) →
  match m !! tid with Some e => <[tid := f e]> m | None => m end !! id = g <$> m !! id.
Proof.
  intros Hf Hg. destruct (decide (tid = id)) as [->|Hne].
  - destruct (m !! id) as [e|] eqn:E1; [|by rewrite E1]. cbn. by rewrite lookup_insert_eq, Hf.
  - destruct (m !! tid); rewrite ?lookup_insert_ne by done; destruct (m !! id); cbn; by rewrite ?Hg.
Qed.

Lemma give_end_outlets tid m c id :
  c_outlets (give_end tid m c) !! id = fed_outlet (share true tid id m) <$> c_outlets c !! id.
Proof.
  unfold give_end, give_outlet, give_inlet, modify, share. destruct (is_i2o_message m); cbn [snd Bool.eqb].
  - rewrite andb_true_r. replace (c_outlets _) with
      (match c_outlets c !! tid with Some e => <[tid := input_outlet m e]> (c_outlets c) | None => c_outlets c end)
      by (by case_match).
    apply lookup_replaced; intros e; destruct (Z.eqb_spec tid id); try done. intros _. apply fed_outlet_nil.
  - rewrite andb_false_r. replace (c_outlets _) with (c_outlets c) by (by case_match).
    destruct (c_outlets c !! id); cbn; by rewrite ?fed_outlet_nil.
Qed.

Lemma give_end_inlets tid m c id :
  c_inlets (give_end tid m c) !! id = fed_inlet (share false tid id m) <$> c_inlets c !! id.
Proof.
  unfold give_end, give_outlet, give_inlet, modify, share. destruct (is_i2o_message m); cbn [snd Bool.eqb].
  - rewrite andb_false_r. replace (c_inlets _) with (c_inlets c) by (by case_match).
    destruct (c_inlets c !! id); cbn; by rewrite ?fed_inlet_nil.
  - rewrite andb_true_r. replace (c_inlets _) with
      (match c_inlets c !! tid with Some e => <[tid := input_inlet m e]> (c_inlets c) | None => c_inlets c end)
      by (by case_match).
    apply lookup_replaced; intros e; destruct (Z.eqb_spec tid id); try done. intros _. apply fed_inlet_nil.
Qed.

Definition give_all sent c : client :=
  fold_left (λ c rm, give_end (rt_tunnel_id rm.1) rm.2 c) sent c.

Lemma for_end_cons i2o tid rm sent :
  for_end i2o tid (rm :: sent) = share i2o (rt_tunnel_id rm.1) tid rm.2 ++ for_end i2o tid sent.
Proof. unfold for_end, share. cbn [omap list_omap]. by destruct (_ && _). Qed.

Lemma give_all_spec sent c :
  (∀ id, c_outlets (give_all sent c) !! id = fed_outlet (for_end true id sent) <$> c_outlets c !! id) ∧
  (∀ id, c_inlets (give_all sent c) !! id = fed_inlet (for_end false id sent) <$> c_inlets c !! id) ∧
  c_player_id (give_all sent c) = c_player_id c ∧ c_tunnels (give_all sent c) = c_tunnels c ∧
  c_writer (give_all sent c) = c_writer c.
Proof.
  revert c. induction sent as [|rm sent IH]; intros c.
  { split_and!; try done; intros k; cbn.
    - destruct (c_outlets c !! k); cbn; by rewrite ?fed_outlet_nil.
    - destruct (c_inlets c !! k); cbn; by rewrite ?fed_inlet_nil. }
  destruct (IH (give_end (rt_tunnel_id rm.1) rm.2 c)) as (Ho & Hi & Hp & Ht & Hw).
  destruct (give_end_tables (rt_tunnel_id rm.1) rm.2 c) as (Hp' & Ht' & Hw').
  cbn [give_all fold_left]. unfold give_all in *. split_and!; try congruence; intros k; rewrite for_end_cons.
  - rewrite Ho, give_end_outlets. destruct (c_outlets c !! k); cbn; by rewrite ?fed_outlet_app.
  - rewrite Hi, give_end_inlets. destruct (c_inlets c !! k); cbn; by rewrite ?fed_inlet_app.
Qed.

(** A client, on a stream of messages to it. *)
Lemma client_takes_stream p ts sent cs c :
  p ≠ 0 → c_player_id c = p → Forall (crosses p ts) sent → Forall (listed ts (c_tunnels c)) sent →
  pieces cs (mjoin (frames sent)) →
  run (Bytes <$> cs) c = (Ok tt, give_all sent c).
Proof.
  intros Hp Hc Hs Hl Hcs.
  refine (proj1 (run_stream (λ _ c', c_player_id c' = p ∧ c_tunnels c' = c_tunnels c)
           (λ rm, crosses p ts rm ∧ listed ts (c_tunnels c) rm) sent_body
           (λ rm c, give_end (rt_tunnel_id rm.1) rm.2 c) cs sent c _ _ _ _ Hcs)); [| |by apply Forall_and|done].
  - intros rm [Hx _]. pose proof (sent_body_len p ts rm Hx). unfold SERVER_MAX, CLIENT_MAX in *. lia.
  - intros rm _ c' [Hx Hlist] [Hc' Ht']. split; [apply (client_takes p ts); [done..|by rewrite Ht']|].
    destruct (give_end_tables (rt_tunnel_id rm.1) rm.2 c') as (-> & -> & _). done.
Qed.
End Stages.

(** ** Properties *)

Section RelayProperties.
Context `{Prost} `{UserDb} `{Json} `{Rng} `{!PeerOs} `{InletOs} `{HashMapOrder}.
Context (WC WS : AsyncWrite) (wire_c : @Wire WC) (buffer_s : @BufWriter WS).
#[local] Existing Instances wire_c buffer_s.

(** C4: A tunnel crosses the server. Whatever a client's ends put out for ends
    of another client that is online, in any number of tunnels and both kinds
    of ends, comes out there: the bytes on the connection to the server make
    the server queue, in whatever pieces it reads them, messages for the other
    client's connection alone, its write loop puts exactly the same bytes on
    that connection and leaves none in its buffer, and the other client, in whatever pieces it reads them,
    gives each end exactly the messages for it, in the order they were sent,
    and changes nothing else. *)
Theorem tunnel_crosses_server (sent : list (route * ProxyMessage)) (c c2 : @client WC)
    pe (w : world) fw p h pl tx closed (wr : @writer WS) :
  Forall leaves sent → Forall (crosses p (w_tunnels w)) sent →
  traffic_forward_writer pe = None → p ≠ 0 →
  w_player_map w !! p = Some h → w_players w !! h = Some pl → is_online pl = true → p_tx pl = Some tx →
  writer_open tx (w_env w) → writer_accepts (H := WS) → buffered wr = [] →
  c_player_id c2 = p → Forall (listed (w_tunnels w) (c_tunnels c2)) sent →
  ∃ stream wr1 queued wr2 c2',
    for_each end_output sent c = (Ok tt, set_writer wr1 c) ∧
    wire wr1 = wire (c_writer c) ++ stream ∧
    (∀ cs, pieces cs stream → ∃ e,
      poll_read peer_try_extract_frame peer_on_recv_frame closed (Bytes <$> cs) [] (PeerD pe w fw) =
        (Ok [], PeerD pe (set_env e w) fw) ∧
      writer_queue tx e = writer_queue tx (w_env w) ++ queued ∧
      ∀ k, k ≠ tx → writers e !! k = writers (w_env w) !! k) ∧
    (∃ log, poll_write queued (Pw wr []) = (Ok (Continue, []), Pw wr2 log) ∧
      delivered wr2 = delivered wr ++ stream ∧ buffered wr2 = []) ∧
    (∀ cs, pieces cs stream → run (Bytes <$> cs) c2 = (Ok tt, c2')) ∧
    (∀ id, c_outlets c2' !! id = fed_outlet (for_end true id sent) <$> c_outlets c2 !! id) ∧
    (∀ id, c_inlets c2' !! id = fed_inlet (for_end false id sent) <$> c_inlets c2 !! id) ∧
    c_player_id c2' = p ∧ c_tunnels c2' = c_tunnels c2 ∧ c_writer c2' = c_writer c2.
Proof.
  intros Hleave Hs Hf Hp Hmap Hpl Hon Htx Hopen Hacc Hbuf Hc2 Hlist.
  destruct (outputs_send sent c) as (wr1 & Esend & Hw1).
  { apply Forall_and. split; [done|]. apply (Forall_impl _ _ _ Hs). intros rm Hx.
    pose proof (sent_body_len _ _ _ Hx). unfold in_u32, SERVER_MAX in *. lia. }
  destruct (poll_write_sends (Cb := ProxyMessage) ((λ rm, frame_of (sent_body rm)) <$> sent) wr [] Hacc Hbuf)
    as (wr2 & log & Ew & Hw2 & Hb2).
  rewrite <- list_fmap_compose in Ew. destruct (give_all_spec sent c2) as (Ho & Hi & Hid & Ht & Hw).
  exists (mjoin ((λ rm, frame_of (sent_body rm)) <$> sent)), wr1,
    ((λ rm, Send (frame_of (sent_body rm)) true) <$> sent), wr2, (give_all sent c2).
  split; [exact Esend|]. split; [exact Hw1|]. split.
  - intros cs Hcs. eexists. split; [by apply (server_relays_stream sent cs closed pe w fw p h pl tx)|].
    by destruct (told_all_queue tx ((λ rm, Send (frame_of (sent_body rm)) true) <$> sent) (w_env w) Hopen)
      as (_ & Eq & Hn).
  - split; [by exists log|]. split; [|by rewrite <- Hc2].
    intros cs Hcs. by apply (client_takes_stream p (w_tunnels w)).
Qed.
End RelayProperties.

(** ** Witnesses *)

Module RelayConcrete.
#[local] Existing Instances Concrete.rand ProstConcrete.prost PeerConcrete.users PeerConcrete.json
  PeerConcrete.os NetConcrete.sink_writer ClientConcrete.os ClientConcrete.order.

#[export] Instance sink_wire : @Wire NetConcrete.sink_writer.
Proof.
  refine (@Build_Wire NetConcrete.sink_writer (λ w, w) _).
  intros d w. by exists (w ++ d).
Defined.

(** Tunnel 4 of [PeerConcrete]: player 8's outlet, player 7's inlet. *)
Definition route8 : route :=
  {| rt_this_machine := false; rt_self_player_id := 8; rt_player_id := 7; rt_tunnel_id := 4 |}.
Definition messages : list (route * ProxyMessage) :=
  [(route8, O2iConnect 3 true ""); (route8, O2iRecvData 3 [9; 10]); (route8, O2iDisconnect 3)].
Definition client8 : client := set_player_id 8 ClientConcrete.fresh.
Definition inlet4 : inlet_entry := new_inlet 7 TCP (tunnel_of_model (PeerConcrete.row 4 8 7)).
Definition client7 : client :=
  set_tunnels (λ _, {[4 := tunnel_of_model (PeerConcrete.row 4 8 7)]})
    (set_inlets (λ _, {[4 := inlet4]}) (set_player_id 7 ClientConcrete.fresh)).

Lemma messages_cross : Forall (crosses 7 (w_tunnels PeerConcrete.start)) messages.
Proof.
  repeat constructor; cbn; unfold in_u32, in_u8, str_ok, SERVER_MAX; try lia; try done;
    try (by exists (PeerConcrete.row 4 8 7)); repeat constructor; unfold in_u8; try lia; try done.
Qed.
End RelayConcrete.

Section RelayWitnesses.
Import RelayConcrete.
#[local] Existing Instances Concrete.rand ProstConcrete.prost PeerConcrete.users PeerConcrete.json
  PeerConcrete.os NetConcrete.sink_writer ClientConcrete.os ClientConcrete.order.

Lemma tunnel_crosses_server_witness : ∃ stream wr1 queued wr2 c2',
  for_each end_output messages client8 = (Ok tt, set_writer wr1 client8) ∧
  wire wr1 = stream ∧
  (∀ cs, pieces cs stream → ∃ e,
    poll_read peer_try_extract_frame peer_on_recv_frame (Err "closed") (Bytes <$> cs) []
      (PeerD (PeerConcrete.peer None 300 2) PeerConcrete.start []) =
      (Ok [], PeerD (PeerConcrete.peer None 300 2) (set_env e PeerConcrete.start) []) ∧
    writer_queue 1 e = queued ∧
    ∀ k, k ≠ 1 → writers e !! k = writers (w_env PeerConcrete.start) !! k) ∧
  (∃ log, poll_write queued (Pw (H := NetConcrete.buf_writer 8192) ([], []) []) =
     (Ok (Continue, []), Pw wr2 log) ∧
     @delivered _ (NetConcrete.buf_buffer 8192) wr2 = stream ∧
     @buffered _ (NetConcrete.buf_buffer 8192) wr2 = []) ∧
  (∀ cs, pieces cs stream → run (Bytes <$> cs) client7 = (Ok tt, c2')) ∧
  (∀ id, c_outlets c2' !! id = fed_outlet (for_end true id messages) <$> c_outlets client7 !! id) ∧
  (∀ id, c_inlets c2' !! id = fed_inlet (for_end false id messages) <$> c_inlets client7 !! id) ∧
  c_player_id c2' = 7 ∧ c_tunnels c2' = c_tunnels client7 ∧ c_writer c2' = [].
Proof.
  apply (tunnel_crosses_server NetConcrete.sink_writer (NetConcrete.buf_writer 8192)
    sink_wire (NetConcrete.buf_buffer 8192)
    messages client8 client7 (PeerConcrete.peer None 300 2) PeerConcrete.start [] 7 10
    {| p_tx := Some 1; p_player_id := 7; p_session_id := 100 |} 1 (Err "closed") ([], [])).
  - repeat constructor; cbn; done.
  - exact messages_cross.
  - reflexivity.
  - discriminate.
  - reflexivity.
  - reflexivity.
  - reflexivity.
  - reflexivity.
  - by exists [].
  - apply NetConcrete.buf_accepts.
  - reflexivity.
  - reflexivity.
  - repeat constructor; by exists (PeerConcrete.row 4 8 7).
Defined.
End RelayWitnesses.
