(* ===== verification/Order.v ===== *)
(** What the server queues for a connection is never taken back, and the
    messages of tunnels keep their order on the way, whatever else happens
    between them ([peer/handle_push.rs], [global/manager/proxy.rs]). *)

From stdpp Require Import gmap.
From S2P Require Import Prelude Std Extern Net Proxy Inlet Outlet Messages Bridge Framing Ends Str Server.
From S2P Require Import Tunnels Players Web Start Tunnel Peer Relay System.

(** ** Queues that only grow *)

(** New handles are fresh for writers. *)
Definition writers_fresh (e : env) : Prop :=
  ∀ h, is_Some (writers e !! h) → h < next_handle e.

Definition grown (e e' : env) : Prop :=
  writers_fresh e → writers_fresh e' ∧ ∀ h, writer_queue h e `prefix_of` writer_queue h e'.
#[export] Instance grown_preorder : PreOrder grown.
Proof.
  split; [intros e He; split; [exact He|intros h; reflexivity]|]. intros e1 e2 e3 H12 H23 H1.
  destruct (H12 H1) as [H2 Q12]. destruct (H23 H2) as [H3 Q23]. split; [done|].
  intros h. etrans; [apply Q12|apply Q23].
Qed.

(** A call after which no queue is shorter. *)
Definition grows {S} `{HasEnv S} {A} (m : M S A) : Prop :=
  ∀ s, grown (env_of s) (env_of (snd (m s))).

Lemma grown_told h m e : grown e (told h m e).
Proof.
  intros He. unfold told. destruct (writers e !! h) as [c|] eqn:Hc; [|by apply grown_preorder]. split.
  - intros h' Hh. cbn in *. apply He. destruct (decide (h = h')) as [<-|]; [by eexists|].
    by rewrite lookup_insert_ne in Hh.
  - intros h'. unfold writer_queue. cbn. destruct (decide (h = h')) as [<-|].
    + rewrite lookup_insert_eq, Hc. unfold chan_send. destruct (chan_open c); cbn; [|reflexivity].
      by apply prefix_app_r.
    + rewrite lookup_insert_ne by done. reflexivity.
Qed.

Lemma grown_new_writer e : grown e (bump (set_writers <[next_handle e := chan_new]> e)).
Proof.
  intros He. split.
  - intros h Hh. cbn in *. destruct (decide (next_handle e = h)) as [<-|]; [lia|].
    rewrite lookup_insert_ne in Hh by done. specialize (He h Hh). lia.
  - intros h. unfold writer_queue. cbn. destruct (decide (next_handle e = h)) as [<-|].
    + destruct (writers e !! next_handle e) eqn:E; [|apply prefix_nil].
      assert (next_handle e < next_handle e) by (apply He; by eexists). lia.
    + rewrite lookup_insert_ne by done. reflexivity.
Qed.

Lemma grown_bump e : grown e (bump e).
Proof.
  intros He. split; [|intros h; reflexivity]. intros h Hh. specialize (He h Hh). cbn. lia.
Qed.

Section Grows.
Context {S : Type} `{HasEnv S}.

Lemma grows_const {A} (m : M S A) : (∀ s, env_of (snd (m s)) = env_of s) → grows m.
Proof. intros Hm s. by rewrite Hm. Qed.
Lemma grows_ret {A} (a : A) : grows (mret a : M S A).
Proof. by apply grows_const. Qed.
Lemma grows_lift {A} (o : outcome A) : grows (lift o : M S A).
Proof. by apply grows_const. Qed.
Lemma grows_gets {A} (f : S → A) : grows (gets f).
Proof. by apply grows_const. Qed.
Lemma grows_modify (f : S → S) : (∀ s, env_of (f s) = env_of s) → grows (modify f).
Proof. intros Hf. by apply grows_const. Qed.
Lemma grows_bind {A B} (m : M S A) (f : A → M S B) :
  grows m → (∀ a, grows (f a)) → grows (m ≫= f).
Proof.
  intros Hm Hf s. specialize (Hm s). unfold mbind, M_bind.
  destruct (m s) as [[a| | |] s1]; cbn [snd] in *; [|done..]. etrans; [exact Hm|apply Hf].
Qed.
Lemma grows_ignore {A} (m : M S A) : grows m → grows (ignore m).
Proof. intros Hm s. specialize (Hm s). unfold ignore. by destruct (m s) as [[] ?]. Qed.
Lemma grows_when b (m : M S unit) : grows m → grows (when b m).
Proof. intros Hm. destruct b; [done|apply grows_ret]. Qed.
Lemma grows_for_each {T} (f : T → M S unit) l : (∀ x, grows (f x)) → grows (for_each f l).
Proof.
  intros Hf. induction l as [|x l IH]; [apply grows_ret|]. by apply grows_bind.
Qed.
Lemma grows_writer h m : grows (send_writer h m : M S unit).
Proof.
  intros s. pose proof (ignore_send_writer h m s) as Hs. unfold ignore in Hs.
  pose proof (grown_told h m (env_of s)) as Ht.
  rewrite <- (env_of_set (told h m (env_of s)) s) in Ht.
  destruct (send_writer h m s) as [[] s']; by simplify_eq.
Qed.
Lemma grows_new_writer : grows (new_writer : M S handle).
Proof.
  intros s. unfold new_writer, with_env. cbn [snd]. rewrite env_of_set. apply grown_new_writer.
Qed.
Lemma grows_package `{Prost} tx serial m flush :
  grows (peer_package_and_send_message tx serial m flush : M S unit).
Proof.
  unfold peer_package_and_send_message. destruct tx; [|apply grows_ret].
  destruct (package_message serial m); [|apply grows_ret]. apply grows_ignore, grows_writer.
Qed.
End Grows.

#[export] Hint Resolve grows_ret grows_lift grows_gets grows_bind grows_ignore grows_when
  grows_for_each grows_writer grows_new_writer grows_package : npipe.
#[export] Hint Extern 1 (grows (bail _)) => (by apply grows_const) : npipe.
#[export] Hint Extern 1 (grows (modify _)) => (by apply grows_modify) : npipe.
#[export] Hint Extern 2 (grows (match ?x with _ => _ end)) => destruct x : npipe.

(** Walks through a call whose parts grow. *)
Ltac grow := intros; eauto 30 with npipe.

(** ** The calls of the managers *)

Section ServerGrows.
Context `{Prost} `{Json} `{Unicode} `{InletOs} `{UserDb} `{!TunnelDb} `{!UserAdmin} `{Rng}.
Implicit Types w : world.

Lemma grows_query {A} (q : db → outcome A) : grows (db_query q).
Proof. by apply grows_const. Qed.
Lemma grows_exec {A} (q : db → outcome A * db) : grows (db_exec q).
Proof. apply grows_const. intros w. unfold db_exec. by destruct (q (w_db w)). Qed.
Lemma grows_get h : grows (get_player_at h).
Proof. apply grows_const. intros w. unfold get_player_at. by destruct (w_players w !! h). Qed.
Lemma grows_put h p : grows (put_player h p).
Proof. by apply grows_modify. Qed.
Lemma grows_get_player id : grows (get_player id).
Proof. apply grows_gets. Qed.
Lemma grows_contain id : grows (contain_player id).
Proof. apply grows_gets. Qed.
Lemma grows_create id : grows (create_player id).
Proof. intros w. apply grown_bump. Qed.
#[local] Hint Resolve grows_query grows_exec grows_get grows_put grows_get_player grows_contain
  grows_create : npipe.

Lemma grows_send_push h m : grows (player_send_push h m).
Proof. unfold player_send_push. grow. Qed.
Lemma grows_close h : grows (close_session h).
Proof. unfold close_session. grow. Qed.
Lemma grows_reset h : grows (reset_session_info h).
Proof. unfold reset_session_info. grow. Qed.
Lemma grows_connect h id tx : grows (on_connect_session h id tx).
Proof. unfold on_connect_session. grow. Qed.
#[local] Hint Resolve grows_send_push grows_close grows_reset grows_connect : npipe.

Lemma grows_push_to id m : grows (push_message_to_player id m).
Proof. unfold push_message_to_player. grow. Qed.
Lemma grows_send_input tid m : grows (send_input tid m).
Proof. unfold send_input. destruct (is_i2o_message m); by apply grows_modify. Qed.
Lemma grows_online id : grows (online_player id).
Proof. unfold online_player. grow. Qed.
#[local] Hint Resolve grows_push_to grows_send_input grows_online : npipe.

Lemma grows_send_proxy from to tid m : grows (server_send_proxy_message from to tid m).
Proof. unfold server_send_proxy_message. grow. Qed.
#[local] Hint Resolve grows_send_proxy : npipe.
Lemma grows_outlet_output r m : grows (server_outlet_output r m).
Proof. unfold server_outlet_output, send_input_to_inlet. grow. Qed.
Lemma grows_inlet_output r m : grows (server_inlet_output r m).
Proof. unfold server_inlet_output, send_input_to_outlet. grow. Qed.

(** *** Tunnels *)

Lemma grows_sync : grows server_sync_tunnels.
Proof. unfold server_sync_tunnels, server_add_outlet, server_add_inlet. grow. Qed.
Lemma grows_detection t : grows (tunnel_detection t).
Proof. unfold tunnel_detection, player_id_detection, port_conflict_detection. grow. Qed.
Lemma grows_broadcast p t del : grows (broadcast_tunnel_info p t del).
Proof. unfold broadcast_tunnel_info. grow. Qed.
#[local] Hint Resolve grows_sync grows_detection grows_broadcast : npipe.
Lemma grows_to_ends t del : grows (broadcast_to_ends t del).
Proof. unfold broadcast_to_ends. grow. Qed.
#[local] Hint Resolve grows_to_ends : npipe.
Lemma grows_index {A} (f : world → outcome A) (g : world → world) :
  (∀ w, w_env (g w) = w_env w) → grows (λ w, (f w, g w)).
Proof. intros Hg. by apply grows_const. Qed.
#[local] Hint Extern 1 (grows (λ w, (index _ _, _))) => (by apply grows_index) : npipe.

Lemma grows_add_tunnel t : grows (add_tunnel t).
Proof. unfold add_tunnel, add_apply. grow. Qed.
Lemma grows_delete_tunnel id : grows (delete_tunnel id).
Proof. unfold delete_tunnel. grow. Qed.
Lemma grows_update_tunnel t : grows (update_tunnel t).
Proof. unfold update_tunnel, update_position, update_database, update_apply. grow. Qed.
#[local] Hint Resolve grows_add_tunnel grows_delete_tunnel grows_update_tunnel : npipe.

(** *** Players *)

Lemma grows_add_player r now name pass : grows (add_player r now name pass).
Proof.
  unfold add_player. assert (∀ n r, grows (add_player_loop n r now name pass)) as Hl; [|grow].
  induction n as [|n IH]; intros r'; cbn [add_player_loop]; [grow|].
  destruct (gen_range _ _ r'). grow.
Qed.
Lemma grows_find_player id hs : grows (find_player id hs).
Proof. induction hs as [|h hs IH]; cbn [find_player]; grow. Qed.
#[local] Hint Resolve grows_find_player : npipe.
Lemma grows_delete_player id : grows (delete_player id).
Proof. unfold delete_player. grow. Qed.
Lemma grows_update_player data : grows (update_player data).
Proof. unfold update_player. grow. Qed.
Lemma grows_player_items users : grows (player_items users).
Proof. induction users as [|u users IH]; cbn [player_items]; unfold player_online; grow. Qed.
Lemma grows_page n size : grows (query n size).
Proof. unfold query. grow. Qed.
End ServerGrows.
#[export] Hint Resolve grows_query grows_get grows_get_player grows_close grows_reset grows_connect
  grows_send_proxy grows_add_tunnel grows_delete_tunnel grows_update_tunnel grows_add_player
  grows_delete_player grows_update_player grows_player_items grows_page : npipe.

(** ** The calls of a peer and of the interface *)

Section PeerGrows.
Context `{Prost} `{Json} `{Unicode} `{InletOs} `{UserDb} `{!TunnelDb} `{!UserAdmin} `{Rng} `{!PeerOs}.

Lemma grows_in_server {A} (m : M world A) : grows m → grows (in_server m).
Proof. intros Hm d. specialize (Hm (pe_world d)). unfold in_server. by destruct (m (pe_world d)). Qed.
Lemma grows_set_peer f : grows (set_peer f).
Proof. by apply grows_modify. Qed.
Lemma grows_forward h frame : grows (write_forward h frame).
Proof. apply grows_const. intros d. unfold write_forward. by destruct (forward_write h frame). Qed.
#[local] Hint Resolve grows_in_server grows_set_peer grows_forward : npipe.

Lemma grows_response serial m : grows (send_response serial m).
Proof. unfold send_response. grow. Qed.
Lemma grows_http : grows send_http_404_response.
Proof. unfold send_http_404_response. grow. Qed.
#[local] Hint Resolve grows_response grows_http : npipe.

Lemma grows_request m : grows (handle_request m).
Proof.
  assert (∀ l, grows (on_login_request l)) as Hl.
  { unfold on_login_request, on_terminate_old_session, user_tunnels. grow. }
  assert (∀ l, grows (on_register_request l)) as Hr by (unfold on_register_request; grow).
  unfold handle_request, on_ping_request, player_handle_request. destruct m; grow.
Qed.
Lemma grows_push m : grows (peer_handle_push m).
Proof. unfold peer_handle_push. grow. Qed.
#[local] Hint Resolve grows_request grows_push : npipe.

Lemma grows_answer serial m : grows (answer_message serial m).
Proof.
  assert (grows (peer_handle_message serial m)) as Hm.
  { unfold peer_handle_message, handle_response. grow. }
  intros d. specialize (Hm d). unfold answer_message.
  destruct (peer_handle_message serial m d) as [r d']. etrans; [exact Hm|].
  assert (grows (answer_request serial r)) as Ha by (unfold answer_request; grow). apply Ha.
Qed.
#[local] Hint Resolve grows_answer : npipe.

Lemma grows_frame frame : grows (peer_on_recv_frame frame).
Proof. unfold peer_on_recv_frame. grow. Qed.
Lemma grows_if_err m h : grows m → grows h → grows (if_is_err m h).
Proof.
  intros Hm Hh d. specialize (Hm d). unfold if_is_err, on_err.
  destruct (m d) as [[] d']; cbn [snd] in *; [done| |done..]. etrans; [exact Hm|apply Hh].
Qed.
#[local] Hint Resolve grows_if_err : npipe.
Lemma grows_extract buffer : grows (peer_try_extract_frame buffer).
Proof. unfold peer_try_extract_frame, check_flag, create_traffic_forward_channel. grow. Qed.
Lemma grows_session_start id addr tx : grows (peer_on_session_start id addr tx).
Proof. unfold peer_on_session_start. grow. Qed.
Lemma grows_session_close : grows peer_on_session_close.
Proof. unfold peer_on_session_close, on_disconnect_session. grow. Qed.
Lemma grows_returned data : grows (returned data).
Proof. unfold returned, forward_back. grow. Qed.
End PeerGrows.

#[export] Instance web_has_env `{UserDb} : HasEnv web.
Proof.
  refine {| env_of := λ s, w_env (wb_world s);
            set_env := λ e s, Web (set_env e (wb_world s)) (wb_events s) |};
    [done| |done]. by intros [[] ?].
Defined.

Section WebGrows.
Context `{Rng} `{Prost} `{Json} `{Unicode} `{InletOs} `{UserDb} `{!TunnelDb} `{!UserAdmin}
  `{!UserPages} `{!MappingJson} `{Md5} `{WebConfig}.
Context `{!FromJson LoginReq} `{!FromJson PlayerListRequest} `{!FromJson PlayerRemoveReq}
  `{!FromJson PlayerAddReq} `{!FromJson PlayerUpdateReq} `{!FromJson TunnelRemoveReq}
  `{!FromJson TunnelAddReq} `{!FromJson TunnelUpdateReq}.

Lemma grows_in_world {A} (m : M world A) : grows m → grows (in_world m : M web A).
Proof. intros Hm s. specialize (Hm (wb_world s)). unfold in_world. by destruct (m (wb_world s)). Qed.
Lemma grows_event ev : grows (session_event_is ev : M web unit).
Proof. by apply grows_modify. Qed.
Lemma grows_answer_call code (m : M web unit) : grows m → grows (answer_call code m).
Proof. intros Hm s. specialize (Hm s). unfold answer_call. by destruct (m s) as [[] ?]. Qed.
Lemma grows_read {A} (f : world → outcome A) : grows (λ w, (f w, w)).
Proof. by apply grows_const. Qed.
#[local] Hint Resolve grows_in_world grows_event grows_answer_call grows_read : npipe.

Lemma grows_web r : grows (run_http_server r).
Proof.
  apply run_http_server_cases; [|grow..]. intros handler Hin _. unfold services in Hin.
  repeat (apply elem_of_cons in Hin as [[= _ ->]|Hin];
    [unfold web_login, web_logout, web_test_auth, web_player_list, web_remove_player,
       web_add_player, web_update_player, web_tunnel_list, web_remove_tunnel, web_add_tunnel,
       web_update_tunnel; grow|]).
  by apply not_elem_of_nil in Hin.
Qed.
End WebGrows.

(** ** The server as a system *)

Section Order.
Context `{Prost} `{Json} `{Unicode} `{InletOs} `{UserDb} `{!TunnelDb} `{!UserAdmin} `{!UserPages}
  `{!MappingJson} `{Rng} `{!PeerOs} `{Md5} `{WebConfig}
  `{Lz4} `{SimplestCrypt} `{Base64} `{OutletOs}.
Context `{!FromJson LoginReq} `{!FromJson PlayerListRequest} `{!FromJson PlayerRemoveReq}
  `{!FromJson PlayerAddReq} `{!FromJson PlayerUpdateReq} `{!FromJson TunnelRemoveReq}
  `{!FromJson TunnelAddReq} `{!FromJson TunnelUpdateReq}.
Implicit Types (w : world) (sy : system) (tx : handle).

Definition sy_env sy : env := w_env (sy_world sy).
(** What has been queued for the connection that writes from [tx]. *)
Definition queue_for tx sy : list WMsg := writer_queue tx (sy_env sy).

(** What each event adds to it. *)
Fixpoint additions tx (evs : list event) sy : list (list WMsg) :=
  match evs with
  | [] => []
  | ev :: evs =>
      let sy1 := snd (exec ev sy) in
      added (queue_for tx sy) (queue_for tx sy1) :: additions tx evs sy1
  end.

(** The player is there, online, in the session that writes from [tx]. *)
Definition reaches (to : PlayerId) tx w : Prop :=
  to ≠ 0 ∧ writer_open tx (w_env w) ∧ ∃ h pl, w_player_map w !! to = Some h ∧
    w_players w !! h = Some pl ∧ is_online pl = true ∧ p_tx pl = Some tx.

(** The frame that carries a message of a tunnel. *)
Definition tunnel_body (m : ProxyMessage) (tid : u32) : bytes := message_body 0 (proxy_message_2_pb m tid).
Definition tunnel_frame m tid : WMsg := Send (frame_of (tunnel_body m tid)) true.

(** An event that brings a message of a tunnel whose other end is reached with
    [tx]: a connection hands it over, or an end the server runs itself. *)
Inductive carries tx sy : event → WMsg → Prop :=
| carries_frame c m tid t :
    is_Some (sy_peers sy !! c) → proxy_message_ok m → in_u32 tid → in_u32 (len (tunnel_body m tid)) →
    find_tunnel tid (w_tunnels (sy_world sy)) = Some t → reaches (to_player m t) tx (sy_world sy) →
    carries tx sy (Framed c (tunnel_body m tid)) (tunnel_frame m tid)
| carries_outlet tid e m :
    w_outlets (sy_world sy) !! tid = Some e → rt_this_machine (oe_route e) = false →
    in_u32 (len (tunnel_body m (rt_tunnel_id (oe_route e)))) →
    reaches (rt_player_id (oe_route e)) tx (sy_world sy) →
    carries tx sy (OutletSent tid m) (tunnel_frame m (rt_tunnel_id (oe_route e)))
| carries_inlet tid e m :
    w_inlets (sy_world sy) !! tid = Some e → rt_this_machine (ie_route e) = false →
    in_u32 (len (tunnel_body m (rt_tunnel_id (ie_route e)))) →
    reaches (rt_player_id (ie_route e)) tx (sy_world sy) →
    carries tx sy (InletSent tid m) (tunnel_frame m (rt_tunnel_id (ie_route e))).

Lemma grown_with_peer {A} c (m : M peer_delegate A) sy :
  grows m → grown (sy_env sy) (sy_env (snd (with_peer c m sy))).
Proof.
  intros Hm. unfold with_peer. destruct (sy_peers sy !! c) as [[p fw]|]; [|reflexivity].
  specialize (Hm (PeerD p (sy_world sy) fw)). by destruct (m _) as [o d].
Qed.
Lemma grown_by_server (m : M world unit) sy :
  grows m → grown (sy_env sy) (sy_env (snd (by_server m sy))).
Proof. intros Hm. specialize (Hm (sy_world sy)). unfold by_server. by destruct (m (sy_world sy)). Qed.

Lemma grown_exec ev sy : grown (sy_env sy) (sy_env (snd (exec ev sy))).
Proof.
  destruct ev as [c id addr|c buffer|c frame|c data|c|r|tid m|tid m|tid mw ow|tid iw]; unfold exec.
  - destruct (sy_peers sy !! c); [reflexivity|].
    pose proof (grows_new_writer (sy_world sy)) as Hn.
    destruct (new_writer (sy_world sy)) as [[tx| | |] w]; cbn [snd] in Hn |- *; [|exact Hn..].
    etrans; [exact Hn|]. set (sy1 := System (Web w _) _).
    exact (grown_with_peer c _ sy1 (grows_session_start id addr tx)).
  - apply grown_with_peer, grows_extract.
  - apply grown_with_peer, grows_frame.
  - apply grown_with_peer, grows_returned.
  - pose proof (grown_with_peer c _ sy grows_session_close) as Hc.
    by destruct (with_peer c peer_on_session_close sy) as [o sy1].
  - pose proof (grows_web r (sy_web sy)) as Hr. by destruct (run_http_server r (sy_web sy)) as [o s].
  - destruct (w_outlets (sy_world sy) !! tid); [|reflexivity].
    apply grown_by_server, grows_outlet_output.
  - destruct (w_inlets (sy_world sy) !! tid); [|reflexivity].
    apply grown_by_server, grows_inlet_output.
  - apply grown_by_server, grows_const. intros w. unfold outlet_takes.
    destruct (w_outlets w !! tid) as [e|]; [|done]. by destruct (oe_input e).
  - apply grown_by_server, grows_const. intros w. unfold inlet_takes.
    destruct (w_inlets w !! tid) as [e|]; [|done]. by destruct (ie_input e).
Qed.

(** *** A message that is carried *)

Lemma reach_queue from to tx tid m w :
  reaches to tx w → in_u32 (len (tunnel_body m tid)) →
  ∃ w', server_send_proxy_message from to tid m w = (Ok tt, w') ∧
    writer_queue tx (w_env w') = writer_queue tx (w_env w) ++ [tunnel_frame m tid].
Proof.
  intros (Hto & [q Hq] & h & pl & Hmap & Hpl & Hon & Htx) Hl. eexists. split.
  - erewrite reach_online by done. by rewrite (package_body _ _ (pb_not_none m tid) Hl).
  - cbn [w_env set_env world_has_env]. unfold told. rewrite Hq. by apply writer_queue_push.
Qed.

Lemma carried_adds tx sy ev m :
  carries tx sy ev m → queue_for tx (snd (exec ev sy)) = queue_for tx sy ++ [m].
Proof.
  destruct 1 as [c m tid t [[pe fw] Hc] Hm Ht Hl Hrow Hr|tid e m He Hr Hl Hto|tid e m He Hr Hl Hto].
  - destruct (reach_queue (from_player m t) _ _ tid m _ Hr Hl) as (w' & Hrun & Hq).
    destruct (message_body_some 0 _ (pb_not_none m tid)) as (id & bs & E & Eb & _).
    unfold exec, with_peer. rewrite Hc. unfold tunnel_body. rewrite Eb.
    by rewrite (push_frame m tid id bs t pe _ fw Hm Ht E Hrow w' Hrun).
  - destruct (reach_queue 0 _ _ _ m _ Hto Hl) as (w' & Hrun & Hq).
    unfold exec. rewrite He. unfold by_server, server_outlet_output. by rewrite Hr, Hrun.
  - destruct (reach_queue 0 _ _ _ m _ Hto Hl) as (w' & Hrun & Hq).
    unfold exec. rewrite He. unfold by_server, server_inlet_output. by rewrite Hr, Hrun.
Qed.
End Order.

(** ** Properties *)

Section OrderProperties.
Context `{Prost} `{Json} `{Unicode} `{InletOs} `{UserDb} `{!TunnelDb} `{!UserAdmin} `{!UserPages}
  `{!MappingJson} `{Rng} `{!PeerOs} `{Md5} `{WebConfig}
  `{Lz4} `{SimplestCrypt} `{Base64} `{OutletOs}.
Context `{!FromJson LoginReq} `{!FromJson PlayerListRequest} `{!FromJson PlayerRemoveReq}
  `{!FromJson PlayerAddReq} `{!FromJson PlayerUpdateReq} `{!FromJson TunnelRemoveReq}
  `{!FromJson TunnelAddReq} `{!FromJson TunnelUpdateReq}.

(** C7: Tunnel messages arrive once and in order. Whatever the server does in
    between, whoever connects, leaves, logs in or is managed, what a connection
    has been queued is never taken back, and is what the events have added, in
    the order of the events; an event that brings a message of a tunnel, from
    any connection or from an end the server runs itself, adds exactly that
    message to the queue of the connection at the tunnel's other end. *)
Theorem messages_keep_order tx evs sy :
  writers_fresh (sy_env sy) →
  queue_for tx (snd (exec_all evs sy)) = queue_for tx sy ++ concat (additions tx evs sy) ∧
  ∀ i ev m, evs !! i = Some ev → carries tx (snd (exec_all (take i evs) sy)) ev m →
    additions tx evs sy !! i = Some [m].
Proof.
  revert sy. induction evs as [|ev evs IH]; intros sy Hf; [split; [by rewrite app_nil_r|done]|].
  destruct (grown_exec ev sy Hf) as [Hf1 Hq]. specialize (Hq tx). rewrite exec_all_cons.
  destruct (IH _ Hf1) as [Hall Hat]. split.
  - rewrite Hall. destruct Hq as [q Hq]. unfold queue_for in *. cbn [additions concat]. unfold queue_for.
    rewrite Hq, added_app. by rewrite <- app_assoc.
  - intros [|i] ev' m Hi Hc; cbn [lookup list_lookup take] in Hi, Hc.
    + injection Hi as <-. cbn. by rewrite (carried_adds _ _ _ _ Hc), added_app.
    + rewrite exec_all_cons in Hc. by apply (Hat i ev').
Qed.
End OrderProperties.

(** ** A concrete instance, for the witness *)

Module OrderConcrete.
(** Player 7 is online with writer 1; connection 2 belongs to player 8, the
    other end of tunnel 4, and the server runs the outlet of tunnel 5. *)
Definition start : @web PlayersConcrete.users := @Web PlayersConcrete.users
  (set_world_tunnels (λ _, [PeerConcrete.row 4 8 7; PeerConcrete.row 5 0 7])
    (set_server_outlets (λ _, {[5 := PeerConcrete.outlet5]}) PlayersConcrete.start)) [].
Definition first : ProxyMessage := O2iRecvData 3 [9].
Definition second : ProxyMessage := O2iRecvData 1 [8; 8].
Definition third : ProxyMessage := O2iDisconnect 3.
End OrderConcrete.

Section OrderWitness.
Import PlayersConcrete WebConcrete OrderConcrete.
#[local] Existing Instances ProstConcrete.prost TunnelsConcrete.unicode TunnelsConcrete.os
  Concrete.rand PlayersConcrete.users rows admin config md5 WebConcrete.json
  mapping_json pages login_json list_json remove_json add_json update_json tunnel_remove_json
  tunnel_add_json tunnel_update_json PeerConcrete.os Concrete.lz4 Concrete.simplestcrypt Concrete.base64
  OutletConcrete.os.

Definition between : list event :=
  [Framed 2 (tunnel_body first 4); Connected 3 400 (V4 (Ipv4 127 0 0 1) 5000); Framed 3 [1; 2; 3];
   OutletSent 5 second; Requested login; Framed 2 (tunnel_body third 4); Disconnected 2].
Definition busy : system := System OrderConcrete.start {[2 := (PeerConcrete.peer None 300 2, [])]}.

#[local] Ltac evaluate := vm_compute; first [reflexivity|discriminate].
#[local] Ltac there :=
  split; [evaluate|]; split; [eexists; evaluate|]; do 2 eexists;
  split; [evaluate|]; split; [evaluate|]; split; evaluate.

Lemma messages_keep_order_witness :
  queue_for 1 (snd (exec_all between busy)) = queue_for 1 busy ++ concat (additions 1 between busy) ∧
  additions 1 between busy !! 0%nat = Some [tunnel_frame first 4] ∧
  additions 1 between busy !! 3%nat = Some [tunnel_frame second 5] ∧
  additions 1 between busy !! 5%nat = Some [tunnel_frame third 4].
Proof.
  destruct (messages_keep_order 1 between busy) as [Hq Hat].
  { intros h Hh. change (is_Some (({[1 := Chan true []]} : gmap handle (chan WMsg)) !! h)) in Hh.
    destruct Hh as [x [<- _]%lookup_singleton_Some]. reflexivity. }
  split; [exact Hq|].
  split; [apply (Hat 0%nat (Framed 2 (tunnel_body first 4))); [reflexivity|]
         |split; [apply (Hat 3%nat (OutletSent 5 second)); [reflexivity|]
                 |apply (Hat 5%nat (Framed 2 (tunnel_body third 4))); [reflexivity|]]].
  - apply (carries_frame 1 _ 2 first 4 (PeerConcrete.row 4 8 7)).
    + eexists; evaluate.
    + split; [unfold in_u32; lia|]. repeat constructor; unfold in_u8; lia.
    + unfold in_u32; lia.
    + split; evaluate.
    + evaluate.
    + there.
  - apply (carries_outlet 1 _ 5 PeerConcrete.outlet5 second); [evaluate|evaluate|split; evaluate|there].
  - apply (carries_frame 1 _ 2 third 4 (PeerConcrete.row 4 8 7)).
    + eexists; evaluate.
    + split; [by unfold in_u32|done].
    + unfold in_u32; lia.
    + split; evaluate.
    + evaluate.
    + there.
Defined.
End OrderWitness.
