(* ===== verification/Follow.v ===== *)
(** A client's table of tunnels follows the server's: the list a login is
    answered with, and the notices an administrator's changes cause
    ([np_server/src/global/manager/tunnel.rs], [broadcast_tunnel_info]; the
    client's [on_server_client_modify_tunnel_ntf]). *)

From S2P Require Import Prelude Std Extern Net Proxy Inlet Messages Bridge Framing Ends Client.
From S2P Require Import Str Server Tunnels Players Peer Streams Relay.

(** ** The tables *)

Section Tables.
Context `{Json}.
Implicit Types (t old : tunnel_Model) (ts : list tunnel_Model).

(** The tunnels that have an end at a player. *)
Definition has_end (p : PlayerId) t : bool := (tm_receiver t =? p) || (tm_sender t =? p).

(** What the client of player [p] should have for the server's table [ts]. *)
Definition player_table (p : PlayerId) ts : gmap u32 Tunnel :=
  list_to_map ((λ t, (tm_id t, tunnel_of_model t)) <$> base.filter (λ t, has_end p t = true) ts).

(** A notice: whether it deletes, and the tunnel. *)
Definition notice : Type := bool * tunnel_Model.
Definition apply_notice (tbl : gmap u32 Tunnel) (n : notice) : gmap u32 Tunnel :=
  if n.1 then delete (tm_id n.2) tbl else <[tm_id n.2 := tunnel_of_model n.2]> tbl.
Definition apply_notices (ns : list notice) (tbl : gmap u32 Tunnel) : gmap u32 Tunnel :=
  fold_left apply_notice ns tbl.

Lemma filter_ids_NoDup (P : tunnel_Model → Prop) `{∀ t, Decision (P t)} ts :
  NoDup (tm_id <$> ts) → NoDup (tm_id <$> base.filter P ts).
Proof. intros Hnd. by eapply sublist_NoDup, fmap_sublist, sublist_filter. Qed.

Lemma player_table_lookup p ts id x :
  NoDup (tm_id <$> ts) →
  player_table p ts !! id = Some x ↔
    ∃ t, t ∈ ts ∧ has_end p t = true ∧ tm_id t = id ∧ x = tunnel_of_model t.
Proof.
  intros Hnd. unfold player_table.
  rewrite <- elem_of_list_to_map.
  - rewrite list_elem_of_fmap. split.
    + intros (t & [= -> ->] & [Ht Hin]%list_elem_of_filter). by exists t.
    + intros (t & Hin & Ht & <- & ->). exists t. split; [done|]. by apply list_elem_of_filter.
  - rewrite <- list_fmap_compose. unfold compose. cbn [fst].
    by apply filter_ids_NoDup.
Qed.

Lemma player_table_no_end p ts t :
  NoDup (tm_id <$> ts) → t ∈ ts → has_end p t = false → player_table p ts !! tm_id t = None.
Proof.
  intros Hnd Ht He. destruct (player_table p ts !! tm_id t) as [x|] eqn:El; [|done]. exfalso.
  apply player_table_lookup in El as (u & Hu & Heu & Hid & _); [|done].
  assert (u = t) as ->; [|congruence]. apply list_elem_of_lookup in Hu as [j Hj], Ht as [i Hi].
  assert (j = i) as ->; [|congruence].
  apply (NoDup_lookup (tm_id <$> ts) j i (tm_id t) Hnd); rewrite list_lookup_fmap; [by rewrite Hj, <- Hid|by rewrite Hi].
Qed.

Lemma player_table_app p ts t :
  NoDup (tm_id <$> ts) → tm_id t ∉ (tm_id <$> ts) →
  player_table p (ts ++ [t]) =
    if has_end p t then <[tm_id t := tunnel_of_model t]> (player_table p ts) else player_table p ts.
Proof.
  intros Hnd Hnew. unfold player_table. rewrite filter_app, fmap_app.
  destruct (has_end p t) eqn:E.
  - rewrite filter_cons_True by done. cbn [fmap list_fmap filter list_filter]. rewrite list_to_map_snoc; [done|].
    rewrite <- list_fmap_compose. intros (u & Hu & [_ Hin]%list_elem_of_filter)%list_elem_of_fmap.
    cbn in Hu. apply Hnew. rewrite Hu. by apply list_elem_of_fmap_2.
  - rewrite filter_cons_False by (by rewrite E). cbn. by rewrite app_nil_r.
Qed.

Lemma player_table_without p ts id :
  NoDup (tm_id <$> ts) → player_table p (without id ts) = delete id (player_table p ts).
Proof.
  intros Hnd. assert (NoDup (tm_id <$> without id ts)) as Hnd'.
  { by apply filter_ids_NoDup. }
  apply map_eq_iff. intros k. apply option_eq. intros x. rewrite player_table_lookup by done.
  rewrite lookup_delete_Some, player_table_lookup by done. unfold without. split.
  - intros (t & [Hne Hin]%list_elem_of_filter & Ht & <- & ->). split; [congruence|]. by exists t.
  - intros (Hne & t & Hin & Ht & <- & ->). exists t. split; [|done].
    apply list_elem_of_filter. split; [congruence|done].
Qed.

Lemma player_table_replace p ts t old :
  NoDup (tm_id <$> ts) → old ∈ ts → tm_id old = tm_id t →
  player_table p (replace_tunnel t ts) =
    if has_end p t then <[tm_id t := tunnel_of_model t]> (player_table p ts)
    else delete (tm_id t) (player_table p ts).
Proof.
  intros Hnd Hold Hid.
  assert (tm_id <$> replace_tunnel t ts = tm_id <$> ts) as Eids.
  { unfold replace_tunnel. rewrite <- list_fmap_compose. apply list_fmap_ext. intros i x _. cbn. by case_decide. }
  assert (∀ u, u ∈ replace_tunnel t ts ↔ u = t ∨ (u ∈ ts ∧ tm_id u ≠ tm_id t)) as Hin.
  { intros u. unfold replace_tunnel. rewrite list_elem_of_fmap. split.
    - intros (v & -> & Hv). case_decide; [by left|by right].
    - intros [->|[Hu Hne]]; [exists old|exists u]; [rewrite decide_True|rewrite decide_False]; done. }
  apply map_eq_iff. intros k. apply option_eq. intros x. rewrite player_table_lookup by (by rewrite Eids).
  assert ((∃ u, u ∈ replace_tunnel t ts ∧ has_end p u = true ∧ tm_id u = k ∧ x = tunnel_of_model u) ↔
    (has_end p t = true ∧ tm_id t = k ∧ x = tunnel_of_model t) ∨
    (tm_id t ≠ k ∧ player_table p ts !! k = Some x)) as ->.
  { rewrite player_table_lookup by done. split.
    - intros (u & [->|[Hu Hne]]%Hin & Hp & <- & ->); [by left|]. right. split; [congruence|]. by exists u.
    - intros [(Hp & <- & ->)|(Hne & u & Hu & Hp & <- & ->)].
      + exists t. split; [apply Hin; by left|done].
      + exists u. split; [apply Hin; right; split; congruence|done]. }
  destruct (has_end p t).
  - rewrite lookup_insert_Some. clear. intuition congruence.
  - rewrite lookup_delete_Some. clear. intuition congruence.
Qed.

(** The list of a login. *)
Lemma collect_player_table p ts :
  NoDup (tm_id <$> ts) →
  collect_tunnels (tunnel_of_model <$> base.filter (λ t, has_end p t = true) ts) = player_table p ts.
Proof.
  intros Hnd. unfold collect_tunnels, player_table.
  assert (NoDup (tm_id <$> base.filter (λ t, has_end p t = true) ts)) as Hf by (by apply filter_ids_NoDup).
  revert Hf. generalize (base.filter (λ t, has_end p t = true) ts). clear Hnd ts. intros ts.
  induction ts as [|t ts IH] using rev_ind; [done|]. intros Hnd.
  rewrite !fmap_app in *. apply NoDup_app in Hnd as (Hnd & Hn & _).
  rewrite fold_left_app, (IH Hnd). cbn. rewrite list_to_map_snoc; [done|].
  rewrite <- list_fmap_compose. intros (u & Hu & Hin)%list_elem_of_fmap. cbn in Hu.
  apply (Hn (tm_id t)); [|left]. rewrite Hu. by apply list_elem_of_fmap_2.
Qed.
End Tables.

(** ** What the server queues for a player *)

Section Notices.
Context `{Prost} `{Json} `{Unicode} `{InletOs} `{TunnelDb} `{!TunnelDbOk}.
Context (p : PlayerId) (tx : handle) (Hp : p ≠ 0).
Implicit Types (w : world) (t old : tunnel_Model) (ts : list tunnel_Model) (ns : list notice).

Definition notice_message (n : notice) : MessageType :=
  ServerClientModifyTunnelNtf {| mt_is_delete := n.1; mt_tunnel := Some (tunnel_of_model n.2) |}.
Definition notice_body (n : notice) : bytes := message_body 0 (notice_message n).

(** A notice the client takes. *)
Definition notice_ok (n : notice) : Prop :=
  message_ok (notice_message n) ∧ len (notice_body n) < CLIENT_MAX.

Lemma notice_len n : notice_ok n → 0 < len (notice_body n) < CLIENT_MAX.
Proof.
  intros [_ Hl]. split; [|done]. destruct (message_body_some 0 (notice_message n) eq_refl) as (id & bs & _ & _ & _ & ?).
  unfold notice_body. lia.
Qed.

(** The player's connection takes what the server queues, and is no other
    player's. *)
Record listens w : Prop := {
  ls_open : writer_open tx (w_env w);
  ls_player : ∃ h pl, w_player_map w !! p = Some h ∧ w_players w !! h = Some pl ∧ p_tx pl = Some tx;
  ls_sole q h pl : q ≠ p → w_player_map w !! q = Some h → w_players w !! h = Some pl → p_tx pl ≠ Some tx;
  ls_players : players_ok w
}.

Definition queue_of ns : list WMsg := (λ n, Send (frame_of (notice_body n)) true) <$> ns.

(** [m] only sends, and what it sends to the player is [ns]. *)
Definition queues ns (m : M world unit) : Prop := ∀ w, listens w →
  ∃ e, m w = (Ok tt, set_env e w) ∧ writer_open tx e ∧
    writer_queue tx e = writer_queue tx (w_env w) ++ queue_of ns.

Lemma listens_env e w : writer_open tx e → listens w → listens (set_env e w).
Proof. intros He [Ho Hpl Hs Hk]. by split. Qed.

Lemma queues_ret : queues [] (mret tt).
Proof. intros w Hw. exists (w_env w). rewrite app_nil_r. split; [by destruct w|]. by split; [apply Hw|]. Qed.

Lemma queues_bind ns1 ns2 (m1 m2 : M world unit) :
  queues ns1 m1 → queues ns2 m2 → queues (ns1 ++ ns2) (m1;; m2).
Proof.
  intros Hm1 Hm2 w Hw. destruct (Hm1 w Hw) as (e1 & E1 & Ho1 & Q1).
  destruct (Hm2 (set_env e1 w) (listens_env _ _ Ho1 Hw)) as (e2 & E2 & Ho2 & Q2).
  exists e2. rewrite (bind_ok _ _ _ _ _ E1), E2. split; [done|]. split; [done|].
  rewrite Q2. cbn [w_env set_env]. unfold queue_of in *. rewrite fmap_app, app_assoc. f_equal. exact Q1.
Qed.

Lemma queues_when b ns (m : M world unit) :
  (b = true → queues ns m) → queues (if b then ns else []) (when b m).
Proof. intros Hm. destruct b; [by apply Hm|apply queues_ret]. Qed.

Lemma queues_broadcast q t del :
  (q = p → notice_ok (del, t)) → queues (if q =? p then [(del, t)] else []) (broadcast_tunnel_info q t del).
Proof.
  intros Hok w Hw. assert (Hsend : ∀ h pl, w_player_map w !! q = Some h → w_players w !! h = Some pl → q ≠ 0 →
    broadcast_tunnel_info q t del w =
      match p_tx pl with
      | Some tx' => match package_message 0 (notice_message (del, t)) with
                    | Some buf => (Ok tt, set_env (told tx' (Send buf true) (w_env w)) w)
                    | None => (Ok tt, w) end
      | None => (Ok tt, w) end).
  { intros h pl Hm Hpl Hq. unfold broadcast_tunnel_info. destruct (Z.eqb_spec q 0); [done|].
    unfold get_player. rewrite gets_bind, Hm. unfold ignore at 1, player_send_push.
    rewrite (get_player_at_bind _ _ _ _ Hpl). unfold peer_package_and_send_message.
    destruct (p_tx pl) as [tx'|]; [|done]. change (ServerClientModifyTunnelNtf _) with (notice_message (del, t)).
    destruct (package_message 0 (notice_message (del, t))); [|done]. by rewrite (ignore_send_writer tx' _ w). }
  destruct (Z.eqb_spec q p) as [->|Hne].
  - destruct (ls_player w Hw) as (h & pl & Hm & Hpl & Htx). pose proof (notice_len _ (Hok eq_refl)) as Hl.
    rewrite (Hsend h pl Hm Hpl Hp), Htx, package_body by (done || unfold in_u32, CLIENT_MAX, notice_body in *; lia).
    eexists. split; [done|].
    destruct (told_all_queue tx [Send (frame_of (notice_body (del, t))) true] (w_env w) (ls_open w Hw)) as (Ho & Q & _).
    by split.
  - assert (∃ e, broadcast_tunnel_info q t del w = (Ok tt, set_env e w) ∧ writers e !! tx = writers (w_env w) !! tx) as (e & E & He).
    { assert (∃ e, (Ok tt, w) = (Ok tt : outcome unit, set_env e w) ∧ writers e !! tx = writers (w_env w) !! tx) as Hsame
        by (exists (w_env w); by destruct w).
      destruct (decide (q = 0)) as [->|Hq]; [exact Hsame|].
      destruct (w_player_map w !! q) as [h|] eqn:Hm.
      - destruct (ls_players w Hw q h Hm) as [pl Hpl]. rewrite (Hsend h pl eq_refl Hpl Hq).
        destruct (p_tx pl) as [tx'|] eqn:Etx; [|exact Hsame].
        destruct (package_message 0 _) as [buf|]; [|exact Hsame]. eexists. split; [done|].
        unfold told. destruct (writers (w_env w) !! tx'); [|done]. cbn. apply lookup_insert_ne.
        intros ->. by apply (ls_sole w Hw q h pl).
      - unfold broadcast_tunnel_info. destruct (Z.eqb_spec q 0); [done|]. unfold get_player. rewrite gets_bind, Hm.
        exact Hsame. }
    exists e. rewrite app_nil_r. split; [done|]. unfold writer_open, writer_queue. rewrite He.
    split; [apply (ls_open w Hw)|done].
Qed.

Lemma queues_to_ends t del :
  (has_end p t = true → notice_ok (del, t)) →
  queues (if has_end p t then [(del, t)] else []) (broadcast_to_ends t del).
Proof.
  intros Hok. unfold has_end in *.
  assert (queues ((if tm_sender t =? p then [(del, t)] else []) ++
    (if negb (tm_sender t =? tm_receiver t) then if tm_receiver t =? p then [(del, t)] else [] else []))
    (broadcast_to_ends t del)) as Hq.
  { apply queues_bind; [apply queues_broadcast|apply queues_when; intros _; apply queues_broadcast];
      intros E; apply Hok; rewrite E, Z.eqb_refl; by rewrite ?orb_true_r. }
  destruct (Z.eqb_spec (tm_sender t) p), (Z.eqb_spec (tm_receiver t) p), (Z.eqb_spec (tm_sender t) (tm_receiver t));
    try done; congruence.
Qed.

(** *** The calls *)

Lemma same_ends os ins w : listens w → listens (with_ends os ins w).
Proof. intros [Ho Hpl Hs Hk]. by split. Qed.

Lemma listens_tunnels f w : listens w → listens (set_world_tunnels f w).
Proof. intros [Ho Hpl Hs Hk]. by split. Qed.
Lemma listens_db d w : listens w → listens (set_db d w).
Proof. intros [Ho Hpl Hs Hk]. by split. Qed.

(** What follows the notices: the edit and the synchronisation, either first. *)
Lemma queues_edit_sync ns m f w :
  binds_answer → queues ns m → listens w →
  ∃ w', (m;; modify (set_world_tunnels f);; server_sync_tunnels) w = (Ok tt, w') ∧
    w_tunnels w' = f (w_tunnels w) ∧ listens w' ∧
    writer_queue tx (w_env w') = writer_queue tx (w_env w) ++ queue_of ns.
Proof.
  intros Hb Hm Hw. destruct (Hm w Hw) as (e & E & Ho & Q). set (w1 := set_world_tunnels f (set_env e w)).
  destruct (server_sync_runs w1 Hb) as (os & ins & Es). exists (with_ends os ins w1).
  rewrite (bind_ok _ _ _ _ _ E). erewrite bind_ok; [|reflexivity]. split; [exact Es|]. split; [done|].
  split; [|done]. by apply same_ends, listens_tunnels, listens_env.
Qed.

Lemma queues_sync ns m w :
  binds_answer → queues ns m → listens w →
  ∃ w', (m;; server_sync_tunnels) w = (Ok tt, w') ∧ w_tunnels w' = w_tunnels w ∧ listens w' ∧
    writer_queue tx (w_env w') = writer_queue tx (w_env w) ++ queue_of ns.
Proof.
  intros Hb Hm Hw. destruct (Hm w Hw) as (e & E & Ho & Q).
  destruct (server_sync_runs (set_env e w) Hb) as (os & ins & Es). exists (with_ends os ins (set_env e w)).
  rewrite (bind_ok _ _ _ _ _ E). split; [exact Es|]. split; [done|].
  split; [|done]. by apply same_ends, listens_env.
Qed.

(** What both notices of a tunnel need, as it is and with any id the database
    gives it. *)
Definition row_fits t : Prop := ∀ del, notice_ok (del, t).
Definition tunnel_fits t : Prop :=
  ∀ d id d', insert_tunnel t d = (Ok id, d') → row_fits (with_id id t).
Definition call_fits (c : manager_call) : Prop :=
  match c with AddTunnel t => tunnel_fits t | UpdateTunnel t => row_fits t | DeleteTunnel _ => True end.

(** The notices [ns] were queued, and lead from the old table to the new one. *)
Record followed ns w w' : Prop := {
  fo_notices : Forall notice_ok ns;
  fo_listens : listens w';
  fo_queue : writer_queue tx (w_env w') = writer_queue tx (w_env w) ++ queue_of ns;
  fo_table : apply_notices ns (player_table p (w_tunnels w)) = player_table p (w_tunnels w');
  fo_fits : Forall row_fits (w_tunnels w')
}.

(** A call that reaches only the database. *)
Lemma followed_same w w' :
  listens w → Forall row_fits (w_tunnels w) →
  (w_env w', w_players w', w_player_map w', w_tunnels w') = (w_env w, w_players w, w_player_map w, w_tunnels w) →
  ∃ ns, followed ns w w'.
Proof.
  intros [Ho Hpl Hs Hk] Hf [= Ee Ep Em Et]. exists []. split; [done| | |by rewrite Et|by rewrite Et].
  - split; unfold players_ok; by rewrite ?Ee, ?Ep, ?Em.
  - by rewrite Ee, app_nil_r.
Qed.

Lemma Forall_if (b : bool) ns : (b = true → Forall notice_ok ns) → Forall notice_ok (if b then ns else []).
Proof. intros H'. destruct b; [by apply H'|done]. Qed.

Lemma add_followed t w :
  binds_answer → manager_ok w → listens w → Forall row_fits (w_tunnels w) →
  tm_id t = 0 → tunnel_fits t → ∃ ns, followed ns w (snd (add_tunnel t w)).
Proof.
  intros Hb Hm Hw Hf Ht Hfit. unfold add_tunnel, add_apply.
  destruct (detection_eq t w) as [e E]. unfold mbind at 1, M_bind at 1. rewrite E.
  destruct (acceptable w t) eqn:Ha; [|by apply followed_same].
  unfold mbind at 1, M_bind at 1. unfold db_exec.
  pose proof (insert_ok t (w_db w)) as Hi. specialize (Hfit (w_db w)).
  destruct (insert_tunnel t (w_db w)) as [[id| | |] d']; [|by apply followed_same..].
  specialize (Hfit _ _ eq_refl). destruct Hi as (Hid & Hnew & _ & _). set (t' := with_id id t).
  destruct (queues_edit_sync _ _ (λ ts, ts ++ [t']) (set_db d' w) Hb
    (queues_to_ends t' false (λ _, Hfit false)) (listens_db d' w Hw)) as (w' & -> & Hts & Hl & Q).
  cbn [snd]. change (w_tunnels (set_db d' w)) with (w_tunnels w) in Hts.
  exists (if has_end p t' then [(false, t')] else []). destruct Hm as [(Hnd & _) Hk].
  assert (tm_id t' ∉ (tm_id <$> w_tunnels w)) as Hn.
  { intros (x & Hx & Hin)%list_elem_of_fmap. apply Hnew. change (tm_id t') with id in Hx. rewrite Hx. by apply Hk. }
  split; [|exact Hl|exact Q| |].
  - apply Forall_if. intros _. by apply Forall_singleton, Hfit.
  - rewrite Hts, player_table_app by done. by destruct (has_end p t').
  - rewrite Hts. apply Forall_app. split; [done|]. by apply Forall_singleton, Hfit.
Qed.

Lemma delete_followed id w :
  binds_answer → manager_ok w → listens w → Forall row_fits (w_tunnels w) →
  ∃ ns, followed ns w (snd (delete_tunnel id w)).
Proof.
  intros Hb [(Hnd & _) _] Hw Hf. unfold delete_tunnel. unfold mbind at 1, M_bind at 1. unfold db_exec.
  destruct (delete_tunnel_by_id id (w_db w)) as [[n| | |] d']; [|by apply followed_same..].
  destruct (Z.eqb_spec n 1) as [->|Hn]; [|by apply followed_same]. cbn [negb]. rewrite gets_bind.
  cbn [w_tunnels set_db].
  destruct (position id (w_tunnels w)) as [i|] eqn:Hi; [|by apply followed_same].
  destruct (position_Some _ _ _ Hi) as (t & Ht & Hid). apply list_elem_of_lookup_2 in Ht as Hin.
  set (w1 := set_world_tunnels (delete i) (set_db d' w)).
  rewrite (bind_ok _ _ _ t w1) by (cbn; by rewrite (index_lookup _ _ t Ht)).
  assert (row_fits t) as Hfit by (rewrite Forall_forall in Hf; by apply Hf).
  destruct (queues_sync _ _ w1 Hb (queues_to_ends t true (λ _, Hfit true))
    (listens_tunnels _ _ (listens_db d' w Hw))) as (w' & -> & Hts & Hl & Q).
  assert (w_tunnels w' = without id (w_tunnels w)) as Ew by (rewrite Hts; cbn; by apply delete_at_position).
  cbn [snd]. exists (if has_end p t then [(true, t)] else []). split; [|exact Hl|exact Q| |].
  - apply Forall_if. intros _. apply Forall_singleton, Hfit.
  - rewrite Ew, player_table_without by done. destruct (has_end p t) eqn:E.
    + cbn. by rewrite Hid.
    + symmetry. apply delete_id. rewrite <- Hid. by apply player_table_no_end.
  - rewrite Ew. rewrite Forall_forall in *. intros x [_ Hx]%list_elem_of_filter. by apply Hf.
Qed.

(** The notices of an update to the player. *)
Lemma queues_update old t :
  row_fits t →
  ∃ ns, Forall notice_ok ns ∧
    queues ns (when (negb (tm_sender old =? tm_sender t)) (broadcast_tunnel_info (tm_sender old) t true);;
      (when (negb (tm_receiver old =? tm_sender t)) (broadcast_tunnel_info (tm_receiver old) t true);;
       broadcast_to_ends t false)) ∧
    ∀ tbl, (has_end p old = false → tbl !! tm_id t = None) →
      apply_notices ns tbl = if has_end p t then <[tm_id t := tunnel_of_model t]> tbl else delete (tm_id t) tbl.
Proof.
  intros Hf. eexists. split; [|split].
  2:{ apply queues_bind; [apply queues_when; intros _; apply queues_broadcast; intros _; apply Hf|].
      apply queues_bind; [apply queues_when; intros _; apply queues_broadcast; intros _; apply Hf|].
      apply queues_to_ends. intros _. apply Hf. }
  { repeat (apply Forall_app; split); repeat (apply Forall_if; intros _); apply Forall_singleton, Hf. }
  intros tbl Hn. unfold has_end in *.
  assert (∀ x : Tunnel, <[tm_id t := x]> (delete (tm_id t) tbl) = <[tm_id t := x]> tbl) as Hid
    by (intros x; apply insert_delete_eq).
  assert (delete (tm_id t) (delete (tm_id t) tbl) = delete (tm_id t) tbl) as Hdd
    by (apply delete_id, lookup_delete_eq).
  destruct (Z.eqb_spec (tm_sender old) (tm_sender t)), (Z.eqb_spec (tm_receiver old) (tm_sender t)),
    (Z.eqb_spec (tm_sender old) p), (Z.eqb_spec (tm_receiver old) p), (Z.eqb_spec (tm_sender t) p),
    (Z.eqb_spec (tm_receiver t) p); cbn [negb orb app apply_notices fold_left apply_notice fst snd] in *;
    rewrite ?Hdd, ?Hid; try done; try congruence; symmetry; apply delete_id; by apply Hn.
Qed.

Lemma update_followed t w :
  binds_answer → manager_ok w → listens w → Forall row_fits (w_tunnels w) → row_fits t →
  ∃ ns, followed ns w (snd (update_tunnel t w)).
Proof.
  intros Hb [(Hnd & _) _] Hw Hf Hfit. unfold update_tunnel, update_position. rewrite bind_assoc.
  destruct (detection_eq t w) as [e E]. unfold mbind at 1, M_bind at 1. rewrite E.
  destruct (acceptable w t) eqn:Ha; [|by apply followed_same]. rewrite gets_bind.
  destruct (position (tm_id t) (w_tunnels w)) as [i|] eqn:Hi; [|by apply followed_same].
  unfold mbind at 1, M_bind at 1. unfold update_database, mbind at 1, M_bind at 1, db_query.
  destruct (find_tunnel_by_id (tm_id t) (w_db w)) as [[row|]| | |]; [|by apply followed_same..].
  unfold db_exec. destruct (update_tunnel_row t (w_db w)) as [[[]| | |] d']; [|by apply followed_same..].
  destruct (position_Some _ _ _ Hi) as (old & Hold & Hid). apply list_elem_of_lookup_2 in Hold as Hin.
  destruct (queues_update old t Hfit) as (ns & Hns & Hq & Happ). set (w0 := set_db d' w).
  assert (update_apply i t w0 = ((when (negb (tm_sender old =? tm_sender t)) (broadcast_tunnel_info (tm_sender old) t true);;
      (when (negb (tm_receiver old =? tm_sender t)) (broadcast_tunnel_info (tm_receiver old) t true);;
       broadcast_to_ends t false));; modify (set_world_tunnels <[i := t]>);; server_sync_tunnels) w0) as ->.
  { unfold update_apply. rewrite (bind_ok _ _ _ old w0) by (cbn; by rewrite (index_lookup _ _ old Hold)).
    rewrite !bind_assoc. unfold mbind, M_bind. destruct (when _ _ w0) as [[] w1]; [|done..].
    by destruct (when _ _ w1) as [[] ?]. }
  destruct (queues_edit_sync ns _ <[i := t]> w0 Hb Hq (listens_db d' w Hw)) as (w' & -> & Hts & Hl & Q).
  assert (w_tunnels w' = replace_tunnel t (w_tunnels w)) as Ew by (rewrite Hts; by apply insert_at_position).
  cbn [snd]. exists ns. split; [exact Hns|exact Hl|exact Q| |].
  - rewrite Ew, (player_table_replace p _ t old) by done. apply Happ. intros He.
    rewrite <- Hid. by apply player_table_no_end.
  - rewrite Ew. unfold replace_tunnel. apply Forall_fmap, (Forall_impl _ _ _ Hf). intros x Hx.
    change (row_fits (if decide (tm_id x = tm_id t) then t else x)).
    destruct (decide (tm_id x = tm_id t)); [exact Hfit|exact Hx].
Qed.
End Notices.

(** ** What the client makes of the list and of a notice *)

Section ClientSide.
Context `{AsyncWrite} `{Prost} `{Json} `{InletOs} `{HashMapOrder}.
Implicit Types (c : client) (ts : list Tunnel) (tbl : gmap u32 Tunnel).

(** A table keyed by its tunnels' ids. *)
Definition keyed tbl : Prop := ∀ k t, tbl !! k = Some t → tn_id t = k.

(** Every tunnel of the table has its ends at this client: an outlet, and an
    inlet unless it does not start. *)
Record ends_run c : Prop := {
  er_outlet k t : c_tunnels c !! k = Some t → sends (c_player_id c) t = true →
    ∃ e, c_outlets c !! k = Some e ∧ oe_description e = outlet_description t;
  er_inlet k t : c_tunnels c !! k = Some t → receives (c_player_id c) t = true →
    (∃ e, c_inlets c !! k = Some e ∧ ie_description e = inlet_description t) ∨
    c_inlets c !! k = None ∧ started_inlet (c_player_id c) t = None
}.

Lemma keyed_apply tbl n : keyed tbl → keyed (apply_notice tbl n).
Proof.
  intros Hk k t. unfold apply_notice. destruct n.1.
  - intros [_ Ht]%lookup_delete_Some. by apply Hk.
  - intros [[<- <-]|[_ Ht]]%lookup_insert_Some; [done|by apply Hk].
Qed.

Lemma keyed_ids tbl ts : keyed tbl → ts ≡ₚ (map_to_list tbl).*2 → NoDup (tn_id <$> ts).
Proof.
  intros Hk ->. assert (tn_id <$> (map_to_list tbl).*2 = (map_to_list tbl).*1) as ->; [|apply NoDup_fst_map_to_list].
  rewrite <- list_fmap_compose. apply list_fmap_ext. intros i [k t] Hi. cbn.
  apply Hk, elem_of_map_to_list. by eapply list_elem_of_lookup_2.
Qed.

Lemma wanted_in (f : Tunnel → bool) ts t :
  NoDup (tn_id <$> ts) → t ∈ ts → f t = true → wanted tn_id f ts (tn_id t) = Some t.
Proof.
  induction ts as [|u ts IH]; [by intros _ ?%not_elem_of_nil|]. cbn. intros [Hn Hnd]%NoDup_cons Ht Hf.
  apply elem_of_cons in Ht as [->|Ht]; [by rewrite Z.eqb_refl, Hf|].
  destruct (Z.eqb_spec (tn_id t) (tn_id u)) as [E|_]; [|by apply IH].
  destruct Hn. rewrite <- E. by apply list_elem_of_fmap_2.
Qed.

Lemma started_description p (t : Tunnel) e : started_inlet p t = Some e → ie_description e = inlet_description t.
Proof.
  unfold started_inlet. destruct (from_u32 _); [|done]. by destruct (fst (inlet_start _ _ _)) as [[]| | |]; intros [= <-].
Qed.

(** Synchronising with a list gives its tunnels their ends. *)
Lemma sync_runs ts c tbl :
  binds_answer → NoDup (tn_id <$> ts) → (∀ k t, tbl !! k = Some t → t ∈ ts ∧ tn_id t = k) →
  ∃ c', sync_tunnels ts c = (Ok tt, c') ∧ c_player_id c' = c_player_id c ∧ c_tunnels c' = c_tunnels c ∧
    ends_run (set_tunnels (λ _, tbl) c').
Proof.
  intros Hb Hnd Htbl. destruct (sync_tunnels_eq ts c Hb Hnd) as (os & ins & E & Ho & Hi).
  eexists. split; [exact E|]. split; [done|]. split; [done|]. split; intros k t Ht; cbn in Ht |- *;
    destruct (Htbl k t Ht) as [Hin <-]; intros Hs.
  - rewrite Ho. unfold expected_outlet, expected. rewrite wanted_in by done.
    destruct (c_outlets c !! tn_id t) as [e|]; [case_decide; by eexists|by eexists].
  - rewrite Hi. unfold expected_inlet, expected. rewrite wanted_in by done.
    assert (∀ o, o = started_inlet (c_player_id c) t →
      (∃ e, o = Some e ∧ ie_description e = inlet_description t) ∨
      o = None ∧ started_inlet (c_player_id c) t = None) as Hst.
    { intros [e|] E'; [left|by right]. exists e. split; [done|]. by apply (started_description (c_player_id c)). }
    destruct (c_inlets c !! tn_id t) as [e|]; [case_decide; [left; by eexists|by apply Hst]|by apply Hst].
Qed.

Definition notice_step (n : notice) c : client :=
  snd (on_server_client_modify_tunnel_ntf
    {| mt_is_delete := n.1; mt_tunnel := Some (tunnel_of_model n.2) |} c).

Lemma notice_handled n c :
  binds_answer → keyed (c_tunnels c) → ends_run c →
  on_server_client_modify_tunnel_ntf {| mt_is_delete := n.1; mt_tunnel := Some (tunnel_of_model n.2) |} c =
    (Ok tt, notice_step n c) ∧
  c_player_id (notice_step n c) = c_player_id c ∧
  c_tunnels (notice_step n c) = apply_notice (c_tunnels c) n ∧ ends_run (notice_step n c).
Proof.
  intros Hb Hk Hrun. destruct n as [[] t]; unfold notice_step, on_server_client_modify_tunnel_ntf;
    cbn [fst snd mt_is_delete mt_tunnel]; (erewrite bind_ok; [|reflexivity]).
  - cbn. split; [done|]. split; [done|]. split; [done|]. split; intros k u; cbn;
      intros [_ Hu]%lookup_delete_Some; by apply Hrun.
  - erewrite bind_ok; [|reflexivity]. rewrite gets_bind. set (x := tunnel_of_model t).
    set (c1 := set_tunnels <[tn_id x := x]> (set_tunnels (delete (tn_id x)) c)).
    assert (c_tunnels c1 = apply_notice (c_tunnels c) (false, t)) as E1 by (cbn; apply insert_delete_eq).
    assert (keyed (c_tunnels c1)) as Hk1 by (rewrite E1; by apply keyed_apply).
    destruct (sync_runs (tunnels_iter (c_tunnels c1)) c1 (c_tunnels c1) Hb) as (c' & E & Hp & Ht & Hr).
    + apply (keyed_ids (c_tunnels c1)); [done|apply tunnels_iter_perm].
    + intros k u Hu. split; [|by apply Hk1]. rewrite tunnels_iter_perm. apply list_elem_of_fmap.
      exists (k, u). split; [done|]. by apply elem_of_map_to_list.
    + rewrite E. cbn [snd]. split; [done|]. split; [by rewrite Hp|]. split; [by rewrite Ht|].
      rewrite <- Ht in Hr. replace (set_tunnels _ c') with c' in Hr; [done|]. by destruct c'.
Qed.

(** A notice's frame. *)
Lemma notice_received n c :
  binds_answer → notice_ok n → c_player_id c ≠ 0 → keyed (c_tunnels c) → ends_run c →
  Client.on_recv_frame (notice_body n) c = (Ok tt, notice_step n c).
Proof.
  intros Hb [Hok _] Hp Hk Hr.
  destruct (parse_message_body 0 (notice_message n) eq_refl Hok) as (id & bs & Ep & Ed & El); [done|].
  unfold Client.on_recv_frame, notice_body. rewrite El, Ep, lift_bind, Ed, lift_bind.
  unfold handle_message. rewrite gets_bind. destruct (Z.eqb_spec (c_player_id c) 0); [done|].
  cbn [Z.eqb]. by apply notice_handled.
Qed.
End ClientSide.

(** ** A login *)

Section Login.
Context `{Prost} `{Json} `{Unicode} `{InletOs} `{TunnelDb} `{!TunnelDbOk} `{Rng} `{!PeerOs} `{AsyncWrite} `{HashMapOrder}.
Implicit Types (w : world) (c : client) (pe : Peer).

Definition login_request c : client_server_LoginReq :=
  {| lq_version := "0.0.0"; lq_username := c_username c; lq_password := c_password c |}.
Definition login_body c : bytes := message_body (-1) (ClientServerLoginReq (login_request c)).
Definition ack_body (p : PlayerId) w : bytes := message_body 1 (login_ack p w).

(** The server once it has answered the login of [u], found at [h]. *)
Definition logged_in (u : user_Model) (h : handle) (pl : Player) (tx : handle) pe w : world :=
  let w1 := set_players <[h := connected pl (pr_session_id pe) tx]> (set_env (hang_up pl (w_env w)) w) in
  set_env (told tx (Send (frame_of (ack_body (um_id u) w)) true) (w_env w1)) w1.

Lemma login_served c pe w fw u h pl tx :
  message_ok (ClientServerLoginReq (login_request c)) → in_u32 (len (ack_body (um_id u) w)) →
  find_login (c_username c) (c_password c) (w_db w) = Ok (Some u) →
  w_player_map w !! um_id u = Some h → w_players w !! h = Some pl →
  pr_player pe = None → pr_tx pe = Some tx →
  peer_on_recv_frame (login_body c) (PeerD pe w fw) =
    (Ok tt, PeerD (upd_player (Some h) pe) (logged_in u h pl tx pe w) fw).
Proof.
  intros Hok Hl Hu Hm Hpl Hpe Htx.
  destruct (parse_message_body (-1) (ClientServerLoginReq (login_request c)) eq_refl Hok)
    as (id & bs & Ep & Ed & El); [by unfold in_i32|].
  unfold peer_on_recv_frame, login_body. rewrite El, Ep, lift_bind, Ed.
  unfold answer_message. assert (peer_handle_message (-1) (ClientServerLoginReq (login_request c)) (PeerD pe w fw) =
    (Ok (login_ack (um_id u) w), PeerD (upd_player (Some h) pe)
       (set_players <[h := connected pl (pr_session_id pe) tx]> (set_env (hang_up pl (w_env w)) w)) fw)) as ->.
  { change (peer_handle_message (-1) (ClientServerLoginReq (login_request c)))
      with (on_login_request (login_request c)). by apply login_run. }
  unfold answer_request. cbn [Z.ltb Z.compare message_is_none login_ack]. unfold send_response.
  rewrite gets_bind. cbn [pe_self upd_player pr_tx Z.ltb Z.compare]. rewrite Htx.
  unfold peer_package_and_send_message. change (as_i32 (- -1)) with 1.
  change (ServerClientLoginAck _) with (login_ack (um_id u) w).
  rewrite package_body by done. unfold logged_in.
  rewrite (ignore_send_writer tx _ (PeerD (upd_player (Some h) pe) _ fw)). done.
Qed.

(** The peer reads the request in any pieces. *)
Lemma login_served_stream cs closed c pe w fw u h pl tx :
  message_ok (ClientServerLoginReq (login_request c)) → len (login_body c) < SERVER_MAX →
  in_u32 (len (ack_body (um_id u) w)) →
  find_login (c_username c) (c_password c) (w_db w) = Ok (Some u) →
  w_player_map w !! um_id u = Some h → w_players w !! h = Some pl →
  pr_player pe = None → pr_tx pe = Some tx → traffic_forward_writer pe = None →
  pieces cs (frame_of (login_body c)) →
  poll_read peer_try_extract_frame peer_on_recv_frame closed (Bytes <$> cs) [] (PeerD pe w fw) =
    (Ok [], PeerD (upd_player (Some h) pe) (logged_in u h pl tx pe w) fw).
Proof.
  intros Hok Hlen Hl Hu Hm Hpl Hpe Htx Hf Hcs.
  set (d0 := PeerD pe w fw). set (d1 := PeerD (upd_player (Some h) pe) (logged_in u h pl tx pe w) fw).
  set (I := λ (fs : list unit) d, (fs = [tt] ∧ d = d0) ∨ (fs = [] ∧ d = d1)).
  assert (Framed peer_try_extract_frame peer_on_recv_frame I (λ _, True) (λ _, frame_of (login_body c))
            (λ _, login_body c) (λ _ _, d1)) as Hfr.
  { apply peer_framed.
    - by intros fs d [[_ ->]|[_ ->]].
    - intros _ _. split; [|done]. unfold login_body.
      destruct (message_body_some (-1) (ClientServerLoginReq (login_request c)) eq_refl) as (? & ? & _ & _ & _ & ?). lia.
    - intros [] fs d _ [[[= ->] ->]|[? _]]; [|done]. split; [by apply login_served|by right]. }
  apply (poll_read_stream peer_try_extract_frame peer_on_recv_frame I (λ _, True) (λ _, frame_of (login_body c))
           (λ _, login_body c) (λ _ _, d1) closed cs [tt]); [by repeat constructor|by left|].
  cbn. by rewrite app_nil_r.
Qed.

Lemma login_sent `{!Wire} c :
  in_u32 (len (login_body c)) →
  ∃ wr, send_login c = (Ok tt, set_writer wr c) ∧ wire wr = wire (c_writer c) ++ frame_of (login_body c).
Proof.
  intros Hl. destruct (wire_write (frame_of (login_body c)) (c_writer c)) as (wr & E & Hw).
  exists wr. split; [|done]. unfold send_login. rewrite gets_bind. unfold package_and_send_message.
  change (ClientServerLoginReq _) with (ClientServerLoginReq (login_request c)).
  rewrite package_body by done. fold (login_body c). by rewrite E.
Qed.

(** A new connection: no player has it. *)
Definition fresh_writer (tx : handle) w : Prop :=
  writer_open tx (w_env w) ∧ ∀ h pl, w_players w !! h = Some pl → p_tx pl ≠ Some tx.

(** After the login the connection is the player's. *)
Lemma logged_in_listens u h pl tx pe w :
  server_ok w → fresh_writer tx w → w_player_map w !! um_id u = Some h → w_players w !! h = Some pl →
  listens (um_id u) tx (logged_in u h pl tx pe w) ∧
  writer_queue tx (w_env (logged_in u h pl tx pe w)) =
    writer_queue tx (w_env w) ++ [Send (frame_of (ack_body (um_id u) w)) true].
Proof.
  intros Hw [Ho Hfresh] Hm Hpl. unfold logged_in. cbv zeta. cbn [w_env set_players set_env].
  assert (writers (hang_up pl (w_env w)) !! tx = writers (w_env w) !! tx) as Hh.
  { unfold hang_up. destruct (p_tx pl) as [t|] eqn:Et; [|done]. destruct (is_online pl); [|done].
    unfold told. destruct (writers (w_env w) !! t); [|done]. cbn. apply lookup_insert_ne.
    intros ->. by apply (Hfresh h pl). }
  assert (writer_open tx (hang_up pl (w_env w))) as Ho' by (unfold writer_open; by rewrite Hh).
  destruct (told_all_queue tx [Send (frame_of (ack_body (um_id u) w)) true] _ Ho') as (Ho2 & Q & _).
  cbn [told_all fold_left] in Ho2, Q. split; [|etrans; [exact Q|]; unfold writer_queue; by rewrite Hh].
  split; [exact Ho2| | |].
  - exists h, (connected pl (pr_session_id pe) tx). split; [done|]. split; [apply lookup_insert_eq|done].
  - intros q h' pl' Hne Hm' Hpl'. change (w_player_map w !! q = Some h') in Hm'.
    change (<[h := connected pl (pr_session_id pe) tx]> (w_players w) !! h' = Some pl') in Hpl'.
    apply lookup_insert_Some in Hpl' as [[<- <-]|[_ Hpl']]; [|by apply (Hfresh h')].
    exfalso. destruct (so_map w Hw _ _ Hm) as (x & Hx & Hid), (so_map w Hw _ _ Hm') as (y & Hy & Hid').
    congruence.
  - intros q h' Hm'. change (w_player_map w !! q = Some h') in Hm'.
    change (is_Some (<[h := connected pl (pr_session_id pe) tx]> (w_players w) !! h')). destruct (decide (h = h')) as [->|].
    + rewrite lookup_insert_eq. by eexists.
    + rewrite lookup_insert_ne by done. by apply (server_players_ok w Hw q).
Qed.

(** *** The client *)

Definition login_step (p : PlayerId) w c : client :=
  snd (handle_message 1 (login_ack p w) c).

Lemma login_received p w c :
  binds_answer → NoDup (tm_id <$> w_tunnels w) → p ≠ 0 → message_ok (login_ack p w) → c_player_id c = 0 →
  Client.on_recv_frame (ack_body p w) c = (Ok tt, login_step p w c) ∧
  c_player_id (login_step p w c) = p ∧
  c_tunnels (login_step p w c) = player_table p (w_tunnels w) ∧ ends_run (login_step p w c).
Proof.
  intros Hb Hnd Hp Hok Hc. set (ts := base.filter (λ t, has_end p t = true) (w_tunnels w)).
  assert (login_ack p w = ServerClientLoginAck {| la_player_id := p; la_tunnel_list := tunnel_of_model <$> ts |}) as Ea.
  { unfold login_ack, ts. do 3 f_equal. apply filter_ext_in. intros t _. unfold has_end.
    by rewrite orb_true_iff, !Z.eqb_eq. }
  assert (NoDup (tn_id <$> (tunnel_of_model <$> ts))) as Hids.
  { rewrite <- list_fmap_compose. by apply (filter_ids_NoDup (λ t, has_end p t = true)). }
  set (c1 := set_player_id p c).
  destruct (sync_runs (tunnel_of_model <$> ts) c1 (player_table p (w_tunnels w)) Hb Hids) as (c' & E & Hp' & Ht & Hr).
  { intros k x. rewrite player_table_lookup by done. intros (t & Hin & He & <- & ->). split; [|done].
    apply list_elem_of_fmap_2, list_elem_of_filter. done. }
  assert (handle_message 1 (login_ack p w) c =
    (Ok tt, set_tunnels (λ _, player_table p (w_tunnels w)) c')) as Eh.
  { rewrite Ea. unfold handle_message. rewrite gets_bind, Hc. cbn [Z.eqb Z.ltb Z.compare la_player_id la_tunnel_list].
    erewrite bind_ok; [|reflexivity]. rewrite (bind_ok _ _ _ _ _ E). unfold modify.
    by rewrite <- (collect_player_table p _ Hnd). }
  destruct (parse_message_body 1 (login_ack p w) eq_refl Hok) as (id & bs & Ep & Ed & El); [done|].
  unfold login_step. rewrite Eh. cbn [snd]. split.
  - unfold Client.on_recv_frame, ack_body. rewrite El, Ep, lift_bind, Ed, lift_bind. exact Eh.
  - split; [done|]. split; [done|exact Hr].
Qed.

(** What the client reads: the acknowledgement, then notices. *)
Definition after_login (p : PlayerId) w (f : option notice) : bytes :=
  match f with None => ack_body p w | Some n => notice_body n end.

Lemma client_follows p w ns cs c :
  binds_answer → NoDup (tm_id <$> w_tunnels w) → p ≠ 0 → message_ok (login_ack p w) →
  len (ack_body p w) < CLIENT_MAX → Forall notice_ok ns → c_player_id c = 0 →
  pieces cs (mjoin ((λ f, frame_of (after_login p w f)) <$> (None :: (Some <$> ns)))) →
  ∃ c', run (Bytes <$> cs) c = (Ok tt, c') ∧ c_player_id c' = p ∧
    c_tunnels c' = apply_notices ns (player_table p (w_tunnels w)) ∧ ends_run c'.
Proof.
  intros Hb Hnd Hp Hok Hlen Hns Hc Hcs.
  set (tbl := apply_notices ns (player_table p (w_tunnels w))).
  set (I := λ (fs : list (option notice)) c,
    (fs = None :: (Some <$> ns) ∧ c_player_id c = 0) ∨
    ∃ ns', fs = Some <$> ns' ∧ c_player_id c = p ∧ keyed (c_tunnels c) ∧ ends_run c ∧
      apply_notices ns' (c_tunnels c) = tbl).
  set (step := λ (f : option notice) c, match f with None => login_step p w c | Some n => notice_step n c end).
  destruct (run_stream I (λ f, from_option notice_ok True f) (after_login p w) step cs
    (None :: (Some <$> ns)) c) as [E HI]; [| | | |exact Hcs|].
  - intros [n|] Hf; [by apply notice_len|]. split; [|done].
    unfold after_login, ack_body.
    destruct (message_body_some 1 (login_ack p w) eq_refl) as (? & ? & _ & _ & _ & ?). lia.
  - intros f fs c0 Hf [[[= -> ->] Hc0]|(ns' & Efs & Hid & Hk & Hr & Ht)].
    + destruct (login_received p w c0 Hb Hnd Hp Hok Hc0) as (E & Hid & Ht & Hr). split; [exact E|]. right.
      exists ns. cbn [step]. rewrite Ht. split; [done|]. split; [done|]. split; [|done].
      intros k x. rewrite player_table_lookup by done. by intros (t & _ & _ & <- & ->).
    + destruct ns' as [|n ns']; [done|]. injection Efs as -> ->. cbn [step from_option] in *.
      split; [apply notice_received; by rewrite ?Hid|]. right. exists ns'.
      destruct (notice_handled n c0 Hb Hk Hr) as (_ & Hid' & Ht' & Hr'). rewrite Hid', Ht'.
      split; [done|]. split; [done|]. split; [by apply keyed_apply|]. by split.
  - constructor; [done|]. by apply Forall_fmap.
  - by left.
  - eexists. split; [exact E|]. destruct HI as [[? _]|(ns' & Efs & Hid & _ & Hr & Ht)]; [done|].
    destruct ns'; [|done]. cbn in Ht. by rewrite <- Ht.
Qed.
End Login.

Section Calls.
Context `{Prost} `{Json} `{Unicode} `{InletOs} `{TunnelDb} `{!TunnelDbOk}.

Lemma calls_followed p tx cs (w : world) :
  p ≠ 0 → binds_answer → manager_ok w → listens p tx w → Forall row_fits (w_tunnels w) →
  Forall call_ok cs → Forall call_fits cs → ∃ ns, followed p tx ns w (manager_run cs w).
Proof.
  intros Hp Hb Hm Hl Hf Hcs Hfit. revert w Hm Hl Hf.
  induction cs as [|c cs IH]; intros w Hm Hl Hf; [by apply followed_same|].
  apply Forall_cons in Hcs as [Hc Hcs], Hfit as [Hcf Hfit].
  assert (∃ ns, followed p tx ns w (snd (manager_exec c w))) as [ns1 [Hn1 Hl1 Q1 Ht1 Hf1]].
  { destruct c as [t|id|t]; [by apply add_followed|by apply delete_followed|by apply update_followed]. }
  destruct (IH Hcs Hfit (snd (manager_exec c w))) as [ns2 [Hn2 Hl2 Q2 Ht2 Hf2]];
    [by apply manager_exec_ok|done|done|].
  exists (ns1 ++ ns2). change (manager_run (c :: cs) w) with (manager_run cs (snd (manager_exec c w))).
  split; [by apply Forall_app|done| | |done].
  - rewrite Q2, Q1, <- app_assoc. unfold queue_of. by rewrite fmap_app.
  - unfold apply_notices in *. by rewrite fold_left_app, Ht1.
Qed.
End Calls.

(** ** Properties

    The server's operating system is [OS], the client's [OC]. *)

Section FollowProperties.
Context `{Prost} `{Json} `{Unicode} `{TunnelDb} `{!TunnelDbOk} `{Rng} `{!PeerOs} `{HashMapOrder}.
Context (WC WS : AsyncWrite) (wire_c : @Wire WC) (buffer_s : @BufWriter WS) (OS OC : InletOs).
#[local] Existing Instances wire_c buffer_s.
Abbreviation server_run := (manager_run (H2 := OS)).
Abbreviation client_run := (run (H1 := OC)).

(** C5: A client follows the server. From its login on, whatever an
    administrator adds, deletes and changes, with whatever outcome, once the
    client has read what the server queued for it and wrote behind its buffered
    writer (the request and the answers each in whatever pieces the connections
    deliver them) its table of tunnels
    is exactly the server's rows that name it, and every tunnel of it has its
    ends there, an inlet unless its listener could not be started. *)
Theorem client_follows_server (c : @client WC) pe (w : world) fw u h pl tx (cs : list manager_call) closed (wr : @writer WS) :
  binds_answer (H := OS) → binds_answer (H := OC) → server_ok w → fresh_writer tx w →
  c_player_id c = 0 → message_ok (ClientServerLoginReq (login_request c)) → len (login_body c) < SERVER_MAX →
  find_login (c_username c) (c_password c) (w_db w) = Ok (Some u) → um_id u ≠ 0 →
  w_player_map w !! um_id u = Some h → w_players w !! h = Some pl →
  pr_player pe = None → pr_tx pe = Some tx → traffic_forward_writer pe = None →
  message_ok (login_ack (um_id u) w) → len (ack_body (um_id u) w) < CLIENT_MAX →
  Forall row_fits (w_tunnels w) → Forall call_ok cs → Forall call_fits cs →
  writer_accepts (H := WS) → buffered wr = [] →
  ∃ request wr1 w1 answers wr2 stream,
    send_login c = (Ok tt, set_writer wr1 c) ∧ wire wr1 = wire (c_writer c) ++ request ∧
    (∀ ps, pieces ps request →
      poll_read peer_try_extract_frame peer_on_recv_frame closed (Bytes <$> ps) [] (PeerD pe w fw) =
        (Ok [], PeerD (upd_player (Some h) pe) w1 fw)) ∧
    w_tunnels w1 = w_tunnels w ∧
    writer_queue tx (w_env (server_run cs w1)) = writer_queue tx (w_env w) ++ answers ∧
    (∃ log, poll_write answers (Pw wr []) = (Ok (Continue, []), Pw wr2 log) ∧
      delivered wr2 = delivered wr ++ stream) ∧
    (∀ ps, pieces ps stream → ∃ c', client_run (Bytes <$> ps) (set_writer wr1 c) = (Ok tt, c') ∧
      c_player_id c' = um_id u ∧
      c_tunnels c' = player_table (um_id u) (w_tunnels (server_run cs w1)) ∧ ends_run (H2 := OC) c').
Proof.
  intros Hbs Hbc Hw Hfresh Hc Hreq Hreql Hu Hpid Hm Hpl Hpe Htx Hf Hack Hackl Hrows Hcs Hfit Hacc Hbuf.
  set (p := um_id u). set (w1 := logged_in u h pl tx pe w).
  destruct (logged_in_listens u h pl tx pe w Hw Hfresh Hm Hpl) as [Hl1 Q1]. fold p w1 in Hl1, Q1.
  destruct (login_sent c) as (wr1 & Es & Hw1).
  { unfold in_u32, SERVER_MAX in *. pose proof (len_nonneg (login_body c)). lia. }
  destruct (calls_followed (H2 := OS) p tx cs w1 Hpid Hbs) as [ns [Hns _ Q2 Ht _]]; [exact (so_manager w Hw)|done..|].
  set (fs := None :: (Some <$> ns)).
  destruct (poll_write_sends (Cb := ProxyMessage) ((λ f, frame_of (after_login p w f)) <$> fs) wr [] Hacc Hbuf)
    as (wr2 & log & Ew & Hw2 & _).
  exists (frame_of (login_body c)), wr1, w1, ((λ d, Send d true) <$> ((λ f, frame_of (after_login p w f)) <$> fs)),
    wr2, (mjoin ((λ f, frame_of (after_login p w f)) <$> fs)).
  split; [exact Es|]. split; [exact Hw1|]. split.
  { intros ps Hps. apply (login_served_stream ps closed c pe w fw u h pl tx); try done.
    unfold in_u32, CLIENT_MAX in *. pose proof (len_nonneg (ack_body (um_id u) w)). lia. }
  split; [done|]. split; [|split; [by exists log|]].
  - rewrite Q2, Q1, <- app_assoc. f_equal. unfold fs, queue_of. cbn. f_equal.
    rewrite <- !list_fmap_compose. by apply list_fmap_ext.
  - intros ps Hps. rewrite <- Ht. destruct Hw as [[(Hnd & _) _] _ _ _].
    by apply (client_follows p w ns ps (set_writer wr1 c)).
Qed.
End FollowProperties.

(** ** A concrete run, for the witness *)

Module FollowConcrete.
Import PlayersConcrete.
#[export] Existing Instances Concrete.rand ProstConcrete.prost PlayersConcrete.users
  TunnelsConcrete.json TunnelsConcrete.unicode NetConcrete.sink_writer RelayConcrete.sink_wire
  ClientConcrete.order.

(** A table that has room for the row 4, and whose rows can be updated. *)
#[export] Instance rows : @TunnelDb PlayersConcrete.users :=
  @Build_TunnelDb PlayersConcrete.users
  (λ _, Ok [])
  (λ id (d : list u32 * list user_Model),
     Ok (if decide (id ∈ fst d) then Some (TunnelsConcrete.tunnel id 0 "0.0.0.0:1") else None))
  (λ _ (d : list u32 * list user_Model), if decide (4 ∈ fst d) then (Err "full", d) else (Ok 4, (4 :: fst d, snd d)))
  (λ id (d : list u32 * list user_Model),
    (Ok (if decide (id ∈ fst d) then 1 else 0), (base.filter (λ x, x ≠ id) (fst d), snd d)))
  (λ _ d, (Ok tt, d)).
#[export] Instance rows_ok : @TunnelDbOk PlayersConcrete.users rows.
Proof.
  refine (@Build_TunnelDbOk PlayersConcrete.users rows
    (λ (x : u32) (d : list u32 * list user_Model), x ∈ fst d) _ _ _ _).
  - intros t d. cbn. case_decide; [done|]. split; [done|]. split; [done|]. split; [left|by right].
  - intros id d. cbn. intros x Hx Hd. apply list_elem_of_filter. split; [|done].
    intros ->. rewrite decide_True in Hx by done. by destruct Hx.
  - intros id d. exact I.
  - intros t d x Hx. exact Hx.
Defined.
#[export] Instance peer_os : PeerOs := {|
  illegal_traffic_forward := "";
  forward_connect := λ _, Err "refused";
  forward_write := λ _ _, Ok tt;
  http_date := "Thu, 01 Jan 1970 00:00:00 GMT";
  utc_now := 0;
  from_entropy := (1 : rng (Rng := Concrete.rand))
|}.

(** Player 7 is away; tunnel 1 listens at player 8, tunnel 3 at player 7. A new
    connection has the writer 1. *)
Definition rows_before : list tunnel_Model :=
  [TunnelsConcrete.tunnel 1 8 "0.0.0.0:8001"; TunnelsConcrete.tunnel 3 7 "0.0.0.0:8001"].
Definition before : world := {|
  w_env := Env ∅ {[1 := Chan true []]} ∅ chan_new 20;
  w_players := {[10 := player_new 7; 11 := player_new 8]};
  w_player_list := [10; 11]; w_player_map := {[7 := 10; 8 := 11]};
  w_tunnels := rows_before; w_outlets := ∅; w_inlets := ∅;
  w_db := (([1; 3], [user 7 "user"; user 8 "bob"]) : list u32 * list user_Model)
|}.
Definition connection : Peer :=
  {| pr_tx := Some 1; pr_player := None; pr_session_id := 300; traffic_forward_writer := None |}.

(** A tunnel is added, one comes to the player, one leaves it, one is deleted. *)
Definition changes : list manager_call :=
  [AddTunnel (TunnelsConcrete.tunnel 0 7 "0.0.0.0:8003");
   UpdateTunnel (TunnelsConcrete.tunnel 1 7 "0.0.0.0:8004");
   UpdateTunnel (TunnelsConcrete.tunnel 3 8 "0.0.0.0:8005"); DeleteTunnel 1].
Definition the_client : client :=
  new_client (H := NetConcrete.sink_writer) ([] : bytes) "user" "pw".

Lemma before_ok : server_ok before.
Proof.
  split.
  - split; [split; [|split]|].
    + apply (bool_decide_unpack _). vm_compute. exact I.
    + apply (bool_decide_unpack _). vm_compute. exact I.
    + apply (bool_decide_unpack _). vm_compute. exact I.
    + intros t Ht. change (tm_id t ∈ [1; 3]). apply (list_elem_of_fmap_2 tm_id) in Ht. exact Ht.
  - intros id h Hm. unfold before in Hm. cbn [w_player_map] in Hm.
    apply lookup_insert_Some in Hm as [[<- <-]|[_ Hm]]; [by eexists|].
    apply lookup_singleton_Some in Hm as [<- <-]. by eexists.
  - intros h Hh. unfold before in Hh. cbn [w_player_list] in Hh.
    apply elem_of_cons in Hh as [->|Hh%list_elem_of_singleton]; [by eexists|]. subst h. by eexists.
  - intros h [pl Hh]. unfold before in Hh |- *. cbn [w_players w_env next_handle] in *.
    apply lookup_insert_Some in Hh as [[<- _]|[_ Hh]]; [lia|].
    apply lookup_singleton_Some in Hh as [<- _]. lia.
Qed.

Lemma before_fresh : fresh_writer 1 before.
Proof.
  split; [by exists []|]. intros h pl Hh. unfold before in Hh. cbn [w_players] in Hh.
  apply lookup_insert_Some in Hh as [[_ <-]|[_ Hh]]; [done|].
  by apply lookup_singleton_Some in Hh as [_ <-].
Qed.

(** Sizes, bounded by the bits of what is encoded. *)
Definition notice_bits (n : notice) : Z :=
  Z.pos (Pos.size (ProstConcrete.number {| mt_is_delete := n.1; mt_tunnel := Some (tunnel_of_model n.2) |})).

Lemma fits (n : notice) :
  message_ok (notice_message n) → (8 + notice_bits n <? CLIENT_MAX) = true → notice_ok n.
Proof.
  intros Hok Hl. split; [done|]. apply Z.ltb_lt in Hl. eapply Z.le_lt_trans; [|exact Hl].
  unfold notice_body, message_body, notice_message. cbn [encode_message]. rewrite body_of_len.
  apply Z.add_le_mono_l. exact (ProstConcrete.to_bytes_len _).
Qed.

Definition ack_bits (p : PlayerId) (w : @world PlayersConcrete.users) : Z :=
  match login_ack p w with ServerClientLoginAck a => Z.pos (Pos.size (ProstConcrete.number a)) | _ => 0 end.
Lemma ack_fits p (w : @world PlayersConcrete.users) :
  (8 + ack_bits p w <? CLIENT_MAX) = true → len (ack_body p w) < CLIENT_MAX.
Proof.
  intros Hl. apply Z.ltb_lt in Hl. eapply Z.le_lt_trans; [|exact Hl].
  unfold ack_body, message_body, ack_bits, login_ack. cbn [encode_message]. rewrite body_of_len.
  apply Z.add_le_mono_l. exact (ProstConcrete.to_bytes_len _).
Qed.

Lemma row_typed del id receiver source :
  in_u32 id → in_u32 receiver → str_ok source →
  message_ok (notice_message (del, TunnelsConcrete.tunnel id receiver source)).
Proof.
  intros Hi Hr Hs. repeat split; cbn; try done; try (apply Hi || apply Hr); try lia;
    try (by apply map_Forall_empty).
Qed.
End FollowConcrete.

Section FollowWitness.
Import FollowConcrete.
#[local] Existing Instances Concrete.rand ProstConcrete.prost PlayersConcrete.users
  TunnelsConcrete.json TunnelsConcrete.unicode ClientConcrete.order.
Abbreviation SW := NetConcrete.sink_writer.
Abbreviation BW := (NetConcrete.buf_writer 8192).
Abbreviation OS := TunnelsConcrete.os.

Ltac small := intros [];
  (apply fits; [apply row_typed; first [by unfold in_u32; lia|done]|vm_compute; reflexivity]).

Lemma client_follows_server_witness : ∃ request wr1 w1 answers wr2 stream,
  send_login the_client = (Ok tt, set_writer wr1 the_client) ∧ wr1 = request ∧
  (∀ ps, pieces ps request →
    poll_read peer_try_extract_frame peer_on_recv_frame (Err "closed") (Bytes <$> ps) []
      (PeerD connection before []) =
      (Ok [], PeerD (upd_player (Some 10) connection) w1 [])) ∧
  w_tunnels w1 = rows_before ∧
  writer_queue 1 (w_env (manager_run (H2 := OS) changes w1)) = answers ∧
  (∃ log, poll_write answers (Pw (H := BW) ([], []) []) = (Ok (Continue, []), Pw wr2 log) ∧
    @delivered _ (NetConcrete.buf_buffer 8192) wr2 = stream) ∧
  (∀ ps, pieces ps stream → ∃ c', run (H1 := OS) (Bytes <$> ps) (set_writer wr1 the_client) = (Ok tt, c') ∧
    c_player_id c' = 7 ∧
    c_tunnels c' = player_table 7 (w_tunnels (manager_run (H2 := OS) changes w1)) ∧
    ends_run (H2 := OS) c').
Proof.
  apply (client_follows_server SW BW RelayConcrete.sink_wire (NetConcrete.buf_buffer 8192) OS OS
    the_client connection before [] (PlayersConcrete.user 7 "user") 10 (player_new 7) 1 changes
    (Err "closed") ([], [])).
  - exact TunnelsConcrete.os_binds.
  - exact TunnelsConcrete.os_binds.
  - exact before_ok.
  - exact before_fresh.
  - reflexivity.
  - repeat split; done.
  - apply Z.ltb_lt. vm_compute. reflexivity.
  - reflexivity.
  - discriminate.
  - reflexivity.
  - reflexivity.
  - reflexivity.
  - reflexivity.
  - reflexivity.
  - repeat constructor; cbn; try done; try lia; by apply map_Forall_empty.
  - apply ack_fits. vm_compute. reflexivity.
  - repeat apply Forall_cons_2; [small|small|apply Forall_nil_2].
  - repeat constructor.
  - apply Forall_cons_2.
    { intros d id d'. cbn. case_decide; [done|]. intros [= <- _]. small. }
    repeat apply Forall_cons_2; [small|small|exact I|apply Forall_nil_2].
  - apply NetConcrete.buf_accepts.
  - reflexivity.
Defined.
End FollowWitness.
