(* ===== verification/Announce.v ===== *)
(** From the management interface to the players' clients: what is asked for on
    the web page ([np_server/src/web/mod.rs]) is what the list shows and what
    the clients at both ends of the tunnel are sent
    ([np_server/src/global/manager/tunnel.rs], [broadcast_tunnel_info]). *)

From S2P Require Import Prelude Std Extern Net Proxy Inlet Messages Bridge Framing Ends Client.
From S2P Require Import Str Server Tunnels Players Peer Streams Relay Follow Web.

(** ** What an addition queues *)

Section Queues.
Context `{Prost} `{Json} `{Unicode} `{InletOs} `{TunnelDb} `{!TunnelDbOk}.

(** An addition that succeeds is the insertion and what applies it. *)
Lemma add_tunnel_run t w w' :
  binds_answer → players_ok w → add_tunnel t w = (Ok tt, w') →
  ∃ id d e os ins, insert_tunnel t (w_db w) = (Ok id, d) ∧
    add_apply (with_id id t) (set_db d w) = (Ok tt, w') ∧
    w' = with_ends os ins (set_world_tunnels (λ ts, ts ++ [with_id id t]) (set_env e (set_db d w))).
Proof.
  intros Hb Hpl. unfold add_tunnel.
  destruct (detection_eq t w) as [e E]. unfold mbind at 1, M_bind at 1. rewrite E.
  destruct (acceptable w t); [|done]. unfold mbind at 1, M_bind at 1. unfold db_exec.
  destruct (insert_tunnel t (w_db w)) as [[id| | |] d']; [|done..]. intros Erun.
  destruct (add_apply_run (with_id id t) (set_db d' w) Hb Hpl) as (e' & os & ins & E').
  exists id, d', e', os, ins. split; [done|]. split; [done|]. rewrite Erun in E'. by injection E'.
Qed.

(** The notice of a new tunnel, for whoever has an end of it. *)
Lemma add_tunnel_queues p tx t w w' ts :
  p ≠ 0 → binds_answer → listens p tx w → add_tunnel t w = (Ok tt, w') →
  w_tunnels w' = w_tunnels w ++ [ts] → (has_end p ts = true → notice_ok (false, ts)) →
  writer_queue tx (w_env w') =
    writer_queue tx (w_env w) ++ queue_of (if has_end p ts then [(false, ts)] else []).
Proof.
  intros Hp Hb Hl Erun Hts Hok.
  destruct (add_tunnel_run t w w' Hb (ls_players _ _ _ Hl) Erun)
    as (id & d' & e' & os & ins & _ & Eapply & ->). clear Erun.
  assert (w_tunnels w ++ [with_id id t] = w_tunnels w ++ [ts]) as Ets by exact Hts.
  apply app_inv_head in Ets as [= <-].
  destruct (queues_edit_sync p tx _ _ (λ ts, ts ++ [with_id id t]) (set_db d' w) Hb
    (queues_to_ends p tx Hp (with_id id t) false Hok) (listens_db p tx d' w Hl)) as (w2 & E2 & _ & _ & Q).
  fold (add_apply (with_id id t)) in E2. rewrite Eapply in E2. injection E2 as <-. exact Q.
Qed.
End Queues.

(** ** Properties *)

Section AnnounceProperties.
Context `{Rng} `{Prost} `{Json} `{Unicode} `{InletOs} `{UserDb} `{!TunnelDb} `{!UserAdmin}
  `{!UserPages} `{!MappingJson} `{Md5} `{WebConfig}.
Context `{!FromJson LoginReq} `{!FromJson PlayerListRequest} `{!FromJson PlayerRemoveReq}
  `{!FromJson PlayerAddReq} `{!FromJson PlayerUpdateReq} `{!FromJson TunnelRemoveReq}
  `{!FromJson TunnelAddReq} `{!FromJson TunnelUpdateReq}.
Context `{!TunnelDbOk} `{!UsersOk} `{!PagesAnswer}.
Context `{!JsonAnswers LoginReq} `{!JsonAnswers PlayerListRequest} `{!JsonAnswers PlayerRemoveReq}
  `{!JsonAnswers PlayerAddReq} `{!JsonAnswers PlayerUpdateReq} `{!JsonAnswers TunnelRemoveReq}
  `{!JsonAnswers TunnelAddReq} `{!JsonAnswers TunnelUpdateReq}.
Implicit Types (r : request) (s : web).

Lemma web_adds s r req s' :
  binds_answer → server_ok (wb_world s) →
  authorised "/api/add_tunnel" r → from_json (rq_body r) = Ok req →
  run_http_server r s = (Ok (general 0 "Success"), s') →
  ∃ id d, insert_tunnel (new_tunnel req) (w_db (wb_world s)) = (Ok id, d) ∧
    add_tunnel (new_tunnel req) (wb_world s) = (Ok tt, wb_world s') ∧
    w_tunnels (wb_world s') = w_tunnels (wb_world s) ++ [with_id id (new_tunnel req)].
Proof.
  intros Hb Hs (Hpath & Hpost & Ha) Hreq Hrun.
  rewrite (run_posted _ web_add_tunnel r Hpath Hpost) in Hrun by reflexivity.
  unfold web_add_tunnel in Hrun. rewrite Ha in Hrun.
  unfold lift at 1, mbind at 1, M_bind at 1 in Hrun. rewrite Hreq in Hrun.
  unfold answer_call, in_world in Hrun.
  destruct (add_tunnel (new_tunnel req) (wb_world s)) as [[[]|e| |] w'] eqn:E; [|done..].
  injection Hrun as <-. cbn [wb_world].
  destruct (add_tunnel_run _ _ _ Hb (server_players_ok _ Hs) E) as (id & d & e & os & ins & Hi & _ & ->).
  by exists id, d.
Qed.

(** What a client at an end of the tunnel is sent. *)
Definition announcement (id : u32) (req : TunnelAddReq) : MessageType :=
  ServerClientModifyTunnelNtf {| mt_is_delete := false; mt_tunnel := Some (announced id req) |}.

(** It is typed and fits a frame. *)
Definition announceable (id : u32) (req : TunnelAddReq) : Prop :=
  message_ok (announcement id req) ∧ len (message_body 0 (announcement id req)) < CLIENT_MAX.

(** C26: What is asked for is what is listed and announced. A tunnel that is
    added over the web is in the table under a fresh id; the list shows it, on
    the page its place falls on, counted from 0, with every field as it was
    asked for, custom mapping included; and the connection of every player that
    is the tunnel's sender or receiver is queued, once, a notice with the same
    fields, where it fits a frame, and that of every other player nothing. *)
Theorem web_tunnel_roundtrip s r req s' :
  binds_answer → server_ok (wb_world s) → authorised "/api/add_tunnel" r →
  from_json (rq_body r) = Ok req → is_ok (mapping_to_str (tar_custom_mapping req)) = true →
  run_http_server r s = (Ok (general 0 "Success"), s') →
  ∃ id t, (id ∉ (tm_id <$> w_tunnels (wb_world s))) ∧
    w_tunnels (wb_world s') = w_tunnels (wb_world s) ++ [t] ∧ tunnel_of_model t = announced id req ∧
    (∀ p tx, p ≠ 0 → listens p tx (wb_world s) → announceable id req →
      writer_queue tx (w_env (wb_world s')) = writer_queue tx (w_env (wb_world s)) ++
        (if (tar_sender req =? p) || (tar_receiver req =? p)
         then [Send (frame_of (message_body 0 (announcement id req))) true] else [])) ∧
    ∀ r' size k, authorised "/api/tunnel_list" r' →
      from_json (rq_body r') = Ok {| lq_page_number := Z.of_nat k; lq_page_size := size |} →
      0 < size <= 100 → (Z.of_nat k + 1) * size < 18446744073709551616 →
      Z.of_nat k * size <= len (w_tunnels (wb_world s)) < (Z.of_nat k + 1) * size →
      ∃ before, run_http_server r' s' = (Ok (TunnelList {|
          ts_tunnels := before ++ [Web.listed id req]; ts_cur_page_number := Z.of_nat k;
          ts_total_count := len (w_tunnels (wb_world s)) + 1 |}), s').
Proof.
  intros Hb Hs Hr Hreq Hmap Hrun.
  destruct (web_tunnel_listed s r req s' Hb Hs Hr Hreq Hmap Hrun) as (id & t & Hid & Hts & Ht & Hpage).
  exists id, t. split; [done|]. split; [done|]. split; [done|]. split; [|exact Hpage].
  intros p tx Hp Hl [Hok Hlen].
  destruct (web_adds s r req s' Hb Hs Hr Hreq Hrun) as (_ & _ & _ & E & _).
  assert (notice_message (false, t) = announcement id req) as Em by (unfold notice_message; cbn; by rewrite Ht).
  rewrite (add_tunnel_queues p tx (new_tunnel req) (wb_world s) (wb_world s') t Hp Hb Hl E Hts).
  2:{ intros _. unfold notice_ok, notice_body. by rewrite Em. }
  assert (tm_sender t = tar_sender req ∧ tm_receiver t = tar_receiver req) as [Esnd Ercv].
  { by split; [apply (f_equal tn_sender) in Ht|apply (f_equal tn_receiver) in Ht]. }
  unfold has_end. rewrite Esnd, Ercv, orb_comm.
  unfold queue_of, notice_body. destruct (_ || _); [|done]. cbn [fmap list_fmap]. by rewrite Em.
Qed.
End AnnounceProperties.

(** ** Witness *)

Module AnnounceConcrete.
Import WebConcrete.

(** A tunnel from the server to player 7, who is connected. *)
Definition asked7 : TunnelAddReq := {|
  tar_source := "0.0.0.0:8005"; tar_endpoint := "10.0.0.9:80"; tar_enabled := 1; tar_sender := 0;
  tar_receiver := 7; tar_description := "web"; tar_tunnel_type := 0; tar_password := "";
  tar_username := ""; tar_is_compressed := 0; tar_encryption_method := "None";
  tar_custom_mapping := ∅ |}.
#[export] Instance asked7_json : FromJson TunnelAddReq := body "tunnel" asked7.

Lemma start_listens : listens 7 1 PlayersConcrete.start.
Proof.
  split.
  - by exists [].
  - by exists 10, {| p_tx := Some 1; p_player_id := 7; p_session_id := 100 |}.
  - intros q h pl Hq Hm Hpl E. unfold PlayersConcrete.start in Hm, Hpl. cbn [w_player_map w_players] in *.
    apply lookup_insert_Some in Hm as [[<- _]|[_ Hm]]; [done|].
    apply lookup_singleton_Some in Hm as [<- <-].
    rewrite lookup_insert_ne, lookup_singleton_eq in Hpl by done. by injection Hpl as <-.
  - pose proof PlayersConcrete.players_start_ok as Hs. by eapply server_players_ok in Hs.
Qed.

#[local] Existing Instance ProstConcrete.prost.
Lemma asked7_announceable : announceable 4 asked7.
Proof.
  split.
  - repeat split; cbn; try done; try lia; by apply map_Forall_empty.
  - assert ((8 + Z.pos (Pos.size (ProstConcrete.number
      {| mt_is_delete := false; mt_tunnel := Some (announced 4 asked7) |})) <? CLIENT_MAX) = true) as Hl
      by (vm_compute; reflexivity).
    apply Z.ltb_lt in Hl. eapply Z.le_lt_trans; [|exact Hl].
    unfold message_body, announcement. cbn [encode_message]. rewrite body_of_len.
    apply Z.add_le_mono_l. exact (ProstConcrete.to_bytes_len _).
Qed.
End AnnounceConcrete.

Section AnnounceWitness.
Import PlayersConcrete WebConcrete AnnounceConcrete.
#[local] Existing Instances ProstConcrete.prost TunnelsConcrete.unicode TunnelsConcrete.os
  Concrete.rand PlayersConcrete.users PlayersConcrete.rows admin PlayersConcrete.rows_ok users_ok config
  md5 json mapping_json pages
  login_json list_json remove_json add_json update_json tunnel_remove_json asked7_json
  tunnel_update_json pages_answer.
#[local] Instance ann_login : JsonAnswers LoginReq := body_answers _ _.
#[local] Instance ann_list : JsonAnswers PlayerListRequest := body_answers _ _.
#[local] Instance ann_remove : JsonAnswers PlayerRemoveReq := body_answers _ _.
#[local] Instance ann_add : JsonAnswers PlayerAddReq := body_answers _ _.
#[local] Instance ann_update : JsonAnswers PlayerUpdateReq := body_answers _ _.
#[local] Instance ann_tunnel_remove : JsonAnswers TunnelRemoveReq := body_answers _ _.
#[local] Instance ann_tunnel_add : JsonAnswers TunnelAddReq := body_answers _ _.
#[local] Instance ann_tunnel_update : JsonAnswers TunnelUpdateReq := body_answers _ _.

Lemma add_runs :
  run_http_server add after_login = (Ok (general 0 "Success"), snd (run_http_server add after_login)).
Proof. rewrite (surjective_pairing (run_http_server add after_login)) at 1. f_equal. Qed.
Lemma added_row (t : tunnel_Model) :
  w_tunnels (wb_world (snd (run_http_server add after_login))) = w_tunnels PlayersConcrete.start ++ [t] →
  tm_id t = 4.
Proof.
  intros Hts. destruct (web_adds after_login add asked7 _ TunnelsConcrete.os_binds players_start_ok (conj eq_refl (conj eq_refl eq_refl)) eq_refl add_runs)
    as (id & d & Hi & _ & E).
  change (wb_world after_login) with PlayersConcrete.start in *. rewrite Hts in E.
  apply app_inv_head in E as [= ->]. vm_compute in Hi. by injection Hi as <- _.
Qed.

Lemma web_tunnel_roundtrip_witness :
  let s' := snd (run_http_server add after_login) in ∃ t,
  w_tunnels (wb_world s') = w_tunnels PlayersConcrete.start ++ [t] ∧
  tunnel_of_model t = announced 4 asked7 ∧
  writer_queue 1 (w_env (wb_world s')) =
     [Send (frame_of (message_body 0 (announcement 4 asked7))) true] ∧
  ∃ before, run_http_server listed_page s' =
    (Ok (TunnelList {| ts_tunnels := before ++ [Web.listed 4 asked7]; ts_cur_page_number := 0;
                       ts_total_count := 4 |}), s').
Proof.
  intros s'. destruct (web_tunnel_roundtrip after_login add asked7 s') as (id & t & Hid & Hts & Ht & Hq & Hl).
  - exact TunnelsConcrete.os_binds.
  - exact players_start_ok.
  - by repeat split.
  - reflexivity.
  - reflexivity.
  - exact add_runs.
  - assert (id = 4) as ->.
    { apply (f_equal tn_id) in Ht. change (tm_id t = id) in Ht. rewrite <- Ht. by apply added_row. }
    exists t. split; [exact Hts|]. split; [exact Ht|].
    split; [exact (Hq 7 1 ltac:(discriminate) start_listens asked7_announceable)|].
    apply (Hl listed_page 10 0%nat); [by repeat split|reflexivity|lia|lia|vm_compute; split; [discriminate|reflexivity]].
Defined.
End AnnounceWitness.
